(* ===== verification/_CoqProject ===== *)
-Q . S2P
Prelude.v
PyString.v
Effects.v
PyVal.v
Config.v
Profile.v
Common.v
Protocol.v
CnInterface.v
Programmers.v
ExternalProcess.v
SerialExpect.v
NodeConnection.v
PyRegex.v
LinuxInterface.v
Measures.v
FtdiCheck.v
Nodes.v
NodeClasses.v
BoardConfig.v
Interfaces.v
NodeExample.v
Autotest.v
OpenNodes.v
ControlNodes.v
AutotestProofs.v
GatewayManager.v
Gateway.v
Cli.v
Tools.v
RestServer.v
CFormat.v
CnCommands.v
CnPackets.v
CnMeasures.v
CnShared.v
CnLines.v
CnProgram.v
CnMain.v
CnRoundtrip.v
CnConfig.v
CnProfile.v
CnExperiment.v
CnSniffer.v
BootMonitor.v
