(* ===== verification/Prelude.v ===== *)
(** * IoT-LAB gateway: a verification development

    The gateway ([src/gateway_code], Python) is the server of one node of the
    IoT-LAB testbed.  It drives an open node, the board the users program, and a
    control node, which powers the open node and measures it; a scheduler calls its
    REST interface to start and stop experiments.  The gateway speaks to the control
    node through a program in C ([src/control_node_serial]) that it runs as a child: it
    turns command lines into packets of a serial link, and packets into lines of text.
    This development translates the own logic of both to executable definitions and
    proves what makes each part correct, and what their composition does.

    ** How the code is translated

    - A statement is a computation of type [Effects.M St A]: it reads and writes
      the state [St] of its object, appends the requests it makes to a trace, and
      ends with a value, an exception, or never ([outcome]).
    - The world (the commands run, the device files, the clock, the serial ports,
      the threads in the background, ELF files) is the class [Effects.Env]: one
      answer for each kind of request, as a function of the trace so far.  The
      theorems hold for every world; what they need of it is a named class:
      [ClockOk] (the clock runs and [sleep] sleeps), [StatusOk] (no command ends
      on a signal), [ReadClock] (a serial read takes time).  [calm_env] satisfies
      the first two and is the usual witness.
    - Exceptions are those of Python 2.7, which the deployed gateway runs:
      [IOError] and [OSError] are different subclasses of [EnvironmentError].
      Strings are byte strings; integers are [Z], as Python's do not overflow;
      times are in milliseconds.  The log messages are left out.
    - A component inside an object is reached through a lens ([Effects.zoom]), so
      each operation is translated once, on its own state.
    - In C an integer has the width of its type ([CFormat.wrap], [swrap]), memory is a
      list of bytes, static variables are the fields of a state, and an access outside a
      buffer has no result ([None]); the widths that the platform chooses are the class
      [CnMeasures.Abi].  [sscanf], [strtok], [atoi], [printf] and [getopt] are written
      out for the formats the program uses.

    ** The files

    Language and world:
    - [Prelude]: hint databases, tactics, lemmas on lists.
    - [PyString], [PyVal]: Python's strings, and the values JSON gives.
    - [Effects]: outcomes, requests, worlds, the monad, its weakest preconditions
      and the closure lemmas behind the tactics [preserve], [nonneg] and [codes].

    Services:
    - [Config] ([config.py]), [Profile] ([profile.py]), [Common] ([common.py]).
    - [Protocol] ([cn_protocol.py]), [CnInterface] ([cn_interface.py]): the
      commands to the control node, and the program that carries them, with its
      reader thread and its two queues.
    - [Programmers] ([openocd.py], [edbg.py], [avrdude.py], [cc2538.py]).
    - [ExternalProcess] ([external_process.py] and the processes built on it):
      module [Thread] has the interleaving of the thread, the process and the
      caller of [stop]; [ep_start] and [ep_stop] are what the nodes call.
    - [SerialExpect] ([serial_expect.py]), [FtdiCheck] ([ftdi_check.py]).
    - [NodeConnection] ([node_connection.py]): the line protocol with the autotest
      firmware, over the TCP port of the serial redirection.
    - [PyRegex], [LinuxInterface] ([open_linux_interface.py]): the patterns of the
      code, and the serial and SSH connection to a Linux node.
    - [Measures] (the end of [autotest.py]): the measure lines, on double-precision
      floats, and the search in their timestamps.

    Nodes:
    - [Nodes] ([nodes.py], [elftarget.py]): classes as values, the registry, the
      checks of a class and of a firmware.
    - [NodeClasses]: the classes of [open_nodes/] and [control_nodes/], one value
      each, and the registry they make.
    - [BoardConfig] ([board_config.py]): the configuration of one gateway.
    - [Interfaces]: the operations of an open node and of a control node and their
      laws, as type classes; the manager is written and proved against them.
    - [OpenNodes], [ControlNodes]: the instances, a module per family of nodes.
    - [NodeExample] ([doc/node_example.py]): the template of an open node that the
      developers' guide gives.

    Autotests:
    - [Autotest] ([autotest.py]): every test, their setup and teardown, and the
      report, for any instances of the interfaces of the nodes; each method is a
      definition with its name.  [at_mark] is the number of lines the control node
      had sent when [cn_measures] was last emptied.
    - [AutotestProofs]: what a test leaves in the report ([logs]), and the properties.

    Server:
    - [GatewayManager] ([gateway_manager.py]): the experiments.
    - [Gateway]: a gateway built from its configuration.  [AnyOpen] and [AnyControl]
      are the instances of the classes of the repository, with the operations of
      their family and the laws of the interfaces; [gateway_init] is the constructor
      of the manager, [server_manager] what [_main] of the server does before it
      listens.
    - [Cli] ([utils/cli/]): the commands that reset, flash and debug a node, and the
      programs that run a process until Ctrl+C.
    - [RestServer] ([rest_server.py]): the requests.
    - [Tools] ([setup.py], [send_commands.py]): the commands that install and configure a
      gateway, and the script that feeds a file to the serial program.
    - [BootMonitor] ([node_a8.py], [node_rpi3.py]): the threads that watch the boot of a
      Linux node, with the setup and the teardown of the manager, as interleaved steps.

    Control node serial program:
    - [CFormat]: integers, strings and formats of C.
    - [CnCommands] ([command_reader.c], [command_parser.c], [utils.c], [constants.h]):
      from a command line to a packet.
    - [CnPackets] ([serial.c]): from the bytes of the reads to packets, with the machine
      that takes one byte at a time as reference.
    - [CnMeasures] ([decode.c], [measures_handler.c], [oml_measures.c], [time_ref.c]):
      from a packet to the lines printed and the OML calls.
    - [CnShared]: the two threads and the reference time they share.
    - [CnLines], [CnProgram]: what the reader of the gateway makes of these lines, and a
      command with its answer.
    - [CnMain] ([main.c]): the options, the tty, OML, and the start seen by the gateway.
    - [CnRoundtrip]: from measures in packets to the measures of the autotests.
    - [CnConfig], [CnProfile]: from a profile to the packets of its configuration.
    - [CnExperiment]: from a request that starts an experiment to its packets; the class
      [IotlabLike] is what the manager needs of a control node to drive an IoT-LAB one.
    - [CnSniffer] ([sniffer_server.c]): its three threads as interleaved steps.

    ** What is proved

    - The manager implements a specification with one variable, the running
      experiment ([manager_refines]), for any nodes, any threads and any world; what
      start, stop and the timer do on each branch ([start_success], [start_refused],
      [start_restarts], [exp_stop_correct], [timer_correct]), with the exact sequence of
      the requests of a stop; the lock ([synchronous_correct]).
    - The server runs one operation of the manager for each request, and carries its
      invariant and its specification ([rest_correct], [rest_safe], [busy_is_503]);
      which routes a board has ([routes_fit]), which arguments are accepted
      ([auto_tests_args_correct]).
    - The autotests: a report with code 0 has every expected test among its
      successes ([auto_tests_zero]); the measures read are those sent
      ([extract_measures_correct]), and the one looked at for a led is the first one
      after it ([led_values_first_after]); how one command to a node ends, for each
      answer of the network ([send_one_command_correct]), and one to a Linux node
      ([get_ip_addr_correct]).
    - The construction of a gateway ends, with nodes of the classes the files name when
      they are read ([configured]) and an idle manager, or with an exception and its
      cause ([misconfigured]) ([gateway_init_correct], [server_manager_ready]); so the
      properties of the manager and of the server hold for every board of the
      repository.
    - The commands of the shell: what [flash] returns and prints in each case
      ([cli_flash_correct]), no debugger and no redirection left after Ctrl+C, for the
      node that the configuration selects ([cli_debug_stops], [serial_redirection_stops]).
    - Profiles are well formed when they are accepted ([from_dict_wf],
      [radio_accepts_iff]), errors included ([from_dict_exceptions]); the commands
      sent for them carry them faithfully ([configure_profile_run],
      [consumption_cmd_correct], [channels_field_roundtrip],
      [set_node_id_roundtrip], [open_power_state]).
    - The control node's queues are bounded, an answer is one that the reader handled
      after the queue was emptied for its command, and how a start ends
      ([queues_bounded], [send_command_fresh], [cs_start_outcome]).
    - From the HTTP request to the control node, for every board with an IoT-LAB control
      node of the class [ControlNodeIotlab]: when a start is answered 0, no command being
      ended by a signal and the profile being one on which the two programs agree
      ([agreed]), the conversation with the serial program at its end is the one the
      profile asks for, every line of it was acknowledged, and its packets say what the
      profile says ([experiment_reaches_node]).
    - From one end of the serial link to the other: a command of the gateway has status 0
      exactly when the control node answers [ACK], whatever measures and
      acknowledgements come with the answer and however the reads cut them
      ([command_status]); the measures sent by the control node are those the autotests
      read, for times before 2038 ([measures_roundtrip]); a profile on which the two
      programs agree reaches the control node as it is ([profile_reaches_node]), and
      some that the gateway accepts are refused ([refused_profiles]); the program reads the
      command line the gateway gives it, and how the start ends ([serial_start]).
    - The serial program alone: a line sends one packet, of at most nine bytes, only when
      the dictionaries give a meaning to its command and to each of its words, and the
      bytes are this meaning ([encodes], [read_command_packet]); the packets do not
      depend on the reads
      ([parse_rx_correct]); no line it prints kills the reader of the gateway
      ([reader_outlives]); the time of [set_time] across its two threads
      ([set_time_elapsed]); the sniffer without a lock ([sniffer_served]).
    - The threads of the boot monitor end once the node is stopped, and none finds the
      prompt any more ([boot_monitor_ends]).
    - The registry and the configuration find the classes they should
      ([open_node_class_correct], [open_node_class_outcomes],
      [board_config_success], [board_config_outcomes]).
    - The template of an open node is refused as it is, and what makes it accepted
      ([template_refused]); every class of the repository can be instantiated
      ([open_classes_concrete]).
    - The configuration of a system is complete when it returns
      ([post_install_complete]); the build exits with the code of make
      ([build_ext_exits]); the lines of a file of commands are printed in order
      ([send_commands_lines]).
    - Programming: only firmwares made for a node, open or control, reach it
      ([node_flash_checks_target]), the command lines ([openocd_flash_correct]), one
      OpenOCD at a time ([openocd_debug_exclusive]), the life cycle of the nodes
      ([openocd_node_lifecycle], [openocd_setup_zero], [unsupported_flash_refused]).
    - Loops end: the polling ([wait_cond_correct]), the stop of a background process
      under any fair schedule ([external_stop_terminates], [stop_escalates]), the
      search on a serial link ([expect_literal_correct]), the GPS test
      ([gps_test_ends]), the LoRa forwarder ([lora_start_bounded]).
    - Behaviours that the code has and does not mean to have: [setup_masks_failures],
      [flash_blocks_setup], the lost timer of [timer_correct], the waiting start of
      [cs_start_outcome], the type [rpi3] of [open_node_class_outcomes], the autotests
      that end on an exception when a setup fails ([fatal_setup_escapes],
      [failed_connection_escapes]), the radio test without measures ([rssi_verdict]),
      the truncated address of a Linux node ([ip_addr_cut]), the byte too many of the
      sniffer ([sniffer_frame_sent]), its connections that stay open ([sniffer_served]),
      the late answer taken for that of the next command ([send_command_late_answer]),
      the boot monitor that closes the connection of another ([interference]).

    ** Interleavings

    The threads are steps of a relation, or moments at which a thread can run, where the
    code makes them meet: the stop of a process and its thread ([ExternalProcess]), the
    boot monitor ([BootMonitor]), the sniffer ([CnSniffer]), the two threads of the serial
    program ([CnShared]), the manager's lock, which makes its operations exclusive, and
    the reader of the control node's lines ([CnInterface]).  This reader runs between two
    calls ([reader_step]), while [start] and [send_command] wait ([env_reader]), and
    between the emptying of the queue and the write in [send_command_at]; the operations
    above call [send_command], where it handles no line there, since
    [send_command_fresh] shows that the answer only depends on the sequence of all the
    lines since the emptying.

    ** Fuel

    [Common.wait_cond] takes its fuel from the timeout: a turn sleeps 100 ms, so
    [wait_fuel] turns are enough when the clock runs, and [wait_cond_correct] shows
    that the loop is never cut.  [Thread.stop] and [SerialExpect.expect] take a fuel
    as argument, and their theorems give the value from which the result is
    reached.  [Autotest.pps_loop] takes its fuel from its timeout, a turn lasting five
    seconds, and [gps_test_ends] shows that it is enough.  Two loops have no bound in
    the code: the emptying of a connection ([conn_empty]) and the wait for the prompt
    of a Linux node; they take the number of turns the world allows,
    [env_patience].  A loop cut by its fuel is [Hang], never a value.  The packet parser
    takes [2 * n + 2] turns for a read of [n] bytes: a turn takes a byte or ends an empty
    packet, and [parse_rx_correct] shows that no byte is left.

    ** What is not modelled

    [argparse] is not: the options of a command are arguments of its definition, and
    a signal is only received in [signal.pause].  The format and the rotation of the
    log files, the choice of the subprocess library ([subprocess_timeout.py]), the
    tests, and the scripts that deploy and draw are left out.  Of [setup.py], the call
    of [setup] is a description, and [install.run] and the evaluation of the version are
    parameters of the definitions that use them.  Of the serial
    program, the OML library and its generated bindings, the creation of threads and of
    the socket of the sniffer, and the errors of [read] and [write] are not.
    [bottle], which matches routes and parses requests, is not modelled: a request is
    what it gives to a handler, and [json.loads] is a parameter there. *)

From stdpp Require Export base gmap strings list.
From Stdlib Require Export ZArith Lia.
From Stdlib Require Export Ascii.

#[global] Open Scope stdpp_scope.

(** ** Hint databases

    [py] closes facts on Python values and strings, [preserve] the closure of
    state invariants under the effect combinators, [nonneg] the sign of the
    status codes the node operations return, [lockless] the statements of the
    manager that do not look at its lock. *)
Create HintDb py.
Create HintDb preserve discriminated.
Create HintDb nonneg discriminated.
Create HintDb lockless discriminated.
#[export] Hint Constants Opaque : preserve nonneg lockless.

(** ** Tactics *)

(** Case analysis on every [match] of the goal or of a hypothesis, with the
    impossible branches closed. *)
Ltac dmatches := repeat (case_match; simplify_eq/=).

(** Boolean tests of the code turned into the propositions they decide. *)
Ltac bool_hyps :=
  repeat match goal with
  | H : _ && _ = true |- _ => apply andb_true_iff in H as [? ?]
  | H : _ || _ = false |- _ => apply orb_false_iff in H as [? ?]
  | H : negb _ = true |- _ => apply negb_true_iff in H
  | H : negb _ = false |- _ => apply negb_false_iff in H
  | H : bool_decide _ = true |- _ => apply bool_decide_eq_true in H
  | H : bool_decide _ = false |- _ => apply bool_decide_eq_false in H
  | H : (_ =? _)%Z = true |- _ => apply Z.eqb_eq in H
  | H : (_ =? _)%Z = false |- _ => apply Z.eqb_neq in H
  | H : (_ <=? _)%Z = true |- _ => apply Z.leb_le in H
  | H : (_ <=? _)%Z = false |- _ => apply Z.leb_gt in H
  | H : (_ <? _)%Z = true |- _ => apply Z.ltb_lt in H
  | H : (_ <? _)%Z = false |- _ => apply Z.ltb_ge in H
  end.

(** ** Lists *)

Section lists.
Context {A : Type}.

(** The last element of [x :: l], Python's [l[-1]] on a non-empty list. *)
Fixpoint last_def (x : A) (l : list A) : A :=
  match l with
  | [] => x
  | y :: l => last_def y l
  end.

Lemma last_def_snoc (x y : A) (l : list A) : last_def x (l ++ [y]) = y.
Proof. revert x; induction l; simpl; auto. Qed.

(** Python's [l[:-1]]. *)
Fixpoint butlast (l : list A) : list A :=
  match l with
  | [] => []
  | [_] => []
  | x :: l => x :: butlast l
  end.

Lemma butlast_snoc (l : list A) (x : A) : butlast (l ++ [x]) = l.
Proof.
  induction l as [|y l IH]; [done|].
  simpl. rewrite IH. by destruct l.
Qed.

Lemma snoc_inv (x : A) (l : list A) :
  x :: l = butlast (x :: l) ++ [last_def x l].
Proof.
  revert x; induction l as [|y l IH]; intros x; [done|].
  change (x :: y :: l = x :: (butlast (y :: l) ++ [last_def y l])).
  by rewrite <- IH.
Qed.

Lemma Forall_existsb (p : A → bool) (l : list A) :
  Forall (λ x, p x = false) l ↔ existsb p l = false.
Proof.
  induction l as [|x l IH]; simpl.
  - split; [done|constructor].
  - rewrite orb_false_iff, <- IH, Forall_cons. done.
Qed.
End lists.

(** [0 if ok else 1] *)
Definition status (ok : bool) : Z := if ok then 0%Z else 1%Z.

Lemma status_nonneg b : (0 ≤ status b)%Z.
Proof. by destruct b. Qed.

Lemma status_zero b : status b = 0%Z ↔ b = true.
Proof. by destruct b. Qed.

Lemma prefix_app_snoc {A} (l k : list A) (x : A) :
  l `prefix_of` k ++ [x] → l `prefix_of` k ∨ l = k ++ [x].
Proof.
  intros [m Hm]. destruct m as [|y m _] using rev_ind.
  - right. by rewrite app_nil_r in Hm.
  - left. exists m. rewrite (assoc_L (++)) in Hm. by apply app_inj_tail in Hm as [-> _].
Qed.

(** Python's sum of a list of status codes: non-negative codes add up to zero
    only when all of them are zero. *)
Fixpoint sumZ (l : list Z) : Z :=
  match l with
  | [] => 0
  | x :: l => x + sumZ l
  end%Z.

Lemma sumZ_nonneg l : Forall (λ r, 0 ≤ r)%Z l → (0 ≤ sumZ l)%Z.
Proof. induction 1; simpl; lia. Qed.

Lemma sumZ_zero l :
  Forall (λ r, 0 ≤ r)%Z l → sumZ l = 0%Z ↔ Forall (λ r, r = 0%Z) l.
Proof.
  induction 1 as [|x l Hx Hl IH]; simpl; [done|].
  pose proof (sumZ_nonneg l Hl). rewrite Forall_cons, <- IH. lia.
Qed.
