(* ===== verification/PyString.v ===== *)
(** * Python strings

    The operations of Python's [str] and [int] types that the gateway uses:
    [split] and [join] on a one-character separator, [replace] of one character
    by another, [lower], [strip], [isdigit], [endswith], [int] and [str] of an
    integer, with the round trips the components rely on.  Strings are the byte
    strings of Python 2. *)

From Stdlib Require Import DecimalString DecimalZ DecimalFacts Decimal.
From S2P Require Import Prelude.

(** ** Characters *)

(** The characters [str.strip] removes. *)
Definition is_space (c : Ascii.ascii) : bool :=
  existsb (Ascii.eqb c)
    ["009"; "010"; "011"; "012"; "013"; " "]%char.

Definition lower_char (c : Ascii.ascii) : Ascii.ascii :=
  let n := Ascii.nat_of_ascii c in
  if (65 <=? n)%nat && (n <=? 90)%nat then Ascii.ascii_of_nat (n + 32) else c.

Definition is_digit (c : Ascii.ascii) : bool :=
  let n := Ascii.nat_of_ascii c in (48 <=? n)%nat && (n <=? 57)%nat.

(** ** Operations *)

Fixpoint str_map (f : Ascii.ascii → Ascii.ascii) (s : string) : string :=
  match s with
  | EmptyString => EmptyString
  | String c s => String (f c) (str_map f s)
  end.

Fixpoint str_all (p : Ascii.ascii → bool) (s : string) : bool :=
  match s with
  | EmptyString => true
  | String c s => p c && str_all p s
  end.

(** [s.lower()] *)
Definition str_lower : string → string := str_map lower_char.

(** [s.replace(a, b)] for one-character [a] and [b] *)
Definition str_replace (a b : Ascii.ascii) : string → string :=
  str_map (λ c, if Ascii.eqb c a then b else c).

(** [s.isdigit()]: false on the empty string *)
Definition str_isdigit (s : string) : bool :=
  match s with
  | EmptyString => false
  | _ => str_all is_digit s
  end.

(** [s.split(sep)] for a one-character separator; never the empty list *)
Fixpoint str_split (sep : Ascii.ascii) (s : string) : list string :=
  match s with
  | EmptyString => [""]
  | String c s =>
      if Ascii.eqb c sep then "" :: str_split sep s
      else match str_split sep s with
           | [] => [String c ""]
           | w :: ws => String c w :: ws
           end
  end.

(** [sep.join(l)] *)
Fixpoint str_join (sep : string) (l : list string) : string :=
  match l with
  | [] => ""
  | [w] => w
  | w :: ws => w +:+ sep +:+ str_join sep ws
  end.

Fixpoint str_lstrip (s : string) : string :=
  match s with
  | EmptyString => EmptyString
  | String c s' => if is_space c then str_lstrip s' else s
  end.

Fixpoint str_rstrip (s : string) : string :=
  match s with
  | EmptyString => EmptyString
  | String c s =>
      match str_rstrip s with
      | EmptyString => if is_space c then EmptyString else String c EmptyString
      | s' => String c s'
      end
  end.

(** [s.strip()] *)
Definition str_strip (s : string) : string := str_rstrip (str_lstrip s).

(** [s.startswith(p)] *)
Definition str_startswith (p s : string) : bool := String.prefix p s.

(** ** Integers *)

(** [str(z)] *)
Definition str_of_Z (z : Z) : string := NilZero.string_of_int (Z.to_int z).

Definition uint_val (s : string) : option Z :=
  match NilZero.uint_of_string s with
  | Some d => Some (Z.of_uint d)
  | None => None
  end.

(** [int(s)]: blanks around the number are ignored, a sign and leading zeros are
    accepted; [None] stands for the [ValueError] *)
Definition int_of_str (s : string) : option Z :=
  match str_strip s with
  | String "+" s => uint_val s
  | String "-" s => match uint_val s with Some z => Some (- z)%Z | None => None end
  | s => uint_val s
  end.

(** ** Lemmas *)

(** No occurrence of [c] in [s]. *)
Definition no_char (c : Ascii.ascii) (s : string) : Prop :=
  str_all (λ x, negb (Ascii.eqb x c)) s = true.

#[global] Instance no_char_dec c s : Decision (no_char c s).
Proof. unfold no_char. apply _. Defined.

Lemma str_app_nil_r s : s +:+ "" = s.
Proof. induction s as [|c s IH]; [done|]. exact (f_equal (String c) IH). Qed.

Lemma str_app_assoc a b c : (a +:+ b) +:+ c = a +:+ (b +:+ c).
Proof. induction a as [|x a IH]; [done|]. exact (f_equal (String x) IH). Qed.

Lemma str_app_cons c a b : String c a +:+ b = String c (a +:+ b).
Proof. done. Qed.

Lemma str_all_app p a b : str_all p (a +:+ b) = str_all p a && str_all p b.
Proof.
  induction a as [|c a IH]; [done|].
  rewrite str_app_cons. simpl. by rewrite IH, andb_assoc.
Qed.

Lemma str_all_mono (p q : Ascii.ascii → bool) s :
  (∀ c, p c = true → q c = true) → str_all p s = true → str_all q s = true.
Proof.
  intros Hpq. induction s as [|c s IH]; simpl; [done|].
  intros [??]%andb_true_iff. rewrite Hpq, IH; done.
Qed.

Lemma str_split_nonempty sep s : str_split sep s ≠ [].
Proof. destruct s as [|c s]; simpl; [done|]. repeat case_match; done. Qed.

(** A word without the separator is one field. *)
Lemma str_split_word sep w : no_char sep w → str_split sep w = [w].
Proof.
  unfold no_char. induction w as [|c w IH]; simpl; [done|].
  intros [Hc Hw]%andb_true_iff. apply negb_true_iff in Hc.
  by rewrite Hc, IH.
Qed.

Lemma str_split_app sep w s :
  no_char sep w →
  str_split sep (w +:+ String sep s) = w :: str_split sep s.
Proof.
  unfold no_char. induction w as [|c w IH]; intros Hw.
  - change (str_split sep (String sep s) = "" :: str_split sep s).
    simpl. by rewrite Ascii.eqb_refl.
  - apply andb_true_iff in Hw as [Hc Hw]. apply negb_true_iff in Hc.
    rewrite str_app_cons. simpl. by rewrite Hc, IH.
Qed.

(** [sep.join] followed by [split(sep)] gives the fields back. *)
Lemma str_split_join sep w ws :
  Forall (no_char sep) (w :: ws) →
  str_split sep (str_join (String sep "") (w :: ws)) = w :: ws.
Proof.
  revert w; induction ws as [|w' ws IH]; intros w [Hw Hws]%Forall_cons.
  - by apply str_split_word.
  - change (str_split sep (w +:+ String sep (str_join (String sep "") (w' :: ws)))
            = w :: w' :: ws).
    rewrite str_split_app by done. by rewrite IH.
Qed.

(** [split(sep)] followed by [sep.join] gives the string back. *)
Lemma str_join_split sep s : str_join (String sep "") (str_split sep s) = s.
Proof.
  induction s as [|c s IH]; [done|].
  simpl. destruct (Ascii.eqb_spec c sep) as [->|Hc].
  - destruct (str_split sep s) eqn:E; [by apply str_split_nonempty in E|].
    by rewrite <- IH.
  - destruct (str_split sep s) as [|w [|w' ws]] eqn:E; by subst.
Qed.

Lemma str_split_no_char sep s : Forall (no_char sep) (str_split sep s).
Proof.
  induction s as [|c s IH]; simpl; [by repeat constructor|].
  destruct (Ascii.eqb c sep) eqn:Hc; [by constructor|].
  destruct (str_split sep s) as [|w ws]; inversion IH; subst.
  - constructor; [|done]. unfold no_char; simpl. by rewrite Hc.
  - constructor; [|done]. unfold no_char in *; simpl. by rewrite Hc.
Qed.

(** ** Decimal round trip *)

Lemma rstrip_nospace s : str_all (λ c, negb (is_space c)) s = true → str_rstrip s = s.
Proof.
  induction s as [|c s IH]; simpl; [done|].
  intros [Hc Hs]%andb_true_iff. rewrite IH by done. apply negb_true_iff in Hc.
  destruct s; [by rewrite Hc|done].
Qed.

Lemma strip_nospace s : str_all (λ c, negb (is_space c)) s = true → str_strip s = s.
Proof.
  intros Hs. unfold str_strip.
  assert (str_lstrip s = s) as ->.
  { destruct s as [|c s]; [done|]. simpl in *.
    apply andb_true_iff in Hs as [Hc _]. apply negb_true_iff in Hc. by rewrite Hc. }
  by apply rstrip_nospace.
Qed.

Lemma string_of_uint_digits d : str_all is_digit (NilEmpty.string_of_uint d) = true.
Proof. induction d; simpl; done. Qed.

Lemma string_of_uint_digits' d : str_all is_digit (NilZero.string_of_uint d) = true.
Proof. destruct d; try done; apply string_of_uint_digits. Qed.

Lemma is_digit_not_space c : is_digit c = true → negb (is_space c) = true.
Proof. destruct c as [[][][][][][][][]]; vm_compute; congruence. Qed.

Lemma is_digit_not_sign c : is_digit c = true → c ≠ "+"%char ∧ c ≠ "-"%char.
Proof. destruct c as [[][][][][][][][]]; vm_compute; split; congruence. Qed.

Lemma int_of_str_digits s :
  str_all is_digit s = true → int_of_str s = uint_val s.
Proof.
  intros Hs. unfold int_of_str.
  rewrite strip_nospace by (by eapply str_all_mono, Hs; apply is_digit_not_space).
  destruct s as [|c s]; [done|]. simpl in Hs.
  apply andb_true_iff in Hs as [[Hp Hm]%is_digit_not_sign _].
  destruct c as [[][][][][][][][]]; try done; congruence.
Qed.

Lemma uint_val_string_of_uint d :
  uint_val (NilZero.string_of_uint d) = Some (Z.of_uint d).
Proof.
  unfold uint_val. destruct d; [done|..]; by rewrite NilZero.usu.
Qed.

(** [int(str(z)) == z] *)
Lemma int_of_str_of_Z z : int_of_str (str_of_Z z) = Some z.
Proof.
  unfold str_of_Z. rewrite <- (DecimalZ.of_to z) at 2.
  destruct (Z.to_int z) as [d|d]; simpl.
  - rewrite int_of_str_digits by apply string_of_uint_digits'.
    by rewrite uint_val_string_of_uint.
  - unfold int_of_str. rewrite strip_nospace.
    + by rewrite uint_val_string_of_uint.
    + simpl. eapply str_all_mono, string_of_uint_digits'. apply is_digit_not_space.
Qed.

Lemma str_of_Z_inj z1 z2 : str_of_Z z1 = str_of_Z z2 → z1 = z2.
Proof.
  intros H%(f_equal int_of_str). rewrite !int_of_str_of_Z in H. by simplify_eq.
Qed.

Lemma str_of_Z_digits z : (0 ≤ z)%Z → str_all is_digit (str_of_Z z) = true.
Proof.
  intros Hz. unfold str_of_Z. destruct (Z.to_int z) as [d|d] eqn:E; simpl.
  - apply string_of_uint_digits'.
  - destruct z; simpl in E; simplify_eq; lia.
Qed.

Lemma is_digit_ne c x : is_digit x = false → is_digit c = true → negb (Ascii.eqb c x) = true.
Proof. intros Hx Hc. destruct (Ascii.eqb_spec c x); [subst; congruence|done]. Qed.

(** A non-negative decimal contains no separator that is not a digit. *)
Lemma str_of_Z_no_char z x :
  (0 ≤ z)%Z → is_digit x = false → no_char x (str_of_Z z).
Proof.
  intros Hz Hx. eapply str_all_mono, str_of_Z_digits, Hz.
  intros c. by apply is_digit_ne.
Qed.

#[export] Hint Resolve str_of_Z_no_char str_split_no_char : py.
