(* ===== verification/Effects.v ===== *)
(** * Effects of the gateway code

    Python statements are translated to computations of type [M St A]: they read
    and write a component state of type [St], append to the trace of requests
    made to the outside world, and end with a value, an exception or never.

    The outside world (the commands the gateway runs, the device files, the
    clock, the serial ports, the ELF reader, the background threads) is the
    parameter [Env]: a strategy that answers each request from the history of
    the requests made so far, so a theorem for every [Env] is a theorem for every
    behaviour of the world.  [M] has stdpp's monad notations, Python's [try],
    [except] and [finally], and [zoom] to run a component's operation on the
    component inside a bigger state. *)

From S2P Require Import Prelude.

(** ** Exceptions and outcomes *)

(** The exception classes the modelled code raises or catches (Python 2 names:
    [IOError] and [OSError] are subclasses of [EnvironmentError], and pyserial's
    [SerialException] is a subclass of [IOError]). *)
Inductive exn : Type :=
  | ValueError | TypeError | AssertionError | KeyError | IndexError
  | AttributeError | OverflowError | RuntimeError | NotImplementedError
  | EnvironmentError (errno : Z) | IOError (errno : Z) | OSError (errno : Z)
  | SerialException | TimeoutExpired | CalledProcessError (returncode : Z) | FatalError
  | LinuxConnectionError (err_msg : string) | KeyboardInterrupt | SystemExit (code : Z).

#[global] Instance exn_eq_dec : EqDecision exn.
Proof. solve_decision. Defined.

(** [errno.EWOULDBLOCK], [errno.ESRCH], [errno.ENOENT] *)
Definition EWOULDBLOCK : Z := 11.
Definition ESRCH : Z := 3.
Definition ENOENT : Z := 2.

Definition is_IOError (e : exn) : bool :=
  match e with IOError _ | SerialException => true | _ => false end.

Definition is_OSError (e : exn) : bool :=
  match e with OSError _ => true | _ => false end.

(** [isinstance(err, EnvironmentError)] *)
Definition is_EnvironmentError (e : exn) : bool :=
  match e with
  | EnvironmentError _ | IOError _ | OSError _ | SerialException => true
  | _ => false
  end.

(** [err.errno] of an [EnvironmentError]; pyserial sets none *)
Definition errno_of (e : exn) : option Z :=
  match e with
  | EnvironmentError n | IOError n | OSError n => Some n
  | _ => None
  end.

(** How a statement ends: with a value, with an exception, or never (a wait no
    one ends, a loop that does not leave). *)
Inductive outcome (A : Type) : Type :=
  | Val (a : A)
  | Exn (e : exn)
  | Hang.
Arguments Val {A} a.
Arguments Exn {A} e.
Arguments Hang {A}.

#[global] Instance outcome_eq_dec {A} `{EqDecision A} : EqDecision (outcome A).
Proof. solve_decision. Defined.

#[global] Instance outcome_ret : MRet outcome := λ A a, Val a.
#[global] Instance outcome_bind : MBind outcome := λ A B f m,
  match m with
  | Val a => f a
  | Exn e => Exn e
  | Hang => Hang
  end.

(** [assert b] *)
Definition py_assert (b : bool) : outcome unit :=
  if b then Val tt else Exn AssertionError.

Lemma bind_Val {A B} (m : outcome A) (f : A → outcome B) (b : B) :
  m ≫= f = Val b → ∃ a, m = Val a ∧ f a = Val b.
Proof. destruct m; simpl; try done. eauto. Qed.

Lemma bind_Exn {A B} (m : outcome A) (f : A → outcome B) (e : exn) :
  m ≫= f = Exn e → m = Exn e ∨ ∃ a, m = Val a ∧ f a = Exn e.
Proof. destruct m; simpl; try done; [|naive_solver]. eauto. Qed.

Lemma bind_not_hang {A B} (m : outcome A) (f : A → outcome B) :
  m ≠ Hang → (∀ a, f a ≠ Hang) → m ≫= f ≠ Hang.
Proof. destruct m; simpl; auto. Qed.

Lemma py_assert_Exn b e : py_assert b = Exn e → e = AssertionError.
Proof. by destruct b; intros [= <-]. Qed.

Lemma py_assert_Val b u : py_assert b = Val u → b = true.
Proof. by destruct b. Qed.

(** Inversion of a chain of pure statements that ended with a value. *)
Ltac inv_val :=
  repeat match goal with
  | H : _ ≫= _ = Val _ |- _ =>
      let a := fresh "a" in let E := fresh "E" in
      apply bind_Val in H as (a & E & H)
  | H : py_assert _ = Val _ |- _ => apply py_assert_Val in H
  | H : mret _ = Val _ |- _ => unfold mret, outcome_ret in H; simplify_eq
  end.

(** Case analysis on the statement of a chain that raised. *)
Ltac inv_exn :=
  repeat match goal with
  | H : _ ≫= _ = Exn _ |- _ =>
      let a := fresh "a" in let E := fresh "E" in
      apply bind_Exn in H as [H|(a & E & H)]
  | H : py_assert _ = Exn _ |- _ => apply py_assert_Exn in H
  | H : mret _ = Exn _ |- _ => discriminate H
  end.

(** ** The outside world *)

(** The requests the code makes, in the order it makes them. *)
Inductive event : Type :=
  | EvCall (argv : list string) (timeout : option Z)  (* subprocess.call *)
  | EvPopen (argv : list string)                      (* subprocess.Popen *)
  | EvTerminate                                       (* Popen.terminate *)
  | EvKill                                            (* Popen.kill *)
  | EvProcWait (timeout : Z)                          (* Popen.wait *)
  | EvJoin                                            (* Thread.join *)
  | EvWaitReady                                       (* Queue.get, no timeout *)
  | EvWriteStdin (line : string)                      (* Popen.stdin.write *)
  | EvGetAnswer                                       (* Queue.get, one second *)
  | EvExists (path : string)                          (* os.path.exists *)
  | EvIsFile (path : string)                          (* os.path.isfile *)
  | EvOpen (path mode : string)                       (* open *)
  | EvMakedirs (path : string)                        (* os.makedirs *)
  | EvGetSize (path : string)                         (* os.path.getsize *)
  | EvRemove (path : string)                          (* os.remove *)
  | EvTime                                            (* time.time *)
  | EvSleep (ms : Z)                                  (* time.sleep *)
  | EvSerialOpen (tty : string) (baudrate : Z)        (* serial.Serial *)
  | EvSerialWrite (data : string)                     (* Serial.write *)
  | EvSerialFlush                                     (* Serial.reset_input_buffer *)
  | EvSetDTR (b : bool)                               (* Serial.setDTR *)
  | EvSerialClose                                     (* Serial.close *)
  | EvDisableHUPCL                                    (* termios.tcsetattr *)
  | EvTempFile (suffix : string)                      (* NamedTemporaryFile *)
  | EvTempWrite (data : string)                       (* file.write and file.flush *)
  | EvCloseTemp                                       (* NamedTemporaryFile.close *)
  | EvElfTarget (path : string)                       (* ELFFile header *)
  | EvElfLoadAddr (path : string)                     (* ELFFile sections *)
  | EvProcStart (name : string)                       (* ExternalProcess.start *)
  | EvProcStop (name : string)                        (* ExternalProcess.stop *)
  | EvBootThread                                      (* boot monitor Thread.start *)
  | EvExpectClose                                     (* SerialExpect.close *)
  | EvFtdi (ftdi_type : string)                       (* ftdi-devices-list *)
  | EvRead (path : string)                            (* open and read *)
  | EvChmod (path : string) (mode : Z)                (* os.chmod *)
  | EvCopy (src dst : string)                         (* shutil.copy *)
  | EvRmtree (path : string)                          (* shutil.rmtree *)
  | EvCheckOutput (argv : list string)                (* subprocess.check_output *)
  | EvTimerStart (seconds : Z)                        (* Timer.start *)
  | EvTimerCancel                                     (* Timer.cancel *)
  | EvAddHandler (file : string)                      (* LOGGER.addHandler *)
  | EvRemoveHandler                                   (* LOGGER.removeHandler *)
  | EvSerialRead                                      (* Serial.read(size=16) *)
  | EvConnect (host : string) (port : Z)              (* socket.create_connection *)
  | EvSockWrite (line : string)                       (* write and flush of the socket's file *)
  | EvSockRead                                        (* readline of the socket's file *)
  | EvSockClose                                       (* close of the socket's file *)
  | EvPause                                           (* signal.pause *)
  | EvPrint (message : string)                        (* print *)
  | EvStderr (message : string).                      (* sys.stderr.write *)

#[global] Instance event_eq_dec : EqDecision event.
Proof. solve_decision. Defined.

Abbreviation trace := (list event).

(** Answer of [subprocess.call]: the exit status (negative when a signal killed
    the command), the timeout, or the command could not be started. *)
Inductive call_answer := CallRet (code : Z) | CallTimeout | CallOSError (errno : Z).

(** Answer of [serial.Serial]. *)
Inductive serial_answer := SerialOk | SerialNone | SerialOSError (errno : Z).

(** What the thread that reads a child's output observes: a line, the end of the
    output, or that the child has exited (seen before the next read). *)
Inductive robs := RLine (line : string) | REof | RExited.

(** Answer of [subprocess.check_output]: the output of a command that succeeds, a
    command that fails, or one that could not be started. *)
Inductive output_answer := OutText (text : string) | OutFailed (code : Z) | OutOSError (errno : Z).

(** How [ExternalProcess.stop] ends: the thread ended, a signal was refused, or
    the thread never ends. *)
Inductive stop_answer := StopDone | StopRefused | StopNever.

(** The header of an ELF file as pyelftools reads it, or its [ELFError]; a file
    that cannot be opened is an [IOError]. *)
Inductive elf_answer :=
  | ElfHeader (e_type e_class e_machine : string)
  | ElfError
  | ElfIOError (errno : Z).

Class Env : Type := {
  env_call : trace → list string → call_answer;
  env_popen : trace → list string → option Z;       (* [Some errno]: OSError *)
  env_terminate : trace → option Z;                 (* [Some errno]: OSError *)
  env_proc_wait : trace → bool;                     (* false: TimeoutExpired *)
  env_join : trace → bool;                          (* false: never joined *)
  env_write : trace → string → option Z;            (* [Some errno]: IOError *)
  env_reader : trace → list robs;                   (* what the reader sees next *)
  env_exists : trace → string → bool;
  env_isfile : trace → string → bool;
  env_open : trace → string → option Z;             (* [Some errno]: IOError *)
  env_makedirs : trace → string → bool;             (* false: OSError *)
  env_getsize : trace → string → option Z;          (* None: OSError *)
  env_remove : trace → string → bool;               (* false: OSError *)
  env_abspath : string → string;
  env_time : trace → Z;                             (* milliseconds *)
  env_serial : trace → string → Z → serial_answer;
  env_dtr : trace → bool;                           (* false: OSError *)
  env_tempname : trace → string → string;
  env_elf : trace → string → elf_answer;
  env_loadaddr : trace → string → outcome (option Z);
  env_proc_start : trace → string → bool;           (* Popen seen within 15 s *)
  env_proc_stop : trace → string → stop_answer;
  env_ftdi : trace → string → outcome (list string); (* ftdi-devices-list lines *)
  env_read : trace → string → Z + string;           (* [inl errno]: IOError *)
  env_chmod : trace → string → option Z;            (* [Some errno]: OSError *)
  env_copy : trace → string → string → option Z;    (* [Some errno]: IOError *)
  env_rmtree : trace → string → bool;               (* false: OSError *)
  env_sread : trace → option string;                (* None: SerialException *)
  env_connect : trace → string → Z → option Z;      (* [Some errno]: IOError *)
  env_sock_write : trace → string → option Z;       (* [Some errno]: IOError *)
  env_sock_read : trace → Z + string;               (* [inl errno]: timeout, IOError *)
  env_output : trace → list string → output_answer;
  env_pause : trace → bool;                         (* true: KeyboardInterrupt *)
  env_patience : nat;                               (* turns of a loop only the world ends *)
  env_pkg_dir : string;                             (* directory of the package *)
  env_users_dir : string;                           (* IOTLAB_USERS_DIR *)
  env_cfg_dir : string                              (* IOTLAB_GATEWAY_CFG_DIR *)
}.

(** ** Computations *)

Definition M (St A : Type) : Type := St → trace → outcome A * St * trace.

#[global] Instance M_ret St : MRet (M St) := λ A a s t, (Val a, s, t).
#[global] Instance M_bind St : MBind (M St) := λ A B k m s t,
  match m s t with
  | (Val a, s', t') => k a s' t'
  | (Exn e, s', t') => (Exn e, s', t')
  | (Hang, s', t') => (Hang, s', t')
  end.

Section combinators.
Context {St : Type}.

Definition raise {A} (e : exn) : M St A := λ s t, (Exn e, s, t).
Definition hang {A} : M St A := λ s t, (Hang, s, t).
Definition get : M St St := λ s t, (Val s, s, t).
Definition gets {A} (f : St → A) : M St A := λ s t, (Val (f s), s, t).
Definition modify (f : St → St) : M St unit := λ s t, (Val tt, f s, t).

(** A pure statement. *)
Definition lift {A} (o : outcome A) : M St A := λ s t, (o, s, t).

(** [try: m; except ...: h e]; [h e = None] when no clause catches [e] *)
Definition try_except {A} (m : M St A) (h : exn → option (M St A)) : M St A :=
  λ s t, match m s t with
         | (Exn e, s', t') =>
             match h e with
             | Some k => k s' t'
             | None => (Exn e, s', t')
             end
         | r => r
         end.

(** [try: m; finally: f] *)
Definition try_finally {A} (m : M St A) (f : M St unit) : M St A :=
  λ s t, match m s t with
         | (Hang, s', t') => (Hang, s', t')
         | (o, s', t') =>
             match f s' t' with
             | (Val _, s'', t'') => (o, s'', t'')
             | (Exn e, s'', t'') => (Exn e, s'', t'')
             | (Hang, s'', t'') => (Hang, s'', t'')
             end
         end.

(** [for x in l: f x] *)
Fixpoint for_each {A} (l : list A) (f : A → M St unit) : M St unit :=
  match l with
  | [] => mret tt
  | x :: l => f x ;; for_each l f
  end.
End combinators.

(** A component inside a bigger state. *)
Record lens (S T : Type) : Type := Lens { lget : S → T; lset : T → S → S }.
Arguments Lens {S T}.
Arguments lget {S T}.
Arguments lset {S T}.

Class LensLaws {S T} (l : lens S T) : Prop := {
  lget_lset : ∀ x s, lget l (lset l x s) = x;
  lset_lget : ∀ s, lset l (lget l s) s = s;
  lset_lset : ∀ x y s, lset l x (lset l y s) = lset l x s
}.

Definition zoom {S T A} (l : lens S T) (m : M T A) : M S A := λ s t,
  let '(o, x, t') := m (lget l s) t in (o, lset l x s, t').

(** ** Weakest preconditions *)

Definition wp {St A} (m : M St A) (Q : outcome A → St → trace → Prop)
    (s : St) (t : trace) : Prop :=
  let '(o, s', t') := m s t in Q o s' t'.

Section wp.
Context {St : Type}.
Implicit Types (s : St) (t : trace).

Lemma wp_mono {A} (m : M St A) (Q Q' : outcome A → St → trace → Prop) s t :
  (∀ o s' t', Q o s' t' → Q' o s' t') → wp m Q s t → wp m Q' s t.
Proof. unfold wp. destruct (m s t) as [[o s'] t']. auto. Qed.

Lemma wp_bind {A B} (m : M St A) (k : A → M St B) Q s t :
  wp (m ≫= k) Q s t ↔
  wp m (λ o s' t', match o with
                   | Val a => wp (k a) Q s' t'
                   | Exn e => Q (Exn e) s' t'
                   | Hang => Q Hang s' t'
                   end) s t.
Proof. unfold wp, mbind, M_bind. by destruct (m s t) as [[[] ?] ?]. Qed.

Lemma wp_try_except {A} (m : M St A) h Q s t :
  wp (try_except m h) Q s t ↔
  wp m (λ o s' t', match o with
                   | Exn e => match h e with
                              | Some k => wp k Q s' t'
                              | None => Q (Exn e) s' t'
                              end
                   | _ => Q o s' t'
                   end) s t.
Proof.
  unfold wp, try_except. destruct (m s t) as [[[] ?] ?]; [done| |done].
  by destruct (h e).
Qed.

Lemma wp_try_finally {A} (m : M St A) f Q s t :
  wp (try_finally m f) Q s t ↔
  wp m (λ o s' t', match o with
                   | Hang => Q Hang s' t'
                   | _ => wp f (λ o' s'' t'', match o' with
                                              | Val _ => Q o s'' t''
                                              | Exn e => Q (Exn e) s'' t''
                                              | Hang => Q Hang s'' t''
                                              end) s' t'
                   end) s t.
Proof.
  unfold wp, try_finally. destruct (m s t) as [[[] s'] t']; [..|done];
  by destruct (f s' t') as [[[] ?] ?].
Qed.

Lemma wp_zoom {T A} (l : lens St T) (m : M T A) Q s t :
  wp (zoom l m) Q s t ↔ wp m (λ o x t', Q o (lset l x s) t') (lget l s) t.
Proof. unfold wp, zoom. by destruct (m (lget l s) t) as [[? ?] ?]. Qed.
End wp.

(** ** Runs that end with a value *)

Lemma M_bind_Val {St A B} (m : M St A) (k : A → M St B) s t b s' t' :
  (m ≫= k) s t = (Val b, s', t') →
  ∃ a s1 t1, m s t = (Val a, s1, t1) ∧ k a s1 t1 = (Val b, s', t').
Proof.
  unfold mbind, M_bind. destruct (m s t) as [[[a|e|] s1] t1]; [|done..]. eauto.
Qed.

Lemma bind_run {St A B} (m : M St A) (k : A → M St B) s t a s1 t1 :
  m s t = (Val a, s1, t1) → (m ≫= k) s t = k a s1 t1.
Proof. intros H. unfold mbind, M_bind. by rewrite H. Qed.

Lemma zoom_Val {S T A} (l : lens S T) (m : M T A) s t a s' t' :
  zoom l m s t = (Val a, s', t') →
  ∃ x, m (lget l s) t = (Val a, x, t') ∧ s' = lset l x s.
Proof. unfold zoom. destruct (m (lget l s) t) as [[o x] t1]. intros [= -> <- <-]. eauto. Qed.

(** The names of the earlier state and trace are kept. *)
Ltac inject_run H := first [injection H as <- <- <- | simplify_eq].

(** Inversion of a run of a sequence of statements that ended with a value. *)
Ltac inv_run :=
  repeat match goal with
  | H : (_ ≫= _) _ _ = (Val _, _, _) |- _ =>
      let a := fresh "a" in let s := fresh "s" in let t := fresh "t" in
      let R := fresh "R" in apply M_bind_Val in H as (a & s & t & R & H)
  | H : zoom _ _ _ _ = (Val _, _, _) |- _ =>
      let x := fresh "x" in apply zoom_Val in H as (x & H & ->)
  | H : mret _ _ _ = (Val _, _, _) |- _ => unfold mret, M_ret in H; inject_run H
  | H : get _ _ = (Val _, _, _) |- _ => unfold get in H; inject_run H
  | H : gets _ _ _ = (Val _, _, _) |- _ => unfold gets in H; inject_run H
  | H : modify _ _ _ = (Val _, _, _) |- _ => unfold modify in H; inject_run H
  | H : lift _ _ _ = (Val _, _, _) |- _ =>
      unfold lift in H; first [injection H as H <- <- | simplify_eq]
  | H : raise _ _ _ = (Val _, _, _) |- _ => discriminate H
  | H : hang _ _ = (Val _, _, _) |- _ => discriminate H
  end.

(** ** Invariants of the component state *)

(** Every way [m] can end, exceptions included, leaves [I] true. *)
Definition preserves {St A} (I : St → Prop) (m : M St A) : Prop :=
  ∀ s t, I s → wp m (λ _ s' _, I s') s t.

(** What [m] returns, when it returns. *)
Definition returns {St A} (P : A → Prop) (m : M St A) : Prop :=
  ∀ s t, wp m (λ o _ _, match o with Val a => P a | _ => True end) s t.

(** [m] always returns: it neither raises nor waits for ever. *)
Definition total {St A} (m : M St A) : Prop :=
  ∀ s t, ∃ a s' t', m s t = (Val a, s', t').

Lemma preserves_run {St A} (I : St → Prop) (m : M St A) s t o s' t' :
  preserves I m → m s t = (o, s', t') → I s → I s'.
Proof. intros Hm Hr Hs. specialize (Hm s t Hs). unfold wp in Hm. by rewrite Hr in Hm. Qed.

Lemma returns_run {St A} (P : A → Prop) (m : M St A) s t a s' t' :
  returns P m → m s t = (Val a, s', t') → P a.
Proof. intros Hm Hr. specialize (Hm s t). unfold wp in Hm. by rewrite Hr in Hm. Qed.

(** A statement that leaves the state alone. *)
Lemma stateless_run {St A} (m : M St A) s t o s' t' :
  preserves (λ x, x = s) m → m s t = (o, s', t') → s' = s.
Proof. intros Hm Hr. by apply (preserves_run _ _ _ _ _ _ _ Hm Hr). Qed.

Section preserves.
Context {St : Type} (I : St → Prop).

Lemma preserves_ret {A} (a : A) : preserves I (mret a : M St A).
Proof. by intros s t. Qed.

Lemma preserves_bind {A B} (m : M St A) (k : A → M St B) :
  preserves I m → (∀ a, preserves I (k a)) → preserves I (m ≫= k).
Proof.
  intros Hm Hk s t Hs. apply wp_bind. eapply wp_mono, Hm, Hs.
  intros [] s' t' ?; [by apply Hk|done..].
Qed.

Lemma preserves_raise {A} e : preserves I (raise e : M St A).
Proof. by intros s t. Qed.

Lemma preserves_gets {A} (f : St → A) : preserves I (gets f).
Proof. by intros s t. Qed.

Lemma preserves_lift {A} (o : outcome A) : preserves I (lift o).
Proof. by intros s t. Qed.

Lemma preserves_modify f : (∀ s, I s → I (f s)) → preserves I (modify f).
Proof. intros Hf s t Hs. by apply Hf. Qed.

Lemma preserves_try_except {A} (m : M St A) h :
  preserves I m → (∀ e k, h e = Some k → preserves I k) →
  preserves I (try_except m h).
Proof.
  intros Hm Hh s t Hs. apply wp_try_except. eapply wp_mono, Hm, Hs.
  intros [|e|] s' t' ?; try done. destruct (h e) eqn:E; [|done].
  by eapply Hh.
Qed.

Lemma preserves_try_finally {A} (m : M St A) f :
  preserves I m → preserves I f → preserves I (try_finally m f).
Proof.
  intros Hm Hf s t Hs. apply wp_try_finally. eapply wp_mono, Hm, Hs.
  intros [] s' t' ?; [..|done]; (eapply wp_mono, Hf; [|done]; by intros []).
Qed.

Lemma preserves_for_each {A} (l : list A) f :
  (∀ x, preserves I (f x)) → preserves I (for_each l f).
Proof.
  intros Hf. induction l; simpl; [apply preserves_ret|].
  by apply preserves_bind.
Qed.

(** The operation of a component that the invariant does not read. *)
Lemma preserves_zoom {T A} (l : lens St T) (m : M T A) :
  (∀ x s, I s → I (lset l x s)) → preserves I (zoom l m).
Proof.
  intros Hl s t Hs. apply wp_zoom. unfold wp.
  destruct (m (lget l s) t) as [[??]?]. by apply Hl.
Qed.

(** The operation of a component that keeps what the invariant reads of it. *)
Lemma preserves_zoom_part {T A} (J : T → Prop) (l : lens St T) (m : M T A) :
  preserves J m → (∀ s, I s → J (lget l s)) → (∀ x s, I s → J x → I (lset l x s)) →
  preserves I (zoom l m).
Proof.
  intros Hm Hget Hset s t Hs. apply wp_zoom. eapply wp_mono; [|by apply Hm, Hget].
  intros o x t' Hx. by apply Hset.
Qed.
End preserves.

(** The rest of a sequence after a statement that keeps [I]. *)
Lemma wp_bind_preserves {St A B} (I : St → Prop) (m : M St A) (k : A → M St B) Q s t :
  preserves I m → I s →
  (∀ a s' t', I s' → wp (k a) Q s' t') →
  (∀ e s' t', I s' → Q (Exn e) s' t') → (∀ s' t', I s' → Q Hang s' t') →
  wp (m ≫= k) Q s t.
Proof.
  intros Hm Hs Hk He Hh. apply wp_bind. eapply wp_mono; [|by apply Hm].
  intros [] s' t' Hs'; auto.
Qed.

#[export] Hint Resolve preserves_ret preserves_raise preserves_gets
  preserves_lift : preserve.

(** Closure of an invariant under the combinators: the goals left are the
    assignments and the calls no hint covers. *)
Ltac preserve_step :=
  match goal with
  | |- preserves _ (_ ≫= _) => apply preserves_bind; [|intros ?]
  | |- preserves _ (modify _) => apply preserves_modify; intros ??
  | |- preserves _ (try_except _ _) =>
      apply preserves_try_except; [|intros ?? ?; repeat case_match; simplify_eq]
  | |- preserves _ (try_finally _ _) => apply preserves_try_finally
  | |- preserves _ (match _ with _ => _ end) => case_match
  | |- preserves _ get => by intros ???
  | |- preserves _ hang => by intros ???
  | |- preserves _ (zoom _ _) => apply preserves_zoom; intros ???
  | |- preserves _ (for_each _ _) => apply preserves_for_each; intros ?
  | |- preserves _ _ => solve [eauto with preserve]
  end.
Ltac preserve := repeat preserve_step; try done.

Section returns.
Context {St : Type}.

Lemma returns_ret {A} (P : A → Prop) a : P a → returns P (mret a : M St A).
Proof. by intros Ha s t. Qed.

Lemma returns_bind {A B} (P : A → Prop) (Q : B → Prop) (m : M St A) k :
  returns P m → (∀ a, P a → returns Q (k a)) → returns Q (m ≫= k).
Proof.
  intros Hm Hk s t. apply wp_bind. eapply wp_mono, Hm.
  intros [a| |] s' t' HP; [by apply Hk|done..].
Qed.

Lemma returns_any {A} (m : M St A) : returns (λ _, True) m.
Proof. intros s t. unfold wp. by destruct (m s t) as [[[]?]?]. Qed.

(** A statement whose value is dropped. *)
Lemma returns_then {A B} (Q : B → Prop) (m : M St A) (k : M St B) :
  returns Q k → returns Q (m ;; k).
Proof. intros Hk. eapply returns_bind; [apply returns_any|done]. Qed.

Lemma returns_zoom {T A} (P : A → Prop) (l : lens St T) (m : M T A) :
  returns P m → returns P (zoom l m).
Proof. intros Hm s t. apply wp_zoom, Hm. Qed.

Lemma returns_try_except {A} (P : A → Prop) (m : M St A) h :
  returns P m → (∀ e k, h e = Some k → returns P k) →
  returns P (try_except m h).
Proof.
  intros Hm Hh s t. apply wp_try_except. eapply wp_mono, Hm.
  intros [|e|] s' t' ?; try done. destruct (h e) eqn:E; [|done]. by eapply Hh.
Qed.

Lemma returns_try_finally {A} (P : A → Prop) (m : M St A) f :
  returns P m → returns P (try_finally m f).
Proof.
  intros Hm s t. apply wp_try_finally. eapply wp_mono, Hm.
  intros [a|e|] s' t' Ha; [..|done]; unfold wp; by destruct (f s' t') as [[[] ?] ?].
Qed.

Lemma returns_raise {A} (P : A → Prop) e : returns P (raise e : M St A).
Proof. by intros s t. Qed.

Lemma returns_hang {A} (P : A → Prop) : returns P (hang : M St A).
Proof. by intros s t. Qed.
End returns.

#[export] Hint Resolve returns_raise returns_hang returns_zoom : nonneg.

(** ** Requests to the outside world *)

Section world.
Context `{E : Env} {St : Type}.

(** Make a request: it is recorded, then answered from the history. *)
Definition ask {A} (ev : event) (answer : trace → A) : M St A := λ s t,
  (Val (answer (t ++ [ev])), s, t ++ [ev]).

Definition p_exists (path : string) : M St bool :=
  ask (EvExists path) (λ t, env_exists t path).

Definition p_isfile (path : string) : M St bool :=
  ask (EvIsFile path) (λ t, env_isfile t path).

Definition p_time : M St Z := ask EvTime env_time.

Definition p_sleep (ms : Z) : M St unit := ask (EvSleep ms) (λ _, tt).

(** [subprocess_timeout.call(args, timeout=timeout)] *)
Definition p_call (argv : list string) (timeout : option Z) : M St Z :=
  r ← ask (EvCall argv timeout) (λ t, env_call t argv);
  match r with
  | CallRet code => mret code
  | CallTimeout => raise TimeoutExpired
  | CallOSError n => raise (OSError n)
  end.

(** [subprocess.check_call(args)] *)
Definition p_check_call (argv : list string) : M St unit :=
  code ← p_call argv None;
  if (code =? 0)%Z then mret tt else raise (CalledProcessError code).

(** [open(path, mode)] *)
Definition p_open (path mode : string) : M St unit :=
  r ← ask (EvOpen path mode) (λ t, env_open t path);
  match r with
  | None => mret tt
  | Some n => raise (IOError n)
  end.

(** [serial.Serial(tty, baudrate)] *)
Definition p_serial (tty : string) (baudrate : Z) : M St unit :=
  r ← ask (EvSerialOpen tty baudrate) (λ t, env_serial t tty baudrate);
  match r with
  | SerialOk => mret tt
  | SerialNone => raise SerialException
  | SerialOSError n => raise (OSError n)
  end.

(** A request with no answer. *)
Definition p_emit (ev : event) : M St unit := ask ev (λ _, tt).

(** [tempfile.NamedTemporaryFile(suffix=suffix).name] *)
Definition p_tempfile (suffix : string) : M St string :=
  ask (EvTempFile suffix) (λ t, env_tempname t suffix).
End world.

(** Time slept in a trace, in milliseconds. *)
Fixpoint slept (t : trace) : Z :=
  match t with
  | [] => 0
  | EvSleep ms :: t => ms + slept t
  | _ :: t => slept t
  end%Z.

Lemma slept_app t u : slept (t ++ u) = (slept t + slept u)%Z.
Proof. induction t as [|[] t IH]; simpl; lia. Qed.

(** The clock does not go back, and a sleep lasts at least as long as asked. *)
Class ClockOk `{E : Env} : Prop :=
  clock_ok : ∀ t u, (env_time t + slept u ≤ env_time (t ++ u))%Z.

(** No command ends on a signal: every exit status is zero or positive. *)
Class StatusOk `{E : Env} : Prop :=
  status_ok : ∀ t argv code, env_call t argv = CallRet code → (0 ≤ code)%Z.

(** A world where every request succeeds at once, but for the answers given: the
    theorems' witnesses are worlds of this form. *)
Definition world (call : trace → list string → call_answer)
    (proc_start : trace → string → bool) (reader : trace → list robs)
    (read : trace → string → Z + string) (sread : trace → option string)
    (time : trace → Z) (connect : trace → string → Z → option Z)
    (sock_read : trace → Z + string) (output : trace → list string → output_answer)
    : Env := {|
  env_call := call;
  env_popen := λ _ _, None;
  env_terminate := λ _, None;
  env_proc_wait := λ _, true;
  env_join := λ _, true;
  env_write := λ _ _, None;
  env_reader := reader;
  env_exists := λ _ _, true;
  env_isfile := λ _ _, false;
  env_open := λ _ _, None;
  env_makedirs := λ _ _, true;
  env_getsize := λ _ _, Some 0%Z;
  env_remove := λ _ _, true;
  env_abspath := λ p, p;
  env_time := time;
  env_serial := λ _ _ _, SerialOk;
  env_dtr := λ _, true;
  env_tempname := λ _ suffix, "/tmp/tmp" +:+ suffix;
  env_elf := λ _ _, ElfHeader "ET_EXEC" "ELFCLASS32" "EM_ARM";
  env_loadaddr := λ _ _, Val (Some 2097152%Z);
  env_proc_start := proc_start;
  env_proc_stop := λ _ _, StopDone;
  env_ftdi := λ _ _, Val [" "; " "; "Found 1 device(s)"];
  env_read := read;
  env_chmod := λ _ _, None;
  env_copy := λ _ _ _, None;
  env_rmtree := λ _ _, true;
  env_sread := sread;
  env_connect := connect;
  env_sock_write := λ _ _, None;
  env_sock_read := sock_read;
  env_output := output;
  env_pause := λ _, true;
  env_patience := 100;
  env_pkg_dir := "/gateway_code";
  env_users_dir := "/iotlab/users";
  env_cfg_dir := "/var/local/config"
|}.

Definition ready : list robs := [RLine "cn_serial_ready"].

(** The answers of the world of most witnesses. *)
Definition calm_call (t : trace) (argv : list string) : call_answer := CallRet 0.
Definition calm_start (t : trace) (name : string) : bool := true.
Definition calm_reader (t : trace) : list robs := ready.
Definition calm_read (t : trace) (path : string) : Z + string := inr "m3".
Definition calm_sread (t : trace) : option string := Some " login: ".
Definition calm_connect (t : trace) (host : string) (port : Z) : option Z := None.
Definition calm_sock_read (t : trace) : Z + string := inl 0%Z.
Definition calm_output (t : trace) (argv : list string) : output_answer :=
  OutText "00:11:22:33:44:55".

Definition calm_env : Env :=
  world calm_call calm_start calm_reader calm_read calm_sread slept calm_connect
    calm_sock_read calm_output.

#[global] Instance calm_clock : @ClockOk calm_env.
Proof. intros t u. simpl. rewrite slept_app. lia. Qed.

#[global] Instance calm_status : @StatusOk calm_env.
Proof. intros t argv code [= <-]. lia. Qed.

Section world_facts.
Context `{E : Env} {St : Type}.

Lemma preserves_ask {A} (I : St → Prop) ev (f : trace → A) :
  preserves I (ask ev f).
Proof. by intros s t. Qed.

Lemma returns_call `{!StatusOk} argv timeout :
  returns (λ r, 0 ≤ r)%Z (p_call argv timeout : M St Z).
Proof.
  unfold p_call. intros s t. apply wp_bind. unfold wp; simpl.
  destruct (env_call _ argv) eqn:Hc; simpl; [by eapply status_ok|done..].
Qed.
End world_facts.

#[export] Hint Resolve preserves_ask : preserve.
#[export] Hint Extern 2 (preserves _ (p_exists _)) => apply preserves_ask : preserve.
#[export] Hint Extern 2 (preserves _ (p_isfile _)) => apply preserves_ask : preserve.
#[export] Hint Extern 2 (preserves _ p_time) => apply preserves_ask : preserve.
#[export] Hint Extern 2 (preserves _ (p_sleep _)) => apply preserves_ask : preserve.
#[export] Hint Extern 2 (preserves _ (p_emit _)) => apply preserves_ask : preserve.
#[export] Hint Extern 2 (preserves _ (p_tempfile _)) => apply preserves_ask : preserve.
#[export] Hint Extern 2 (preserves _ (p_call _ _)) => unfold p_call; preserve : preserve.
#[export] Hint Extern 2 (preserves _ (p_open _ _)) => unfold p_open; preserve : preserve.
#[export] Hint Extern 2 (preserves _ (p_serial _ _)) => unfold p_serial; preserve : preserve.
#[export] Hint Resolve returns_call : nonneg.

(** The sign of a status code: the goals left are sums of codes and the calls no
    hint covers. *)
Ltac nonneg_step :=
  match goal with
  | |- returns _ (mret _) => apply returns_ret
  | |- returns _ (_ ≫= _) =>
      eapply returns_bind; [first [solve [eauto with nonneg] | apply returns_any]|intros ? ?]
  | |- returns _ (match _ with _ => _ end) => case_match
  | |- returns _ (try_except _ _) =>
      apply returns_try_except; [|intros ?? ?; repeat case_match; simplify_eq]
  | |- returns _ (try_finally _ _) => apply returns_try_finally
  | |- returns _ _ => solve [eauto with nonneg]
  end.
Ltac nonneg := repeat nonneg_step; try done; try (cbv beta in *; lia).

(** The same, deciding at each statement whether its value is a code. *)
Ltac codes :=
  cbv beta;
  lazymatch goal with
  | |- returns _ (mret _) =>
      apply returns_ret; cbv beta in *; first [done | lia | apply status_nonneg]
  | |- returns _ (match _ with _ => _ end) => case_match; codes
  | |- returns _ (_ ≫= _) =>
      first [eapply (returns_bind (λ r, 0 ≤ r)%Z); [solve [codes]|intros ? ?]
            |eapply returns_bind; [apply returns_any|intros ? ?]]; codes
  | |- returns _ (try_except _ _) =>
      apply returns_try_except; [codes|intros ?? ?; repeat case_match; simplify_eq; codes]
  | |- returns _ (try_finally _ _) => apply returns_try_finally; codes
  | |- returns _ (zoom _ _) => apply returns_zoom; codes
  | |- returns _ _ => solve [eauto with nonneg]
  end.

#[export] Hint Extern 8 (returns _ (_ ≫= _)) => codes : nonneg.
#[export] Hint Extern 8 (returns _ (mret _)) => codes : nonneg.
#[export] Hint Extern 8 (preserves _ (_ ≫= _)) => solve [preserve] : preserve.
