(* ===== verification/PyVal.v ===== *)
(** * Python values

    The values [json.loads] can produce, which is what a monitoring profile is
    made of, with Python's truth value, [int], [in range(...)], [str] and the
    binding of keyword arguments to the parameters of a constructor. *)

From S2P Require Import Prelude PyString Effects.

(** A float is finite, [n / d], or one of the special values that Python's JSON
    reader accepts ([NaN], [Infinity], and [1e999] which reads as infinity). *)
Inductive pyfloat := FFin (n : Z) (d : positive) | FNaN | FInf (neg : bool).

Inductive pyval :=
  | PNone
  | PBool (b : bool)
  | PInt (z : Z)
  | PFloat (f : pyfloat)
  | PStr (s : string)
  | PList (l : list pyval)
  | PDict (d : list (string * pyval)).

Abbreviation pydict := (list (string * pyval)).

(** A number equal to an integer, with the type Python prints it by. *)
Inductive pynum := NInt (z : Z) | NBool (b : bool) | NFloat (z : Z).

Definition num_val (n : pynum) : Z :=
  match n with
  | NInt z => z
  | NBool b => if b then 1 else 0
  | NFloat z => z
  end%Z.

(** [str(n)]; the floats are integral and far below [1e16] *)
Definition str_num (n : pynum) : string :=
  match n with
  | NInt z => str_of_Z z
  | NBool b => if b then "True" else "False"
  | NFloat z => str_of_Z z +:+ ".0"
  end.

(** [bool(v)] *)
Definition truthy (v : pyval) : bool :=
  match v with
  | PNone => false
  | PBool b => b
  | PInt z => negb (z =? 0)%Z
  | PFloat (FFin n _) => negb (n =? 0)%Z
  | PFloat _ => true
  | PStr s => negb (bool_decide (s = ""))
  | PList l => match l with [] => false | _ => true end
  | PDict d => match d with [] => false | _ => true end
  end.

Definition is_none (v : pyval) : bool :=
  match v with PNone => true | _ => false end.

(** [v == s] for a string [s] *)
Definition eq_str (v : pyval) (s : string) : bool :=
  match v with PStr s' => bool_decide (s' = s) | _ => false end.

(** The integer [v] is equal to, if there is one. *)
Definition as_num (v : pyval) : option pynum :=
  match v with
  | PInt z => Some (NInt z)
  | PBool b => Some (NBool b)
  | PFloat (FFin n d) =>
      if (n mod Zpos d =? 0)%Z then Some (NFloat (n / Zpos d)) else None
  | _ => None
  end.

(** [v == z] for an integer [z] *)
Definition eq_int (v : pyval) (z : Z) : bool :=
  match as_num v with Some n => (num_val n =? z)%Z | None => false end.

(** [v in range(lo, hi)]: the number found, [None] when [v] is not in the range *)
Definition in_range (lo hi : Z) (v : pyval) : option pynum :=
  match as_num v with
  | Some n => if (lo <=? num_val n)%Z && (num_val n <? hi)%Z then Some n else None
  | None => None
  end.

(** [int(v)] *)
Definition py_int (v : pyval) : outcome Z :=
  match v with
  | PInt z => Val z
  | PBool b => Val (if b then 1 else 0)%Z
  | PFloat (FFin n d) => Val (Z.quot n (Zpos d))
  | PFloat FNaN => Exn ValueError
  | PFloat (FInf _) => Exn OverflowError
  | PStr s => match int_of_str s with Some z => Val z | None => Exn ValueError end
  | PNone | PList _ | PDict _ => Exn TypeError
  end.

(** The text before and after the first [c] of [s]. *)
Fixpoint str_cut (c : Ascii.ascii) (s : string) : string * option string :=
  match s with
  | EmptyString => ("", None)
  | String x s =>
      if Ascii.eqb x c then ("", Some s)
      else let '(a, b) := str_cut c s in (String x a, b)
  end.

Definition cut_sign (s : string) : bool * string :=
  match s with
  | String "-" s => (true, s)
  | String "+" s => (false, s)
  | _ => (false, s)
  end.

(** The digits of [s] as a number; the empty string is zero. *)
Definition digits_val (s : string) : option Z :=
  if str_all is_digit s then Some (default 0%Z (uint_val s)) else None.

Definition exponent_val (e : option string) : option Z :=
  match e with
  | None => Some 0%Z
  | Some e =>
      let '(neg, e) := cut_sign e in
      if str_isdigit e then
        match digits_val e with
        | Some z => Some (if neg then - z else z)%Z
        | None => None
        end
      else None
  end.

(** Binary64 numbers are below [2 ^ 1024]. *)
Definition float_make (neg : bool) (n exp : Z) : pyfloat :=
  let n' := if neg then (- n)%Z else n in
  if (0 <=? exp)%Z
  then if (2 ^ 1024 <=? n * 10 ^ exp)%Z then FInf neg else FFin (n' * 10 ^ exp) 1
  else FFin n' (Z.to_pos (10 ^ (- exp))).

(** [float(s)], to the nearest decimal the text denotes; [None]: [ValueError] *)
Definition float_of_str (s : string) : option pyfloat :=
  let '(neg, s) := cut_sign (str_lower (str_strip s)) in
  if bool_decide (s = "nan") then Some FNaN
  else if bool_decide (s ∈ ["inf"; "infinity"]) then Some (FInf neg)
  else
    let '(mant, e) := str_cut "e"%char s in
    let '(ip, fp) := str_cut "."%char mant in
    let fp := default "" fp in
    match digits_val ip, digits_val fp, exponent_val e with
    | Some i, Some f, Some ex =>
        if bool_decide (ip = "" ∧ fp = "") then None
        else let k := Z.of_nat (String.length fp) in
             Some (float_make neg (i * 10 ^ k + f) (ex - k))
    | _, _, _ => None
    end.

(** [iter(v)]: a string gives its characters, a dictionary its keys *)
Fixpoint str_chars (s : string) : list string :=
  match s with
  | EmptyString => []
  | String c s => String c "" :: str_chars s
  end.

Definition py_iter (v : pyval) : outcome (list pyval) :=
  match v with
  | PList l => Val l
  | PStr s => Val (PStr <$> str_chars s)
  | PDict d => Val (PStr ∘ fst <$> d)
  | _ => Exn TypeError
  end.

(** ** Keyword arguments *)

Fixpoint kw_get (k : string) (d : pydict) : option pyval :=
  match d with
  | [] => None
  | (k', v) :: d => if decide (k = k') then Some v else kw_get k d
  end.

(** [f(p1, ..., pn, **d)] binds when [d] is a mapping, none of its keys names a
    parameter that is already bound ([bound]), each key names a parameter unless
    the callee takes [**kwargs] ([varkw]), and every parameter without a default
    ([required]) is given; anything else is a [TypeError]. *)
Definition bind_kwargs (bound accepted required : list string) (varkw : bool)
    (v : pyval) : outcome pydict :=
  match v with
  | PDict d =>
      if forallb (λ k, negb (bool_decide (k ∈ bound))) d.*1
         && (varkw || forallb (λ k, bool_decide (k ∈ accepted)) d.*1)
         && forallb (λ k, bool_decide (k ∈ d.*1)) required
      then Val d else Exn TypeError
  | _ => Exn TypeError
  end.

(** A parameter with a default value. *)
Definition kw_default (k : string) (dflt : pyval) (d : pydict) : pyval :=
  default dflt (kw_get k d).

(** A parameter that [bind_kwargs] required. *)
Definition kw_required (k : string) (d : pydict) : outcome pyval :=
  match kw_get k d with Some v => Val v | None => Exn TypeError end.

(** ** Lemmas *)

Lemma in_range_spec lo hi v n :
  in_range lo hi v = Some n ↔
  as_num v = Some n ∧ (lo ≤ num_val n < hi)%Z.
Proof.
  unfold in_range. destruct (as_num v) as [m|]; [|naive_solver].
  destruct (_ && _) eqn:E.
  - apply andb_true_iff in E as [?%Z.leb_le ?%Z.ltb_lt]. naive_solver.
  - apply andb_false_iff in E as [?%Z.leb_gt|?%Z.ltb_ge]; naive_solver lia.
Qed.

Lemma in_range_int lo hi z :
  (lo ≤ z < hi)%Z → in_range lo hi (PInt z) = Some (NInt z).
Proof. intros ?. by apply in_range_spec. Qed.

Lemma as_num_int v z : as_num v = Some (NInt z) → v = PInt z.
Proof. destruct v as [|?|?|[]|?|?|?]; simpl; try done; [naive_solver|].
  by case_match.
Qed.

Lemma kw_get_elem k d : k ∈ d.*1 ↔ ∃ v, kw_get k d = Some v.
Proof.
  induction d as [|[k' v] d IH]; simpl.
  - split; [by intros ?%elem_of_nil|naive_solver].
  - rewrite elem_of_cons, IH. case_decide; naive_solver.
Qed.

Lemma bind_kwargs_Val bound accepted required varkw v d :
  bind_kwargs bound accepted required varkw v = Val d →
  v = PDict d ∧ Forall (λ k, ∃ x, kw_get k d = Some x) required.
Proof.
  destruct v; simpl; try done. case_match; [|done]. intros [= <-].
  bool_hyps. split; [done|]. apply Forall_forall. intros k Hk.
  apply kw_get_elem. eapply forallb_forall in H0; [|by apply list_elem_of_In].
  by apply bool_decide_eq_true in H0.
Qed.

Lemma py_int_errors v e :
  py_int v = Exn e → e = ValueError ∨ e = TypeError ∨
    (e = OverflowError ∧ ∃ b, v = PFloat (FInf b)).
Proof.
  destruct v as [|?|?|[]|?|?|?]; simpl; try case_match; intros [= <-]; eauto 7.
Qed.

Example float_of_str_ex :
  float_of_str "122953.5e1" = Some (FFin 1229535 1) ∧
  float_of_str "-.25" = Some (FFin (-25) 100) ∧ float_of_str "1e999" = Some (FInf false) ∧
  float_of_str "." = None ∧ float_of_str "1e" = None.
Proof. vm_compute. done. Qed.
