(* ===== verification/Config.v ===== *)
(** * Static configuration ([gateway_code/config.py])

    The paths of the package's files, the experiment files of the users, and the
    board's configuration read from one file per key. *)

From S2P Require Import Prelude PyString Effects.

Section config.
Context `{E : Env}.

(** [os.path.join(a, b)] for a relative [b] *)
Definition path_join (a b : string) : string :=
  match String.get (String.length a - 1) a with
  | Some "/"%char => a +:+ b
  | _ => if decide (a = "") then b else a +:+ "/" +:+ b
  end.

Definition STATIC_DIR : string := path_join env_pkg_dir "static".

Definition static_path (static_file : string) : string := path_join STATIC_DIR static_file.

(** [EXP_FILES_DIR.format(user=user, exp_id=exp_id)] *)
Definition EXP_FILES_DIR (user exp_id : string) : string :=
  path_join env_users_dir (user +:+ "/.iot-lab/" +:+ exp_id +:+ "/").

(** [EXP_FILES]: the name of each file, [{node_id}] to be replaced *)
Definition EXP_FILES (node_id : string) : list (string * string) :=
  [("consumption", "consumption/" +:+ node_id +:+ ".oml");
   ("radio", "radio/" +:+ node_id +:+ ".oml");
   ("event", "event/" +:+ node_id +:+ ".oml");
   ("sniffer", "sniffer/" +:+ node_id +:+ ".oml");
   ("log", "log/" +:+ node_id +:+ ".log")].

Context {St : Type}.

(** The bits of [stat]: read and write for the user, the group and the others. *)
Definition STAT_0666 : Z :=
  fold_left Z.lor [0x100; 0x080; 0x020; 0x010; 0x004; 0x002]%Z 0%Z.

(** [create_user_file(file_path)]: created empty, then mode 0666 *)
Definition create_user_file (file_path : string) : M St string :=
  p_open file_path "w" ;;
  err ← ask (EvChmod file_path STAT_0666) (λ t, env_chmod t file_path);
  match err with
  | None => mret file_path
  | Some n => raise (OSError n)
  end.

(** [clean_user_file(file_path)]: removed when empty, [OSError] ignored *)
Definition clean_user_file (file_path : string) : M St unit :=
  size ← ask (EvGetSize file_path) (λ t, env_getsize t file_path);
  match size with
  | Some n =>
      if (n =? 0)%Z then ask (EvRemove file_path) (λ t, env_remove t file_path) ;; mret tt
      else mret tt
  | None => mret tt
  end.

(** The default argument of [read_config]: not provided, or a value. *)
Inductive cfg_default := NotProvided | Default (v : option string).

(** [read_config(key, default)]; [None] is Python's [None] *)
Definition read_config (key : string) (default : cfg_default) : M St (option string) :=
  let entry := path_join env_cfg_dir key in
  r ← ask (EvRead entry) (λ t, env_read t entry);
  match r, default with
  | inr content, _ => mret (Some (str_replace "-" "_" (str_lower (str_strip content))))
  | inl n, NotProvided => raise (IOError n)
  | inl _, Default v => mret v
  end.
End config.

Section config_facts.
Context `{E : Env} {St : Type}.

Lemma preserves_clean_user_file (I : St → Prop) file_path :
  preserves I (clean_user_file file_path).
Proof. unfold clean_user_file. preserve. Qed.

Lemma preserves_create_user_file (I : St → Prop) file_path :
  preserves I (create_user_file file_path).
Proof. unfold create_user_file, p_open. preserve. Qed.

(** A configuration value has no dash, no upper case and no blank around. *)
Lemma read_config_value key default (s : St) t content :
  env_read (t ++ [EvRead (path_join env_cfg_dir key)]) (path_join env_cfg_dir key) = inr content →
  read_config key default s t =
    (Val (Some (str_replace "-" "_" (str_lower (str_strip content)))), s,
     t ++ [EvRead (path_join env_cfg_dir key)]).
Proof. intros H. unfold read_config, ask, mbind, M_bind. by rewrite H. Qed.
End config_facts.

#[export] Hint Resolve preserves_clean_user_file preserves_create_user_file : preserve.
