(* ===== verification/Profile.v ===== *)
(** * Monitoring profiles ([gateway_code/profile.py])

    [Profile.from_dict] turns the JSON description of a profile into a
    [Profile] object or raises [ValueError].  [Consumption] and [Radio] are the
    two monitoring configurations a profile may hold. *)

From S2P Require Import Prelude PyString Effects PyVal.

(** ** Data *)

(** An instance of [Consumption]: [power], [voltage] and [current] are stored
    as they were given. *)
Record Consumption := MkConsumption {
  c_source : string;
  c_period : Z;
  c_average : Z;
  c_power : pyval;
  c_voltage : pyval;
  c_current : pyval
}.

(** An instance of [Radio] that passed [_is_valid]; there is no other. *)
Inductive radio_mode := Rssi | Sniffer.

Record Radio := MkRadio {
  r_mode : radio_mode;
  r_channels : list pynum;
  r_period : pynum;
  r_num_per_channel : option pynum
}.

(** An instance of [Profile]. *)
Record Profile := MkProfile {
  p_profilename : pyval;
  p_power : pyval;
  p_consumption : option Consumption;
  p_radio : option Radio
}.

(** [Consumption.choices] *)
Definition choices_period : list Z := [140; 204; 332; 588; 1100; 2116; 4156; 8244]%Z.
Definition choices_average : list Z := [1; 4; 16; 64; 128; 256; 512; 1024]%Z.
Definition choices_alim : list string := ["3.3V"; "5V"].

(** ** Constructors *)

(** [Consumption.__init__] after the arguments are bound. *)
Definition Consumption_init (alim : string) (source period average : pyval)
    (power voltage current : pyval) : outcome Consumption :=
  py_assert (negb (is_none period) && negb (is_none average)) ;;
  period ← py_int period;
  average ← py_int average;
  py_assert (bool_decide (period ∈ choices_period)) ;;
  py_assert (bool_decide (average ∈ choices_average)) ;;
  py_assert (bool_decide (alim ∈ choices_alim)) ;;
  mret {| c_source := if eq_str source "dc" then alim else "BATT";
          c_period := period;
          c_average := average;
          c_power := power;
          c_voltage := voltage;
          c_current := current |}.

(** [Consumption(alim, source=source, **consumption)] *)
Definition Consumption_new (alim : string) (source consumption : pyval)
    : outcome Consumption :=
  d ← bind_kwargs ["self"; "alim"; "source"]
        ["period"; "average"; "power"; "voltage"; "current"]
        ["period"; "average"] false consumption;
  period ← kw_required "period" d;
  average ← kw_required "average" d;
  Consumption_init alim source period average
    (kw_default "power" (PBool false) d)
    (kw_default "voltage" (PBool false) d)
    (kw_default "current" (PBool false) d).

(** The channels loop of [Radio.__init__]. *)
Fixpoint check_channels (l : list pyval) : outcome (list pynum) :=
  match l with
  | [] => mret []
  | v :: l =>
      match in_range 11 27 v with
      | None => Exn AssertionError
      | Some n => ns ← check_channels l; mret (n :: ns)
      end
  end.

(** [assert v in range(lo, hi)] *)
Definition assert_range (lo hi : Z) (v : pyval) : outcome pynum :=
  match in_range lo hi v with
  | Some n => Val n
  | None => Exn AssertionError
  end.

(** [Radio._is_valid] on the attributes [__init__] has set: the object, or the
    assertion that fails. *)
Definition Radio_is_valid (mode : pyval) (channels : list pynum)
    (period num_per_channel : pyval) : outcome Radio :=
  if eq_str mode "rssi" then
    py_assert (negb (is_none period)) ;;
    py_assert (bool_decide (length channels = 1) || negb (eq_int num_per_channel 0)) ;;
    p ← assert_range 1 (2 ^ 16) period;
    n ← assert_range 0 256 num_per_channel;
    mret (MkRadio Rssi channels p (Some n))
  else if eq_str mode "sniffer" then
    let period := if truthy period then period else PInt 0 in
    p ← assert_range 0 (2 ^ 16) period;
    py_assert (Bool.eqb (truthy period) (negb (bool_decide (length channels = 1)))) ;;
    py_assert (is_none num_per_channel) ;;
    mret (MkRadio Sniffer channels p None)
  else Exn AssertionError.

(** [Radio.__init__] after the arguments are bound. *)
Definition Radio_init (mode channels period num_per_channel : pyval) : outcome Radio :=
  py_assert (truthy channels) ;;
  l ← py_iter channels;
  ns ← check_channels l;
  Radio_is_valid mode ns period num_per_channel.

(** [Radio] called with [**radio] *)
Definition Radio_new (radio : pyval) : outcome Radio :=
  d ← bind_kwargs ["self"] ["mode"; "channels"; "period"; "num_per_channel"]
        ["mode"; "channels"] false radio;
  mode ← kw_required "mode" d;
  channels ← kw_required "channels" d;
  Radio_init mode channels
    (kw_default "period" PNone d) (kw_default "num_per_channel" PNone d).

(** The part of an open node class a profile reads: its [ALIM], which the
    classes without a power supply do not have. *)
Definition class_alim (alim : option string) : outcome string :=
  match alim with Some a => Val a | None => Exn AttributeError end.

(** [except TypeError as err: raise ValueError(...)] *)
Definition type_to_value {A} (o : outcome A) : outcome A :=
  match o with Exn TypeError => Exn ValueError | _ => o end.

(** [Profile.__init__] after the arguments are bound. *)
Definition Profile_init (alim : option string) (profilename power consumption radio : pyval)
    : outcome Profile :=
  type_to_value (
    c ← (if is_none consumption then mret None else
           a ← class_alim alim;
           c ← Consumption_new a power consumption;
           mret (Some c));
    r ← (if is_none radio then mret None else
           r ← Radio_new radio;
           mret (Some r));
    mret (MkProfile profilename power c r)).

(** [Profile(open_node_type, **profile_dict)] *)
Definition Profile_new (alim : option string) (profile_dict : pyval) : outcome Profile :=
  d ← bind_kwargs ["self"; "open_node_type"]
        ["profilename"; "power"; "consumption"; "radio"]
        ["profilename"; "power"] true profile_dict;
  profilename ← kw_required "profilename" d;
  power ← kw_required "power" d;
  Profile_init alim profilename power
    (kw_default "consumption" PNone d) (kw_default "radio" PNone d).

(** [Profile.from_dict]; [alim] is the [ALIM] of the open node class *)
Definition from_dict (alim : option string) (profile_dict : pyval)
    : outcome (option Profile) :=
  if is_none profile_dict then mret None else
  match Profile_new alim profile_dict with
  | Val p => Val (Some p)
  | Exn (ValueError | TypeError | AssertionError) => Exn ValueError
  | Exn e => Exn e
  | Hang => Hang
  end.

(** ** Well-formed profiles *)

Definition wf_consumption (c : Consumption) : Prop :=
  c_period c ∈ choices_period ∧ c_average c ∈ choices_average ∧
  c_source c ∈ ["3.3V"; "5V"; "BATT"].

Definition wf_radio (r : Radio) : Prop :=
  r_channels r ≠ [] ∧
  Forall (λ n, 11 ≤ num_val n ≤ 26)%Z (r_channels r) ∧
  match r_mode r, r_num_per_channel r with
  | Rssi, Some n =>
      (1 ≤ num_val (r_period r) < 2 ^ 16)%Z ∧ (0 ≤ num_val n < 256)%Z ∧
      (length (r_channels r) = 1 ∨ num_val n ≠ 0%Z)
  | Sniffer, None =>
      (0 ≤ num_val (r_period r) < 2 ^ 16)%Z ∧
      (num_val (r_period r) ≠ 0%Z ↔ length (r_channels r) ≠ 1)
  | _, _ => False
  end.

Definition wf_profile (p : Profile) : Prop :=
  (∀ c, p_consumption p = Some c → wf_consumption c) ∧
  (∀ r, p_radio p = Some r → wf_radio r).

(** ** Lemmas *)

Lemma check_channels_Val l ns :
  check_channels l = Val ns ↔ Forall2 (λ v n, in_range 11 27 v = Some n) l ns.
Proof.
  revert ns; induction l as [|v l IH]; intros ns; simpl.
  - split; [intros [= <-]; constructor|by inversion 1].
  - split.
    + destruct (in_range 11 27 v) eqn:E; [|done]. intros H. inv_val.
      constructor; [done|]. by apply IH.
    + inversion 1 as [|? n ? ns' Hv Hl]; subst. rewrite Hv.
      apply IH in Hl. by rewrite Hl.
Qed.

Lemma check_channels_length l ns : check_channels l = Val ns → length ns = length l.
Proof. rewrite check_channels_Val. intros H. by apply Forall2_length in H. Qed.

Lemma assert_range_Val lo hi v n : assert_range lo hi v = Val n ↔ in_range lo hi v = Some n.
Proof. unfold assert_range. split; [by case_match; naive_solver|by intros ->]. Qed.

(** The truth value of a number equal to an integer. *)
Lemma truthy_num v n : as_num v = Some n → truthy v = negb (num_val n =? 0)%Z.
Proof.
  destruct v as [|[]|?|[x d| |?]|?|?|?]; simpl; try by intros [= <-]; try done.
  case_match eqn:E; [|done]. intros [= <-]. simpl. f_equal.
  apply Z.eqb_eq in E.
  destruct (Z.eqb_spec x 0), (Z.eqb_spec (x / Zpos d) 0) as [H|]; try done; subst.
  - by rewrite Zdiv_0_l in *.
  - apply Z.div_exact in E; [|done]. rewrite H in E. lia.
Qed.

Lemma eq_int_num v n z : as_num v = Some n → eq_int v z = (num_val n =? z)%Z.
Proof. unfold eq_int. by intros ->. Qed.

Ltac range_hyps :=
  rewrite ?assert_range_Val in *;
  repeat match goal with
  | H : in_range _ _ _ = Some _ |- _ => apply in_range_spec in H as [??]
  end.

Lemma Radio_is_valid_wf mode channels period num r :
  Forall (λ n, 11 ≤ num_val n ≤ 26)%Z channels → channels ≠ [] →
  Radio_is_valid mode channels period num = Val r → wf_radio r.
Proof.
  intros Hch Hne. unfold Radio_is_valid, wf_radio.
  case_match; [|case_match; [|done]]; intros Hr; inv_val; range_hyps; simpl;
    do 2 (split; [done|]); split; try done.
  - split; [done|].
    match goal with H : _ || _ = true |- _ => apply orb_true_iff in H as [Hb|Hb] end.
    + left. by bool_hyps.
    + right. erewrite eq_int_num in Hb by done. by bool_hyps.
  - match goal with H : Bool.eqb _ _ = true |- _ => apply Bool.eqb_prop in H as Hb end.
    erewrite truthy_num in Hb by done.
    destruct (Z.eqb_spec (num_val a) 0), (bool_decide_reflect (length channels = 1)); naive_solver.
Qed.

Lemma check_channels_range l ns :
  check_channels l = Val ns → Forall (λ n, 11 ≤ num_val n ≤ 26)%Z ns.
Proof.
  rewrite check_channels_Val. induction 1; constructor; [|done].
  range_hyps. lia.
Qed.

Lemma Radio_init_wf mode channels period num r :
  Radio_init mode channels period num = Val r → wf_radio r.
Proof.
  unfold Radio_init. intros H. inv_val.
  eapply Radio_is_valid_wf; [by eapply check_channels_range| |done].
  intros ->. apply check_channels_length in E1. simpl in E1.
  destruct channels as [|?|?|?|[|c w]|[]|[|[]]]; simpl in *; simplify_eq/=.
Qed.

Lemma Radio_new_wf v r : Radio_new v = Val r → wf_radio r.
Proof. unfold Radio_new. intros H. inv_val. by eapply Radio_init_wf. Qed.

Lemma Consumption_init_wf alim source period average power voltage current c :
  Consumption_init alim source period average power voltage current = Val c →
  wf_consumption c ∧ c_source c = (if eq_str source "dc" then alim else "BATT").
Proof.
  unfold Consumption_init, wf_consumption. intros H. inv_val. bool_hyps. simpl.
  split_and!; try done. unfold choices_alim in *. case_match; set_solver.
Qed.

Lemma Consumption_new_wf alim source v c :
  Consumption_new alim source v = Val c →
  wf_consumption c ∧ c_source c = (if eq_str source "dc" then alim else "BATT").
Proof.
  unfold Consumption_new. intros H. inv_val. by eapply Consumption_init_wf.
Qed.

Lemma type_to_value_Val {A} (o : outcome A) a : type_to_value o = Val a → o = Val a.
Proof. by destruct o as [|[]|]. Qed.

Lemma Profile_init_wf alim name power consumption radio p :
  Profile_init alim name power consumption radio = Val p → wf_profile p.
Proof.
  unfold Profile_init, wf_profile. intros H%type_to_value_Val. inv_val. simpl.
  split; intros x ->.
  - destruct (is_none consumption); inv_val. by eapply Consumption_new_wf.
  - destruct (is_none radio); inv_val. by eapply Radio_new_wf.
Qed.

Lemma from_dict_Some alim v p : from_dict alim v = Val (Some p) → Profile_new alim v = Val p.
Proof. unfold from_dict. destruct (is_none v); [done|]. dmatches; naive_solver. Qed.

(** The exceptions [from_dict] turns into [ValueError]. *)
Definition handled (e : exn) : Prop :=
  e = ValueError ∨ e = TypeError ∨ e = AssertionError.

(** A consumption description whose period or average is infinite. *)
Definition infinite_consumption (v : pyval) : Prop :=
  ∃ d k b, v = PDict d ∧ k ∈ ["period"; "average"] ∧
           kw_get k d = Some (PFloat (FInf b)).

Lemma bind_kwargs_Exn bound accepted required varkw v e :
  bind_kwargs bound accepted required varkw v = Exn e → e = TypeError.
Proof. destruct v; simpl; try (by intros [= <-]). case_match; by intros [= <-]. Qed.

Lemma kw_required_Exn k d e : kw_required k d = Exn e → e = TypeError.
Proof. unfold kw_required. case_match; by intros [= <-]. Qed.

Lemma kw_required_Val k d v : kw_required k d = Val v → kw_get k d = Some v.
Proof. unfold kw_required. case_match; by intros [= <-]. Qed.

Lemma check_channels_Exn l e : check_channels l = Exn e → e = AssertionError.
Proof.
  induction l as [|v l IH]; simpl; [done|].
  case_match; [|by intros [= <-]]. intros H'. inv_exn; auto.
Qed.

Lemma assert_range_Exn lo hi v e : assert_range lo hi v = Exn e → e = AssertionError.
Proof. unfold assert_range. case_match; by intros [= <-]. Qed.

Lemma py_iter_Exn v e : py_iter v = Exn e → e = TypeError.
Proof. destruct v; simpl; by intros [= <-]. Qed.

Lemma Radio_is_valid_Exn mode ns period num e :
  Radio_is_valid mode ns period num = Exn e → e = AssertionError.
Proof.
  unfold Radio_is_valid. repeat case_match; intros Hr; inv_exn; try done;
    try (by eapply assert_range_Exn); by simplify_eq.
Qed.

Lemma Radio_new_Exn v e : Radio_new v = Exn e → handled e.
Proof.
  unfold Radio_new, Radio_init, handled. intros H. inv_exn; subst; auto.
  - apply bind_kwargs_Exn in H; auto.
  - apply kw_required_Exn in H; auto.
  - apply kw_required_Exn in H; auto.
  - apply py_iter_Exn in H; auto.
  - apply check_channels_Exn in H; auto.
  - apply Radio_is_valid_Exn in H; auto.
Qed.

Lemma Consumption_new_Exn alim source v e :
  Consumption_new alim source v = Exn e →
  handled e ∨ (e = OverflowError ∧ infinite_consumption v).
Proof.
  unfold Consumption_new, Consumption_init, handled. intros H. inv_exn; subst; auto.
  - apply bind_kwargs_Exn in H; auto.
  - apply kw_required_Exn in H; auto.
  - apply kw_required_Exn in H; auto.
  - apply py_int_errors in H as [?|[?|[-> [b ->]]]]; auto. right. split; [done|].
    apply bind_kwargs_Val in E as [-> _]. apply kw_required_Val in E0.
    exists a, "period", b. split_and!; [done|set_solver|done].
  - apply py_int_errors in H as [?|[?|[-> [b ->]]]]; auto. right. split; [done|].
    apply bind_kwargs_Val in E as [-> _]. apply kw_required_Val in E1.
    exists a, "average", b. split_and!; [done|set_solver|done].
Qed.

Lemma type_to_value_Exn {A} (o : outcome A) e :
  type_to_value o = Exn e → o = Exn e ∨ (o = Exn TypeError ∧ e = ValueError).
Proof. destruct o as [|[]|]; naive_solver. Qed.

Lemma Profile_new_Exn alim v e :
  Profile_new alim v = Exn e →
  handled e ∨
  ∃ d c, v = PDict d ∧ kw_get "consumption" d = Some c ∧ c ≠ PNone ∧
         ((alim = None ∧ e = AttributeError) ∨
          (e = OverflowError ∧ infinite_consumption c)).
Proof.
  unfold Profile_new. intros H. inv_exn; subst.
  - left. apply bind_kwargs_Exn in H. unfold handled; auto.
  - left. apply kw_required_Exn in H. unfold handled; auto.
  - left. apply kw_required_Exn in H. unfold handled; auto.
  - apply bind_kwargs_Val in E as [-> _].
    apply type_to_value_Exn in H as [H|[_ ->]]; [|unfold handled; eauto].
    unfold kw_default in H. inv_exn.
    + destruct (kw_get "consumption" a) as [c|] eqn:Ec; simpl in H; [|done].
      destruct (is_none c) eqn:En; [done|].
      assert (c ≠ PNone) by (by intros ->). inv_exn.
      * destruct alim; simpl in H; simplify_eq. eauto 10.
      * apply Consumption_new_Exn in H as [?|[??]]; eauto 10.
    + case_match; [done|]. inv_exn. left. by eapply Radio_new_Exn.
Qed.

Lemma check_channels_ints cs ns :
  check_channels (PInt <$> cs) = Val ns ↔
  Forall (λ c, 11 ≤ c ≤ 26)%Z cs ∧ ns = NInt <$> cs.
Proof.
  rewrite check_channels_Val. revert ns; induction cs as [|c cs IH]; intros ns; simpl.
  - split; [by inversion 1|]. intros [_ ->]. constructor.
  - rewrite Forall_cons. split.
    + inversion 1 as [|? n ? ns' Hc Hcs]; subst. range_hyps. simpl in *. simplify_eq/=.
      apply IH in Hcs as [? ->]. split_and!; try done; lia.
    + intros [[??] ->]. constructor; [apply in_range_int; lia|]. by apply IH.
Qed.

Lemma Radio_init_ints mode cs period num r :
  Radio_init mode (PList (PInt <$> cs)) period num = Val r ↔
  cs ≠ [] ∧ Forall (λ c, 11 ≤ c ≤ 26)%Z cs ∧
  Radio_is_valid mode (NInt <$> cs) period num = Val r.
Proof.
  unfold Radio_init. split.
  - intros H. inv_val. simpl in *. simplify_eq. apply check_channels_ints in E1 as [? ->].
    split_and!; try done. by intros ->.
  - intros (Hne & Hcs & Hr). destruct cs as [|c cs]; [done|].
    assert (check_channels (PInt <$> c :: cs) = Val (NInt <$> c :: cs)) as Hch
      by by apply check_channels_ints.
    simpl in *. by rewrite Hch.
Qed.

(** ** Properties *)

(** C17: a dictionary [from_dict] accepts gives a well-formed profile: the
    consumption period and average are supported values and the measured source
    is the board supply exactly when the power source is ['dc']; radio channels
    are a non-empty list within 11-26 and the period and the measures per channel
    are within the bounds of the radio mode. *)
Theorem from_dict_wf (alim : option string) (v : pyval) (p : Profile)
    (Hp : from_dict alim v = Val (Some p)) :
  wf_profile p ∧
  ∀ c, p_consumption p = Some c →
       ∃ a, alim = Some a ∧
            c_source c = (if eq_str (p_power p) "dc" then a else "BATT").
Proof.
  apply from_dict_Some in Hp. unfold Profile_new in Hp. inv_val.
  split; [by eapply Profile_init_wf|]. intros c Hc.
  apply type_to_value_Val in Hp. inv_val. simpl in *. subst.
  destruct (is_none (kw_default "consumption" PNone a)); inv_val.
  destruct alim; simpl in *; simplify_eq.
  match goal with
  | H : Consumption_new _ _ _ = Val _ |- _ => apply Consumption_new_wf in H as [_ ?]
  end.
  eauto.
Qed.

(** The profile of the tests with a consumption and a radio part. *)
Definition mixed_profile : pyval :=
  PDict [("profilename", PStr "mixed"); ("power", PStr "dc");
         ("consumption", PDict [("period", PInt 140); ("average", PInt 1);
                                ("power", PBool true)]);
         ("radio", PDict [("mode", PStr "rssi"); ("channels", PList [PInt 11; PInt 14]);
                          ("period", PInt 1); ("num_per_channel", PInt 1)])].

Definition mixed_profile_object : Profile :=
  MkProfile (PStr "mixed") (PStr "dc")
    (Some (MkConsumption "3.3V" 140 1 (PBool true) (PBool false) (PBool false)))
    (Some (MkRadio Rssi [NInt 11; NInt 14] (NInt 1) (Some (NInt 1)))).

Lemma from_dict_wf_witness :
  from_dict (Some "3.3V") mixed_profile = Val (Some mixed_profile_object) ∧
  wf_profile mixed_profile_object.
Proof.
  assert (from_dict (Some "3.3V") mixed_profile = Val (Some mixed_profile_object)) as H
    by (vm_compute; reflexivity).
  split; [exact H|]. exact (proj1 (from_dict_wf _ _ _ H)).
Defined.

(** C18: [from_dict] rejects with [ValueError], as it documents, in all cases but
    two: a consumption part for a board class without [ALIM] raises
    [AttributeError], and an infinite period or average raises [OverflowError]. *)
Theorem from_dict_exceptions (alim : option string) (v : pyval) (e : exn)
    (He : from_dict alim v = Exn e) :
  e = ValueError ∨
  ∃ d c, v = PDict d ∧ kw_get "consumption" d = Some c ∧ c ≠ PNone ∧
         ((alim = None ∧ e = AttributeError) ∨
          (e = OverflowError ∧ infinite_consumption c)).
Proof.
  unfold from_dict in He. case_match; [done|].
  destruct (Profile_new alim v) as [|e'|] eqn:E; [done| |done].
  apply Profile_new_Exn in E as [[->|[->| ->]]|(d & c & -> & Hc & Hne & Hor)].
  1-3: by left; simplify_eq.
  right. exists d, c. split_and!; try done.
  destruct Hor as [[-> ->]|[-> ?]]; simplify_eq; eauto.
Qed.

(** The usual rejection, and the board class without [ALIM]. *)
Example from_dict_rejections :
  from_dict (Some "5V") (PDict [("power", PStr "dc")]) = Exn ValueError ∧
  from_dict None mixed_profile = Exn AttributeError.
Proof. split; vm_compute; reflexivity. Qed.

(** A profile with an infinite period. *)
Definition infinite_profile : pydict :=
  [("profilename", PStr "x"); ("power", PStr "dc");
   ("consumption", PDict [("period", PFloat (FInf false)); ("average", PInt 1)])].

Lemma from_dict_exceptions_witness :
  from_dict (Some "5V") (PDict infinite_profile) = Exn OverflowError ∧
  (OverflowError = ValueError ∨
   ∃ d c, PDict infinite_profile = PDict d ∧ kw_get "consumption" d = Some c ∧ c ≠ PNone ∧
     ((Some "5V" = None ∧ OverflowError = AttributeError) ∨
      (OverflowError = OverflowError ∧ infinite_consumption c))).
Proof.
  assert (He : from_dict (Some "5V") (PDict infinite_profile) = Exn OverflowError)
    by (vm_compute; reflexivity).
  split; [exact He|]. exact (from_dict_exceptions (Some "5V") _ _ He).
Defined.

(** Which radio configurations are accepted, on integer inputs: RSSI needs
    channels within 11-26, a period of 16 bits above zero and an 8-bit number of
    measures that may be zero on a single channel only; the sniffer needs a zero
    period on a single channel and a non-zero one on several. *)
Theorem radio_accepts_iff (cs : list Z) (p n : Z) (r : Radio) :
  (Radio_init (PStr "rssi") (PList (PInt <$> cs)) (PInt p) (PInt n) = Val r ↔
   cs ≠ [] ∧ Forall (λ c, 11 ≤ c ≤ 26)%Z cs ∧ (1 ≤ p < 2 ^ 16)%Z ∧
   (0 ≤ n < 256)%Z ∧ (length cs = 1 ∨ n ≠ 0%Z) ∧
   r = MkRadio Rssi (NInt <$> cs) (NInt p) (Some (NInt n))) ∧
  (Radio_init (PStr "sniffer") (PList (PInt <$> cs)) (PInt p) PNone = Val r ↔
   cs ≠ [] ∧ Forall (λ c, 11 ≤ c ≤ 26)%Z cs ∧ (0 ≤ p < 2 ^ 16)%Z ∧
   (p = 0%Z ↔ length cs = 1) ∧
   r = MkRadio Sniffer (NInt <$> cs) (NInt p) None).
Proof.
  rewrite !Radio_init_ints. split.
  - unfold Radio_is_valid. simpl. split.
    + intros (?&?&H). inv_val. range_hyps. simpl in *. simplify_eq/=.
      rewrite length_fmap in *. split_and!; try done; try lia.
      match goal with
      | H : _ || _ = true |- _ =>
          apply orb_true_iff in H as [?%bool_decide_eq_true|Hb]; [by left|right]
      end.
      unfold eq_int in Hb. simpl in Hb. by bool_hyps.
    + intros (?&?&?&?&Hor&->). split_and!; try done.
      unfold assert_range. rewrite length_fmap, !in_range_int by lia.
      unfold eq_int; simpl. destruct Hor as [->|Hn]; [done|].
      apply Z.eqb_neq in Hn. rewrite Hn, orb_true_r. done.
  - unfold Radio_is_valid. simpl.
    assert (Hp : (if negb (p =? 0)%Z then PInt p else PInt 0) = PInt p)
      by (destruct (Z.eqb_spec p 0); simpl; congruence).
    rewrite Hp, length_fmap. simpl. split.
    + intros (?&?&H). inv_val. range_hyps. simpl in *. simplify_eq/=.
      match goal with H : Bool.eqb _ _ = true |- _ => apply Bool.eqb_prop in H end.
      split_and!; try done; try lia;
      destruct (Z.eqb_spec p 0), (bool_decide_reflect (length cs = 1)); naive_solver.
    + intros (?&?&?&Hor&->). split_and!; try done.
      unfold assert_range. rewrite in_range_int by lia. simpl.
      destruct (Z.eqb_spec p 0), (bool_decide_reflect (length cs = 1)); simpl; naive_solver.
Qed.
