(* ===== verification/Common.v ===== *)
(** * Common functions ([gateway_code/common.py])

    The polling loops [wait_cond], [wait_tty] and [wait_no_tty], the
    [synchronous] decorator that guards the manager with a non-blocking lock,
    [abspath], [booleanize], [empty_queue], the log decorator [logger_call], the
    feature test [object_attr_has] and the decorator built on it. *)

From S2P Require Import Prelude PyString Effects PyVal.

(** ** Waiting for a condition *)

(** The embedded need some time to detect the tty (milliseconds). *)
Definition TTY_DETECT_TIME : Z := 3000.

Section wait.
Context `{E : Env} {St : Type}.

(** The loop of [wait_cond].  The fuel bounds the number of polls. *)
Fixpoint wait_loop (fuel : nat) (deadline : Z) (value : bool) (fct : M St bool)
    : M St bool :=
  match fuel with
  | O => hang
  | S fuel =>
      v ← fct;
      if Bool.eqb value v then mret true else
      now ← p_time;
      if (deadline <? now)%Z then mret false else
      p_sleep 100 ;;
      wait_loop fuel deadline value fct
  end.

(** A poll every 100 ms at least: [timeout / 100 + 2] polls are enough. *)
Definition wait_fuel (timeout : Z) : nat := Z.to_nat (timeout / 100) + 2.

(** [wait_cond(timeout, value, fct)], [timeout] in milliseconds *)
Definition wait_cond (timeout : Z) (value : bool) (fct : M St bool) : M St bool :=
  time_ref ← p_time;
  wait_loop (wait_fuel timeout) (time_ref + timeout)%Z value fct.

Definition wait_tty (dev_tty : string) (timeout : Z) : M St Z :=
  ok ← wait_cond timeout true (p_exists dev_tty);
  mret (status ok).

Definition wait_no_tty (dev_tty : string) (timeout : Z) : M St Z :=
  ok ← wait_cond timeout false (p_exists dev_tty);
  mret (status ok).

(** [abspath(path)]: the absolute path of a file this user can open *)
Definition abspath (path : string) : M St string :=
  p_open (env_abspath path) "rb" ;;
  mret (env_abspath path).
End wait.

(** ** Conversions *)

(** [value in (...)] for the strings and the number of [booleanize] *)
Definition in_truth (words : list string) (num : Z) (v : pyval) : bool :=
  match v with
  | PStr s => bool_decide (s ∈ words)
  | _ => eq_int v num
  end.

Definition booleanize (value : pyval) : outcome bool :=
  match value with
  | PBool b => Val b
  | _ =>
      let value := match value with PStr s => PStr (str_lower s) | _ => value end in
      if in_truth ["y"; "yes"; "t"; "true"; "on"; "1"] 1 value then Val true
      else if in_truth ["n"; "no"; "f"; "false"; "off"; "0"] 0 value || is_none value
      then Val false
      else Exn ValueError
  end.

(** [deepgetattr(obj, attr)]: [functools.reduce(getattr, attr.split('.'), obj)] *)
Definition deepgetattr {O} (getattr : O → string → outcome O) (obj : O) (attr : string)
    : outcome O :=
  foldl (λ o name, o ≫= λ obj, getattr obj name) (Val obj) (str_split "."%char attr).

(** [empty_queue(my_queue)], when no other thread uses the queue *)
Fixpoint empty_queue {A} (my_queue : list A) : list A :=
  match my_queue with
  | [] => []
  | _ :: my_queue => empty_queue my_queue            (* get_nowait() *)
  end.

(** The decorator [logger_call(msg)]; the two loggers are given. *)
Definition logger_call {St} (log_msg : string → M St unit) (log_err : string → Z → M St unit)
    (msg : string) (func : M St Z) : M St Z :=
  log_msg msg ;;
  ret ← func;
  (if (ret =? 0)%Z then mret tt else log_err msg ret) ;;
  mret ret.

(** [object_attr_has(obj, features_attr, required_list)], given the value of the
    attribute chain [features_attr] of [obj] *)
Definition object_attr_has (available required_list : list string) : bool :=
  forallb (λ r, bool_decide (r ∈ available)) required_list.

(** The decorator [class_attr_has]: the call is replaced by [0] when a required
    feature is missing. *)
Definition class_attr_has {St} (available required_list : list string)
    (func : M St Z) : M St Z :=
  if object_attr_has available required_list then func else mret 0%Z.

(** ** The non-blocking lock *)

(** [threading.RLock]: its owner and how many times it acquired it. *)
Record RLock := MkRLock { rl_owner : option nat; rl_count : nat }.

Definition rl_free : RLock := MkRLock None 0.

(** [lock.acquire(blocking=False)] by thread [tid]; [None] when refused *)
Definition try_acquire (tid : nat) (l : RLock) : option RLock :=
  match rl_owner l with
  | None => Some (MkRLock (Some tid) 1)
  | Some o => if decide (o = tid) then Some (MkRLock (Some o) (S (rl_count l))) else None
  end.

(** [lock.release()] *)
Definition release (l : RLock) : RLock :=
  match rl_count l with
  | S (S n) => MkRLock (rl_owner l) (S n)
  | _ => rl_free
  end.

(** A lock state that can occur: free, or owned and counted. *)
Definition rl_wf (l : RLock) : Prop :=
  match rl_owner l with None => rl_count l = 0 | Some _ => 0 < rl_count l end.

(** The decorator [synchronous(tlockname)]; the lens is the lock attribute. *)
Definition synchronous {St A} (lk : lens St RLock) (tid : nat) (func : M St A)
    : M St A :=
  l ← gets (lget lk);
  match try_acquire tid l with
  | None => raise (EnvironmentError EWOULDBLOCK)
  | Some l' =>
      modify (lset lk l') ;;
      try_finally func (modify (λ s, lset lk (release (lget lk s)) s))
  end.

(** ** Lemmas on the helpers *)

(** An attribute chain, one attribute after the other. *)
Lemma deepgetattr_cons {O} (getattr : O → string → outcome O) obj name attr :
  no_char "."%char name →
  deepgetattr getattr obj (name +:+ "." +:+ attr) =
    getattr obj name ≫= λ obj, deepgetattr getattr obj attr.
Proof.
  intros Hn. unfold deepgetattr. change ("." +:+ attr) with (String "."%char attr).
  rewrite str_split_app by done. cbn [foldl].
  change (Val obj ≫= (λ obj, getattr obj name)) with (getattr obj name).
  destruct (getattr obj name); [done|..]; generalize (str_split "."%char attr) as l;
    induction l; done.
Qed.

Lemma empty_queue_nil {A} (q : list A) : empty_queue q = [].
Proof. by induction q. Qed.

(** A logger that returns leaves the call as it is. *)
Lemma logger_call_transparent {St} (log_msg : string → M St unit)
    (log_err : string → Z → M St unit) msg func :
  (∀ m s t, log_msg m s t = (Val tt, s, t)) → (∀ m r s t, log_err m r s t = (Val tt, s, t)) →
  ∀ s t, logger_call log_msg log_err msg func s t = func s t.
Proof.
  intros Hm He s t. unfold logger_call, mbind, M_bind. rewrite Hm.
  destruct (func s t) as [[ [r|e|] s'] t']; [|done..]. destruct (r =? 0)%Z; [done|].
  by rewrite He.
Qed.

(** ** Lemmas on the polling loop *)

Section wait_facts.
Context `{E : Env} {St : Type}.

(** Every poll of [path] made after [t] in [t'] answered something else than
    [value]. *)
Definition polls_differ (path : string) (value : bool) (t t' : trace) : Prop :=
  ∀ u, t ++ u ++ [EvExists path] `prefix_of` t' →
       env_exists (t ++ u ++ [EvExists path]) path ≠ value.

(** What the loop guarantees when it started at [t0] and now is at [t']. *)
Definition wait_post (path : string) (value : bool) (t0 : trace) (deadline : Z)
    (s : St) (o : outcome bool) (s' : St) (t' : trace) : Prop :=
  s' = s ∧ t0 `prefix_of` t' ∧
  ((o = Val true ∧ env_exists t' path = value ∧
    ∃ u, t' = t0 ++ u ++ [EvExists path]) ∨
   (o = Val false ∧ (deadline < env_time t')%Z ∧ polls_differ path value t0 t')).

Lemma polls_differ_nil path value t : polls_differ path value t t.
Proof.
  intros u [k Hk]. exfalso. apply (f_equal length) in Hk.
  rewrite !length_app in Hk. simpl in Hk. lia.
Qed.

(** One more event, a failed poll or another request. *)
Lemma polls_differ_snoc path value t t' ev :
  polls_differ path value t t' →
  (ev = EvExists path → env_exists (t' ++ [ev]) path ≠ value) →
  polls_differ path value t (t' ++ [ev]).
Proof.
  intros Hp Hev u Hpre. apply prefix_app_snoc in Hpre as [Hpre|Heq].
  - by apply Hp.
  - rewrite Heq. apply Hev. rewrite (assoc_L (++)) in Heq.
    by apply app_inj_tail in Heq as [_ <-].
Qed.

Lemma wait_loop_post `{!ClockOk} path value t0 deadline fuel (s : St) t :
  t0 `prefix_of` t → polls_differ path value t0 t → 0 < fuel →
  (deadline < env_time t + 100 * (Z.of_nat fuel - 1))%Z →
  wp (wait_loop fuel deadline value (p_exists path))
     (wait_post path value t0 deadline s) s t.
Proof.
  revert t. induction fuel as [|fuel IH]; intros t Hpre Hdiff ? Hfuel; [lia|].
  unfold wp. simpl. unfold mbind, M_bind, p_exists, p_time, p_sleep, ask; simpl.
  set (t1 := t ++ [EvExists path]). set (t2 := t1 ++ [EvTime]).
  set (t3 := t2 ++ [EvSleep 100]).
  assert (Hpre1 : t0 `prefix_of` t1) by by apply prefix_app_r.
  destruct (Bool.eqb value (env_exists t1 path)) eqn:Hv.
  - apply Bool.eqb_prop in Hv. split_and!; [done..|]. left.
    split_and!; [done|by symmetry|]. destruct Hpre as [u ->].
    exists u. by rewrite (assoc_L (++)).
  - apply Bool.eqb_false_iff in Hv.
    assert (Hdiff1 : polls_differ path value t0 t1) by (apply polls_differ_snoc; auto).
    assert (Hdiff2 : polls_differ path value t0 t2) by (by apply polls_differ_snoc).
    pose proof (clock_ok t [EvExists path; EvTime]) as Hc.
    pose proof (clock_ok t2 [EvSleep 100]) as Hc2. simpl in Hc, Hc2.
    assert (Ht2 : t ++ [EvExists path; EvTime] = t2)
      by (unfold t2, t1; by rewrite <- (assoc_L (++))).
    rewrite Ht2 in Hc. change (t1 ++ [EvTime]) with t2. fold t3 in Hc2.
    destruct (Z.ltb_spec deadline (env_time t2)).
    + split; [done|]. split; [by apply prefix_app_r|]. by right.
    + destruct fuel as [|fuel]; [exfalso; lia|].
      refine (IH t3 _ _ _ _); [by do 2 apply prefix_app_r|
        by apply polls_differ_snoc|lia|lia].
Qed.

Lemma wait_fuel_enough timeout :
  (0 ≤ timeout)%Z → (timeout < 100 * (Z.of_nat (wait_fuel timeout) - 1))%Z.
Proof.
  intros Ht. unfold wait_fuel. rewrite Nat2Z.inj_add, Z2Nat.id by (apply Z.div_pos; lia).
  pose proof (Z.mod_pos_bound timeout 100). pose proof (Z.div_mod timeout 100). lia.
Qed.

Lemma wait_cond_post `{!ClockOk} path value timeout (s : St) t :
  (0 ≤ timeout)%Z →
  wp (wait_cond timeout value (p_exists path))
     (wait_post path value (t ++ [EvTime]) (env_time (t ++ [EvTime]) + timeout) s) s t.
Proof.
  intros Ht. unfold wait_cond. apply wp_bind. unfold wp at 1, p_time, ask.
  apply wait_loop_post; [done|apply polls_differ_nil|unfold wait_fuel; lia|].
  pose proof (wait_fuel_enough timeout Ht). lia.
Qed.

(** The status of a wait is 0 or 1. *)
Lemma wait_tty_status tty timeout :
  returns (λ r, 0 ≤ r)%Z (wait_tty tty timeout : M St Z).
Proof.
  eapply returns_bind; [apply returns_any|]. intros b _.
  apply returns_ret, status_nonneg.
Qed.

Lemma wait_no_tty_status tty timeout :
  returns (λ r, 0 ≤ r)%Z (wait_no_tty tty timeout : M St Z).
Proof.
  eapply returns_bind; [apply returns_any|]. intros b _.
  apply returns_ret, status_nonneg.
Qed.

Lemma preserves_wait_loop (I : St → Prop) fuel deadline value fct :
  preserves I fct → preserves I (wait_loop fuel deadline value fct).
Proof.
  intros Hf. induction fuel as [|fuel IH]; simpl; [by intros s t|].
  apply preserves_bind; [done|]. intros v. case_match; [apply preserves_ret|].
  apply preserves_bind; [apply preserves_ask|]. intros now.
  case_match; [apply preserves_ret|].
  apply preserves_bind; [apply preserves_ask|done].
Qed.
End wait_facts.

#[export] Hint Resolve wait_tty_status wait_no_tty_status : nonneg.

(** ** Lemmas on the lock *)

Lemma try_acquire_release tid l l' :
  rl_wf l → try_acquire tid l = Some l' → release l' = l.
Proof.
  destruct l as [[o|] n]; unfold rl_wf, try_acquire, release; simpl.
  - case_decide; [|done]. intros Hn [= <-]. destruct n; simpl; [lia|done].
  - by intros -> [= <-].
Qed.

Lemma try_acquire_wf tid l l' : rl_wf l → try_acquire tid l = Some l' → rl_wf l'.
Proof.
  destruct l as [[o|] n]; unfold rl_wf, try_acquire; simpl; intros ??;
    [case_decide|]; simplify_eq; simpl; lia.
Qed.

Lemma try_acquire_other tid l o :
  rl_owner l = Some o → o ≠ tid → try_acquire tid l = None.
Proof. unfold try_acquire. intros -> Hne. by case_decide. Qed.

Section lock_facts.
Context {St A : Type} (lk : lens St RLock) `{!LensLaws lk} (tid : nat).

(** A body that leaves the lock as it found it. *)
Definition lock_neutral (m : M St A) : Prop :=
  ∀ l, preserves (λ s, lget lk s = l) m.

(** The body runs with the lock taken once more, and on every exit but a hang
    the lock is as before the call. *)
Lemma synchronous_spec (m : M St A) Q s t l' :
  try_acquire tid (lget lk s) = Some l' →
  wp m (λ o s' t', match o with
                   | Hang => Q Hang s' t'
                   | _ => Q o (lset lk (release (lget lk s')) s') t'
                   end) (lset lk l' s) t →
  wp (synchronous lk tid m) Q s t.
Proof.
  intros Hl Hm. unfold synchronous. apply wp_bind. unfold wp at 1, gets. simpl.
  rewrite Hl. apply wp_bind. unfold wp at 1, modify. apply wp_try_finally.
  eapply wp_mono, Hm. by intros [].
Qed.

Lemma synchronous_neutral (m : M St A) :
  (∀ l, rl_wf l → preserves (λ s, lget lk s = l) m) →
  ∀ l s t, rl_wf l → lget lk s = l →
  wp (synchronous lk tid m)
     (λ o s' _, o = Hang ∨ lget lk s' = l) s t.
Proof.
  intros Hm l s t Hwf Hl. destruct (try_acquire tid l) as [l'|] eqn:E.
  - eapply synchronous_spec; [by rewrite Hl|].
    assert (Hwf' : rl_wf l').
    { destruct l as [[] ]; unfold try_acquire in E; simpl in E; [case_decide|];
        simplify_eq; unfold rl_wf; simpl; lia. }
    eapply wp_mono; [|by apply (Hm l'); [done|rewrite lget_lset]].
    intros [] s' t' Hs'; [right..|by left];
      rewrite lget_lset, Hs'; by eapply try_acquire_release.
  - unfold wp, synchronous, mbind, M_bind, gets. simpl. rewrite Hl, E. by right.
Qed.
End lock_facts.

(** ** Properties *)

(** C40: [wait_cond] on the presence of a file returns whatever the world does,
    provided the clock runs and [sleep] sleeps: [True] as soon as a poll gives
    the value, [False] only after more than [timeout] during which every poll
    gave the other value; the component state is not touched. *)
Theorem wait_cond_correct `{Env} `{!ClockOk} {St : Type} (path : string)
    (value : bool) (timeout : Z) (s : St) (t : trace) (Ht : (0 ≤ timeout)%Z) :
  ∃ ok t', wait_cond timeout value (p_exists path) s t = (Val ok, s, t') ∧
    if ok then env_exists t' path = value ∧
               ∃ u, t' = t ++ EvTime :: u ++ [EvExists path]
    else (env_time (t ++ [EvTime]) + timeout < env_time t')%Z ∧
         polls_differ path value (t ++ [EvTime]) t'.
Proof.
  pose proof (wait_cond_post path value timeout s t Ht) as Hw. unfold wp in Hw.
  destruct (wait_cond timeout value (p_exists path) s t) as [[o s'] t'].
  destruct Hw as (-> & _ & [(-> & Hv & u & ->)|(-> & Htime & Hpolls)]).
  - exists true. eexists. split; [done|]. split; [done|]. exists u.
    by rewrite <- (assoc_L (++)).
  - exists false, t'. done.
Qed.

(** A tty that never disappears: [wait_no_tty] gives up after its timeout. *)
Lemma wait_cond_correct_witness :
  ∃ t', @wait_cond calm_env unit 3000 false (@p_exists calm_env unit "/dev/ttyON") tt []
        = (Val false, tt, t') ∧
        @polls_differ calm_env "/dev/ttyON" false [EvTime] t'.
Proof.
  destruct (@wait_cond_correct calm_env calm_clock unit "/dev/ttyON" false 3000 tt []
    ltac:(lia)) as (ok & t' & Heq & Hok).
  assert (Hf : ok = false).
  { assert (Hc : fst (fst (@wait_cond calm_env unit 3000 false
        (@p_exists calm_env unit "/dev/ttyON") tt [])) = Val false)
      by (vm_compute; reflexivity).
    rewrite Heq in Hc. simpl in Hc. congruence. }
  subst ok. exists t'. split; [exact Heq|]. exact (proj2 Hok).
Defined.

(** C15: the [synchronous] decorator.  While another thread owns the lock a call
    is refused with [EWOULDBLOCK] and changes nothing; otherwise, for a body that
    gives back what it takes, the lock is as it was before the call when the body
    returns and when it raises, at any depth of re-entrance. *)
Theorem synchronous_correct {St A : Type} (lk : lens St RLock) `{!LensLaws lk}
    (tid : nat) (m : M St A) (s : St) (t : trace)
    (Hwf : rl_wf (lget lk s))
    (Hm : ∀ l, rl_wf l → preserves (λ s, lget lk s = l) m) :
  (∀ o, rl_owner (lget lk s) = Some o → o ≠ tid →
        synchronous lk tid m s t = (Exn (EnvironmentError EWOULDBLOCK), s, t)) ∧
  (let '(o, s', _) := synchronous lk tid m s t in
   o = Hang ∨ lget lk s' = lget lk s).
Proof.
  split.
  - intros o Ho Hne. unfold synchronous, mbind, M_bind, gets.
    by rewrite (try_acquire_other _ _ _ Ho Hne).
  - exact (synchronous_neutral lk tid m Hm _ s t Hwf eq_refl).
Qed.

(** The lock alone as a state, and a body that raises. *)
Definition lock_lens : lens RLock RLock := Lens id (λ x _, x).

#[global] Instance lock_lens_laws : LensLaws lock_lens.
Proof. by split. Qed.

Lemma synchronous_correct_witness :
  rl_wf (MkRLock (Some 7) 1) ∧
  synchronous lock_lens 1 (raise RuntimeError : M RLock unit) (MkRLock (Some 7) 1) []
  = (Exn (EnvironmentError EWOULDBLOCK), MkRLock (Some 7) 1, []).
Proof.
  assert (Hwf : rl_wf (lget lock_lens (MkRLock (Some 7) 1))) by (unfold rl_wf; simpl; lia).
  split; [exact Hwf|].
  apply (proj1 (synchronous_correct lock_lens 1 (raise RuntimeError : M RLock unit)
    (MkRLock (Some 7) 1) [] Hwf (λ l _, preserves_raise _ RuntimeError)) 7);
    [reflexivity|lia].
Defined.
