(* ===== verification/Protocol.v ===== *)
(** * Control node protocol
    ([gateway_code/control_nodes/cn_iotlab/cn_protocol.py])

    [Protocol] builds the command lines sent to the control node serial program
    and checks its acknowledgements.  The class is given the function that sends
    a command and waits for the answer; here it is the parameter [sender]. *)

From Stdlib Require Import Sorted.
From S2P Require Import Prelude PyString Effects PyVal Profile.

(** ** Building the commands *)

(** Insertion in a strictly increasing list; an element equal to one already
    there is dropped. *)
Fixpoint chan_insert (n : pynum) (l : list pynum) : list pynum :=
  match l with
  | [] => [n]
  | m :: l' =>
      if (num_val n <? num_val m)%Z then n :: l
      else if (num_val n =? num_val m)%Z then l
      else m :: chan_insert n l'
  end.

(** [sorted(list(set(channels)))] *)
Definition sorted_channels (channels : list pynum) : list pynum :=
  fold_left (λ acc n, chan_insert n acc) channels [].

(** [','.join(str(x) for x in sorted_channels)] *)
Definition channels_field (channels : list pynum) : string :=
  str_join "," (str_num <$> sorted_channels channels).

(** [str(radio.num_per_channel)] *)
Definition str_opt_num (n : option pynum) : string :=
  match n with Some n => str_num n | None => "None" end.

(** [str(int(flag))] *)
Definition str_flag (v : pyval) : outcome string := z ← py_int v; mret (str_of_Z z).

(** The command list of [config_consumption]. *)
Definition consumption_cmd (consumption : option Consumption) : outcome (list string) :=
  match consumption with
  | None => mret ["config_consumption_measure"; "stop"]
  | Some c =>
      if negb (truthy (c_power c) || truthy (c_voltage c) || truthy (c_current c))
      then mret ["config_consumption_measure"; "stop"]
      else
        p ← str_flag (c_power c);
        v ← str_flag (c_voltage c);
        cu ← str_flag (c_current c);
        mret ["config_consumption_measure"; "start"; c_source c;
              "p"; p; "v"; v; "c"; cu;
              "-p"; str_of_Z (c_period c); "-a"; str_of_Z (c_average c)]
  end.

(** The command lists of [_config_radio_measure], [_config_radio_sniffer] and
    [_stop_radio]. *)
Definition radio_measure_cmd (r : Radio) : list string :=
  ["config_radio_measure"; channels_field (r_channels r);
   str_num (r_period r); str_opt_num (r_num_per_channel r)].

Definition radio_sniffer_cmd (r : Radio) : list string :=
  ["config_radio_sniffer"; channels_field (r_channels r); str_num (r_period r)].

Definition radio_stop_cmd : list string := ["config_radio_stop"].

(** The dispatch of [config_radio]. *)
Definition radio_cmd (radio : option Radio) : list string :=
  match radio with
  | None => radio_stop_cmd
  | Some r =>
      match r_mode r with
      | Rssi => radio_measure_cmd r
      | Sniffer => radio_sniffer_cmd r
      end
  end.

(** [Protocol._set_node_id_args]; the split is never empty *)
Definition set_node_id_args (node_id : string) : outcome (string * string) :=
  let node_id := str_replace "_"%char "-"%char node_id in
  let fields := str_split "-"%char node_id in
  let archi := str_join "-" (butlast fields) in
  match int_of_str (List.last fields "") with
  | Some num => mret (archi, str_of_Z num)
  | None => Exn ValueError
  end.

(** ** Sending the commands *)

Section protocol.
Context {St : Type}.
(** [self.sender]: the answer split on blanks, [None] when there is none. *)
Context (sender : list pyval → M St (option (list string))).

(** [send_cmd]; [command_list] is never empty *)
Definition send_cmd (command : string) (args : list pyval) : M St Z :=
  answer ← sender (PStr command :: args);
  mret (status (bool_decide (Some [command; "ACK"] = answer))).

Definition send_words (words : list string) : M St Z :=
  match words with
  | [] => raise IndexError
  | command :: args => send_cmd command (PStr <$> args)
  end.

(** [alim] is the [power] of a profile, which nothing checked to be a string *)
Definition start_stop (command : string) (alim : pyval) : M St Z :=
  send_cmd command [alim].

Definition set_time : M St Z := send_words ["set_time"].

Definition set_node_id (node_id : string) : M St Z :=
  '(archi, num) ← lift (set_node_id_args node_id);
  if bool_decide (archi ∈ ["m3"; "a8"])
  then send_words ["set_node_id"; archi; num]
  else mret 0%Z.

Definition green_led_blink : M St Z := send_words ["green_led_blink"].
Definition green_led_on : M St Z := send_words ["green_led_on"].

Definition config_consumption (consumption : option Consumption) : M St Z :=
  cmd ← lift (consumption_cmd consumption);
  send_words cmd.

Definition config_radio (radio : option Radio) : M St Z :=
  send_words (radio_cmd radio).
End protocol.

(** ** Lemmas: channels *)

Lemma chan_insert_sorted n l :
  StronglySorted Z.lt (num_val <$> l) → StronglySorted Z.lt (num_val <$> chan_insert n l).
Proof.
  induction l as [|m l IH]; simpl; intros Hs; [by repeat constructor|].
  inversion Hs as [|? ? Hl Hm]; subst. case_match; bool_hyps; simpl.
  - constructor; [by constructor|]. constructor; [done|].
    eapply Forall_impl; [done|]. intros z ?. simpl in *. lia.
  - case_match; bool_hyps; simpl; [by constructor|]. constructor; [auto|].
    assert (num_val m < num_val n)%Z as Hmn by lia. clear IH Hs Hl H H0.
    induction l as [|k l IH]; simpl; [by repeat constructor|].
    inversion Hm; subst. repeat case_match; simpl; constructor; auto.
Qed.

Lemma chan_insert_elem n l z :
  z ∈ num_val <$> chan_insert n l ↔ z = num_val n ∨ z ∈ num_val <$> l.
Proof.
  induction l as [|m l IH]; simpl; [set_solver|].
  repeat case_match; bool_hyps; simpl; rewrite ?elem_of_cons, ?IH; [naive_solver| |naive_solver].
  split; [naive_solver|]. intros [->|?]; auto.
Qed.

Lemma sorted_channels_go l acc :
  StronglySorted Z.lt (num_val <$> acc) →
  let r := fold_left (λ acc n, chan_insert n acc) l acc in
  StronglySorted Z.lt (num_val <$> r) ∧
  ∀ z, z ∈ num_val <$> r ↔ z ∈ num_val <$> l ∨ z ∈ num_val <$> acc.
Proof.
  revert acc; induction l as [|n l IH]; intros acc Hacc; simpl.
  - split; [done|]. set_solver.
  - destruct (IH (chan_insert n acc)) as [Hs Hz]; [by apply chan_insert_sorted|].
    split; [done|]. intros z. rewrite Hz, chan_insert_elem, elem_of_cons. naive_solver.
Qed.

Lemma sorted_channels_spec l :
  StronglySorted Z.lt (num_val <$> sorted_channels l) ∧
  ∀ z, z ∈ num_val <$> sorted_channels l ↔ z ∈ num_val <$> l.
Proof.
  destruct (sorted_channels_go l []) as [Hs Hz]; [constructor|].
  split; [done|]. intros z. rewrite Hz. set_solver.
Qed.

(** Integer channels stay integers. *)
Lemma chan_insert_ints n l :
  (∃ z, n = NInt z) → Forall (λ m, ∃ z, m = NInt z) l →
  Forall (λ m, ∃ z, m = NInt z) (chan_insert n l).
Proof.
  intros Hn. induction 1 as [|m l Hm Hl IH]; simpl; [by constructor|].
  repeat case_match; by repeat constructor.
Qed.

Lemma sorted_channels_ints l :
  Forall (λ m, ∃ z, m = NInt z) l → Forall (λ m, ∃ z, m = NInt z) (sorted_channels l).
Proof.
  unfold sorted_channels. assert (Forall (λ m : pynum, ∃ z, m = NInt z) []) as H by constructor.
  revert H. generalize ([] : list pynum).
  induction l as [|n l IH]; intros acc Hacc Hl; simpl; [done|].
  inversion Hl; subst. apply IH; [by apply chan_insert_ints|done].
Qed.

Lemma str_nums_fields l :
  Forall (λ m, ∃ z, m = NInt z) l → Forall (λ n, 11 ≤ num_val n ≤ 26)%Z l →
  Forall (no_char ","%char) (str_num <$> l) ∧
  (int_of_str <$> (str_num <$> l)) = (Some ∘ num_val <$> l).
Proof.
  induction 1 as [|m l [z ->] Hl IH]; simpl; [by repeat constructor|].
  intros [Hz Hr]%Forall_cons. destruct (IH Hr) as [H1 H2]. simpl in *. split.
  - constructor; [|done]. apply str_of_Z_no_char; [lia|done].
  - rewrite int_of_str_of_Z. f_equal. exact H2.
Qed.

(** ** Lemmas: node identifiers *)

Lemma str_split_snoc sep a w :
  no_char sep w → str_split sep (a +:+ String sep w) = str_split sep a ++ [w].
Proof.
  intros Hw. induction a as [|c a IH].
  - change (str_split sep (String sep w) = ["" ; w]). simpl.
    by rewrite Ascii.eqb_refl, str_split_word.
  - rewrite str_app_cons. simpl. rewrite IH. case_match; [done|].
    destruct (str_split sep a) eqn:E; [by apply str_split_nonempty in E|done].
Qed.

Lemma str_map_app f a b : str_map f (a +:+ b) = str_map f a +:+ str_map f b.
Proof.
  induction a as [|c a IH]; [done|]. rewrite !str_app_cons. simpl.
  by rewrite IH, str_app_cons.
Qed.

Lemma str_replace_none a b s : no_char a s → str_replace a b s = s.
Proof.
  unfold no_char, str_replace. induction s as [|c s IH]; simpl; [done|].
  intros [Hc Hs]%andb_true_iff. apply negb_true_iff in Hc. rewrite Hc. by rewrite IH.
Qed.

Lemma sender_ack {St} (sender : list pyval → M St (option (list string))) command args s t
    answer s' t' :
  sender (PStr command :: args) s t = (Val answer, s', t') →
  send_cmd sender command args s t =
    (Val (status (bool_decide (answer = Some [command; "ACK"]))), s', t').
Proof.
  intros H. unfold send_cmd, mbind, M_bind. rewrite H. unfold mret, M_ret.
  do 4 f_equal. apply bool_decide_ext. naive_solver.
Qed.

(** ** Properties *)

(** The radio commands carry the channels of the profile in strictly
    increasing order, each exactly once: reading back the comma separated field
    gives the sorted set of the channels, for every valid radio configuration with
    integer channels. *)
Theorem channels_field_roundtrip (r : Radio)
    (Hwf : wf_radio r)
    (Hints : Forall (λ n, ∃ z, n = NInt z) (r_channels r)) :
  ∃ zs, (int_of_str <$> str_split ","%char (channels_field (r_channels r)))
          = (Some <$> zs) ∧
        StronglySorted Z.lt zs ∧
        (∀ z, z ∈ zs ↔ NInt z ∈ r_channels r) ∧
        (r_mode r = Rssi → radio_cmd (Some r) !! 1 = Some (channels_field (r_channels r))) ∧
        (r_mode r = Sniffer → radio_cmd (Some r) !! 1 = Some (channels_field (r_channels r))).
Proof.
  destruct Hwf as (Hne & Hrange & _).
  destruct (sorted_channels_spec (r_channels r)) as [Hs Hz].
  pose proof (sorted_channels_ints _ Hints) as Hi.
  assert (Hr : Forall (λ n, 11 ≤ num_val n ≤ 26)%Z (sorted_channels (r_channels r))).
  { apply Forall_forall. intros n Hn. apply (list_elem_of_fmap_2 num_val) in Hn.
    apply Hz in Hn. apply list_elem_of_fmap in Hn as (m & -> & Hm).
    rewrite Forall_forall in Hrange. by apply Hrange. }
  destruct (str_nums_fields _ Hi Hr) as [Hsep Hint].
  exists (num_val <$> sorted_channels (r_channels r)).
  split_and!; [|done| |by unfold radio_cmd; intros ->|by unfold radio_cmd; intros ->].
  - unfold channels_field. destruct (sorted_channels (r_channels r)) as [|n l] eqn:E.
    { destruct (r_channels r) as [|m ?]; [done|]. exfalso.
      specialize (Hz (num_val m)). simpl in Hz. set_solver. }
    rewrite fmap_cons, str_split_join by done.
    rewrite <- fmap_cons, Hint. by rewrite list_fmap_compose.
  - intros z. rewrite Hz. split.
    + intros (m & -> & Hm)%list_elem_of_fmap. rewrite Forall_forall in Hints.
      destruct (Hints m Hm) as [z ->]. done.
    + intros Hm. by apply (list_elem_of_fmap_2 num_val) in Hm.
Qed.

Lemma channels_field_roundtrip_witness :
  ∃ zs, (int_of_str <$> str_split ","%char (channels_field [NInt 26; NInt 11; NInt 26]))
          = (Some <$> zs) ∧ StronglySorted Z.lt zs.
Proof.
  destruct (channels_field_roundtrip
    (MkRadio Rssi [NInt 26; NInt 11; NInt 26] (NInt 10) (Some (NInt 1))))
    as (zs & H1 & H2 & _).
  - unfold wf_radio; simpl. split; [done|]. split; [repeat constructor; simpl; lia|lia].
  - repeat constructor; eauto.
  - exists zs. split; [exact H1|exact H2].
Defined.

(** The consumption command.  It is [stop] exactly when there is nothing to
    measure; otherwise, for boolean flags, it starts the measure on the source of
    the profile with the three flags as 0 or 1, and the period and the average
    read back as integers are those of the profile. *)
Theorem consumption_cmd_correct (c : option Consumption) :
  (consumption_cmd c = Val ["config_consumption_measure"; "stop"] ↔
   ∀ x, c = Some x → truthy (c_power x) = false ∧ truthy (c_voltage x) = false ∧
                     truthy (c_current x) = false) ∧
  (∀ x p v cu, c = Some x →
     c_power x = PBool p → c_voltage x = PBool v → c_current x = PBool cu →
     p || v || cu = true →
     ∃ period average,
       consumption_cmd c = Val ["config_consumption_measure"; "start"; c_source x;
         "p"; (if p then "1" else "0"); "v"; (if v then "1" else "0");
         "c"; (if cu then "1" else "0"); "-p"; period; "-a"; average] ∧
       int_of_str period = Some (c_period x) ∧ int_of_str average = Some (c_average x)).
Proof.
  split.
  - destruct c as [x|]; simpl; [|naive_solver]. case_match eqn:E.
    + bool_hyps. naive_solver.
    + split.
      * by intros H; inv_val.
      * intros H. destruct (H x) as (Hp & Hv & Hc); [done|].
        by rewrite Hp, Hv, Hc in E.
  - intros x p v cu -> Hp Hv Hc Hor. exists (str_of_Z (c_period x)), (str_of_Z (c_average x)).
    unfold consumption_cmd. rewrite Hp, Hv, Hc. simpl. rewrite Hor. simpl.
    rewrite !int_of_str_of_Z. by destruct p, v, cu.
Qed.

(** Node identifiers.  [<archi>-<num>] with a non-negative number is split
    back into the architecture (underscores read as dashes) and the number; the
    command is sent for the ['m3'] and ['a8'] architectures and the others succeed
    without a command. *)
Theorem set_node_id_roundtrip {St : Type}
    (sender : list pyval → M St (option (list string))) (archi : string) (num : Z)
    (Hnum : (0 ≤ num)%Z) :
  let archi' := str_replace "_"%char "-"%char archi in
  set_node_id_args (archi +:+ "-" +:+ str_of_Z num) = Val (archi', str_of_Z num) ∧
  set_node_id sender (archi +:+ "-" +:+ str_of_Z num) =
    (if bool_decide (archi' ∈ ["m3"; "a8"])
     then send_cmd sender "set_node_id" [PStr archi'; PStr (str_of_Z num)]
     else mret 0%Z).
Proof.
  assert (Hargs : set_node_id_args (archi +:+ "-" +:+ str_of_Z num) =
            Val (str_replace "_"%char "-"%char archi, str_of_Z num)).
  { unfold set_node_id_args, str_replace. rewrite !str_map_app. fold (str_replace "_" "-").
    rewrite (str_replace_none _ _ (str_of_Z num)) by (by apply str_of_Z_no_char).
    change (str_replace "_" "-" "-" +:+ str_of_Z num) with (String "-" (str_of_Z num)).
    rewrite str_split_snoc by (by apply str_of_Z_no_char).
    rewrite butlast_snoc, List.last_last, int_of_str_of_Z.
    by rewrite str_join_split. }
  split; [done|]. unfold set_node_id. by rewrite Hargs.
Qed.

Lemma set_node_id_roundtrip_witness :
  set_node_id_args "arduino_zero-2" = Val ("arduino-zero", "2").
Proof.
  exact (proj1 (set_node_id_roundtrip (St := unit) (λ _, mret None) "arduino_zero" 2
    ltac:(lia))).
Defined.
