(* ===== verification/CnInterface.v ===== *)
(** * Control node serial interface
    ([gateway_code/control_nodes/cn_iotlab/cn_interface.py])

    [ControlNodeSerial] runs the control node serial program as a child process,
    writes commands on its input and reads its output in a thread.  Command
    answers go through a queue of one element.  While a caller waits, the lines
    the reader thread handles are the answer [env_reader] of the world; between
    two calls the reader handles lines with [reader_step].  The reader also runs
    while [send_command] does, between the emptying of the queue and the write of the
    command: [send_command_at] takes the lines it handles there, and [send_command] is
    the call where it handles none.  As [send_command_fresh] says, the answer only
    depends on all the lines since the emptying, in order, so the lines handled before
    the write can as well be counted as the first ones of [env_reader]. *)

From S2P Require Import Prelude PyString Effects PyVal.

(** ** State *)

Inductive reader_status := NoReader | Running | Ended | Stuck.

#[global] Instance reader_status_eq_dec : EqDecision reader_status.
Proof. solve_decision. Defined.

(** An instance of [ControlNodeSerial].  The queues [msgs] and [_wait_ready] hold
    at most one element. *)
Record CnSerial := MkCnSerial {
  cs_tty : string;
  cs_process : bool;                (* self.process is not None *)
  cs_reader : reader_status;        (* self.reader_thread *)
  cs_msgs : list (list string);
  cs_debug : bool;                  (* self.measures_debug is not None *)
  cs_measures : list string;        (* lines given to measures_debug *)
  cs_ready : list Z;
  cs_oml : option string            (* name of self._oml_cfg_file *)
}.

Definition cs_init (tty : string) : CnSerial :=
  MkCnSerial tty false NoReader [] false [] [] None.

Definition set_process (b : bool) (r : reader_status) (s : CnSerial) : CnSerial :=
  MkCnSerial (cs_tty s) b r (cs_msgs s) (cs_debug s) (cs_measures s) (cs_ready s) (cs_oml s).
Definition set_msgs (q : list (list string)) (s : CnSerial) : CnSerial :=
  MkCnSerial (cs_tty s) (cs_process s) (cs_reader s) q (cs_debug s) (cs_measures s)
    (cs_ready s) (cs_oml s).
Definition set_debug (b : bool) (s : CnSerial) : CnSerial :=
  MkCnSerial (cs_tty s) (cs_process s) (cs_reader s) (cs_msgs s) b (cs_measures s)
    (cs_ready s) (cs_oml s).
Definition add_measure (line : string) (s : CnSerial) : CnSerial :=
  MkCnSerial (cs_tty s) (cs_process s) (cs_reader s) (cs_msgs s) (cs_debug s)
    (cs_measures s ++ [line]) (cs_ready s) (cs_oml s).
Definition set_ready (q : list Z) (s : CnSerial) : CnSerial :=
  MkCnSerial (cs_tty s) (cs_process s) (cs_reader s) (cs_msgs s) (cs_debug s)
    (cs_measures s) q (cs_oml s).
Definition set_oml (o : option string) (s : CnSerial) : CnSerial :=
  MkCnSerial (cs_tty s) (cs_process s) (cs_reader s) (cs_msgs s) (cs_debug s)
    (cs_measures s) (cs_ready s) o.

(** ** OML configuration *)

Definition newline : string := String "010"%char "".
Definition dquote : string := String "034"%char "".

(** One [collect] element of [OML_XML]. *)
Definition oml_collect (name file : string) : string :=
  "  <collect url='file:" +:+ file +:+ "' encoding='text'>" +:+ newline +:+
  "    <stream name=" +:+ dquote +:+ name +:+ dquote +:+
  " mp=" +:+ dquote +:+ name +:+ dquote +:+ " samples='1' />" +:+ newline +:+
  "  </collect>" +:+ newline.

(** [OML_XML.format(node_id=..., exp_id=..., **exp_files_dict)] *)
Definition oml_xml (node_id exp_id consumption radio event sniffer : string) : string :=
  newline +:+ "<omlc id='" +:+ node_id +:+ "' exp_id='" +:+ exp_id +:+ "'>" +:+ newline +:+
  oml_collect "consumption" consumption +:+ oml_collect "radio" radio +:+
  oml_collect "event" event +:+ oml_collect "sniffer" sniffer +:+
  "</omlc>" +:+ newline.

(** A key of the format string that [exp_files_dict] must give. *)
Definition format_key (d : gmap string string) (k : string) : outcome string :=
  match d !! k with Some v => Val v | None => Exn KeyError end.

Definition oml_xml_config (node_id exp_id : string) (exp_files : gmap string string)
    : outcome (option string) :=
  if decide (exp_files = ∅) then mret None else
  consumption ← format_key exp_files "consumption";
  radio ← format_key exp_files "radio";
  event ← format_key exp_files "event";
  sniffer ← format_key exp_files "sniffer";
  mret (Some (str_strip (oml_xml node_id exp_id consumption radio event sniffer))).

(** ** The reader thread *)

(** [l[i]] *)
Definition nth_word (l : list string) (i : nat) : outcome string :=
  match l !! i with Some w => Val w | None => Exn IndexError end.

(** [int(1000000 * float(s))], which only serves a log message *)
Definition microseconds (s : string) : outcome unit :=
  match float_of_str s with
  | None => Exn ValueError
  | Some FNaN => Exn ValueError
  | Some (FInf _) => Exn OverflowError
  | Some (FFin n d) =>
      if (2 ^ 1024 * Zpos d <=? 1000000 * Z.abs n)%Z then Exn OverflowError else Val tt
  end.

Definition measures_handler (line : string) (s : CnSerial) : CnSerial :=
  if cs_debug s then add_measure line s else s.

(** [_handle_answer(line)]: the outcome for the reader thread and the state *)
Definition handle_answer (line : string) (s : CnSerial) : outcome unit * CnSerial :=
  let answer := str_split " "%char line in
  let kind := hd "" answer in
  if bool_decide (kind = "config_ack") then
    ((a1 ← nth_word answer 1;
      if bool_decide (a1 = "set_time") then
        a2 ← nth_word answer 2; microseconds a2
      else mret tt), s)
  else if bool_decide (kind = "error") then ((nth_word answer 1 ;; mret tt), s)
  else if bool_decide (kind = "cn_serial_error:") then (mret tt, s)
  else if bool_decide (kind = "measures_debug:") then (mret tt, measures_handler line s)
  else if bool_decide (kind = "cn_serial_ready") then
    match cs_ready s with
    | [] => (mret tt, set_ready [0%Z] s)
    | _ => (Hang, s)                         (* blocking put on a full queue *)
    end
  else
    match cs_msgs s with
    | [] => (mret tt, set_msgs [answer] s)
    | _ => (mret tt, s)                      (* queue.Full is logged *)
    end.

(** One turn of the loop of [_reader]. *)
Definition reader_step (o : robs) (s : CnSerial) : CnSerial :=
  match cs_reader s with
  | Running =>
      match o with
      | REof => set_process (cs_process s) Ended s            (* break *)
      | RExited =>                                            (* else clause *)
          match cs_ready s with
          | [] => set_process (cs_process s) Ended (set_ready [1%Z] s)
          | _ => set_process (cs_process s) Stuck s
          end
      | RLine line =>
          match handle_answer (str_strip line) s with
          | (Val _, s') => s'
          | (Exn _, s') => set_process (cs_process s') Ended s'
          | (Hang, s') => set_process (cs_process s') Stuck s'
          end
      end
  | _ => s
  end.

(** The reader runs on what it observes until the waiting thread is served. *)
Fixpoint read_until (served : CnSerial → bool) (obs : list robs) (s : CnSerial) : CnSerial :=
  if served s then s else
  match obs with
  | [] => s
  | o :: obs => read_until served obs (reader_step o s)
  end.

(** The reader handles some lines while nobody waits for it. *)
Definition reader_run (obs : list robs) (s : CnSerial) : CnSerial :=
  fold_left (λ s o, reader_step o s) obs s.

Definition nonempty {A} (l : list A) : bool := match l with [] => false | _ => true end.

(** ** Operations *)

Section interface.
Context `{E : Env}.

(** [_cn_interface_args], with the temporary file of [_oml_config_file] *)
Definition cn_interface_args (oml_xml_config : option string) : M CnSerial (list string) :=
  name ← match oml_xml_config with
         | None => mret None
         | Some _ => n ← p_tempfile "--oml.config"; mret (Some n)
         end;
  modify (set_oml name) ;;
  s ← get;
  mret (["control_node_serial_interface"; "-t"; cs_tty s]
        ++ match name with Some n => ["-c"; n] | None => [] end
        ++ (if cs_debug s then ["-d"] else [])).

Definition cs_start (oml_xml_config : option string) : M CnSerial Z :=
  modify (set_ready []) ;;
  args ← cn_interface_args oml_xml_config;
  err ← ask (EvPopen args) (λ t, env_popen t args);
  match err with
  | Some n => raise (OSError n)
  | None =>
      modify (set_process true Running) ;;
      obs ← ask EvWaitReady env_reader;
      modify (read_until (λ s, nonempty (cs_ready s)) obs) ;;
      s ← get;
      match cs_ready s with
      | r :: _ => modify (λ s, set_ready (tail (cs_ready s)) s) ;; mret r
      | [] => hang
      end
  end.

(** [_process_stop(timeout=5)]; [None] attributes are ignored *)
Definition process_stop : M CnSerial unit :=
  s ← get;
  if cs_process s then
    err ← ask EvTerminate env_terminate;
    match err with
    | Some n => raise (OSError n)
    | None =>
        ended ← ask (EvProcWait 5000) env_proc_wait;
        if (ended : bool) then mret tt else p_emit EvKill
    end
  else mret tt.

Definition cs_stop : M CnSerial Z :=
  try_except process_stop (λ e, if is_OSError e then Some (mret tt) else None) ;;
  s ← get;
  joined ← (if decide (cs_reader s = NoReader) then mret true else ask EvJoin env_join);
  if negb joined then hang else
  modify (λ s, set_process false (cs_reader s) s) ;;
  modify (set_debug false) ;;
  s ← get;
  match cs_oml s with
  | Some _ => p_emit EvCloseTemp ;; modify (set_oml None)
  | None => mret tt
  end ;;
  mret 0%Z.

(** [' '.join(command_args)] *)
Fixpoint join_args (args : list pyval) : outcome (list string) :=
  match args with
  | [] => mret []
  | PStr w :: args => ws ← join_args args; mret (w :: ws)
  | _ => Exn TypeError
  end.

(** [send_command(command_args)]; [between] is what the reader handles after the queue
    is emptied and before the command is written *)
Definition send_command_at (between : list robs) (command_args : list pyval)
    : M CnSerial (option (list string)) :=
  words ← lift (join_args command_args);
  modify (set_msgs []) ;;                              (* empty_queue *)
  modify (reader_run between) ;;
  s ← get;
  if negb (cs_process s) then mret None else           (* AttributeError *)
  let command_str := str_join " " words +:+ newline in
  err ← ask (EvWriteStdin command_str) (λ t, env_write t command_str);
  match err with
  | Some _ => mret None                                (* IOError *)
  | None =>
      obs ← ask EvGetAnswer env_reader;
      modify (read_until (λ s, nonempty (cs_msgs s)) obs) ;;
      s ← get;
      match cs_msgs s with
      | a :: _ => modify (λ s, set_msgs (tail (cs_msgs s)) s) ;; mret (Some a)
      | [] => mret None                                (* queue.Empty *)
      end
  end.

(** The call in which the reader handles nothing before the write. *)
Definition send_command : list pyval → M CnSerial (option (list string)) := send_command_at [].
End interface.

(** ** Lemmas *)

(** The first word of an output line, and the words that are not answers. *)
Definition line_kind (line : string) : string := hd "" (str_split " "%char line).

Definition notifications : list string :=
  ["config_ack"; "error"; "cn_serial_error:"; "measures_debug:"; "cn_serial_ready"].

(** The queues hold at most one element. *)
Definition queues_ok (s : CnSerial) : Prop :=
  length (cs_msgs s) ≤ 1 ∧ length (cs_ready s) ≤ 1.

Lemma handle_answer_ready line s :
  line_kind line = "cn_serial_ready" →
  handle_answer line s = match cs_ready s with
                         | [] => (mret tt, set_ready [0%Z] s)
                         | _ => (Hang, s)
                         end.
Proof. unfold handle_answer. fold (line_kind line). by intros ->. Qed.

(** A line that is not the ready message leaves the ready queue alone, and its
    outcome does not depend on the state. *)
Lemma handle_answer_other line s s0 :
  line_kind line ≠ "cn_serial_ready" →
  cs_ready (snd (handle_answer line s)) = cs_ready s ∧
  cs_reader (snd (handle_answer line s)) = cs_reader s ∧
  fst (handle_answer line s) = fst (handle_answer line s0) ∧
  fst (handle_answer line s) ≠ Hang.
Proof.
  intros Hk. unfold handle_answer, measures_handler. fold (line_kind line).
  assert (Hnth : ∀ i, nth_word (str_split " "%char line) i ≠ Hang)
    by (intros i; unfold nth_word; by case_match).
  assert (Hus : ∀ w, microseconds w ≠ Hang)
    by (intros w; unfold microseconds; by repeat case_match).
  repeat case_bool_decide; try done; simpl.
  - split_and!; try done. apply bind_not_hang; [done|]. intros w.
    case_bool_decide; [|done]. by apply bind_not_hang.
  - split_and!; try done. by apply bind_not_hang.
  - by destruct (cs_debug s), (cs_debug s0).
  - by destruct (cs_msgs s), (cs_msgs s0).
Qed.

(** A message appears in the empty queue only for an answer line. *)
Lemma handle_answer_msgs line s :
  cs_msgs (snd (handle_answer line s)) = cs_msgs s ∨
  ((line_kind line ∉ notifications) ∧ cs_msgs s = [] ∧
   cs_msgs (snd (handle_answer line s)) = [str_split " "%char line]).
Proof.
  unfold handle_answer, measures_handler, notifications. fold (line_kind line).
  repeat case_bool_decide; simpl; try (by left); try (repeat case_match; by left).
  destruct (cs_msgs s) eqn:Hm; [right|by left]. split_and!; [|done..]. set_solver.
Qed.

Lemma reader_step_msgs o s :
  cs_msgs (reader_step o s) = cs_msgs s ∨
  ∃ line, o = RLine line ∧ (line_kind (str_strip line) ∉ notifications) ∧
          cs_msgs s = [] ∧ cs_msgs (reader_step o s) = [str_split " "%char (str_strip line)].
Proof.
  unfold reader_step. destruct (cs_reader s); try (by left).
  destruct o as [line| |]; [|by left|destruct (cs_ready s); by left].
  pose proof (handle_answer_msgs (str_strip line) s) as Hm.
  destruct (handle_answer (str_strip line) s) as [[] s']; simpl in *; naive_solver.
Qed.

Lemma reader_step_queues o s : queues_ok s → queues_ok (reader_step o s).
Proof.
  intros [Hm Hr]. split.
  - destruct (reader_step_msgs o s) as [->|(?&?&?&?&->)]; simpl; lia.
  - unfold reader_step. destruct (cs_reader s); try done.
    destruct o as [line| |]; simpl; [|done|destruct (cs_ready s) eqn:Hq; simpl in *; rewrite ?Hq; simpl; lia].
    destruct (decide (line_kind (str_strip line) = "cn_serial_ready")) as [Hk|Hk].
    + rewrite handle_answer_ready by done.
      destruct (cs_ready s) eqn:Hq; simpl in *; rewrite ?Hq; simpl; lia.
    + destruct (handle_answer_other _ s s Hk) as [Heq _].
      destruct (handle_answer (str_strip line) s) as [[] s']; simpl in *; by rewrite Heq.
Qed.

Lemma read_until_queues served obs s : queues_ok s → queues_ok (read_until served obs s).
Proof.
  revert s; induction obs as [|o obs IH]; intros s Hs; simpl; case_match; try done.
  by apply IH, reader_step_queues.
Qed.

(** Starting from an empty queue, what is in it when the wait ends was read during
    the wait. *)
Lemma read_until_answer obs s :
  cs_msgs s = [] →
  let s' := read_until (λ s, nonempty (cs_msgs s)) obs s in
  cs_msgs s' = [] ∨
  ∃ line, RLine line ∈ obs ∧ (line_kind (str_strip line) ∉ notifications) ∧
          cs_msgs s' = [str_split " "%char (str_strip line)].
Proof.
  revert s; induction obs as [|o obs IH]; intros s Hs; simpl; rewrite Hs; simpl; [by left|].
  destruct (reader_step_msgs o s) as [Heq|(line & -> & Hk & _ & Heq)].
  - destruct (IH (reader_step o s)) as [H|(line & Hl & ?)]; [by rewrite Heq|by left|].
    right. exists line. split; [set_solver|done].
  - right. exists line. split_and!; [set_solver|done|].
    destruct obs; simpl; by rewrite Heq.
Qed.

(** What is in the queue stays until it is taken. *)
Lemma reader_run_msgs obs s :
  cs_msgs s ≠ [] → cs_msgs (reader_run obs s) = cs_msgs s.
Proof.
  revert s. induction obs as [|o obs IH]; intros s Hs; [done|].
  assert (Ho : cs_msgs (reader_step o s) = cs_msgs s)
    by (destruct (reader_step_msgs o s) as [?|(? & _ & _ & ? & _)]; congruence).
  change (cs_msgs (reader_run obs (reader_step o s)) = cs_msgs s).
  rewrite IH by congruence. done.
Qed.

Lemma read_until_served obs s :
  cs_msgs s ≠ [] → read_until (λ s, nonempty (cs_msgs s)) obs s = s.
Proof. intros Hs. destruct obs; simpl; by destruct (cs_msgs s). Qed.

(** The message of the queue only depends on the lines since it was emptied. *)
Lemma read_until_run between obs s :
  cs_msgs (read_until (λ s, nonempty (cs_msgs s)) obs (reader_run between s)) =
  cs_msgs (read_until (λ s, nonempty (cs_msgs s)) (between ++ obs) s).
Proof.
  revert s. induction between as [|o between IH]; intros s; [done|].
  destruct (cs_msgs s) as [|m q] eqn:Hm.
  - change (reader_run (o :: between) s) with (reader_run between (reader_step o s)).
    rewrite IH. simpl. by rewrite Hm.
  - assert (Hne : cs_msgs s ≠ []) by congruence.
    rewrite (read_until_served (_ ++ _)) by done.
    rewrite read_until_served by by rewrite reader_run_msgs. by apply reader_run_msgs.
Qed.

Lemma join_args_strings ws : join_args (PStr <$> ws) = Val ws.
Proof. induction ws as [|w ws IH]; [done|]. rewrite fmap_cons. cbn [join_args]. by rewrite IH. Qed.

Section interface_facts.
Context `{E : Env}.

Lemma send_command_run ws s t :
  send_command (PStr <$> ws) s t =
  let s0 := set_msgs [] s in
  if cs_process s then
    let cmd := str_join " " ws +:+ newline in
    let t1 := t ++ [EvWriteStdin cmd] in
    match env_write t1 cmd with
    | Some _ => (Val None, s0, t1)
    | None =>
        let t2 := t1 ++ [EvGetAnswer] in
        let s1 := read_until (λ s, nonempty (cs_msgs s)) (env_reader t2) s0 in
        match cs_msgs s1 with
        | a :: q => (Val (Some a), set_msgs q s1, t2)
        | [] => (Val None, s1, t2)
        end
    end
  else (Val None, s0, t).
Proof.
  unfold send_command, send_command_at, mbind, M_bind, lift, modify, get, ask.
  rewrite join_args_strings.
  simpl. destruct (cs_process s); simpl; [|done].
  destruct (env_write _ _); simpl; [done|].
  destruct (cs_msgs (read_until _ _ _)) eqn:Hq; [done|]. simpl. by rewrite Hq.
Qed.

Lemma queues_ok_empty s : queues_ok s → queues_ok (set_msgs [] s).
Proof. intros [_ ?]. split; simpl; [lia|done]. Qed.

Lemma queues_ok_unready s : queues_ok s → queues_ok (set_ready [] s).
Proof. intros [? _]. split; simpl; [done|lia]. Qed.

Lemma queues_ok_pop_msgs s : queues_ok s → queues_ok (set_msgs (tail (cs_msgs s)) s).
Proof. intros [? ?]. split; simpl; [|done]. destruct (cs_msgs s); simpl in *; lia. Qed.

Lemma queues_ok_pop_ready s : queues_ok s → queues_ok (set_ready (tail (cs_ready s)) s).
Proof. intros [? ?]. split; simpl; [done|]. destruct (cs_ready s); simpl in *; lia. Qed.

Lemma reader_run_queues obs s : queues_ok s → queues_ok (reader_run obs s).
Proof.
  revert s. induction obs as [|o obs IH]; intros s Hs; [done|]. by apply IH, reader_step_queues.
Qed.

Lemma preserves_send_command_at between args : preserves queues_ok (send_command_at between args).
Proof.
  unfold send_command_at. preserve; auto using queues_ok_empty, queues_ok_pop_msgs,
    read_until_queues, reader_run_queues.
Qed.

Lemma preserves_send_command args : preserves queues_ok (send_command args).
Proof. apply preserves_send_command_at. Qed.

(** The call, with the lines the reader handles before the write. *)
Lemma send_command_at_run between ws s t :
  send_command_at between (PStr <$> ws) s t =
  let s0 := reader_run between (set_msgs [] s) in
  if cs_process s0 then
    let cmd := str_join " " ws +:+ newline in
    let t1 := t ++ [EvWriteStdin cmd] in
    match env_write t1 cmd with
    | Some _ => (Val None, s0, t1)
    | None =>
        let t2 := t1 ++ [EvGetAnswer] in
        let s1 := read_until (λ s, nonempty (cs_msgs s)) (env_reader t2) s0 in
        match cs_msgs s1 with
        | a :: q => (Val (Some a), set_msgs q s1, t2)
        | [] => (Val None, s1, t2)
        end
    end
  else (Val None, s0, t).
Proof.
  unfold send_command_at, mbind, M_bind, lift, modify, get, ask. rewrite join_args_strings.
  simpl. destruct (cs_process _); simpl; [|done].
  destruct (env_write _ _); simpl; [done|].
  destruct (cs_msgs (read_until _ _ _)) eqn:Hq; [done|]. simpl. by rewrite Hq.
Qed.

Lemma handle_answer_process line s : cs_process (snd (handle_answer line s)) = cs_process s.
Proof. unfold handle_answer, measures_handler. by repeat case_match. Qed.

Lemma reader_step_process o s : cs_process (reader_step o s) = cs_process s.
Proof.
  unfold reader_step. destruct (cs_reader s); try done. destruct o as [line| |]; [|done|by case_match].
  pose proof (handle_answer_process (str_strip line) s) as Hp.
  by destruct (handle_answer (str_strip line) s) as [[] s'].
Qed.

Lemma reader_run_process obs s : cs_process (reader_run obs s) = cs_process s.
Proof.
  revert s. induction obs as [|o obs IH]; intros s; [done|].
  change (cs_process (reader_run obs (reader_step o s)) = cs_process s).
  by rewrite IH, reader_step_process.
Qed.

Lemma preserves_cs_start oml : preserves queues_ok (cs_start oml).
Proof.
  unfold cs_start, cn_interface_args, p_tempfile. preserve;
    auto using queues_ok_unready, queues_ok_pop_ready, read_until_queues.
Qed.

Lemma preserves_cs_stop : preserves queues_ok cs_stop.
Proof. unfold cs_stop, process_stop, p_emit. preserve. Qed.
End interface_facts.

(** ** Starting the serial program *)

(** What [start] waits for, read off the observations of the reader: the ready
    message gives 0, an exit seen before the next read gives 1; at the end of the
    output, or when the reader dies on a malformed line, nothing is ever put in
    the queue. *)
Fixpoint startup (obs : list robs) : outcome Z :=
  match obs with
  | [] | REof :: _ => Hang
  | RExited :: _ => Val 1%Z
  | RLine line :: obs =>
      if decide (line_kind (str_strip line) = "cn_serial_ready") then Val 0%Z
      else match fst (handle_answer (str_strip line) (cs_init "")) with
           | Val _ => startup obs
           | _ => Hang
           end
  end.

Lemma read_until_ended obs s :
  cs_reader s ≠ Running → cs_ready s = [] →
  cs_ready (read_until (λ s, nonempty (cs_ready s)) obs s) = [].
Proof.
  revert s; induction obs as [|o obs IH]; intros s Hr Hq; simpl; rewrite Hq; simpl; [done|].
  assert (reader_step o s = s) as -> by (unfold reader_step; by destruct (cs_reader s)).
  by apply IH.
Qed.

Lemma read_until_ready obs s :
  cs_reader s = Running → cs_ready s = [] →
  cs_ready (read_until (λ s, nonempty (cs_ready s)) obs s) =
    match startup obs with Val r => [r] | _ => [] end.
Proof.
  revert s; induction obs as [|o obs IH]; intros s Hr Hq; simpl; rewrite Hq; simpl; [done|].
  destruct o as [line| |]; simpl.
  - case_decide as Hk.
    + unfold reader_step. rewrite Hr, handle_answer_ready, Hq by done. by destruct obs.
    + destruct (handle_answer_other (str_strip line) s (cs_init "") Hk)
        as (Hready & Hreader & Hout & Hnh).
      rewrite <- Hout. unfold reader_step. rewrite Hr.
      destruct (handle_answer (str_strip line) s) as [[] s'] eqn:Hh; simpl in *; [|..|done].
      * apply IH; congruence.
      * apply read_until_ended; simpl; [done|congruence].
  - unfold reader_step. rewrite Hr. apply read_until_ended; [done|by simpl].
  - unfold reader_step. rewrite Hr, Hq. by destruct obs.
Qed.

(** The command line of the serial program, and the history when it is started. *)
Definition program_args `{Env} (oml : option string) (s : CnSerial) (t : trace)
    : list string * trace :=
  let temp := t ++ [EvTempFile "--oml.config"] in
  ("control_node_serial_interface" :: "-t" :: cs_tty s ::
     match oml with Some _ => ["-c"; env_tempname temp "--oml.config"] | None => [] end ++
     (if cs_debug s then ["-d"] else []),
   match oml with Some _ => temp | None => t end).

Lemma cs_start_run `{Env} oml (s : CnSerial) (t : trace) :
  (∀ t' args, env_popen t' args = None) →
  let '(args, t1) := program_args oml s t in
  fst (fst (cs_start oml s t)) = startup (env_reader (t1 ++ [EvPopen args; EvWaitReady])).
Proof.
  intros Hpopen. destruct oml;
    unfold program_args, cs_start, cn_interface_args, p_tempfile, mbind, M_bind, modify, get,
      ask, mret, M_ret; simpl; rewrite Hpopen; simpl; rewrite <- !(assoc_L (++)); simpl;
    set (obs := env_reader _);
    (match goal with |- context [read_until ?f obs ?x] =>
       pose proof (read_until_ready obs x) as Hr end);
    simpl in Hr; rewrite Hr by done; (destruct (startup obs) eqn:Hst; [done| |done]);
    exfalso; clear Hr; revert Hst; generalize obs; clear; intros l;
    (induction l as [|[line| |] l IH]; simpl; try done; repeat case_match; done).
Qed.

(** ** Properties *)

(** C25: what [send_command] returns, whatever the reader thread handles between the
    emptying of the queue and the write of the command.  The call always returns.
    Without a process, or when the write fails, it returns [None].  Otherwise the answer
    is the first message that the lines handled since the queue was emptied, before the
    write and after it, in order, put in the queue: a line that is not one of the
    notifications, split at its blanks; [None] when they put none in time; and nothing
    is left in the queue.  So what the queue held before the call is never returned; but
    an answer to an earlier command that the reader handles after the emptying is. *)
Theorem send_command_fresh `{Env} (between : list robs) (ws : list string) (s : CnSerial)
    (t : trace) :
  let cmd := str_join " " ws +:+ newline in
  let t1 := t ++ [EvWriteStdin cmd] in
  let t2 := t ++ [EvWriteStdin cmd; EvGetAnswer] in
  let lines := between ++ env_reader t2 in
  ∃ r s' t', send_command_at between (PStr <$> ws) s t = (Val r, s', t') ∧
    (cs_process s = false → r = None ∧ t' = t) ∧
    (cs_process s = true → env_write t1 cmd ≠ None → r = None ∧ t' = t1) ∧
    (cs_process s = true → env_write t1 cmd = None →
       t' = t2 ∧ cs_msgs s' = [] ∧
       r = head (cs_msgs (read_until (λ s, nonempty (cs_msgs s)) lines (set_msgs [] s))) ∧
       ∀ answer, r = Some answer →
         ∃ line, RLine line ∈ lines ∧ (line_kind (str_strip line) ∉ notifications) ∧
                 answer = str_split " "%char (str_strip line)).
Proof.
  intros cmd t1 t2 lines. rewrite send_command_at_run. cbv zeta.
  rewrite reader_run_process. change (cs_process (set_msgs [] s)) with (cs_process s).
  fold cmd t1. replace (t1 ++ [EvGetAnswer]) with t2 by (unfold t1; by rewrite <- (assoc_L (++))).
  destruct (cs_process s); [|naive_solver].
  destruct (env_write t1 cmd) eqn:Hw; [naive_solver|].
  pose proof (read_until_run between (env_reader t2) (set_msgs [] s)) as Hrun.
  destruct (read_until_answer lines (set_msgs [] s) eq_refl) as [Hm|(line & Hin & Hk & Hm)];
    cbv zeta in Hm; unfold lines in *; rewrite Hm in *; rewrite Hrun.
  - do 3 eexists. split; [done|]. naive_solver.
  - do 3 eexists. split; [done|]. split; [done|]. split; [done|]. intros _ _.
    split; [done|]. split; [done|]. split; [done|]. intros answer [= <-]. by exists line.
Qed.

(** The race: the answer to a [start] that timed out is handled after the next [start]
    emptied the queue and before it is written; the call returns it. *)
Lemma send_command_late_answer :
  ∃ s' t', @send_command_at calm_env [RLine "start NACK"] (PStr <$> ["start"; "dc"])
    (set_process true Running (cs_init "/dev/ttyCN")) [] = (Val (Some ["start"; "NACK"]), s', t').
Proof. do 2 eexists. vm_compute. reflexivity. Qed.

(** The answer queue and the ready queue never hold more than one element,
    whatever the caller and the reader thread do, exceptions included. *)
Theorem queues_bounded `{Env} (s : CnSerial) (Hs : queues_ok s) :
  (∀ o, queues_ok (reader_step o s)) ∧
  (∀ oml t, queues_ok (snd (fst (cs_start oml s t)))) ∧
  (∀ t, queues_ok (snd (fst (cs_stop s t)))) ∧
  (∀ args t, queues_ok (snd (fst (send_command args s t)))).
Proof.
  pose proof (λ o, reader_step_queues o s Hs).
  split_and!; [done|intros oml t|intros t|intros args t].
  - pose proof (preserves_cs_start oml s t Hs) as Hp. unfold wp in Hp.
    by destruct (cs_start oml s t) as [[??]?].
  - pose proof (preserves_cs_stop s t Hs) as Hp. unfold wp in Hp.
    by destruct (cs_stop s t) as [[??]?].
  - pose proof (preserves_send_command args s t Hs) as Hp. unfold wp in Hp.
    by destruct (send_command args s t) as [[??]?].
Qed.

Lemma queues_bounded_witness :
  queues_ok (reader_step (RLine "start ACK") (set_process true Running (cs_init "/dev/ttyCN"))).
Proof.
  apply (proj1 (@queues_bounded calm_env (set_process true Running (cs_init "/dev/ttyCN"))
    ltac:(split; simpl; lia))).
Defined.

(** How [start] ends.  When the serial program could be started, [start]
    returns 0 once the reader has seen the ready message, 1 when the reader sees
    that the program has exited; when the output ends first (or the reader dies on
    a line it cannot parse) nobody fills the queue and [start] never returns. *)
Theorem cs_start_outcome `{Env} (s : CnSerial) (t : trace)
    (Hpopen : ∀ t' args, env_popen t' args = None) :
  let args := "control_node_serial_interface" :: "-t" :: cs_tty s ::
              (if cs_debug s then ["-d"] else []) in
  fst (fst (cs_start None s t)) = startup (env_reader (t ++ [EvPopen args; EvWaitReady])).
Proof.
  exact (cs_start_run None s t Hpopen).
Qed.

(** A program that reports an error and dies: the end of its output is seen first. *)
Definition eof_env : Env :=
  world calm_call calm_start (λ _, [RLine "cn_serial_error: no tty"; REof]) calm_read
    calm_sread slept calm_connect calm_sock_read calm_output.

Lemma cs_start_outcome_witness :
  fst (fst (@cs_start eof_env None (cs_init "/dev/ttyCN") [])) = Hang ∧
  fst (fst (@cs_start calm_env None (cs_init "/dev/ttyCN") [])) = Val 0%Z.
Proof.
  split.
  - rewrite (@cs_start_outcome eof_env (cs_init "/dev/ttyCN") [] (λ _ _, eq_refl)).
    vm_compute. reflexivity.
  - rewrite (@cs_start_outcome calm_env (cs_init "/dev/ttyCN") [] (λ _ _, eq_refl)).
    vm_compute. reflexivity.
Defined.
