(* ===== verification/Programmers.v ===== *)
(** * Programmers ([gateway_code/utils/openocd.py], [edbg.py], [avrdude.py],
    [cc2538.py])

    The command line tools that flash, reset and debug the nodes.  A command is
    built as a string, split by [shlex.split] and run with a timeout.  OpenOCD
    also keeps a debugger process in the background, during which it refuses the
    other commands. *)

From Stdlib Require Import HexadecimalString.
From S2P Require Import Prelude PyString Effects PyVal Common CnInterface.

(** ** [shlex.split] *)

Inductive shlex_mode := ShSpace | ShWord | ShSingle | ShDouble | ShEsc | ShEscDouble.

Definition shlex_space (c : Ascii.ascii) : bool :=
  existsb (Ascii.eqb c) [" "; "009"; "010"; "013"]%char.

(** The posix rules: blanks separate the words, single quotes are literal, a
    backslash escapes the next character, only a double quote or a backslash
    within double quotes; [cur] is the word being read. *)
Fixpoint shlex (mode : shlex_mode) (cur : string) (s : string) : outcome (list string) :=
  match mode, s with
  | ShSpace, EmptyString => Val []
  | ShWord, EmptyString => Val [cur]
  | _, EmptyString => Exn ValueError
  | ShSpace, String c s =>
      if shlex_space c then shlex ShSpace "" s
      else if Ascii.eqb c "\" then shlex ShEsc "" s
      else if Ascii.eqb c "'" then shlex ShSingle "" s
      else if Ascii.eqb c "034" then shlex ShDouble "" s
      else shlex ShWord (String c "") s
  | ShWord, String c s =>
      if shlex_space c then ws ← shlex ShSpace "" s; mret (cur :: ws)
      else if Ascii.eqb c "\" then shlex ShEsc cur s
      else if Ascii.eqb c "'" then shlex ShSingle cur s
      else if Ascii.eqb c "034" then shlex ShDouble cur s
      else shlex ShWord (cur +:+ String c "") s
  | ShSingle, String c s =>
      if Ascii.eqb c "'" then shlex ShWord cur s
      else shlex ShSingle (cur +:+ String c "") s
  | ShDouble, String c s =>
      if Ascii.eqb c "034" then shlex ShWord cur s
      else if Ascii.eqb c "\" then shlex ShEscDouble cur s
      else shlex ShDouble (cur +:+ String c "") s
  | ShEsc, String c s => shlex ShWord (cur +:+ String c "") s
  | ShEscDouble, String c s =>
      if Ascii.eqb c "034" || Ascii.eqb c "\"
      then shlex ShDouble (cur +:+ String c "") s
      else shlex ShDouble (cur +:+ String "\" (String c "")) s
  end%char.

Definition shlex_split (s : string) : outcome (list string) := shlex ShSpace "" s.

(** [hex(z)] *)
Definition py_hex (z : Z) : string :=
  match Z.to_hex_int z with
  | Hexadecimal.Pos d => "0x" +:+ HexadecimalString.NilZero.string_of_uint d
  | Hexadecimal.Neg d => "-0x" +:+ HexadecimalString.NilZero.string_of_uint d
  end.

Fixpoint zeros (n : nat) : string :=
  match n with O => "" | S n => String "0" (zeros n) end.

(** ['{:08x}'.format(z)] for a non-negative address *)
Definition hex08 (z : Z) : string :=
  let d := HexadecimalString.NilZero.string_of_int (Z.to_hex_int z) in
  zeros (8 - String.length d) +:+ d.

(** ["w"] *)
Definition dquoted (w : string) : string := dquote +:+ w +:+ dquote.

(** [ -c "w"] *)
Definition dash_c (w : string) : string := " -c " +:+ dquoted w.

(** Commands are given 100 seconds. *)
Definition TIMEOUT : Z := 100000.

(** [subprocess_timeout.call(timeout=..., args=shlex.split(cmd), ...)] with the
    [TimeoutExpired] handler the programmers share *)
Definition run_cmd `{Env} {St} (cmd : string) (timeout : option Z) : M St Z :=
  args ← lift (shlex_split cmd);
  try_except (p_call args timeout)
    (λ e, match e with TimeoutExpired => Some (mret 1%Z) | _ => None end).

(** [except IOError: return 1] *)
Definition io_error_is_1 {St} (e : exn) : option (M St Z) :=
  if is_IOError e then Some (mret 1%Z) else None.

(** ** OpenOCD *)

(** An instance of [OpenOCD]; [oo_reset] is the class attribute [RESET]. *)
Record OpenOCD := MkOpenOCD {
  oo_path : string;
  oo_config : string;
  oo_reset : string;
  oo_debug : bool                   (* self._debug is not None *)
}.

Definition set_oo_debug (b : bool) (o : OpenOCD) : OpenOCD :=
  MkOpenOCD (oo_path o) (oo_config o) (oo_reset o) b.

(** The class attributes. *)
Definition OPENOCD_format (openocd_path config cmd : string) : string :=
  openocd_path +:+ " --debug=0" +:+ " " +:+ config +:+
  dash_c "init" +:+ dash_c "targets" +:+ " " +:+ cmd.

Definition RESET : string := dash_c "reset run" +:+ dash_c "shutdown".

Definition FLASH_format (path : string) : string :=
  dash_c "reset halt" +:+ dash_c "reset init" +:+
  dash_c ("flash write_image erase " +:+ path) +:+
  dash_c ("verify_image " +:+ path) +:+
  dash_c "reset run" +:+ dash_c "shutdown".

Definition FLASH_BIN_format (path offset : string) : string :=
  dash_c "reset halt" +:+ dash_c "reset init" +:+
  dash_c ("program " +:+ path +:+ " verify " +:+ offset) +:+
  dash_c "reset run" +:+ dash_c "shutdown".

Definition DEBUG : string := dash_c "reset halt".

(** [_config(config_file, opts)] once the file is known to open *)
Definition openocd_config (cfg_file : string) (opts : list string) : string :=
  str_join " " ((λ opt, "-f " +:+ dquoted opt) <$> (cfg_file :: opts)).

Section openocd.
Context `{E : Env}.

(** [OpenOCD.__init__] *)
Definition openocd_new {St} (path config_file : string) (opts : list string)
    (reset : string) : M St OpenOCD :=
  cfg_file ← abspath config_file;
  mret (MkOpenOCD path (openocd_config cfg_file opts) reset false).

Definition openocd_cmdline (o : OpenOCD) (command_str : string) : string :=
  OPENOCD_format (oo_path o) (oo_config o) command_str.

(** [OpenOCD._call_cmd] *)
Definition openocd_call (command_str : string) : M OpenOCD Z :=
  o ← get;
  if oo_debug o then mret 1%Z
  else run_cmd (openocd_cmdline o command_str) (Some TIMEOUT).

Definition openocd_reset : M OpenOCD Z :=
  o ← get; openocd_call (oo_reset o).

Definition openocd_flash (fw_file : string) (binary : bool) (offset : Z) : M OpenOCD Z :=
  try_except (
    path ← abspath fw_file;
    if binary then openocd_call (FLASH_BIN_format path (py_hex offset))
    else openocd_call (FLASH_format path)
  ) io_error_is_1.

Definition openocd_debug_stop : M OpenOCD Z :=
  try_finally (
    o ← get;
    if oo_debug o then
      err ← ask EvTerminate env_terminate;
      match err with
      | Some _ => mret 1%Z                         (* OSError *)
      | None => mret 0%Z
      end
    else mret 0%Z                                  (* AttributeError *)
  ) (modify (set_oo_debug false)).

Definition openocd_debug_start : M OpenOCD Z :=
  openocd_debug_stop ;;
  o ← get;
  args ← lift (shlex_split (openocd_cmdline o DEBUG));
  err ← ask (EvPopen args) (λ t, env_popen t args);
  match err with
  | Some n => raise (OSError n)
  | None => modify (set_oo_debug true) ;; mret 0%Z
  end.
End openocd.

(** ** EDBG, AvrDude, CC2538: no state beyond their configuration *)

Section tools.
Context `{E : Env} {St : Type}.

(** The formats of [Edbg]. *)
Definition EDBG_format (cmd : string) : string := "/usr/bin/edbg " +:+ cmd.

Definition EDBG_FLASH_format (bin offset : string) : string :=
  " -t atmel_cm0p" +:+ " -b" +:+ " -e" +:+ " -v" +:+ " -p" +:+
  " -f " +:+ bin +:+ " -o " +:+ offset.

Definition to_bin_command (elf bin : string) : string :=
  "objcopy -I elf32-big -O binary " +:+ elf +:+ " " +:+ bin.

(** [Edbg.flash]: an ELF file is converted first and flashed at offset 0 *)
Definition edbg_flash (fw_file : string) (binary : bool) (offset : Z) : M St Z :=
  try_except (
    fw_path ← abspath fw_file;
    if binary then
      run_cmd (EDBG_format (EDBG_FLASH_format fw_path (py_hex offset))) (Some TIMEOUT)
    else
      bin_path ← p_tempfile ".bin";
      ret ← run_cmd (to_bin_command fw_path bin_path) (Some TIMEOUT);
      ret' ← run_cmd (EDBG_format (EDBG_FLASH_format bin_path (py_hex 0))) (Some TIMEOUT);
      p_emit EvCloseTemp ;;
      mret (ret + ret')%Z
  ) io_error_is_1.

(** The configuration of [AvrDude]. *)
Record AvrConf := MkAvrConf {
  avr_tty : string; avr_baudrate : Z; avr_model : string; avr_programmer : string
}.

Definition AVRDUDE_format (c : AvrConf) (cmd : string) : string :=
  "avrdude -p " +:+ avr_model c +:+ " -P " +:+ avr_tty c +:+ " -c " +:+
  avr_programmer c +:+ " -b " +:+ str_of_Z (avr_baudrate c) +:+ " " +:+ cmd.

Definition avrdude_flash (c : AvrConf) (hex_file : string) : M St Z :=
  try_except (
    hex_path ← abspath hex_file;
    run_cmd (AVRDUDE_format c (" -D -U " +:+ hex_path)) (Some TIMEOUT)
  ) io_error_is_1.

(** [AvrDude.trigger_bootloader(tty, tty_prog, timeout, baudrate=1200)] *)
Definition trigger_bootloader (tty tty_prog : string) (timeout : Z) : M St Z :=
  try_except (
    p_serial tty 1200 ;;
    p_emit EvSerialClose ;;
    wait_tty tty_prog timeout
  ) (λ e, match e with OSError _ | SerialException => Some (mret 1%Z) | _ => None end).

(** The configuration of [CC2538]. *)
Definition CC2538BSL_format (port cmd : string) : string :=
  "/usr/bin/cc2538-bsl.py -p " +:+ port +:+ " " +:+ cmd.

Definition CC2538_FLASH_format (baudrate : Z) (addr hex : string) : string :=
  "-b " +:+ str_of_Z baudrate +:+ " -e" +:+ " -w" +:+ " -a 0x" +:+ addr +:+
  " -v" +:+ " " +:+ hex.

Definition to_hex_command (elf hex : string) : string :=
  "objcopy -I elf32-big -O ihex " +:+ elf +:+ " " +:+ hex.

(** [CC2538._call_cmd(command_str)], with the arguments of [_cc2538_args] *)
Definition cc2538_call (command_str : string) : M St Z := run_cmd command_str (Some TIMEOUT).

Definition cc2538_reset (port : string) : M St Z :=
  cc2538_call (CC2538BSL_format port "").

(** [get_elf_load_addr(path)]: pyelftools reads the sections *)
Definition get_elf_load_addr (path : string) : M St (option Z) :=
  r ← ask (EvElfLoadAddr path) (λ t, env_loadaddr t path);
  lift r.

Definition cc2538_flash (port : string) (baudrate : Z) (elf_file : string) : M St Z :=
  try_except (
    elf_path ← abspath elf_file;
    hex_path ← p_tempfile ".hex";
    ret ← cc2538_call (to_hex_command elf_path hex_path);
    address ← get_elf_load_addr elf_path;
    match address with
    | None => raise ValueError                 (* '{addr:08x}' of None *)
    | Some addr =>
        let flash_cmd := CC2538_FLASH_format baudrate (hex08 addr) hex_path in
        ret' ← cc2538_call (CC2538BSL_format port flash_cmd);
        p_emit EvCloseTemp ;;
        mret (ret + ret')%Z
    end
  ) io_error_is_1.
End tools.

(** ** Lemmas on [shlex.split] *)

(** Text that double quotes protect as it is. *)
Definition quotable (s : string) : Prop :=
  str_all (λ c, negb (Ascii.eqb c "034") && negb (Ascii.eqb c "\")) s = true.

(** Text that is one word without quotes. *)
Definition bare_char (c : Ascii.ascii) : bool :=
  negb (shlex_space c) && negb (Ascii.eqb c "\") && negb (Ascii.eqb c "'")
  && negb (Ascii.eqb c "034").

Definition bare (s : string) : Prop := str_all bare_char s = true.

Lemma shlex_double cur w s :
  quotable w → shlex ShDouble cur (w +:+ s) = shlex ShDouble (cur +:+ w) s.
Proof.
  unfold quotable. revert cur; induction w as [|c w IH]; intros cur Hw.
  - by rewrite str_app_nil_r.
  - apply andb_true_iff in Hw as [[H1 H2]%andb_true_iff Hw].
    apply negb_true_iff in H1, H2. rewrite str_app_cons. simpl. rewrite H1, H2.
    rewrite IH by done. by rewrite str_app_assoc.
Qed.

(** A quoted word followed by a blank or by nothing. *)
Lemma shlex_quoted w s :
  quotable w →
  shlex ShSpace "" (dquoted w +:+ String " " s) =
    (ws ← shlex ShSpace "" s; mret (w :: ws)).
Proof.
  intros Hw. unfold dquoted. rewrite !str_app_assoc.
  change (shlex ShDouble "" (w +:+ dquote +:+ String " " s) =
            (ws ← shlex ShSpace "" s; mret (w :: ws))).
  by rewrite shlex_double.
Qed.

Lemma shlex_quoted_end w : quotable w → shlex ShSpace "" (dquoted w) = Val [w].
Proof.
  intros Hw. unfold dquoted.
  change (shlex ShDouble "" (w +:+ dquote) = Val [w]). by rewrite shlex_double.
Qed.

Lemma shlex_bare_go cur w s :
  bare w → shlex ShWord cur (w +:+ s) = shlex ShWord (cur +:+ w) s.
Proof.
  unfold bare, bare_char. revert cur; induction w as [|c w IH]; intros cur Hw.
  - by rewrite str_app_nil_r.
  - cbn [str_all] in Hw. bool_hyps. rewrite str_app_cons. cbn [shlex].
    repeat match goal with H : _ = false |- _ => rewrite H; clear H end.
    rewrite IH by done. by rewrite str_app_assoc.
Qed.

Lemma shlex_bare w s :
  bare w → w ≠ "" →
  shlex ShSpace "" (w +:+ String " " s) = (ws ← shlex ShSpace "" s; mret (w :: ws)).
Proof.
  intros Hw Hne. destruct w as [|c w]; [done|]. pose proof Hw as Hc.
  unfold bare in Hc. cbn [str_all] in Hc. apply andb_true_iff in Hc as [Hc Hw'].
  unfold bare_char in Hc. bool_hyps. rewrite str_app_cons. cbn [shlex].
  repeat match goal with H : _ = false |- _ => rewrite H; clear H end.
  by rewrite (shlex_bare_go (String c "") w).
Qed.

Lemma shlex_blank s : shlex ShSpace "" (String " " s) = shlex ShSpace "" s.
Proof. done. Qed.

Lemma quotable_app a b : quotable a → quotable b → quotable (a +:+ b).
Proof. unfold quotable. rewrite str_all_app. by intros -> ->. Qed.

(** A sequence of [-c] options after a blank or at the start of the text, with
    what follows. *)
Fixpoint dash_cs (l : list string) : string :=
  match l with [] => "" | w :: l => dash_c w +:+ dash_cs l end.

Fixpoint c_words (l : list string) : list string :=
  match l with [] => [] | w :: l => "-c" :: w :: c_words l end.

Lemma shlex_dash_cs l :
  Forall quotable l → shlex ShSpace "" (dash_cs l) = Val (c_words l).
Proof.
  induction 1 as [|w l Hw Hl IH]; [done|].
  cbn [dash_cs c_words]. unfold dash_c. rewrite !str_app_assoc.
  change (shlex ShSpace "" ("-c" +:+ String " " (dquoted w +:+ dash_cs l)) =
            Val ("-c" :: w :: c_words l)).
  rewrite shlex_bare by done. destruct l as [|w' l]; cbn [dash_cs].
  - by rewrite str_app_nil_r, shlex_quoted_end.
  - unfold dash_c. rewrite !str_app_assoc.
    change (" -c " +:+ dquoted w' +:+ dash_cs l) with
      (String " " ("-c " +:+ dquoted w' +:+ dash_cs l)).
    rewrite shlex_quoted by done. cbn [dash_cs] in IH. unfold dash_c in IH.
    rewrite !str_app_assoc in IH.
    change (shlex ShSpace "" ("-c " +:+ dquoted w' +:+ dash_cs l) =
              Val (c_words (w' :: l))) in IH.
    by rewrite IH.
Qed.

(** The configuration files, each after [-f]. *)
Fixpoint f_words (l : list string) : list string :=
  match l with [] => [] | w :: l => "-f" :: w :: f_words l end.

Lemma shlex_config cfg opts s ws :
  Forall quotable (cfg :: opts) → shlex ShSpace "" s = Val ws →
  shlex ShSpace "" (openocd_config cfg opts +:+ String " " s) =
    Val (f_words (cfg :: opts) ++ ws).
Proof.
  intros Hall Hs. revert cfg Hall. induction opts as [|o opts IH]; intros cfg [Hc Ho]%Forall_cons.
  - change (openocd_config cfg []) with ("-f " +:+ dquoted cfg). rewrite !str_app_assoc.
    change ("-f " +:+ dquoted cfg +:+ String " " s) with
      ("-f" +:+ String " " (dquoted cfg +:+ String " " s)).
    rewrite shlex_bare by done. by rewrite shlex_quoted, Hs.
  - change (openocd_config cfg (o :: opts)) with
      (("-f " +:+ dquoted cfg) +:+ " " +:+ openocd_config o opts).
    rewrite !str_app_assoc.
    change ("-f " +:+ dquoted cfg +:+ " " +:+ openocd_config o opts +:+ String " " s) with
      ("-f" +:+ String " " (dquoted cfg +:+ String " "
         (openocd_config o opts +:+ String " " s))).
    rewrite shlex_bare by done. rewrite shlex_quoted by done. by rewrite IH.
Qed.

(** The argument list OpenOCD is run with. *)
Definition openocd_argv (path : string) (cfgs cmds : list string) : list string :=
  path :: "--debug=0" :: f_words cfgs ++ c_words ("init" :: "targets" :: cmds).

Lemma openocd_cmdline_split path cfg opts reset dbg cmds cmd :
  bare path → path ≠ "" → Forall quotable (cfg :: opts) → Forall quotable cmds →
  cmd = dash_cs cmds →
  shlex_split (openocd_cmdline (MkOpenOCD path (openocd_config cfg opts) reset dbg) cmd)
  = Val (openocd_argv path (cfg :: opts) cmds).
Proof.
  intros Hp Hne Hcfg Hcmds ->. unfold shlex_split, openocd_cmdline, OPENOCD_format.
  cbn [oo_path oo_config].
  assert (Htail : shlex ShSpace "" (dash_c "targets" +:+ " " +:+ dash_cs cmds) =
            Val ("-c" :: "targets" :: c_words cmds)).
  { unfold dash_c. rewrite !str_app_assoc.
    change (shlex ShSpace "" ("-c" +:+ String " "
              (dquoted "targets" +:+ String " " (dash_cs cmds))) =
            Val ("-c" :: "targets" :: c_words cmds)).
    rewrite shlex_bare by done. rewrite shlex_quoted by done.
    by rewrite shlex_dash_cs. }
  assert (Hinit : shlex ShSpace ""
      ("-c " +:+ dquoted "init" +:+ dash_c "targets" +:+ " " +:+ dash_cs cmds) =
            Val ("-c" :: "init" :: "-c" :: "targets" :: c_words cmds)).
  { change (dquoted "init" +:+ dash_c "targets" +:+ " " +:+ dash_cs cmds) with
      (dquoted "init" +:+ String " " ("-c " +:+ dquoted "targets" +:+ String " " (dash_cs cmds))).
    change (shlex ShSpace "" ("-c" +:+ String " "
      (dquoted "init" +:+ String " " ("-c " +:+ dquoted "targets" +:+ String " " (dash_cs cmds))))
      = Val ("-c" :: "init" :: "-c" :: "targets" :: c_words cmds)).
    rewrite shlex_bare by done. rewrite shlex_quoted by done.
    change (shlex ShSpace "" ("-c " +:+ dquoted "targets" +:+ String " " (dash_cs cmds)))
      with (shlex ShSpace "" (dash_c "targets" +:+ " " +:+ dash_cs cmds)).
    by rewrite Htail. }
  change (path +:+ " --debug=0" +:+ " " +:+ openocd_config cfg opts +:+ dash_c "init" +:+
          dash_c "targets" +:+ " " +:+ dash_cs cmds) with
    (path +:+ String " " ("--debug=0" +:+ String " " (openocd_config cfg opts +:+ String " "
      ("-c " +:+ dquoted "init" +:+ dash_c "targets" +:+ " " +:+ dash_cs cmds)))).
  rewrite shlex_bare by done. rewrite shlex_bare by done.
  by rewrite (shlex_config _ _ _ _ Hcfg Hinit).
Qed.

(** ** Lemmas: status codes *)

Section codes.
Context `{E : Env} `{!StatusOk}.

Lemma run_cmd_nonneg {St} cmd timeout : returns (λ r, 0 ≤ r)%Z (run_cmd cmd timeout : M St Z).
Proof. unfold run_cmd. nonneg. Qed.

#[local] Hint Resolve run_cmd_nonneg : nonneg.

Lemma openocd_call_nonneg cmd : returns (λ r, 0 ≤ r)%Z (openocd_call cmd).
Proof. unfold openocd_call. nonneg. Qed.

#[local] Hint Resolve openocd_call_nonneg : nonneg.

Lemma openocd_reset_nonneg : returns (λ r, 0 ≤ r)%Z openocd_reset.
Proof. unfold openocd_reset. nonneg. Qed.

Lemma openocd_flash_nonneg fw binary offset :
  returns (λ r, 0 ≤ r)%Z (openocd_flash fw binary offset).
Proof. unfold openocd_flash, io_error_is_1. nonneg. Qed.

Lemma openocd_debug_stop_nonneg : returns (λ r, 0 ≤ r)%Z openocd_debug_stop.
Proof. unfold openocd_debug_stop. nonneg. Qed.

Lemma openocd_debug_start_nonneg : returns (λ r, 0 ≤ r)%Z openocd_debug_start.
Proof. unfold openocd_debug_start. nonneg. Qed.

Lemma edbg_flash_nonneg {St} fw binary offset :
  returns (λ r, 0 ≤ r)%Z (edbg_flash fw binary offset : M St Z).
Proof. unfold edbg_flash, io_error_is_1. nonneg. Qed.

Lemma avrdude_flash_nonneg {St} c fw :
  returns (λ r, 0 ≤ r)%Z (avrdude_flash c fw : M St Z).
Proof. unfold avrdude_flash, io_error_is_1. nonneg. Qed.

Lemma trigger_bootloader_nonneg {St} tty tty_prog timeout :
  returns (λ r, 0 ≤ r)%Z (trigger_bootloader tty tty_prog timeout : M St Z).
Proof. unfold trigger_bootloader. nonneg. Qed.

Lemma cc2538_reset_nonneg {St} port : returns (λ r, 0 ≤ r)%Z (cc2538_reset port : M St Z).
Proof. unfold cc2538_reset, cc2538_call. nonneg. Qed.

Lemma cc2538_flash_nonneg {St} port baudrate fw :
  returns (λ r, 0 ≤ r)%Z (cc2538_flash port baudrate fw : M St Z).
Proof. unfold cc2538_flash, cc2538_call, io_error_is_1. nonneg. Qed.
End codes.

#[export] Hint Resolve run_cmd_nonneg openocd_reset_nonneg openocd_flash_nonneg
  openocd_debug_stop_nonneg openocd_debug_start_nonneg edbg_flash_nonneg
  avrdude_flash_nonneg trigger_bootloader_nonneg cc2538_reset_nonneg
  cc2538_flash_nonneg : nonneg.

(** ** Properties *)

Lemma hex_uint_quotable d :
  quotable (HexadecimalString.NilEmpty.string_of_uint d) ∧
  quotable (HexadecimalString.NilZero.string_of_uint d).
Proof.
  assert (H : quotable (HexadecimalString.NilEmpty.string_of_uint d))
    by (unfold quotable; induction d; simpl; done).
  split; [done|]. by destruct d.
Qed.

Lemma py_hex_quotable z : quotable (py_hex z).
Proof. unfold py_hex. case_match; apply quotable_app; try done; apply hex_uint_quotable. Qed.

(** The OpenOCD commands of a flash. *)
Definition flash_commands (path : string) (binary : bool) (offset : Z) : list string :=
  ["reset halt"; "reset init"] ++
  (if binary then ["program " +:+ path +:+ " verify " +:+ py_hex offset]
   else ["flash write_image erase " +:+ path; "verify_image " +:+ path]) ++
  ["reset run"; "shutdown"].

Lemma flash_format_commands (path : string) (binary : bool) (offset : Z) :
  (if binary then FLASH_BIN_format path (py_hex offset) else FLASH_format path)
  = dash_cs (flash_commands path binary offset).
Proof. by destruct binary. Qed.

Lemma flash_commands_quotable path binary offset :
  quotable path → Forall quotable (flash_commands path binary offset).
Proof.
  intros Hp. unfold flash_commands. destruct binary; simpl; repeat constructor;
    repeat apply quotable_app; try done; apply py_hex_quotable.
Qed.

(** C28: flashing with OpenOCD, for paths of the files without double quotes and
    backslashes, which the quotes of the command line do not protect, and a path of
    OpenOCD that is one bare word.  When the debugger is off and the file opens,
    OpenOCD is run once, with exactly the documented argument list: its
    configuration files, then halt, write and verify the file (or program the raw
    binary at the offset), reset and shut down; the paths pass as single
    arguments, blanks included.  The status is the exit code, 1 on a timeout, and
    1 without running anything when the file cannot be opened; the error of an OpenOCD
    that cannot be started is raised. *)
Theorem openocd_flash_correct `{Env} (path cfg : string) (opts : list string)
    (reset fw : string) (binary : bool) (offset : Z) (t : trace)
    (Hpath : bare path) (Hne : path ≠ "") (Hcfg : Forall quotable (cfg :: opts))
    (Hfw : quotable (env_abspath fw)) :
  let o := MkOpenOCD path (openocd_config cfg opts) reset false in
  let file := env_abspath fw in
  let argv := openocd_argv path (cfg :: opts) (flash_commands file binary offset) in
  let t1 := t ++ [EvOpen file "rb"] in
  let t2 := t1 ++ [EvCall argv (Some TIMEOUT)] in
  openocd_flash fw binary offset o t =
    match env_open t1 file with
    | Some _ => (Val 1%Z, o, t1)
    | None => match env_call t2 argv with
              | CallRet code => (Val code, o, t2)
              | CallTimeout => (Val 1%Z, o, t2)
              | CallOSError n => (Exn (OSError n), o, t2)
              end
    end.
Proof.
  intros o file argv t1 t2.
  assert (Hsplit : shlex_split (openocd_cmdline o
      (if binary then FLASH_BIN_format file (py_hex offset) else FLASH_format file)) = Val argv).
  { eapply openocd_cmdline_split; [done..| |apply flash_format_commands].
    by apply flash_commands_quotable. }
  unfold openocd_flash, abspath, p_open, try_except, mbind, M_bind, ask, mret, M_ret.
  fold file. fold t1. destruct (env_open t1 file); [done|].
  destruct binary; unfold openocd_call, run_cmd, get, lift, try_except, mbind, M_bind;
    cbn [oo_debug o]; rewrite Hsplit; unfold p_call, ask, mbind, M_bind; fold t2;
    destruct (env_call t2 argv); done.
Qed.

Lemma openocd_flash_correct_witness :
  @openocd_flash calm_env "/tmp/my fw.elf" false 0
    (MkOpenOCD "openocd" (openocd_config "/static/iot-lab.cfg" ["/static/iot-lab-m3.cfg"])
       RESET false) [] =
  (Val 0%Z,
   MkOpenOCD "openocd" (openocd_config "/static/iot-lab.cfg" ["/static/iot-lab-m3.cfg"])
     RESET false,
   [EvOpen "/tmp/my fw.elf" "rb";
    EvCall ["openocd"; "--debug=0"; "-f"; "/static/iot-lab.cfg"; "-f"; "/static/iot-lab-m3.cfg";
            "-c"; "init"; "-c"; "targets"; "-c"; "reset halt"; "-c"; "reset init";
            "-c"; "flash write_image erase /tmp/my fw.elf"; "-c"; "verify_image /tmp/my fw.elf";
            "-c"; "reset run"; "-c"; "shutdown"] (Some TIMEOUT)]).
Proof.
  rewrite (@openocd_flash_correct calm_env "openocd" "/static/iot-lab.cfg"
    ["/static/iot-lab-m3.cfg"] RESET "/tmp/my fw.elf" false 0 []);
    [vm_compute; reflexivity|vm_compute; reflexivity|discriminate| |vm_compute; reflexivity].
  repeat constructor.
Defined.

(** One OpenOCD at a time.  While the debugger runs, [flash] and [reset]
    return 1 without running any command; [debug_stop] always leaves the debugger
    off, also when the signal fails; [debug_start] terminates the previous debugger
    before it starts the new one. *)
Theorem openocd_debug_exclusive `{Env} (o : OpenOCD) (t : trace) (Hdbg : oo_debug o = true) :
  openocd_reset o t = (Val 1%Z, o, t) ∧
  (∀ fw binary offset,
     openocd_flash fw binary offset o t = (Val 1%Z, o, t ++ [EvOpen (env_abspath fw) "rb"])) ∧
  (∃ r, openocd_debug_stop o t = (Val r, set_oo_debug false o, t ++ [EvTerminate]) ∧
        (r = 0%Z ∨ r = 1%Z)) ∧
  (∀ o' t', openocd_debug_start o t = (Val 0%Z, o', t') →
     oo_debug o' = true ∧ ∃ args, t' = t ++ [EvTerminate; EvPopen args]).
Proof.
  destruct o as [path cfg rst dbg]; simpl in Hdbg; subst dbg.
  assert (Hstop : ∃ r, openocd_debug_stop (MkOpenOCD path cfg rst true) t =
      (Val r, MkOpenOCD path cfg rst false, t ++ [EvTerminate]) ∧ (r = 0%Z ∨ r = 1%Z)).
  { unfold openocd_debug_stop, try_finally, mbind, M_bind, get, ask, modify; simpl.
    destruct (env_terminate _); simpl; eauto. }
  split_and!; [done| |done|].
  - intros fw binary offset.
    unfold openocd_flash, abspath, p_open, try_except, mbind, M_bind, ask.
    destruct (env_open _ _); [done|]. by destruct binary.
  - intros o' t'. destruct Hstop as (r & Hr & _). unfold openocd_debug_start.
    unfold mbind, M_bind. rewrite Hr. unfold get, lift, ask.
    destruct (shlex_split _) as [args| |]; [|done..].
    destruct (env_popen _ _); [done|]. intros [= <- <-]. split; [done|].
    exists args. by rewrite <- (assoc_L (++)).
Qed.

Lemma openocd_debug_exclusive_witness :
  @openocd_reset calm_env (MkOpenOCD "openocd" "" RESET true) [] =
    (Val 1%Z, MkOpenOCD "openocd" "" RESET true, []).
Proof.
  exact (proj1 (@openocd_debug_exclusive calm_env (MkOpenOCD "openocd" "" RESET true) []
    eq_refl)).
Defined.
