(* ===== verification/ExternalProcess.v ===== *)
(** * Background processes ([gateway_code/utils/external_process.py] and the
    processes built on it)

    [ExternalProcess] is a thread that runs a command in a loop until it is
    stopped.  Two models: [Thread] interleaves the thread, the caller of [stop]
    and the process, statement by statement; [ep_start] and [ep_stop] are the
    operations as their callers see them, a single use of the thread object
    between two initialisations. *)

From S2P Require Import Prelude PyString Effects Common Programmers.

(** ** Signals *)

Inductive signal := SIGTERM | SIGINT | SIGKILL.

#[global] Instance signal_eq_dec : EqDecision signal.
Proof. solve_decision. Defined.

(** The [n]-th value of the generator [signals_iter(sigterm=10, sigint=10)]. *)
Definition signals_iter (n : nat) : signal :=
  if decide (n < 10) then SIGTERM
  else if decide (n < 10 + 10) then SIGINT
  else SIGKILL.

(** ** The thread, the process and the caller of [stop] *)

Module Thread.

(** Where the thread is: not started, at the test of [_target]'s loop, then at
    the statements of [_call_process], or ended. *)
Inductive pc := TNew | TLoop | TPopen | TSetStarted | TWait | TSleep | TDone.

#[global] Instance pc_eq_dec : EqDecision pc.
Proof. solve_decision. Defined.

Record state := MkState {
  x_run : bool;                  (* self._run *)
  x_started : bool;              (* self._started.is_set() *)
  x_process : option bool;       (* self.process, and whether it is running *)
  x_thread : pc
}.

(** After [__init__]. *)
Definition init : state := MkState false false None TNew.

(** [self.is_alive()] *)
Definition is_alive (s : state) : bool :=
  match x_thread s with TNew | TDone => false | _ => true end.

Definition at_pc (p : pc) (s : state) : state :=
  MkState (x_run s) (x_started s) (x_process s) p.

(** One statement of [_target] and [_call_process].  [popen_ok] tells whether
    [Popen] finds the command; when it does not the thread ends on the
    exception. *)
Definition thread_step (popen_ok : bool) (s : state) : state :=
  match x_thread s with
  | TLoop => at_pc (if x_run s then TPopen else TDone) s
  | TPopen =>
      if popen_ok then MkState (x_run s) (x_started s) (Some true) TSetStarted
      else at_pc TDone s
  | TSetStarted => MkState (x_run s) true (x_process s) TWait
  | TWait =>                                       (* self.process.wait() *)
      match x_process s with
      | Some true => s
      | _ => at_pc TSleep s
      end
  | TSleep => MkState (x_run s) false (x_process s) TLoop
  | TNew | TDone => s
  end.

(** The process ends by itself, or on a signal it handles. *)
Definition proc_exit (s : state) : state :=
  match x_process s with
  | Some true => MkState (x_run s) (x_started s) (Some false) (x_thread s)
  | _ => s
  end.

(** What the scheduler can let happen beside the caller. *)
Inductive action := AThread (popen_ok : bool) | AExit.

Definition act (a : action) (s : state) : state :=
  match a with
  | AThread ok => thread_step ok s
  | AExit => proc_exit s
  end.

Definition acts (l : list action) (s : state) : state := fold_left (λ s a, act a s) l s.

(** [start()], up to its wait for [_started]: [Thread.start] refuses a thread
    object that was started already. *)
Definition start (s : state) : outcome state :=
  match x_thread s with
  | TNew => Val (MkState true (x_started s) (x_process s) TLoop)
  | _ => Exn RuntimeError
  end.

Definition EPERM : Z := 1.

(** [os.kill] of the child: refused when the gateway has not the right to, and
    [ESRCH] once the child was waited for. *)
Definition kill_errno (allowed alive : bool) : option Z :=
  if alive then if allowed then None else Some EPERM else Some ESRCH.

(** The body of the loop of [stop], up to its sleep; [n] signals were taken from
    the generator. *)
Definition stop_body (allowed : bool) (n : nat) (s : state) : outcome (nat * state) :=
  match x_process s with
  | None => Val (n, s)
  | Some alive =>
      match kill_errno allowed alive with
      | None => Val (S n, if decide (signals_iter n = SIGKILL) then proc_exit s else s)
      | Some e => if (e =? 3)%Z then Val (S n, s) else Exn AssertionError
      end
  end.

(** The loop of [stop]; [sched i] is what happens during its [i]-th sleep. *)
Fixpoint stop_loop (sched : nat → list action) (allowed : bool) (fuel i n : nat)
    (s : state) : outcome unit * state :=
  match fuel with
  | O => (Hang, s)
  | S fuel =>
      if is_alive s then
        match stop_body allowed n s with
        | Val (n', s') => stop_loop sched allowed fuel (S i) n' (acts (sched i) s')
        | Exn e => (Exn e, s)
        | Hang => (Hang, s)
        end
      else (Val tt, s)
  end.

(** [stop()] *)
Definition stop (sched : nat → list action) (allowed : bool) (fuel : nat) (s : state)
    : outcome Z * state :=
  let s := MkState false (x_started s) (x_process s) (x_thread s) in
  match stop_loop sched allowed fuel 0 0 s with
  | (Val _, s') =>
      (* process = None; _started.clear(); _thread_init() *)
      (Val 0%Z, MkState (x_run s') false None TNew)
  | (Exn e, s') => (Exn e, s')
  | (Hang, s') => (Hang, s')
  end.

(** ** Invariant *)

(** The thread has a process whenever it is between [Popen] and the end of
    [wait], and no process runs otherwise; a new thread has none. *)
Definition wf (s : state) : Prop :=
  match x_thread s with
  | TSetStarted | TWait => is_Some (x_process s)
  | TNew => s = init
  | _ => x_process s ≠ Some true
  end.

Lemma thread_step_wf ok s : wf s → wf (thread_step ok s).
Proof. destruct s as [[] st [[]|] []]; destruct ok; unfold wf; simpl; naive_solver. Qed.

Lemma proc_exit_wf s : wf s → wf (proc_exit s).
Proof. destruct s as [run st [[]|] []]; unfold wf, proc_exit; simpl; naive_solver. Qed.

Lemma acts_ind (P : state → Prop) l s :
  (∀ a s, P s → P (act a s)) → P s → P (acts l s).
Proof. intros Ha. revert s. induction l; intros s Hs; simpl; auto. Qed.

Lemma act_wf a s : wf s → wf (act a s).
Proof. destruct a; [apply thread_step_wf|apply proc_exit_wf]. Qed.

(** ** Once [_run] is cleared, the thread only goes on towards its end *)

(** Statements left before the end. *)
Definition rank (s : state) : nat :=
  match x_thread s with
  | TPopen => 5 | TSetStarted => 4 | TWait => 3 | TSleep => 2 | TLoop => 1
  | TNew | TDone => 0
  end.

Lemma is_alive_rank s : is_alive s = false ↔ rank s = 0.
Proof. destruct s as [run st p []]; simpl; naive_solver. Qed.

(** [stopping r s s']: from [s] to [s'] the flag stayed cleared, the rank did not
    grow, and while the rank is that of a wait a dead process stays dead. *)
Definition stopping (s s' : state) : Prop :=
  x_run s' = false ∧ wf s' ∧ rank s' ≤ rank s ∧
  (rank s' = rank s → x_thread s = TWait → x_process s = Some false →
   x_process s' = Some false).

Lemma stopping_refl s : x_run s = false → wf s → stopping s s.
Proof. done. Qed.

Lemma rank_wait s s' : rank s' = rank s → x_thread s = TWait → x_thread s' = TWait.
Proof. unfold rank. intros H Hw. rewrite Hw in H. by destruct (x_thread s'). Qed.

Lemma stopping_trans s1 s2 s3 : stopping s1 s2 → stopping s2 s3 → stopping s1 s3.
Proof.
  intros (R2 & W2 & L2 & D2) (R3 & W3 & L3 & D3). split_and!; [done|done|lia|].
  intros Heq Hw Hd. assert (rank s2 = rank s1) by lia.
  apply D3; [lia|by eapply rank_wait|by apply D2].
Qed.

Lemma act_stopping a s : x_run s = false → wf s → stopping s (act a s).
Proof.
  intros Hr Hw. split_and!; [|by apply act_wf| |].
  - destruct s as [[] st [[]|] []], a as [[]|]; simpl in *; done.
  - destruct s as [[] st [[]|] []], a as [[]|]; simpl in *; simplify_eq;
      unfold rank; simpl; lia.
  - destruct s as [[] st [[]|] []], a as [[]|]; simpl in *; done.
Qed.

Lemma acts_stopping l s : x_run s = false → wf s → stopping s (acts l s).
Proof.
  revert s. induction l as [|a l IH]; intros s Hr Hw; [done|].
  pose proof (act_stopping a s Hr Hw) as Ha. simpl. eapply stopping_trans; [done|].
  apply IH; apply Ha.
Qed.

(** A scheduled thread goes on unless it waits for a running process. *)
Lemma acts_progress l s ok :
  x_run s = false → wf s → AThread ok ∈ l → rank s ≠ 0 →
  (x_thread s = TWait → x_process s = Some false) →
  rank (acts l s) < rank s.
Proof.
  revert s. induction l as [|a l IH]; intros s Hr Hw Hin Hne Hd; [by apply not_elem_of_nil in Hin|].
  simpl. pose proof (act_stopping a s Hr Hw) as Ha.
  pose proof (acts_stopping l (act a s) (proj1 Ha) (proj1 (proj2 Ha))) as Hl.
  destruct (decide (rank (act a s) < rank s)) as [|Hge].
  { destruct Hl as (_ & _ & ? & _). lia. }
  destruct Ha as (Ra & Wa & La & Da). assert (Heq : rank (act a s) = rank s) by lia.
  apply elem_of_cons in Hin as [<-|Hin].
  - exfalso. clear -Hd Hne Hr Heq Hw. destruct s as [[] st [[]|] []], ok; simpl in *;
      simplify_eq; try lia; try naive_solver; destruct Hw; done.
  - rewrite <- Heq. apply IH; [done..|lia|]. intros Hw'. apply Da; [done| |].
    + eapply rank_wait; [symmetry|]; done.
    + apply Hd. eapply rank_wait; [symmetry|]; done.
Qed.
(** ** The loop of [stop] ends *)

(** The caller's side of a round: it never refuses, leaves the thread where it
    is, takes a signal when there is a process, and from the twentieth signal on
    leaves no process running. *)
Lemma stop_body_spec n s :
  x_run s = false → wf s →
  ∃ n' s', stop_body true n s = Val (n', s') ∧ stopping s s' ∧ rank s' = rank s ∧
    (is_Some (x_process s) → n' = S n ∧ (20 ≤ n → x_process s' = Some false)).
Proof.
  intros Hr Hw. destruct s as [run st [[]|] p]; simpl in Hr; subst; cbn.
  - eexists _, _. split; [done|]. unfold signals_iter.
    case_decide as Hk; cbn; split_and!; try done.
    + split_and!; [done|exact (proc_exit_wf _ Hw)|done|done].
    + intros _. split; [done|]. intros Hn. exfalso. apply Hk.
      by rewrite !decide_False by lia.
  - by eexists _, _.
  - eexists _, _. split; [done|]. split_and!; [done..|]. by intros [].
Qed.

Section termination.
Context (sched : nat → list action) (k : nat).

(** In any [k] rounds in a row the thread is scheduled at least once. *)
Definition fair : Prop := ∀ i, ∃ j ok, i ≤ j < i + k ∧ AThread ok ∈ sched j.

(** [b] rounds are enough from here. *)
Definition ends_in (b : nat) (s : state) (i n : nat) : Prop :=
  ∀ fuel, b ≤ fuel → ∃ s', stop_loop sched true fuel i n s = (Val tt, s') ∧ x_run s' = false ∧ wf s' ∧
    rank s' = 0.

Lemma ends_in_mono b b' s i n : b ≤ b' → ends_in b s i n → ends_in b' s i n.
Proof. intros Hb He fuel Hf. apply He. lia. Qed.

Lemma ends_in_done s i n : x_run s = false → wf s → rank s = 0 → ends_in 1 s i n.
Proof.
  intros Hr Hw H0 [|fuel] Hf; [lia|]. simpl. rewrite (proj2 (is_alive_rank s) H0). eauto.
Qed.

Lemma ends_in_round b s i n n' s' :
  rank s ≠ 0 → stop_body true n s = Val (n', s') →
  ends_in b (acts (sched i) s') (S i) n' → ends_in (S b) s i n.
Proof.
  intros Hne Hb He [|fuel] Hf; [lia|]. simpl.
  destruct (is_alive s) eqn:Ha; [|by apply is_alive_rank in Ha].
  rewrite Hb. apply He. lia.
Qed.

Section one_statement.
Context (r b : nat).
Hypothesis smaller : ∀ s i n, x_run s = false → wf s → rank s < r → ends_in b s i n.

(** A thread that is not blocked goes on as soon as it is scheduled. *)
Lemma ends_in_unblocked d s i n :
  x_run s = false → wf s → rank s = r → r ≠ 0 →
  (x_thread s = TWait → x_process s = Some false) →
  (∃ j ok, i ≤ j < i + d ∧ AThread ok ∈ sched j) →
  ends_in (d + b) s i n.
Proof.
  revert s i n. induction d as [|d IH]; intros s i n Hr Hw Hrank Hne Hd (j & ok & Hj & Hin);
    [lia|].
  destruct (stop_body_spec n s Hr Hw) as (n' & s' & Hb & (R1 & W1 & _ & D1) & Hrank' & _).
  apply (ends_in_round (d + b) _ _ _ n' s'); [lia|done|].
  assert (Hd' : x_thread s' = TWait → x_process s' = Some false).
  { intros Hw'. assert (x_thread s = TWait) by (eapply rank_wait; [symmetry|]; done). auto. }
  destruct (acts_stopping (sched i) s' R1 W1) as (R2 & W2 & L2 & D2).
  destruct (decide (rank (acts (sched i) s') < r)) as [Hlt|Hge].
  { eapply ends_in_mono; [|by apply smaller]; lia. }
  assert (Heq : rank (acts (sched i) s') = rank s') by lia.
  apply IH; [done|done|lia|done| |].
  - intros Hw2. assert (x_thread s' = TWait) by (eapply rank_wait; [symmetry|]; done). auto.
  - exists j, ok. split; [|done]. destruct (decide (j = i)) as [->|]; [|lia].
    exfalso. apply Hge. rewrite <- Hrank, <- Hrank'. eapply acts_progress; eauto. lia.
Qed.

(** A blocked thread is freed by the twenty-first signal at the latest. *)
Lemma ends_in_blocked d s i n :
  fair → x_run s = false → wf s → rank s = r → x_thread s = TWait → 21 - n ≤ d →
  ends_in (S d + k + b) s i n.
Proof.
  intros Hfair. revert s i n. induction d as [|d IH]; intros s i n Hr Hw Hrank Hpc Hn;
    (assert (Hne : r ≠ 0) by (rewrite <- Hrank; unfold rank; by rewrite Hpc));
    destruct (stop_body_spec n s Hr Hw) as (n' & s' & Hb & (R1 & W1 & _ & _) & Hrank' & Hsig);
    (destruct Hsig as [-> Hkill]; [unfold wf in Hw; by rewrite Hpc in Hw|]);
    assert (Hpc' : x_thread s' = TWait) by (by eapply rank_wait);
    destruct (acts_stopping (sched i) s' R1 W1) as (R2 & W2 & L2 & D2);
    (eapply ends_in_round with (b := _ + k + b); [lia|done|]);
    (destruct (decide (rank (acts (sched i) s') < r)) as [Hlt|Hge];
      [eapply ends_in_mono; [|by apply smaller]; lia|]);
    assert (Heq : rank (acts (sched i) s') = rank s') by lia.
  - apply ends_in_unblocked; [done|done|lia|done| |apply Hfair].
    intros _. apply D2; auto. apply Hkill. lia.
  - apply IH; [done|done|lia| |lia]. by eapply rank_wait.
Qed.

Lemma ends_in_statement s i n :
  fair → x_run s = false → wf s → rank s = r → r ≠ 0 → ends_in (22 + k + b) s i n.
Proof.
  intros Hfair Hr Hw Hrank Hne. destruct (decide (x_thread s = TWait)) as [Hpc|Hpc].
  - apply (ends_in_blocked 21); [done..|lia].
  - eapply ends_in_mono; [|apply (ends_in_unblocked k)]; [lia|done..| |apply Hfair].
    by intros ?.
Qed.
End one_statement.

Lemma ends_in_rank r s i n :
  fair → x_run s = false → wf s → rank s ≤ r → ends_in (1 + r * (22 + k)) s i n.
Proof.
  intros Hfair. revert s i n. induction r as [|r IH]; intros s i n Hr Hw Hrank.
  - apply ends_in_done; [done|done|lia].
  - destruct (decide (rank s ≤ r)) as [|Hgt].
    { eapply ends_in_mono; [|by apply IH]; lia. }
    eapply ends_in_mono; [|apply (ends_in_statement (S r) (1 + r * (22 + k)))]; [lia| |done..|lia|lia].
    intros s' i' n' ???. apply IH; [done..|lia].
Qed.

(** Rounds of 0.1 s that are always enough. *)
Definition stop_bound : nat := 1 + 5 * (22 + k).

Lemma stop_loop_ends s fuel :
  fair → wf s → x_run s = false → stop_bound ≤ fuel →
  ∃ s', stop_loop sched true fuel 0 0 s = (Val tt, s') ∧ x_run s' = false ∧
        x_process s' ≠ Some true.
Proof.
  intros Hfair Hw Hr Hf.
  destruct (ends_in_rank 5 s 0 0 Hfair Hr Hw) with (fuel := fuel) as (s' & Hs' & Hr' & Hw' & H0).
  - unfold rank; by destruct (x_thread s); simpl; lia.
  - done.
  - exists s'. split_and!; [done..|]. unfold wf, rank in *.
    destruct (x_thread s'); try done. by rewrite Hw'.
Qed.
End termination.

(** ** Every history of the object *)

(** [_run] is what the last of [start] and [stop] left. *)
Definition set_run (b : bool) (s : state) : state :=
  MkState b (x_started s) (x_process s) (x_thread s).

Inductive reachable : state → Prop :=
  | reach_init : reachable init
  | reach_start s s' : reachable s → start s = Val s' → reachable s'
  | reach_act a s : reachable s → reachable (act a s)
  | reach_body allowed n n' s s' :
      reachable s → stop_body allowed n s = Val (n', s') → reachable s'
  | reach_stop sched allowed fuel s r s' :
      reachable s → stop sched allowed fuel s = (Val r, s') → reachable s'.

Lemma start_wf s s' : start s = Val s' → wf s → wf s'.
Proof.
  unfold start, wf. destruct (x_thread s) eqn:Hpc; intros [= <-] Hs; simpl. by rewrite Hs.
Qed.

Lemma stop_body_wf allowed n s n' s' : stop_body allowed n s = Val (n', s') → wf s → wf s'.
Proof.
  unfold stop_body. intros H Hw. repeat case_match; simplify_eq; auto using proc_exit_wf.
Qed.

Lemma stop_loop_run sched allowed fuel i n s s' :
  stop_loop sched allowed fuel i n s = (Val tt, s') → x_run s = false → x_run s' = false.
Proof.
  revert i n s. induction fuel as [|fuel IH]; intros i n s; simpl; [done|].
  case_match; [|congruence]. case_match; [|done..]. case_match. intros H3 Hr.
  eapply IH; [done|]. apply acts_ind.
  - intros [ok|] x Hx; destruct x as [[] ? [[]|] []]; simpl in *; by try destruct ok.
  - unfold stop_body in *. destruct s as [[] ? [[]|] ?]; repeat case_match; simplify_eq; done.
Qed.

Lemma reachable_wf s : reachable s → wf s.
Proof.
  induction 1 as [|s s' _ IH Hs|a s _ IH|allowed n n' s s' _ IH Hb|sched allowed fuel s r s' _ IH Hs].
  - done.
  - by eapply start_wf.
  - by apply act_wf.
  - by eapply stop_body_wf.
  - unfold stop in Hs. case_match eqn:E. case_match; simplify_eq.
    unfold wf. simpl. f_equal. destruct a. by eapply stop_loop_run.
Qed.

Lemma set_run_wf s : wf s → wf (set_run false s).
Proof. unfold wf. destruct s as [run st p []]; simpl; try done. by intros [= -> -> ->]. Qed.
End Thread.

(** ** The object as its callers see it *)

(** [ep_used]: the thread object was started and not re-initialised since. *)
Record ExtProc := MkExtProc {
  ep_name : string;                (* NAME *)
  ep_cmd : list string;            (* process_cmd *)
  ep_used : bool
}.

Definition set_used (b : bool) (p : ExtProc) : ExtProc :=
  MkExtProc (ep_name p) (ep_cmd p) b.

Section extproc.
Context `{E : Env}.

(** [ExternalProcess.start]: 0 when the process was seen within 15 s *)
Definition ep_start : M ExtProc Z :=
  p ← get;
  if ep_used p then raise RuntimeError
  else
    modify (set_used true) ;;
    ok ← ask (EvProcStart (ep_name p)) (λ t, env_proc_start t (ep_name p));
    mret (status ok).

(** [ExternalProcess.stop]: nothing to wait for when the thread was not started *)
Definition ep_stop : M ExtProc Z :=
  p ← get;
  if ep_used p then
    r ← ask (EvProcStop (ep_name p)) (λ t, env_proc_stop t (ep_name p));
    match r with
    | StopDone => modify (set_used false) ;; mret 0%Z
    | StopRefused => raise AssertionError
    | StopNever => hang
    end
  else mret 0%Z.

(** ** The processes *)

(** [SerialRedirection.__init__] *)
Definition socat_cmd (tty : string) (baud : Z) (serial_opts : list string) : string :=
  "socat -d" +:+ " TCP4-LISTEN:20000,reuseaddr" +:+
  " open:" +:+ tty +:+ ",b" +:+ str_of_Z baud +:+ "," +:+ str_join "," serial_opts.

Definition process_new (name cmd : string) : outcome ExtProc :=
  process_cmd ← shlex_split cmd; mret (MkExtProc name process_cmd false).

Definition serial_redirection (tty : string) (baudrate : Z) (serial_opts : list string)
    : outcome ExtProc :=
  process_new "serial redirection" (socat_cmd tty baudrate serial_opts).

(** The default of [serial_opts]. *)
Definition raw_opts : list string := ["echo=0"; "raw"].

(** [Mosquitto.__init__] *)
Definition mosquitto (port : Z) : outcome ExtProc :=
  process_new "mosquitto" ("/usr/sbin/mosquitto -v -p " +:+ str_of_Z port).

(** [RtlTcp.__init__] *)
Definition rtl_tcp (port frequency : Z) : outcome ExtProc :=
  process_new "rtl_tcp" ("/usr/bin/rtl_tcp " +:+ "-a 0.0.0.0 " +:+
    "-p " +:+ str_of_Z port +:+ " " +:+ "-f " +:+ str_of_Z frequency).

(** [MjpgStreamer.__init__], its log file opened first *)
Definition mjpg_streamer {St} (port : Z) : M St ExtProc :=
  p ← lift (process_new "mjpg_streamer"
    ("/usr/bin/mjpg_streamer " +:+
     "-i 'input_raspicam.so -fps 2 -x 320 -y 240 -drc high " +:+
     "-st -ex auto -sh 100' " +:+
     "-o 'output_http.so -p " +:+ str_of_Z port +:+ "'"));
  p_open "/var/log/gateway-server/mjpg_streamer.log" "w" ;;
  mret p.

(** [LoraGatewayBridge.__init__]: the site's configuration replaces the default *)
Definition lora_gateway_bridge {St} : M St ExtProc :=
  site ← p_isfile "/var/local/config/lora-gateway-bridge.toml";
  let bridge_cfg := if site : bool
                    then "/var/local/config/lora-gateway-bridge.toml"
                    else "/opt/lora-gateway-bridge/lora-gateway-bridge.toml" in
  lift (process_new "lora_gateway_bridge"
    ("/opt/lora-gateway-bridge/lora-gateway-bridge" +:+ " -c " +:+ bridge_cfg)).
End extproc.

Section extproc_facts.
Context `{E : Env}.

Lemma ep_start_nonneg : returns (λ r, 0 ≤ r)%Z ep_start.
Proof. unfold ep_start. nonneg. apply status_nonneg. Qed.

Lemma ep_stop_nonneg : returns (λ r, 0 ≤ r)%Z ep_stop.
Proof. unfold ep_stop. nonneg. Qed.

(** A process that is stopped can be started. *)
Lemma ep_stop_start p t p' t' r :
  ep_stop p t = (Val r, p', t') → ∃ r' p'' t'', ep_start p' t' = (Val r', p'', t'').
Proof.
  unfold ep_stop, ep_start, mret, M_ret, mbind, M_bind, get, ask, modify, raise, hang.
  simpl. intros H.
  assert (Hu : ep_used p' = false).
  { destruct (ep_used p) eqn:Hp; [destruct (env_proc_stop _ _)|]; by simplify_eq/=. }
  rewrite Hu. eauto.
Qed.
End extproc_facts.

#[export] Hint Resolve ep_start_nonneg ep_stop_nonneg : nonneg.


(** ** Properties *)

(** C29: [ExternalProcess.stop] ends.  From any state the object can be in, with
    the thread at any statement and the process ignoring every signal it can
    ignore, if the thread is scheduled at least once in [k] rounds of the loop
    and the gateway may signal its child, [stop] returns 0 within
    [1 + 5 * (22 + k)] rounds; no process is left running, and the object is as
    after [__init__], so it can be started again. *)
Theorem external_stop_terminates (sched : nat → list Thread.action) (k fuel : nat)
    (s : Thread.state) (Hs : Thread.reachable s) (Hfair : Thread.fair sched k)
    (Hfuel : Thread.stop_bound k ≤ fuel) :
  Thread.stop sched true fuel s = (Val 0%Z, Thread.init) ∧
  (∃ s', Thread.stop_loop sched true fuel 0 0 (Thread.set_run false s) = (Val tt, s') ∧
         Thread.x_process s' ≠ Some true) ∧
  Thread.start Thread.init = Val (Thread.MkState true false None Thread.TLoop).
Proof.
  apply Thread.reachable_wf, Thread.set_run_wf in Hs.
  destruct (Thread.stop_loop_ends sched k _ fuel Hfair Hs eq_refl Hfuel) as (s' & Hl & Hr & Hp).
  split_and!; [|by exists s'|done].
  unfold Thread.stop. change (Thread.MkState false _ _ _) with (Thread.set_run false s).
  rewrite Hl. by rewrite Hr.
Qed.

(** A process that only SIGKILL ends, with the thread scheduled every second
    round. *)
Definition stubborn : nat → list Thread.action :=
  λ i, if Nat.even i then [Thread.AThread true] else [].

Lemma external_stop_terminates_witness :
  Thread.stop stubborn true 200 (Thread.MkState true true (Some true) Thread.TWait)
  = (Val 0%Z, Thread.init).
Proof.
  apply (external_stop_terminates stubborn 2 200).
  - apply (Thread.reach_act (Thread.AThread true) (Thread.MkState true false (Some true)
      Thread.TSetStarted)).
    apply (Thread.reach_act (Thread.AThread true) (Thread.MkState true false None
      Thread.TPopen)).
    apply (Thread.reach_act (Thread.AThread true) (Thread.MkState true false None
      Thread.TLoop)).
    apply (Thread.reach_start Thread.init); [apply Thread.reach_init|reflexivity].
  - intros i. destruct (Nat.even i) eqn:Hi.
    + exists i, true. split; [lia|]. unfold stubborn. rewrite Hi. left.
    + exists (S i), true. split; [lia|]. unfold stubborn.
      rewrite Nat.even_succ, <- Nat.negb_even, Hi. left.
  - unfold Thread.stop_bound. lia.
Defined.

(** The escalation.  When the process ignores what it can ignore and the
    thread waits for it, the first twenty rounds of [stop] send SIGTERM then
    SIGINT and leave the process running; the twenty-first ends it, whatever it
    does; a child the gateway may not signal makes [stop] fail with
    [AssertionError] at its first signal. *)
Theorem stop_escalates (s : Thread.state) (sched : nat → list Thread.action) (i n : nat)
    (Hp : Thread.x_process s = Some true) (Ha : Thread.is_alive s = true) :
  Thread.stop_body true n s =
    Val (S n, if decide (20 ≤ n) then Thread.proc_exit s else s) ∧
  (n < 10 → signals_iter n = SIGTERM) ∧ (10 ≤ n < 20 → signals_iter n = SIGINT) ∧
  (20 ≤ n → signals_iter n = SIGKILL) ∧
  (∀ fuel, Thread.stop_loop sched false (S fuel) i n s = (Exn AssertionError, s)).
Proof.
  unfold Thread.stop_body, signals_iter. split_and!.
  - rewrite Hp. simpl. repeat case_decide; try done; lia.
  - intros. by rewrite decide_True.
  - intros. rewrite decide_False by lia. by rewrite decide_True by lia.
  - intros. by rewrite !decide_False by lia.
  - intros fuel. simpl. rewrite Ha. unfold Thread.stop_body. by rewrite Hp.
Qed.

Lemma stop_escalates_witness :
  Thread.stop_body true 20 (Thread.MkState false true (Some true) Thread.TWait) =
  Val (21, Thread.MkState false true (Some false) Thread.TWait).
Proof.
  exact (proj1 (stop_escalates (Thread.MkState false true (Some true) Thread.TWait)
    (λ _, []) 0 20 eq_refl eq_refl)).
Defined.
