(* ===== verification/SerialExpect.v ===== *)
(** * Expect on a serial link ([gateway_code/utils/serial_expect.py])

    The loop that reads the link 16 bytes at a time until a pattern shows up in
    the current line, the connection to the serial redirection with its retries,
    and the correctness of the search when the pattern is cut by the reads. *)

From S2P Require Import Prelude PyString Effects.

(** [buff.split('\n')[-1]] *)
Definition last_line (s : string) : string :=
  let l := str_split "010"%char s in last_def "" l.

Section expect.
Context `{E : Env} {St : Type}.
(** [regexp.search(buff)], the text of the match *)
Context (search : string → option string).

(** The loop of [expect]; no end time when no timeout was given. *)
Fixpoint expect_loop (fuel : nat) (end_time : option Z) (buff : string) : M St string :=
  match fuel with
  | O => hang
  | S fuel =>
      r ← ask EvSerialRead env_sread;
      match r with
      | None => mret ""                              (* SerialException *)
      | Some read_bytes =>
          now ← p_time;
          if match end_time with Some e => (e <=? now)%Z | None => false end then mret ""
          else if decide (read_bytes = "") then expect_loop fuel end_time buff
          else
            let buff := last_line buff +:+ read_bytes in
            match search buff with
            | Some m => mret m
            | None => expect_loop fuel end_time buff
            end
      end
  end.

(** [expect(pattern, timeout)], the timeout in milliseconds *)
Definition expect (fuel : nat) (pattern : string) (timeout : option Z) : M St string :=
  if negb (str_all (λ c, negb (Ascii.eqb c "010"%char)) pattern) then raise ValueError
  else
    now ← p_time;
    expect_loop fuel ((λ t, now + t)%Z <$> timeout) "".
End expect.

(** [expect_list(pattern_list)]: the pattern [expect] is given *)
Definition list_pattern (pattern_list : list string) : string :=
  "(" +:+ str_join ")|(" pattern_list +:+ ")".

Section socket.
Context `{E : Env} {St : Type}.

(** [SerialExpectForSocket.try_connect(url, tries, step)] *)
Fixpoint try_connect (url : string) (tries : nat) : M St unit :=
  match tries with
  | O | S O => p_serial url 0
  | S tries =>
      try_except (p_serial url 0)
        (λ e, match e with
              | SerialException => Some (p_sleep 500 ;; try_connect url tries)
              | _ => None
              end)
  end.

(** [SerialExpectForSocket.__init__] *)
Definition socket_url : string := "socket://localhost:20000".
Definition expect_socket : M St unit := try_connect socket_url 10.

(** [SerialExpectForSocket.close] *)
Definition expect_close : M St unit := p_emit EvExpectClose ;; p_sleep 1000.
End socket.

(** ** Search of a literal pattern *)

(** [p in s] *)
Fixpoint occurs (p s : string) : bool :=
  String.prefix p s || match s with EmptyString => false | String _ s => occurs p s end.

(** [re.compile(p).search(s)] for a pattern without special characters *)
Definition literal (p s : string) : option string := if occurs p s then Some p else None.

Abbreviation nl := "010"%char.

Lemma last_line_cons c s :
  (no_char nl (String c s) → last_line (String c s) = String c s) ∧
  (¬ no_char nl (String c s) → last_line (String c s) = last_line s).
Proof.
  split.
  - intros Hn. unfold last_line. by rewrite (str_split_word _ _ Hn).
  - unfold no_char, last_line. simpl. intros Hn.
    destruct (Ascii.eqb c nl) eqn:Hc; simpl in Hn.
    + destruct (str_split nl s) eqn:Hs; [by apply str_split_nonempty in Hs|done].
    + destruct (str_split nl s) as [|w [|w' ws]] eqn:Hs; [by apply str_split_nonempty in Hs| |done].
      destruct Hn. pose proof (str_join_split nl s) as Hj. rewrite Hs in Hj. simpl in Hj. subst w.
      pose proof (str_split_no_char nl s) as Hf. rewrite Hs in Hf. by inversion Hf.
Qed.

(** A prefix without newline of a text with one ends before it. *)
Lemma prefix_before_newline p x r :
  no_char nl p → ¬ no_char nl x → String.prefix p (x +:+ r) = String.prefix p x.
Proof.
  unfold no_char. revert p. induction x as [|c x IH]; intros p Hp Hx; [done|].
  rewrite str_app_cons. destruct p as [|a p]; [done|]. simpl in Hp |- *.
  apply andb_true_iff in Hp as [Ha Hp]. destruct (ascii_dec a c) as [->|]; [|done].
  apply IH; [done|]. simpl in Hx. rewrite Ha in Hx. done.
Qed.

Lemma prefix_app p x r : String.prefix p x = true → String.prefix p (x +:+ r) = true.
Proof.
  revert p. induction x as [|c x IH]; intros [|a p]; try done; simpl; [by destruct r|].
  destruct (ascii_dec a c); [apply IH|done].
Qed.

Lemma occurs_app p x r : occurs p x = true → occurs p (x +:+ r) = true.
Proof.
  induction x as [|c x IH].
  - simpl. rewrite orb_false_r. intros Hp. destruct p; [|done]. by destruct r.
  - change (String.prefix p (String c x) || occurs p x = true →
            String.prefix p (String c x +:+ r) || occurs p (x +:+ r) = true).
    rewrite !orb_true_iff. intros [Hp|Hx].
    + left. by apply (prefix_app p (String c x)).
    + right. by apply IH.
Qed.

(** What a read adds only matters with the last line before it. *)
Lemma occurs_last_line p x r :
  p ≠ "" → no_char nl p →
  occurs p (x +:+ r) = occurs p x || occurs p (last_line x +:+ r).
Proof.
  intros Hne Hp. induction x as [|c x IH]; [destruct p; [done|]; by destruct r|].
  destruct (last_line_cons c x) as [Hl Hl'].
  destruct (decide (no_char nl (String c x))) as [Hn|Hn].
  - rewrite (Hl Hn). apply eq_true_iff_eq. rewrite orb_true_iff. split; [by right|].
    intros [Hx|Hx]; [by apply occurs_app|done].
  - rewrite (Hl' Hn). rewrite str_app_cons.
    change (String.prefix p (String c x +:+ r) || occurs p (x +:+ r) =
            (String.prefix p (String c x) || occurs p x) || occurs p (last_line x +:+ r)).
    by rewrite IH, prefix_before_newline, orb_assoc.
Qed.

Lemma last_line_idem_app x y : last_line (last_line x +:+ y) = last_line (x +:+ y).
Proof.
  induction x as [|c x IH]; [done|]. destruct (last_line_cons c x) as [Hl Hl'].
  destruct (decide (no_char nl (String c x))) as [Hn|Hn]; [by rewrite Hl|].
  rewrite (Hl' Hn), IH, str_app_cons. symmetry. apply (last_line_cons c (x +:+ y)).
  unfold no_char in *. rewrite <- str_app_cons, str_all_app. by destruct (str_all _ (String c x)).
Qed.

(** ** The reads of a run *)

Section runs.
Context `{E : Env} {St : Type}.

(** The answers of the link to the reads of [u], after [t]. *)
Fixpoint received (t u : trace) : list (option string) :=
  match u with
  | [] => []
  | EvSerialRead :: u => env_sread (t ++ [EvSerialRead]) :: received (t ++ [EvSerialRead]) u
  | ev :: u => received (t ++ [ev]) u
  end.

(** The bytes of these answers. *)
Fixpoint data (l : list (option string)) : string :=
  match l with
  | [] => ""
  | Some s :: l => s +:+ data l
  | None :: l => data l
  end.

(** How a search of [p] after the text [seen] ends, with the reads of [u]. *)
Definition search_post (p seen : string) (end_time : Z) (t u : trace) (m : string) : Prop :=
  ∃ rs r, received t u = rs ++ [r] ∧ occurs p (seen +:+ data rs) = false ∧
    (m = p ∧ occurs p (seen +:+ data (rs ++ [r])) = true ∨
     m = "" ∧ (r = None ∨ (end_time ≤ env_time (t ++ u))%Z)).
End runs.

(** A read lasts at least a millisecond: the 16 bytes it waits for, or its own
    timeout of 0.1 s. *)
Class ReadClock `{E : Env} : Prop :=
  read_clock : ∀ t, (env_time t + 1 ≤ env_time (t ++ [EvSerialRead; EvTime]))%Z.

Lemma data_app l l' : data (l ++ l') = data l +:+ data l'.
Proof. induction l as [|[s|] l IH]; simpl; [done| |done]. by rewrite IH, str_app_assoc. Qed.

(** The loop, from a buffer whose last line is that of the text [seen]. *)
Lemma expect_loop_literal `{E : Env} `{!ReadClock} {St : Type} p end_time fuel seen buff
    (s : St) t :
  p ≠ "" → no_char nl p → occurs p seen = false → last_line buff = last_line seen →
  Z.to_nat (end_time - env_time t) < fuel →
  ∃ m u, expect_loop (literal p) fuel (Some end_time) buff s t = (Val m, s, t ++ u) ∧
    search_post p seen end_time t u m.
Proof.
  intros Hne Hp. revert seen buff t.
  induction fuel as [|fuel IH]; intros seen buff t Hseen Hbuff Hfuel; [lia|].
  simpl. unfold ask at 1, mbind at 1, M_bind at 1.
  destruct (env_sread (t ++ [EvSerialRead])) as [bytes|] eqn:Hr.
  2: { exists "", [EvSerialRead]. split; [done|]. exists [], None. simpl. rewrite Hr.
       split; [done|]. rewrite str_app_nil_r. split; [done|]. right. by split; [|left]. }
  unfold p_time, ask, mbind at 1, M_bind at 1. rewrite <- (assoc_L (++)). simpl.
  assert (Hone : ∀ m, m = "" ∧ (end_time ≤ env_time (t ++ [EvSerialRead; EvTime]))%Z ∨
    m = p ∧ occurs p (seen +:+ bytes) = true →
    search_post p seen end_time t [EvSerialRead; EvTime] m).
  { intros m Hm. exists [], (Some bytes). simpl. rewrite Hr, !str_app_nil_r.
    split; [done|]. split; [done|]. destruct Hm as [[-> ?]|[-> ?]]; [right|left]; auto. }
  destruct (Z.leb_spec end_time (env_time (t ++ [EvSerialRead; EvTime]))) as [Hend|Hend].
  { exists "", [EvSerialRead; EvTime]. split; [done|]. apply Hone. by left. }
  assert (Hfuel' : Z.to_nat (end_time - env_time (t ++ [EvSerialRead; EvTime])) < fuel).
  { pose proof (read_clock t). lia. }
  assert (Hnext : ∀ buff', occurs p (seen +:+ bytes) = false →
    last_line buff' = last_line (seen +:+ bytes) →
    ∃ m u, expect_loop (literal p) fuel (Some end_time) buff' s (t ++ [EvSerialRead; EvTime]) =
        (Val m, s, t ++ u) ∧ search_post p seen end_time t u m).
  { intros buff' Hno Hlast.
    destruct (IH _ buff' _ Hno Hlast Hfuel') as (m & u & Hrun & rs & r & Hrs & Hnot & Hm).
    exists m, ([EvSerialRead; EvTime] ++ u). rewrite (assoc_L (++)). split; [done|].
    exists (Some bytes :: rs), r. simpl. rewrite Hr, <- (assoc_L (++)). simpl.
    split; [by rewrite Hrs|]. rewrite <- !str_app_assoc. split; [done|].
    rewrite <- (assoc_L (++)) in Hm. exact Hm. }
  destruct (decide (bytes = "")) as [->|Hb].
  { apply Hnext; by rewrite str_app_nil_r. }
  unfold literal at 1. rewrite Hbuff.
  assert (Hocc : occurs p (last_line seen +:+ bytes) = occurs p (seen +:+ bytes))
    by by rewrite (occurs_last_line p seen bytes), Hseen.
  rewrite Hocc. destruct (occurs p (seen +:+ bytes)) eqn:Ho.
  - exists p, [EvSerialRead; EvTime]. split; [done|]. apply Hone. by right.
  - apply Hnext; [done|]. apply last_line_idem_app.
Qed.

(** ** Properties *)

(** C39: a literal pattern is found wherever the reads cut it.  With a timeout and a
    link whose reads take time, [expect] of a non-empty pattern without newline
    returns after boundedly many reads: it returns the pattern at the first read
    after which the bytes received so far contain it, and otherwise the empty
    string, when the link failed or the time was over, and then the bytes before
    the last read do not contain the pattern. *)
Theorem expect_literal_correct `{E : Env} `{!ReadClock} {St : Type} (p : string)
    (timeout : Z) (fuel : nat) (s : St) (t : trace)
    (Hne : p ≠ "") (Hp : no_char "010"%char p) (Hfuel : Z.to_nat timeout < fuel) :
  ∃ m u, expect (literal p) fuel p (Some timeout) s t = (Val m, s, t ++ EvTime :: u) ∧
    search_post p "" (env_time (t ++ [EvTime]) + timeout) (t ++ [EvTime]) u m.
Proof.
  unfold expect. unfold no_char in Hp. rewrite Hp. simpl.
  unfold p_time, ask, mbind at 1, M_bind at 1. simpl.
  destruct (expect_loop_literal p (env_time (t ++ [EvTime]) + timeout) fuel "" "" s
    (t ++ [EvTime])) as (m & u & Hrun & Hpost); [done|done|by destruct p|done|lia|].
  exists m, u. split; [|done]. rewrite Hrun, <- (assoc_L (++)). done.
Qed.

(** A link that sends the prompt cut in two. *)
Definition prompt_env : Env :=
  world calm_call calm_start calm_reader calm_read
    (λ t, Some (if decide (length t < 3) then "boot" +:+ String nl " log" else "in: "))
    (λ t, Z.of_nat (length t)) calm_connect calm_sock_read calm_output.

#[global] Instance prompt_clock : @ReadClock prompt_env.
Proof. intros t. simpl. rewrite length_app. simpl. lia. Qed.

Lemma expect_literal_correct_witness :
  ∃ m u, @expect prompt_env unit (literal "login") 101 "login" (Some 100%Z) tt [] =
      (Val m, tt, EvTime :: u) ∧ m = "login".
Proof.
  destruct (@expect_literal_correct prompt_env _ unit "login" 100 101 tt []) as (m & u & Hrun & _);
    [discriminate|reflexivity|lia|].
  exists m, u. split; [exact Hrun|]. vm_compute in Hrun. congruence.
Defined.
