(* ===== verification/NodeConnection.v ===== *)
(** * Connection to the node's serial link
    ([gateway_code/utils/node_connection.py])

    The line protocol of the autotest firmwares, over the TCP port of the serial
    redirection: connection with retries, one command and its answer, and the
    removal of the lines that are waiting. *)

From S2P Require Import Prelude PyString Effects.

(** An [OpenNodeConnection]: its address, whether [fd] and [sock] are set, and whether
    the buffer of [fd] holds data that a failed [flush] left there. *)
Record Conn := MkConn { nc_host : string; nc_port : Z; nc_open : bool; nc_unsent : bool }.

(** [fd] and [sock] are set, to a new file whose buffer is empty, or to [None]. *)
Definition set_open (b : bool) (c : Conn) : Conn := MkConn (nc_host c) (nc_port c) b false.
Definition set_unsent (b : bool) (c : Conn) : Conn :=
  MkConn (nc_host c) (nc_port c) (nc_open c) b.

Definition PORT : Z := 20000.

(** [OpenNodeConnection(host)] *)
Definition conn_new (host : string) : Conn := MkConn host PORT false false.

(** [s.endswith('\n')] *)
Definition ends_with_newline (s : string) : bool :=
  match String.get (String.length s - 1) s with
  | Some c => bool_decide (s ≠ "") && Ascii.eqb c "010"%char
  | None => false
  end.

Section connection.
Context `{E : Env}.

(** [socket.create_connection(address)] *)
Definition create_connection {St} (host : string) (port : Z) : M St unit :=
  err ← ask (EvConnect host port) (λ t, env_connect t host port);
  match err with
  | None => mret tt
  | Some n => raise (IOError n)
  end.

(** [try_connect(address, tries, step=0.5)]: [tries - 1] attempts with a pause, then
    one whose error is raised *)
Fixpoint try_connect {St} (host : string) (port : Z) (tries : nat) : M St unit :=
  match tries with
  | O | S O => create_connection host port
  | S tries =>
      try_except (create_connection host port)
        (λ e, if is_IOError e then Some (p_sleep 500 ;; try_connect host port tries)
              else None)
  end.

Definition conn_start : M Conn Z :=
  c ← get;
  try_except (
    try_connect (nc_host c) (nc_port c) 10 ;;
    modify (set_open true) ;;
    mret 0%Z
  ) (λ e, if is_IOError e then Some (mret 1%Z) else None).

(** [self.fd], whose attributes [None] does not have *)
Definition need_fd : M Conn unit :=
  c ← get;
  if nc_open c then mret tt else raise AttributeError.

(** [self.fd.close()] flushes the data that is left in the buffer: when that fails again
    it raises, and [fd] stays set. *)
Definition fd_close : M Conn unit :=
  need_fd ;;
  c ← get;
  err ← ask EvSockClose (λ t, if nc_unsent c then env_sock_write t "" else None);
  match err with
  | None => mret tt
  | Some n => raise (IOError n)
  end.

Definition conn_stop : M Conn Z :=
  fd_close ;;
  modify (set_open false) ;;
  p_sleep 1000 ;;
  mret 0%Z.

Definition writeline (line : string) : M Conn unit :=
  need_fd ;;
  let line := line +:+ String "010"%char "" in
  err ← ask (EvSockWrite line) (λ t, env_sock_write t line);
  match err with
  | None => modify (set_unsent false)
  | Some n => modify (set_unsent true) ;; raise (IOError n)
  end.

(** The words of a complete line. *)
Definition line_words (answer : string) : option (list string) :=
  if ends_with_newline answer then Some (str_split " "%char (str_strip answer)) else None.

(** [None] on a timeout, an error, the end of the stream or an incomplete line *)
Definition readline : M Conn (option (list string)) :=
  need_fd ;;
  r ← ask EvSockRead env_sock_read;
  mret (match r with inl _ => None | inr answer => line_words answer end).

Definition conn_send_command (command_list : list string) : M Conn (option (list string)) :=
  writeline (str_join " " command_list) ;;
  readline.

(** [empty()]: reads until no line comes *)
Fixpoint empty_loop (fuel : nat) : M Conn unit :=
  match fuel with
  | O => hang
  | S fuel =>
      r ← readline;
      match r with
      | None => mret tt
      | Some _ => empty_loop fuel
      end
  end.

Definition conn_empty : M Conn unit := empty_loop env_patience.

(** [send_one_command(command_list, host)]: [with cls(host) as conn] *)
Definition send_one_command {St} (command_list : list string) (host : string)
    : M St (option (list string)) := λ s t,
  let body :=
    ret ← conn_start;
    if (ret =? 0)%Z
    then try_finally (conn_send_command command_list) (conn_stop ;; mret tt)
    else raise RuntimeError in
  let '(o, _, t') := body (conn_new host) t in (o, s, t').
End connection.

(** ** Lemmas *)

Section facts.
Context `{E : Env}.

Lemma conn_start_nonneg : returns (λ r, 0 ≤ r)%Z conn_start.
Proof. unfold conn_start. codes. Qed.

(** The requests of [k] refused attempts, each followed by its pause. *)
Definition retries (host : string) (port : Z) (k : nat) : trace :=
  concat (replicate k [EvConnect host port; EvSleep 500]).

(** The history at which attempt [k], from 0, is answered. *)
Definition attempt (t : trace) (host : string) (port : Z) (k : nat) : trace :=
  t ++ retries host port k ++ [EvConnect host port].

Lemma attempt_S t host port k :
  attempt t host port (S k) = attempt (t ++ [EvConnect host port; EvSleep 500]) host port k.
Proof. unfold attempt, retries. simpl. by rewrite <- (assoc_L (++)). Qed.

Lemma create_connection_run {St} host port (s : St) t :
  create_connection host port s t =
    (match env_connect (t ++ [EvConnect host port]) host port with
     | None => Val tt
     | Some n => Exn (IOError n)
     end, s, t ++ [EvConnect host port]).
Proof.
  unfold create_connection, ask, mbind, M_bind, mret, M_ret, raise.
  by destruct (env_connect _ _ _).
Qed.

Lemma try_connect_SS {St} host port n :
  try_connect host port (S (S n)) (St:=St) =
  try_except (create_connection host port)
    (λ e, if is_IOError e then Some (p_sleep 500 ;; try_connect host port (S n)) else None).
Proof. reflexivity. Qed.

(** How [S n] attempts end: the attempts before [k] are refused, and attempt [k], which
    is accepted or is the last one, decides. *)
Lemma try_connect_run {St} host port n (s : St) t :
  ∃ k, k ≤ n ∧ (∀ i, i < k → env_connect (attempt t host port i) host port ≠ None) ∧
    try_connect host port (S n) s t =
      (match env_connect (attempt t host port k) host port with
       | None => Val tt
       | Some e => Exn (IOError e)
       end, s, attempt t host port k) ∧
    (k < n → env_connect (attempt t host port k) host port = None).
Proof.
  revert t. induction n as [|n IH]; intros t.
  - exists 0. split; [done|]. split; [by intros ? ?%Nat.nlt_0_r|].
    split; [apply create_connection_run|by intros ?%Nat.nlt_0_r].
  - rewrite try_connect_SS. unfold try_except. rewrite create_connection_run.
    destruct (env_connect (t ++ [EvConnect host port]) host port) as [e|] eqn:Hc.
    + destruct (IH (t ++ [EvConnect host port; EvSleep 500])) as (k & Hk & Hpre & Hrun & Hlast).
      exists (S k). rewrite attempt_S. split; [lia|]. split.
      { intros [|i] Hi; [unfold attempt; simpl; by rewrite Hc|].
        rewrite attempt_S. apply Hpre. lia. }
      split; [|intros Hlt; apply Hlast; lia]. simpl is_IOError. cbv iota. rewrite <- Hrun.
      unfold p_sleep, ask, mbind, M_bind. by rewrite <- (assoc_L (++)).
    + exists 0. split; [lia|]. split; [by intros ? ?%Nat.nlt_0_r|].
      unfold attempt. simpl. by rewrite Hc.
Qed.

(** How the connection starts: an attempt is accepted, or the ten are refused. *)
Lemma conn_start_run c t :
  let h := nc_host c in let p := nc_port c in
  (∃ k, k < 10 ∧ (∀ i, i < k → env_connect (attempt t h p i) h p ≠ None) ∧
     env_connect (attempt t h p k) h p = None ∧
     conn_start c t = (Val 0%Z, set_open true c, attempt t h p k)) ∨
  ((∀ i, i < 10 → env_connect (attempt t h p i) h p ≠ None) ∧
     conn_start c t = (Val 1%Z, c, attempt t h p 9)).
Proof.
  intros h p. destruct (try_connect_run h p 9 c t) as (k & Hk & Hpre & Hrun & Hlast).
  assert (Hstart : conn_start c t =
    match env_connect (attempt t h p k) h p with
    | None => (Val 0%Z, set_open true c, attempt t h p k)
    | Some _ => (Val 1%Z, c, attempt t h p k)
    end).
  { unfold conn_start. erewrite bind_run by reflexivity. unfold try_except.
    unfold mbind, M_bind. fold h p. rewrite Hrun. by destruct (env_connect _ _ _). }
  rewrite Hstart. destruct (env_connect (attempt t h p k) h p) as [e|] eqn:Hc.
  - right. destruct (decide (k < 9)) as [Hlt|Hge]; [by specialize (Hlast Hlt)|].
    assert (k = 9) as -> by lia. split; [|done]. intros i Hi.
    destruct (decide (i = 9)) as [->|]; [by rewrite Hc|apply Hpre; lia].
  - left. exists k. split; [lia|done].
Qed.

(** The line of a command. *)
Definition command_line (cmd : list string) : string :=
  str_join " " cmd +:+ String "010"%char "".

(** One command on an open connection. *)
Lemma conn_send_command_run cmd c t :
  nc_open c = true →
  let tw := t ++ [EvSockWrite (command_line cmd)] in
  conn_send_command cmd c t =
    match env_sock_write tw (command_line cmd) with
    | Some n => (Exn (IOError n), set_unsent true c, tw)
    | None =>
        (Val match env_sock_read (tw ++ [EvSockRead]) with
             | inl _ => None
             | inr answer => line_words answer
             end, set_unsent false c, tw ++ [EvSockRead])
    end.
Proof.
  intros Hc tw. unfold conn_send_command, writeline, readline, need_fd, get, ask, modify, mbind,
    M_bind, mret, M_ret, raise. rewrite Hc. fold (command_line cmd) tw.
  destruct (env_sock_write _ _); [done|]. simpl. by rewrite Hc.
Qed.

(** The close of an open connection. *)
Lemma conn_stop_run c t :
  nc_open c = true →
  let tc := t ++ [EvSockClose] in
  conn_stop c t =
    match (if nc_unsent c then env_sock_write tc "" else None) with
    | Some n => (Exn (IOError n), c, tc)
    | None => (Val 0%Z, set_open false c, tc ++ [EvSleep 1000])
    end.
Proof.
  intros Hc tc. unfold conn_stop, fd_close, need_fd, get, ask, p_sleep, modify, mbind, M_bind,
    mret, M_ret, raise. rewrite Hc. unfold ask. fold tc.
  by destruct (if nc_unsent c then _ else _).
Qed.
End facts.

(** ** Properties *)

(** C26: one command to the node.  Whatever the network does, [send_one_command] ends.
    It connects up to ten times, with a pause of 500 ms after each refusal but the
    tenth, and never again once it is accepted.  When all ten attempts are refused, and
    only then, it raises [RuntimeError].  Once accepted it writes the line of the
    command.  When that succeeds it reads one answer, closes the connection, pauses
    one second and returns the words of the answer, or [None] when no complete line
    came.  When the write fails it does not read but still closes: the call raises the
    error of the write, after the pause, unless the close fails to flush what was left:
    then it raises that error, without the pause. *)
Theorem send_one_command_correct `{Env} {St : Type} (cmd : list string) (host : string) (s : St)
    (t : trace) :
  let history k := attempt t host PORT k in
  let refused k := env_connect (history k) host PORT ≠ None in
  ((∀ i, i < 10 → refused i) ∧
     send_one_command cmd host s t = (Exn RuntimeError, s, history 9)) ∨
  (∃ k, k < 10 ∧ (∀ i, i < k → refused i) ∧ ¬ refused k ∧
     let tw := history k ++ [EvSockWrite (command_line cmd)] in
     send_one_command cmd host s t =
     match env_sock_write tw (command_line cmd) with
     | None =>
         (Val match env_sock_read (tw ++ [EvSockRead]) with
              | inl _ => None
              | inr answer => line_words answer
              end, s, tw ++ [EvSockRead; EvSockClose; EvSleep 1000])
     | Some n =>
         match env_sock_write (tw ++ [EvSockClose]) "" with
         | None => (Exn (IOError n), s, tw ++ [EvSockClose; EvSleep 1000])
         | Some n' => (Exn (IOError n'), s, tw ++ [EvSockClose])
         end
     end).
Proof.
  intros history refused. unfold send_one_command.
  destruct (conn_start_run (conn_new host) t) as [(k & Hk & Hpre & Hc & Hrun)|[Hall Hrun]];
    rewrite (bind_run _ _ _ _ _ _ _ Hrun); simpl; [right|by left].
  exists k. split; [done|]. split; [done|]. split; [by intros []|].
  unfold try_finally. rewrite conn_send_command_run by done.
  fold (history k). destruct (env_sock_write _ (command_line cmd)) as [n|].
  - unfold mbind, M_bind. rewrite conn_stop_run by done. simpl nc_unsent. cbv iota.
    destruct (env_sock_write _ "") as [n'|]; simpl; [done|]. by rewrite <- !(assoc_L (++)).
  - unfold mbind, M_bind. rewrite conn_stop_run by done. simpl. by rewrite <- !(assoc_L (++)).
Qed.
