(* ===== verification/PyRegex.v ===== *)
(** * Regular expressions

    The part of Python's [re] the gateway uses: sequences of single characters and
    of repeated ones, matched with backtracking (a repetition takes as much as it
    can), at the start of a string ([match]) or at the first place that fits
    ([search]); and their correctness against the language of the expression. *)

From S2P Require Import Prelude PyString.

(** One character of a class, or one or more. *)
Inductive item := One (p : Ascii.ascii → bool) | Plus (p : Ascii.ascii → bool).

Abbreviation regex := (list item).

(** The length of the match at the start of a string. *)
Fixpoint match_items (r : regex) : string → option nat :=
  match r with
  | [] => λ _, Some 0
  | One p :: r => λ s,
      match s with
      | String c s => if p c then S <$> match_items r s else None
      | EmptyString => None
      end
  | Plus p :: r =>
      fix more (s : string) : option nat :=
        match s with
        | String c s =>
            if p c then
              match more s with
              | Some n => Some (S n)
              | None => S <$> match_items r s
              end
            else None
        | EmptyString => None
        end
  end.

(** [regexp.match(s) is not None] *)
Definition re_match (r : regex) (s : string) : bool :=
  match match_items r s with Some _ => true | None => false end.

(** [regexp.search(s)], the text of the match *)
Fixpoint re_search (r : regex) (s : string) : option string :=
  match match_items r s with
  | Some n => Some (String.substring 0 n s)
  | None => match s with String _ s => re_search r s | EmptyString => None end
  end.

(** ** Character classes *)

Definition is_char (x c : Ascii.ascii) : bool := Ascii.eqb c x.
(** [[0-9a-f]] *)
Definition is_hex (c : Ascii.ascii) : bool :=
  is_digit c || (let n := Ascii.nat_of_ascii c in (97 <=? n) && (n <=? 102))%nat.
(** [.]: anything but a newline *)
Definition is_dot (c : Ascii.ascii) : bool := negb (Ascii.eqb c "010"%char).

(** ** The language of an expression *)

Fixpoint in_lang (r : regex) (w : string) : Prop :=
  match r with
  | [] => w = ""
  | One p :: r => ∃ c w', w = String c w' ∧ p c = true ∧ in_lang r w'
  | Plus p :: r => ∃ u w', w = u +:+ w' ∧ u ≠ "" ∧ str_all p u = true ∧ in_lang r w'
  end.

Lemma substring_split n s :
  n ≤ String.length s → s = String.substring 0 n s +:+ String.substring n (String.length s - n) s.
Proof.
  assert (Hall : ∀ x, String.substring 0 (String.length x) x = x)
    by (intros x; induction x; simpl; congruence).
  revert n. induction s as [|c s IH]; intros [|n] Hn; simpl in Hn; [done|lia| |].
  - simpl. by rewrite Hall.
  - change (String c s = String c (String.substring 0 n s +:+
      String.substring n (String.length s - n) s)). f_equal. apply IH. lia.
Qed.

(** One turn of a repetition. *)
Lemma match_plus p r c s :
  match_items (Plus p :: r) (String c s) =
    if p c then
      match match_items (Plus p :: r) s with
      | Some n => Some (S n)
      | None => S <$> match_items r s
      end
    else None.
Proof. reflexivity. Qed.

(** A match is a word of the language, at the start of the string. *)
Lemma match_items_sound r s n :
  match_items r s = Some n → n ≤ String.length s ∧ in_lang r (String.substring 0 n s).
Proof.
  revert s n. induction r as [|[p|p] r IH]; intros s n.
  - intros [= <-]. split; [lia|]. by destruct s.
  - destruct s as [|c s]; simpl; [done|]. destruct (p c) eqn:Hc; [|done].
    destruct (match_items r s) as [m|] eqn:Hm; simpl; [|done]. intros [= <-].
    destruct (IH _ _ Hm). split; [lia|]. by exists c, (String.substring 0 m s).
  - revert n. induction s as [|c s IHs]; intros n; [done|]. rewrite match_plus.
    destruct (p c) eqn:Hc; [|done].
    destruct (match_items (Plus p :: r) s) as [m|] eqn:Hm.
    + intros [= <-]. destruct (IHs _ eq_refl) as [Hl (u & w & Hu & Hne & Hall & Hw)].
      split; [simpl; lia|]. exists (String c u), w. rewrite str_app_cons. simpl.
      by rewrite Hu, Hc, Hall.
    + destruct (match_items r s) as [m|] eqn:Hr; simpl; [|done]. intros [= <-].
      destruct (IH _ _ Hr). split; [simpl; lia|].
      exists (String c ""), (String.substring 0 m s). simpl. by rewrite Hc.
Qed.

(** A string that starts with a word of the language is matched. *)
Lemma match_items_complete r w v :
  in_lang r w → is_Some (match_items r (w +:+ v)).
Proof.
  revert w v. induction r as [|[p|p] r IH]; intros w v; [by eexists| |].
  - intros (c & w' & -> & Hc & Hw). rewrite str_app_cons. simpl. rewrite Hc.
    destruct (IH _ v Hw) as [n ->]. by eexists.
  - intros (u & w' & -> & Hne & Hall & Hw). rewrite str_app_assoc.
    assert (Hgo : ∀ x, is_Some (match_items r x) → ∀ u, u ≠ "" → str_all p u = true →
      is_Some (match_items (Plus p :: r) (u +:+ x))).
    { clear. intros x Hx u. induction u as [|c u IHu]; intros Hne Hall; [done|].
      rewrite str_app_cons, match_plus. simpl in Hall. apply andb_true_iff in Hall as [-> Hall].
      destruct (decide (u = "")) as [->|Hu].
      - change ("" +:+ x) with x. destruct (match_items (Plus p :: r) x); [by eexists|]. destruct Hx as [n ->]. by eexists.
      - destruct (IHu Hu Hall) as [n Hn]. rewrite Hn. by eexists. }
    apply Hgo; [by apply IH|done..].
Qed.

(** No match: no word of the language starts the string. *)
Lemma match_items_none r s w v : match_items r s = None → in_lang r w → s ≠ w +:+ v.
Proof. intros Hm Hw ->. by destruct (match_items_complete r w v Hw) as [n Hn]; rewrite Hn in Hm. Qed.

Lemma app_empty_r a b : "" = a +:+ b → b = "".
Proof. by destruct a. Qed.

(** The search finds the first place where a word of the language starts, and
    nothing exactly when there is none. *)
Lemma re_search_spec r s :
  match re_search r s with
  | Some m => in_lang r m ∧ ∃ a b, s = a +:+ m +:+ b ∧
      ∀ a' a'' w v, a = a' +:+ a'' → a'' ≠ "" → in_lang r w → a'' +:+ m +:+ b ≠ w +:+ v
  | None => ∀ a w v, in_lang r w → s ≠ a +:+ w +:+ v
  end.
Proof.
  induction s as [|c s IH].
  - simpl. destruct (match_items r "") as [n|] eqn:Hm.
    + destruct (match_items_sound _ _ _ Hm) as [_ Hl]. destruct n; simpl in *;
        (split; [done|]; exists "", ""; split; [done|];
         by intros a' a'' w v ->%app_empty_r).
    + intros a w v Hw Heq. destruct a; [|done]. exact (match_items_none _ _ _ _ Hm Hw Heq).
  - change (re_search r (String c s)) with
      (match match_items r (String c s) with
       | Some n => Some (String.substring 0 n (String c s)) | None => re_search r s end).
    destruct (match_items r (String c s)) as [n|] eqn:Hm.
    + destruct (match_items_sound _ _ _ Hm) as [Hn Hl]. split; [done|].
      exists "", (String.substring n (String.length (String c s) - n) (String c s)).
      split; [|by intros a' a'' w v ->%app_empty_r].
      by apply substring_split.
    + destruct (re_search r s) as [m|].
      * destruct IH as [Hl (a & b & -> & Hfirst)]. split; [done|]. exists (String c a), b.
        split; [done|]. intros a' a'' w v Ha Hne Hw. destruct a' as [|c' a'].
        -- change (String c a = a'') in Ha. subst a''. exact (match_items_none _ _ _ _ Hm Hw).
        -- injection Ha as _ ->. by eapply Hfirst.
      * intros a w v Hw Heq. destruct a as [|c' a].
        -- exact (match_items_none _ _ _ _ Hm Hw Heq).
        -- injection Heq as _ ->. by eapply IH.
Qed.
