(* ===== verification/LinuxInterface.v ===== *)
(** * Linux node interface ([gateway_code/autotest/open_linux_interface.py])

    The connection to a Linux node the autotests use: the address of the node read
    on its serial link, and the commands run on it over SSH. *)

From S2P Require Import Prelude PyString PyRegex Effects Config Programmers SerialExpect.

(** An [OpenLinuxConnection]; nothing sets its [local_tty]. *)
Record LinuxConn := MkLinuxConn { ln_ip_addr : option string }.

Definition linux_new : LinuxConn := MkLinuxConn None.

(** [\d+\.\d+\.\d+.\d+]: the last separator is any character *)
Definition IP_RE : regex :=
  [Plus is_digit; One (is_char "."%char); Plus is_digit; One (is_char "."%char);
   Plus is_digit; One is_dot; Plus is_digit].
Definition IP_PATTERN : string := "\d+\.\d+\.\d+.\d+".

(** [IP_CMD] *)
Definition IP_CMD : string :=
  "ip addr show dev eth0 " +:+ " | sed -n '/inet/ s/.*inet \([^ ]*\)\/.*/\1/p'".
Definition LINUX_MAC_CMD : string := "cat /sys/class/net/eth0/address".

Section linux.
Context `{E : Env}.

(** [SerialExpect.send(data)] on a socket *)
Definition expect_send {St} (data : string) : M St unit :=
  let line := data +:+ String nl "" in
  err ← ask (EvSerialWrite line) (λ t, env_sock_write t line);
  match err with
  | None => mret tt
  | Some _ => raise SerialException
  end.

(** [_get_ip_addr()]; the first wait has no timeout, the second one 10 s *)
Definition get_ip_addr {St} : M St string :=
  expect_socket ;;
  try_finally (
    expect_send "root" ;;
    expect (literal "# ") env_patience "# " None ;;
    expect_send IP_CMD ;;
    ip_addr ← expect (re_search IP_RE) (S (Z.to_nat 10000)) IP_PATTERN (Some 10000%Z);
    expect_send "exit" ;;
    if decide (ip_addr = "") then raise (LinuxConnectionError ip_addr) else mret ip_addr
  ) expect_close.

(** [SSH_CMD.format(ip_addr=ip_addr, cmd=command)] *)
Definition SSH_OPTS : string := "-F " +:+ static_path "ssh_linux_config".
Definition ssh_cmd (ip_addr : option string) (command : string) : string :=
  "ssh " +:+ SSH_OPTS +:+ " " +:+ default "None" ip_addr +:+ " " +:+
  dquoted ("source /etc/profile; " +:+ command).

(** [SCP_CMD.format(ip_addr=ip_addr, path=src, remote_path=dest)] *)
Definition scp_cmd (ip_addr : option string) (src dest : string) : string :=
  "scp " +:+ SSH_OPTS +:+ " " +:+ src +:+ " " +:+ default "None" ip_addr +:+ ":" +:+ dest.

(** [subprocess.check_output(args, stderr=STDOUT)] *)
Definition check_output {St} (args : list string) : M St string :=
  r ← ask (EvCheckOutput args) (λ t, env_output t args);
  match r with
  | OutText text => mret text
  | OutFailed code => raise (CalledProcessError code)
  | OutOSError n => raise (OSError n)
  end.

Definition ssh_run (command : string) : M LinuxConn string :=
  c ← get;
  args ← lift (shlex_split (ssh_cmd (ln_ip_addr c) command));
  check_output args.

(** [scp(src, dest)], with [check_call] *)
Definition scp (src dest : string) : M LinuxConn unit :=
  c ← get;
  args ← lift (shlex_split (scp_cmd (ln_ip_addr c) src dest));
  p_check_call args.

Definition linux_start : M LinuxConn unit :=
  ip_addr ← get_ip_addr;
  modify (λ _, MkLinuxConn (Some ip_addr)) ;;
  try_except (ssh_run ("echo " +:+ dquoted "ssh ok") ;; mret tt)
    (λ e, match e with
          | CalledProcessError _ =>
              Some (raise (LinuxConnectionError "linux_node_ssh_connection_failed"))
          | _ => None
          end) ;;
  ssh_run "/etc/init.d/serial_redirection restart" ;;
  mret tt.

Definition linux_get_mac_addr : M LinuxConn string :=
  mac_addr_s ← ssh_run LINUX_MAC_CMD;
  mret (str_strip mac_addr_s).

Definition linux_flash : M LinuxConn Z :=
  try_except (ssh_run "FW=autotest iotlab_flash" ;; mret 0%Z)
    (λ e, match e with CalledProcessError _ => Some (mret 1%Z) | _ => None end).
End linux.

(** ** Lemmas *)

Section facts.
Context `{E : Env}.

Lemma linux_flash_nonneg : returns (λ r, 0 ≤ r)%Z linux_flash.
Proof. unfold linux_flash. codes. Qed.

(** The command line is split into the words meant: the remote command is one
    word. *)
Lemma ssh_split ip_addr command :
  bare (static_path "ssh_linux_config") → static_path "ssh_linux_config" ≠ "" →
  bare ip_addr → ip_addr ≠ "" → quotable command →
  shlex_split (ssh_cmd (Some ip_addr) command) =
    Val ["ssh"; "-F"; static_path "ssh_linux_config"; ip_addr;
         "source /etc/profile; " +:+ command].
Proof.
  intros Hs Hs' Hi Hi' Hc. unfold shlex_split, ssh_cmd, SSH_OPTS. simpl default.
  change ("ssh " +:+ ("-F " +:+ static_path "ssh_linux_config") +:+ " " +:+ ip_addr +:+ " " +:+
    dquoted ("source /etc/profile; " +:+ command)) with
    ("ssh" +:+ String " " ("-F" +:+ String " " (static_path "ssh_linux_config" +:+ String " "
      (ip_addr +:+ String " " (dquoted ("source /etc/profile; " +:+ command)))))).
  do 4 rewrite shlex_bare by done. by rewrite shlex_quoted_end by by apply quotable_app.
Qed.
End facts.

#[export] Hint Resolve linux_flash_nonneg : nonneg.

(** ** Properties *)

Section expect_facts.
Context `{E : Env} {St : Type} (search : string → option string).

(** A text the loop returns is what the search found, or empty. *)
Lemma expect_loop_found fuel end_time buff (s : St) t o s' t' :
  expect_loop search fuel end_time buff s t = (o, s', t') →
  s' = s ∧ (o = Hang ∨ o = Val "" ∨ ∃ b m, search b = Some m ∧ o = Val m).
Proof.
  revert buff t. induction fuel as [|fuel IH]; intros buff t; simpl.
  { intros [= <- <- <-]. auto. }
  unfold ask at 1, mbind at 1, M_bind at 1. destruct (env_sread _) as [bytes|].
  2: { intros [= <- <- <-]. auto. }
  unfold p_time, ask, mbind at 1, M_bind at 1.
  destruct end_time as [e|]; [destruct (e <=? _)%Z; [intros [= <- <- <-]; auto|]|];
    (case_decide; [apply IH|]);
    (destruct (search _) as [m|] eqn:Hm; [intros [= <- <- <-]; eauto 7|apply IH]).
Qed.
End expect_facts.

Lemma wp_expect `{Env} {St} search fuel pattern timeout Q (s : St) t :
  str_all (λ c, negb (Ascii.eqb c nl)) pattern = true →
  (∀ t', Q Hang s t') →
  (∀ m t', m = "" ∨ (∃ b, search b = Some m) → Q (Val m) s t') →
  wp (expect search fuel pattern timeout) Q s t.
Proof.
  intros Hp Hh Hm. unfold expect, wp. rewrite Hp. simpl. unfold p_time, ask, mbind, M_bind.
  destruct (expect_loop _ _ _ _ s _) as [[o s'] t'] eqn:Hr.
  apply expect_loop_found in Hr as [-> [->|[->|(b & m & Hb & ->)]]]; [done|auto|eauto].
Qed.

(** How the reading of the address ends, once the link is open. *)
Definition ip_post (o : outcome string) : Prop :=
  match o with
  | Val ip => in_lang IP_RE ip
  | Exn e => e = SerialException ∨ e = LinuxConnectionError ""
  | Hang => True
  end.

Lemma wp_expect_send `{Env} {St A} data (k : M St A) Q (s : St) t :
  (∀ t', wp k Q s t') → (∀ t', Q (Exn SerialException) s t') →
  wp (expect_send data ;; k) Q s t.
Proof.
  intros Hk He. apply wp_bind. unfold expect_send, ask, wp, mbind, M_bind, mret, M_ret, raise.
  destruct (env_sock_write _ _); [apply He|apply Hk].
Qed.

Lemma try_connect_S `{Env} {St} url tries :
  try_connect url (S (S tries)) =
    try_except (p_serial url 0)
      (λ e, match e with
            | SerialException => Some (p_sleep 500 ;; try_connect url (S tries))
            | _ => None
            end) :> M St unit.
Proof. reflexivity. Qed.

Lemma expect_socket_state `{Env} {St} url tries (s : St) t o s' t' :
  try_connect url tries s t = (o, s', t') → s' = s.
Proof.
  apply stateless_run. clear. induction tries as [|tries IH]; [simpl; preserve|].
  destruct tries; [simpl; preserve|]. rewrite try_connect_S.
  generalize dependent (try_connect (St:=St) url (S tries)). intros m IH. unfold p_sleep. preserve.
Qed.

Lemma try_connect_not_hang `{Env} {St} url tries (s : St) t :
  fst (fst (try_connect url tries s t)) ≠ Hang.
Proof.
  assert (Hone : ∀ u, fst (fst (p_serial url 0 s u)) ≠ Hang).
  { intros u. unfold p_serial, ask, mbind, M_bind. by destruct (env_serial _ _ _). }
  revert t. induction tries as [|tries IH]; intros t; [apply Hone|].
  destruct tries; [apply Hone|]. rewrite try_connect_S. unfold try_except. specialize (Hone t).
  destruct (p_serial url 0 s t) as [[[u|e|] s2] t2] eqn:Hp; try done.
  assert (s2 = s) as -> by (eapply stateless_run; [|exact Hp]; preserve).
  destruct e; try done. apply IH.
Qed.

(** C27: the address of a Linux node.  Whatever comes on the serial link, the reading
    of the address leaves the state alone, and once the link is open it closes it
    however it ends, unless it waits for ever for the prompt.  An address it returns
    is in the language of the pattern; otherwise it raises the error of the link, or
    the connection error of an empty address. *)
Theorem get_ip_addr_correct `{Env} {St : Type} (s s' : St) (t t' : trace) (o : outcome string)
    (Hrun : get_ip_addr s t = (o, s', t')) :
  s' = s ∧
  ((∃ e, o = Exn e ∧ expect_socket s t = (Exn e, s, t')) ∨
   (∃ t1, expect_socket s t = (Val tt, s, t1)) ∧ ip_post o ∧
   (o ≠ Hang → ∃ u, t' = u ++ [EvExpectClose; EvSleep 1000])).
Proof.
  unfold get_ip_addr in Hrun. unfold mbind at 1, M_bind at 1 in Hrun.
  destruct (expect_socket s t) as [[o1 s1] t1] eqn:Hs.
  pose proof (expect_socket_state _ _ _ _ _ _ _ Hs) as ->.
  destruct o1 as [[]|e|].
  - match type of Hrun with try_finally ?m _ _ _ = _ =>
      assert (Hm : wp m (λ o s' _, s' = s ∧ ip_post o) s t1) end.
    { apply wp_expect_send; [intros t2|intros ?; by split; [|left]].
      apply wp_bind, wp_expect; [done|done|]. intros m t3 _.
      apply wp_expect_send; [intros t4|intros ?; by split; [|left]].
      apply wp_bind, wp_expect; [done|done|]. intros ip t5 Hip.
      apply wp_expect_send; [intros t6|intros ?; by split; [|left]].
      case_decide as He; [unfold wp, raise; rewrite He; by split; [|right]|].
      destruct Hip as [?|[b Hb]]; [done|]. unfold wp, mret, M_ret. split; [done|].
      pose proof (re_search_spec IP_RE b) as Hspec. rewrite Hb in Hspec. apply Hspec. }
    revert Hrun Hm. unfold try_finally, wp.
    match goal with |- context [?m s t1] => destruct (m s t1) as [[o2 s2] t2] end.
    intros Hrun [-> Hpost].
    unfold expect_close, p_emit, p_sleep, ask, mbind, M_bind in Hrun.
    destruct o2 as [ip|e|]; injection Hrun as <- <- <-; (split; [done|]); right;
      (split; [by eexists|]); (split; [done|]); intros ?; [| |done];
      exists t2; by rewrite <- (assoc_L (++)).
  - injection Hrun as <- <- <-. split; [done|]. left. by eexists.
  - pose proof (try_connect_not_hang socket_url 10 s t) as Hn. unfold expect_socket in Hs.
    by rewrite Hs in Hn.
Qed.

(** A node whose serial link gives the address [192.168.100.42] in two reads. *)
Definition serial_reads (t : trace) : nat := length (filter (λ ev, ev = EvSerialRead) t).

Definition cut_env : Env :=
  world calm_call calm_start calm_reader calm_read
    (λ t, match serial_reads t with
          | 1 => Some "root@node:~# "
          | 2 => Some (String nl "192.168.100")
          | 3 => Some (".42" +:+ String nl "")
          | _ => None
          end)
    (λ t, Z.of_nat (length t)) calm_connect calm_sock_read calm_output.

(** The reading of [cut_env]'s link. *)
Lemma get_ip_addr_correct_witness :
  @get_ip_addr cut_env unit tt [] = (Val "192.168.100", tt, snd (@get_ip_addr cut_env unit tt [])) ∧
  in_lang IP_RE "192.168.100".
Proof.
  assert (Hrun : @get_ip_addr cut_env unit tt [] =
    (Val "192.168.100", tt, snd (@get_ip_addr cut_env unit tt []))) by (vm_compute; reflexivity).
  destruct (@get_ip_addr_correct cut_env unit tt tt [] _ _ Hrun) as [_ [(e & He & _)|(_ & Hp & _)]];
    [discriminate|].
  split; [exact Hrun|exact Hp].
Defined.

(** The address can be cut.  The pattern accepts any character as its last
    separator and nothing has to follow the last digits, and the link is read by
    pieces: when the address 192.168.100.42 comes in two reads, what is read and
    then used for every SSH command is 192.168.100. *)
Theorem ip_addr_cut :
  fst (fst (@linux_start cut_env linux_new [])) = Val tt ∧
  snd (fst (@linux_start cut_env linux_new [])) = MkLinuxConn (Some "192.168.100") ∧
  re_search IP_RE ("192.168.100" +:+ ".42") = Some "192.168.100.42".
Proof. split_and!; vm_compute; reflexivity. Qed.
