(* ===== verification/Measures.v ===== *)
(** * Measures of the autotests ([gateway_code/autotest/autotest.py])

    The floating-point numbers of the measure lines, [extract_measures], the size
    of a set of values, and the binary search of [bisect] in the timestamps. *)

From Stdlib Require Import SpecFloat.
From S2P Require Import Prelude PyString Effects PyVal CnInterface.

(** ** Floating-point numbers *)

(** The double nearest to a decimal. *)
Definition to_float (f : pyfloat) : spec_float :=
  match f with
  | FFin n d =>
      match n with
      | Z0 => S754_zero false
      | Zpos m => SFdiv 53 1024 (S754_finite false m 0) (S754_finite false d 0)
      | Zneg m => SFdiv 53 1024 (S754_finite true m 0) (S754_finite false d 0)
      end
  | FNaN => S754_nan
  | FInf neg => S754_infinity neg
  end.

(** [float(s)] *)
Definition py_float (s : string) : outcome spec_float :=
  match float_of_str s with Some f => Val (to_float f) | None => Exn ValueError end.

(** [int(s)] *)
Definition str_int (s : string) : outcome Z :=
  match int_of_str s with Some z => Val z | None => Exn ValueError end.

(** [time.time()] at a time in milliseconds *)
Definition float_of_ms (ms : Z) : spec_float := to_float (FFin ms 1000).

Fixpoint list_eqb {A} (eqb : A → A → bool) (l l' : list A) : bool :=
  match l, l' with
  | [], [] => true
  | x :: l, y :: l' => eqb x y && list_eqb eqb l l'
  | _, _ => false
  end.

(** ** Sets *)

(** [set(l)]: each value once, in the order they came.  A [NaN] is not equal to the
    others. *)
Definition set_add {A} (eqb : A → A → bool) (s : list A) (x : A) : list A :=
  if existsb (eqb x) s then s else s ++ [x].
Definition set_of {A} (eqb : A → A → bool) (l : list A) : list A :=
  fold_left (set_add eqb) l [].

(** [len(set(values)) > 1] *)
Definition different {A} (eqb : A → A → bool) (values : list A) : bool :=
  1 <? length (set_of eqb values).

(** ** Measures *)

Record Measures := MkMeasures {
  ms_consumption : list (list spec_float);    (* ['consumption']['values'] *)
  ms_consumption_ts : list spec_float;        (* ['consumption']['timestamps'] *)
  ms_radio : list (list Z);
  ms_radio_ts : list spec_float
}.

Definition no_measures : Measures := MkMeasures [] [] [] [].

(** One turn of the loop of [extract_measures]. *)
Definition measure_step (m : Measures) (meas : list string) : outcome Measures :=
  kind ← nth_word meas 1;
  if bool_decide (kind = "consumption_measure") then
    values ← mapM py_float (take 3 (drop 3 meas));
    time ← nth_word meas 2;
    time ← py_float time;
    mret (MkMeasures (ms_consumption m ++ [values]) (ms_consumption_ts m ++ [time])
            (ms_radio m) (ms_radio_ts m))
  else if bool_decide (kind = "radio_measure") then
    values ← mapM str_int (take 2 (drop 3 meas));
    time ← nth_word meas 2;
    time ← py_float time;
    mret (MkMeasures (ms_consumption m) (ms_consumption_ts m)
            (ms_radio m ++ [values]) (ms_radio_ts m ++ [time]))
  else mret m.

Fixpoint measures_from (m : Measures) (meas_list : list (list string)) : outcome Measures :=
  match meas_list with
  | [] => mret m
  | meas :: meas_list => m ← measure_step m meas; measures_from m meas_list
  end.

Definition extract_measures (meas_list : list (list string)) : outcome Measures :=
  measures_from no_measures meas_list.

(** ** Binary search *)

(** The loop of [bisect.bisect]; [after y] is [x < y]. *)
Fixpoint bisect_loop {A} (fuel : nat) (after : A → bool) (a : list A) (lo hi : nat) : nat :=
  match fuel with
  | O => lo
  | S fuel =>
      if lo <? hi then
        let mid := (lo + hi) / 2 in
        if match a !! mid with Some y => after y | None => false end
        then bisect_loop fuel after a lo mid
        else bisect_loop fuel after a (S mid) hi
      else lo
  end.

Definition bisect_by {A} (after : A → bool) (a : list A) : nat :=
  bisect_loop (length a) after a 0 (length a).

(** [bisect(a, x)] *)
Definition bisect (a : list spec_float) (x : spec_float) : nat := bisect_by (SFltb x) a.

(** The consumption when the leds were on: [values[bisect(timestamps, led_time)]],
    or [NaN] past the last measure *)
Definition led_values (values timestamps : list spec_float) (leds_timestamps : list spec_float)
    : list spec_float :=
  (λ led_time, default S754_nan (values !! bisect timestamps led_time)) <$> leds_timestamps.

(** [all([led_0 < v for v in led_consumption])] after [led_consumption.pop(0)] *)
Definition leds_cost (led_consumption : list spec_float) : outcome bool :=
  match led_consumption with
  | [] => Exn IndexError
  | led_0 :: led_consumption => Val (forallb (SFltb led_0) led_consumption)
  end.

(** [v[i]] for each [v] *)
Definition column {A} (i : nat) (values : list (list A)) : outcome (list A) :=
  mapM (λ v, match v !! i with Some x => Val x | None => Exn IndexError end) values.

(** [meas.split(' ')] *)
Definition measure_words (lines : list string) : list (list string) :=
  str_split " "%char <$> lines.

Example extract_measures_ex :
  extract_measures (measure_words
    ["measures_debug consumption_measure 123.450000 1.0 2.0 3.0";
     "measures_debug radio_measure 122.000000 22 -91";
     "measures_debug consumption_measure 124.000000 4.0 5.0 6.0";
     "measures_debug unhandled_measure"]) =
  Val (MkMeasures
    [[to_float (FFin 1 1); to_float (FFin 2 1); to_float (FFin 3 1)];
     [to_float (FFin 4 1); to_float (FFin 5 1); to_float (FFin 6 1)]]
    [to_float (FFin 12345 100); to_float (FFin 124 1)]
    [[22; -91]]%Z [to_float (FFin 122 1)]).
Proof. vm_compute. reflexivity. Qed.

(** ** Lemmas *)

(** The binary search finds the point where [after] becomes true. *)
Lemma bisect_loop_point {A} (after : A → bool) (a : list A) fuel lo hi :
  (∀ i j x y, i ≤ j → a !! i = Some x → a !! j = Some y → after x = true → after y = true) →
  lo ≤ hi ≤ length a → hi - lo ≤ fuel →
  (∀ i x, i < lo → a !! i = Some x → after x = false) →
  (∀ i x, hi ≤ i → a !! i = Some x → after x = true) →
  let k := bisect_loop fuel after a lo hi in
  k ≤ length a ∧
  (∀ i x, i < k → a !! i = Some x → after x = false) ∧
  (∀ i x, k ≤ i → a !! i = Some x → after x = true).
Proof.
  intros Hmono. revert lo hi. induction fuel as [|fuel IH]; intros lo hi Hlo Hfuel Hbefore Hafter.
  - simpl. assert (lo = hi) as -> by lia. split_and!; [lia|done..].
  - cbn [bisect_loop]. destruct (Nat.ltb_spec lo hi) as [Hlt|Hge].
    2: { assert (lo = hi) as -> by lia. split_and!; [lia|done..]. }
    assert (Hmid : lo ≤ (lo + hi) / 2 < hi).
    { split; [apply Nat.div_le_lower_bound; lia|apply Nat.Div0.div_lt_upper_bound; lia]. }
    set (mid := (lo + hi) / 2) in *.
    destruct (lookup_lt_is_Some_2 a mid) as [y Hy]; [lia|]. rewrite Hy.
    destruct (after y) eqn:Hay.
    + apply IH; [lia|lia|done|]. intros i x Hi Hx. by eapply (Hmono mid i).
    + apply IH; [lia|lia| |done]. intros i x Hi Hx.
      destruct (after x) eqn:Hax; [|done].
      assert (after y = true) by (eapply (Hmono i mid); [lia|done..]). congruence.
Qed.

Lemma bisect_by_point {A} (after : A → bool) (a : list A) :
  (∀ i j x y, i ≤ j → a !! i = Some x → a !! j = Some y → after x = true → after y = true) →
  bisect_by after a ≤ length a ∧
  (∀ i x, i < bisect_by after a → a !! i = Some x → after x = false) ∧
  (∀ i x, bisect_by after a ≤ i → a !! i = Some x → after x = true).
Proof.
  intros Hmono. apply bisect_loop_point; [done|lia|lia|lia|].
  intros i x Hi Hx. apply lookup_lt_Some in Hx. lia.
Qed.

(** A value differs from the first one. *)
Lemma different_cons {A} (eqb : A → A → bool) x l :
  different eqb (x :: l) = existsb (λ y, negb (eqb y x)) l.
Proof.
  unfold different, set_of. simpl. change (set_add eqb [] x) with [x].
  assert (Hgrow : ∀ l s, length s ≤ length (fold_left (set_add eqb) l s)).
  { clear. intros l. induction l as [|y l IH]; intros s; simpl; [lia|].
    etransitivity; [|apply IH]. unfold set_add. case_match; [lia|]. rewrite length_app. lia. }
  induction l as [|y l IH]; simpl; [done|]. unfold set_add at 2. simpl.
  destruct (eqb y x); simpl; [apply IH|]. apply Nat.ltb_lt.
  specialize (Hgrow l [x; y]). simpl in Hgrow. lia.
Qed.

Lemma SFltb_trans x y z : SFltb x y = true → SFltb y z = true → SFltb x z = true.
Proof.
  unfold SFltb, SFcompare.
  destruct x as [|[]| |sx mx ex], y as [|[]| |sy my ey], z as [|[]| |sz mz ez]; try done;
    try destruct sx; try destruct sy; try destruct sz; try done;
    destruct (Z.compare_spec ex ey), (Z.compare_spec ey ez), (Z.compare_spec ex ez); try done; try lia;
    change (Pos.compare_cont Eq) with Pos.compare;
    destruct (Pos.compare_spec mx my), (Pos.compare_spec my mz), (Pos.compare_spec mx mz);
    simpl; try done; lia.
Qed.

(** Timestamps that increase. *)
Definition increasing (ts : list spec_float) : Prop :=
  ∀ i j x y, i < j → ts !! i = Some x → ts !! j = Some y → SFltb x y = true.

Lemma increasing_after ts t i j x y :
  increasing ts → i ≤ j → ts !! i = Some x → ts !! j = Some y →
  SFltb t x = true → SFltb t y = true.
Proof.
  intros Hinc Hij Hx Hy Ht. destruct (decide (i = j)) as [->|Hne]; [by simplify_eq|].
  eapply SFltb_trans; [exact Ht|]. eapply (Hinc i j); [lia|done..].
Qed.

Lemma SFltb_nan x : SFltb x S754_nan = false.
Proof. by destruct x as [|[]| |]. Qed.

(** ** Reading one measure *)

Definition read_consumption (meas : list string) : outcome (list spec_float * spec_float) :=
  values ← mapM py_float (take 3 (drop 3 meas));
  time ← nth_word meas 2;
  time ← py_float time;
  mret (values, time).

Definition read_radio (meas : list string) : outcome (list Z * spec_float) :=
  values ← mapM str_int (take 2 (drop 3 meas));
  time ← nth_word meas 2;
  time ← py_float time;
  mret (values, time).

Definition has_kind (kind : string) (meas : list string) : Prop := meas !! 1 = Some kind.

Lemma measure_step_Val m meas m' :
  measure_step m meas = Val m' ↔
  (∃ v, has_kind "consumption_measure" meas ∧ read_consumption meas = Val v ∧
     m' = MkMeasures (ms_consumption m ++ [v.1]) (ms_consumption_ts m ++ [v.2])
            (ms_radio m) (ms_radio_ts m)) ∨
  (∃ v, has_kind "radio_measure" meas ∧ read_radio meas = Val v ∧
     m' = MkMeasures (ms_consumption m) (ms_consumption_ts m)
            (ms_radio m ++ [v.1]) (ms_radio_ts m ++ [v.2])) ∨
  (∃ kind, has_kind kind meas ∧ kind ≠ "consumption_measure" ∧ kind ≠ "radio_measure" ∧ m' = m).
Proof.
  assert (Heq : measure_step m meas =
    (kind ← nth_word meas 1;
     if bool_decide (kind = "consumption_measure") then
       v ← read_consumption meas;
       mret (MkMeasures (ms_consumption m ++ [v.1]) (ms_consumption_ts m ++ [v.2])
               (ms_radio m) (ms_radio_ts m))
     else if bool_decide (kind = "radio_measure") then
       v ← read_radio meas;
       mret (MkMeasures (ms_consumption m) (ms_consumption_ts m)
               (ms_radio m ++ [v.1]) (ms_radio_ts m ++ [v.2]))
     else mret m)).
  { unfold measure_step, read_consumption, read_radio.
    destruct (nth_word meas 1); [|done..]. simpl.
    destruct (mapM py_float _), (mapM str_int _), (nth_word meas 2) as [w| |]; try done;
      simpl; by destruct (py_float w). }
  rewrite Heq. clear Heq. unfold has_kind, nth_word.
  destruct (meas !! 1) as [kind|]; simpl; [|naive_solver].
  case_bool_decide as Hc; [subst kind|case_bool_decide as Hr; [subst kind|]].
  - destruct (read_consumption meas) as [v| |]; simpl; [|naive_solver..]. split.
    + intros [= <-]. left. eauto.
    + intros [(v' & _ & [= <-] & ->)|[(v' & [=] & _)|(k & [= <-] & ? & _)]]; done.
  - destruct (read_radio meas) as [v| |]; simpl; [|naive_solver..]. split.
    + intros [= <-]. right; left. eauto.
    + intros [(v' & [=] & _)|[(v' & _ & [= <-] & ->)|(k & [= <-] & _ & ? & _)]]; done.
  - split.
    + intros [= <-]. right; right. eauto.
    + intros [(v' & [=] & _)|[(v' & [=] & _)|(k & [= <-] & _ & _ & ->)]]; done.
Qed.

Lemma mapM_outcome_Exn {A B} (f : A → outcome B) (P : exn → Prop) l :
  (∀ x e, f x = Exn e → P e) → ∀ e, mapM f l = Exn e → P e.
Proof.
  intros Hf. induction l as [|x l IH]; intros e; simpl; [done|].
  intros [H|(y & _ & H)]%bind_Exn; [by eapply Hf|].
  apply bind_Exn in H as [H|(ys & _ & H)]; [by apply IH|done].
Qed.

Lemma mapM_outcome_Hang {A B} (f : A → outcome B) l :
  (∀ x, f x ≠ Hang) → mapM f l ≠ Hang.
Proof.
  intros Hf. induction l as [|x l IH]; simpl; [done|].
  apply bind_not_hang; [done|]. intros y. by apply bind_not_hang.
Qed.

Lemma py_float_Exn s e : py_float s = Exn e → e = ValueError.
Proof. unfold py_float. by case_match; intros [= <-]. Qed.

Lemma str_int_Exn s e : str_int s = Exn e → e = ValueError.
Proof. unfold str_int. by case_match; intros [= <-]. Qed.

Lemma nth_word_Exn l i e : nth_word l i = Exn e → e = IndexError.
Proof. unfold nth_word. by case_match; intros [= <-]. Qed.

Lemma measure_step_fails m meas :
  measure_step m meas ≠ Hang ∧
  ∀ e, measure_step m meas = Exn e → e = IndexError ∨ e = ValueError.
Proof.
  assert (Hf : ∀ w, py_float w ≠ Hang) by (intros w; unfold py_float; by case_match).
  assert (Hi : ∀ w, str_int w ≠ Hang) by (intros w; unfold str_int; by case_match).
  assert (Hn : ∀ i, nth_word meas i ≠ Hang) by (intros i; unfold nth_word; by case_match).
  pose proof (mapM_outcome_Hang py_float (take 3 (drop 3 meas)) Hf) as Hmf.
  pose proof (mapM_outcome_Hang str_int (take 2 (drop 3 meas)) Hi) as Hmi.
  unfold measure_step. split.
  - repeat first [apply bind_not_hang; [done|intros ?] | case_bool_decide | done].
  - intros e H.
    assert (Hm : ∀ {A} (f : string → outcome A) l, (∀ w x, f w = Exn x → x = ValueError) →
      ∀ x, mapM f l = Exn x → x = ValueError)
      by (intros A f l Hx; by apply mapM_outcome_Exn).
    repeat match goal with
    | H : _ ≫= _ = Exn _ |- _ => apply bind_Exn in H as [H|(? & _ & H)]
    | H : (if _ then _ else _) = Exn _ |- _ => case_bool_decide
    | H : nth_word _ _ = Exn _ |- _ => apply nth_word_Exn in H; by left
    | H : py_float _ = Exn _ |- _ => apply py_float_Exn in H; by right
    | H : mapM py_float _ = Exn _ |- _ => apply (Hm _ _ _ py_float_Exn) in H; by right
    | H : mapM str_int _ = Exn _ |- _ => apply (Hm _ _ _ str_int_Exn) in H; by right
    | H : mret _ = Exn _ |- _ => discriminate H
    end.
Qed.

(** ** Properties *)

Lemma mapM_cons_Val {A B} (f : A → outcome B) x l ys :
  mapM f (x :: l) = Val ys ↔ ∃ y ys', f x = Val y ∧ mapM f l = Val ys' ∧ ys = y :: ys'.
Proof.
  simpl. destruct (f x) as [y| |]; simpl; [|naive_solver..].
  destruct (mapM f l) as [ys'| |]; simpl; [|naive_solver..].
  split; [intros [= <-]; eauto|by intros (? & ? & [= <-] & [= <-] & ->)].
Qed.

#[global] Instance has_kind_dec kind meas : Decision (has_kind kind meas).
Proof. unfold has_kind. apply _. Defined.

(** The measures [extract_measures] adds to those it has. *)
Lemma measures_from_Val m l m' :
  measures_from m l = Val m' ↔
  Forall (λ meas, 2 ≤ length meas) l ∧
  ∃ cs rs, mapM read_consumption (filter (has_kind "consumption_measure") l) = Val cs ∧
    mapM read_radio (filter (has_kind "radio_measure") l) = Val rs ∧
    m' = MkMeasures (ms_consumption m ++ cs.*1) (ms_consumption_ts m ++ cs.*2)
           (ms_radio m ++ rs.*1) (ms_radio_ts m ++ rs.*2).
Proof.
  revert m. induction l as [|meas l IH]; intros m.
  - simpl. split.
    + intros [= <-]. split; [constructor|]. exists [], []. rewrite !app_nil_r. by destruct m.
    + intros (_ & cs & rs & [= <-] & [= <-] & ->). simpl. rewrite !app_nil_r. by destruct m.
  - assert (Hlen : ∀ k, has_kind k meas → 2 ≤ length meas)
      by (intros k Hk; apply lookup_lt_Some in Hk; lia).
    change (measures_from m (meas :: l)) with (m1 ← measure_step m meas; measures_from m1 l).
    rewrite Forall_cons. split.
    + intros (m1 & Hstep & Hrest)%bind_Val. apply IH in Hrest as (Hl & cs & rs & Hcs & Hrs & ->).
      apply measure_step_Val in Hstep as [(v & Hk & Hv & ->)|[(v & Hk & Hv & ->)|(k & Hk & Hc & Hr & ->)]];
        (split; [by eauto|]).
      * exists (v :: cs), rs. rewrite filter_cons_True by done.
        rewrite filter_cons_False by (unfold has_kind in *; rewrite Hk; congruence).
        rewrite mapM_cons_Val. split; [by eauto|]. split; [done|].
        simpl. by rewrite <- !(assoc_L (++)).
      * exists cs, (v :: rs). rewrite (filter_cons_True (has_kind "radio_measure")) by done.
        rewrite filter_cons_False by (unfold has_kind in *; rewrite Hk; congruence).
        rewrite mapM_cons_Val. split; [done|]. split; [by eauto|].
        simpl. by rewrite <- !(assoc_L (++)).
      * exists cs, rs. rewrite !filter_cons_False by (unfold has_kind in *; rewrite Hk; congruence).
        done.
    + intros ((Hl & Hls) & cs & rs & Hcs & Hrs & ->).
      destruct (lookup_lt_is_Some_2 meas 1) as [k Hk]; [lia|].
      destruct (decide (k = "consumption_measure")) as [->|Hc];
        [|destruct (decide (k = "radio_measure")) as [->|Hr]].
      * rewrite filter_cons_True in Hcs by done. apply mapM_cons_Val in Hcs as (v & cs' & Hv & Hcs & ->).
        rewrite filter_cons_False in Hrs by (unfold has_kind; rewrite Hk; congruence).
        erewrite (proj2 (measure_step_Val _ _ _)) by (left; eauto). simpl. apply IH.
        split; [done|]. exists cs', rs. split; [done|]. split; [done|].
        simpl. by rewrite <- !(assoc_L (++)).
      * rewrite (filter_cons_True (has_kind "radio_measure")) in Hrs by done.
        apply mapM_cons_Val in Hrs as (v & rs' & Hv & Hrs & ->).
        rewrite filter_cons_False in Hcs by (unfold has_kind; rewrite Hk; congruence).
        erewrite (proj2 (measure_step_Val _ _ _)) by (right; left; eauto). simpl. apply IH.
        split; [done|]. exists cs, rs'. split; [done|]. split; [done|].
        simpl. by rewrite <- !(assoc_L (++)).
      * rewrite filter_cons_False in Hcs by (unfold has_kind; rewrite Hk; congruence).
        rewrite filter_cons_False in Hrs by (unfold has_kind; rewrite Hk; congruence).
        erewrite (proj2 (measure_step_Val m meas m)) by (right; right; eauto). simpl. apply IH.
        split; [done|]. by exists cs, rs.
Qed.

Lemma measures_from_fails m l :
  measures_from m l ≠ Hang ∧
  ∀ e, measures_from m l = Exn e → e = IndexError ∨ e = ValueError.
Proof.
  revert m. induction l as [|meas l IH]; intros m; [done|].
  destruct (measure_step_fails m meas) as [Hh He]. split.
  - apply bind_not_hang; [done|]. intros m1. apply IH.
  - intros e [H|(m1 & _ & H)]%bind_Exn; [by apply He|by eapply IH].
Qed.

(** C16: the measures of the control node.  [extract_measures] returns exactly when
    every line has a kind and every consumption and radio line is well formed; it
    then gives, for each of the two kinds, the values and the timestamps of its
    lines, in order, whatever the lines of the other kinds between them.  On any
    other list it raises [IndexError] or [ValueError]. *)
Theorem extract_measures_correct (l : list (list string)) :
  (∀ m, extract_measures l = Val m ↔
     Forall (λ meas, 2 ≤ length meas) l ∧
     ∃ cs rs, mapM read_consumption (filter (has_kind "consumption_measure") l) = Val cs ∧
       mapM read_radio (filter (has_kind "radio_measure") l) = Val rs ∧
       m = MkMeasures cs.*1 cs.*2 rs.*1 rs.*2) ∧
  ((∀ m, extract_measures l ≠ Val m) →
     extract_measures l = Exn IndexError ∨ extract_measures l = Exn ValueError).
Proof.
  split; [intros m; apply measures_from_Val|]. intros Hno. unfold extract_measures in *.
  destruct (measures_from_fails no_measures l) as [Hh He].
  destruct (measures_from no_measures l) as [m|e|]; [by destruct (Hno m)| |done].
  destruct (He e eq_refl) as [->| ->]; auto.
Qed.

Lemma extract_measures_correct_witness :
  extract_measures [["measures_debug:"]] = Exn IndexError ∨
  extract_measures [["measures_debug:"]] = Exn ValueError.
Proof. apply (proj2 (extract_measures_correct [["measures_debug:"]])). discriminate. Defined.

(** The consumption with a led on.  When the timestamps increase, the value
    taken for a time is that of the first measure after it: no earlier measure is
    after it.  When every measure is at that time or before, the value is [NaN], and
    then the comparison of the leds fails. *)
Theorem led_values_first_after (values timestamps : list spec_float) (led_time : spec_float)
    (Hinc : increasing timestamps) (Hlen : length values = length timestamps) :
  ∃ v, led_values values timestamps [led_time] = [v] ∧
    ((∃ k t, timestamps !! k = Some t ∧ values !! k = Some v ∧ SFltb led_time t = true ∧
        ∀ j u, j < k → timestamps !! j = Some u → SFltb led_time u = false) ∨
     (v = S754_nan ∧ (∀ j u, timestamps !! j = Some u → SFltb led_time u = false) ∧
      ∀ led_0 before after, leds_cost (led_0 :: before ++ v :: after) = Val false)).
Proof.
  destruct (bisect_by_point (SFltb led_time) timestamps) as (Hk & Hbefore & Hafter).
  { intros i j x y. by apply increasing_after. }
  unfold led_values. simpl. change (bisect_by (SFltb led_time)) with (λ a, bisect a led_time) in *.
  cbv beta in *. set (k := bisect timestamps led_time) in *. eexists; split; [done|].
  destruct (timestamps !! k) as [t|] eqn:Ht.
  - left. destruct (lookup_lt_is_Some_2 values k) as [v Hv].
    { rewrite Hlen. by eapply lookup_lt_Some. }
    exists k, t. rewrite Hv. split_and!; [done|done| |exact Hbefore]. exact (Hafter k t (le_n k) Ht).
  - right. apply lookup_ge_None in Ht.
    rewrite (lookup_ge_None_2 values) by lia. split; [done|]. split.
    + intros j u Hu. eapply Hbefore, Hu. apply lookup_lt_Some in Hu. lia.
    + intros led_0 before after. simpl. f_equal. rewrite forallb_app. simpl.
      by rewrite SFltb_nan, andb_false_r.
Qed.

Lemma led_values_first_after_witness :
  ∃ v, led_values (to_float <$> [FFin 1 10; FFin 2 10]) (to_float <$> [FFin 1 1; FFin 3 1])
         [float_of_ms 2000] = [v].
Proof.
  destruct (led_values_first_after (to_float <$> [FFin 1 10; FFin 2 10])
    (to_float <$> [FFin 1 1; FFin 3 1]) (float_of_ms 2000)) as (v & Hv & _).
  - intros i j x y Hij Hx Hy. destruct i as [|[|i]], j as [|[|j]]; try lia; simpl in *; simplify_eq.
    reflexivity.
  - reflexivity.
  - exists v. exact Hv.
Defined.
