(* ===== verification/FtdiCheck.v ===== *)
(** * FTDI presence check ([gateway_code/utils/ftdi_check.py])

    The parser of the output of [ftdi-devices-list]. *)

From S2P Require Import Prelude PyString Effects.

(** The longest prefix of digits. *)
Fixpoint take_digits (s : string) : string * string :=
  match s with
  | EmptyString => ("", "")
  | String c s' =>
      if is_digit c then let '(d, r) := take_digits s' in (String c d, r) else ("", s)
  end.

(** [re.match(r"Found (\d+) device\(s\)", line.strip())], its group *)
Definition match_number (line : string) : option string :=
  let line := str_strip line in
  if str_startswith "Found " line then
    let '(d, r) := take_digits (String.substring 6 (String.length line - 6) line) in
    if decide (d = "") then None
    else if str_startswith " device(s)" r then Some d else None
  else None.

Definition ftdi_parse_device_number (line : string) : outcome Z :=
  match match_number line with
  | None => Val 0%Z
  | Some d => match int_of_str d with Some n => Val n | None => Exn ValueError end
  end.

(** [re.match(r"Description: (.* )", line.strip())], its group: the text up to a
    newline *)
Definition ftdi_parse_device_description (line : string) : option string :=
  let line := str_strip line in
  if str_startswith "Description: " line then
    Some (hd "" (str_split "010"%char
      (String.substring 13 (String.length line - 13) line)))
  else None.

(** The loop of [ftdi_lookup_description]: the third line of every group of four
    until the description is found. *)
Fixpoint lookup_groups (fuel : nat) (lines : list string) (i : nat) (description : string)
    : outcome bool :=
  match fuel with
  | O => Val false
  | S fuel =>
      if decide (i < length lines - 1) then
        match lines !! (i + 2) with
        | None => Exn IndexError
        | Some l =>
            if decide (ftdi_parse_device_description l = Some description) then Val true
            else lookup_groups fuel lines (i + 4) description
        end
      else Val false
  end.

Definition ftdi_lookup_description (lines : list string) (description : string) : outcome bool :=
  py_assert (bool_decide (4 ≤ length lines)) ;;
  lookup_groups (S (length lines)) lines 0 description.

(** [ftdi_check(node, ftdi_type, description)]; [node] is only logged *)
Definition ftdi_check `{Env} {St} (ftdi_type : string) (description : option string)
    : M St Z :=
  out ← ask (EvFtdi ftdi_type) (λ t, env_ftdi t ftdi_type);
  lines ← lift out;
  line ← lift (match lines !! 2 with Some l => Val l | None => Exn IndexError end);
  dev_number ← lift (ftdi_parse_device_number line);
  found ← lift (
    if (0 <? dev_number)%Z then
      match description with
      | None => Val true
      | Some d => ftdi_lookup_description (drop 3 lines) d
      end
    else Val false);
  mret (status found).

Lemma ftdi_check_nonneg `{Env} {St} ftdi_type description :
  returns (λ r, 0 ≤ r)%Z (ftdi_check ftdi_type description : M St Z).
Proof. unfold ftdi_check. nonneg. apply status_nonneg. Qed.

Lemma preserves_ftdi_check `{Env} {St} (I : St → Prop) ftdi_type description :
  preserves I (ftdi_check ftdi_type description).
Proof. unfold ftdi_check. preserve. Qed.

#[export] Hint Resolve ftdi_check_nonneg : nonneg.
#[export] Hint Resolve preserves_ftdi_check : preserve.

(** The examples of the docstrings. *)
Example ftdi_number_0 : ftdi_parse_device_number "Found 0 device(s) " = Val 0%Z.
Proof. reflexivity. Qed.

Example ftdi_number_2 : ftdi_parse_device_number "Found 2 device(s) " = Val 2%Z.
Proof. reflexivity. Qed.
