(* ===== verification/Nodes.v ===== *)
(** * Node classes ([gateway_code/nodes.py], [gateway_code/utils/elftarget.py])

    Python classes as values: a name, a base class and the attributes the class
    body defines, with attribute lookup along the base classes.  On them: the
    checks of [verify], the registry filled by [import_all_nodes] and the lookup
    functions; and the test that a firmware is made for a node. *)

From S2P Require Import Prelude PyString Effects Config.

(** ** Classes *)

(** A class attribute; a method is known by the class that defines it. *)
Inductive attr :=
  | AStr (s : string)
  | AInt (z : Z)
  | ABool (b : bool)
  | AStrs (l : list string)
  | ADict (d : list (string * attr))
  | ARef (cls : string)
  | AMeth (owner : string).

Inductive pyclass := MkClass {
  cls_name : string;
  cls_base : option pyclass;
  cls_attrs : list (string * attr)
}.

Fixpoint assoc {A} (k : string) (l : list (string * A)) : option A :=
  match l with
  | [] => None
  | (k', v) :: l => if decide (k' = k) then Some v else assoc k l
  end.

(** [getattr(cls, name, None)] *)
Fixpoint getattr (c : pyclass) (name : string) : option attr :=
  match assoc name (cls_attrs c) with
  | Some a => Some a
  | None => match cls_base c with Some b => getattr b name | None => None end
  end.

(** [issubclass(c, NodeBase)] and the like, by the name of the base class *)
Fixpoint issubclass (c : pyclass) (name : string) : bool :=
  bool_decide (cls_name c = name) ||
  match cls_base c with Some b => issubclass b name | None => false end.

(** [callable(getattr(cls, name, None))] *)
Definition has_method (c : pyclass) (name : string) : bool :=
  match getattr c name with Some (AMeth _) => true | _ => false end.

Definition meths (owner : string) (names : list string) : list (string * attr) :=
  (λ n, (n, AMeth owner)) <$> names.

Definition attr_str (c : pyclass) (name : string) : option string :=
  match getattr c name with Some (AStr s) => Some s | _ => None end.

Definition attr_strs (c : pyclass) (name : string) : option (list string) :=
  match getattr c name with Some (AStrs l) => Some l | _ => None end.

Definition attr_int (c : pyclass) (name : string) : option Z :=
  match getattr c name with Some (AInt z) => Some z | _ => None end.

(** [hasattr(cls, name) and cls.name] for a flag *)
Definition attr_flag (c : pyclass) (name : string) : bool :=
  match getattr c name with Some (ABool b) => b | _ => false end.

(** [cls.TYPE] *)
Definition cls_type (c : pyclass) : option string := attr_str c "TYPE".

(** The abstract base classes. *)
Definition NodeBase : pyclass :=
  MkClass "NodeBase" None (meths "NodeBase" ["status"; "programmer"]).

Definition ControlNodeBase : pyclass :=
  MkClass "ControlNodeBase" (Some NodeBase) (meths "ControlNodeBase"
    ["start"; "stop"; "start_experiment"; "stop_experiment"; "autotest_setup";
     "autotest_teardown"; "configure_profile"; "flash"]).

Definition OpenNodeBase : pyclass :=
  MkClass "OpenNodeBase" (Some NodeBase) (meths "OpenNodeBase"
    ["setup"; "teardown"; "verify"]).

(** ** Firmware targets *)

Section elf.
Context `{E : Env} {St : Type}.

(** [elf_target(filepath)] *)
Definition elf_target (filepath : string) : M St (string * string) :=
  r ← ask (EvElfTarget filepath) (λ t, env_elf t filepath);
  match r with
  | ElfIOError n => raise (IOError n)
  | ElfError => raise ValueError
  | ElfHeader e_type e_class e_machine =>
      if decide (e_type = "ET_EXEC") then mret (e_class, e_machine) else raise ValueError
  end.

(** [is_compatible_with_node(firmware_path, node_class)] *)
Definition is_compatible_with_node (firmware_path : option string) (node_class : pyclass)
    : M St bool :=
  match firmware_path with
  | None => mret true
  | Some firmware_path =>
      match attr_strs node_class "ELF_TARGET" with
      | None => raise AttributeError
      | Some node_elf_target =>
          try_except (
            '(e_class, e_machine) ← elf_target firmware_path;
            mret (bool_decide ([e_class; e_machine] = node_elf_target))
          ) (λ e, match e with ValueError => Some (mret false) | _ => None end)
      end
  end.

(** ** [OpenNodeBase.verify] *)

Definition required_autotest : list string := ["echo"; "get_time"].

(** A firmware attribute of the class that is not made for the node. *)
Definition verify_firmware (cls : pyclass) (firmware_attr : string) : M St Z :=
  match attr_str cls firmware_attr with
  | None => mret 0%Z
  | Some firmware =>
      ok ← is_compatible_with_node (Some firmware) cls;
      mret (status ok)
  end.

Definition verify_base (cls : pyclass) : M St Z :=
  let target := match attr_strs cls "ELF_TARGET" with
                | Some l => status (bool_decide (length l = 2))
                | None => 1%Z
                end in
  idle ← verify_firmware cls "FW_IDLE";
  autotest ← verify_firmware cls "FW_AUTOTEST";
  let tests := match attr_strs cls "AUTOTEST_AVAILABLE" with
               | Some l => status (forallb (λ r, bool_decide (r ∈ l)) required_autotest)
               | None => 1%Z
               end in
  mret (target + idle + autotest + tests)%Z.

(** [cls.verify()]: the nodes without firmware redefine it to return 0 *)
Definition verify (cls : pyclass) : M St Z :=
  match getattr cls "verify" with
  | Some (AMeth owner) =>
      if decide (owner = "OpenNodeBase") then verify_base cls else mret 0%Z
  | Some _ => raise TypeError
  | None => raise AttributeError
  end.

(** ** The registry *)

Definition registry := gmap string pyclass.

Definition ends_with_Base (name : string) : bool :=
  let n := String.length name in
  bool_decide (4 ≤ n) && bool_decide (String.substring (n - 4) 4 name = "Base").

(** The body of the loop of [import_all_nodes] on a class of a module. *)
Definition register_class (c : pyclass) (reg : registry) : outcome registry :=
  if negb (issubclass c "NodeBase") || ends_with_Base (cls_name c) then Val reg
  else match cls_type c with
       | Some ty => Val (<[ty := c]> reg)
       | None => Exn AttributeError
       end.

Fixpoint register_all (l : list pyclass) (reg : registry) : outcome registry :=
  match l with
  | [] => Val reg
  | c :: l => reg' ← register_class c reg; register_all l reg'
  end.

(** [import_all_nodes(pkg_dir)] on the classes of the modules of a package, in
    the order of the modules' names, then of the classes' names *)
Definition import_all_nodes (modules : list (list pyclass)) (reg : registry)
    : outcome registry := register_all (concat modules) reg.

Context (REGISTRY : registry).

(** [_node_class(board_type)] *)
Definition node_class (board_type : string) : outcome pyclass :=
  match REGISTRY !! board_type with
  | None => Exn ValueError
  | Some output_class =>
      py_assert (bool_decide (cls_type output_class = Some board_type)) ;;
      mret output_class
  end.

Definition open_node_class (board_type : string) : M St pyclass :=
  output_class ← lift (node_class board_type);
  ret ← verify output_class;
  if (ret =? 0)%Z then mret output_class else raise ValueError.

Definition control_node_class (cn_type : string) : outcome pyclass := node_class cn_type.

(** [all_open_nodes_types()], as a set of keys *)
Definition all_open_nodes_types : list string :=
  (map_to_list (filter (λ kc, issubclass kc.2 "OpenNodeBase" = true) REGISTRY)).*1.

Definition all_control_nodes_types : list string :=
  (map_to_list (filter (λ kc, issubclass kc.2 "ControlNodeBase" = true) REGISTRY)).*1.
End elf.

(** ** Lemmas on the registry *)

(** Every class is registered under its own type. *)
Definition reg_wf (reg : registry) : Prop :=
  map_Forall (λ ty c, cls_type c = Some ty) reg.

Lemma register_class_wf c reg reg' :
  register_class c reg = Val reg' → reg_wf reg → reg_wf reg'.
Proof.
  unfold register_class. intros H Hwf. case_match; simplify_eq; [done|].
  case_match; simplify_eq. by apply map_Forall_insert_2.
Qed.

Lemma register_all_wf l reg reg' :
  register_all l reg = Val reg' → reg_wf reg → reg_wf reg'.
Proof.
  revert reg. induction l as [|c l IH]; intros reg H Hwf; simpl in H; inv_val; [by simplify_eq|].
  eapply IH; [done|]. by eapply register_class_wf.
Qed.

Lemma import_all_nodes_wf modules reg reg' :
  import_all_nodes modules reg = Val reg' → reg_wf reg → reg_wf reg'.
Proof. apply register_all_wf. Qed.

(** What the imports register under a type: the last class of that type. *)
Fixpoint last_of (ty : string) (l : list pyclass) : option pyclass :=
  match l with
  | [] => None
  | c :: l =>
      match last_of ty l with
      | Some c' => Some c'
      | None =>
          if issubclass c "NodeBase" && negb (ends_with_Base (cls_name c))
             && bool_decide (cls_type c = Some ty)
          then Some c else None
      end
  end.

(** A class the loop can register: a node class has a type. *)
Definition registrable (c : pyclass) : bool :=
  negb (issubclass c "NodeBase") || ends_with_Base (cls_name c) ||
  match cls_type c with Some _ => true | None => false end.

Lemma register_all_total l reg :
  forallb registrable l = true → ∃ reg', register_all l reg = Val reg'.
Proof.
  revert reg. induction l as [|c l IH]; intros reg H; simpl in *; [by eexists|].
  bool_hyps. unfold register_class.
  destruct (negb (issubclass c "NodeBase") || ends_with_Base (cls_name c)) eqn:Hn; [by apply IH|].
  unfold registrable in *. rewrite Hn in *. simpl in *.
  destruct (cls_type c); [by apply IH|done].
Qed.

Lemma register_all_lookup l reg reg' ty :
  register_all l reg = Val reg' →
  reg' !! ty = match last_of ty l with Some c => Some c | None => reg !! ty end.
Proof.
  revert reg. induction l as [|c l IH]; intros reg H; simpl in *; inv_val; [by simplify_eq|].
  rewrite (IH _ H). destruct (last_of ty l); [done|].
  unfold register_class in *.
  destruct (issubclass c "NodeBase"), (ends_with_Base (cls_name c)); simpl in *;
    try by simplify_eq.
  destruct (cls_type c) as [ty'|]; [|done].
  match goal with H : Val _ = Val _ |- _ => injection H as <- end.
  case_bool_decide as Hty.
  - injection Hty as ->. apply lookup_insert_eq.
  - apply lookup_insert_ne. congruence.
Qed.

Lemma last_of_elem ty l c :
  last_of ty l = Some c →
  c ∈ l ∧ cls_type c = Some ty ∧ ends_with_Base (cls_name c) = false.
Proof.
  induction l as [|c' l IH]; simpl; [done|]. destruct (last_of ty l).
  - intros [= ->]. destruct IH as [? ?]; [done|]. split; [by right|done].
  - case_match; [|done]. intros [= <-]. bool_hyps. split; [left|done].
Qed.

Lemma reg_wf_empty : reg_wf ∅.
Proof. apply map_Forall_empty. Qed.

(** In a registry filled by imports the assertion of [_node_class] never fails. *)
Lemma node_class_outcome reg ty :
  reg_wf reg →
  match reg !! ty with
  | Some c => node_class reg ty = Val c ∧ cls_type c = Some ty
  | None => node_class reg ty = Exn ValueError
  end.
Proof.
  intros Hwf. unfold node_class. destruct (reg !! ty) as [c|] eqn:Hc; [|done].
  pose proof (Hwf _ _ Hc) as Ht. simpl in Ht. rewrite Ht.
  by rewrite bool_decide_true.
Qed.

Section elf_facts.
Context `{E : Env} {St : Type}.

Lemma verify_firmware_nonneg cls a :
  returns (λ r, 0 ≤ r)%Z (verify_firmware cls a : M St Z).
Proof.
  unfold verify_firmware. case_match; [|by apply returns_ret].
  eapply returns_bind; [apply returns_any|]. intros b _. apply returns_ret, status_nonneg.
Qed.

(** Compatibility changes nothing but the trace. *)
Lemma preserves_is_compatible (I : St → Prop) fw cls :
  preserves I (is_compatible_with_node fw cls).
Proof. unfold is_compatible_with_node, elf_target. preserve. Qed.
End elf_facts.

#[export] Hint Resolve verify_firmware_nonneg : nonneg.
#[export] Hint Resolve preserves_is_compatible : preserve.
