(* ===== verification/NodeClasses.v ===== *)
(** * The nodes' classes ([gateway_code/open_nodes], [gateway_code/control_nodes])

    Every node class of the repository with the attributes of its body, as
    [Nodes.pyclass] values, the classes of every module in import order, and the
    registry the imports fill. *)

From S2P Require Import Prelude PyString Effects Config Nodes.

Section classes.
Context `[E : Env].

(** ** Families of open nodes ([open_nodes/common]) *)

Definition NodeOpenOCDBase : pyclass :=
  MkClass "NodeOpenOCDBase" (Some OpenNodeBase) ([
    ("ELF_TARGET", AStrs ["ELFCLASS32"; "EM_ARM"]);
    ("ROM_START_ADDR", AInt 0);
    ("OPENOCD_CLASS", ARef "OpenOCD");
    ("OPENOCD_PATH", AStr "/opt/openocd-dev/bin/openocd");
    ("AUTOTEST_AVAILABLE", AStrs ["echo"; "get_time"; "get_uid"; "leds_on"; "leds_off";
      "leds_blink"]);
    ("ALIM", AStr "5V")
  ] ++ meths "NodeOpenOCDBase" ["__init__"; "programmer"; "clear_serial"; "setup"; "teardown";
      "flash"; "reset"; "debug_start"; "debug_stop"; "status"]).

Definition NodeJLinkBase : pyclass :=
  MkClass "NodeJLinkBase" (Some NodeOpenOCDBase) ([
    ("OPENOCD_PATH", AStr "/opt/openocd-dev/bin/openocd");
    ("TTY", AStr "/dev/iotlab/ttyON_JLINK");
    ("BAUDRATE", AInt 115200);
    ("JLINK_SERIAL", ABool true);
    ("DIRTY_SERIAL", ABool true)
  ]).

Definition NodeStLinkBase : pyclass :=
  MkClass "NodeStLinkBase" (Some NodeOpenOCDBase) ([
    ("TTY", AStr "/dev/iotlab/ttyON_STLINK");
    ("BAUDRATE", AInt 115200);
    ("DIRTY_SERIAL", ABool true)
  ]).

Definition NodeEdbgBase : pyclass :=
  MkClass "NodeEdbgBase" (Some OpenNodeBase) ([
    ("ELF_TARGET", AStrs ["ELFCLASS32"; "EM_ARM"]);
    ("TTY", AStr "/dev/iotlab/ttyON_CMSIS_DAP");
    ("BAUDRATE", AInt 115200);
    ("AUTOTEST_AVAILABLE", AStrs ["echo"; "get_time"; "get_uid"; "leds_on"; "leds_off";
      "leds_blink"]);
    ("ALIM", AStr "5V")
  ] ++ meths "NodeEdbgBase" ["__init__"; "programmer"; "setup"; "teardown"; "flash"; "reset";
      "debug_start"; "debug_stop"; "status"]).

Definition NodeNoBase : pyclass :=
  MkClass "NodeNoBase" (Some OpenNodeBase) ([
  ] ++ meths "NodeNoBase" ["programmer"; "setup"; "teardown"; "flash"; "reset"; "status";
      "verify"]).

(** ** Open nodes ([open_nodes]) *)

Definition NodeA8 : pyclass :=
  MkClass "NodeA8" (Some OpenNodeBase) ([
    ("TYPE", AStr "a8");
    ("TTY", AStr "/dev/ttyON_A8");
    ("BAUDRATE", AInt 115200);
    ("ALIM", AStr "5V");
    ("A8_TTY_DETECT_TIME", AInt 20)
  ] ++ meths "NodeA8" ["__init__"; "programmer"; "setup"; "teardown"; "verify";
      "_debug_boot_start"; "wait_booted"; "_debug_boot_stop"; "status"]).

Definition NodeA8M3 : pyclass :=
  MkClass "NodeA8M3" (Some NodeOpenOCDBase) ([
    ("TYPE", AStr "a8_m3");
    ("TTY", AStr "/dev/ttyA8_M3");
    ("BAUDRATE", AInt 500000);
    ("ROM_START_ADDR", AInt 0x8000000);
    ("OPENOCD_CFG_FILE", AStr (static_path "iot-lab.cfg"));
    ("OPENOCD_OPTS", AStrs [static_path "iot-lab-a8-m3.cfg"]);
    ("FW_IDLE", AStr (static_path "a8-m3_idle.elf"));
    ("FW_AUTOTEST", AStr (static_path "a8-m3_autotest.elf"));
    ("ALIM", AStr "3.3V");
    ("AUTOTEST_AVAILABLE", AStrs ["echo"; "get_time"; "get_uid"; "get_accelero";
      "get_gyro"; "get_magneto"; "test_gpio"; "test_i2c"; "radio_pkt"; "radio_ping_pong";
      "test_pps_start"; "test_pps_get"; "test_pps_stop"; "leds_on"; "leds_off";
      "leds_blink"])
  ] ++ meths "NodeA8M3" ["status"]).

Definition NodeArduinoZero : pyclass :=
  MkClass "NodeArduinoZero" (Some NodeOpenOCDBase) ([
    ("TYPE", AStr "arduino_zero");
    ("TTY", AStr "/dev/iotlab/ttyON_CMSIS_DAP");
    ("BAUDRATE", AInt 115200);
    ("OPENOCD_CFG_FILE", AStr (static_path "iot-lab-arduino-zero.cfg"));
    ("FW_IDLE", AStr (static_path "arduino-zero_idle.elf"));
    ("FW_AUTOTEST", AStr (static_path "arduino-zero_autotest.elf"))
  ]).

Definition NodeDwm1001 : pyclass :=
  MkClass "NodeDwm1001" (Some NodeOpenOCDBase) ([
    ("TYPE", AStr "dwm1001");
    ("OPENOCD_CFG_FILE", AStr (static_path "iot-lab-nrf52xxxdk.cfg"));
    ("FW_IDLE", AStr (static_path "dwm1001_idle.elf"));
    ("FW_AUTOTEST", AStr (static_path "dwm1001_autotest.elf"));
    ("TTY", AStr "/dev/iotlab/ttyON_DWM1001");
    ("BAUDRATE", AInt 115200)
  ]).

Definition NodeFirefly : pyclass :=
  MkClass "NodeFirefly" (Some OpenNodeBase) ([
    ("TYPE", AStr "firefly");
    ("ELF_TARGET", AStrs ["ELFCLASS32"; "EM_ARM"]);
    ("TTY", AStr "/dev/iotlab/ttyON_FIREFLY");
    ("BAUDRATE", AInt 115200);
    ("PROGRAM_BAUDRATE", AInt 460800);
    ("FW_IDLE", AStr (static_path "firefly_idle.elf"));
    ("FW_AUTOTEST", AStr (static_path "firefly_autotest.elf"));
    ("ALIM", AStr "5V");
    ("TTY_READY_DELAY", AInt 1);
    ("FIREFLY_CONF", ADict [("port", AStr "/dev/iotlab/ttyON_FIREFLY");
      ("baudrate", AInt 460800)]);
    ("AUTOTEST_AVAILABLE", AStrs ["echo"; "get_time"; "get_uid"; "leds_on"; "leds_off";
      "leds_blink"])
  ] ++ meths "NodeFirefly" ["__init__"; "programmer"; "setup"; "teardown"; "flash";
      "do_flash"; "reset"; "status"]).

Definition NodeFox : pyclass :=
  MkClass "NodeFox" (Some NodeOpenOCDBase) ([
    ("TYPE", AStr "fox");
    ("TTY", AStr "/dev/iotlab/ttyON_FOX");
    ("BAUDRATE", AInt 500000);
    ("ROM_START_ADDR", AInt 0x8000000);
    ("OPENOCD_CFG_FILE", AStr (static_path "iot-lab.cfg"));
    ("OPENOCD_OPTS", AStrs [static_path "iot-lab-fox.cfg"]);
    ("FW_IDLE", AStr (static_path "fox_idle.elf"));
    ("FW_AUTOTEST", AStr (static_path "fox_autotest.elf"));
    ("AUTOTEST_AVAILABLE", AStrs ["echo"; "get_time"; "get_uid"; "get_accelero";
      "get_gyro"; "get_magneto"; "radio_pkt"; "radio_ping_pong"; "leds_on"; "leds_off";
      "leds_blink"])
  ]).

Definition NodeFrdmKw41z : pyclass :=
  MkClass "NodeFrdmKw41z" (Some NodeJLinkBase) ([
    ("TYPE", AStr "frdm_kw41z");
    ("OPENOCD_CFG_FILE", AStr (static_path "iot-lab-frdm-kw41z.cfg"));
    ("FW_IDLE", AStr (static_path "frdm-kw41z_idle.elf"));
    ("FW_AUTOTEST", AStr (static_path "frdm-kw41z_autotest.elf"));
    ("DIRTY_SERIAL", ABool false)
  ]).

Definition NodeLeonardo : pyclass :=
  MkClass "NodeLeonardo" (Some OpenNodeBase) ([
    ("TYPE", AStr "leonardo");
    ("ELF_TARGET", AStrs ["ELFCLASS32"; "EM_AVR"]);
    ("TTY", AStr "/dev/iotlab/ttyON_LEONARDO");
    ("TTY_PROG", AStr "/dev/ttyON_LEONARDO_PROG");
    ("TTY_RESTORE_TIME", AInt (8 + 3));
    ("TTY_READY_DELAY", AInt 1);
    ("BAUDRATE", AInt 9600);
    ("FW_IDLE", AStr (static_path "leonardo_idle.elf"));
    ("FW_AUTOTEST", AStr (static_path "leonardo_autotest.elf"));
    ("AVRDUDE_CONF", ADict [("tty", AStr "/dev/ttyON_LEONARDO_PROG");
      ("baudrate", AInt 9600); ("model", AStr "atmega32u4");
      ("programmer", AStr "avr109")]);
    ("AUTOTEST_AVAILABLE", AStrs ["echo"; "get_time"; "get_uid"]);
    ("ALIM", AStr "5V")
  ] ++ meths "NodeLeonardo" ["__init__"; "programmer"; "setup"; "teardown"; "flash"; "reset";
      "status"; "_wait_tty_ready"]).

Definition NodeLoraGateway : pyclass :=
  MkClass "NodeLoraGateway" (Some NodeNoBase) ([
    ("TYPE", AStr "lora_gw");
    ("MOSQUITTO_PORT", AInt 1883)
  ] ++ meths "NodeLoraGateway" ["__init__"; "_lora_pkt_fwd_pid"; "_start_lora_pkt_fwd";
      "__del__"; "setup"; "teardown"]).

Definition NodeM3 : pyclass :=
  MkClass "NodeM3" (Some NodeOpenOCDBase) ([
    ("TYPE", AStr "m3");
    ("TTY", AStr "/dev/iotlab/ttyON_M3");
    ("BAUDRATE", AInt 500000);
    ("ROM_START_ADDR", AInt 0x8000000);
    ("OPENOCD_CFG_FILE", AStr (static_path "iot-lab.cfg"));
    ("OPENOCD_OPTS", AStrs [static_path "iot-lab-m3.cfg"]);
    ("FW_IDLE", AStr (static_path "m3_idle.elf"));
    ("FW_AUTOTEST", AStr (static_path "m3_autotest.elf"));
    ("ALIM", AStr "3.3V");
    ("AUTOTEST_AVAILABLE", AStrs ["echo"; "get_time"; "get_uid"; "get_pressure";
      "get_light"; "test_flash"; "get_accelero"; "get_gyro"; "get_magneto"; "test_gpio";
      "test_i2c"; "radio_pkt"; "radio_ping_pong"; "leds_consumption"; "leds_on";
      "leds_off"; "leds_blink"])
  ] ++ meths "NodeM3" ["status"]).

Definition NodeMicrobit : pyclass :=
  MkClass "NodeMicrobit" (Some NodeOpenOCDBase) ([
    ("TYPE", AStr "microbit");
    ("TTY", AStr "/dev/iotlab/ttyON_CMSIS-DAP");
    ("BAUDRATE", AInt 115200);
    ("OPENOCD_CLASS", ARef "OpenOCDCustomReset");
    ("OPENOCD_CFG_FILE", AStr (static_path "iot-lab-microbit.cfg"));
    ("FW_IDLE", AStr (static_path "microbit_idle.elf"));
    ("FW_AUTOTEST", AStr (static_path "microbit_autotest.elf"))
  ]).

Definition NodeNrf51Dk : pyclass :=
  MkClass "NodeNrf51Dk" (Some NodeOpenOCDBase) ([
    ("TYPE", AStr "nrf51dk");
    ("OPENOCD_CFG_FILE", AStr (static_path "iot-lab-nrf51dk.cfg"));
    ("FW_IDLE", AStr (static_path "nrf51dk_idle.elf"));
    ("FW_AUTOTEST", AStr (static_path "nrf51dk_autotest.elf"));
    ("TTY", AStr "/dev/iotlab/ttyON_CMSIS-DAP");
    ("BAUDRATE", AInt 115200)
  ]).

Definition NodeNrf52832Mdk : pyclass :=
  MkClass "NodeNrf52832Mdk" (Some NodeOpenOCDBase) ([
    ("TYPE", AStr "nrf52832mdk");
    ("OPENOCD_CFG_FILE", AStr (static_path "iot-lab-nrf528xxmdk.cfg"));
    ("FW_IDLE", AStr (static_path "nrf52832mdk_idle.elf"));
    ("FW_AUTOTEST", AStr (static_path "nrf52832mdk_autotest.elf"));
    ("TTY", AStr "/dev/iotlab/ttyON_CMSIS-DAP");
    ("BAUDRATE", AInt 115200)
  ]).

Definition NodeNrf52840Dk : pyclass :=
  MkClass "NodeNrf52840Dk" (Some NodeJLinkBase) ([
    ("TYPE", AStr "nrf52840dk");
    ("OPENOCD_CFG_FILE", AStr (static_path "iot-lab-nrf52xxxdk.cfg"));
    ("FW_IDLE", AStr (static_path "nrf52840dk_idle.elf"));
    ("FW_AUTOTEST", AStr (static_path "nrf52840dk_autotest.elf"))
  ]).

Definition NodeNrf52840Mdk : pyclass :=
  MkClass "NodeNrf52840Mdk" (Some NodeOpenOCDBase) ([
    ("TYPE", AStr "nrf52840mdk");
    ("OPENOCD_CFG_FILE", AStr (static_path "iot-lab-nrf528xxmdk.cfg"));
    ("FW_IDLE", AStr (static_path "nrf52840mdk_idle.elf"));
    ("FW_AUTOTEST", AStr (static_path "nrf52840mdk_autotest.elf"));
    ("TTY", AStr "/dev/iotlab/ttyON_CMSIS-DAP");
    ("BAUDRATE", AInt 115200)
  ]).

Definition NodeNrf52Dk : pyclass :=
  MkClass "NodeNrf52Dk" (Some NodeJLinkBase) ([
    ("TYPE", AStr "nrf52dk");
    ("OPENOCD_CFG_FILE", AStr (static_path "iot-lab-nrf52xxxdk.cfg"));
    ("FW_IDLE", AStr (static_path "nrf52dk_idle.elf"));
    ("FW_AUTOTEST", AStr (static_path "nrf52dk_autotest.elf"))
  ]).

Definition NodeNucleof070RB : pyclass :=
  MkClass "NodeNucleof070RB" (Some NodeStLinkBase) ([
    ("TYPE", AStr "nucleo_f070rb");
    ("ROM_START_ADDR", AInt 0x8000000);
    ("OPENOCD_CFG_FILE", AStr (static_path "iot-lab-nucleo-f070rb.cfg"));
    ("FW_IDLE", AStr (static_path "nucleo-f070rb_idle.elf"));
    ("FW_AUTOTEST", AStr (static_path "nucleo-f070rb_autotest.elf"))
  ]).

Definition NodeNucleoWb55 : pyclass :=
  MkClass "NodeNucleoWb55" (Some NodeStLinkBase) ([
    ("TYPE", AStr "nucleo_wb55");
    ("ROM_START_ADDR", AInt 0x8000000);
    ("OPENOCD_CFG_FILE", AStr (static_path "iot-lab-nucleo-wb55.cfg"));
    ("FW_IDLE", AStr (static_path "nucleo-wb55_idle.elf"));
    ("FW_AUTOTEST", AStr (static_path "nucleo-wb55_autotest.elf"))
  ]).

Definition NodePhynode : pyclass :=
  MkClass "NodePhynode" (Some NodeOpenOCDBase) ([
    ("TYPE", AStr "phynode");
    ("OPENOCD_CFG_FILE", AStr (static_path "iot-lab-phynode.cfg"));
    ("FW_IDLE", AStr (static_path "phynode_idle.elf"));
    ("FW_AUTOTEST", AStr (static_path "phynode_autotest.elf"));
    ("TTY", AStr "/dev/iotlab/ttyON_PHYNODE");
    ("BAUDRATE", AInt 115200)
  ]).

Definition NodePycom : pyclass :=
  MkClass "NodePycom" (Some NodeNoBase) ([
    ("TYPE", AStr "pycom");
    ("TTY", AStr "/dev/iotlab/ttyON_PYCOM");
    ("BAUDRATE", AInt 115200)
  ] ++ meths "NodePycom" ["__init__"; "_send_sequence"; "setup"; "teardown"; "reset"]).

Definition NodeRpi3 : pyclass :=
  MkClass "NodeRpi3" (Some OpenNodeBase) ([
    ("TYPE", AStr "rpi3");
    ("TTY", AStr "/dev/iotlab/ttyON_RPI3");
    ("BAUDRATE", AInt 115200);
    ("ALIM", AStr "5V");
    ("RPI3_TTY_DETECT_TIME", AInt 20)
  ] ++ meths "NodeRpi3" ["__init__"; "programmer"; "setup"; "teardown"; "verify";
      "_debug_boot_start"; "wait_booted"; "_debug_boot_stop"; "status"]).

Definition NodeRtlSdr : pyclass :=
  MkClass "NodeRtlSdr" (Some NodeNoBase) ([
    ("TYPE", AStr "rtl_sdr");
    ("RTL_TCP_PORT", AInt 50000);
    ("RTL_TCP_FREQ", AInt 868000000)
  ] ++ meths "NodeRtlSdr" ["__init__"; "setup"; "teardown"]).

Definition NodeSamd21 : pyclass :=
  MkClass "NodeSamd21" (Some NodeOpenOCDBase) ([
    ("TYPE", AStr "samd21");
    ("OPENOCD_CFG_FILE", AStr (static_path "iot-lab-samd21.cfg"));
    ("FW_IDLE", AStr (static_path "samd21_idle.elf"));
    ("FW_AUTOTEST", AStr (static_path "samd21_autotest.elf"));
    ("TTY", AStr "/dev/iotlab/ttyON_CMSIS_DAP");
    ("BAUDRATE", AInt 115200)
  ]).

Definition NodeSamr21 : pyclass :=
  MkClass "NodeSamr21" (Some NodeOpenOCDBase) ([
    ("TYPE", AStr "samr21");
    ("OPENOCD_CFG_FILE", AStr (static_path "iot-lab-samr21.cfg"));
    ("FW_IDLE", AStr (static_path "samr21_idle.elf"));
    ("FW_AUTOTEST", AStr (static_path "samr21_autotest.elf"));
    ("TTY", AStr "/dev/iotlab/ttyON_CMSIS_DAP");
    ("BAUDRATE", AInt 115200)
  ]).

Definition NodeSamr30 : pyclass :=
  MkClass "NodeSamr30" (Some NodeOpenOCDBase) ([
    ("TYPE", AStr "samr30");
    ("OPENOCD_CFG_FILE", AStr (static_path "iot-lab-samr30.cfg"));
    ("FW_IDLE", AStr (static_path "samr30_idle.elf"));
    ("FW_AUTOTEST", AStr (static_path "samr30_autotest.elf"));
    ("TTY", AStr "/dev/iotlab/ttyON_CMSIS_DAP");
    ("BAUDRATE", AInt 115200)
  ]).

Definition NodeSamr34 : pyclass :=
  MkClass "NodeSamr34" (Some NodeOpenOCDBase) ([
    ("TYPE", AStr "samr34");
    ("OPENOCD_CFG_FILE", AStr (static_path "iot-lab-samr34.cfg"));
    ("OPENOCD_PATH", AStr "/opt/openocd-dev/bin/openocd");
    ("FW_IDLE", AStr (static_path "samr34_idle.elf"));
    ("FW_AUTOTEST", AStr (static_path "samr34_autotest.elf"));
    ("TTY", AStr "/dev/iotlab/ttyON_CMSIS_DAP");
    ("BAUDRATE", AInt 115200)
  ]).

Definition NodeStCell02 : pyclass :=
  MkClass "NodeStCell02" (Some NodeStLinkBase) ([
    ("TYPE", AStr "st_cell02");
    ("ROM_START_ADDR", AInt 0x8000000);
    ("OPENOCD_CFG_FILE", AStr (static_path "iot-lab-st-cell02.cfg"));
    ("FW_IDLE", AStr (static_path "st-cell02_idle.elf"));
    ("FW_AUTOTEST", AStr (static_path "st-cell02_autotest.elf"))
  ]).

Definition NodeStIotnode : pyclass :=
  MkClass "NodeStIotnode" (Some NodeStLinkBase) ([
    ("TYPE", AStr "st_iotnode");
    ("ROM_START_ADDR", AInt 0x8000000);
    ("OPENOCD_CFG_FILE", AStr (static_path "iot-lab-st-iotnode.cfg"));
    ("FW_IDLE", AStr (static_path "st-iotnode_idle.elf"));
    ("FW_AUTOTEST", AStr (static_path "st-iotnode_autotest.elf"))
  ]).

Definition NodeStLrwan1 : pyclass :=
  MkClass "NodeStLrwan1" (Some NodeStLinkBase) ([
    ("TYPE", AStr "st_lrwan1");
    ("ROM_START_ADDR", AInt 0x8000000);
    ("OPENOCD_CFG_FILE", AStr (static_path "iot-lab-st-lrwan1.cfg"));
    ("FW_IDLE", AStr (static_path "st-lrwan1_idle.elf"));
    ("FW_AUTOTEST", AStr (static_path "st-lrwan1_autotest.elf"))
  ]).

Definition NodeZigduino : pyclass :=
  MkClass "NodeZigduino" (Some OpenNodeBase) ([
    ("TYPE", AStr "zigduino");
    ("ELF_TARGET", AStrs ["ELFCLASS32"; "EM_AVR"]);
    ("TTY", AStr "/dev/iotlab/ttyON_ZIGDUINO");
    ("BAUDRATE", AInt 57600);
    ("FW_IDLE", AStr (static_path "zigduino_idle.elf"));
    ("FW_AUTOTEST", AStr (static_path "zigduino_autotest.elf"));
    ("AVRDUDE_CONF", ADict [("tty", AStr "/dev/iotlab/ttyON_ZIGDUINO");
      ("baudrate", AInt 57600); ("model", AStr "atmega128rfa1");
      ("programmer", AStr "arduino")]);
    ("AUTOTEST_AVAILABLE", AStrs ["echo"; "get_time"]);
    ("ALIM", AStr "5V")
  ] ++ meths "NodeZigduino" ["__init__"; "programmer"; "disable_dtr"; "setup"; "teardown";
      "flash"; "do_flash"; "reset"; "status"]).

(** ** Control nodes ([control_nodes]) *)

Definition ControlNodeIotlab : pyclass :=
  MkClass "ControlNodeIotlab" (Some ControlNodeBase) ([
    ("TYPE", AStr "iotlab");
    ("ELF_TARGET", AStrs ["ELFCLASS32"; "EM_ARM"]);
    ("TTY", AStr "/dev/ttyCN");
    ("BAUDRATE", AInt 500000);
    ("OPENOCD_PATH", AStr "/opt/openocd-dev/bin/openocd");
    ("OPENOCD_CFG_FILE", AStr (static_path "iot-lab.cfg"));
    ("OPENOCD_OPTS", AStrs [static_path "iot-lab-cn.cfg"]);
    ("FW_CONTROL_NODE", AStr (static_path "control_node.elf"));
    ("FEATURES", AStrs ["leds"; "open_node_power"; "open_node_gpio"; "open_node_i2c";
      "radio"; "consumption"])
  ] ++ meths "ControlNodeIotlab" ["__init__"; "programmer"; "start"; "setup"; "stop";
      "start_experiment"; "stop_experiment"; "autotest_setup"; "autotest_teardown";
      "configure_profile"; "open_start"; "open_stop"; "flash"; "reset";
      "_wait_control_node_ready"; "status"]).

Definition ControlNodeIotlabm3 : pyclass :=
  MkClass "ControlNodeIotlabm3" (Some ControlNodeIotlab) ([
    ("TYPE", AStr "iotlabm3");
    ("FEATURES", AStrs ["leds"; "radio"]);
    ("OPENOCD_PATH", AStr "/opt/openocd-dev/bin/openocd");
    ("OPENOCD_CFG_FILE", AStr (static_path "iot-lab.cfg"));
    ("OPENOCD_OPTS", AStrs [static_path "iot-lab-cn-m3.cfg"])
  ] ++ meths "ControlNodeIotlabm3" ["configure_profile"; "open_start"; "open_stop"; "status"]).

Definition ControlNodeNo : pyclass :=
  MkClass "ControlNodeNo" (Some ControlNodeBase) ([
    ("TYPE", AStr "no");
    ("FEATURES", AStrs [])
  ] ++ meths "ControlNodeNo" ["__init__"; "programmer"; "start"; "stop"; "setup"; "flash";
      "start_experiment"; "stop_experiment"; "autotest_setup"; "autotest_teardown";
      "configure_profile"; "status"]).

Definition ControlNodeRpi3 : pyclass :=
  MkClass "ControlNodeRpi3" (Some ControlNodeBase) ([
    ("TYPE", AStr "rpi3");
    ("FEATURES", AStrs ["open_node_power"]);
    ("MJPG_STREAMER_PORT", AInt 40000)
  ] ++ meths "ControlNodeRpi3" ["__init__"; "programmer"; "start"; "stop"; "setup";
      "_ykush_params"; "open_start"; "open_stop"; "flash"; "start_experiment";
      "stop_experiment"; "autotest_setup"; "autotest_teardown"; "configure_profile";
      "status"]).

(** ** What the modules hold, in the order they are imported

    The classes of a module are those it defines and the node classes it
    imports, by name. *)
Definition open_nodes_modules : list (list pyclass) := [
    [NodeA8; OpenNodeBase];
    [NodeA8M3; NodeOpenOCDBase];
    [NodeArduinoZero; NodeOpenOCDBase];
    [NodeDwm1001; NodeOpenOCDBase];
    [NodeFirefly; OpenNodeBase];
    [NodeFox; NodeOpenOCDBase];
    [NodeFrdmKw41z; NodeJLinkBase];
    [NodeLeonardo; OpenNodeBase];
    [NodeLoraGateway; NodeNoBase];
    [NodeM3; NodeOpenOCDBase];
    [NodeMicrobit; NodeOpenOCDBase];
    [NodeNrf51Dk; NodeOpenOCDBase];
    [NodeNrf52832Mdk; NodeOpenOCDBase];
    [NodeJLinkBase; NodeNrf52840Dk];
    [NodeNrf52840Mdk; NodeOpenOCDBase];
    [NodeJLinkBase; NodeNrf52Dk];
    [NodeNucleof070RB; NodeStLinkBase];
    [NodeNucleoWb55; NodeStLinkBase];
    [NodeOpenOCDBase; NodePhynode];
    [NodeNoBase; NodePycom];
    [NodeRpi3; OpenNodeBase];
    [NodeNoBase; NodeRtlSdr];
    [NodeOpenOCDBase; NodeSamd21];
    [NodeOpenOCDBase; NodeSamr21];
    [NodeOpenOCDBase; NodeSamr30];
    [NodeOpenOCDBase; NodeSamr34];
    [NodeStCell02; NodeStLinkBase];
    [NodeStIotnode; NodeStLinkBase];
    [NodeStLinkBase; NodeStLrwan1];
    [NodeZigduino; OpenNodeBase]
  ].

Definition control_nodes_modules : list (list pyclass) := [
    [ControlNodeBase; ControlNodeIotlab];
    [ControlNodeIotlab; ControlNodeIotlabm3];
    [ControlNodeBase; ControlNodeNo];
    [ControlNodeBase; ControlNodeRpi3]
  ].

(** [REGISTRY], once the two packages are imported *)
Definition imported : outcome registry :=
  reg ← import_all_nodes open_nodes_modules ∅;
  import_all_nodes control_nodes_modules reg.

Definition REGISTRY : registry :=
  match imported with Val reg => reg | _ => ∅ end.

(** The concrete classes of the two packages. *)
Definition open_classes : list pyclass :=
  [NodeA8; NodeA8M3; NodeArduinoZero; NodeDwm1001; NodeFirefly; NodeFox; NodeFrdmKw41z;
   NodeLeonardo; NodeLoraGateway; NodeM3; NodeMicrobit; NodeNrf51Dk; NodeNrf52832Mdk;
   NodeNrf52840Dk; NodeNrf52840Mdk; NodeNrf52Dk; NodeNucleof070RB; NodeNucleoWb55;
   NodePhynode; NodePycom; NodeRpi3; NodeRtlSdr; NodeSamd21; NodeSamr21; NodeSamr30;
   NodeSamr34; NodeStCell02; NodeStIotnode; NodeStLrwan1; NodeZigduino].

Definition control_classes : list pyclass :=
  [ControlNodeIotlab; ControlNodeIotlabm3; ControlNodeNo; ControlNodeRpi3].

(** The two imports, one after the other. *)
Definition import_order : list pyclass :=
  concat open_nodes_modules ++ concat control_nodes_modules.

Lemma register_all_app l k reg :
  register_all (l ++ k) reg = (reg' ← register_all l reg; register_all k reg').
Proof.
  revert reg. induction l as [|c l IH]; intros reg; simpl; [done|].
  destruct (register_class c reg); simpl; [apply IH|done..].
Qed.

Lemma import_order_registrable : forallb registrable import_order = true.
Proof. vm_compute. reflexivity. Qed.

Lemma imported_ok : register_all import_order ∅ = Val REGISTRY.
Proof.
  unfold REGISTRY. assert (H : imported = register_all import_order ∅)
    by (unfold import_order; by rewrite register_all_app).
  rewrite H. by destruct (register_all_total import_order ∅ import_order_registrable) as [r ->].
Qed.

Lemma REGISTRY_lookup ty : REGISTRY !! ty = last_of ty import_order.
Proof.
  rewrite (register_all_lookup _ _ _ ty imported_ok). by destruct (last_of ty import_order).
Qed.

Lemma REGISTRY_wf : reg_wf REGISTRY.
Proof. eapply register_all_wf; [apply imported_ok|apply reg_wf_empty]. Qed.

(** What [verify] needs of a class, apart from the contents of its firmwares. *)
Definition verifiable (c : pyclass) : bool :=
  match getattr c "verify" with
  | Some (AMeth owner) =>
      if decide (owner = "OpenNodeBase") then
        match attr_strs c "ELF_TARGET", attr_strs c "AUTOTEST_AVAILABLE" with
        | Some target, Some l =>
            bool_decide (length target = 2) &&
            forallb (λ r, bool_decide (r ∈ l)) required_autotest
        | _, _ => false
        end
      else true
  | _ => false
  end.

Definition control_types : list string := ["iotlab"; "iotlabm3"; "no"; "rpi3"].

(** A class of the modules is abstract, a verifiable open node or a control node. *)
Lemma import_order_kinds :
  forallb (λ c, ends_with_Base (cls_name c) ||
    match cls_type c with
    | Some ty => if decide (ty ∈ control_types)
                 then issubclass c "ControlNodeBase" && negb (has_method c "verify")
                      || bool_decide (cls_name c = "NodeRpi3")
                 else issubclass c "OpenNodeBase" && verifiable c
    | None => false
    end) import_order = true.
Proof. vm_compute. reflexivity. Qed.
End classes.

Arguments NodeA8M3 {E}.
Arguments NodeArduinoZero {E}.
Arguments NodeDwm1001 {E}.
Arguments NodeFirefly {E}.
Arguments NodeFox {E}.
Arguments NodeFrdmKw41z {E}.
Arguments NodeLeonardo {E}.
Arguments NodeM3 {E}.
Arguments NodeMicrobit {E}.
Arguments NodeNrf51Dk {E}.
Arguments NodeNrf52832Mdk {E}.
Arguments NodeNrf52840Dk {E}.
Arguments NodeNrf52840Mdk {E}.
Arguments NodeNrf52Dk {E}.
Arguments NodeNucleof070RB {E}.
Arguments NodeNucleoWb55 {E}.
Arguments NodePhynode {E}.
Arguments NodeSamd21 {E}.
Arguments NodeSamr21 {E}.
Arguments NodeSamr30 {E}.
Arguments NodeSamr34 {E}.
Arguments NodeStCell02 {E}.
Arguments NodeStIotnode {E}.
Arguments NodeStLrwan1 {E}.
Arguments NodeZigduino {E}.
Arguments ControlNodeIotlab {E}.
Arguments ControlNodeIotlabm3 {E}.
Arguments open_nodes_modules {E}.
Arguments control_nodes_modules {E}.
Arguments imported {E}.
Arguments REGISTRY {E}.
Arguments open_classes {E}.
Arguments control_classes {E}.
Arguments import_order {E}.
Arguments REGISTRY_wf {E}.
Arguments import_order_kinds {E}.

(** ** [verify] *)

Section verify_facts.
Context `{E : Env} {St : Type}.

(** The answer of the compatibility test, from the file's header. *)
Definition compatible (target : list string) (a : elf_answer) : outcome bool :=
  match a with
  | ElfIOError n => Exn (IOError n)
  | ElfError => Val false
  | ElfHeader e_type k m =>
      Val (bool_decide (e_type = "ET_EXEC") && bool_decide ([k; m] = target))
  end.

Lemma is_compatible_run c target fw (s : St) t :
  attr_strs c "ELF_TARGET" = Some target →
  is_compatible_with_node (Some fw) c s t =
    (compatible target (env_elf (t ++ [EvElfTarget fw]) fw), s, t ++ [EvElfTarget fw]).
Proof.
  intros Ht. unfold is_compatible_with_node. rewrite Ht.
  unfold try_except, elf_target, ask, mbind, M_bind, mret, M_ret, raise, compatible.
  destruct (env_elf _ _); simpl; [|done..]. case_decide; simpl.
  - by rewrite (bool_decide_true (e_type = _)).
  - by rewrite (bool_decide_false (e_type = _)).
Qed.

(** The outcomes of a check of the class's firmwares. *)
Definition io_or_code (o : outcome Z) : Prop :=
  match o with Val r => (0 ≤ r)%Z | Exn e => is_IOError e = true | Hang => False end.

(** The check of one firmware of a class: its answer, and the history then.  A class
    without that attribute passes. *)
Definition firmware_fits (c : pyclass) (a : string) (t : trace) : outcome bool * trace :=
  match attr_str c a, attr_strs c "ELF_TARGET" with
  | Some fw, Some target =>
      (compatible target (env_elf (t ++ [EvElfTarget fw]) fw), t ++ [EvElfTarget fw])
  | _, _ => (Val true, t)
  end.

Lemma verify_firmware_fits c target a (s : St) t :
  attr_strs c "ELF_TARGET" = Some target →
  verify_firmware c a s t =
    (match fst (firmware_fits c a t) with
     | Val ok => Val (status ok)
     | Exn e => Exn e
     | Hang => Hang
     end, s, snd (firmware_fits c a t)).
Proof.
  intros Ht. unfold verify_firmware, firmware_fits. rewrite Ht.
  destruct (attr_str c a) as [fw|]; [|done].
  unfold mbind, M_bind. rewrite (is_compatible_run c target fw s t Ht). by destruct (compatible _ _).
Qed.

Lemma verify_firmware_run c target a (s : St) t :
  attr_strs c "ELF_TARGET" = Some target →
  ∃ o t', verify_firmware c a s t = (o, s, t') ∧ io_or_code o ∧
    (∀ fw, attr_str c a = Some fw →
       ∀ k m, env_elf (t ++ [EvElfTarget fw]) fw = ElfHeader "ET_EXEC" k m →
       target = [k; m] → o = Val 0%Z) ∧
    (attr_str c a = None → o = Val 0%Z).
Proof.
  intros Ht. unfold verify_firmware. destruct (attr_str c a) as [fw|].
  - unfold mbind, M_bind. rewrite (is_compatible_run c target fw s t Ht).
    destruct (env_elf _ fw) as [e_type k m| |n] eqn:Hf; simpl.
    + eexists _, _. split; [done|]. split; [apply status_nonneg|]. split; [|done].
      intros ? [= <-] ?? Hh ->. rewrite Hf in Hh. simplify_eq.
      by rewrite !bool_decide_true.
    + eexists _, _. split; [done|]. split; [done|]. split; [|done].
      intros ? [= <-] ?? Hh. congruence.
    + eexists _, _. split; [done|]. split; [done|]. split; [|done].
      intros ? [= <-] ?? Hh. congruence.
  - eexists _, _. split; [done|]. by split_and!.
Qed.

(** The firmwares of the class are executables made for its target. *)
Definition firmwares_fit (c : pyclass) : Prop :=
  ∀ a fw target t, a ∈ ["FW_IDLE"; "FW_AUTOTEST"] → attr_str c a = Some fw →
    attr_strs c "ELF_TARGET" = Some target →
    ∃ k m, env_elf t fw = ElfHeader "ET_EXEC" k m ∧ target = [k; m].

Lemma verify_run c (s : St) t :
  verifiable c = true →
  ∃ o t', verify c s t = (o, s, t') ∧ io_or_code o ∧ (firmwares_fit c → o = Val 0%Z).
Proof.
  unfold verifiable, verify. destruct (getattr c "verify") as [[]|]; try done.
  case_decide; [|by eexists (Val 0%Z), t].
  unfold verify_base. destruct (attr_strs c "ELF_TARGET") as [target|] eqn:Ht; [|done].
  destruct (attr_strs c "AUTOTEST_AVAILABLE") as [l|]; [|done]. intros [H2 Hl]%andb_true_iff.
  rewrite H2, Hl. simpl.
  destruct (verify_firmware_run c target "FW_IDLE" s t Ht) as (o1 & t1 & H1 & C1 & F1 & N1).
  destruct (verify_firmware_run c target "FW_AUTOTEST" s t1 Ht) as (o2 & t2 & H3 & C2 & F2 & N2).
  assert (Hfit : firmwares_fit c → o1 = Val 0%Z ∧ o2 = Val 0%Z).
  { intros Hfit. split.
    - destruct (attr_str c "FW_IDLE") as [fw|] eqn:Hfw; [|by apply N1].
      destruct (Hfit "FW_IDLE" fw target (t ++ [EvElfTarget fw])) as (k & m & Hk & Hm);
        [left|done..|]. by eapply F1.
    - destruct (attr_str c "FW_AUTOTEST") as [fw|] eqn:Hfw; [|by apply N2].
      destruct (Hfit "FW_AUTOTEST" fw target (t1 ++ [EvElfTarget fw])) as (k & m & Hk & Hm);
        [right; left|done..|]. by eapply F2. }
  unfold mbind, M_bind. rewrite H1. destruct o1 as [r1|e1|]; simpl in C1; [|by eexists _, _; split; [done|]; split; [done|]; intros [? _]%Hfit|done].
  rewrite H3. destruct o2 as [r2|e2|]; simpl in C2; [|by eexists _, _; split; [done|]; split; [done|]; intros [_ ?]%Hfit|done].
  eexists _, _. split; [done|]. split; [simpl; lia|]. intros [? ?]%Hfit. by simplify_eq.
Qed.

(** The class redefines [verify]: it has no firmware to look at. *)
Definition own_verify (c : pyclass) : bool :=
  match getattr c "verify" with
  | Some (AMeth owner) => bool_decide (owner ≠ "OpenNodeBase")
  | _ => false
  end.

(** [verify] of a class whose other attributes are right: 0 exactly when the two
    firmwares fit. *)
Lemma verify_exact c (s : St) t :
  verifiable c = true →
  verify c s t =
    if own_verify c then (Val 0%Z, s, t)
    else match firmware_fits c "FW_IDLE" t with
         | (Val idle, t1) =>
             (match fst (firmware_fits c "FW_AUTOTEST" t1) with
              | Val autotest => Val (status idle + status autotest)%Z
              | Exn e => Exn e
              | Hang => Hang
              end, s, snd (firmware_fits c "FW_AUTOTEST" t1))
         | (Exn e, t1) => (Exn e, s, t1)
         | (Hang, t1) => (Hang, s, t1)
         end.
Proof.
  unfold verifiable, verify, own_verify. destruct (getattr c "verify") as [[]|]; try done.
  case_decide as Ho; [|by rewrite bool_decide_true by done].
  rewrite bool_decide_false by tauto. unfold verify_base.
  destruct (attr_strs c "ELF_TARGET") as [target|] eqn:Ht; [|done].
  destruct (attr_strs c "AUTOTEST_AVAILABLE") as [l|]; [|done]. intros [H2 Hl]%andb_true_iff.
  rewrite H2, Hl. unfold mbind, M_bind. rewrite (verify_firmware_fits c target _ s t Ht).
  destruct (firmware_fits c "FW_IDLE" t) as [[idle|e|] t1]; [|done..]. simpl.
  rewrite (verify_firmware_fits c target _ s t1 Ht).
  destruct (firmware_fits c "FW_AUTOTEST" t1) as [[autotest|e|] t2]; [|done..].
  simpl. by rewrite Z.add_0_r.
Qed.
End verify_facts.

(** The class each control node type gives, also for the type an open node has. *)
Lemma control_lookup `{Env} ty :
  ty ∈ control_types → ∃ c, REGISTRY !! ty = Some c ∧ c ∈ control_classes ∧
    getattr c "verify" = None.
Proof.
  intros Hty. rewrite REGISTRY_lookup. unfold control_types in Hty.
  repeat (apply elem_of_cons in Hty as [->|Hty]); [..|by apply not_elem_of_nil in Hty].
  - exists ControlNodeIotlab. split; [vm_cast_no_check (eq_refl (Some ControlNodeIotlab))|].
    split; [left|reflexivity].
  - exists ControlNodeIotlabm3. split; [vm_cast_no_check (eq_refl (Some ControlNodeIotlabm3))|].
    split; [right; left|reflexivity].
  - exists ControlNodeNo. split; [vm_cast_no_check (eq_refl (Some ControlNodeNo))|].
    split; [do 2 right; left|reflexivity].
  - exists ControlNodeRpi3. split; [vm_cast_no_check (eq_refl (Some ControlNodeRpi3))|].
    split; [do 3 right; left|reflexivity].
Qed.

(** Every other type has one class. *)
Lemma open_lookup `{Env} c ty :
  c ∈ open_classes → cls_type c = Some ty → ty ≠ "rpi3" →
  REGISTRY !! ty = Some c ∧ verifiable c = true.
Proof.
  rewrite REGISTRY_lookup. unfold open_classes. intros Hc Hty Hne.
  repeat (apply elem_of_cons in Hc as [->|Hc];
    [vm_compute in Hty; injection Hty as <-; first [done|split; by vm_compute]|]).
  by apply not_elem_of_nil in Hc.
Qed.

(** A class with a type that is not a control node's is one of the open nodes. *)
Lemma import_order_open `{Env} c ty :
  c ∈ import_order → cls_type c = Some ty → ty ∉ control_types → c ∈ open_classes.
Proof.
  unfold import_order, open_nodes_modules, control_nodes_modules. cbn [concat app].
  intros Hc Hty Hne.
  repeat (apply elem_of_cons in Hc as [->|Hc];
    [first [discriminate Hty
           |solve [clear; unfold open_classes;
                   repeat match goal with |- ?x ∈ ?x :: _ => left | |- _ ∈ _ :: _ => right end]
           |exfalso; injection Hty as <-; apply Hne; unfold control_types; set_solver]|]).
  by apply not_elem_of_nil in Hc.
Qed.

(** A class with a type is one of the open nodes or of the control nodes. *)
Lemma import_order_typed `{Env} c ty :
  c ∈ import_order → cls_type c = Some ty → c ∈ open_classes ∨ c ∈ control_classes.
Proof.
  unfold import_order, open_nodes_modules, control_nodes_modules. cbn [concat app].
  intros Hc Hty.
  repeat (apply elem_of_cons in Hc as [->|Hc];
    [first [discriminate Hty
           |left; solve [clear; unfold open_classes;
                   repeat match goal with |- ?x ∈ ?x :: _ => left | |- _ ∈ _ :: _ => right end]
           |right; unfold control_classes; repeat first [left|right]]|]).
  by apply not_elem_of_nil in Hc.
Qed.

(** The class of a type that is not a control node's. *)
Lemma registered_open_class `{Env} c ty :
  REGISTRY !! ty = Some c → ty ∉ control_types →
  cls_type c = Some ty ∧ issubclass c "OpenNodeBase" = true ∧ c ∈ import_order ∧
  verifiable c = true.
Proof.
  rewrite REGISTRY_lookup. intros (Hin & Hty & Hb)%last_of_elem Hct.
  pose proof (proj1 (forallb_forall _ _) import_order_kinds c (proj1 (list_elem_of_In _ _) Hin)) as Hk.
  cbv beta in Hk. rewrite Hb, Hty in Hk. simpl in Hk. rewrite decide_False in Hk by done.
  apply andb_true_iff in Hk as [Ho Hv]. done.
Qed.

(** [open_node_class] on a type nobody has. *)
Lemma open_node_class_unknown `{Env} {St : Type} ty (s : St) t :
  REGISTRY !! ty = None → open_node_class REGISTRY ty s t = (Exn ValueError, s, t).
Proof.
  intros Hl. pose proof (node_class_outcome REGISTRY ty REGISTRY_wf) as Hn. rewrite Hl in Hn.
  unfold open_node_class, mbind, M_bind, lift. by rewrite Hn.
Qed.

(** [open_node_class] on the type of a control node. *)
Lemma open_node_class_control `{Env} {St : Type} ty (s : St) t :
  ty ∈ control_types → open_node_class REGISTRY ty s t = (Exn AttributeError, s, t).
Proof.
  intros Hct. pose proof (node_class_outcome REGISTRY ty REGISTRY_wf) as Hn.
  destruct (control_lookup ty Hct) as (c & Hl & _ & Hv). rewrite Hl in Hn.
  unfold open_node_class, mbind, M_bind, lift. rewrite (proj1 Hn). unfold verify. by rewrite Hv.
Qed.

(** [open_node_class] on the type of an open node. *)
Lemma open_node_class_run `{Env} {St : Type} ty c (s : St) t :
  REGISTRY !! ty = Some c → ty ∉ control_types →
  open_node_class REGISTRY ty s t =
    if own_verify c then (Val c, s, t)
    else match firmware_fits c "FW_IDLE" t with
         | (Val idle, t1) =>
             (match fst (firmware_fits c "FW_AUTOTEST" t1) with
              | Val autotest => if idle && autotest then Val c else Exn ValueError
              | Exn e => Exn e
              | Hang => Hang
              end, s, snd (firmware_fits c "FW_AUTOTEST" t1))
         | (Exn e, t1) => (Exn e, s, t1)
         | (Hang, t1) => (Hang, s, t1)
         end.
Proof.
  intros Hl Hct. pose proof (node_class_outcome REGISTRY ty REGISTRY_wf) as Hn. rewrite Hl in Hn.
  destruct (registered_open_class c ty Hl Hct) as (_ & _ & _ & Hv).
  unfold open_node_class, mbind, M_bind, lift. rewrite (proj1 Hn), verify_exact by done.
  destruct (own_verify c); [done|].
  destruct (firmware_fits c "FW_IDLE" t) as [[idle|e|] t1]; [|done..].
  destruct (firmware_fits c "FW_AUTOTEST" t1) as [[autotest|e|] t2]; [|done..].
  by destruct idle, autotest.
Qed.

(** Why a type is refused with something else than the error of a file: it is not
    known, it is a control node's, or a firmware is not made for the class. *)
Definition type_refused `{Env} (ty : string) (t : trace) (e : exn) : Prop :=
  (REGISTRY !! ty = None ∧ e = ValueError) ∨
  (ty ∈ control_types ∧ e = AttributeError) ∨
  (∃ c, REGISTRY !! ty = Some c ∧ e = ValueError ∧
     (fst (firmware_fits c "FW_IDLE" t) = Val false ∨
      fst (firmware_fits c "FW_AUTOTEST" (snd (firmware_fits c "FW_IDLE" t))) = Val false)).

Lemma firmware_fits_outcome `{Env} c a t :
  match fst (firmware_fits c a t) with
  | Val _ => True
  | Exn e => is_IOError e = true
  | Hang => False
  end.
Proof.
  unfold firmware_fits. destruct (attr_str c a); [|done]. destruct (attr_strs c _); [|done].
  unfold compatible. simpl. by destruct (env_elf _ _).
Qed.

Lemma open_node_class_refused `{Env} {St : Type} ty (s s' : St) t t' e :
  open_node_class REGISTRY ty s t = (Exn e, s', t') →
  is_IOError e = true ∨ type_refused ty t e.
Proof.
  intros Hrun. destruct (REGISTRY !! ty) as [c|] eqn:Hl.
  2: { rewrite open_node_class_unknown in Hrun by done. injection Hrun as <- _ _.
       right. by left. }
  destruct (decide (ty ∈ control_types)) as [Hct|Hct].
  { rewrite open_node_class_control in Hrun by done. injection Hrun as <- _ _.
    right. right. by left. }
  rewrite (open_node_class_run ty c) in Hrun by done. destruct (own_verify c); [done|].
  pose proof (firmware_fits_outcome c "FW_IDLE" t) as H1.
  destruct (firmware_fits c "FW_IDLE" t) as [[idle|e1|] t1] eqn:Hf; [|by simplify_eq; left|done].
  pose proof (firmware_fits_outcome c "FW_AUTOTEST" t1) as H2.
  destruct (firmware_fits c "FW_AUTOTEST" t1) as [[autotest|e2|] t2] eqn:Hg; simpl in *;
    [|by simplify_eq; left|done].
  right. right. right. exists c. rewrite Hf. simpl. rewrite Hg.
  simpl. split; [done|].
  destruct idle, autotest; [done|..]; injection Hrun as <- _ _; (split; [done|]);
    first [by left|by right].
Qed.

(** How [open_node_class] ends. *)
Lemma open_node_class_ends `{Env} {St : Type} (ty : string) (s : St) (t : trace) :
  let '(o, s', _) := open_node_class REGISTRY ty s t in
  s' = s ∧
  match o with
  | Val c => cls_type c = Some ty ∧ issubclass c "OpenNodeBase" = true ∧ c ∈ import_order
  | Exn e => e = ValueError ∨ is_IOError e = true ∨
             (e = AttributeError ∧ ty ∈ control_types)
  | Hang => False
  end ∧
  (ty ∈ control_types → o = Exn AttributeError).
Proof.
  pose proof (node_class_outcome REGISTRY ty REGISTRY_wf) as Hn.
  unfold open_node_class, mbind, M_bind, lift.
  destruct (decide (ty ∈ control_types)) as [Hct|Hct].
  - destruct (control_lookup ty Hct) as (c & Hl & _ & Hv). rewrite Hl in Hn.
    rewrite (proj1 Hn). unfold verify. rewrite Hv. simpl.
    split_and!; [done|by right; right|done].
  - destruct (REGISTRY !! ty) as [c|] eqn:Hl; [|rewrite Hn; by split_and!; [|left|]].
    rewrite (proj1 Hn). destruct (registered_open_class c ty Hl Hct) as (Hty & Ho & Hin & Hv).
    destruct (verify_run c s t Hv) as (o & t' & -> & Hio & _).
    destruct o as [r|e|]; simpl in Hio; [|by split_and!; [|right; left|]|done].
    destruct (r =? 0)%Z; simpl; [by split_and!|by split_and!; [|left|]].
Qed.

(** ** Properties *)

(** Every open node class of the repository, [NodeRpi3] apart, is found under
    its own type by [open_node_class], provided its firmwares are executables for
    its target. *)
Theorem open_node_class_correct `{Env} {St : Type} (c : pyclass) (ty : string) (s : St)
    (t : trace) (Hc : c ∈ open_classes) (Hty : cls_type c = Some ty) (Hne : ty ≠ "rpi3")
    (Hfit : firmwares_fit c) :
  ∃ t', open_node_class REGISTRY ty s t = (Val c, s, t').
Proof.
  destruct (open_lookup c ty Hc Hty Hne) as [Hl Hv].
  pose proof (node_class_outcome REGISTRY ty REGISTRY_wf) as Hn. rewrite Hl in Hn.
  destruct (verify_run c s t Hv) as (o & t' & Hr & _ & H0).
  exists t'. unfold open_node_class, mbind, M_bind, lift. rewrite (proj1 Hn), Hr, H0 by done.
  done.
Qed.

Lemma open_node_class_correct_witness :
  ∃ t', @open_node_class calm_env unit (@REGISTRY calm_env) "m3" tt [] =
        (Val (@NodeM3 calm_env), tt, t').
Proof.
  apply (@open_node_class_correct calm_env unit (@NodeM3 calm_env) "m3" tt []).
  - do 9 right; left.
  - reflexivity.
  - discriminate.
  - intros a fw target t _ _ Ht. vm_compute in Ht. injection Ht as <-.
    exists "ELFCLASS32", "EM_ARM". split; reflexivity.
Defined.

(** C33: every way [open_node_class] can end, and why.  An unknown type is a
    [ValueError]; the types of the control nodes, the type [rpi3] of the open node
    [NodeRpi3] included, end with an [AttributeError]; neither asks anything of the
    world.  Any other type has its class, an open node of that type among the
    imported ones.  That class is returned when it redefines [verify]; otherwise its
    idle firmware, then its autotest firmware, are looked at: a file that cannot be
    read is its [IOError], at once; the class is returned when both are executables
    made for its target, or when it has no such attribute; and it is a [ValueError]
    when one of them is not. *)
Theorem open_node_class_outcomes `{Env} {St : Type} (ty : string) (s : St) (t : trace) :
  (REGISTRY !! ty = None → open_node_class REGISTRY ty s t = (Exn ValueError, s, t)) ∧
  (ty ∈ control_types → open_node_class REGISTRY ty s t = (Exn AttributeError, s, t)) ∧
  (∀ c, REGISTRY !! ty = Some c → ty ∉ control_types →
     cls_type c = Some ty ∧ issubclass c "OpenNodeBase" = true ∧ c ∈ import_order ∧
     open_node_class REGISTRY ty s t =
       if own_verify c then (Val c, s, t)
       else match firmware_fits c "FW_IDLE" t with
            | (Val idle, t1) =>
                (match fst (firmware_fits c "FW_AUTOTEST" t1) with
                 | Val autotest => if idle && autotest then Val c else Exn ValueError
                 | Exn e => Exn e
                 | Hang => Hang
                 end, s, snd (firmware_fits c "FW_AUTOTEST" t1))
            | (Exn e, t1) => (Exn e, s, t1)
            | (Hang, t1) => (Hang, s, t1)
            end).
Proof.
  split_and!; [apply open_node_class_unknown|apply open_node_class_control|].
  intros c Hl Hct. destruct (registered_open_class c ty Hl Hct) as (Hty & Ho & Hin & _).
  split_and!; [done..|]. by apply open_node_class_run.
Qed.
