(* ===== verification/BoardConfig.v ===== *)
(** * Board configuration ([gateway_code/board_config.py])

    What one gateway reads from its configuration directory when it starts: the
    classes of its nodes, its name, and the profile used when none is given. *)

From S2P Require Import Prelude PyString Effects PyVal Profile Config Nodes NodeClasses.

(** The attributes [__init__] sets; [profile_from_dict] is [Profile.from_dict]
    with the board class as its first argument. *)
Record BoardConfig := MkBoardConfig {
  bc_board_class : pyclass;
  bc_cn_class : pyclass;
  bc_linux_on_class : option pyclass;
  bc_robot_type : option string;
  bc_node_id : string;
  bc_default_profile : option Profile
}.

(** [self.profile_from_dict(profile_dict)]: [Profile.from_dict] on the class *)
Definition class_profile_from_dict (board_class : pyclass) (profile_dict : pyval)
    : outcome (option Profile) :=
  from_dict (attr_str board_class "ALIM") profile_dict.

Definition profile_from_dict (b : BoardConfig) (profile_dict : pyval)
    : outcome (option Profile) := class_profile_from_dict (bc_board_class b) profile_dict.

(** [config.DEFAULT_PROFILE], the contents of [static/default_profile.json] *)
Definition DEFAULT_PROFILE : pyval :=
  PDict [("power", PStr "dc"); ("profilename", PStr "_default_profile")].

(** [self.board_class.TYPE] and [self.cn_class.TYPE] *)
Definition bc_board_type (b : BoardConfig) : option string := cls_type (bc_board_class b).
Definition bc_cn_type (b : BoardConfig) : option string := cls_type (bc_cn_class b).

Section board_config.
Context `{E : Env} {St : Type}.

(** [read_config(key)]: a string or an [IOError] *)
Definition read_required (key : string) : M St string :=
  v ← read_config key NotProvided;
  match v with
  | Some s => mret s
  | None => raise TypeError       (* never: only a default can be [None] *)
  end.

(** [BoardConfig.__init__] *)
Definition board_config_init : M St BoardConfig :=
  board_type ← read_required "board_type";
  board_class ← open_node_class REGISTRY board_type;
  cn_type ← read_config "control_node_type" (Default (Some "iotlab"));
  cn_class ← lift (match cn_type with
                   | Some ty => control_node_class REGISTRY ty
                   | None => Exn ValueError
                   end);
  linux_on_type ← read_config "linux_open_node_type" (Default None);
  linux_on_class ← (match linux_on_type with
                    | None | Some "" => mret None
                    | Some ty => c ← open_node_class REGISTRY ty; mret (Some c)
                    end);
  robot_type ← read_config "robot" (Default None);
  node_id ← read_required "hostname";
  default_profile ← lift (class_profile_from_dict board_class DEFAULT_PROFILE);
  mret (MkBoardConfig board_class cn_class linux_on_class robot_type node_id default_profile).
End board_config.

(** ** Lemmas *)

(** What a configuration file says, once read. *)
Definition config_value (content : string) : string :=
  str_replace "-" "_" (str_lower (str_strip content)).

(** The default profile only powers the node: every class accepts it. *)
Lemma default_profile_accepted c :
  class_profile_from_dict c DEFAULT_PROFILE =
    Val (Some (MkProfile (PStr "_default_profile") (PStr "dc") None None)).
Proof. reflexivity. Qed.

Section board_config_facts.
Context `{E : Env} {St : Type}.

(** Reading the configuration changes nothing. *)
Lemma preserves_board_config (I : St → Prop) : preserves I board_config_init.
Proof.
  assert (Hread : ∀ key default, preserves I (read_config key default)).
  { intros key default. unfold read_config. preserve. }
  assert (Hreq : ∀ key, preserves I (read_required key)).
  { intros key. unfold read_required. preserve. }
  assert (Hopen : ∀ ty, preserves I (open_node_class REGISTRY ty)).
  { intros ty. unfold open_node_class, verify, verify_base, verify_firmware. preserve. }
  unfold board_config_init. preserve.
Qed.

(** A file of the configuration holds [content], whenever it is read. *)
Definition holds (key content : string) : Prop :=
  ∀ t, env_read t (path_join env_cfg_dir key) = inr content.

(** A file of the configuration cannot be read. *)
Definition absent (key : string) : Prop :=
  ∀ t, ∃ n, env_read t (path_join env_cfg_dir key) = inl n.

Lemma read_holds key content default (s : St) t :
  holds key content →
  ∃ t', read_config key default s t = (Val (Some (config_value content)), s, t').
Proof. intros H. eexists. apply read_config_value. apply H. Qed.

Lemma read_absent key v (s : St) t :
  absent key → ∃ t', read_config key (Default v) s t = (Val v, s, t').
Proof.
  intros H. unfold read_config, ask, mbind, M_bind.
  destruct (H (t ++ [EvRead (path_join env_cfg_dir key)])) as [n ->]. by eexists.
Qed.

Lemma read_required_holds key content (s : St) t :
  holds key content → ∃ t', read_required key s t = (Val (config_value content), s, t').
Proof.
  intros H. unfold read_required, mbind, M_bind.
  destruct (read_holds key content NotProvided s t H) as [t' ->]. by eexists.
Qed.

(** How reading a key can end. *)
Lemma read_config_outcome key default (s : St) t :
  ∃ o t', read_config key default s t = (o, s, t') ∧
    match o with
    | Val v => is_Some v ∨ default = Default v
    | Exn e => is_IOError e = true ∧ default = NotProvided
    | Hang => False
    end.
Proof.
  unfold read_config, ask, mbind, M_bind.
  destruct (env_read _ _) as [n|content]; [destruct default as [|v]|];
    eexists _, _; (split; [reflexivity|]); simpl; [done|by right|by left].
Qed.

Lemma read_required_outcome key (s : St) t :
  ∃ o t', read_required key s t = (o, s, t') ∧
    match o with Val _ => True | Exn e => is_IOError e = true | Hang => False end.
Proof.
  unfold read_required, mbind, M_bind.
  destruct (read_config_outcome key NotProvided s t) as (o & t' & -> & Ho).
  destruct o as [v|e|]; [|exists (Exn e), t'; split; [done|apply Ho]|done].
  destruct Ho as [[x ->]|?]; [|done]. by exists (Val x), t'.
Qed.
End board_config_facts.

(** What the file of a key says when it is read at some point of the history, in normal
    form; [None] when it cannot be read. *)
Definition file_value `{Env} (key : string) (t : trace) : option string :=
  match env_read (t ++ [EvRead (path_join env_cfg_dir key)]) (path_join env_cfg_dir key) with
  | inr content => Some (config_value content)
  | inl _ => None
  end.

(** The history once that file was read. *)
Definition after_read `{Env} (key : string) (t : trace) : trace :=
  t ++ [EvRead (path_join env_cfg_dir key)].

Lemma read_config_run `{Env} {St : Type} key v (s : St) t :
  read_config key (Default v) s t =
    (Val (match file_value key t with Some x => Some x | None => v end), s, after_read key t).
Proof.
  unfold read_config, file_value, ask, mbind, M_bind. by destruct (env_read _ _).
Qed.

Lemma read_required_run `{Env} {St : Type} key (s : St) t :
  match file_value key t with
  | Some v => read_required key s t = (Val v, s, after_read key t)
  | None => ∃ n, read_required key s t = (Exn (IOError n), s, after_read key t)
  end.
Proof.
  unfold read_required, read_config, file_value, ask, mbind, M_bind.
  destruct (env_read _ _) as [n|content]; [by exists n|done].
Qed.

(** The control node type of a gateway. *)
Definition control_type `{Env} (t : trace) : string :=
  default "iotlab" (file_value "control_node_type" t).

(** The configuration that the files give when they are read from history [t] on: the
    types they name are those of the classes, and the open node classes passed their
    checks. *)
Definition configured `{Env} {St : Type} (s : St) (t : trace) (b : BoardConfig) : Prop :=
  ∃ ty t1 t2 t3,
    file_value "board_type" t = Some ty ∧ cls_type (bc_board_class b) = Some ty ∧
    open_node_class REGISTRY ty s (after_read "board_type" t) = (Val (bc_board_class b), s, t1) ∧
    REGISTRY !! control_type t1 = Some (bc_cn_class b) ∧
    cls_type (bc_cn_class b) = Some (control_type t1) ∧
    t2 = after_read "control_node_type" t1 ∧
    match file_value "linux_open_node_type" t2 with
    | None | Some "" => bc_linux_on_class b = None ∧ t3 = after_read "linux_open_node_type" t2
    | Some l => ∃ c, bc_linux_on_class b = Some c ∧ cls_type c = Some l ∧
        open_node_class REGISTRY l s (after_read "linux_open_node_type" t2) = (Val c, s, t3)
    end ∧
    bc_robot_type b = file_value "robot" t3 ∧
    file_value "hostname" (after_read "robot" t3) = Some (bc_node_id b) ∧
    bc_default_profile b = Some (MkProfile (PStr "_default_profile") (PStr "dc") None None).

(** Why the files, read from history [t] on, are refused other than with the error of a
    file: a type of an open node that is refused, or a type of a control node that is
    not known. *)
Definition misconfigured `{Env} {St : Type} (s : St) (t : trace) (e : exn) : Prop :=
  ∃ ty, file_value "board_type" t = Some ty ∧
    (type_refused ty (after_read "board_type" t) e ∨
     ∃ c t1, open_node_class REGISTRY ty s (after_read "board_type" t) = (Val c, s, t1) ∧
       ((REGISTRY !! control_type t1 = None ∧ e = ValueError) ∨
        let t2 := after_read "control_node_type" t1 in
        ∃ l, file_value "linux_open_node_type" t2 = Some l ∧
          type_refused l (after_read "linux_open_node_type" t2) e)).

(** The four control node classes are found under their types. *)
Lemma control_node_class_found `{Env} ty :
  ty ∈ control_types → ∃ c, control_node_class REGISTRY ty = Val c ∧ c ∈ control_classes ∧
    cls_type c = Some ty.
Proof.
  intros Hty. destruct (control_lookup ty Hty) as (c & Hl & Hc & _).
  pose proof (node_class_outcome REGISTRY ty REGISTRY_wf) as Hn. rewrite Hl in Hn.
  exists c. split_and!; [apply Hn|done|apply Hn].
Qed.

Lemma node_class_outcome_pure `{Env} ty :
  match node_class REGISTRY ty with
  | Val c => cls_type c = Some ty
  | Exn e => e = ValueError
  | Hang => False
  end.
Proof.
  pose proof (node_class_outcome REGISTRY ty REGISTRY_wf) as Hn.
  destruct (REGISTRY !! ty); [destruct Hn as [-> ?]; done|by rewrite Hn].
Qed.

(** A key names the open node class [c]: [NodeRpi3] apart, whose type is taken by
    the control node of the same name. *)
Definition names_open_node `{Env} (key : string) (c : pyclass) : Prop :=
  ∃ content, holds key content ∧ cls_type c = Some (config_value content) ∧
    c ∈ open_classes ∧ config_value content ≠ "rpi3" ∧ firmwares_fit c.

(** A key gives the value [v], or is absent and [v] is the default. *)
Definition gives `{Env} (key : string) (default v : option string) : Prop :=
  (∃ content, holds key content ∧ v = Some (config_value content)) ∨ absent key ∧ v = default.

Lemma read_gives `{Env} {St : Type} key default v (s : St) t :
  gives key default v → ∃ t', read_config key (Default default) s t = (Val v, s, t').
Proof. intros [(content & Hc & ->)|[Ha ->]]; [by apply read_holds|by apply read_absent]. Qed.

Lemma open_node_class_found `{Env} {St : Type} content c (s : St) t :
  cls_type c = Some (config_value content) → c ∈ open_classes →
  config_value content ≠ "rpi3" → firmwares_fit c →
  ∃ t', open_node_class REGISTRY (config_value content) s t = (Val c, s, t').
Proof.
  intros Hty Hc Hne Hfit. destruct (open_lookup c _ Hc Hty Hne) as [Hl Hv].
  pose proof (node_class_outcome REGISTRY (config_value content) REGISTRY_wf) as Hn.
  rewrite Hl in Hn. destruct (verify_run c s t Hv) as (o & t' & Hr & _ & H0).
  exists t'. unfold open_node_class, mbind, M_bind, lift. by rewrite (proj1 Hn), Hr, H0.
Qed.

Lemma open_class_type_nonempty `{Env} c ty :
  c ∈ open_classes → cls_type c = Some ty → ty ≠ "".
Proof.
  intros Hc Hty ->. destruct (open_lookup c "" Hc Hty) as [Hl _]; [done|].
  rewrite REGISTRY_lookup in Hl. by vm_compute in Hl.
Qed.

(** ** Properties *)

(** C34: a gateway whose files are right starts with them.  If, whenever they are read,
    [board_type] is the type of an open node class, [control_node_type] that of one of
    the four control nodes (or is absent: [iotlab]), [linux_open_node_type] that of an
    open node class (or is absent), [robot] can be read (or is absent) and [hostname]
    can be read, then [BoardConfig()] succeeds, with these classes, the name and the
    robot as the files give them in normal form, and the default profile.  Of the open
    node classes this asks two things more: their type is not [rpi3], which a control
    node has too, and their idle and autotest firmwares, if they have any, can be read
    and are executables made for their target. *)
Theorem board_config_success `{Env} {St : Type} (s : St) (t : trace) (c : pyclass)
    (cn_type : string) (linux : option pyclass) (robot : option string) (hostname : string)
    (Hboard : names_open_node "board_type" c)
    (Hcn : gives "control_node_type" (Some "iotlab") (Some cn_type))
    (Hcty : cn_type ∈ control_types)
    (Hlinux : match linux with
              | Some l => names_open_node "linux_open_node_type" l
              | None => absent "linux_open_node_type"
              end)
    (Hrobot : gives "robot" None robot) (Hhost : holds "hostname" hostname) :
  ∃ cn_class t',
    board_config_init s t =
      (Val (MkBoardConfig c cn_class linux robot (config_value hostname)
              (Some (MkProfile (PStr "_default_profile") (PStr "dc") None None))), s, t') ∧
    cn_class ∈ control_classes ∧ cls_type cn_class = Some cn_type.
Proof.
  destruct Hboard as (bt & Hbt & Hty & Hc & Hne & Hfit).
  destruct (control_node_class_found cn_type Hcty) as (cn & Hcnc & Hin & Hcnt).
  destruct (read_required_holds "board_type" bt s t Hbt) as [t1 H1].
  destruct (open_node_class_found bt c s t1 Hty Hc Hne Hfit) as [t2 H2].
  destruct (read_gives "control_node_type" (Some "iotlab") _ s t2 Hcn) as [t3 H3].
  assert (∃ v t5 t4, read_config "linux_open_node_type" (Default None) s t3 = (Val v, s, t4) ∧
    (match v with
     | None | Some "" => mret None
     | Some ty => c ← open_node_class REGISTRY ty; mret (Some c)
     end : M St (option pyclass)) s t4 = (Val linux, s, t5)) as (v & t5 & t4 & H4 & H5).
  { destruct linux as [l|].
    - destruct Hlinux as (lt & Hlt & Hlty & Hlc & Hlne & Hlfit).
      destruct (read_holds "linux_open_node_type" lt (Default None) s t3 Hlt) as [t4 H4].
      destruct (open_node_class_found lt l s t4 Hlty Hlc Hlne Hlfit) as [t5 H5].
      pose proof (open_class_type_nonempty l _ Hlc Hlty).
      exists (Some (config_value lt)), t5, t4. split; [done|].
      destruct (config_value lt) as [|x y]; [done|]. unfold mbind, M_bind. by rewrite H5.
    - destruct (read_absent "linux_open_node_type" None s t3 Hlinux) as [t4 H4].
      by exists None, t4, t4. }
  destruct (read_gives "robot" None robot s t5 Hrobot) as [t6 H6].
  destruct (read_required_holds "hostname" hostname s t6 Hhost) as [t7 H7].
  exists cn, t7. split; [|done]. unfold board_config_init.
  erewrite bind_run by exact H1. erewrite bind_run by exact H2.
  erewrite bind_run by exact H3. erewrite bind_run by (unfold lift; rewrite Hcnc; reflexivity).
  erewrite bind_run by exact H4. erewrite bind_run by exact H5.
  erewrite bind_run by exact H6. erewrite bind_run by exact H7. reflexivity.
Qed.

(** The files of a gateway with an M3 node. *)
Definition m3_file (path : string) : Z + string :=
  if decide (path = "/var/local/config/board_type") then inr ("M3" +:+ String "010"%char "")
  else if decide (path = "/var/local/config/hostname") then inr "m3-12"
  else inl ENOENT.

Definition files_env : Env :=
  world calm_call calm_start calm_reader (λ _, m3_file) calm_sread slept calm_connect
    calm_sock_read calm_output.

Lemma board_config_success_witness :
  ∃ cn_class t',
    @board_config_init files_env unit tt [] =
      (Val (MkBoardConfig (@NodeM3 files_env) cn_class None None "m3_12"
              (Some (MkProfile (PStr "_default_profile") (PStr "dc") None None))), tt, t') ∧
    cn_class ∈ @control_classes files_env ∧ cls_type cn_class = Some "iotlab".
Proof.
  apply (@board_config_success files_env unit tt [] (@NodeM3 files_env) "iotlab" None None "m3-12").
  - exists ("M3" +:+ String "010"%char ""). split_and!.
    + intros t. reflexivity.
    + reflexivity.
    + do 9 right; left.
    + discriminate.
    + intros a fw target t _ _ Ht. vm_compute in Ht. injection Ht as <-.
      exists "ELFCLASS32", "EM_ARM". split; reflexivity.
  - right. split; [|reflexivity]. intros t. exists ENOENT. reflexivity.
  - left.
  - intros t. exists ENOENT. reflexivity.
  - right. split; [|reflexivity]. intros t. exists ENOENT. reflexivity.
  - intros t. reflexivity.
Defined.

(** The classes [open_node_class] can return. *)
Definition open_result `{Env} (c : pyclass) : Prop :=
  c ∈ open_classes ∧ issubclass c "OpenNodeBase" = true ∧
  ∃ ty, cls_type c = Some ty ∧ ty ∉ control_types.

(** How [BoardConfig()] can end. *)
Definition config_post `{Env} (o : outcome BoardConfig) : Prop :=
  match o with
  | Val b =>
      (∀ c, c = bc_board_class b ∨ bc_linux_on_class b = Some c → open_result c) ∧
      (is_Some (bc_cn_type b) ∧ bc_cn_class b ∈ import_order) ∧ is_Some (bc_default_profile b)
  | Exn e => is_IOError e = true ∨ e = ValueError ∨ e = AttributeError
  | Hang => False
  end.

(** How a statement that leaves the state alone and does not hang can end. *)
Definition ends {St A} (P : A → Prop) (X : exn → Prop) (m : M St A) : Prop :=
  ∀ s t, ∃ o t', m s t = (o, s, t') ∧
    match o with Val a => P a | Exn e => X e | Hang => False end.

Lemma ends_bind {St A B} (P : A → Prop) (Q : B → Prop) (X : exn → Prop)
    (m : M St A) (k : A → M St B) :
  ends P X m → (∀ a, P a → ends Q X (k a)) → ends Q X (m ≫= k).
Proof.
  intros Hm Hk s t. unfold mbind, M_bind. destruct (Hm s t) as (o & t' & -> & Ho).
  destruct o as [a|e|]; [by apply Hk|by exists (Exn e), t'|done].
Qed.

Lemma ends_mono {St A} (P P' : A → Prop) (X X' : exn → Prop) (m : M St A) :
  (∀ a, P a → P' a) → (∀ e, X e → X' e) → ends P X m → ends P' X' m.
Proof.
  intros HP HX Hm s t. destruct (Hm s t) as (o & t' & -> & Ho).
  exists o, t'. split; [done|]. destruct o; auto.
Qed.

Lemma ends_mret {St A} (P : A → Prop) X (a : A) : P a → ends (St:=St) P X (mret a).
Proof. intros Ha s t. by exists (Val a), t. Qed.

Section outcomes.
Context `{Env} {St : Type}.

Definition config_exn (e : exn) : Prop :=
  is_IOError e = true ∨ e = ValueError ∨ e = AttributeError.

Lemma ends_read_config key v : ends (St:=St) (λ _, True) config_exn (read_config key (Default v)).
Proof.
  intros s t. destruct (read_config_outcome key (Default v) s t) as (o & t' & -> & Ho).
  exists o, t'. split; [done|]. destruct o; [done|by destruct Ho|done].
Qed.

Lemma ends_read_required key : ends (St:=St) (λ _, True) config_exn (read_required key).
Proof.
  intros s t. destruct (read_required_outcome key s t) as (o & t' & -> & Ho).
  exists o, t'. split; [done|]. destruct o; [done|by left|done].
Qed.

Lemma ends_open_node_class ty :
  ends (St:=St) open_result config_exn (open_node_class REGISTRY ty).
Proof.
  intros s t. pose proof (open_node_class_ends ty s t) as Ho.
  destruct (open_node_class REGISTRY ty s t) as [[o s'] t']. destruct Ho as (-> & Ho & Hc).
  exists o, t'. split; [done|]. destruct o as [c|e|]; [|unfold config_exn; naive_solver|done].
  destruct Ho as (Hty & Hsub & Hin).
  assert (Hne : ty ∉ control_types) by by intros ?%Hc.
  split; [by apply (import_order_open c ty)|]. by eauto.
Qed.

Lemma ends_control_node_class (v : option string) :
  ends (St:=St) (λ c, is_Some (cls_type c) ∧ c ∈ import_order) config_exn
    (lift (match v with Some ty => control_node_class REGISTRY ty | None => Exn ValueError end)).
Proof.
  intros s t. unfold lift. eexists _, t. split; [reflexivity|].
  destruct v as [ty|]; [|by right; left].
  pose proof (node_class_outcome REGISTRY ty REGISTRY_wf) as Hn. unfold control_node_class.
  destruct (REGISTRY !! ty) as [c|] eqn:Hl; [|rewrite Hn; by right; left].
  destruct Hn as [-> Hty]. split; [by eexists|]. rewrite REGISTRY_lookup in Hl.
  apply last_of_elem in Hl as (Hin & _). done.
Qed.

Lemma board_config_ends :
  ends (λ b, config_post (Val b)) config_exn (board_config_init (St:=St)).
Proof.
  unfold board_config_init.
  eapply ends_bind; [apply ends_read_required|intros bt _].
  eapply ends_bind; [apply ends_open_node_class|intros c Hc].
  eapply ends_bind; [apply ends_read_config|intros v _].
  eapply ends_bind; [apply ends_control_node_class|intros cn Hcn].
  eapply ends_bind; [apply ends_read_config|intros l _].
  eapply (ends_bind (λ lc, ∀ c', lc = Some c' → open_result c'));
    [|intros lc Hlc].
  { destruct l as [[|x y]|]; [by apply ends_mret| |by apply ends_mret].
    eapply ends_bind; [apply ends_open_node_class|intros c' Hc'].
    apply ends_mret. by intros ? [= <-]. }
  eapply ends_bind; [apply ends_read_config|intros r _].
  eapply ends_bind; [apply ends_read_required|intros n _].
  eapply (ends_bind is_Some); [intros u w; eexists _, w; split; [done|by eexists]|intros p Hp].
  apply ends_mret. split; [|done]. intros c' [->|Heq]; [done|by apply Hlc].
Qed.

End outcomes.

(** The end of [BoardConfig()], once the classes of the open nodes are known. *)
Lemma board_config_tail `{Env} {St : Type} (c cn : pyclass) linux (s : St) t :
  match file_value "hostname" (after_read "robot" t) with
  | Some h =>
      ∃ t', (robot_type ← read_config "robot" (Default None);
             node_id ← read_required "hostname";
             default_profile ← lift (class_profile_from_dict c DEFAULT_PROFILE);
             mret (MkBoardConfig c cn linux robot_type node_id default_profile)) s t =
        (Val (MkBoardConfig c cn linux (file_value "robot" t) h
                (Some (MkProfile (PStr "_default_profile") (PStr "dc") None None))), s, t')
  | None =>
      ∃ n t', (robot_type ← read_config "robot" (Default None);
               node_id ← read_required "hostname";
               default_profile ← lift (class_profile_from_dict c DEFAULT_PROFILE);
               mret (MkBoardConfig c cn linux robot_type node_id default_profile)) s t =
        (Exn (IOError n), s, t')
  end.
Proof.
  pose proof (read_required_run "hostname" s (after_read "robot" t)) as Hh.
  assert (Hr : match file_value "robot" t with Some x => Some x | None => None end =
    file_value "robot" t) by (destruct (file_value "robot" t); done).
  destruct (file_value "hostname" (after_read "robot" t)) as [h|]; [|destruct Hh as [n Hh]];
    rewrite (bind_run _ _ _ _ _ _ _ (read_config_run "robot" None s t)), Hr.
  - eexists. rewrite (bind_run _ _ _ _ _ _ _ Hh). reflexivity.
  - eexists _, _. unfold mbind, M_bind. by rewrite Hh.
Qed.

(** The open node class of a type, when the type is accepted. *)
Lemma open_node_class_type `{Env} {St : Type} ty c (s s' : St) t t' :
  open_node_class REGISTRY ty s t = (Val c, s', t') → s' = s ∧ cls_type c = Some ty.
Proof.
  intros Hrun. pose proof (open_node_class_ends ty s t) as Ho. rewrite Hrun in Ho.
  by destruct Ho as (-> & (Hty & _) & _).
Qed.

(** The choice of the linux node's class. *)
Lemma linux_class_run `{Env} {St : Type} (v : option string) (s : St) t :
  ∃ o t', (match v with
           | None | Some "" => mret None
           | Some ty => c ← open_node_class REGISTRY ty; mret (Some c)
           end : M St (option pyclass)) s t = (o, s, t') ∧
    match o with
    | Val linux =>
        match v with
        | None | Some "" => linux = None ∧ t' = t
        | Some l => ∃ c, linux = Some c ∧ cls_type c = Some l ∧
            open_node_class REGISTRY l s t = (Val c, s, t')
        end
    | Exn e => is_IOError e = true ∨ ∃ l, v = Some l ∧ type_refused l t e
    | Hang => False
    end.
Proof.
  destruct v as [[|x y]|]; [by exists (Val None), t| |by exists (Val None), t].
  set (l := String x y). pose proof (open_node_class_ends l s t) as Ho. unfold mbind, M_bind.
  destruct (open_node_class REGISTRY l s t) as [[[c|e|] s'] t'] eqn:Hrun;
    destruct Ho as (-> & Ho & _); [| |done].
  - exists (Val (Some c)), t'. split; [done|]. exists c. by split_and!; [|apply Ho|].
  - exists (Exn e), t'. split; [done|].
    destruct (open_node_class_refused _ _ _ _ _ _ Hrun); [by left|right; by exists l].
Qed.

(** What [BoardConfig()] gives is what the files say, and what it refuses is refused for
    what they say. *)
Lemma board_config_run `{Env} {St : Type} (s : St) t :
  ∃ o t', board_config_init s t = (o, s, t') ∧
    match o with
    | Val b => configured s t b
    | Exn e => is_IOError e = true ∨ misconfigured s t e
    | Hang => False
    end.
Proof.
  unfold board_config_init.
  pose proof (read_required_run "board_type" s t) as Hb.
  destruct (file_value "board_type" t) as [ty|] eqn:Hbt.
  2: { destruct Hb as [n Hb]. exists (Exn (IOError n)), (after_read "board_type" t).
       split; [unfold mbind, M_bind; by rewrite Hb|by left]. }
  rewrite (bind_run _ _ _ _ _ _ _ Hb). set (t0 := after_read "board_type" t) in *.
  pose proof (open_node_class_ends ty s t0) as Ho.
  destruct (open_node_class REGISTRY ty s t0) as [[[c|e|] s1] t1] eqn:Hc;
    destruct Ho as (-> & Ho & _); [| |done].
  2: { exists (Exn e), t1. split; [unfold mbind at 1, M_bind at 1; by rewrite Hc|].
       destruct (open_node_class_refused _ _ _ _ _ _ Hc); [by left|right].
       exists ty. split; [done|by left]. }
  rewrite (bind_run _ _ _ _ _ _ _ Hc), (bind_run _ _ _ _ _ _ _ (read_config_run _ _ _ _)).
  set (t2 := after_read "control_node_type" t1).
  replace (match file_value "control_node_type" t1 with Some x => Some x | None => Some "iotlab" end)
    with (Some (control_type t1))
    by (unfold control_type; destruct (file_value "control_node_type" t1); done).
  pose proof (node_class_outcome REGISTRY (control_type t1) REGISTRY_wf) as Hn.
  destruct (REGISTRY !! control_type t1) as [cn|] eqn:Hcn.
  2: { exists (Exn ValueError), t2. split.
       { unfold lift at 1, mbind at 1, M_bind at 1, control_node_class. by rewrite Hn. }
       right. exists ty. split; [done|]. right. exists c, t1. split; [done|]. by left. }
  rewrite (bind_run _ _ _ _ cn s t2)
    by (unfold lift, control_node_class; by rewrite (proj1 Hn)).
  rewrite (bind_run _ _ _ _ _ _ _ (read_config_run _ _ _ _)).
  set (t3 := after_read "linux_open_node_type" t2).
  replace (match file_value "linux_open_node_type" t2 with Some x => Some x | None => None end)
    with (file_value "linux_open_node_type" t2)
    by (destruct (file_value "linux_open_node_type" t2); done).
  destruct (linux_class_run (file_value "linux_open_node_type" t2) s t3)
    as (o & t4 & Hl & Ho'). destruct o as [linux|e|]; [| |done].
  2: { exists (Exn e), t4. split; [unfold mbind at 1, M_bind at 1; by rewrite Hl|].
       destruct Ho' as [?|(l & Hv & Hr)]; [by left|right].
       exists ty. split; [done|]. right. exists c, t1. split; [done|]. right. by exists l. }
  rewrite (bind_run _ _ _ _ _ _ _ Hl).
  pose proof (board_config_tail c cn linux s t4) as Ht.
  destruct (file_value "hostname" (after_read "robot" t4)) as [h|] eqn:Hh.
  - destruct Ht as [t5 Ht]. eexists _, t5. split; [exact Ht|].
    exists ty, t1, t2, t4. split_and!; try done; [apply Ho|apply Hn].
  - destruct Ht as (n & t5 & Ht). eexists _, t5. split; [exact Ht|by left].
Qed.

(** Whatever the files say, [BoardConfig()] ends, and a configuration it
    builds is coherent: its board is one of the concrete open node classes, not of a
    control node's type, the linux node too when there is one, and the default profile is
    there.  Otherwise it raises an [IOError], a [ValueError], or, when an open node
    type is the type of a control node ([rpi3]), an [AttributeError]. *)
Theorem board_config_outcomes `{Env} {St : Type} (s : St) (t : trace) :
  let '(o, s', _) := board_config_init s t in
  s' = s ∧
  match o with
  | Val b =>
      (∀ c, c = bc_board_class b ∨ bc_linux_on_class b = Some c →
         c ∈ open_classes ∧ issubclass c "OpenNodeBase" = true ∧
         ∃ ty, cls_type c = Some ty ∧ ty ∉ control_types) ∧
      is_Some (bc_cn_type b) ∧ is_Some (bc_default_profile b)
  | Exn e => is_IOError e = true ∨ e = ValueError ∨ e = AttributeError
  | Hang => False
  end.
Proof.
  destruct (board_config_ends s t) as (o & t' & -> & Ho). split; [done|].
  destruct o; [|done..]. by destruct Ho as (? & [? _] & ?).
Qed.
