(* ===== verification/Interfaces.v ===== *)
(** * Interfaces of the nodes ([gateway_code/nodes.py])

    What the gateway manager calls on an open node and on a control node, as type
    classes: the operations of [OpenNodeBase] and [ControlNodeBase] with those
    the manager and the autotests use beside them, and the laws their theorems need.
    While the autotests sleep, the reader of the control node handles the lines that
    come.  A
    method a class does not have raises [AttributeError]. *)

From S2P Require Import Prelude PyString Effects PyVal Profile Nodes.

(** The user's experiment files: [consumption], [radio], [event], [sniffer],
    [log]. *)
Abbreviation exp_files := (gmap string string).

Class OpenNodeOps `{E : Env} (N : Type) := {
  on_class : N → pyclass;
  on_setup : option string → M N Z;                   (* firmware_path *)
  on_teardown : M N Z;
  on_flash : option string → bool → Z → M N Z;        (* firmware_path, binary, offset *)
  on_reset : M N Z;
  on_debug_start : M N Z;
  on_debug_stop : M N Z;
  on_status : M N Z;
  on_redirection_stop : M N Z;                        (* serial_redirection.stop() *)
  on_setup_nodebug : option string → M N Z;           (* setup(firmware, debug=False) *)
  on_wait_booted : Z → M N string                     (* timeout, in milliseconds *)
}.

Class ControlNodeOps `{E : Env} (C : Type) := {
  cn_class : C → pyclass;
  cn_node_id : C → string;
  cn_start : string → option exp_files → M C Z;       (* exp_id, exp_files *)
  cn_stop : M C Z;
  cn_start_experiment : option Profile → M C Z;
  cn_stop_experiment : M C Z;
  cn_configure_profile : option Profile → M C Z;
  cn_open_start : option pyval → M C Z;               (* power *)
  cn_open_stop : option pyval → M C Z;
  cn_flash : option string → bool → Z → M C Z;
  cn_reset : M C Z;
  cn_status : M C Z;
  cn_autotest_setup : M C Z;
  cn_autotest_teardown : bool → M C Z;                (* stop_on *)
  cn_sender : list pyval → M C (option (list string)); (* the sender of protocol *)
  cn_pause : Z → M C unit;                            (* time.sleep, in milliseconds *)
  cn_measures : C → list string                       (* lines given to the handler *)
}.

(** The status codes of an open node are not negative, so a sum of them is 0
    only when each of them is; a node keeps its class.  A pause lasts as long as
    asked. *)
Class OpenNodeLaws `{E : Env} (N : Type) `{!OpenNodeOps N} : Prop := {
  on_setup_nonneg : StatusOk → ∀ fw, returns (λ r, 0 ≤ r)%Z (on_setup fw);
  on_teardown_nonneg : StatusOk → returns (λ r, 0 ≤ r)%Z on_teardown;
  on_flash_nonneg : StatusOk → ∀ fw b o, returns (λ r, 0 ≤ r)%Z (on_flash fw b o);
  on_reset_nonneg : StatusOk → returns (λ r, 0 ≤ r)%Z on_reset;
  on_debug_start_nonneg : StatusOk → returns (λ r, 0 ≤ r)%Z on_debug_start;
  on_debug_stop_nonneg : StatusOk → returns (λ r, 0 ≤ r)%Z on_debug_stop;
  on_status_nonneg : returns (λ r, 0 ≤ r)%Z on_status;
  on_redirection_stop_nonneg : returns (λ r, 0 ≤ r)%Z on_redirection_stop;
  on_setup_nodebug_nonneg : ∀ fw, returns (λ r, 0 ≤ r)%Z (on_setup_nodebug fw);
  on_keeps_class : ∀ c,
    (∀ fw, preserves (λ n, on_class n = c) (on_setup fw)) ∧
    preserves (λ n, on_class n = c) on_teardown ∧
    (∀ fw b o, preserves (λ n, on_class n = c) (on_flash fw b o)) ∧
    preserves (λ n, on_class n = c) on_reset ∧
    preserves (λ n, on_class n = c) on_debug_start ∧
    preserves (λ n, on_class n = c) on_debug_stop ∧
    preserves (λ n, on_class n = c) on_status
}.

Class ControlNodeLaws `{E : Env} (C : Type) `{!ControlNodeOps C} : Prop := {
  cn_start_nonneg : StatusOk → ∀ id files, returns (λ r, 0 ≤ r)%Z (cn_start id files);
  cn_start_experiment_nonneg : StatusOk → ∀ p, returns (λ r, 0 ≤ r)%Z (cn_start_experiment p);
  cn_stop_experiment_nonneg : StatusOk → returns (λ r, 0 ≤ r)%Z cn_stop_experiment;
  cn_configure_profile_nonneg :
    StatusOk → ∀ p, returns (λ r, 0 ≤ r)%Z (cn_configure_profile p);
  cn_open_start_nonneg : StatusOk → ∀ power, returns (λ r, 0 ≤ r)%Z (cn_open_start power);
  cn_open_stop_nonneg : StatusOk → ∀ power, returns (λ r, 0 ≤ r)%Z (cn_open_stop power);
  cn_flash_nonneg : StatusOk → ∀ fw b o, returns (λ r, 0 ≤ r)%Z (cn_flash fw b o);
  cn_status_nonneg : returns (λ r, 0 ≤ r)%Z cn_status;
  cn_autotest_setup_nonneg : StatusOk → returns (λ r, 0 ≤ r)%Z cn_autotest_setup;
  cn_pause_sleeps : ∀ ms c t, ∃ c', cn_pause ms c t = (Val tt, c', t ++ [EvSleep ms])
}.

#[export] Hint Resolve on_setup_nonneg on_teardown_nonneg on_flash_nonneg on_reset_nonneg
  on_debug_start_nonneg on_debug_stop_nonneg on_status_nonneg
  on_redirection_stop_nonneg on_setup_nodebug_nonneg
  cn_start_nonneg cn_start_experiment_nonneg cn_stop_experiment_nonneg
  cn_configure_profile_nonneg cn_open_start_nonneg cn_open_stop_nonneg
  cn_flash_nonneg cn_status_nonneg cn_autotest_setup_nonneg : nonneg.

(** A sum of status codes. *)
Fixpoint sum_codes {St} (l : list (M St Z)) : M St Z :=
  match l with
  | [] => mret 0%Z
  | m :: l => r ← m; rs ← sum_codes l; mret (r + rs)%Z
  end.
