(* ===== verification/NodeExample.v ===== *)
(** * The template of an open node ([doc/node_example.py])

    The developers' guide gives this file as the example to start a node from.  It is
    translated as the other classes are, with its operations; what the registry makes of
    it, and what has to be added before the gateway accepts it. *)

From S2P Require Import Prelude PyString Effects PyVal Config Profile Nodes NodeClasses Interfaces.

Section template.
Context `{E : Env}.

Definition NodeExample : pyclass :=
  MkClass "NodeExample" (Some OpenNodeBase) ([
    ("TTY", AStr "/dev/ttyON_EXAMPLE");
    ("BAUDRATE", AInt 9600);
    ("FW_IDLE", AStr (static_path "example_idle.elf"));
    ("FW_AUTOTEST", AStr (static_path "example_autotest.elf"));
    ("ALIM", AStr "5V");
    ("AUTOTEST_AVAILABLE", AStrs ["echo"])
  ] ++ meths "NodeExample" ["__init__"; "setup"; "teardown"; "flash"; "reset"; "debug_start";
      "debug_stop"; "status"]).

(** The class with attributes added in front. *)
Definition with_attrs (l : list (string * attr)) (c : pyclass) : pyclass :=
  MkClass (cls_name c) (cls_base c) (l ++ cls_attrs c).

(** The methods and properties of the base classes marked abstract. *)
Definition abstract_names : list string := ["status"; "programmer"; "setup"; "teardown"].

(** Those a class does not redefine: [abc] refuses to make an object of the class as
    long as there is one. *)
Definition abstract_left (c : pyclass) : list string :=
  filter (λ name, match getattr c name with
                  | Some (AMeth owner) => bool_decide (owner ∈ ["NodeBase"; "OpenNodeBase"])
                  | _ => false
                  end = true) abstract_names.

(** An object of the class: [__init__] sets nothing. *)
Record example := MkExample { ex_class : pyclass }.

(** The operations that change nothing yet return 1, the code of a failure; there is
    neither a serial redirection, nor [wait_booted], nor a [debug] argument. *)
Definition example_setup (firmware_path : option string) : M example Z := mret 1%Z.
Definition example_teardown : M example Z := mret 1%Z.
Definition example_flash (firmware_path : option string) (binary : bool) (offset : Z)
    : M example Z := mret 1%Z.
Definition example_reset : M example Z := mret 1%Z.
Definition example_debug_start : M example Z := mret 1%Z.
Definition example_debug_stop : M example Z := mret 1%Z.
Definition example_status : M example Z := mret 0%Z.

#[global] Instance example_ops : OpenNodeOps example := {|
  on_class := ex_class; on_setup := example_setup; on_teardown := example_teardown;
  on_flash := example_flash; on_reset := example_reset;
  on_debug_start := example_debug_start; on_debug_stop := example_debug_stop;
  on_status := example_status; on_redirection_stop := raise AttributeError;
  on_setup_nodebug := λ _, raise TypeError; on_wait_booted := λ _, raise AttributeError
|}.

#[global] Instance example_laws : OpenNodeLaws example.
Proof.
  split; simpl; intros; try (intros ??; by vm_compute). by split_and!; intros; intros ???.
Qed.
End template.

(** ** Lemmas *)

Lemma register_all_raises l reg c reg' :
  register_all l reg = Val reg' → register_class c reg' = Exn AttributeError →
  ∀ k, register_all (l ++ c :: k) reg = Exn AttributeError.
Proof.
  intros Hl Hc k. revert reg Hl. induction l as [|d l IH]; intros reg Hl; simpl in *.
  - simplify_eq. by rewrite Hc.
  - destruct (register_class d reg); [|done..]. simpl in *. by apply IH.
Qed.

(** A class that lacks a mandatory autotest is never found. *)
Lemma open_node_class_needs_tests `{Env} {St} (reg : registry) ty c l (s : St) t o s' t' :
  reg !! ty = Some c → getattr c "verify" = Some (AMeth "OpenNodeBase") →
  attr_strs c "AUTOTEST_AVAILABLE" = Some l →
  forallb (λ r, bool_decide (r ∈ l)) required_autotest = false →
  open_node_class reg ty s t = (o, s', t') → ∀ c', o ≠ Val c'.
Proof.
  intros Hreg Hv Ha Hl Hrun c' ->. unfold open_node_class in Hrun.
  apply M_bind_Val in Hrun as (d & ? & ? & [= Hd <- <-] & Hrun).
  assert (d = c) as ->.
  { unfold node_class in Hd. rewrite Hreg in Hd. unfold py_assert in Hd.
    case_bool_decide; [by injection Hd as <-|done]. }
  apply M_bind_Val in Hrun as (ret & s1 & t1 & Hver & Hrun).
  unfold verify in Hver. rewrite Hv in Hver. simpl in Hver. unfold verify_base in Hver.
  apply M_bind_Val in Hver as (r1 & ? & ? & R1 & Hver).
  apply M_bind_Val in Hver as (r2 & ? & ? & R2 & [= Hsum <- <-]).
  pose proof (returns_run _ _ _ _ _ _ _ (verify_firmware_nonneg _ _) R1).
  pose proof (returns_run _ _ _ _ _ _ _ (verify_firmware_nonneg _ _) R2). cbv beta in *.
  simpl in Hl. rewrite Ha, Hl in Hsum. change (status false) with 1%Z in Hsum.
  assert (ret ≠ 0)%Z as Hne.
  { destruct (attr_strs c "ELF_TARGET") as [tg|]; [|lia].
    pose proof (status_nonneg (bool_decide (length tg = 2))). lia. }
  by rewrite (proj2 (Z.eqb_neq _ _) Hne) in Hrun.
Qed.

(** ** Properties *)

(** Every node of the repository can be made: no abstract method is left. *)
Theorem open_classes_concrete `{Env} : Forall (λ c, abstract_left c = []) open_classes.
Proof.
  unfold open_classes. repeat (apply Forall_cons; split; [vm_compute; reflexivity|]).
  by apply Forall_nil.
Qed.

(** What the gateway makes of the template.  Put as it is among the modules of the open
    nodes, it has no type and the import of the registry ends on [AttributeError],
    whatever else is there; with a type and a target, it is still refused, in every
    world, because its autotests lack [get_time], although its comment asks for [echo]
    only; and the property [programmer] is still to be written before an object can be
    made.  With the two tests, and firmwares that can be read and fit the target, it is
    found. *)
Theorem template_refused `{Env} {St} (l k : list pyclass) (reg reg' : registry)
    (ty cl machine : string) (s : St) (t : trace) :
  let c := with_attrs [("TYPE", AStr ty); ("ELF_TARGET", AStrs [cl; machine])] NodeExample in
  let d := with_attrs [("AUTOTEST_AVAILABLE", AStrs ["echo"; "get_time"])] c in
  (register_all l reg = Val reg' →
   register_all (l ++ NodeExample :: k) reg = Exn AttributeError) ∧
  (∀ o s' t', open_node_class (<[ty := c]> reg) ty s t = (o, s', t') → ∀ c', o ≠ Val c') ∧
  abstract_left d = ["programmer"] ∧
  ((∀ t path, env_elf t path = ElfHeader "ET_EXEC" cl machine) →
   ∃ t', open_node_class (<[ty := d]> reg) ty s t = (Val d, s, t')).
Proof.
  intros c d. split_and!.
  - intros Hl. by eapply register_all_raises.
  - intros o s' t' Hrun. eapply open_node_class_needs_tests; [apply lookup_insert_eq|..|exact Hrun];
      reflexivity.
  - by vm_compute.
  - intros Helf. unfold open_node_class.
    assert (node_class (<[ty := d]> reg) ty = Val d) as Hnode.
    { assert ((<[ty := d]> reg : registry) !! ty = Some d) as Hreg by apply lookup_insert_eq.
      unfold node_class. rewrite Hreg. unfold py_assert. by rewrite bool_decide_eq_true_2. }
    assert (∀ attr path t, attr_str d attr = Some path →
      verify_firmware d attr s t = (Val 0%Z, s, t ++ [EvElfTarget path])) as Hfw.
    { intros attr path u Ha. unfold verify_firmware. rewrite Ha.
      unfold is_compatible_with_node. change (attr_strs d "ELF_TARGET") with (Some [cl; machine]).
      unfold try_except, elf_target, mbind, M_bind, ask. rewrite Helf. simpl.
      by rewrite bool_decide_eq_true_2. }
    assert (∃ t', verify d s t = (Val 0%Z, s, t')) as [t' Hver].
    { eexists. unfold verify. change (getattr d "verify") with (Some (AMeth "OpenNodeBase")).
      cbv beta iota. rewrite decide_True by done. unfold verify_base.
      erewrite bind_run by by eapply Hfw. erewrite bind_run by by eapply Hfw. reflexivity. }
    exists t'. erewrite bind_run by (unfold lift; by rewrite Hnode).
    by rewrite (bind_run _ _ _ _ _ _ _ Hver).
Qed.
