(* ===== verification/Autotest.v ===== *)
(** * Autotests ([gateway_code/autotest/autotest.py])

    [AutoTestManager]: the tests of the nodes of a gateway, each as the method that
    runs it, the report they fill, and [auto_tests], which runs them in order and
    stops at the first fatal error.  The state is the object: the two nodes of the
    manager, the connection to the open node, the report, the measures received from
    the control node; and the local [ret_val] of [auto_tests]. *)

From Stdlib Require Import SpecFloat.
From S2P Require Import Prelude PyString PyRegex Effects PyVal Profile Common Protocol CnInterface.
From S2P Require Import SerialExpect NodeConnection LinuxInterface Measures Nodes BoardConfig Interfaces.

(** ** State *)

(** [ret_dict] *)
Record Report := MkReport {
  rp_ret : option Z;
  rp_success : list string;
  rp_error : list string;
  rp_mac : gmap string string;
  rp_uid : option string                  (* 'open_node_uid' *)
}.

Definition report_init : Report := MkReport None [] [] ∅ None.

Definition log_check (ret : Z) (operation : string) (r : Report) : Report :=
  if (ret =? 0)%Z
  then MkReport (rp_ret r) (rp_success r ++ [operation]) (rp_error r) (rp_mac r) (rp_uid r)
  else MkReport (rp_ret r) (rp_success r) (rp_error r ++ [operation]) (rp_mac r) (rp_uid r).
Definition set_mac (node addr : string) (r : Report) : Report :=
  MkReport (rp_ret r) (rp_success r) (rp_error r) (<[node := addr]> (rp_mac r)) (rp_uid r).
Definition set_uid (uid : string) (r : Report) : Report :=
  MkReport (rp_ret r) (rp_success r) (rp_error r) (rp_mac r) (Some uid).
Definition set_ret (ret : Z) (r : Report) : Report :=
  MkReport (Some ret) (rp_success r) (rp_error r) (rp_mac r) (rp_uid r).

Record AT (N C : Type) := MkAT {
  at_on_class : pyclass;
  at_cn_class : pyclass;
  at_linux_on_class : option pyclass;
  at_open_node : N;                       (* self.g_m.open_node *)
  at_control_node : C;                    (* self.g_m.control_node *)
  at_on_serial : option Conn;
  at_linux : option LinuxConn;            (* self.linux_connection *)
  at_report : Report;                     (* self.ret_dict *)
  at_mark : nat;                          (* the lines before self.cn_measures *)
  at_tested : gset string;                (* TESTED_FEATURES *)
  at_ret_val : Z                          (* ret_val of auto_tests *)
}.
Arguments MkAT {N C}.
Arguments at_on_class {N C}.
Arguments at_cn_class {N C}.
Arguments at_linux_on_class {N C}.
Arguments at_open_node {N C}.
Arguments at_control_node {N C}.
Arguments at_on_serial {N C}.
Arguments at_linux {N C}.
Arguments at_report {N C}.
Arguments at_mark {N C}.
Arguments at_tested {N C}.
Arguments at_ret_val {N C}.

Section state.
Context {N C : Type}.
Implicit Type s : AT N C.

Definition open_node : lens (AT N C) N :=
  Lens at_open_node (λ x s, MkAT (at_on_class s) (at_cn_class s) (at_linux_on_class s) x
    (at_control_node s) (at_on_serial s) (at_linux s) (at_report s) (at_mark s) (at_tested s)
    (at_ret_val s)).
Definition control_node : lens (AT N C) C :=
  Lens at_control_node (λ x s, MkAT (at_on_class s) (at_cn_class s) (at_linux_on_class s)
    (at_open_node s) x (at_on_serial s) (at_linux s) (at_report s) (at_mark s) (at_tested s)
    (at_ret_val s)).
Definition put_on_serial (x : option Conn) s : AT N C :=
  MkAT (at_on_class s) (at_cn_class s) (at_linux_on_class s) (at_open_node s)
    (at_control_node s) x (at_linux s) (at_report s) (at_mark s) (at_tested s) (at_ret_val s).
Definition put_linux (x : option LinuxConn) s : AT N C :=
  MkAT (at_on_class s) (at_cn_class s) (at_linux_on_class s) (at_open_node s)
    (at_control_node s) (at_on_serial s) x (at_report s) (at_mark s) (at_tested s) (at_ret_val s).
Definition on_report (f : Report → Report) s : AT N C :=
  MkAT (at_on_class s) (at_cn_class s) (at_linux_on_class s) (at_open_node s)
    (at_control_node s) (at_on_serial s) (at_linux s) (f (at_report s)) (at_mark s)
    (at_tested s) (at_ret_val s).
Definition put_mark (x : nat) s : AT N C :=
  MkAT (at_on_class s) (at_cn_class s) (at_linux_on_class s) (at_open_node s)
    (at_control_node s) (at_on_serial s) (at_linux s) (at_report s) x (at_tested s) (at_ret_val s).
Definition on_tested (f : gset string → gset string) s : AT N C :=
  MkAT (at_on_class s) (at_cn_class s) (at_linux_on_class s) (at_open_node s)
    (at_control_node s) (at_on_serial s) (at_linux s) (at_report s) (at_mark s)
    (f (at_tested s)) (at_ret_val s).
Definition put_ret_val (x : Z) s : AT N C :=
  MkAT (at_on_class s) (at_cn_class s) (at_linux_on_class s) (at_open_node s)
    (at_control_node s) (at_on_serial s) (at_linux s) (at_report s) (at_mark s) (at_tested s) x.
End state.

(** [x.m()] when [x] may be [None] *)
Definition on_attr {S T A} (sel : S → option T) (put : option T → S → S) (m : M T A) : M S A :=
  λ s t, match sel s with
         | None => (Exn AttributeError, s, t)
         | Some x => let '(o, x', t') := m x t in (o, put (Some x') s, t')
         end.

(** [MAC_RE]: [([0-9a-f]{2}:){5}[0-9a-f]{2}] *)
Definition hex_pair : regex := [One is_hex; One is_hex].
Definition MAC_RE : regex :=
  concat (replicate 5 (hex_pair ++ [One (is_char ":"%char)])) ++ hex_pair.

(** [repr(cmd)] for words without quotes *)
Definition repr_cmd (cmd : list string) : string :=
  "[" +:+ str_join ", " ((λ w, "'" +:+ w +:+ "'") <$> cmd) +:+ "]".

(** [[''.join(x) for x in zip( *[iter(s)] * 4)]] *)
Fixpoint split4 (s : string) : list string :=
  match s with
  | String a (String b (String c (String d s))) =>
      String a (String b (String c (String d ""))) :: split4 s
  | _ => []
  end.

(** [set([-91]) != set(values)] *)
Definition rssi_ok (values : list Z) : bool :=
  negb (bool_decide (list_to_set values =@{gset Z} {[ (-91)%Z ]})).

Section autotest.
Context `{E : Env} {N C : Type} `{!OpenNodeOps N} `{!ControlNodeOps C}.

(** [AutoTestManager(gateway_manager)], its [BoardConfig()] given *)
Definition at_new (b : BoardConfig) (on : N) (cn : C) : AT N C :=
  MkAT (bc_board_class b) (bc_cn_class b) (bc_linux_on_class b) on cn None None report_init
    (length (cn_measures cn)) ∅ 0.

(** *** The checkers *)

Definition add_tested (required : list string) : M (AT N C) unit :=
  modify (on_tested (λ f, list_to_set required ∪ f)).

(** [autotest_checker( *required)] *)
Definition autotest_checker (required : list string) (func : M (AT N C) Z) : M (AT N C) Z :=
  s ← get;
  let cls := default (at_on_class s) (at_linux_on_class s) in
  match attr_strs cls "AUTOTEST_AVAILABLE" with
  | None => raise AttributeError
  | Some available =>
      if negb (object_attr_has available required) then mret 0%Z
      else add_tested required ;; func
  end.

(** [autotest_control_node_checker( *required)] *)
Definition autotest_control_node_checker (required : list string) (func : M (AT N C) Z)
    : M (AT N C) Z :=
  s ← get;
  match attr_strs (at_cn_class s) "FEATURES" with
  | None => raise AttributeError
  | Some available => class_attr_has available required func
  end.

(** [_check(ret, operation, log_message)] *)
Definition check (ret : Z) (operation : string) : M (AT N C) Z :=
  modify (on_report (log_check ret operation)) ;;
  mret (Z.abs ret).

(** [_assert(ret, operation, log_message, exc_message)] *)
Definition assert_ (ret : Z) (operation : string) : M (AT N C) unit :=
  ret_val ← check ret operation;
  if (ret_val =? 0)%Z then mret tt else raise FatalError.

(** *** Calls *)

Definition on_serial {A} (m : M Conn A) : M (AT N C) A := on_attr at_on_serial put_on_serial m.
Definition linux_connection {A} (m : M LinuxConn A) : M (AT N C) A :=
  on_attr at_linux put_linux m.

(** [time.sleep], in milliseconds; the measures come *)
Definition sleep (ms : Z) : M (AT N C) unit := zoom control_node (cn_pause ms).

(** [self.g_m.control_node.protocol] *)
Definition protocol_sender (args : list pyval) : M (AT N C) (option (list string)) :=
  zoom control_node (cn_sender args).

(** [self.cn_measures = []], and the measures received since *)
Definition clear_measures : M (AT N C) unit :=
  modify (λ s, put_mark (length (cn_measures (at_control_node s))) s).
Definition received_measures (s : AT N C) : list (list string) :=
  measure_words (drop (at_mark s) (cn_measures (at_control_node s))).

Definition on_serial_send_command (cmd : list string) : M (AT N C) (option (list string)) :=
  add_tested (take 1 cmd) ;;
  on_serial (conn_send_command cmd).

(** [_on_call(cmd)]: the status and the answer *)
Definition acked (cmd : list string) (answer : option (list string)) : bool :=
  match answer with
  | Some answer => bool_decide (take 2 answer = "ACK" :: take 1 cmd)
  | None => false
  end.

Definition on_call (cmd : list string) : M (AT N C) (Z * list string) :=
  answer ← on_serial_send_command cmd;
  if acked cmd answer then mret (0%Z, default [] answer)
  else check 1 ("On Command: " +:+ repr_cmd cmd) ;; mret (1%Z, default [] answer).

(** [_run_test(num, cmd, parse_function)] *)
Fixpoint run_test {A} (num : nat) (cmd : list string) (parse_function : list string → outcome A)
    : M (AT N C) (list A) :=
  match num with
  | O => mret []
  | S num =>
      '(ret, answer) ← on_call cmd;
      if (ret =? 0)%Z then
        v ← lift (parse_function answer);
        values ← run_test num cmd parse_function;
        mret (v :: values)
      else run_test num cmd parse_function
  end.

Definition open_node_start : M (AT N C) Z :=
  autotest_control_node_checker ["open_node_power"]
    (zoom control_node (cn_open_start (Some (PStr "dc")))).

(** [self.g_m.open_node.ALIM] *)
Definition open_node_alim : M (AT N C) string :=
  s ← get;
  match attr_str (on_class (at_open_node s)) "ALIM" with
  | Some alim => mret alim
  | None => raise AttributeError
  end.

(** *** Tests of the open node *)

Definition check_echo : M (AT N C) unit :=
  answer ← on_serial_send_command ["echo"; "HELLO"; "WORLD"];
  let test_ok := bool_decide (take 2 (default [] answer) = ["HELLO"; "WORLD"]) in
  assert_ (status test_ok) "on_serial_echo".

Definition check_get_time : M (AT N C) unit :=
  on_call ["get_time"] ;;
  values ← run_test 5 ["get_time"] (λ x, w ← nth_word x 2; mret (str_isdigit w));
  assert_ (status (existsb id values)) "on_serial_get_time".

Definition get_uid : M (AT N C) Z := autotest_checker ["get_uid"] (
  values ← run_test 1 ["get_uid"] (λ x, nth_word x 2);
  match values with
  | uid_str :: _ => modify (on_report (set_uid (str_join ":" (split4 uid_str))))
  | [] => mret tt
  end ;;
  check (status (nonempty values)) "get_uid").

(** [set_leds_off_and_on]; its value is not used *)
Definition set_leds_off_and_on : M (AT N C) Z := autotest_checker ["leds_on"; "leds_off"] (
  on_call ["leds_off"; "7"] ;;
  sleep 1000 ;;
  on_call ["leds_on"; "7"] ;;
  mret 0%Z).

Definition test_flash (flash : bool) : M (AT N C) Z := autotest_checker ["test_flash"] (
  if negb flash then mret 0%Z
  else
    values ← run_test 1 ["test_flash"] (λ x, Val x);
    check (status (nonempty values)) "test_flash").

(** [float(x[2])] *)
Definition second_float (x : list string) : outcome spec_float := w ← nth_word x 2; py_float w.

Definition test_pressure : M (AT N C) Z := autotest_checker ["get_pressure"] (
  values ← run_test 10 ["get_pressure"] second_float;
  check (status (different SFeqb values)) "test_pressure").

Definition test_light : M (AT N C) Z := autotest_checker ["get_light"; "leds_on"; "leds_off"] (
  on_call ["leds_on"; "7"] ;;
  values_on ← run_test 5 ["get_light"] second_float;
  on_call ["leds_off"; "7"] ;;
  values_off ← run_test 5 ["get_light"] second_float;
  check (status (different SFeqb (values_on ++ values_off))) "get_light").

Definition test_xyz_sensor (sensor : string) : M (AT N C) Z :=
  values ← run_test 10 [sensor] (λ x, mapM py_float (take 3 (drop 2 x)));
  check (status (different (list_eqb SFeqb) values)) sensor.

Definition test_magneto : M (AT N C) Z :=
  autotest_checker ["get_magneto"] (test_xyz_sensor "get_magneto").
Definition test_gyro : M (AT N C) Z :=
  autotest_checker ["get_gyro"] (test_xyz_sensor "get_gyro").
Definition test_accelero : M (AT N C) Z :=
  autotest_checker ["get_accelero"] (test_xyz_sensor "get_accelero").

(** The loop of [_test_pps_open_node]: a value to return at once, or [ret_val]. *)
Fixpoint pps_loop (fuel : nat) (end_time : Z) : M (AT N C) (Z + Z) :=
  match fuel with
  | O => hang
  | S fuel =>
      now ← p_time;
      if (now <? end_time)%Z then
        sleep 5000 ;;
        '(ret, answer) ← on_call ["test_pps_get"];
        if (ret =? 0)%Z then
          w ← lift (nth_word answer 2);
          pps_count ← lift (str_int w);
          if (2 <? pps_count)%Z then
            r ← check 0 "test_pps_open_node"; mret (inr r)
          else pps_loop fuel end_time
        else r ← check 1 "test_pps_get"; mret (inl r)
      else r ← check 1 "test_pps_open_node_timeout"; mret (inr r)
  end.

(** One turn lasts five seconds at least. *)
Definition pps_fuel (timeout : Z) : nat := Z.to_nat (timeout / 5000) + 2.

Definition test_pps_open_node (timeout : Z) : M (AT N C) Z :=
  '(ret, answer) ← on_call ["test_pps_start"];
  if negb (ret =? 0)%Z then check 1 "test_pps_start"
  else
    now ← p_time;
    r ← pps_loop (pps_fuel timeout) (now + timeout);
    match r with
    | inl ret => mret ret
    | inr ret_val => on_call ["test_pps_stop"] ;; mret ret_val
    end.

Definition test_pps_open_node_invalid : M (AT N C) unit :=
  on_call ["test_pps_invalid"] ;; mret tt.

Definition test_gps (gps : bool) : M (AT N C) Z :=
  autotest_checker ["test_pps_start"; "test_pps_get"; "test_pps_stop"] (
    if negb gps then mret 0%Z
    else
      ret_val ← test_pps_open_node 120000;
      check ret_val "test_gps").

(** *** Tests with the control node *)

(** [_test_on_cn(num, cn_command, on_cmd, args)]; the commands are not empty *)
Definition test_on_cn (num : nat) (cn_command on_cmd args : list string) : M (AT N C) Z :=
  let debug_str := hd "" cn_command +:+ "_on_cn" in
  r ← send_words protocol_sender (cn_command ++ ["start"] ++ args);
  values ← run_test num (on_cmd ++ args) (λ _, Val tt);
  r1 ← check (status (nonempty values)) debug_str;
  ret ← send_words protocol_sender (cn_command ++ ["stop"]);
  r2 ← check ret debug_str;
  mret (r + r1 + r2)%Z.

Definition test_gpio : M (AT N C) Z :=
  autotest_checker ["test_gpio"] (autotest_control_node_checker ["open_node_gpio"]
    (test_on_cn 5 ["test_gpio"] ["test_gpio"] [])).

Definition test_i2c : M (AT N C) Z :=
  autotest_checker ["test_i2c"] (autotest_control_node_checker ["open_node_i2c"]
    (test_on_cn 1 ["test_i2c"] ["test_i2c"] [])).

Definition test_radio_ping_pong (channel : option Z) : M (AT N C) Z :=
  autotest_checker ["radio_ping_pong"] (autotest_control_node_checker ["radio"] (
    match channel with
    | None => mret 0%Z
    | Some channel =>
        test_on_cn 10 ["test_radio_ping_pong"] ["radio_ping_pong"] [str_of_Z channel; "3dBm"]
    end)).

(** The ten packets of [test_radio_with_rssi]. *)
Definition send_packets (cmd_on : list string) : M (AT N C) unit :=
  for_each (seq 0 10) (λ _, on_call cmd_on ;; sleep 500).

Definition test_radio_with_rssi (channel : option Z) : M (AT N C) Z :=
  autotest_checker ["radio_pkt"] (autotest_control_node_checker ["radio"] (
    clear_measures ;;
    match channel with
    | None => mret 0%Z
    | Some channel =>
        radio ← lift (Radio_init (PStr "rssi") (PList [PInt channel]) (PInt 10) (PInt 0));
        r ← config_radio protocol_sender (Some radio);
        send_packets ["radio_pkt"; str_of_Z channel; "3dBm"] ;;
        r1 ← config_radio protocol_sender None;
        s ← get;
        measures ← lift (extract_measures (received_measures s));
        values ← lift (column 1 (ms_radio measures));
        r2 ← check (status (rssi_ok values)) "rssi_measures";
        mret (r + r1 + r2)%Z
    end)).

(** [Consumption(self.g_m.open_node.ALIM, 'dc', period, '64', True, True, True)] *)
Definition dc_consumption (period : string) : M (AT N C) Consumption :=
  alim ← open_node_alim;
  lift (Consumption_init alim (PStr "dc") (PStr period) (PStr "64")
          (PBool true) (PBool true) (PBool true)).

Definition test_consumption_dc : M (AT N C) Z :=
  autotest_control_node_checker ["consumption"] (
    conso ← dc_consumption "588";
    r ← open_node_start;
    clear_measures ;;
    r1 ← config_consumption protocol_sender (Some conso);
    sleep 2000 ;;
    r2 ← config_consumption protocol_sender None;
    sleep 2000 ;;
    s ← get;
    measures ← lift (extract_measures (received_measures s));
    r3 ← check (status (different (list_eqb SFeqb) (ms_consumption measures))) "consumption_dc";
    mret (r + r1 + r2 + r3)%Z).

(** [test_consumption_batt]: the code after its first [return 0] is not reached *)
Definition test_consumption_batt : M (AT N C) Z :=
  autotest_control_node_checker ["battery"]
    (autotest_control_node_checker ["consumption"] (mret 0%Z)).

(** The times at which each group of leds was on. *)
Fixpoint leds_loop (leds : list string) : M (AT N C) (list spec_float) :=
  match leds with
  | [] => mret []
  | led :: leds =>
      on_call ["leds_on"; led] ;;
      sleep 500 ;;
      now ← p_time;
      sleep 500 ;;
      on_call ["leds_off"; "7"] ;;
      leds_timestamps ← leds_loop leds;
      mret (float_of_ms now :: leds_timestamps)
  end.

(** [timestamps[0], timestamps[-1]], the arguments of a log message *)
Definition first_and_last (timestamps : list spec_float) : outcome unit :=
  if nonempty timestamps then Val tt else Exn IndexError.

Definition test_leds_with_consumption : M (AT N C) Z :=
  autotest_checker ["leds_consumption"; "leds_on"; "leds_off"]
    (autotest_control_node_checker ["consumption"] (
      on_call ["leds_off"; "7"] ;;
      conso ← dc_consumption "1100";
      r ← open_node_start;
      clear_measures ;;
      r1 ← config_consumption protocol_sender (Some conso);
      leds_timestamps ← leds_loop ["0"; "1"; "2"; "4"; "7"];
      r2 ← config_consumption protocol_sender None;
      sleep 1000 ;;
      s ← get;
      measures ← lift (extract_measures (received_measures s));
      values ← lift (column 0 (ms_consumption measures));
      lift (first_and_last (ms_consumption_ts measures)) ;;
      test_ok ← lift (leds_cost (led_values values (ms_consumption_ts measures) leds_timestamps));
      r3 ← check (status test_ok) "leds_using_conso";
      mret (r + r1 + r2 + r3)%Z)).

(** *** Setup and teardown *)

(** [get_local_mac_addr()], through a shell *)
Definition get_local_mac_addr {St} : M St string :=
  out ← check_output ["/bin/sh"; "-c"; LINUX_MAC_CMD];
  mret (str_strip out).

Definition setup_control_node : M (AT N C) unit :=
  ret ← zoom control_node cn_autotest_setup;
  gwt_mac_addr ← get_local_mac_addr;
  modify (on_report (set_mac "GWT" gwt_mac_addr)) ;;
  r ← check (status (re_match MAC_RE gwt_mac_addr)) "gw_mac_addr";
  assert_ (ret + r) "setup_cn_connection".

(** [OpenNodeConnection(host)], started; its default host is [localhost] *)
Definition connect_on_serial (host operation : string) : M (AT N C) Z :=
  modify (put_on_serial (Some (conn_new host))) ;;
  ret ← on_serial conn_start;
  check ret operation.

(** [self.on_class.FW_AUTOTEST] and the like *)
Definition class_str (c : pyclass) (name : string) : outcome string :=
  match attr_str c name with Some s => Val s | None => Exn AttributeError end.

Definition setup_open_node : M (AT N C) Z :=
  s ← get;
  fw ← lift (class_str (at_on_class s) "FW_AUTOTEST");
  ret ← zoom open_node (on_setup (Some fw));
  r ← check ret "open_node_setup";
  r1 ← connect_on_serial "localhost" "open_node_connection";
  mret (r + r1)%Z.

Definition setup_linux_open_node : M (AT N C) Z :=
  s ← get;
  ty ← lift (class_str (at_on_class s) "TYPE");
  lift (py_assert (bool_decide (ty = "a8" ∨ ty = "rpi3"))) ;;
  cn_ty ← lift (class_str (at_cn_class s) "TYPE");
  lift (py_assert (bool_decide (cn_ty = "iotlab"))) ;;
  ret ← zoom open_node (on_setup_nodebug None);
  assert_ ret "linux_node_setup" ;;
  found ← zoom open_node (on_wait_booted 300000);
  assert_ (status (negb (bool_decide (found = "")))) "linux_node_boot_timeout" ;;
  modify (put_linux (Some linux_new)) ;;
  try_except (linux_connection linux_start)
    (λ e, match e with
          | LinuxConnectionError err_msg =>
              Some (assert_ 1 ("linux_node_init_error: " +:+ err_msg))
          | _ => None
          end) ;;
  linux_mac_addr ← linux_connection linux_get_mac_addr;
  modify (on_report (set_mac "ON" linux_mac_addr)) ;;
  r ← check (status (re_match MAC_RE linux_mac_addr)) "linux_mac_addr";
  ret ← linux_connection linux_flash;
  assert_ ret "linux_node_flash_autotest" ;;
  s ← get;
  ip_addr ← lift (match at_linux s with
                  | Some c => Val (default "None" (ln_ip_addr c))
                  | None => Exn AttributeError
                  end);
  r1 ← connect_on_serial ip_addr "linux_open_node_serial";
  mret (r + r1)%Z.

Definition setup_open_node_connection : M (AT N C) unit :=
  r ← open_node_start;
  s ← get;
  r1 ← match at_linux_on_class s with
       | Some _ => setup_linux_open_node
       | None => setup_open_node
       end;
  on_serial conn_empty ;;
  if negb (r + r1 =? 0)%Z then raise FatalError else mret tt.

(** [_on_serial_stop()] *)
Definition on_serial_stop : M (AT N C) Z :=
  try_finally (
    try_except (on_serial conn_stop ;; mret 0%Z)
      (λ e, match e with AttributeError => Some (mret 1%Z) | _ => None end)
  ) (modify (put_on_serial None)).

Definition teardown_open_node (stop : bool) : M (AT N C) Z :=
  r ← on_serial_stop;
  r1 ← zoom open_node on_redirection_stop;
  r2 ← (if stop then zoom open_node on_teardown else mret 0%Z);
  mret (r + r1 + r2)%Z.

(** [_control_node_leds_blink()]; its value is not used *)
Definition control_node_leds_blink : M (AT N C) Z :=
  autotest_control_node_checker ["leds"] (green_led_blink protocol_sender).

(** [_set_results_leds(blink)] *)
Definition set_results_leds_calls (blink : bool) : M (AT N C) unit :=
  on_call ["leds_off"; "7"] ;;
  if negb blink then mret tt
  else
    on_call ["leds_blink"; "7"; "500"] ;;
    control_node_leds_blink ;;
    mret tt.

Definition set_result_leds (blink : bool) : M (AT N C) Z :=
  autotest_checker ["leds_off"; "leds_blink"] (
    try_except (set_results_leds_calls blink ;; mret 0%Z)
      (λ e, match e with FatalError => Some (mret 1%Z) | _ => None end)).

Definition teardown (blink : bool) : M (AT N C) Z :=
  r ← open_node_start;
  r1 ← set_result_leds blink;
  r2 ← teardown_open_node (negb blink);
  zoom control_node (cn_autotest_teardown (negb blink)) ;;
  check (r + r1 + r2) "teardown".

(** *** All the tests *)

(** [ret_val += m] *)
Definition acc (m : M (AT N C) Z) : M (AT N C) unit :=
  r ← m;
  modify (λ s, put_ret_val (at_ret_val s + r) s).

(** The statements under [try] in [auto_tests]. *)
Definition all_tests (channel : option Z) (flash gps : bool) : M (AT N C) unit :=
  setup_control_node ;;
  acc test_consumption_batt ;;
  setup_open_node_connection ;;
  sleep 1000 ;;
  check_echo ;;
  check_get_time ;;
  get_uid ;;
  ret ← open_node_start;
  acc (check ret "switch_to_dc") ;;
  set_leds_off_and_on ;;
  acc test_gyro ;;
  acc test_magneto ;;
  acc test_accelero ;;
  acc test_gpio ;;
  acc test_i2c ;;
  acc (test_radio_ping_pong channel) ;;
  acc (test_radio_with_rssi channel) ;;
  acc test_consumption_dc ;;
  acc test_leds_with_consumption ;;
  acc test_pressure ;;
  acc test_light ;;
  acc (test_flash flash) ;;
  acc (test_gps gps).

Definition auto_tests (channel : option Z) (blink flash gps : bool) : M (AT N C) Report :=
  modify (λ s, on_tested (λ _, ∅) (put_ret_val 0 s)) ;;
  try_except (all_tests channel flash gps)
    (λ e, match e with
          | FatalError => Some (modify (λ s, put_ret_val (at_ret_val s + 1) s))
          | _ => None
          end) ;;
  s ← get;
  acc (teardown (blink && (at_ret_val s =? 0)%Z)) ;;
  modify (λ s, on_report (set_ret (at_ret_val s)) s) ;;
  gets at_report.

(** The tests of a new [AutoTestManager] on the nodes of a manager. *)
Definition run_auto_tests (b : BoardConfig) (channel : option Z) (blink flash gps : bool)
    : M (N * C) Report := λ '(on, cn) t,
  let '(o, s, t') := auto_tests channel blink flash gps (at_new b on cn) t in
  (o, (at_open_node s, at_control_node s), t').
End autotest.
