(* ===== verification/OpenNodes.v ===== *)
(** * Open nodes ([gateway_code/open_nodes])

    One record per family of nodes: what the object holds, and its methods.  The
    class of a node gives its attributes ([TTY], [FW_IDLE], ...), so that the
    boards that only redefine attributes share the operations of their family. *)

From S2P Require Import Prelude PyString Effects PyVal Common Config.
From S2P Require Import Programmers ExternalProcess SerialExpect FtdiCheck Nodes NodeClasses Interfaces.

(** ** Attributes of [self] *)

Definition self_str (c : pyclass) (name : string) : outcome string :=
  match attr_str c name with Some s => Val s | None => Exn AttributeError end.

Definition self_int (c : pyclass) (name : string) : outcome Z :=
  match attr_int c name with Some z => Val z | None => Exn AttributeError end.

(** [firmware_path or self.FW_IDLE] *)
Definition or_idle (firmware_path : option string) (c : pyclass) : outcome string :=
  match firmware_path with
  | Some fw => if decide (fw = "") then self_str c "FW_IDLE" else Val fw
  | None => self_str c "FW_IDLE"
  end.

(** [common.wait_no_tty(self.TTY); ret_val += common.wait_tty(self.TTY, LOGGER)] *)
Definition wait_tty_back `{Env} {St} (tty : string) : M St Z :=
  wait_no_tty tty TTY_DETECT_TIME ;; wait_tty tty TTY_DETECT_TIME.

(** [serial.Serial(tty, baudrate)] with the handler the nodes share:
    [except SerialException: return 1] *)
Definition with_serial `{Env} {St} (tty : string) (baudrate : Z) (body : M St Z) : M St Z :=
  opened ← try_except (p_serial tty baudrate ;; mret true)
    (λ e, match e with SerialException => Some (mret false) | _ => None end);
  if opened : bool then body else mret 1%Z.

(** ** Nodes with OpenOCD ([common/node_openocd.py]) *)

Module OpenOCDNode.
Section node.
Context `{E : Env}.

Record node := MkNode {
  nd_class : pyclass;
  nd_redirection : ExtProc;              (* self.serial_redirection *)
  nd_openocd : OpenOCD                   (* self.openocd *)
}.

Definition redirection : lens node ExtProc :=
  Lens nd_redirection (λ x n, MkNode (nd_class n) x (nd_openocd n)).
Definition openocd : lens node OpenOCD :=
  Lens nd_openocd (λ x n, MkNode (nd_class n) (nd_redirection n) x).

(** [RESET] of [OPENOCD_CLASS] *)
Definition class_reset (c : pyclass) : string :=
  match getattr c "OPENOCD_CLASS" with
  | Some (ARef cls) =>
      if decide (cls = "OpenOCDCustomReset")
      then "-c " +:+ dquoted "reset halt" +:+ " -c " +:+ dquoted "reset run" +:+
           " -c " +:+ dquoted "shutdown"
      else RESET
  | _ => RESET
  end.

(** [OpenOCD.from_node(node)] *)
Definition from_node {St} (c : pyclass) : M St OpenOCD :=
  cfg ← lift (self_str c "OPENOCD_CFG_FILE");
  openocd_new (default "openocd" (attr_str c "OPENOCD_PATH")) cfg
    (default [] (attr_strs c "OPENOCD_OPTS")) (class_reset c).

Definition init {St} (c : pyclass) : M St node :=
  tty ← lift (self_str c "TTY");
  baudrate ← lift (self_int c "BAUDRATE");
  sr ← lift (serial_redirection tty baudrate raw_opts);
  oo ← from_node c;
  mret (MkNode c sr oo).

Definition clear_serial : M node Z :=
  n ← get;
  tty ← lift (self_str (nd_class n) "TTY");
  baudrate ← lift (self_int (nd_class n) "BAUDRATE");
  with_serial tty baudrate (p_emit EvSerialFlush ;; p_emit EvSerialClose ;; mret 0%Z).

Definition flash (firmware_path : option string) (binary : bool) (offset : Z) : M node Z :=
  n ← get;
  fw ← lift (or_idle firmware_path (nd_class n));
  start ← lift (self_int (nd_class n) "ROM_START_ADDR");
  ret ← zoom openocd (openocd_flash fw binary (start + offset)%Z);
  ret1 ← (if attr_flag (nd_class n) "JLINK_SERIAL"
          then tty ← lift (self_str (nd_class n) "TTY"); wait_tty tty TTY_DETECT_TIME
          else mret 0%Z);
  ret2 ← (if attr_flag (nd_class n) "DIRTY_SERIAL" then clear_serial else mret 0%Z);
  mret (ret + ret1 + ret2)%Z.

Definition setup (firmware_path : option string) : M node Z :=
  n ← get;
  tty ← lift (self_str (nd_class n) "TTY");
  ret ← wait_tty_back tty;
  ret1 ← flash firmware_path false 0;
  ret2 ← zoom redirection ep_start;
  mret (ret + ret1 + ret2)%Z.

Definition reset : M node Z := zoom openocd openocd_reset.
Definition debug_start : M node Z := zoom openocd openocd_debug_start.
Definition debug_stop : M node Z := zoom openocd openocd_debug_stop.

Definition teardown : M node Z :=
  n ← get;
  tty ← lift (self_str (nd_class n) "TTY");
  ret ← wait_tty_back tty;
  ret1 ← debug_stop;
  ret2 ← zoom redirection ep_stop;
  ret3 ← flash None false 0;
  mret (ret + ret1 + ret2 + ret3)%Z.

(** [status]: the nodes M3 and A8-M3 look for their FTDI chip, the others return
    0 *)
Definition node_status : M node Z :=
  n ← get;
  match getattr (nd_class n) "status" with
  | Some (AMeth owner) =>
      if decide (owner = "NodeM3" ∨ owner = "NodeA8M3") then ftdi_check "2232" None
      else mret 0%Z
  | _ => raise AttributeError
  end.

#[global] Instance ops : OpenNodeOps node := {|
  on_class := nd_class; on_setup := setup; on_teardown := teardown; on_flash := flash;
  on_reset := reset; on_debug_start := debug_start; on_debug_stop := debug_stop;
  on_status := node_status;
  on_redirection_stop := zoom redirection ep_stop;
  on_setup_nodebug := λ _, raise TypeError; on_wait_booted := λ _, raise AttributeError
|}.
End node.
End OpenOCDNode.

(** ** Nodes with EDBG ([common/node_edbg.py]) *)

Module EdbgNode.
Section node.
Context `{E : Env}.

Record node := MkNode {
  ed_class : pyclass;
  ed_redirection : ExtProc;
  ed_openocd : OpenOCD;
  ed_current_fw : option string;         (* self._current_fw *)
  ed_in_debug : bool                     (* self._in_debug *)
}.

Definition redirection : lens node ExtProc :=
  Lens ed_redirection
    (λ x n, MkNode (ed_class n) x (ed_openocd n) (ed_current_fw n) (ed_in_debug n)).
Definition openocd : lens node OpenOCD :=
  Lens ed_openocd
    (λ x n, MkNode (ed_class n) (ed_redirection n) x (ed_current_fw n) (ed_in_debug n)).
Definition set_current_fw (fw : option string) (n : node) : node :=
  MkNode (ed_class n) (ed_redirection n) (ed_openocd n) fw (ed_in_debug n).
Definition set_in_debug (b : bool) (n : node) : node :=
  MkNode (ed_class n) (ed_redirection n) (ed_openocd n) (ed_current_fw n) b.

Definition init {St} (c : pyclass) : M St node :=
  tty ← lift (self_str c "TTY");
  baudrate ← lift (self_int c "BAUDRATE");
  sr ← lift (serial_redirection tty baudrate raw_opts);
  oo ← OpenOCDNode.from_node c;
  mret (MkNode c sr oo None false).

Definition flash (firmware_path : option string) (binary : bool) (offset : Z) : M node Z :=
  n ← get;
  fw ← lift (or_idle firmware_path (ed_class n));
  modify (set_current_fw (Some fw)) ;;
  in_debug ← gets ed_in_debug;
  if in_debug : bool then zoom openocd (openocd_flash fw binary offset)
  else edbg_flash fw binary offset.

Definition debug_start : M node Z :=
  modify (set_in_debug true) ;;
  fw ← gets ed_current_fw;
  match fw with
  | Some fw => flash (Some fw) false 0 ;; zoom openocd openocd_debug_start
  | None => zoom openocd openocd_debug_start
  end.

Definition debug_stop : M node Z :=
  modify (set_in_debug false) ;; zoom openocd openocd_debug_stop.

Definition setup (firmware_path : option string) : M node Z :=
  modify (set_in_debug false) ;;
  n ← get;
  tty ← lift (self_str (ed_class n) "TTY");
  ret ← wait_tty_back tty;
  ret1 ← flash firmware_path false 0;
  ret2 ← zoom redirection ep_start;
  mret (ret + ret1 + ret2)%Z.

Definition teardown : M node Z :=
  modify (set_in_debug false) ;;
  n ← get;
  tty ← lift (self_str (ed_class n) "TTY");
  ret ← wait_tty_back tty;
  ret1 ← debug_stop;
  ret2 ← zoom redirection ep_stop;
  ret3 ← flash None false 0;
  mret (ret + ret1 + ret2 + ret3)%Z.

Definition reset : M node Z := zoom openocd openocd_reset.

#[global] Instance ops : OpenNodeOps node := {|
  on_class := ed_class; on_setup := setup; on_teardown := teardown; on_flash := flash;
  on_reset := reset; on_debug_start := debug_start; on_debug_stop := debug_stop;
  on_status := mret 0%Z;
  on_redirection_stop := zoom redirection ep_stop;
  on_setup_nodebug := λ _, raise TypeError; on_wait_booted := λ _, raise AttributeError
|}.
End node.
End EdbgNode.

(** ** Leonardo ([node_leonardo.py]) *)

Module Leonardo.
Section node.
Context `{E : Env}.

Record node := MkNode { le_redirection : ExtProc }.

Definition redirection : lens node ExtProc := Lens le_redirection (λ x _, MkNode x).

(** Class attributes; times in milliseconds. *)
Definition TTY : string := "/dev/iotlab/ttyON_LEONARDO".
Definition TTY_PROG : string := "/dev/ttyON_LEONARDO_PROG".
Definition TTY_RESTORE_TIME : Z := 8000 + TTY_DETECT_TIME.
Definition TTY_READY_DELAY : Z := 1000.
Definition AVRDUDE_CONF : AvrConf := MkAvrConf TTY_PROG 9600 "atmega32u4" "avr109".

Definition init : outcome node :=
  sr ← serial_redirection TTY 9600 raw_opts; mret (MkNode sr).

(** [_wait_tty_ready] *)
Definition wait_tty_ready : M node Z :=
  ret ← wait_tty_back TTY;
  p_sleep TTY_READY_DELAY ;;
  mret ret.

Definition flash (firmware_path : option string) (binary : bool) (offset : Z) : M node Z :=
  trig ← trigger_bootloader TTY TTY_PROG 15000;
  if negb (trig =? 0)%Z then mret 1%Z
  else if binary then mret 1%Z
  else if negb (offset =? 0)%Z then mret 1%Z
  else
    fw ← lift (or_idle firmware_path NodeLeonardo);
    ret ← avrdude_flash AVRDUDE_CONF fw;
    ret1 ← wait_tty TTY TTY_RESTORE_TIME;
    mret (ret + ret1)%Z.

Definition setup (firmware_path : option string) : M node Z :=
  ret ← wait_tty_ready;
  ret1 ← flash firmware_path false 0;
  ret2 ← zoom redirection ep_start;
  mret (ret + ret1 + ret2)%Z.

Definition teardown : M node Z :=
  ret ← wait_tty_ready;
  ret1 ← zoom redirection ep_stop;
  ret2 ← flash None false 0;
  mret (ret + ret1 + ret2)%Z.

(** The default [timeout] of [trigger_bootloader] is 10 s. *)
Definition reset : M node Z :=
  ret ← trigger_bootloader TTY TTY_PROG 10000;
  ret1 ← wait_tty TTY TTY_RESTORE_TIME;
  mret (ret + ret1)%Z.

#[global] Instance ops : OpenNodeOps node := {|
  on_class := λ _, NodeLeonardo; on_setup := setup; on_teardown := teardown;
  on_flash := flash; on_reset := reset;
  on_debug_start := raise AttributeError; on_debug_stop := raise AttributeError;
  on_status := mret 0%Z;
  on_redirection_stop := zoom redirection ep_stop;
  on_setup_nodebug := λ _, raise TypeError; on_wait_booted := λ _, raise AttributeError
|}.
End node.
End Leonardo.

(** ** Zigduino ([node_zigduino.py]) *)

Module Zigduino.
Section node.
Context `{E : Env}.

Record node := MkNode { zi_redirection : ExtProc }.

Definition redirection : lens node ExtProc := Lens zi_redirection (λ x _, MkNode x).

Definition TTY : string := "/dev/iotlab/ttyON_ZIGDUINO".
Definition BAUDRATE : Z := 57600.
Definition AVRDUDE_CONF : AvrConf := MkAvrConf TTY 57600 "atmega128rfa1" "arduino".

Definition init : outcome node :=
  sr ← serial_redirection TTY BAUDRATE raw_opts; mret (MkNode sr).

Definition disable_dtr : M node Z :=
  with_serial TTY BAUDRATE (
    p_open TTY "r" ;;
    p_emit EvDisableHUPCL ;;
    mret 0%Z).

Definition do_flash (firmware_path : option string) (binary : bool) (offset : Z)
    (redirect : bool) : M node Z :=
  if binary then mret 1%Z
  else if negb (offset =? 0)%Z then mret 1%Z
  else
    fw ← lift (or_idle firmware_path NodeZigduino);
    ret ← wait_tty_back TTY;
    ret1 ← (if redirect then zoom redirection ep_stop else mret 0%Z);
    ret2 ← avrdude_flash AVRDUDE_CONF fw;
    ret3 ← wait_tty TTY 10000;
    ret4 ← (if redirect then r ← disable_dtr; r' ← zoom redirection ep_start; mret (r + r')%Z
            else mret 0%Z);
    mret (ret + ret1 + ret2 + ret3 + ret4)%Z.

Definition setup (firmware_path : option string) : M node Z :=
  ret ← wait_tty_back TTY;
  ret1 ← do_flash firmware_path false 0 false;
  ret2 ← disable_dtr;
  ret3 ← zoom redirection ep_start;
  mret (ret + ret1 + ret2 + ret3)%Z.

Definition teardown : M node Z :=
  ret ← wait_tty_back TTY;
  ret1 ← zoom redirection ep_stop;
  ret2 ← wait_tty TTY 10000;
  ret3 ← do_flash None false 0 false;
  mret (ret + ret1 + ret2 + ret3)%Z.

Definition flash (firmware_path : option string) (binary : bool) (offset : Z) : M node Z :=
  do_flash firmware_path binary offset true.

(** [ser.setDTR(b)] *)
Definition set_dtr (b : bool) : M node unit :=
  ok ← ask (EvSetDTR b) env_dtr;
  if ok : bool then mret tt else raise (OSError 5).

Definition reset : M node Z :=
  with_serial TTY BAUDRATE (
    try_except (
      set_dtr false ;;
      p_sleep 500 ;;
      set_dtr true ;;
      p_sleep 500 ;;
      p_emit EvSerialClose
    ) (λ e, if is_OSError e then Some (mret tt) else None) ;;
    wait_tty TTY 10000).

#[global] Instance ops : OpenNodeOps node := {|
  on_class := λ _, NodeZigduino; on_setup := setup; on_teardown := teardown;
  on_flash := flash; on_reset := reset;
  on_debug_start := raise AttributeError; on_debug_stop := raise AttributeError;
  on_status := mret 0%Z;
  on_redirection_stop := zoom redirection ep_stop;
  on_setup_nodebug := λ _, raise TypeError; on_wait_booted := λ _, raise AttributeError
|}.
End node.
End Zigduino.

(** ** Firefly ([node_firefly.py]) *)

Module Firefly.
Section node.
Context `{E : Env}.

Record node := MkNode { ff_redirection : ExtProc }.

Definition redirection : lens node ExtProc := Lens ff_redirection (λ x _, MkNode x).

Definition TTY : string := "/dev/iotlab/ttyON_FIREFLY".
Definition PROGRAM_BAUDRATE : Z := 460800.

Definition init : outcome node :=
  sr ← serial_redirection TTY 115200 raw_opts; mret (MkNode sr).

Definition do_flash (firmware_path : option string) (toggle_redirect : bool) : M node Z :=
  fw ← lift (or_idle firmware_path NodeFirefly);
  ret ← (if toggle_redirect then zoom redirection ep_stop else mret 0%Z);
  ret1 ← cc2538_flash TTY PROGRAM_BAUDRATE fw;
  ret2 ← (if toggle_redirect then zoom redirection ep_start else mret 0%Z);
  mret (ret + ret1 + ret2)%Z.

Definition setup (firmware_path : option string) : M node Z :=
  ret ← wait_tty_back TTY;
  ret1 ← do_flash firmware_path false;
  ret2 ← zoom redirection ep_start;
  mret (ret + ret1 + ret2)%Z.

Definition teardown : M node Z :=
  ret ← wait_tty_back TTY;
  ret1 ← zoom redirection ep_stop;
  ret2 ← do_flash None false;
  mret (ret + ret1 + ret2)%Z.

Definition flash (firmware_path : option string) (binary : bool) (offset : Z) : M node Z :=
  if binary then mret 1%Z
  else if negb (offset =? 0)%Z then mret 1%Z
  else do_flash firmware_path true.

Definition reset : M node Z := cc2538_reset TTY.

#[global] Instance ops : OpenNodeOps node := {|
  on_class := λ _, NodeFirefly; on_setup := setup; on_teardown := teardown;
  on_flash := flash; on_reset := reset;
  on_debug_start := raise AttributeError; on_debug_stop := raise AttributeError;
  on_status := mret 0%Z;
  on_redirection_stop := zoom redirection ep_stop;
  on_setup_nodebug := λ _, raise TypeError; on_wait_booted := λ _, raise AttributeError
|}.
End node.
End Firefly.

(** ** Pycom ([node_pycom.py]) *)

Module Pycom.
Section node.
Context `{E : Env}.

(** [py_reboot]: the order in which Python iterates over the set
    [PYCOM_SAFE_REBOOT_SEQUENCE]. *)
Record node := MkNode { py_redirection : ExtProc; py_reboot : list string }.

Definition redirection : lens node ExtProc :=
  Lens py_redirection (λ x n, MkNode x (py_reboot n)).

Definition crlf : string := String "013"%char (String "010"%char "").
Definition PYCOM_SAFE_REBOOT_SEQUENCE : list string :=
  [String "003"%char crlf; String "006"%char crlf].
Definition PYCOM_FLASH_ERASE_SEQUENCE : list string :=
  ["import os" +:+ crlf; "os.mkfs('/flash')" +:+ crlf].
Definition PYCOM_RESET_SEQUENCE : list string :=
  ["import machine" +:+ crlf; "machine.reset()" +:+ crlf].

Definition TTY : string := "/dev/iotlab/ttyON_PYCOM".
Definition BAUDRATE : Z := 115200.

Definition init (order : list string) : outcome node :=
  sr ← serial_redirection TTY BAUDRATE ["echo=0"; "raw"; "crnl"];
  mret (MkNode sr order).

(** [_send_sequence(sequence, delay)] *)
Definition send_sequence (sequence : list string) (delay : option Z) : M node Z :=
  with_serial TTY BAUDRATE (
    for_each sequence (λ command,
      p_emit (EvSerialWrite command) ;;
      match delay with Some d => p_sleep d | None => mret tt end) ;;
    p_emit EvSerialClose ;;
    mret 0%Z).

Definition reset : M node Z := send_sequence PYCOM_RESET_SEQUENCE None.

Definition setup (firmware_path : option string) : M node Z :=
  order ← gets py_reboot;
  ret ← wait_tty TTY 10000;
  ret1 ← send_sequence order (Some 2000%Z);
  ret2 ← send_sequence PYCOM_FLASH_ERASE_SEQUENCE None;
  ret3 ← reset;
  ret4 ← zoom redirection ep_start;
  mret (ret + ret1 + ret2 + ret3 + ret4)%Z.

Definition teardown : M node Z :=
  order ← gets py_reboot;
  ret ← send_sequence order (Some 2000%Z);
  ret1 ← send_sequence PYCOM_FLASH_ERASE_SEQUENCE None;
  ret2 ← zoom redirection ep_stop;
  mret (ret + ret1 + ret2)%Z.

(** [flash] and [status] are those of [NodeNoBase]. *)
#[global] Instance ops : OpenNodeOps node := {|
  on_class := λ _, NodePycom; on_setup := setup; on_teardown := teardown;
  on_flash := λ _ _ _, mret 0%Z; on_reset := reset;
  on_debug_start := raise AttributeError; on_debug_stop := raise AttributeError;
  on_status := mret 0%Z;
  on_redirection_stop := zoom redirection ep_stop;
  on_setup_nodebug := λ _, raise TypeError; on_wait_booted := λ _, raise AttributeError
|}.
End node.
End Pycom.

(** ** Linux nodes A8 and RPi3 ([node_a8.py], [node_rpi3.py]) *)

Module LinuxNode.
Section node.
Context `{E : Env}.

Record node := MkNode {
  li_class : pyclass;
  li_redirection : ExtProc;
  li_expect : bool               (* self._a8_expect, self._rpi3_expect is set *)
}.

Definition redirection : lens node ExtProc :=
  Lens li_redirection (λ x n, MkNode (li_class n) x (li_expect n)).
Definition set_expect (b : bool) (n : node) : node :=
  MkNode (li_class n) (li_redirection n) b.

Definition init (c : pyclass) : outcome node :=
  tty ← self_str c "TTY";
  baudrate ← self_int c "BAUDRATE";
  sr ← serial_redirection tty baudrate raw_opts;
  mret (MkNode c sr false).

(** [A8_TTY_DETECT_TIME], [RPI3_TTY_DETECT_TIME]: 20 s *)
Definition DETECT_TIME : Z := 20000.

(** [setup(_firmware, debug=True)]; the boot monitor is another thread *)
Definition do_setup (debug : bool) (firmware : option string) : M node Z :=
  n ← get;
  tty ← lift (self_str (li_class n) "TTY");
  wait_no_tty tty TTY_DETECT_TIME ;;
  ret ← wait_tty tty DETECT_TIME;
  ret1 ← zoom redirection ep_start;
  (if (ret + ret1 =? 0)%Z && debug then p_emit EvBootThread else mret tt) ;;
  mret (ret + ret1)%Z.

Definition setup : option string → M node Z := do_setup true.

(** [_debug_boot_stop] *)
Definition debug_boot_stop : M node Z :=
  n ← get;
  (if li_expect n then expect_close else mret tt) ;;
  mret 0%Z.

Definition teardown : M node Z :=
  ret ← zoom redirection ep_stop;
  ret1 ← debug_boot_stop;
  mret (ret + ret1)%Z.

(** [wait_booted(timeout)], the target of the boot monitor: the text found, empty
    on a timeout or when the link cannot be used *)
Definition wait_booted (search : string → option string) (fuel : nat) (timeout : Z)
    : M node string :=
  p_time ;;
  try_finally (
    try_except (
      expect_socket ;;
      modify (set_expect true) ;;
      expect search fuel " login: " (Some timeout)
    ) (λ e, match e with OSError _ | SerialException => Some (mret "") | _ => None end)
  ) (p_time ;; debug_boot_stop ;; mret tt).

#[global] Instance ops : OpenNodeOps node := {|
  on_class := li_class; on_setup := setup; on_teardown := teardown;
  on_flash := λ _ _ _, raise AttributeError; on_reset := raise AttributeError;
  on_debug_start := raise AttributeError; on_debug_stop := raise AttributeError;
  on_status := mret 0%Z;
  on_redirection_stop := zoom redirection ep_stop; on_setup_nodebug := do_setup false;
  on_wait_booted := λ timeout,
    wait_booted (literal " login: ") (S (Z.to_nat timeout)) timeout
|}.
End node.
End LinuxNode.

(** ** RTL-SDR ([node_rtl_sdr.py]) *)

(** [subprocess.call(shlex.split(YKUSHCMD.format(...)))] *)
Definition ykushcmd `{Env} {St} (model cmd port : string) : M St Z :=
  args ← lift (shlex_split ("sudo ykushcmd " +:+ model +:+ " " +:+ cmd +:+ " " +:+ port));
  p_call args None.

Module RtlSdr.
Section node.
Context `{E : Env}.

Record node := MkNode { rs_tcp : ExtProc }.

Definition tcp : lens node ExtProc := Lens rs_tcp (λ x _, MkNode x).

Definition init : outcome node := p ← rtl_tcp 50000 868000000; mret (MkNode p).

Definition setup (firmware_path : option string) : M node Z :=
  ret ← ykushcmd "" "-u" "3";
  ret1 ← zoom tcp ep_start;
  mret (ret + ret1)%Z.

Definition teardown : M node Z :=
  ret ← zoom tcp ep_stop;
  ret1 ← ykushcmd "" "-d" "3";
  mret (ret + ret1)%Z.

#[global] Instance ops : OpenNodeOps node := {|
  on_class := λ _, NodeRtlSdr; on_setup := setup; on_teardown := teardown;
  on_flash := λ _ _ _, mret 0%Z; on_reset := mret 0%Z;
  on_debug_start := raise AttributeError; on_debug_stop := raise AttributeError;
  on_status := mret 0%Z;
  on_redirection_stop := raise AttributeError;
  on_setup_nodebug := λ _, raise TypeError; on_wait_booted := λ _, raise AttributeError
|}.
End node.
End RtlSdr.

(** ** LoRa gateway ([node_lora_gateway.py]) *)

Module LoraGateway.
Section node.
Context `{E : Env}.

Record node := MkNode { lo_mosquitto : ExtProc; lo_bridge : ExtProc }.

Definition mosquitto_lens : lens node ExtProc :=
  Lens lo_mosquitto (λ x n, MkNode x (lo_bridge n)).
Definition bridge_lens : lens node ExtProc :=
  Lens lo_bridge (λ x n, MkNode (lo_mosquitto n) x).

Definition LORA_PKT_FORWARDER_MAX_TRIES : nat := 50.

(** [_lora_pkt_fwd_pid() is not None]: [pgrep] found the forwarder *)
Definition lora_pkt_fwd_pid {St} : M St bool :=
  r ← ask (EvCheckOutput ["pgrep"; "lora_pkt_fwd"])
        (λ t, env_call t ["pgrep"; "lora_pkt_fwd"]);
  match r with
  | CallRet code => mret (code =? 0)%Z           (* CalledProcessError: None *)
  | CallTimeout => mret false
  | CallOSError n => raise (OSError n)
  end.

Definition START_CMD : list string :=
  ["sudo"; "CFG_DIR=/var/local/config"; "/opt/lora/start.sh"].

(** The loop of [_start_lora_pkt_fwd]: [tries] more attempts *)
Fixpoint start_loop {St} (tries : nat) (running : bool) : M St bool :=
  match tries with
  | O => mret running
  | S tries =>
      if running then mret true
      else
        err ← ask (EvPopen START_CMD) (λ t, env_popen t START_CMD);
        match err with
        | Some n => raise (OSError n)
        | None =>
            p_sleep 2000 ;;
            pid ← lora_pkt_fwd_pid;
            start_loop tries pid
        end
  end.

Definition start_lora_pkt_fwd {St} : M St bool :=
  pid ← lora_pkt_fwd_pid;
  start_loop (S LORA_PKT_FORWARDER_MAX_TRIES) pid.

Definition init {St} : M St node :=
  p_open "/dev/null" "w" ;;
  start_lora_pkt_fwd ;;
  m ← lift (mosquitto 1883);
  b ← lora_gateway_bridge;
  mret (MkNode m b).

Definition setup (firmware_path : option string) : M node Z :=
  ret ← zoom mosquitto_lens ep_start;
  ret1 ← zoom bridge_lens ep_start;
  mret (ret + ret1)%Z.

Definition teardown : M node Z :=
  ret ← zoom bridge_lens ep_stop;
  ret1 ← zoom mosquitto_lens ep_stop;
  mret (ret + ret1)%Z.

#[global] Instance ops : OpenNodeOps node := {|
  on_class := λ _, NodeLoraGateway; on_setup := setup; on_teardown := teardown;
  on_flash := λ _ _ _, mret 0%Z; on_reset := mret 0%Z;
  on_debug_start := raise AttributeError; on_debug_stop := raise AttributeError;
  on_status := mret 0%Z;
  on_redirection_stop := raise AttributeError;
  on_setup_nodebug := λ _, raise TypeError; on_wait_booted := λ _, raise AttributeError
|}.
End node.
End LoraGateway.

(** ** Laws of the interface *)

Section shared_facts.
Context `{E : Env} {St : Type}.

Lemma wait_tty_back_nonneg tty : returns (λ r, 0 ≤ r)%Z (wait_tty_back tty : M St Z).
Proof. apply returns_then, wait_tty_status. Qed.

Lemma with_serial_nonneg tty baudrate (body : M St Z) :
  returns (λ r, 0 ≤ r)%Z body → returns (λ r, 0 ≤ r)%Z (with_serial tty baudrate body).
Proof. intros Hb. unfold with_serial. nonneg. Qed.

Lemma ykushcmd_nonneg `{!StatusOk} model cmd port :
  returns (λ r, 0 ≤ r)%Z (ykushcmd model cmd port : M St Z).
Proof. unfold ykushcmd. nonneg. Qed.

Lemma preserves_wait_tty (I : St → Prop) tty timeout : preserves I (wait_tty tty timeout).
Proof.
  unfold wait_tty, wait_cond. preserve. apply preserves_wait_loop. unfold p_exists. preserve.
Qed.

Lemma preserves_wait_no_tty (I : St → Prop) tty timeout : preserves I (wait_no_tty tty timeout).
Proof.
  unfold wait_no_tty, wait_cond. preserve. apply preserves_wait_loop. unfold p_exists. preserve.
Qed.

Lemma preserves_with_serial (I : St → Prop) tty baudrate (body : M St Z) :
  preserves I body → preserves I (with_serial tty baudrate body).
Proof. intros Hb. unfold with_serial, p_serial. preserve. Qed.

Lemma preserves_run_cmd (I : St → Prop) cmd timeout : preserves I (run_cmd cmd timeout).
Proof. unfold run_cmd, p_call. preserve. Qed.

Lemma preserves_abspath (I : St → Prop) path : preserves I (abspath path).
Proof. unfold abspath, p_open. preserve. Qed.
End shared_facts.

#[export] Hint Resolve wait_tty_back_nonneg with_serial_nonneg ykushcmd_nonneg : nonneg.
#[export] Hint Resolve preserves_wait_tty preserves_wait_no_tty preserves_with_serial
  preserves_run_cmd preserves_abspath : preserve.

Section programmer_facts.
Context `{E : Env} {St : Type}.

Lemma preserves_edbg_flash (I : St → Prop) fw binary offset :
  preserves I (edbg_flash fw binary offset).
Proof. unfold edbg_flash, io_error_is_1, p_tempfile, p_emit. preserve. Qed.

Lemma preserves_avrdude_flash (I : St → Prop) c fw : preserves I (avrdude_flash c fw).
Proof. unfold avrdude_flash, io_error_is_1. preserve. Qed.

Lemma preserves_trigger_bootloader (I : St → Prop) tty prog timeout :
  preserves I (trigger_bootloader tty prog timeout).
Proof. unfold trigger_bootloader, p_serial, p_emit. preserve. Qed.

Lemma preserves_cc2538_flash (I : St → Prop) port baudrate fw :
  preserves I (cc2538_flash port baudrate fw).
Proof. unfold cc2538_flash, cc2538_call, io_error_is_1, p_tempfile, p_emit, get_elf_load_addr. preserve. Qed.
End programmer_facts.

#[export] Hint Resolve preserves_edbg_flash preserves_avrdude_flash
  preserves_trigger_bootloader preserves_cc2538_flash : preserve.

(** The class is not assigned by any operation. *)
Ltac keeps_class :=
  intros c; split_and!; intros; simpl; preserve; intros; simpl in *; by subst.

Ltac laws :=
  split; simpl; [intros ??|intros ?|intros ????|intros ?|intros ?|intros ?| | |intros ?|];
  try codes.

Section openocd_node.
Context `{E : Env}.

Lemma clear_serial_nonneg : returns (λ r, 0 ≤ r)%Z OpenOCDNode.clear_serial.
Proof. unfold OpenOCDNode.clear_serial. codes. Qed.

Hint Resolve clear_serial_nonneg : nonneg.

Lemma openocd_node_flash_nonneg `{!StatusOk} fw binary offset :
  returns (λ r, 0 ≤ r)%Z (OpenOCDNode.flash fw binary offset).
Proof. unfold OpenOCDNode.flash. codes. Qed.

Hint Resolve openocd_node_flash_nonneg : nonneg.

Lemma preserves_clear_serial (I : OpenOCDNode.node → Prop) : preserves I OpenOCDNode.clear_serial.
Proof. unfold OpenOCDNode.clear_serial, p_emit. preserve. Qed.

Hint Resolve preserves_clear_serial : preserve.

#[global] Instance openocd_node_laws : OpenNodeLaws OpenOCDNode.node.
Proof.
  laws.
  - unfold OpenOCDNode.setup. codes.
  - unfold OpenOCDNode.teardown, OpenOCDNode.debug_stop. codes.
  - unfold OpenOCDNode.reset. codes.
  - unfold OpenOCDNode.debug_start. codes.
  - unfold OpenOCDNode.debug_stop. codes.
  - unfold OpenOCDNode.node_status. codes.
  - intros c. unfold OpenOCDNode.setup, OpenOCDNode.teardown, OpenOCDNode.reset, OpenOCDNode.debug_start,
      OpenOCDNode.debug_stop, OpenOCDNode.node_status, OpenOCDNode.flash, wait_tty_back.
    split_and!; intros; preserve.
Qed.
End openocd_node.

#[export] Hint Resolve clear_serial_nonneg openocd_node_flash_nonneg : nonneg.
#[export] Hint Resolve preserves_clear_serial : preserve.

Section edbg_node.
Context `{E : Env}.

Lemma edbg_node_flash_nonneg `{!StatusOk} fw binary offset :
  returns (λ r, 0 ≤ r)%Z (EdbgNode.flash fw binary offset).
Proof. unfold EdbgNode.flash. codes. Qed.

Lemma edbg_debug_stop_nonneg : returns (λ r, 0 ≤ r)%Z EdbgNode.debug_stop.
Proof. unfold EdbgNode.debug_stop. codes. Qed.

Hint Resolve edbg_node_flash_nonneg edbg_debug_stop_nonneg : nonneg.

#[global] Instance edbg_node_laws : OpenNodeLaws EdbgNode.node.
Proof.
  laws.
  - unfold EdbgNode.setup. codes.
  - unfold EdbgNode.teardown. codes.
  - unfold EdbgNode.reset. codes.
  - unfold EdbgNode.debug_start. codes.
  - intros c. unfold EdbgNode.setup, EdbgNode.teardown, EdbgNode.reset, EdbgNode.debug_start,
      EdbgNode.debug_stop, EdbgNode.flash, wait_tty_back.
    split_and!; intros; preserve.
Qed.
End edbg_node.

Section small_nodes.
Context `{E : Env}.

Lemma leonardo_flash_nonneg `{!StatusOk} fw binary offset :
  returns (λ r, 0 ≤ r)%Z (Leonardo.flash fw binary offset).
Proof. unfold Leonardo.flash. codes. Qed.

Lemma leonardo_ready_nonneg : returns (λ r, 0 ≤ r)%Z Leonardo.wait_tty_ready.
Proof. unfold Leonardo.wait_tty_ready. codes. Qed.

Lemma disable_dtr_nonneg : returns (λ r, 0 ≤ r)%Z Zigduino.disable_dtr.
Proof. unfold Zigduino.disable_dtr. codes. Qed.

Hint Resolve leonardo_flash_nonneg leonardo_ready_nonneg disable_dtr_nonneg : nonneg.

Lemma zigduino_flash_nonneg `{!StatusOk} fw binary offset redirect :
  returns (λ r, 0 ≤ r)%Z (Zigduino.do_flash fw binary offset redirect).
Proof. unfold Zigduino.do_flash. codes. Qed.

Lemma firefly_flash_nonneg `{!StatusOk} fw toggle :
  returns (λ r, 0 ≤ r)%Z (Firefly.do_flash fw toggle).
Proof. unfold Firefly.do_flash. codes. Qed.

Lemma send_sequence_nonneg sequence delay :
  returns (λ r, 0 ≤ r)%Z (Pycom.send_sequence sequence delay).
Proof. unfold Pycom.send_sequence. codes. Qed.

Hint Resolve zigduino_flash_nonneg firefly_flash_nonneg send_sequence_nonneg : nonneg.

#[global] Instance leonardo_laws : OpenNodeLaws Leonardo.node.
Proof.
  laws.
  - unfold Leonardo.setup. codes.
  - unfold Leonardo.teardown. codes.
  - unfold Leonardo.reset. codes.
  - intros c. split_and!; intros; intros s t ?; unfold wp; by repeat case_match.
Qed.

#[global] Instance zigduino_laws : OpenNodeLaws Zigduino.node.
Proof.
  laws.
  - unfold Zigduino.setup. codes.
  - unfold Zigduino.teardown. codes.
  - unfold Zigduino.flash. codes.
  - unfold Zigduino.reset. codes.
  - intros c. split_and!; intros; intros s t ?; unfold wp; by repeat case_match.
Qed.

#[global] Instance firefly_laws : OpenNodeLaws Firefly.node.
Proof.
  laws.
  - unfold Firefly.setup. codes.
  - unfold Firefly.teardown. codes.
  - unfold Firefly.flash. codes.
  - unfold Firefly.reset. codes.
  - intros c. split_and!; intros; intros s t ?; unfold wp; by repeat case_match.
Qed.

#[global] Instance pycom_laws : OpenNodeLaws Pycom.node.
Proof.
  laws.
  - unfold Pycom.setup, Pycom.reset. codes.
  - unfold Pycom.teardown. codes.
  - unfold Pycom.reset. codes.
  - intros c. split_and!; intros; intros s t ?; unfold wp; by repeat case_match.
Qed.

#[global] Instance linux_laws : OpenNodeLaws LinuxNode.node.
Proof.
  laws.
  - unfold LinuxNode.setup, LinuxNode.do_setup. codes.
  - unfold LinuxNode.teardown, LinuxNode.debug_boot_stop. codes.
  - unfold LinuxNode.do_setup. codes.
  - intros c. unfold LinuxNode.setup, LinuxNode.do_setup, LinuxNode.teardown, LinuxNode.debug_boot_stop,
      expect_close, p_emit, p_sleep. split_and!; intros; preserve.
Qed.

#[global] Instance rtl_sdr_laws : OpenNodeLaws RtlSdr.node.
Proof.
  laws.
  - unfold RtlSdr.setup. codes.
  - unfold RtlSdr.teardown. codes.
  - intros c. split_and!; intros; intros s t ?; unfold wp; by repeat case_match.
Qed.

#[global] Instance lora_gateway_laws : OpenNodeLaws LoraGateway.node.
Proof.
  laws.
  - unfold LoraGateway.setup. codes.
  - unfold LoraGateway.teardown. codes.
  - intros c. split_and!; intros; intros s t ?; unfold wp; by repeat case_match.
Qed.
End small_nodes.

(** ** The redirection through a life cycle *)

Section lifecycle.
Context `{E : Env}.

Lemma ep_start_Val p t r p' t' :
  ep_start p t = (Val r, p', t') → ep_used p = false ∧ ep_used p' = true.
Proof.
  unfold ep_start. intros H. inv_run. destruct (ep_used _) eqn:Hu; inv_run.
  unfold ask in *. by simplify_eq.
Qed.

Lemma ep_stop_Val p t r p' t' :
  ep_stop p t = (Val r, p', t') → r = 0%Z ∧ ep_used p' = false.
Proof.
  unfold ep_stop. intros H. inv_run. destruct (ep_used _) eqn:Hu; inv_run; [|done].
  unfold ask in *. simplify_eq. case_match; by inv_run.
Qed.

(** [flash] touches neither the redirection nor the class. *)
Lemma openocd_flash_keeps fw binary offset x :
  preserves (λ n, OpenOCDNode.nd_redirection n = x) (OpenOCDNode.flash fw binary offset).
Proof. unfold OpenOCDNode.flash. preserve. Qed.

Lemma openocd_flash_debug fw binary offset b :
  preserves (λ o, oo_debug o = b) (openocd_flash fw binary offset).
Proof. unfold openocd_flash, io_error_is_1, openocd_call. preserve. Qed.

Lemma openocd_debug_stop_off o t :
  ∃ r, openocd_debug_stop o t =
    (Val r, set_oo_debug false o, if oo_debug o then t ++ [EvTerminate] else t).
Proof.
  unfold openocd_debug_stop, try_finally, mbind, M_bind, get, ask, modify; simpl.
  destruct (oo_debug o); simpl; [|eauto]. destruct (env_terminate _); simpl; eauto.
Qed.
End lifecycle.

Section lifecycle_facts.
Context `{E : Env}.

Lemma wait_tty_back_state {St} tty (s : St) t o s' t' :
  wait_tty_back tty s t = (o, s', t') → s' = s.
Proof. apply stateless_run. unfold wait_tty_back. preserve. Qed.

Lemma openocd_setup_used fw n t r n' t' :
  OpenOCDNode.setup fw n t = (Val r, n', t') →
  ep_used (OpenOCDNode.nd_redirection n) = false ∧
  ep_used (OpenOCDNode.nd_redirection n') = true.
Proof.
  unfold OpenOCDNode.setup. intros H. inv_run.
  repeat match goal with
  | R : wait_tty_back _ _ _ = _ |- _ => apply wait_tty_back_state in R as ->
  | R : OpenOCDNode.flash _ _ _ _ _ = _ |- _ =>
      pose proof (preserves_run _ _ _ _ _ _ _ (openocd_flash_keeps _ _ _ _) R eq_refl); clear R
  | R : ep_start _ _ = _ |- _ => apply ep_start_Val in R as [? ?]
  end.
  simpl in *. split; [congruence|done].
Qed.

Lemma openocd_node_flash_off fw binary offset :
  preserves (λ n, oo_debug (OpenOCDNode.nd_openocd n) = false)
    (OpenOCDNode.flash fw binary offset).
Proof.
  unfold OpenOCDNode.flash. apply preserves_bind; [preserve|intros n].
  do 2 (apply preserves_bind; [preserve|intros ?]).
  apply preserves_bind; [|intros ?; preserve]. intros m u Hm. apply wp_zoom. simpl.
  exact (openocd_flash_debug _ _ _ _ _ u Hm).
Qed.

Lemma openocd_teardown_off n t r n' t' :
  OpenOCDNode.teardown n t = (Val r, n', t') →
  ep_used (OpenOCDNode.nd_redirection n') = false ∧
  oo_debug (OpenOCDNode.nd_openocd n') = false.
Proof.
  unfold OpenOCDNode.teardown, OpenOCDNode.debug_stop. intros H. inv_run.
  repeat match goal with
  | R : ep_stop _ _ = _ |- _ => apply ep_stop_Val in R as [_ ?]
  | R : openocd_debug_stop ?o ?u = _ |- _ =>
      let H := fresh in destruct (openocd_debug_stop_off o u) as [? H]; rewrite H in R;
      injection R as <- <- <-
  | R : OpenOCDNode.flash _ _ _ ?m _ = _ |- _ =>
      pose proof (preserves_run _ _ _ _ _ _ _ (openocd_flash_keeps _ _ _ _) R eq_refl);
      apply (preserves_run _ _ _ _ _ _ _ (openocd_node_flash_off _ _ _)) in R; [|done]
  end.
  simpl in *. split; congruence.
Qed.
End lifecycle_facts.

(** ** Properties *)

(** The life cycle of a node programmed by OpenOCD.  A [setup] that returns
    found the serial redirection not started and leaves it started; a [teardown]
    that returns leaves it stopped, so that the next [setup] can start it, and the
    debugger off; [flash] does not touch it. *)
Theorem openocd_node_lifecycle `{Env} (n : OpenOCDNode.node) (t : trace) :
  (∀ fw r n' t', OpenOCDNode.setup fw n t = (Val r, n', t') →
     ep_used (OpenOCDNode.nd_redirection n) = false ∧
     ep_used (OpenOCDNode.nd_redirection n') = true) ∧
  (∀ r n' t', OpenOCDNode.teardown n t = (Val r, n', t') →
     ep_used (OpenOCDNode.nd_redirection n') = false ∧
     oo_debug (OpenOCDNode.nd_openocd n') = false) ∧
  (∀ fw binary offset x,
     preserves (λ n, OpenOCDNode.nd_redirection n = x) (OpenOCDNode.flash fw binary offset)).
Proof.
  split_and!; intros.
  - by eapply openocd_setup_used.
  - by eapply openocd_teardown_off.
  - apply openocd_flash_keeps.
Qed.

(** No failing step of [setup] is hidden.  If no command ends on a signal, a
    [setup] that returns 0 found the tty, flashed the firmware (or the idle one)
    with status 0, and saw the redirection start. *)
Theorem openocd_setup_zero `{Env} `{!StatusOk} (fw : option string)
    (n n' : OpenOCDNode.node) (t t' : trace)
    (Hrun : OpenOCDNode.setup fw n t = (Val 0%Z, n', t')) :
  ∃ tty t1 n2 t2,
    self_str (OpenOCDNode.nd_class n) "TTY" = Val tty ∧
    wait_tty_back tty n t = (Val 0%Z, n, t1) ∧
    OpenOCDNode.flash fw false 0 n t1 = (Val 0%Z, n2, t2) ∧
    zoom OpenOCDNode.redirection ep_start n2 t2 = (Val 0%Z, n', t').
Proof.
  unfold OpenOCDNode.setup in Hrun.
  apply M_bind_Val in Hrun as (? & ? & ? & [= <- <- <-] & Hrun).
  apply M_bind_Val in Hrun as (tty & ? & ? & [= Htty <- <-] & Hrun).
  apply M_bind_Val in Hrun as (r1 & n1 & t1 & R1 & Hrun).
  apply M_bind_Val in Hrun as (r2 & n2 & t2 & R2 & Hrun).
  apply M_bind_Val in Hrun as (r3 & n3 & t3 & R3 & [= Hsum <- <-]).
  pose proof (returns_run _ _ _ _ _ _ _ (wait_tty_back_nonneg tty) R1) as P1.
  pose proof (returns_run _ _ _ _ _ _ _ (openocd_node_flash_nonneg fw false 0) R2) as P2.
  pose proof (returns_run _ _ _ _ _ _ _ (returns_zoom _ OpenOCDNode.redirection _ ep_start_nonneg) R3)
    as P3.
  cbv beta in *. assert (r1 = 0 ∧ r2 = 0 ∧ r3 = 0)%Z as (-> & -> & ->) by lia.
  pose proof (wait_tty_back_state _ _ _ _ _ _ R1) as ->. by exists tty, t1, n2, t2.
Qed.

(** An M3 node as [NodeM3()] builds it. *)
Definition m3_node : OpenOCDNode.node :=
  match @OpenOCDNode.init calm_env unit (@NodeM3 calm_env) tt [] with
  | (Val n, _, _) => n
  | _ => OpenOCDNode.MkNode NodeBase (MkExtProc "" [] false) (MkOpenOCD "" "" "" false)
  end.

Definition m3_setup : outcome Z * OpenOCDNode.node * trace :=
  @OpenOCDNode.setup calm_env None m3_node [].

Lemma openocd_setup_zero_witness :
  ∃ t1 n2 t2,
    @OpenOCDNode.flash calm_env None false 0 m3_node t1 = (Val 0%Z, n2, t2) ∧
    @zoom _ _ _ OpenOCDNode.redirection (@ep_start calm_env) n2 t2 = m3_setup.
Proof.
  assert (Hrun : @OpenOCDNode.setup calm_env None m3_node [] =
    (Val 0%Z, snd (fst m3_setup), snd m3_setup)) by (vm_compute; reflexivity).
  destruct (@openocd_setup_zero calm_env calm_status None m3_node _ [] _ Hrun)
    as (tty & t1 & n2 & t2 & _ & _ & H2 & H3).
  exists t1, n2, t2. split; [exact H2|]. rewrite H3. symmetry. exact Hrun.
Defined.

(** A world where commands are killed by SIGHUP and the redirection never starts. *)
Definition hup_env : Env :=
  world (λ _ _, CallRet (-1)) (λ _ _, false) calm_reader calm_read calm_sread slept
    calm_connect calm_sock_read calm_output.

(** The status codes are added, and [subprocess.call] gives a negative code
    when a signal kills the command: the setup of an M3 node whose flash was killed
    by signal 1 and whose redirection did not start returns 0, a success. *)
Theorem setup_masks_failures :
  ∃ n' t1 n2 t2,
    fst (fst (@OpenOCDNode.setup hup_env None m3_node [])) = Val 0%Z ∧
    @OpenOCDNode.flash hup_env None false 0 m3_node t1 = (Val (-1)%Z, n2, t2) ∧
    fst (fst (@zoom _ _ _ OpenOCDNode.redirection (@ep_start hup_env) n2 t2)) = Val 1%Z ∧
    snd (fst (@OpenOCDNode.setup hup_env None m3_node [])) = n'.
Proof.
  eexists _, [], _, _. split; [vm_compute; reflexivity|].
  split; [vm_compute; reflexivity|]. split; vm_compute; reflexivity.
Qed.

(** A flash requested outside an experiment leaves the redirection of a
    Zigduino or a Firefly node started, and the [setup] of the next experiment can
    then not return: starting the thread a second time raises. *)
Theorem flash_blocks_setup `{Env} :
  (∀ fw n t r n' t', Zigduino.flash fw false 0 n t = (Val r, n', t') →
     ∀ fw' u r' n'' u', Zigduino.setup fw' n' u ≠ (Val r', n'', u')) ∧
  (∀ fw n t r n' t', Firefly.flash fw false 0 n t = (Val r, n', t') →
     ∀ fw' u r' n'' u', Firefly.setup fw' n' u ≠ (Val r', n'', u')).
Proof.
  split.
  - intros fw n t r n' t' Hf fw' u r' n'' u' Hs.
    assert (Hu : ep_used (Zigduino.zi_redirection n') = true).
    { unfold Zigduino.flash, Zigduino.do_flash in Hf. simpl in Hf. inv_run.
      match goal with R : ep_start _ _ = _ |- _ => by apply ep_start_Val in R as [_ R] end. }
    unfold Zigduino.setup in Hs. inv_run.
    match goal with R : ep_start _ _ = _ |- _ => apply ep_start_Val in R as [R _] end.
    match goal with R : Zigduino.disable_dtr _ _ = _ |- _ =>
      apply stateless_run in R as ->; [|unfold Zigduino.disable_dtr; preserve] end.
    match goal with R : Zigduino.do_flash _ _ _ _ _ _ = _ |- _ =>
      apply stateless_run in R as ->; [|unfold Zigduino.do_flash, wait_tty_back; simpl; preserve] end.
    match goal with R : wait_tty_back _ _ _ = _ |- _ =>
      apply wait_tty_back_state in R as -> end.
    simpl in *. congruence.
  - intros fw n t r n' t' Hf fw' u r' n'' u' Hs.
    assert (Hu : ep_used (Firefly.ff_redirection n') = true).
    { unfold Firefly.flash, Firefly.do_flash in Hf. simpl in Hf. inv_run.
      match goal with R : ep_start _ _ = _ |- _ => by apply ep_start_Val in R as [_ R] end. }
    unfold Firefly.setup in Hs. inv_run.
    match goal with R : ep_start _ _ = _ |- _ => apply ep_start_Val in R as [R _] end.
    match goal with R : Firefly.do_flash _ _ _ _ = _ |- _ =>
      apply stateless_run in R as ->; [|unfold Firefly.do_flash; simpl; preserve] end.
    match goal with R : wait_tty_back _ _ _ = _ |- _ =>
      apply wait_tty_back_state in R as -> end.
    simpl in *. congruence.
Qed.

(** The options a programmer cannot do are refused.  A raw binary or an
    offset is refused with status 1 by the Zigduino and Firefly nodes without
    touching the node; the Leonardo refuses them with status 1 too and never runs
    the programmer, but only after it restarted the node in its bootloader. *)
Theorem unsupported_flash_refused `{Env} (fw : option string) (binary : bool) (offset : Z)
    (Hbad : binary = true ∨ offset ≠ 0%Z) :
  (∀ n t, Zigduino.flash fw binary offset n t = (Val 1%Z, n, t)) ∧
  (∀ n t, Firefly.flash fw binary offset n t = (Val 1%Z, n, t)) ∧
  (∀ n t, Leonardo.flash fw binary offset n t =
     (trigger_bootloader Leonardo.TTY Leonardo.TTY_PROG 15000 ;; mret 1%Z) n t).
Proof.
  assert (Hif : ∀ {A} (x y : A), (if binary then x else if negb (offset =? 0)%Z then x else y) = x).
  { intros A x y. destruct Hbad as [->|Hne]; [done|]. apply Z.eqb_neq in Hne. rewrite Hne.
    by destruct binary. }
  split_and!; intros n t.
  - unfold Zigduino.flash, Zigduino.do_flash. by rewrite Hif.
  - unfold Firefly.flash. by rewrite Hif.
  - unfold Leonardo.flash, mbind, M_bind.
    destruct (trigger_bootloader _ _ _ n t) as [[[r|e|] n'] t']; [|done..].
    destruct (negb (r =? 0)%Z); [done|]. by rewrite Hif.
Qed.

Lemma unsupported_flash_refused_witness :
  @Firefly.flash calm_env None true 0 (Firefly.MkNode (MkExtProc "" [] false)) [] =
  (Val 1%Z, Firefly.MkNode (MkExtProc "" [] false), []).
Proof.
  apply (@unsupported_flash_refused calm_env None true 0 (or_introl eq_refl)).
Defined.

(** Launches of the packet forwarder in a trace. *)
Definition launches (t : trace) : nat :=
  length (filter (λ ev, ev = EvPopen LoraGateway.START_CMD) t).

Lemma launches_app t u : launches (t ++ u) = launches t + launches u.
Proof. unfold launches. by rewrite filter_app, length_app. Qed.

Lemma lora_pid_run `{Env} {St} (s : St) t :
  ∃ o, LoraGateway.lora_pkt_fwd_pid s t =
    (o, s, t ++ [EvCheckOutput ["pgrep"; "lora_pkt_fwd"]]) ∧ o ≠ Hang.
Proof.
  unfold LoraGateway.lora_pkt_fwd_pid, ask, mbind, M_bind, mret, M_ret, raise.
  destruct (env_call _ _); eexists; by split.
Qed.

Lemma start_loop_bound `{Env} {St} tries running (s : St) t :
  ∃ o u, LoraGateway.start_loop tries running s t = (o, s, t ++ u) ∧ o ≠ Hang ∧
    launches u ≤ tries ∧
    (o = Val false → running = false ∧ launches u = tries).
Proof.
  revert running t. induction tries as [|tries IH]; intros running t; simpl.
  { exists (Val running), []. rewrite app_nil_r. split_and!; try done. by intros [= ->]. }
  destruct running.
  { exists (Val true), []. rewrite app_nil_r. split_and!; try done. unfold launches; simpl; lia. }
  unfold mbind, M_bind, ask. destruct (env_popen _ _).
  { eexists _, [_]. split; [done|]. split_and!; try done. unfold launches. rewrite filter_cons.
    case_decide; simpl; lia. }
  unfold p_sleep, ask.
  destruct (lora_pid_run s ((t ++ [EvPopen LoraGateway.START_CMD]) ++ [EvSleep 2000]))
    as (o & -> & Ho).
  set (pre := [EvPopen LoraGateway.START_CMD; EvSleep 2000;
               EvCheckOutput ["pgrep"; "lora_pkt_fwd"]]).
  assert (Hpre : ((t ++ [EvPopen LoraGateway.START_CMD]) ++ [EvSleep 2000]) ++
    [EvCheckOutput ["pgrep"; "lora_pkt_fwd"]] = t ++ pre) by (by rewrite <- !(assoc_L (++))).
  rewrite Hpre. assert (Hl : launches pre = 1) by (vm_compute; reflexivity).
  destruct o as [b|e|]; [|exists (Exn e), pre; rewrite Hl; split_and!; try done; lia|done].
  destruct (IH b (t ++ pre)) as (o & u & -> & Hh & Hle & Hf).
  exists o, (pre ++ u). rewrite <- (assoc_L (++)). rewrite launches_app, Hl.
  split_and!; try done; [lia|]. intros Hv. destruct (Hf Hv) as [_ ?]. split; [done|lia].
Qed.

(** The start of the LoRa packet forwarder.  Whatever [pgrep] and the start
    script do, the constructor's loop ends: it launches the forwarder at most 51
    times, and gives up without the forwarder only after 51 launches. *)
Theorem lora_start_bounded `{Env} {St : Type} (s : St) (t : trace) :
  ∃ o u, LoraGateway.start_lora_pkt_fwd s t = (o, s, t ++ u) ∧ o ≠ Hang ∧
    launches u ≤ 51 ∧ (o = Val false → launches u = 51).
Proof.
  unfold LoraGateway.start_lora_pkt_fwd, mbind, M_bind.
  destruct (lora_pid_run s t) as (o & -> & Ho).
  assert (H0 : launches [EvCheckOutput ["pgrep"; "lora_pkt_fwd"]] = 0) by (vm_compute; reflexivity).
  destruct o as [b|e|]; [|by eexists _, _; split_and!; [..|rewrite H0; lia|]|done].
  destruct (start_loop_bound 51 b s (t ++ [EvCheckOutput ["pgrep"; "lora_pkt_fwd"]]))
    as (o & u & Hs & Hh & Hle & Hf).
  unfold LoraGateway.LORA_PKT_FORWARDER_MAX_TRIES. rewrite Hs, <- (assoc_L (++)).
  eexists o, _. split; [done|]. rewrite launches_app, H0. split_and!; [done|lia|].
  intros Hv. by destruct (Hf Hv) as [_ ->].
Qed.
