(* ===== verification/ControlNodes.v ===== *)
(** * Control nodes ([gateway_code/control_nodes])

    The control node of the IoT-LAB gateways and its M3 variant, which share all
    but the methods the variant redefines; the gateways without control node; and
    the Raspberry Pi one, which only switches the power of the USB port.  Each is
    an instance of the control node interface. *)

From S2P Require Import Prelude PyString Effects PyVal Profile Common Config Protocol.
From S2P Require Import CnInterface Programmers ExternalProcess FtdiCheck Nodes NodeClasses Interfaces OpenNodes.

(** [profile or self.default_profile] *)
Definition or_default (profile default_profile : option Profile) : option Profile :=
  match profile with Some p => Some p | None => default_profile end.

(** [self.profile.power] and the like: [None] has no attribute *)
Definition profile_attr {A} (f : Profile → A) (p : option Profile) : outcome A :=
  match p with Some p => Val (f p) | None => Exn AttributeError end.

(** ** The IoT-LAB control node ([cn_iotlab], [cn_iotlabm3]) *)

Module CnIotlab.
Section node.
Context `{E : Env}.

Record node := MkNode {
  ci_class : pyclass;                     (* ControlNodeIotlab or -Iotlabm3 *)
  ci_node_id : string;
  ci_default_profile : option Profile;
  ci_openocd : OpenOCD;
  ci_serial : CnSerial;                   (* self.cn_serial *)
  ci_open_node_state : string;
  ci_profile : option Profile
}.

Definition openocd : lens node OpenOCD :=
  Lens ci_openocd (λ x n, MkNode (ci_class n) (ci_node_id n) (ci_default_profile n) x
    (ci_serial n) (ci_open_node_state n) (ci_profile n)).
Definition cn_serial : lens node CnSerial :=
  Lens ci_serial (λ x n, MkNode (ci_class n) (ci_node_id n) (ci_default_profile n)
    (ci_openocd n) x (ci_open_node_state n) (ci_profile n)).
Definition set_state (x : string) (n : node) : node :=
  MkNode (ci_class n) (ci_node_id n) (ci_default_profile n) (ci_openocd n) (ci_serial n) x
    (ci_profile n).
Definition set_profile (x : option Profile) (n : node) : node :=
  MkNode (ci_class n) (ci_node_id n) (ci_default_profile n) (ci_openocd n) (ci_serial n)
    (ci_open_node_state n) x.

(** The method comes from [ControlNodeIotlabm3]. *)
Definition from_m3 (n : node) (name : string) : bool :=
  match getattr (ci_class n) name with
  | Some (AMeth owner) => bool_decide (owner = "ControlNodeIotlabm3")
  | _ => false
  end.

Definition init {St} (c : pyclass) (node_id : string) (default_profile : option Profile)
    : M St node :=
  oo ← OpenOCDNode.from_node c;
  tty ← lift (self_str c "TTY");
  mret (MkNode c node_id default_profile oo (cs_init tty) "stop" default_profile).

(** [self.cn_serial.send_command], the sender of [self.protocol] *)
Definition sender (args : list pyval) : M node (option (list string)) :=
  zoom cn_serial (send_command args).

(** [_wait_control_node_ready] *)
Definition wait_control_node_ready : M node unit := p_sleep 2000.

Definition reset : M node Z :=
  ret ← zoom openocd openocd_reset;
  wait_control_node_ready ;;
  mret ret.

(** [flash(firmware_path, binary, offset)]: the last two are not passed on *)
Definition flash (firmware_path : option string) (binary : bool) (offset : Z) : M node Z :=
  n ← get;
  fw ← lift match firmware_path with
            | Some fw => if decide (fw = "") then self_str (ci_class n) "FW_CONTROL_NODE"
                         else Val fw
            | None => self_str (ci_class n) "FW_CONTROL_NODE"
            end;
  ret ← zoom openocd (openocd_flash fw false 0);
  wait_control_node_ready ;;
  mret ret.

Definition setup : M node Z := flash None false 0.

(** [open_start(power)] and [open_stop(power)] *)
Definition open_power (command : string) (power : option pyval) : M node Z :=
  n ← get;
  power ← lift match power with
               | Some p => if truthy p then Val p else profile_attr p_power (ci_profile n)
               | None => profile_attr p_power (ci_profile n)
               end;
  ret ← start_stop sender command power;
  (if (ret =? 0)%Z then modify (set_state command) else mret tt) ;;
  mret ret.

Definition open_start (power : option pyval) : M node Z :=
  n ← get;
  if from_m3 n "open_start" then mret 0%Z else open_power "start" power.

Definition open_stop (power : option pyval) : M node Z :=
  n ← get;
  if from_m3 n "open_stop" then mret 0%Z else open_power "stop" power.

Definition configure_profile (profile : option Profile) : M node Z :=
  n ← get;
  modify (set_profile (or_default profile (ci_default_profile n))) ;;
  n ← get;
  if from_m3 n "configure_profile" then
    radio ← lift (profile_attr p_radio (ci_profile n));
    config_radio sender radio
  else
    power ← lift (profile_attr p_power (ci_profile n));
    ret ← start_stop sender (ci_open_node_state n) power;
    consumption ← lift (profile_attr p_consumption (ci_profile n));
    ret1 ← config_consumption sender consumption;
    radio ← lift (profile_attr p_radio (ci_profile n));
    ret2 ← config_radio sender radio;
    mret (ret + ret1 + ret2)%Z.

Definition start (exp_id : string) (files : option exp_files) : M node Z :=
  ret ← reset;
  n ← get;
  oml_cfg ← lift (oml_xml_config (ci_node_id n) exp_id (default ∅ files));
  ret1 ← zoom cn_serial (cs_start oml_cfg);
  ret2 ← open_start (Some (PStr "dc"));
  mret (ret + ret1 + ret2)%Z.

Definition stop : M node Z :=
  ret ← open_stop (Some (PStr "dc"));
  ret1 ← zoom cn_serial cs_stop;
  ret2 ← reset;
  mret (ret + ret1 + ret2)%Z.

Definition start_experiment (profile : option Profile) : M node Z :=
  n ← get;
  ret ← green_led_blink sender;
  ret1 ← set_time sender;
  ret2 ← set_node_id sender (ci_node_id n);
  ret3 ← configure_profile profile;
  mret (ret + ret1 + ret2 + ret3)%Z.

Definition stop_experiment : M node Z :=
  ret ← configure_profile None;
  ret1 ← open_start (Some (PStr "dc"));
  ret2 ← green_led_on sender;
  mret (ret + ret1 + ret2)%Z.

Definition autotest_setup : M node Z :=
  ret ← reset;
  zoom cn_serial (modify (set_debug true)) ;;
  zoom cn_serial (cs_start None) ;;
  ret1 ← set_time sender;
  mret (ret + ret1)%Z.

Definition autotest_teardown (stop_on : bool) : M node Z :=
  ret ← (if stop_on then open_stop (Some (PStr "dc")) else mret 0%Z);
  zoom cn_serial cs_stop ;;
  mret ret.

Definition node_status : M node Z :=
  n ← get;
  ftdi_check (if from_m3 n "status" then "2232" else "4232") None.

(** A pause of [ms] milliseconds: the reader handles the lines that come. *)
Definition pause (ms : Z) : M node unit :=
  obs ← ask (EvSleep ms) env_reader;
  zoom cn_serial (modify (λ s, fold_left (λ s o, reader_step o s) obs s)).

#[global] Instance ops : ControlNodeOps node := {|
  cn_class := ci_class; cn_node_id := ci_node_id; cn_start := start; cn_stop := stop;
  cn_start_experiment := start_experiment; cn_stop_experiment := stop_experiment;
  cn_configure_profile := configure_profile; cn_open_start := open_start;
  cn_open_stop := open_stop; cn_flash := flash; cn_reset := reset;
  cn_status := node_status; cn_autotest_setup := autotest_setup;
  cn_autotest_teardown := autotest_teardown; cn_sender := sender; cn_pause := pause;
  cn_measures := λ n, cs_measures (ci_serial n)
|}.
End node.
End CnIotlab.

(** ** No control node ([cn_no]) *)

Module CnNo.
Section node.
Context `{E : Env}.

Record node := MkNode {
  cno_node_id : string;
  cno_default_profile : option Profile;
  cno_profile : option Profile
}.

Definition init (node_id : string) (default_profile : option Profile) : node :=
  MkNode node_id default_profile default_profile.

Definition configure_profile (profile : option Profile) : M node Z :=
  modify (λ n, MkNode (cno_node_id n) (cno_default_profile n)
    (or_default profile (cno_default_profile n))) ;;
  mret 0%Z.

(** [start], [stop], [flash], [status] and the autotest methods return 0; there
    is neither [open_start], nor [open_stop], nor [reset]. *)
#[global] Instance ops : ControlNodeOps node := {|
  cn_class := λ _, ControlNodeNo; cn_node_id := cno_node_id;
  cn_start := λ _ _, mret 0%Z; cn_stop := mret 0%Z;
  cn_start_experiment := configure_profile; cn_stop_experiment := configure_profile None;
  cn_configure_profile := configure_profile;
  cn_open_start := λ _, raise AttributeError; cn_open_stop := λ _, raise AttributeError;
  cn_flash := λ _ _ _, mret 0%Z; cn_reset := raise AttributeError; cn_status := mret 0%Z;
  cn_autotest_setup := mret 0%Z; cn_autotest_teardown := λ _, mret 0%Z;
  cn_sender := λ _, raise AttributeError; cn_pause := p_sleep; cn_measures := λ _, []
|}.
End node.
End CnNo.

(** ** Raspberry Pi ([cn_rpi3]) *)

Module CnRpi3.
Section node.
Context `{E : Env}.

Record node := MkNode {
  cr_node_id : string;
  cr_default_profile : option Profile;
  cr_profile : option Profile;
  cr_open_node_state : string;
  cr_streamer : ExtProc                  (* self.mjpg_streamer *)
}.

Definition streamer : lens node ExtProc :=
  Lens cr_streamer (λ x n, MkNode (cr_node_id n) (cr_default_profile n) (cr_profile n)
    (cr_open_node_state n) x).
Definition set_state (x : string) (n : node) : node :=
  MkNode (cr_node_id n) (cr_default_profile n) (cr_profile n) x (cr_streamer n).
Definition set_profile (x : option Profile) (n : node) : node :=
  MkNode (cr_node_id n) (cr_default_profile n) x (cr_open_node_state n) (cr_streamer n).

Definition CAMERA_CONFIG : string := "/var/local/config/camera".

Definition init {St} (node_id : string) (default_profile : option Profile) : M St node :=
  p ← mjpg_streamer 40000;
  mret (MkNode node_id default_profile default_profile "stop" p).

(** [_call_cmd(YKUSHCMD.format( **self._ykush_params(cmd)))] *)
Definition ykush (cmd : string) : M node Z :=
  run_cmd ("sudo ykushcmd " +:+ "ykushxs" +:+ " " +:+ cmd +:+ " ") None.

Definition open_start (power : option pyval) : M node Z :=
  ret ← ykush "-u";
  (if (ret =? 0)%Z then modify (set_state "start") else mret tt) ;;
  mret ret.

Definition open_stop (power : option pyval) : M node Z :=
  ret ← ykush "-d";
  (if (ret =? 0)%Z then modify (set_state "stop") else mret tt) ;;
  mret ret.

Definition start (exp_id : string) (files : option exp_files) : M node Z :=
  open_start (Some (PStr "dc")).

Definition stop : M node Z := open_stop (Some (PStr "dc")).

Definition configure_profile (profile : option Profile) : M node Z :=
  modify (λ n, set_profile (or_default profile (cr_default_profile n)) n) ;;
  mret 0%Z.

Definition start_experiment (profile : option Profile) : M node Z :=
  ret ← configure_profile profile;
  camera ← p_isfile CAMERA_CONFIG;
  ret1 ← (if camera : bool then zoom streamer ep_start else mret 0%Z);
  mret (ret + ret1)%Z.

Definition stop_experiment : M node Z :=
  ret ← configure_profile None;
  ret1 ← open_start (Some (PStr "dc"));
  camera ← p_isfile CAMERA_CONFIG;
  ret2 ← (if camera : bool then zoom streamer ep_stop else mret 0%Z);
  mret (ret + ret1 + ret2)%Z.

#[global] Instance ops : ControlNodeOps node := {|
  cn_class := λ _, ControlNodeRpi3; cn_node_id := cr_node_id;
  cn_start := start; cn_stop := stop;
  cn_start_experiment := start_experiment; cn_stop_experiment := stop_experiment;
  cn_configure_profile := configure_profile;
  cn_open_start := open_start; cn_open_stop := open_stop;
  cn_flash := λ _ _ _, mret 0%Z; cn_reset := raise AttributeError; cn_status := mret 0%Z;
  cn_autotest_setup := mret 0%Z; cn_autotest_teardown := λ _, mret 0%Z;
  cn_sender := λ _, raise AttributeError; cn_pause := p_sleep; cn_measures := λ _, []
|}.
End node.
End CnRpi3.

(** ** Status codes *)

(** The codes the reader thread can report to [start]: 0 or 1. *)
Definition ready_ok (s : CnSerial) : Prop := Forall (λ r, 0 ≤ r)%Z (cs_ready s).

Lemma reader_step_ready_ok o s : ready_ok s → ready_ok (reader_step o s).
Proof.
  unfold ready_ok, reader_step. intros Hs. destruct (cs_reader s); try done.
  destruct o as [line| |]; [|done|destruct (cs_ready s) eqn:Hq; simpl; rewrite ?Hq; [by repeat constructor|done]].
  destruct (decide (line_kind (str_strip line) = "cn_serial_ready")) as [Hk|Hk].
  - rewrite handle_answer_ready by done.
    destruct (cs_ready s) eqn:Hq; simpl; rewrite ?Hq; [by repeat constructor|done].
  - destruct (handle_answer_other _ s s Hk) as [Heq _].
    destruct (handle_answer (str_strip line) s) as [[] s']; simpl in *; by rewrite Heq.
Qed.

Lemma read_until_ready_ok served obs s : ready_ok s → ready_ok (read_until served obs s).
Proof.
  revert s; induction obs as [|o obs IH]; intros s Hs; simpl; case_match; try done.
  by apply IH, reader_step_ready_ok.
Qed.

Section cn_facts.
Context `{E : Env}.

Lemma cs_start_nonneg oml : returns (λ r, 0 ≤ r)%Z (cs_start oml).
Proof.
  intros s t. unfold wp, cs_start, cn_interface_args, p_tempfile, mbind, M_bind, modify, ask, get,
    mret, M_ret, raise, hang.
  destruct oml; simpl; (destruct (env_popen _ _); [done|]); simpl;
    (match goal with |- context [read_until ?f ?o ?x] =>
       pose proof (read_until_ready_ok f o x (Forall_nil_2 _)) as Hok;
       destruct (cs_ready (read_until f o x)) as [|r q] eqn:Hq end; [done|]);
    unfold ready_ok in Hok; rewrite Hq in Hok; by apply Forall_cons in Hok as [? _].
Qed.

Lemma cs_stop_nonneg : returns (λ r, 0 ≤ r)%Z cs_stop.
Proof. unfold cs_stop. codes. Qed.
End cn_facts.

#[export] Hint Resolve cs_start_nonneg cs_stop_nonneg : nonneg.

Section protocol_codes.
Context {St : Type} (sender : list pyval → M St (option (list string))).

Lemma send_cmd_nonneg command args : returns (λ r, 0 ≤ r)%Z (send_cmd sender command args).
Proof. unfold send_cmd. codes. Qed.

Lemma send_words_nonneg words : returns (λ r, 0 ≤ r)%Z (send_words sender words).
Proof. destruct words; [apply returns_raise|apply send_cmd_nonneg]. Qed.

Lemma start_stop_nonneg command alim : returns (λ r, 0 ≤ r)%Z (start_stop sender command alim).
Proof. apply send_cmd_nonneg. Qed.

Lemma set_node_id_nonneg node_id : returns (λ r, 0 ≤ r)%Z (set_node_id sender node_id).
Proof.
  unfold set_node_id. eapply returns_bind; [apply returns_any|]. intros [archi num] _.
  case_bool_decide; [apply send_words_nonneg|by apply returns_ret].
Qed.

Lemma config_consumption_nonneg c : returns (λ r, 0 ≤ r)%Z (config_consumption sender c).
Proof.
  unfold config_consumption. eapply returns_bind; [apply returns_any|].
  intros. apply send_words_nonneg.
Qed.

Lemma config_radio_nonneg r : returns (λ r, 0 ≤ r)%Z (config_radio sender r).
Proof. apply send_words_nonneg. Qed.
End protocol_codes.

#[export] Hint Resolve send_words_nonneg start_stop_nonneg set_node_id_nonneg
  config_consumption_nonneg config_radio_nonneg : nonneg.

Section iotlab_codes.
Context `{E : Env}.

Lemma iotlab_reset_nonneg `{!StatusOk} : returns (λ r, 0 ≤ r)%Z CnIotlab.reset.
Proof. unfold CnIotlab.reset. codes. Qed.

Lemma iotlab_open_power_nonneg command power :
  returns (λ r, 0 ≤ r)%Z (CnIotlab.open_power command power).
Proof. unfold CnIotlab.open_power. codes. Qed.

Hint Resolve iotlab_reset_nonneg iotlab_open_power_nonneg : nonneg.

Lemma iotlab_open_start_nonneg power : returns (λ r, 0 ≤ r)%Z (CnIotlab.open_start power).
Proof. unfold CnIotlab.open_start. codes. Qed.

Lemma iotlab_open_stop_nonneg power : returns (λ r, 0 ≤ r)%Z (CnIotlab.open_stop power).
Proof. unfold CnIotlab.open_stop. codes. Qed.

Lemma iotlab_configure_nonneg profile :
  returns (λ r, 0 ≤ r)%Z (CnIotlab.configure_profile profile).
Proof. unfold CnIotlab.configure_profile. codes. Qed.

Hint Resolve iotlab_open_start_nonneg iotlab_open_stop_nonneg iotlab_configure_nonneg : nonneg.

#[global] Instance iotlab_laws : ControlNodeLaws CnIotlab.node.
Proof.
  split; simpl; [intros ???|intros ??|intros ?|intros ??|intros ??|intros ??|intros ????| |intros ?|intros ms c t];
    try codes.
  - unfold CnIotlab.start. codes.
  - unfold CnIotlab.start_experiment, green_led_blink, set_time. codes.
  - unfold CnIotlab.stop_experiment, green_led_on. codes.
  - unfold CnIotlab.flash. codes.
  - unfold CnIotlab.node_status. codes.
  - unfold CnIotlab.autotest_setup, set_time. codes.
  - by eexists.
Qed.

#[global] Instance no_laws : ControlNodeLaws CnNo.node.
Proof.
  split; simpl; [intros ???|intros ??|intros ?|intros ??|intros ??|intros ??|intros ????| |intros ?|intros ms c t];
    try codes; try (unfold CnNo.configure_profile; codes). by eexists.
Qed.

Lemma rpi3_configure_nonneg profile :
  returns (λ r, 0 ≤ r)%Z (CnRpi3.configure_profile profile).
Proof. unfold CnRpi3.configure_profile. codes. Qed.

Lemma rpi3_open_start_nonneg `{!StatusOk} power :
  returns (λ r, 0 ≤ r)%Z (CnRpi3.open_start power).
Proof. unfold CnRpi3.open_start, CnRpi3.ykush. codes. Qed.

Hint Resolve rpi3_configure_nonneg rpi3_open_start_nonneg : nonneg.

#[global] Instance rpi3_laws : ControlNodeLaws CnRpi3.node.
Proof.
  split; simpl; [intros ???|intros ??|intros ?|intros ??|intros ??|intros ??|intros ????| |intros ?|intros ms c t];
    try codes.
  - unfold CnRpi3.start. codes.
  - unfold CnRpi3.start_experiment. codes.
  - unfold CnRpi3.stop_experiment. codes.
  - unfold CnRpi3.open_stop, CnRpi3.ykush. codes.
  - by eexists.
Qed.
End iotlab_codes.

(** ** The commands sent to the control node *)

(** The lines written to the serial program, in order. *)
Definition written (t : trace) : list string :=
  omap (λ ev, match ev with EvWriteStdin l => Some l | _ => None end) t.

Lemma written_app t u : written (t ++ u) = written t ++ written u.
Proof. apply omap_app. Qed.

Definition line_of (words : list string) : string := str_join " " words +:+ newline.

Lemma read_until_process served obs s : cs_process (read_until served obs s) = cs_process s.
Proof.
  revert s; induction obs as [|o obs IH]; intros s; simpl; case_match; try done.
  by rewrite IH, reader_step_process.
Qed.

Section commands.
Context `{E : Env}.

(** The serial program runs and accepts what is written to it. *)
Definition writable : Prop := ∀ t line, env_write t line = None.

Lemma sender_run n t ws :
  writable → cs_process (CnIotlab.ci_serial n) = true →
  ∃ ans s', CnIotlab.sender (PStr <$> ws) n t =
    (Val ans, lset CnIotlab.cn_serial s' n, t ++ [EvWriteStdin (line_of ws); EvGetAnswer]) ∧
    cs_process s' = true.
Proof.
  intros Hw Hp. unfold CnIotlab.sender, zoom. simpl. rewrite send_command_run, Hp. simpl.
  rewrite Hw, <- (assoc_L (++)). simpl.
  destruct (cs_msgs (read_until _ _ _)); eexists _, _; (split; [reflexivity|]); simpl;
    by rewrite read_until_process.
Qed.

Lemma send_words_run n t c ws :
  writable → cs_process (CnIotlab.ci_serial n) = true →
  ∃ r s', send_words CnIotlab.sender (c :: ws) n t =
    (Val r, lset CnIotlab.cn_serial s' n,
     t ++ [EvWriteStdin (line_of (c :: ws)); EvGetAnswer]) ∧
    (0 ≤ r)%Z ∧ cs_process s' = true.
Proof.
  intros Hw Hp. destruct (sender_run n t (c :: ws) Hw Hp) as (ans & s' & Hs & Hp').
  eexists _, s'. split; [exact (sender_ack _ _ _ _ _ _ _ _ Hs)|].
  split; [apply status_nonneg|done].
Qed.

Lemma start_stop_run n t command power :
  writable → cs_process (CnIotlab.ci_serial n) = true →
  ∃ r s', start_stop CnIotlab.sender command (PStr power) n t =
    (Val r, lset CnIotlab.cn_serial s' n,
     t ++ [EvWriteStdin (line_of [command; power]); EvGetAnswer]) ∧
    (0 ≤ r)%Z ∧ cs_process s' = true.
Proof. exact (send_words_run n t command [power]). Qed.

Lemma consumption_cmd_cons c cw :
  consumption_cmd c = Val cw → ∃ w ws, cw = w :: ws.
Proof.
  unfold consumption_cmd. intros H. repeat case_match; inv_val; simplify_eq/=; eauto.
Qed.

Lemma radio_cmd_cons r : ∃ w ws, radio_cmd r = w :: ws.
Proof. unfold radio_cmd. repeat case_match; eauto. Qed.
End commands.

(** Configuring a profile.  While the serial program runs, whatever it answers,
    [configure_profile] stores the profile given, or the default one, and sends exactly
    three commands in order: the power command of the current state of the open node
    with the profile's source, the consumption command and the radio command; its status
    is 0 or more. *)
Lemma configure_profile_run `{Env} (n : CnIotlab.node) (t : trace)
    (profile : option Profile) (p : Profile) (power : string) (cw : list string)
    (Hw : writable) (Hp : cs_process (CnIotlab.ci_serial n) = true)
    (Hm3 : CnIotlab.from_m3 n "configure_profile" = false)
    (Hprof : or_default profile (CnIotlab.ci_default_profile n) = Some p)
    (Hpow : p_power p = PStr power)
    (Hcons : consumption_cmd (p_consumption p) = Val cw) :
  ∃ r n' t', CnIotlab.configure_profile profile n t = (Val r, n', t') ∧ (0 ≤ r)%Z ∧
    CnIotlab.ci_profile n' = Some p ∧
    CnIotlab.ci_open_node_state n' = CnIotlab.ci_open_node_state n ∧
    written t' = written t ++
      [line_of [CnIotlab.ci_open_node_state n; power]; line_of cw;
       line_of (radio_cmd (p_radio p))].
Proof.
  set (n1 := CnIotlab.set_profile (Some p) n).
  destruct (start_stop_run n1 t (CnIotlab.ci_open_node_state n) power Hw Hp)
    as (r1 & s1 & R1 & N1 & P1).
  destruct (consumption_cmd_cons _ _ Hcons) as (w & ws & ->).
  set (t1 := t ++ [_; _]) in R1.
  destruct (send_words_run (lset CnIotlab.cn_serial s1 n1) t1 w ws Hw P1)
    as (r2 & s2 & R2 & N2 & P2). set (t2 := t1 ++ [_; _]) in R2.
  destruct (radio_cmd_cons (p_radio p)) as (w' & ws' & Hr).
  destruct (send_words_run (lset CnIotlab.cn_serial s2 (lset CnIotlab.cn_serial s1 n1)) t2 w' ws'
    Hw P2) as (r3 & s3 & R3 & N3 & P3).
  assert (R2' : config_consumption CnIotlab.sender (p_consumption p)
      (lset CnIotlab.cn_serial s1 n1) t1 =
      (Val r2, lset CnIotlab.cn_serial s2 (lset CnIotlab.cn_serial s1 n1), t2))
    by (unfold config_consumption; rewrite Hcons; exact R2).
  exists (r1 + r2 + r3)%Z. eexists _, _. split.
  - unfold CnIotlab.configure_profile. erewrite bind_run by reflexivity.
    erewrite bind_run by reflexivity. rewrite Hprof. fold n1. erewrite bind_run by reflexivity.
    change (CnIotlab.from_m3 n1 "configure_profile") with
      (CnIotlab.from_m3 n "configure_profile"). rewrite Hm3.
    erewrite bind_run by reflexivity. rewrite Hpow, (bind_run _ _ _ _ _ _ _ R1).
    erewrite bind_run by reflexivity. rewrite (bind_run _ _ _ _ _ _ _ R2').
    erewrite bind_run by reflexivity. unfold config_radio.
    rewrite Hr, (bind_run _ _ _ _ _ _ _ R3). reflexivity.
  - split_and!; [lia|done|done|]. unfold t2, t1. rewrite !written_app, Hr.
    by rewrite <- !(assoc_L (++)).
Qed.

(** ** Properties *)

(** The control node of [m3-12] with an experiment running and no profile. *)
Definition demo_profile : Profile := MkProfile (PStr "_default_profile") (PStr "dc") None None.

Definition iotlab_node : CnIotlab.node :=
  CnIotlab.MkNode (@ControlNodeIotlab calm_env) "m3_12" (Some demo_profile)
    (MkOpenOCD "openocd" "" RESET false)
    (set_process true Running (cs_init "/dev/ttyCN")) "start" (Some demo_profile).

(** The state of the open node's power follows the acknowledged commands.
    When [open_start] or [open_stop] returns 0 the control node answered that it
    did it and the state is the new one; on any other status the state is the old
    one; nothing else of the profile changes. *)
Theorem open_power_state `{Env} (n n' : CnIotlab.node) (command : string)
    (power : option pyval) (t t' : trace) (r : Z)
    (Hrun : CnIotlab.open_power command power n t = (Val r, n', t')) :
  CnIotlab.ci_open_node_state n' =
    (if decide (r = 0%Z) then command else CnIotlab.ci_open_node_state n) ∧
  CnIotlab.ci_profile n' = CnIotlab.ci_profile n ∧ (r = 0 ∨ r = 1)%Z ∧
  (r = 0%Z → ∃ args s1, CnIotlab.sender (PStr command :: args) n t =
               (Val (Some [command; "ACK"]), s1, t')).
Proof.
  unfold CnIotlab.open_power in Hrun.
  apply M_bind_Val in Hrun as (? & ? & ? & [= <- <- <-] & Hrun).
  apply M_bind_Val in Hrun as (pw & ? & ? & [= Hpw <- <-] & Hrun).
  apply M_bind_Val in Hrun as (r1 & n1 & t1 & Hsend & Hrun).
  apply M_bind_Val in Hrun as (? & n2 & t2 & Hset & [= <- <- <-]).
  unfold start_stop, send_cmd in Hsend.
  apply M_bind_Val in Hsend as (ans & ? & ? & Hs & [= <- <- <-]).
  pose proof Hs as Hz. unfold CnIotlab.sender in Hz. apply zoom_Val in Hz as (cs' & _ & ->).
  case_bool_decide as Hack; simpl in *.
  - injection Hset as <- <- <-.
    split_and!; [done|done|by left|]. intros _. rewrite <- Hack in Hs. eauto.
  - injection Hset as <- <- <-. by split_and!; [|..|right|].
Qed.

Lemma open_power_state_witness :
  CnIotlab.ci_open_node_state
    (snd (fst (@CnIotlab.open_power calm_env "stop" None iotlab_node []))) = "start".
Proof.
  refine (proj1 (@open_power_state calm_env iotlab_node _ "stop" None [] _ 1%Z _)).
  vm_compute. reflexivity.
Defined.
