(* ===== verification/AutotestProofs.v ===== *)
(** * Correctness of the autotests

    A logic for the report of the autotests ([logs]: what a statement adds to it), the
    meaning of the code of [auto_tests], and the behaviour of the error paths: the
    loop of the GPS test, the failures that escape the handler of fatal errors. *)

From S2P Require Import Prelude PyString Effects PyVal Common Protocol CnInterface SerialExpect.
From S2P Require Import NodeConnection LinuxInterface Measures Nodes NodeClasses BoardConfig Interfaces OpenNodes ControlNodes Autotest.

(** Statements that leave the report alone, and codes with what they log. *)
Create HintDb quiet.
Create HintDb passed.
Create HintDb after.

(** ** The report *)

(** An error entry whose failure the returned code does not count: a command of the
    open node without acknowledgement, or the identifier of the node. *)
Definition uncounted (e : string) : Prop :=
  e = "get_uid" ∨ String.prefix "On Command: " e = true.

(** Entries [su] and [er] are added, the uncounted ones apart only successes, among
    them [names]. *)
Definition entries (names su er : list string) : Prop :=
  Forall uncounted er ∧ Forall (.∈ su) names.

Lemma entries_app n1 n2 s1 s2 e1 e2 :
  entries n1 s1 e1 → entries n2 s2 e2 → entries (n1 ++ n2) (s1 ++ s2) (e1 ++ e2).
Proof.
  unfold entries. rewrite !Forall_app. intros [? H1] [? H2]. split_and!; try done;
    eapply Forall_impl; [exact H1| |exact H2|]; intros x Hx; apply elem_of_app; auto.
Qed.

Lemma entries_weaken n n' su er : n' ⊆ n → entries n su er → entries n' su er.
Proof. unfold entries. rewrite !Forall_forall. set_solver. Qed.

Section logic.
Context `{E : Env} {N C : Type} `{!OpenNodeOps N} `{!ControlNodeOps C}.
(** The classes of the board. *)
Context (onc cnc : pyclass) (lin : option pyclass).
Implicit Type s : AT N C.

Definition cfg s : Prop :=
  at_on_class s = onc ∧ at_cn_class s = cnc ∧ at_linux_on_class s = lin.

(** What [m] adds to the report: never the code of [auto_tests], and on return
    entries that satisfy [P] with its value. *)
Definition logs {A} (P : A → list string → list string → Prop) (m : M (AT N C) A) : Prop :=
  ∀ s t, cfg s →
    wp m (λ o s' _, cfg s' ∧ at_ret_val s' = at_ret_val s ∧ ∃ su er,
      rp_success (at_report s') = rp_success (at_report s) ++ su ∧
      rp_error (at_report s') = rp_error (at_report s) ++ er ∧
      match o with Val a => P a su er | _ => True end) s t.

(** Whatever is returned; and a code [r], at least [c], that is 0 only with such
    entries. *)
Definition passed {A} (names : list string) (a : A) (su er : list string) : Prop :=
  entries names su er.
Definition after (c : Z) (names : list string) (r : Z) (su er : list string) : Prop :=
  (c ≤ r)%Z ∧ (r = 0%Z → entries names su er).

Lemma logs_mono {A} (P Q : A → list string → list string → Prop) m :
  (∀ a su er, P a su er → Q a su er) → logs P m → logs Q m.
Proof.
  intros HPQ Hm s t Hs. eapply wp_mono, Hm, Hs.
  intros o s' t' (? & ? & su & er & ? & ? & ?). split_and!; [done..|].
  exists su, er. split_and!; [done..|]. destruct o; auto.
Qed.

Lemma logs_ret {A} (P : A → list string → list string → Prop) a : P a [] [] → logs P (mret a).
Proof. intros Ha s t Hs. split_and!; [done..|]. exists [], []. by rewrite !app_nil_r. Qed.

Lemma logs_bind {A B} P Q (m : M (AT N C) A) (k : A → M (AT N C) B) :
  logs P m →
  (∀ a su er, P a su er → logs (λ b su' er', Q b (su ++ su') (er ++ er')) (k a)) →
  logs Q (m ≫= k).
Proof.
  intros Hm Hk s t Hs. apply wp_bind. eapply wp_mono, Hm, Hs.
  intros [a|e|] s1 t1 (Hc & Hr & su & er & Hsu & Her & HP); [|by split_and!; eauto 10..].
  eapply wp_mono; [|by apply (Hk a su er HP)].
  intros o s' t' (? & ? & su' & er' & Hsu' & Her' & HQ).
  split_and!; [done|congruence|]. exists (su ++ su'), (er ++ er').
  by rewrite Hsu', Her', Hsu, Her, !(assoc_L (++)).
Qed.

(** A statement that does not touch the report. *)
Definition quiet {A} (m : M (AT N C) A) : Prop :=
  ∀ s t, cfg s → wp m (λ _ s' _, cfg s' ∧ at_ret_val s' = at_ret_val s ∧
    at_report s' = at_report s) s t.

Lemma quiet_logs {A} (m : M (AT N C) A) : quiet m → logs (λ _ su er, su = [] ∧ er = []) m.
Proof.
  intros Hm s t Hs. eapply wp_mono, Hm, Hs. intros o s' t' (? & ? & Hr).
  split_and!; [done..|]. exists [], []. rewrite Hr, !app_nil_r. by destruct o.
Qed.

Lemma quiet_ret {A} (a : A) : quiet (mret a).
Proof. by intros s t Hs. Qed.
Lemma quiet_raise {A} e : quiet (raise e : M (AT N C) A).
Proof. by intros s t Hs. Qed.
Lemma quiet_hang {A} : quiet (hang : M (AT N C) A).
Proof. by intros s t Hs. Qed.
Lemma quiet_lift {A} (o : outcome A) : quiet (lift o).
Proof. by intros s t Hs. Qed.
Lemma quiet_get : quiet get.
Proof. by intros s t Hs. Qed.
Lemma quiet_ask {A} ev (f : trace → A) : quiet (ask ev f).
Proof. by intros s t Hs. Qed.
Lemma quiet_modify f :
  (∀ s, cfg s → cfg (f s) ∧ at_ret_val (f s) = at_ret_val s ∧ at_report (f s) = at_report s) →
  quiet (modify f).
Proof. intros Hf s t Hs. by apply Hf. Qed.

Lemma quiet_open_node {A} (m : M N A) : quiet (zoom open_node m).
Proof.
  intros s t Hs. apply wp_zoom. unfold wp. by destruct (m _ t) as [[? ?] ?].
Qed.
Lemma quiet_control_node {A} (m : M C A) : quiet (zoom control_node m).
Proof.
  intros s t Hs. apply wp_zoom. unfold wp. by destruct (m _ t) as [[? ?] ?].
Qed.
Lemma quiet_on_serial {A} (m : M Conn A) : quiet (on_serial m).
Proof.
  intros s t Hs. unfold wp, on_serial, on_attr.
  destruct (at_on_serial s) as [c|]; [|done]. by destruct (m c t) as [[? ?] ?].
Qed.
Lemma quiet_linux {A} (m : M LinuxConn A) : quiet (linux_connection m).
Proof.
  intros s t Hs. unfold wp, linux_connection, on_attr.
  destruct (at_linux s) as [c|]; [|done]. by destruct (m c t) as [[? ?] ?].
Qed.

Lemma quiet_bind {A B} (m : M (AT N C) A) (k : A → M (AT N C) B) :
  quiet m → (∀ a, quiet (k a)) → quiet (m ≫= k).
Proof.
  intros Hm Hk s t Hs. apply wp_bind. eapply wp_mono, Hm, Hs.
  intros [a|e|] s1 t1 (Hc & Hr & Hp); [|done..].
  eapply wp_mono; [|by apply Hk]. intros o s' t' (? & ? & ?). split_and!; congruence || done.
Qed.

(** *** Rules for the two forms *)

Lemma passed_quiet {A} (m : M (AT N C) A) : quiet m → logs (passed []) m.
Proof. intros Hm. eapply logs_mono, quiet_logs, Hm. intros ? ? ? [-> ->]. by split. Qed.

Lemma passed_bind {A B} n1 n2 (m : M (AT N C) A) (k : A → M (AT N C) B) :
  logs (passed n1) m → (∀ a, logs (passed n2) (k a)) → logs (passed (n1 ++ n2)) (m ≫= k).
Proof.
  intros Hm Hk. eapply logs_bind; [exact Hm|]. intros a su er Ha.
  eapply logs_mono, Hk. intros b su' er' Hb. by apply entries_app.
Qed.

Lemma passed_weaken {A} n n' (m : M (AT N C) A) :
  n' ⊆ n → logs (passed n) m → logs (passed n') m.
Proof. intros Hn. apply logs_mono. intros a su er. by apply entries_weaken. Qed.

Lemma after_ret r : logs (after r []) (mret r).
Proof.
  intros s t Hs. unfold wp, mret, M_ret. split_and!; [done..|]. exists [], [].
  rewrite !app_nil_r. split_and!; [done..|]. split; [lia|]. by split.
Qed.

(** A statement before the code. *)
Lemma after_passed {A} c n1 n2 (m : M (AT N C) A) (k : A → M (AT N C) Z) :
  logs (passed n1) m → (∀ a, logs (after c n2) (k a)) → logs (after c (n1 ++ n2)) (m ≫= k).
Proof.
  intros Hm Hk. eapply logs_bind; [exact Hm|]. intros a su er Ha.
  eapply logs_mono, Hk. intros r su' er' [Hc Hr]. split; [done|].
  intros H0. by apply entries_app; [|apply Hr].
Qed.

(** A code added to the sum [c]. *)
Lemma after_code c n1 n2 (m : M (AT N C) Z) (k : Z → M (AT N C) Z) :
  (0 ≤ c)%Z → logs (after 0 n1) m →
  (∀ r, (0 ≤ r)%Z → logs (after (c + r) n2) (k r)) → logs (after c (n1 ++ n2)) (m ≫= k).
Proof.
  intros Hc Hm Hk. eapply logs_bind; [exact Hm|]. intros r su er [Hr Hn].
  eapply logs_mono, Hk, Hr. intros r' su' er' [Hr' Hn']. split; [lia|].
  intros ->. apply entries_app; [apply Hn; lia|by apply Hn'].
Qed.

Lemma after_weaken c n n' (m : M (AT N C) Z) :
  n' ⊆ n → logs (after c n) m → logs (after c n') m.
Proof.
  intros Hn. apply logs_mono. intros r su er [Hc Hr]. split; [done|].
  intros H0. by eapply entries_weaken, Hr.
Qed.

Lemma after_quiet (m : M (AT N C) Z) :
  returns (λ r, 0 ≤ r)%Z m → quiet m → logs (after 0 []) m.
Proof.
  intros Hret Hm s t Hs. pose proof (quiet_logs m Hm s t Hs) as Hl. specialize (Hret s t).
  unfold wp in *. destruct (m s t) as [[o s'] t']. destruct Hl as (? & ? & su & er & ? & ? & Ho).
  split_and!; [done..|]. exists su, er. split_and!; [done..|].
  destruct o; [|done..]. destruct Ho as [-> ->]. by split.
Qed.

(** A handler whose value does not depend on what was logged before. *)
Lemma logs_try {A} (Q : A → list string → list string → Prop) (m : M (AT N C) A) h :
  logs Q m →
  (∀ e k, h e = Some k →
     logs (λ a su er, ∀ su1 er1, Q a (su1 ++ su) (er1 ++ er)) k) →
  logs Q (try_except m h).
Proof.
  intros Hm Hh s t Hs. apply wp_try_except. eapply wp_mono, Hm, Hs.
  intros [a|e|] s1 t1 (Hc & Hr & su & er & Hsu & Her & HP); [by eauto 10| |by eauto 10].
  destruct (h e) as [k|] eqn:He; [|by eauto 10].
  eapply wp_mono; [|by apply (Hh e k He)].
  intros o s' t' (? & ? & su' & er' & Hsu' & Her' & HQ).
  split_and!; [done|congruence|]. exists (su ++ su'), (er ++ er').
  rewrite Hsu', Her', Hsu, Her, !(assoc_L (++)). split_and!; [done..|].
  destruct o; auto.
Qed.

Lemma logs_finally {A} (Q : A → list string → list string → Prop) (m : M (AT N C) A) f :
  logs Q m → quiet f → logs Q (try_finally m f).
Proof.
  intros Hm Hf s t Hs. apply wp_try_finally. eapply wp_mono, Hm, Hs.
  intros o s1 t1 (Hc & Hr & su & er & Hsu & Her & HP).
  destruct o as [a|e|]; [| |by eauto 10];
    (eapply wp_mono; [|by apply Hf]); intros o' s2 t2 (? & Hr2 & Hp2);
    rewrite <- Hp2 in Hsu, Her; destruct o'; (split; [done|]; split; [congruence|]);
    exists su, er; by split_and!.
Qed.

(** *** The statements of the tests *)

Lemma quiet_add_tested l : quiet (add_tested l).
Proof. by apply quiet_modify. Qed.
Lemma quiet_sleep ms : quiet (sleep ms).
Proof. apply quiet_control_node. Qed.
Lemma quiet_sender args : quiet (protocol_sender args).
Proof. apply quiet_control_node. Qed.
Lemma quiet_clear_measures : quiet clear_measures.
Proof. by apply quiet_modify. Qed.
Lemma quiet_send_command cmd : quiet (on_serial_send_command cmd).
Proof. apply quiet_bind; [apply quiet_add_tested|intros _; apply quiet_on_serial]. Qed.
Lemma quiet_send_words words : quiet (send_words protocol_sender words).
Proof.
  destruct words; [apply quiet_raise|]. apply quiet_bind; [apply quiet_sender|].
  intros. apply quiet_ret.
Qed.
Lemma quiet_open_node_alim : quiet open_node_alim.
Proof.
  apply quiet_bind; [apply quiet_get|]. intros s. destruct (attr_str _ _);
    [apply quiet_ret|apply quiet_raise].
Qed.

Lemma logs_check ret op :
  logs (λ r su er, r = Z.abs ret ∧ (su, er) = if (ret =? 0)%Z then ([op], []) else ([], [op]))
    (check ret op).
Proof.
  intros s t Hs. unfold wp, check, mbind, M_bind, modify, mret, M_ret, log_check.
  destruct (ret =? 0)%Z; simpl; (split; [done|]; split; [done|]);
    [exists [op], []|exists [], [op]]; by rewrite !app_nil_r.
Qed.

Lemma check_after ret op : logs (after 0 [op]) (check ret op).
Proof.
  eapply logs_mono, logs_check. intros r su er [-> Hl]. split; [lia|]. intros Hz.
  assert (ret = 0%Z) as -> by lia. simpl in Hl. injection Hl as -> ->.
  split; [constructor|]. apply Forall_singleton, list_elem_of_singleton. done.
Qed.

(** The check of a sum of codes. *)
Lemma check_sum c op : (0 ≤ c)%Z → logs (after c [op]) (check c op).
Proof.
  intros Hc. eapply logs_mono, logs_check. intros r su er [-> Hl]. split; [lia|]. intros Hz.
  assert (c = 0%Z) as -> by lia. simpl in Hl. injection Hl as -> ->.
  split; [constructor|]. by apply Forall_singleton, list_elem_of_singleton.
Qed.

Lemma check_sum_eq c c' op : c = c' → (0 ≤ c)%Z → logs (after c [op]) (check c' op).
Proof. intros ->. apply check_sum. Qed.

Lemma check_uncounted ret op : uncounted op → logs (passed []) (check ret op).
Proof.
  intros Hop. eapply logs_mono, logs_check. intros r su er [_ Hl].
  unfold passed, entries.
  destruct (ret =? 0)%Z; injection Hl as -> ->; (split; [|constructor]); [constructor|].
  by apply Forall_singleton.
Qed.

Lemma assert_passed ret op : logs (passed [op]) (assert_ ret op).
Proof.
  unfold assert_. eapply logs_bind; [apply logs_check|]. intros r su er [-> Hl].
  destruct (Z.eqb_spec (Z.abs ret) 0) as [Hz|Hz].
  - assert (ret = 0%Z) as -> by lia. simpl in Hl. injection Hl as -> ->.
    eapply logs_mono, quiet_logs, quiet_ret. intros [] ? ? [-> ->].
    split; [constructor|]. by apply Forall_singleton, list_elem_of_singleton.
  - intros s t Hs. unfold wp, raise. split_and!; [done..|]. exists [], [].
    by rewrite !app_nil_r.
Qed.

(** An assertion that fails never returns. *)
Lemma assert_fails op (P : unit → list string → list string → Prop) :
  logs P (assert_ 1 op).
Proof.
  unfold assert_. eapply logs_bind; [apply logs_check|]. intros r su er [-> _]. simpl.
  intros s t Hs. unfold wp, raise. split_and!; [done..|]. exists [], [].
  by rewrite !app_nil_r.
Qed.

Lemma on_call_passed cmd : logs (passed []) (on_call cmd).
Proof.
  unfold on_call. apply (passed_bind [] []).
  { apply passed_quiet, quiet_send_command. }
  intros answer. destruct (acked _ _); [apply passed_quiet, quiet_ret|].
  apply (passed_bind [] []); [|intros _; apply passed_quiet, quiet_ret].
  apply check_uncounted. by right.
Qed.

Lemma run_test_passed {A} num cmd (f : list string → outcome A) :
  logs (passed []) (run_test num cmd f).
Proof.
  induction num as [|num IH]; simpl; [apply passed_quiet, quiet_ret|].
  apply (passed_bind [] []); [apply on_call_passed|]. intros [ret answer].
  destruct (ret =? 0)%Z; [|done].
  apply (passed_bind [] []); [apply passed_quiet, quiet_lift|]. intros v.
  apply (passed_bind [] []); [done|]. intros vs. apply passed_quiet, quiet_ret.
Qed.

(** Reading the state: only the classes are known. *)
Lemma logs_get {B} (Q : B → list string → list string → Prop) (k : AT N C → M (AT N C) B) :
  (∀ s, cfg s → logs Q (k s)) → logs Q (get ≫= k).
Proof. intros Hk s t Hs. apply wp_bind. unfold wp at 1, get. by apply Hk. Qed.

Lemma logs_raise {A} (P : A → list string → list string → Prop) e : logs P (raise e).
Proof.
  intros s t Hs. unfold wp, raise. split_and!; [done..|]. exists [], []. by rewrite !app_nil_r.
Qed.

(** What the open node's class and the control node's class can do. *)
Definition on_has (required : list string) : bool :=
  match attr_strs (default onc lin) "AUTOTEST_AVAILABLE" with
  | Some available => object_attr_has available required
  | None => false
  end.
Definition cn_has (required : list string) : bool :=
  match attr_strs cnc "FEATURES" with
  | Some available => object_attr_has available required
  | None => false
  end.
Definition only_if (b : bool) (names : list string) : list string := if b then names else [].

Lemma checker_after required (m : M (AT N C) Z) names :
  logs (after 0 names) m →
  logs (after 0 (only_if (on_has required) names)) (autotest_checker required m).
Proof.
  intros Hm. unfold autotest_checker, on_has. apply logs_get. intros s (-> & _ & ->).
  destruct (attr_strs _ _) as [av|]; [|apply logs_raise].
  destruct (object_attr_has av required); simpl; [|apply after_ret].
  apply (after_passed 0 []); [apply passed_quiet, quiet_add_tested|done].
Qed.

Lemma cn_checker_after required (m : M (AT N C) Z) names :
  logs (after 0 names) m →
  logs (after 0 (only_if (cn_has required) names)) (autotest_control_node_checker required m).
Proof.
  intros Hm. unfold autotest_control_node_checker, cn_has. apply logs_get. intros s (_ & -> & _).
  destruct (attr_strs _ _) as [av|]; [|apply logs_raise].
  unfold class_attr_has. destruct (object_attr_has av required); simpl; [done|apply after_ret].
Qed.

Lemma send_words_after words : logs (after 0 []) (send_words protocol_sender words).
Proof. apply after_quiet; [apply send_words_nonneg|apply quiet_send_words]. Qed.

Lemma config_consumption_after c : logs (after 0 []) (config_consumption protocol_sender c).
Proof.
  apply after_quiet; [apply config_consumption_nonneg|].
  apply quiet_bind; [apply quiet_lift|intros; apply quiet_send_words].
Qed.

Lemma config_radio_after r : logs (after 0 []) (config_radio protocol_sender r).
Proof. apply send_words_after. Qed.

Lemma after_ret_eq c r : c = r → logs (after c []) (mret r).
Proof. intros ->. apply after_ret. Qed.

(** The sum [c] of the codes so far turns out to be 0. *)
Definition zero {A} (c : Z) (names : list string) (a : A) (su er : list string) : Prop :=
  c = 0%Z ∧ entries names su er.

Lemma zero_code {B} c n1 n2 (m : M (AT N C) Z) (k : Z → M (AT N C) B) :
  (0 ≤ c)%Z → logs (after 0 n1) m →
  (∀ r, (0 ≤ r)%Z → logs (zero (c + r) n2) (k r)) → logs (zero c (n1 ++ n2)) (m ≫= k).
Proof.
  intros Hc Hm Hk. eapply logs_bind; [exact Hm|]. intros r su er [Hr Hn].
  eapply logs_mono, Hk, Hr. intros b su' er' [Hz Hn']. split; [lia|].
  apply entries_app; [apply Hn; lia|done].
Qed.

Lemma zero_passed {A B} c n1 n2 (m : M (AT N C) A) (k : A → M (AT N C) B) :
  logs (passed n1) m → (∀ a, logs (zero c n2) (k a)) → logs (zero c (n1 ++ n2)) (m ≫= k).
Proof.
  intros Hm Hk. eapply logs_bind; [exact Hm|]. intros a su er Ha.
  eapply logs_mono, Hk. intros r su' er' [Hc Hr]. split; [done|]. by apply entries_app.
Qed.

Lemma zero_test c : logs (zero c []) (if negb (c =? 0)%Z then raise FatalError else mret tt).
Proof.
  destruct (Z.eqb_spec c 0) as [->|]; [|apply logs_raise].
  eapply logs_mono, quiet_logs, quiet_ret. intros ? ? ? [-> ->]. by repeat split.
Qed.

Lemma zero_assert c op : logs (zero c [op]) (assert_ c op).
Proof.
  unfold assert_. eapply logs_bind; [apply logs_check|]. intros r su er [-> Hl].
  destruct (Z.eqb_spec (Z.abs c) 0) as [Hz|Hz]; [|apply logs_raise].
  assert (c = 0%Z) as -> by lia. simpl in Hl. injection Hl as -> ->.
  eapply logs_mono, quiet_logs, quiet_ret. intros [] ? ? [-> ->]. split; [done|].
  split; [constructor|]. by apply Forall_singleton, list_elem_of_singleton.
Qed.

Lemma zero_assert_eq c c' op : c = c' → logs (zero c [op]) (assert_ c' op).
Proof. intros ->. apply zero_assert. Qed.

Lemma zero_weaken {A} c n n' (m : M (AT N C) A) :
  n' ⊆ n → logs (zero c n) m → logs (zero c n') m.
Proof.
  intros Hn. apply logs_mono. intros a su er [Hc Hr]. split; [done|]. by eapply entries_weaken.
Qed.

Lemma zero_to_passed {A} n (m : M (AT N C) A) : logs (zero 0 n) m → logs (passed n) m.
Proof. apply logs_mono. by intros a su er [_ ?]. Qed.
End logic.

#[export] Hint Resolve quiet_ret quiet_raise quiet_lift quiet_get quiet_ask quiet_open_node
  quiet_control_node quiet_on_serial quiet_linux quiet_add_tested quiet_sleep quiet_sender
  quiet_clear_measures quiet_send_command quiet_send_words quiet_open_node_alim : quiet.
#[export] Hint Extern 1 (quiet _ _ _ (p_time)) => apply quiet_ask : quiet.
#[export] Hint Extern 1 (quiet _ _ _ (modify _)) => apply quiet_modify; by intros : quiet.

(** One statement whose value is not a counted code, and one that gives a code. *)
Ltac step_statement :=
  first [apply on_call_passed | apply run_test_passed | apply assert_passed
        | solve [eauto with passed] | apply passed_quiet; solve [eauto with quiet]].
Ltac skip :=
  lazymatch goal with
  | |- logs _ _ _ (after _ _) (_ ≫= _) => eapply after_passed; [step_statement|intros ?]
  | |- logs _ _ _ (zero _ _) (_ ≫= _) => eapply zero_passed; [step_statement|intros ?]
  | |- logs _ _ _ (passed _) (_ ≫= _) => eapply passed_bind; [step_statement|intros ?]
  end.
Ltac count :=
  lazymatch goal with
  | |- logs _ _ _ (after _ _) (_ ≫= _) =>
      eapply after_code; [lia|solve [eauto with after]|intros ? ?]
  | |- logs _ _ _ (zero _ _) (_ ≫= _) =>
      eapply zero_code; [lia|solve [eauto with after]|intros ? ?]
  end.
Ltac sum := apply after_ret_eq; lia.
Ltac after_names := eapply after_weaken; [|].

#[export] Hint Resolve check_after send_words_after config_consumption_after config_radio_after
  : after.

(** The code of an iteration of the GPS loop. *)
Definition pps_code (x : Z + Z) : Z := match x with inl r | inr r => r end.

Section tests.
Context `{E : Env} {N C : Type} `{!OpenNodeOps N} `{!ControlNodeOps C}.
Context `{!OpenNodeLaws N} `{!ControlNodeLaws C} `{!StatusOk}.
Context (onc cnc : pyclass) (lin : option pyclass).
Abbreviation logs := (logs (N:=N) (C:=C) onc cnc lin).
Abbreviation on_has := (on_has onc lin).
Abbreviation cn_has := (cn_has cnc).

Lemma open_node_start_after : logs (after 0 []) open_node_start.
Proof.
  eapply after_weaken; [|apply cn_checker_after, after_quiet; [|apply quiet_control_node]].
  - apply list_subseteq_nil.
  - apply returns_zoom, cn_open_start_nonneg, _.
Qed.

Lemma get_uid_passed : logs (passed []) get_uid.
Proof.
  unfold get_uid, autotest_checker. apply logs_get. intros s _.
  destruct (attr_strs _ _) as [av|]; [|apply logs_raise].
  destruct (negb _); [apply passed_quiet, quiet_ret|].
  apply (passed_bind _ _ _ [] []); [apply passed_quiet; eauto with quiet|intros _].
  apply (passed_bind _ _ _ [] []); [apply run_test_passed|intros values].
  apply (passed_bind _ _ _ [] []); [|intros _; apply check_uncounted; by left].
  destruct values as [|uid values]; [apply passed_quiet, quiet_ret|].
  intros s1 t1 Hs1. split_and!; [done..|]. exists [], []. rewrite !app_nil_r.
  split_and!; [done..|]. by split.
Qed.

Hint Resolve open_node_start_after : after.
Hint Resolve get_uid_passed : passed.

Lemma xyz_after sensor : logs (after 0 [sensor]) (test_xyz_sensor sensor).
Proof. unfold test_xyz_sensor. eapply after_weaken; [|skip; apply check_after]. set_solver. Qed.

Lemma set_leds_passed : logs (passed []) set_leds_off_and_on.
Proof.
  unfold set_leds_off_and_on, autotest_checker. apply logs_get. intros s _.
  destruct (attr_strs _ _) as [av|]; [|apply logs_raise].
  destruct (negb _); [apply passed_quiet, quiet_ret|].
  eapply passed_weaken; [|do 4 skip; apply passed_quiet, quiet_ret]. set_solver.
Qed.

Lemma test_flash_after flash :
  logs (after 0 (only_if (on_has ["test_flash"]) (only_if flash ["test_flash"]))) (test_flash flash).
Proof.
  apply checker_after. destruct flash; cbn [negb only_if]; [|apply after_ret].
  eapply after_weaken; [|skip; apply check_after]. set_solver.
Qed.

Lemma test_pressure_after :
  logs (after 0 (only_if (on_has ["get_pressure"]) ["test_pressure"])) test_pressure.
Proof. apply checker_after. eapply after_weaken; [|skip; apply check_after]. set_solver. Qed.

Lemma test_light_after :
  logs (after 0 (only_if (on_has ["get_light"; "leds_on"; "leds_off"]) ["get_light"])) test_light.
Proof. apply checker_after. eapply after_weaken; [|do 4 skip; apply check_after]. set_solver. Qed.

Lemma pps_skip {A} (m : M (AT N C) A) (k : A → M (AT N C) (Z + Z)) :
  logs (passed []) m →
  (∀ a, logs (λ x, after 0 [] (pps_code x)) (k a)) → logs (λ x, after 0 [] (pps_code x)) (m ≫= k).
Proof.
  intros Hm Hk. eapply logs_bind; [exact Hm|]. intros a su er Ha.
  eapply logs_mono, Hk. intros x su' er' [Hc Hr]. split; [done|].
  intros Hz. by apply (entries_app [] []); [|apply Hr].
Qed.

Lemma pps_end ret op (f : Z → Z + Z) :
  (∀ r, pps_code (f r) = r) →
  logs (λ x, after 0 [] (pps_code x)) (r ← check ret op; mret (f r)).
Proof.
  intros Hf. eapply logs_bind; [apply check_after|]. intros r su er [Hc Hr].
  apply logs_ret. rewrite Hf, !app_nil_r. split; [done|]. intros Hz.
  eapply entries_weaken, Hr, Hz. apply list_subseteq_nil.
Qed.

Lemma pps_loop_after fuel end_time :
  logs (λ x, after 0 [] (pps_code x)) (pps_loop fuel end_time).
Proof.
  induction fuel as [|fuel IH]; simpl.
  { intros s t Hs. split_and!; [done..|]. exists [], []. by rewrite !app_nil_r. }
  apply pps_skip; [apply passed_quiet; eauto with quiet|]. intros now.
  destruct (now <? end_time)%Z; [|by apply pps_end].
  apply pps_skip; [apply passed_quiet; eauto with quiet|]. intros _.
  apply pps_skip; [apply on_call_passed|]. intros [ret answer].
  destruct (ret =? 0)%Z; [|by apply pps_end].
  do 2 (apply pps_skip; [apply passed_quiet; eauto with quiet|]; intros ?).
  destruct (2 <? _)%Z; [by apply pps_end|done].
Qed.

Lemma test_pps_after timeout : logs (after 0 []) (test_pps_open_node timeout).
Proof.
  unfold test_pps_open_node. apply (after_passed _ _ _ 0 [] []); [apply on_call_passed|].
  intros [ret answer]. destruct (negb _).
  { eapply after_weaken, check_after. apply list_subseteq_nil. }
  apply (after_passed _ _ _ 0 [] []); [apply passed_quiet; eauto with quiet|]. intros now.
  eapply logs_bind; [apply pps_loop_after|]. intros [r|r] su er Hr; simpl in Hr.
  - apply logs_ret. by rewrite !app_nil_r.
  - eapply logs_bind; [apply on_call_passed|]. intros ? su' er' Hn. apply logs_ret.
    destruct Hr as [Hc Hr]. split; [done|]. intros Hz. rewrite !app_nil_r.
    by apply (entries_app [] []); [apply Hr|].
Qed.

Lemma test_gps_after gps :
  logs (after 0 (only_if (on_has ["test_pps_start"; "test_pps_get"; "test_pps_stop"])
                   (only_if gps ["test_gps"]))) (test_gps gps).
Proof.
  apply checker_after. destruct gps; cbn [negb only_if]; [|apply after_ret].
  eapply (after_code _ _ _ 0 []); [lia|apply test_pps_after|]. intros r Hr.
  apply check_sum. lia.
Qed.

Lemma test_on_cn_after num cn_command on_cmd args :
  logs (after 0 [hd "" cn_command +:+ "_on_cn"]) (test_on_cn num cn_command on_cmd args).
Proof. unfold test_on_cn. eapply after_weaken; [|count; skip; count; skip; count; sum]. set_solver. Qed.

Lemma test_gpio_after :
  logs (after 0 (only_if (on_has ["test_gpio"]) (only_if (cn_has ["open_node_gpio"])
    ["test_gpio_on_cn"]))) test_gpio.
Proof. apply checker_after, cn_checker_after, test_on_cn_after. Qed.

Lemma test_i2c_after :
  logs (after 0 (only_if (on_has ["test_i2c"]) (only_if (cn_has ["open_node_i2c"])
    ["test_i2c_on_cn"]))) test_i2c.
Proof. apply checker_after, cn_checker_after, test_on_cn_after. Qed.

Lemma radio_ping_pong_after channel :
  logs (after 0 (only_if (on_has ["radio_ping_pong"]) (only_if (cn_has ["radio"])
    (only_if (bool_decide (is_Some channel)) ["test_radio_ping_pong_on_cn"]))))
    (test_radio_ping_pong channel).
Proof.
  apply checker_after, cn_checker_after. destruct channel; [apply test_on_cn_after|apply after_ret].
Qed.

Lemma send_packets_passed cmd : logs (passed []) (send_packets cmd).
Proof.
  unfold send_packets. generalize (seq 0 10). intros l.
  induction l as [|x l IH]; cbn [for_each]; [apply passed_quiet, quiet_ret|].
  apply (passed_bind _ _ _ [] []); [|done].
  apply (passed_bind _ _ _ [] []); [apply on_call_passed|intros _; apply passed_quiet, quiet_sleep].
Qed.

Hint Resolve send_packets_passed : passed.

Lemma radio_with_rssi_after channel :
  logs (after 0 (only_if (on_has ["radio_pkt"]) (only_if (cn_has ["radio"])
    (only_if (bool_decide (is_Some channel)) ["rssi_measures"]))))
    (test_radio_with_rssi channel).
Proof.
  apply checker_after, cn_checker_after.
  apply (after_passed _ _ _ 0 []); [apply passed_quiet, quiet_clear_measures|intros _].
  destruct channel as [channel|]; cbn [bool_decide is_Some]; [|apply after_ret].
  eapply after_weaken; [|skip; count; skip; count; do 3 skip; count; sum]. set_solver.
Qed.

Lemma dc_consumption_passed period : logs (passed []) (dc_consumption period).
Proof.
  apply passed_quiet, quiet_bind; [apply quiet_open_node_alim|intros; apply quiet_lift].
Qed.

Hint Resolve dc_consumption_passed : passed.

Lemma consumption_dc_after :
  logs (after 0 (only_if (cn_has ["consumption"]) ["consumption_dc"])) test_consumption_dc.
Proof.
  apply cn_checker_after.
  eapply after_weaken; [|skip; count; skip; count; skip; count; do 3 skip; count; sum].
  set_solver.
Qed.

Lemma consumption_batt_after : logs (after 0 []) test_consumption_batt.
Proof.
  eapply after_weaken; [|apply cn_checker_after, cn_checker_after, after_ret].
  apply list_subseteq_nil.
Qed.

Lemma leds_loop_passed leds : logs (passed []) (leds_loop leds).
Proof.
  induction leds as [|led leds IH]; cbn [leds_loop]; [apply passed_quiet, quiet_ret|].
  eapply passed_weaken; [|do 5 skip; eapply passed_bind; [exact IH|]; intros ?;
    apply passed_quiet, quiet_ret]. set_solver.
Qed.

Hint Resolve leds_loop_passed : passed.

Lemma leds_consumption_after :
  logs (after 0 (only_if (on_has ["leds_consumption"; "leds_on"; "leds_off"])
    (only_if (cn_has ["consumption"]) ["leds_using_conso"]))) test_leds_with_consumption.
Proof.
  apply checker_after, cn_checker_after.
  eapply after_weaken; [|do 2 skip; count; skip; count; skip; count; do 6 skip; count; sum].
  set_solver.
Qed.

(** *** Setup and teardown *)

Lemma setup_control_node_passed :
  logs (passed ["gw_mac_addr"; "setup_cn_connection"]) setup_control_node.
Proof.
  assert (Hset : logs (after 0 []) (zoom control_node cn_autotest_setup)).
  { apply after_quiet; [apply returns_zoom, cn_autotest_setup_nonneg, _|apply quiet_control_node]. }
  assert (Hmac : logs (passed []) get_local_mac_addr).
  { apply passed_quiet, quiet_bind; [|intros; apply quiet_ret].
    apply quiet_bind; [apply quiet_ask|]. intros []; eauto with quiet. }
  assert (Hrec : ∀ a, logs (passed []) (modify (on_report (set_mac "GWT" a)))).
  { intros a s t Hs. split_and!; [done..|]. exists [], []. rewrite !app_nil_r. by repeat split. }
  apply zero_to_passed. unfold setup_control_node.
  eapply zero_weaken; [|eapply zero_code; [lia|exact Hset|]; intros ret Hret;
    eapply zero_passed; [exact Hmac|]; intros mac; eapply zero_passed; [apply Hrec|]; intros _;
    count; apply zero_assert_eq; lia]. set_solver.
Qed.

Lemma connect_after host op : logs (after 0 [op]) (connect_on_serial host op).
Proof.
  unfold connect_on_serial. eapply after_weaken; [|do 2 skip; apply check_after]. set_solver.
Qed.

Hint Resolve connect_after : after.

Lemma setup_open_node_after :
  logs (after 0 ["open_node_setup"; "open_node_connection"]) setup_open_node.
Proof.
  unfold setup_open_node. eapply after_weaken; [|do 3 skip; do 2 count; sum]. set_solver.
Qed.

Lemma linux_start_passed :
  logs (passed []) (try_except (linux_connection linux_start)
    (λ e, match e with
          | LinuxConnectionError err_msg => Some (assert_ 1 ("linux_node_init_error: " +:+ err_msg))
          | _ => None
          end)).
Proof.
  apply logs_try; [apply passed_quiet, quiet_linux|].
  intros e k He. destruct e; simplify_eq. apply assert_fails.
Qed.

Hint Resolve linux_start_passed : passed.

Lemma setup_linux_after :
  logs (after 0 ["linux_node_setup"; "linux_node_boot_timeout"; "linux_mac_addr";
    "linux_node_flash_autotest"; "linux_open_node_serial"]) setup_linux_open_node.
Proof.
  assert (Hrec : ∀ a, logs (passed []) (modify (on_report (set_mac "ON" a)))).
  { intros a s t Hs. split_and!; [done..|]. exists [], []. rewrite !app_nil_r. by repeat split. }
  unfold setup_linux_open_node. eapply after_weaken; [|do 12 skip; eapply after_passed; [apply Hrec|]; intros _; count;
    do 4 skip; count; sum]. set_solver.
Qed.

(** The entries of the setup of the open node. *)
Definition setup_entries : list string :=
  match lin with
  | Some _ => ["linux_node_setup"; "linux_node_boot_timeout"; "linux_mac_addr";
               "linux_node_flash_autotest"; "linux_open_node_serial"]
  | None => ["open_node_setup"; "open_node_connection"]
  end.

Lemma setup_open_node_connection_passed :
  logs (passed setup_entries) setup_open_node_connection.
Proof.
  apply zero_to_passed. unfold setup_open_node_connection.
  apply (zero_code _ _ _ 0 [] setup_entries); [lia|apply open_node_start_after|intros r Hr].
  apply logs_get. intros s (_ & _ & ->). eapply zero_weaken; [|eapply (zero_code _ _ _ _ setup_entries);
    [lia| |intros r1 Hr1; skip; apply zero_test]].
  - set_solver.
  - pose proof setup_linux_after. pose proof setup_open_node_after.
    unfold setup_entries. by destruct lin.
Qed.

Lemma set_result_leds_after blink : logs (after 0 []) (set_result_leds blink).
Proof.
  eapply after_weaken; [apply list_subseteq_nil|]. apply (checker_after _ _ _ _ _ []).
  apply logs_try.
  - apply (after_passed _ _ _ 0 [] []); [|intros _; apply after_ret].
    unfold set_results_leds_calls. apply (passed_bind _ _ _ [] []); [apply on_call_passed|intros _].
    destruct (negb blink); [apply passed_quiet, quiet_ret|].
    apply (passed_bind _ _ _ [] []); [apply on_call_passed|intros _].
    apply (passed_bind _ _ _ [] []); [|intros _; apply passed_quiet, quiet_ret].
    apply passed_quiet. unfold control_node_leds_blink, autotest_control_node_checker.
    apply quiet_bind; [apply quiet_get|]. intros s. destruct (attr_strs _ _); [|apply quiet_raise].
    unfold class_attr_has. destruct (object_attr_has _ _); [apply quiet_send_words|apply quiet_ret].
  - intros e k He. destruct e; simplify_eq. apply logs_ret. intros su er. by split.
Qed.

Lemma on_serial_stop_after : logs (after 0 []) on_serial_stop.
Proof.
  apply logs_finally; [|by apply quiet_modify]. apply logs_try.
  - apply (after_passed _ _ _ 0 [] []); [apply passed_quiet, quiet_on_serial|intros _; apply after_ret].
  - intros e k He. destruct e; simplify_eq. apply logs_ret. intros su er. by split.
Qed.

Hint Resolve set_result_leds_after on_serial_stop_after : after.

Lemma teardown_open_node_after stop : logs (after 0 []) (teardown_open_node stop).
Proof.
  assert (Hstop : logs (after 0 []) (zoom open_node on_redirection_stop)).
  { apply after_quiet; [apply returns_zoom, on_redirection_stop_nonneg|apply quiet_open_node]. }
  assert (Hdown : logs (after 0 []) (if stop then zoom open_node on_teardown else mret 0%Z)).
  { destruct stop; [|apply after_ret].
    apply after_quiet; [apply returns_zoom, on_teardown_nonneg, _|apply quiet_open_node]. }
  unfold teardown_open_node. eapply after_weaken; [apply list_subseteq_nil|]. do 3 count. sum.
Qed.

Hint Resolve teardown_open_node_after : after.

Lemma teardown_after blink : logs (after 0 ["teardown"]) (teardown blink).
Proof.
  unfold teardown. eapply after_weaken; [|do 3 count; skip; apply check_sum_eq; lia]. set_solver.
Qed.

(** ** All the tests *)

(** Between two statements of [auto_tests]: a code that is 0 only with the entries
    [names] and no counted error. *)
Definition tested (names : list string) (s : AT N C) : Prop :=
  cfg onc cnc lin s ∧ (0 ≤ at_ret_val s)%Z ∧
  (at_ret_val s = 0%Z → entries names (rp_success (at_report s)) (rp_error (at_report s))).

Definition stage {A} (names : list string) (m : M (AT N C) A) : Prop :=
  ∀ l s t, tested l s →
    wp m (λ o s' _, match o with
                    | Val _ => tested (l ++ names) s'
                    | _ => cfg onc cnc lin s' ∧ (0 ≤ at_ret_val s')%Z
                    end) s t.

Lemma stage_passed {A} names (m : M (AT N C) A) : logs (passed names) m → stage names m.
Proof.
  intros Hm l s t (Hc & Hr & Hn). eapply wp_mono, Hm, Hc.
  intros o s' t' (Hc' & Hr' & su & er & Hsu & Her & HP).
  destruct o; [|split; [done|by rewrite Hr']..]. split_and!; [done|by rewrite Hr'|].
  rewrite Hr', Hsu, Her. intros Hz. by apply entries_app; [apply Hn|].
Qed.

Lemma stage_acc names (m : M (AT N C) Z) : logs (after 0 names) m → stage names (acc m).
Proof.
  intros Hm l s t (Hc & Hr & Hn). unfold acc. apply wp_bind. eapply wp_mono, Hm, Hc.
  intros o s' t' (Hc' & Hr' & su & er & Hsu & Her & HP).
  destruct o as [r|e|]; [|split; [done|by rewrite Hr']..]. destruct HP as [Hge HP].
  unfold wp, modify. split_and!; [done|simpl; lia|]. simpl. rewrite Hr', Hsu, Her.
  intros Hz. apply entries_app; [apply Hn|apply HP]; lia.
Qed.

Lemma stage_bind {A B} n1 n2 (m : M (AT N C) A) (k : A → M (AT N C) B) :
  stage n1 m → (∀ a, stage n2 (k a)) → stage (n1 ++ n2) (m ≫= k).
Proof.
  intros Hm Hk l s t Hs. apply wp_bind. eapply wp_mono, Hm, Hs.
  intros [a|e|] s1 t1 H1; [|done..]. rewrite (assoc_L (++)). by apply Hk.
Qed.

Lemma stage_skip {A B} n (m : M (AT N C) A) (k : A → M (AT N C) B) :
  logs (passed []) m → (∀ a, stage n (k a)) → stage n (m ≫= k).
Proof. intros Hm Hk. apply (stage_bind [] n); [by apply stage_passed|done]. Qed.

(** The entries a report of code 0 has. *)
Definition expected (channel : option Z) (flash gps : bool) : list string :=
  let radio names := only_if (cn_has ["radio"]) (only_if (bool_decide (is_Some channel)) names) in
  ["gw_mac_addr"; "setup_cn_connection"] ++ setup_entries ++
  ["on_serial_echo"] ++ ["on_serial_get_time"] ++ ["switch_to_dc"] ++
  only_if (on_has ["get_gyro"]) ["get_gyro"] ++
  only_if (on_has ["get_magneto"]) ["get_magneto"] ++
  only_if (on_has ["get_accelero"]) ["get_accelero"] ++
  only_if (on_has ["test_gpio"]) (only_if (cn_has ["open_node_gpio"]) ["test_gpio_on_cn"]) ++
  only_if (on_has ["test_i2c"]) (only_if (cn_has ["open_node_i2c"]) ["test_i2c_on_cn"]) ++
  only_if (on_has ["radio_ping_pong"]) (radio ["test_radio_ping_pong_on_cn"]) ++
  only_if (on_has ["radio_pkt"]) (radio ["rssi_measures"]) ++
  only_if (cn_has ["consumption"]) ["consumption_dc"] ++
  only_if (on_has ["leds_consumption"; "leds_on"; "leds_off"])
    (only_if (cn_has ["consumption"]) ["leds_using_conso"]) ++
  only_if (on_has ["get_pressure"]) ["test_pressure"] ++
  only_if (on_has ["get_light"; "leds_on"; "leds_off"]) ["get_light"] ++
  only_if (on_has ["test_flash"]) (only_if flash ["test_flash"]) ++
  only_if (on_has ["test_pps_start"; "test_pps_get"; "test_pps_stop"])
    (only_if gps ["test_gps"]).

Lemma all_tests_stage channel flash gps :
  stage (expected channel flash gps) (all_tests channel flash gps).
Proof.
  assert (Hecho : logs (passed ["on_serial_echo"]) check_echo).
  { eapply passed_weaken; [|unfold check_echo; skip; apply assert_passed]. set_solver. }
  assert (Htime : logs (passed ["on_serial_get_time"]) check_get_time).
  { eapply passed_weaken; [|unfold check_get_time; do 2 skip; apply assert_passed]. set_solver. }
  assert (Hdc : logs (passed []) open_node_start).
  { unfold open_node_start, autotest_control_node_checker, class_attr_has. apply passed_quiet.
    apply quiet_bind; [apply quiet_get|]. intros s. repeat case_match; eauto with quiet. }
  unfold all_tests, expected. cbv zeta.
  apply stage_bind; [apply stage_passed, setup_control_node_passed|intros _].
  apply (stage_bind []); [apply stage_acc, consumption_batt_after|intros _].
  apply stage_bind; [apply stage_passed, setup_open_node_connection_passed|intros _].
  apply stage_skip; [apply passed_quiet, quiet_sleep|intros _].
  apply stage_bind; [by apply stage_passed|intros _].
  apply stage_bind; [by apply stage_passed|intros _].
  apply stage_skip; [apply get_uid_passed|intros _].
  apply stage_skip; [done|intros ret].
  apply stage_bind; [apply stage_acc, check_after|intros _].
  apply stage_skip; [apply set_leds_passed|intros _].
  do 3 (apply stage_bind; [apply stage_acc, checker_after, xyz_after|intros _]).
  apply stage_bind; [apply stage_acc, test_gpio_after|intros _].
  apply stage_bind; [apply stage_acc, test_i2c_after|intros _].
  apply stage_bind; [apply stage_acc, radio_ping_pong_after|intros _].
  apply stage_bind; [apply stage_acc, radio_with_rssi_after|intros _].
  apply stage_bind; [apply stage_acc, consumption_dc_after|intros _].
  apply stage_bind; [apply stage_acc, leds_consumption_after|intros _].
  apply stage_bind; [apply stage_acc, test_pressure_after|intros _].
  apply stage_bind; [apply stage_acc, test_light_after|intros _].
  apply stage_bind; [apply stage_acc, test_flash_after|intros _].
  apply stage_acc, test_gps_after.
Qed.

(** What [auto_tests] returns, from the report of a new manager. *)
Lemma auto_tests_wp channel blink flash gps (s : AT N C) t :
  cfg onc cnc lin s → at_report s = report_init →
  wp (auto_tests channel blink flash gps)
     (λ o _ _, match o with
               | Val rep => ∃ r, rp_ret rep = Some r ∧ (0 ≤ r)%Z ∧
                   (r = 0%Z → entries (expected channel flash gps ++ ["teardown"])
                                (rp_success rep) (rp_error rep))
               | _ => True
               end) s t.
Proof.
  intros Hs Hrep. unfold auto_tests. apply wp_bind. unfold wp at 1, modify.
  apply wp_bind, wp_try_except.
  eapply wp_mono; [|apply (all_tests_stage channel flash gps []); split_and!; [done|done|]].
  2: { intros _. simpl. rewrite Hrep. by split. }
  assert (Hrest : ∀ (s1 : AT N C) t1, tested (expected channel flash gps) s1 →
    wp (s ← get; acc (teardown (blink && (at_ret_val s =? 0)%Z)) ;;
        modify (λ s, on_report (set_ret (at_ret_val s)) s) ;; gets at_report)
     (λ o _ _, match o with
               | Val rep => ∃ r, rp_ret rep = Some r ∧ (0 ≤ r)%Z ∧
                   (r = 0%Z → entries (expected channel flash gps ++ ["teardown"])
                                (rp_success rep) (rp_error rep))
               | _ => True
               end) s1 t1).
  { intros s1 t1 H1. apply wp_bind. unfold wp at 1, get. apply wp_bind.
    eapply wp_mono; [|by apply (stage_acc _ _ (teardown_after _))].
    intros [a|e|] s2 t2; [|done..]. intros (_ & Hr & Hn). apply wp_bind. unfold wp, modify, gets.
    simpl. by eexists. }
  intros [a|e|] s1 t1; simpl; [apply Hrest| |done].
  intros [Hc1 Hr1]. destruct e; try done. unfold wp at 1, modify. apply Hrest.
  split_and!; [done|simpl; lia|]. simpl. intros Hz. lia.
Qed.
End tests.

(** ** Termination of the GPS test *)

Section gps.
Context `{E : Env} {N C : Type} `{!OpenNodeOps N} `{!ControlNodeOps C}.

(** A call of the open node ends, and does not sleep. *)
Lemma on_call_run cmd (s : AT N C) t :
  ∃ o s' u, on_call cmd s t = (o, s', t ++ u) ∧ slept u = 0%Z ∧ o ≠ Hang.
Proof.
  assert (Hsend : ∀ c t, ∃ o c' u, conn_send_command cmd c t = (o, c', t ++ u) ∧
    slept u = 0%Z ∧ o ≠ Hang).
  { clear. intros c t. unfold conn_send_command, writeline, readline, need_fd, get, ask, mbind,
      M_bind, mret, M_ret, raise, modify.
    destruct (nc_open c) eqn:Ho; [|by exists (Exn AttributeError), c, []; rewrite app_nil_r].
    destruct (env_sock_write _ _); [by eexists _, _, _|]. simpl. rewrite Ho, <- (assoc_L (++)).
    by eexists _, _, _. }
  assert (Hcmd : ∃ o s1 u, on_serial_send_command cmd s t = (o, s1, t ++ u) ∧
    slept u = 0%Z ∧ o ≠ Hang).
  { unfold on_serial_send_command, add_tested.
    set (f := on_tested _). erewrite bind_run by reflexivity. unfold on_serial, on_attr.
    destruct (at_on_serial (f s)) as [c|];
      [|by exists (Exn AttributeError), (f s), []; rewrite app_nil_r].
    destruct (Hsend c t) as (o & c' & u & -> & Hu & Ho). by eexists o, _, u. }
  destruct Hcmd as (o & s1 & u & Hrun & Hu & Ho). unfold on_call.
  destruct o as [answer|e|]; [|exists (Exn e), s1, u; unfold mbind, M_bind; by rewrite Hrun|done].
  rewrite (bind_run _ _ _ _ _ _ _ Hrun). destruct (acked cmd answer).
  - by eexists (Val _), _, u.
  - by eexists (Val _), _, u.
Qed.

(** The loop returns or raises when its fuel covers the time left. *)
Lemma pps_loop_ends `{!ControlNodeLaws C} `{!ClockOk} fuel end_time (s : AT N C) t :
  1 ≤ fuel → (end_time ≤ env_time t + 5000 * (Z.of_nat fuel - 1))%Z →
  fst (fst (pps_loop fuel end_time s t)) ≠ Hang.
Proof.
  revert s t. induction fuel as [|fuel IH]; intros s t Hf Hend; [lia|]. cbn [pps_loop].
  unfold p_time, ask, mbind at 1, M_bind at 1.
  pose proof (clock_ok t [EvTime]) as Ht1. simpl in Ht1.
  destruct (Z.ltb_spec (env_time (t ++ [EvTime])) end_time) as [Hlt|Hge]; [|done].
  unfold sleep, zoom, mbind at 1, M_bind at 1.
  destruct (cn_pause_sleeps 5000 (lget control_node s) (t ++ [EvTime])) as [c' ->].
  unfold mbind at 1, M_bind at 1.
  set (t2 := (t ++ [EvTime]) ++ [EvSleep 5000]).
  pose proof (clock_ok (t ++ [EvTime]) [EvSleep 5000]) as Ht2. fold t2 in Ht2. simpl in Ht2.
  match goal with |- context [on_call ?c ?s2 t2] =>
    destruct (on_call_run c s2 t2) as (o & s3 & u & -> & Hu & Ho) end.
  pose proof (clock_ok t2 u) as Ht3. rewrite Hu in Ht3.
  destruct o as [[ret answer]|e|]; [|done..].
  destruct (ret =? 0)%Z; [|done].
  unfold lift, mbind, M_bind. destruct (nth_word answer 2) as [w|e|] eqn:Hw; [|done|].
  2: { unfold nth_word in Hw. by case_match. }
  destruct (str_int w) as [n|e|] eqn:Hn; [|done|].
  2: { unfold str_int in Hn. by case_match. }
  destruct (2 <? n)%Z; [done|]. apply IH; lia.
Qed.
End gps.

(** ** Failures that escape *)

Section escapes.
Context `{E : Env} {N C : Type} `{!OpenNodeOps N} `{!ControlNodeOps C}.

(** A sequence whose first statement raises. *)
Lemma bind_run_Exn {St A B} (m : M St A) (k : A → M St B) s t e s1 t1 :
  m s t = (Exn e, s1, t1) → (m ≫= k) s t = (Exn e, s1, t1).
Proof. intros Hm. unfold mbind, M_bind. by rewrite Hm. Qed.

(** Nothing connects before the control node is set up. *)
Lemma preserves_not_connected_check ret op :
  preserves (λ s : AT N C, at_on_serial s = None) (check ret op).
Proof. unfold check. preserve. Qed.

Lemma setup_control_node_serial :
  preserves (λ s : AT N C, at_on_serial s = None) setup_control_node.
Proof.
  pose proof preserves_not_connected_check.
  unfold setup_control_node, assert_, get_local_mac_addr, check_output. preserve.
Qed.

Lemma open_node_start_serial :
  preserves (λ s : AT N C, at_on_serial s = None) open_node_start.
Proof.
  unfold open_node_start, autotest_control_node_checker, class_attr_has. preserve.
Qed.

(** A call without connection. *)
Lemma on_call_none cmd (s : AT N C) t :
  at_on_serial s = None →
  on_call cmd s t = (Exn AttributeError, on_tested (λ f, list_to_set (take 1 cmd) ∪ f) s, t).
Proof.
  intros Hs. unfold on_call, on_serial_send_command, add_tested.
  unfold mbind, M_bind. unfold modify, on_serial, on_attr. simpl. by rewrite Hs.
Qed.

(** The result of the leds without connection. *)
Lemma set_result_leds_none blink (s : AT N C) t available :
  attr_strs (default (at_on_class s) (at_linux_on_class s)) "AUTOTEST_AVAILABLE" = Some available →
  object_attr_has available ["leds_off"; "leds_blink"] = true →
  at_on_serial s = None →
  ∃ s', set_result_leds blink s t = (Exn AttributeError, s', t).
Proof.
  intros Hav Hleds Hs. unfold set_result_leds, autotest_checker.
  erewrite bind_run by reflexivity. cbv zeta. rewrite Hav, Hleds. cbn [negb].
  unfold add_tested. erewrite bind_run by reflexivity. unfold try_except.
  eexists. unfold set_results_leds_calls. unfold mbind at 1 2, M_bind at 1 2.
  rewrite on_call_none by done. reflexivity.
Qed.

(** A connection that cannot be opened is left without a file. *)
Lemma conn_start_refused c t :
  (∀ u host port, env_connect u host port ≠ None) →
  ∃ t', conn_start c t = (Val 1%Z, c, t').
Proof.
  intros Hno. unfold conn_start. erewrite bind_run by reflexivity. unfold try_except.
  destruct (try_connect_run (nc_host c) (nc_port c) 9 c t) as (k & _ & _ & Hrun & _).
  unfold mbind, M_bind. rewrite Hrun.
  destruct (env_connect _ _ _) eqn:Hc; [by eexists|by apply Hno in Hc].
Qed.

Lemma connect_refused host op (s : AT N C) t :
  (∀ u host port, env_connect u host port ≠ None) →
  ∃ s' t', connect_on_serial host op s t = (Val 1%Z, s', t') ∧
    at_on_serial s' = Some (conn_new host).
Proof.
  intros Hno. unfold connect_on_serial. erewrite bind_run by reflexivity.
  destruct (conn_start_refused (conn_new host) t Hno) as [t' Hrun].
  erewrite bind_run by (unfold on_serial, on_attr; simpl; by rewrite Hrun).
  eexists _, t'. split; reflexivity.
Qed.

Lemma empty_refused host (s : AT N C) t fuel :
  env_patience = S fuel → at_on_serial s = Some (conn_new host) →
  on_serial conn_empty s t = (Exn AttributeError, s, t).
Proof.
  intros Hf Hs. unfold on_serial, on_attr, conn_empty. rewrite Hs, Hf. simpl.
  unfold readline, need_fd, mbind, M_bind, get. simpl. do 2 f_equal.
  destruct s; simpl in *. by subst.
Qed.
End escapes.

(** ** Properties *)

(** C7: what the code of the autotests means.  For any nodes that obey the laws of
    their interfaces, in a world where no command ends on a signal, a run of all the
    tests that returns gives a code that is never negative; and when it is 0, every
    test that the board, its control node and the options allow is among the
    successes, with the setup and the teardown, and the only entries among the errors
    are commands that were not acknowledged and the identifier of the node. *)
Theorem auto_tests_zero `{Env} {N C : Type} `{!OpenNodeOps N} `{!ControlNodeOps C}
    `{!OpenNodeLaws N} `{!ControlNodeLaws C} `{!StatusOk}
    (b : BoardConfig) (on : N) (cn : C) (channel : option Z) (blink flash gps : bool)
    (t t' : trace) (rep : Report) (nodes : N * C)
    (Hrun : run_auto_tests b channel blink flash gps (on, cn) t = (Val rep, nodes, t')) :
  ∃ r, rp_ret rep = Some r ∧ (0 ≤ r)%Z ∧
    (r = 0%Z →
       Forall (.∈ rp_success rep)
         (expected (bc_board_class b) (bc_cn_class b) (bc_linux_on_class b) channel flash gps
          ++ ["teardown"]) ∧
       Forall uncounted (rp_error rep)).
Proof.
  unfold run_auto_tests in Hrun.
  pose proof (auto_tests_wp (bc_board_class b) (bc_cn_class b) (bc_linux_on_class b)
    channel blink flash gps (at_new b on cn) t) as Hw. unfold wp in Hw.
  destruct (auto_tests _ _ _ _ _ _) as [[o s'] t1]. injection Hrun as -> <- <-.
  destruct Hw as (r & Hret & Hr & He); [repeat split|reflexivity|].
  exists r. split; [exact Hret|]. split; [exact Hr|]. intros Hz. destruct (He Hz). by split.
Qed.

(** The firmware of the autotests: it answers every command; the numbers it gives
    change with the time. *)
Definition last_command (t : trace) : option string :=
  last (omap (λ ev, match ev with EvSockWrite l => Some l | _ => None end) t).

Definition firmware_answer (t : trace) : Z + string :=
  match last_command t with
  | None => inl 0%Z
  | Some line =>
      let cmd := hd "" (str_split " "%char (str_strip line)) in
      inr ((if bool_decide (cmd = "echo") then "HELLO WORLD"
            else "ACK " +:+ cmd +:+ " " +:+ str_of_Z (Z.of_nat (length t)) +:+ " 1.5 2.5")
           +:+ String nl "")
  end.

Definition firmware_env : Env :=
  world calm_call calm_start calm_reader calm_read calm_sread slept calm_connect
    firmware_answer calm_output.

#[global] Instance firmware_status : @StatusOk firmware_env.
Proof. intros t argv code [= <-]. lia. Qed.

#[global] Instance firmware_clock : @ClockOk firmware_env.
Proof. intros t u. simpl. rewrite slept_app. lia. Qed.

(** An M3 board without control node. *)
Definition m3_board : BoardConfig :=
  MkBoardConfig (@NodeM3 calm_env) ControlNodeNo None None "m3_12" (Some demo_profile).

Definition m3_tests : outcome Report * (OpenOCDNode.node * CnNo.node) * trace :=
  @run_auto_tests firmware_env _ _ _ _ m3_board None true true false
    (m3_node, CnNo.init "m3_12" (Some demo_profile)) [].

Definition m3_report : Report :=
  match fst (fst m3_tests) with Val rep => rep | _ => report_init end.

Lemma auto_tests_zero_witness :
  rp_ret m3_report = Some 0%Z ∧ "get_gyro" ∈ rp_success m3_report ∧
  Forall uncounted (rp_error m3_report).
Proof.
  assert (Hrun : @run_auto_tests firmware_env OpenOCDNode.node CnNo.node _ _ m3_board None true
    true false (m3_node, CnNo.init "m3_12" (Some demo_profile)) [] =
    (Val m3_report, snd (fst m3_tests), snd m3_tests)) by (vm_compute; reflexivity).
  destruct (@auto_tests_zero firmware_env _ _ _ _ openocd_node_laws no_laws firmware_status
    m3_board m3_node (CnNo.init "m3_12" (Some demo_profile)) None true true false []
    (snd m3_tests) m3_report (snd (fst m3_tests)) Hrun) as (r & Hret & _ & Hz).
  assert (Hr : rp_ret m3_report = Some 0%Z) by (vm_compute; reflexivity).
  assert (r = 0%Z) as -> by congruence. destruct (Hz eq_refl) as [Hn He].
  split; [exact Hr|]. split; [|exact He].
  apply (proj1 (Forall_forall _ _) Hn). vm_compute. do 7 right. left.
Defined.

(** A control node that cannot be set up makes the autotests crash.  The failure
    is fatal and the tests stop, but the teardown then asks the open node to switch
    its leds off, on a connection that does not exist yet: on every board with leds
    the run ends on an [AttributeError], without a report. *)
Theorem fatal_setup_escapes `{Env} {N C : Type} `{!OpenNodeOps N} `{!ControlNodeOps C}
    (channel : option Z) (blink flash gps : bool) (s s1 s2 : AT N C) (t t1 t2 : trace) (r : Z)
    (available : list string)
    (Hserial : at_on_serial s = None)
    (Hsetup : setup_control_node (on_tested (λ _, ∅) (put_ret_val 0 s)) t =
      (Exn FatalError, s1, t1))
    (Hdc : open_node_start (put_ret_val (at_ret_val s1 + 1) s1) t1 = (Val r, s2, t2))
    (Havail : attr_strs (default (at_on_class s2) (at_linux_on_class s2)) "AUTOTEST_AVAILABLE" =
      Some available)
    (Hleds : object_attr_has available ["leds_off"; "leds_blink"] = true) :
  ∃ s', auto_tests channel blink flash gps s t = (Exn AttributeError, s', t2).
Proof.
  assert (Hs1 : at_on_serial s1 = None)
    by exact (preserves_run _ _ _ _ _ _ _ setup_control_node_serial Hsetup Hserial).
  assert (Hs2 : at_on_serial s2 = None)
    by exact (preserves_run _ _ _ _ _ _ _ open_node_start_serial Hdc Hs1).
  destruct (set_result_leds_none (blink && (at_ret_val s1 + 1 =? 0)%Z) s2 t2 available Havail
    Hleds Hs2) as [s' Hl].
  unfold auto_tests. erewrite bind_run by reflexivity.
  erewrite (bind_run _ _ _ _ tt).
  2: { unfold try_except, all_tests. unfold mbind at 1, M_bind at 1. by rewrite Hsetup. }
  erewrite bind_run by reflexivity. exists s'. apply bind_run_Exn. unfold acc.
  apply bind_run_Exn. unfold teardown. rewrite (bind_run _ _ _ _ _ _ _ Hdc).
  by apply bind_run_Exn.
Qed.

(** The manager of the autotests of the M3 board. *)
Definition m3_manager (E : Env) : AT OpenOCDNode.node CnNo.node :=
  @at_new E _ _ _ m3_board m3_node (CnNo.init "m3_12" None).

(** A gateway that does not know its address. *)
Definition no_mac_env : Env :=
  world calm_call calm_start calm_reader calm_read calm_sread slept calm_connect
    firmware_answer (λ _ _, OutText "unknown").

Lemma fatal_setup_escapes_witness :
  ∃ s', @auto_tests no_mac_env _ _ _ _ None true true false
    (m3_manager no_mac_env) [] = (Exn AttributeError, s', [EvCheckOutput ["/bin/sh"; "-c"; LINUX_MAC_CMD]]).
Proof.
  eapply (@fatal_setup_escapes no_mac_env _ _ _ _ None true true false
    (m3_manager no_mac_env) _ _ []);
    [reflexivity|vm_compute; reflexivity|vm_compute; reflexivity|vm_compute; reflexivity
    |vm_compute; reflexivity].
Defined.

(** An open node that cannot be reached makes the autotests crash too.  When no
    connection to its serial link is accepted, the failure is recorded, but the lines
    of the connection are then read before it is looked at: the setup ends on an
    [AttributeError] instead of the fatal error, and [auto_tests] lets it through
    without any teardown. *)
Theorem failed_connection_escapes `{Env} {N C : Type} `{!OpenNodeOps N} `{!ControlNodeOps C}
    (s s0 s1 : AT N C) (t t0 t1 : trace) (r0 r1 : Z) (n : nat)
    (Hpatience : env_patience = S n)
    (Hno : ∀ u host port, env_connect u host port ≠ None)
    (Hdc : open_node_start s t = (Val r0, s0, t0))
    (Hlinux : at_linux_on_class s0 = None)
    (Hsetup : setup_open_node s0 t0 = (Val r1, s1, t1)) :
  "open_node_connection" ∈ rp_error (at_report s1) ∧
  setup_open_node_connection s t = (Exn AttributeError, s1, t1).
Proof.
  assert (Hs1 : at_on_serial s1 = Some (conn_new "localhost") ∧
    "open_node_connection" ∈ rp_error (at_report s1)).
  { unfold setup_open_node in Hsetup.
    apply M_bind_Val in Hsetup as (? & ? & ? & _ & Hsetup).
    apply M_bind_Val in Hsetup as (fw & ? & ? & _ & Hsetup).
    apply M_bind_Val in Hsetup as (ret & ? & ? & _ & Hsetup).
    apply M_bind_Val in Hsetup as (r & s2 & t2 & _ & Hsetup).
    apply M_bind_Val in Hsetup as (r' & s3 & t3 & Hconn & [= _ <- <-]).
    unfold connect_on_serial in Hconn.
    apply M_bind_Val in Hconn as (? & ? & ? & [= _ <- <-] & Hconn).
    destruct (conn_start_refused (conn_new "localhost") t2 Hno) as [t4 Hstart].
    apply M_bind_Val in Hconn as (ret' & s4 & t5 & Hon & Hconn).
    unfold on_serial, on_attr in Hon. simpl in Hon. rewrite Hstart in Hon.
    injection Hon as <- <- <-. unfold check in Hconn. simpl in Hconn.
    injection Hconn as _ <- _. split; [done|]. simpl. apply elem_of_app. right. left. }
  destruct Hs1 as [Hserial Herr]. split; [done|].
  unfold setup_open_node_connection. rewrite (bind_run _ _ _ _ _ _ _ Hdc).
  erewrite bind_run by reflexivity. rewrite Hlinux, (bind_run _ _ _ _ _ _ _ Hsetup).
  unfold mbind, M_bind. by rewrite (empty_refused "localhost" s1 t1 n Hpatience Hserial).
Qed.

(** A gateway whose serial redirection refuses the connections. *)
Definition refused_env : Env :=
  world calm_call calm_start calm_reader calm_read calm_sread slept (λ _ _ _, Some 111%Z)
    firmware_answer calm_output.

Definition refused_setup : outcome Z * AT OpenOCDNode.node CnNo.node * trace :=
  @setup_open_node refused_env _ _ _ (m3_manager refused_env) [].

Lemma failed_connection_escapes_witness :
  fst (fst (@setup_open_node_connection refused_env _ _ _ _ (m3_manager refused_env) [])) =
  Exn AttributeError.
Proof.
  destruct (@failed_connection_escapes refused_env _ _ _ _
    (m3_manager refused_env) (m3_manager refused_env) (snd (fst refused_setup)) [] []
    (snd refused_setup) 0%Z 1%Z 99) as [_ Hrun];
    [reflexivity|discriminate|reflexivity|reflexivity|vm_compute; reflexivity|].
  rewrite Hrun. reflexivity.
Defined.

(** C30: the GPS test ends.  Whatever the open node answers, when the clock does not
    stop, the test of the pulses returns or raises: its loop sleeps five seconds at
    each turn and ends with its timeout. *)
Theorem gps_test_ends `{Env} {N C : Type} `{!OpenNodeOps N} `{!ControlNodeOps C}
    `{!ControlNodeLaws C} `{!ClockOk} (timeout : Z) (s : AT N C) (t : trace)
    (Htimeout : (0 ≤ timeout)%Z) :
  fst (fst (test_pps_open_node timeout s t)) ≠ Hang.
Proof.
  unfold test_pps_open_node. unfold mbind at 1, M_bind at 1.
  destruct (on_call_run ["test_pps_start"] s t) as (o & s1 & u & -> & _ & Ho).
  destruct o as [[ret answer]|e|]; [|done..]. destruct (negb _); [done|].
  unfold p_time, ask, mbind at 1, M_bind at 1. unfold mbind at 1, M_bind at 1.
  set (t1 := (t ++ u) ++ [EvTime]).
  pose proof (pps_loop_ends (pps_fuel timeout) (env_time t1 + timeout) s1 t1) as Hend.
  destruct (pps_loop _ _ s1 t1) as [[o2 s2] t2]. simpl in Hend.
  destruct o2 as [[r|r]|e|]; [done| |done|].
  - unfold mbind, M_bind. destruct (on_call_run ["test_pps_stop"] s2 t2) as (o & s3 & u' & -> & _ & Ho2).
    by destruct o as [[]|e|].
  - intros _. apply Hend; [unfold pps_fuel; lia| |done]. unfold pps_fuel.
    pose proof (Z.mod_pos_bound timeout 5000). pose proof (Z.div_mod timeout 5000).
    pose proof (Z.div_pos timeout 5000). lia.
Qed.

Lemma gps_test_ends_witness :
  fst (fst (@test_pps_open_node firmware_env _ CnNo.node _ 120000
    (m3_manager firmware_env) [])) ≠ Hang.
Proof.
  apply (@gps_test_ends firmware_env OpenOCDNode.node CnNo.node _ _ no_laws firmware_clock 120000).
  lia.
Defined.

(** The radio test with the signal strength says nothing of a dead radio.  Its
    verdict on the values measured is a failure exactly when there are values and
    all of them are -91, the value without any radio signal; without any measure at
    all, the test passes. *)
Theorem rssi_verdict (values : list Z) :
  rssi_ok values = false ↔ values ≠ [] ∧ Forall (λ v, v = (-91)%Z) values.
Proof.
  unfold rssi_ok. rewrite negb_false_iff, bool_decide_eq_true, Forall_forall. split.
  - intros Heq. split; [intros ->; set_solver|]. intros v Hv. set_solver.
  - intros [Hne Hall]. destruct values as [|v values]; [done|]. set_solver.
Qed.
