(* ===== verification/GatewayManager.v ===== *)
(** * Gateway manager ([gateway_code/gateway_manager.py])

    The experiment life cycle: [exp_start], [exp_stop], the expiration timer, the
    commands on the nodes, the user's experiment files.  Every public method runs
    under the non-blocking re-entrant lock [rlock]; [tid] is the calling thread.
    The open node and the control node are any instances of the interfaces. *)

From S2P Require Import Prelude PyString Effects PyVal Profile Common Config Nodes.
From S2P Require Import NodeClasses BoardConfig Interfaces OpenNodes ControlNodes Programmers ExternalProcess Autotest.

(** [re.match('^nrf52[0-9]{0,3}dk$', board)]: [$] also matches before a final
    newline *)
Fixpoint digits_dk (n : nat) (s : string) : bool :=
  bool_decide (s = "dk") || bool_decide (s = "dk" +:+ String "010"%char "") ||
  match n, s with
  | S n, String c s => is_digit c && digits_dk n s
  | _, _ => false
  end.

Definition board_require_power_cycle (board : string) : bool :=
  str_startswith "nrf52" board &&
  digits_dk 3 (String.substring 5 (String.length board - 5) board).

(** ** State *)

Record GM (N C : Type) := MkGM {
  gm_board_cfg : BoardConfig;
  gm_rlock : RLock;
  gm_open_node : N;
  gm_control_node : C;
  gm_exp_id : option Z;
  gm_user : option string;
  gm_exp_files : exp_files;
  gm_running : bool;                      (* experiment_is_running *)
  gm_handler : option string;             (* user_log_handler, by its file *)
  gm_timer : option (Z * string)          (* timeout_timer, by its arguments *)
}.
Arguments MkGM {N C}.
Arguments gm_board_cfg {N C}.
Arguments gm_rlock {N C}.
Arguments gm_open_node {N C}.
Arguments gm_control_node {N C}.
Arguments gm_exp_id {N C}.
Arguments gm_user {N C}.
Arguments gm_exp_files {N C}.
Arguments gm_running {N C}.
Arguments gm_handler {N C}.
Arguments gm_timer {N C}.

(** What an operation returns: a status code, or the report of the autotests. *)
Inductive reply := Code (r : Z) | Tests (report : Report).

Section state.
Context {N C : Type}.
Implicit Type g : GM N C.

Definition set_exp (e : option Z) (u : option string) (running : bool) g : GM N C :=
  MkGM (gm_board_cfg g) (gm_rlock g) (gm_open_node g) (gm_control_node g) e u
    (gm_exp_files g) running (gm_handler g) (gm_timer g).
Definition set_files (f : exp_files) g : GM N C :=
  MkGM (gm_board_cfg g) (gm_rlock g) (gm_open_node g) (gm_control_node g) (gm_exp_id g)
    (gm_user g) f (gm_running g) (gm_handler g) (gm_timer g).
Definition set_handler (h : option string) g : GM N C :=
  MkGM (gm_board_cfg g) (gm_rlock g) (gm_open_node g) (gm_control_node g) (gm_exp_id g)
    (gm_user g) (gm_exp_files g) (gm_running g) h (gm_timer g).
Definition set_timer (x : option (Z * string)) g : GM N C :=
  MkGM (gm_board_cfg g) (gm_rlock g) (gm_open_node g) (gm_control_node g) (gm_exp_id g)
    (gm_user g) (gm_exp_files g) (gm_running g) (gm_handler g) x.

Definition rlock : lens (GM N C) RLock :=
  Lens gm_rlock (λ x g, MkGM (gm_board_cfg g) x (gm_open_node g) (gm_control_node g)
    (gm_exp_id g) (gm_user g) (gm_exp_files g) (gm_running g) (gm_handler g) (gm_timer g)).
Definition open_node : lens (GM N C) N :=
  Lens gm_open_node (λ x g, MkGM (gm_board_cfg g) (gm_rlock g) x (gm_control_node g)
    (gm_exp_id g) (gm_user g) (gm_exp_files g) (gm_running g) (gm_handler g) (gm_timer g)).
Definition control_node : lens (GM N C) C :=
  Lens gm_control_node (λ x g, MkGM (gm_board_cfg g) (gm_rlock g) (gm_open_node g) x
    (gm_exp_id g) (gm_user g) (gm_exp_files g) (gm_running g) (gm_handler g) (gm_timer g)).

(** The two nodes, which the autotests are given. *)
Definition nodes : lens (GM N C) (N * C) :=
  Lens (λ g, (gm_open_node g, gm_control_node g))
    (λ '(on, cn) g, MkGM (gm_board_cfg g) (gm_rlock g) on cn (gm_exp_id g) (gm_user g)
       (gm_exp_files g) (gm_running g) (gm_handler g) (gm_timer g)).

#[global] Instance rlock_laws : LensLaws rlock.
Proof. split; by intros; try destruct s. Qed.
#[global] Instance open_node_laws : LensLaws open_node.
Proof. split; by intros; try destruct s. Qed.
#[global] Instance control_node_laws : LensLaws control_node.
Proof. split; by intros; try destruct s. Qed.
End state.

(** ** Operations *)

Section manager.
Context `{E : Env} {N C : Type} `{!OpenNodeOps N} `{!ControlNodeOps C}.

(** [__init__]: the nodes are built by the classes of the configuration *)
Definition gm_init (b : BoardConfig) (on : N) (cn : C) : GM N C :=
  MkGM b rl_free on cn None None ∅ false None None.

(** [@common.synchronous('rlock')] *)
Definition locked {A} (tid : nat) (m : M (GM N C) A) : M (GM N C) A :=
  synchronous rlock tid m.

(** *** User files *)

(** [create_user_exp_files(node_id, user, exp_id)] *)
Fixpoint create_files {St} (exp_dir : string) (l : list (string * string)) (files : exp_files)
    : M St exp_files :=
  match l with
  | [] => mret files
  | (name, file) :: l =>
      path ← create_user_file (path_join exp_dir file);
      create_files exp_dir l (<[name := path]> files)
  end.

Definition create_user_exp_files {St} (node_id user : string) (exp_id : Z) : M St exp_files :=
  create_files (EXP_FILES_DIR user (str_of_Z exp_id)) (EXP_FILES node_id) ∅.

(** [cleanup_user_exp_files(exp_files)] *)
Definition cleanup_user_exp_files {St} (files : exp_files) : M St unit :=
  for_each (map_to_list files) (λ kf, clean_user_file kf.2).

(** [_create_user_exp_folders(user, exp_id)] *)
Definition create_user_exp_folders {St} (node_id user : string) (exp_id : Z) : M St unit :=
  for_each (EXP_FILES node_id).*1 (λ file_dir,
    let path := EXP_FILES_DIR user (str_of_Z exp_id) +:+ file_dir in
    ask (EvMakedirs path) (λ t, env_makedirs t path) ;; mret tt).

(** [_destroy_user_exp_folders(user, exp_id)] *)
Definition destroy_user_exp_folders {St} (user : string) (exp_id : Z) : M St unit :=
  let path := EXP_FILES_DIR user (str_of_Z exp_id) in
  ask (EvRmtree path) (λ t, env_rmtree t path) ;; mret tt.

(** [gateway_logging.user_logger(log_file_path)]: the file is opened *)
Definition user_logger {St} (log_file_path : string) : M St string :=
  p_open log_file_path "a" ;; mret log_file_path.

(** *** Stop *)

(** [self.open_node.TYPE] *)
Definition open_node_type (g : GM N C) : outcome string :=
  self_str (on_class (gm_open_node g)) "TYPE".
Definition open_node_tty (g : GM N C) : outcome string :=
  self_str (on_class (gm_open_node g)) "TTY".

(** The end of [exp_stop]: the experiment is forgotten, its log handler removed. *)
Definition reset_configuration : M (GM N C) unit :=
  modify (set_exp None None false) ;;
  p_emit EvRemoveHandler ;;
  modify (set_handler None).

Definition exp_stop_body : M (GM N C) Z :=
  g ← get;
  if negb (gm_running g) then mret 0%Z
  else
    (match gm_timer g with
     | Some _ => p_emit EvTimerCancel ;; modify (set_timer None)
     | None => mret tt
     end) ;;
    ret ← zoom control_node cn_stop_experiment;
    ty ← lift (open_node_type g);
    (if decide (ty = "pycom")
     then tty ← lift (open_node_tty g); wait_tty tty 10000 ;; mret tt
     else mret tt) ;;
    ret1 ← zoom open_node on_teardown;
    zoom control_node cn_stop ;;
    g ← get;
    cleanup_user_exp_files (gm_exp_files g) ;;
    modify (set_files ∅) ;;
    reset_configuration ;;
    mret (ret + ret1)%Z.

Definition exp_stop (tid : nat) : M (GM N C) Z := locked tid exp_stop_body.

(** *** Start *)

(** Power cycle of a Pycom board, one turn of the loop. *)
Definition pycom_cycle (tty : string) : M (GM N C) Z :=
  r ← zoom control_node (cn_open_stop None);
  r1 ← wait_no_tty tty 10000;
  r2 ← zoom control_node (cn_open_start None);
  r3 ← wait_tty tty 10000;
  mret (r + r1 + r2 + r3)%Z.

(** [exp_start] from the creation of the files on, once the experiment is set. *)
Definition start_steps (user : string) (exp_id : Z) (firmware_path : option string)
    (profile : option Profile) (timeout : Z) : M (GM N C) Z :=
  g ← get;
  let b := gm_board_cfg g in
  cn_type ← lift (self_str (bc_cn_class b) "TYPE");
  (if bool_decide (bc_robot_type b = Some "turtlebot2") || bool_decide (cn_type = "no")
   then create_user_exp_folders (bc_node_id b) user exp_id else mret tt) ;;
  files ← create_user_exp_files (bc_node_id b) user exp_id;
  modify (set_files files) ;;
  log ← lift (match files !! "log" with Some f => Val f | None => Exn KeyError end);
  handler ← user_logger log;
  modify (set_handler (Some handler)) ;;
  p_emit (EvAddHandler handler) ;;
  ret ← zoom control_node (cn_start (str_of_Z exp_id) (Some files));
  ty ← lift (open_node_type g);
  ret1 ← (if decide (ty = "pycom") then
            tty ← lift (open_node_tty g);
            r ← pycom_cycle tty; r' ← pycom_cycle tty; mret (r + r')%Z
          else mret 0%Z);
  ret2 ← zoom open_node (on_setup firmware_path);
  ret3 ← zoom control_node (cn_start_experiment profile);
  ret4 ← (if bool_decide (is_Some firmware_path) && board_require_power_cycle ty then
            r ← zoom control_node (cn_open_stop None);
            r' ← zoom control_node (cn_open_start None);
            mret (r + r')%Z
          else mret 0%Z);
  (if (timeout =? 0)%Z then mret tt
   else modify (set_timer (Some (exp_id, user))) ;; p_emit (EvTimerStart timeout)) ;;
  mret (ret + ret1 + ret2 + ret3 + ret4)%Z.

(** The checks of [exp_start], then the steps. *)
Definition start_checked (user : string) (exp_id : Z) (firmware_path : option string)
    (profile_dict : pyval) (timeout : Z) : M (GM N C) Z :=
  g ← get;
  match profile_from_dict (gm_board_cfg g) profile_dict with
  | Exn ValueError => mret 1%Z
  | Exn e => raise e
  | Hang => hang
  | Val profile =>
      compatible ← is_compatible_with_node firmware_path (on_class (gm_open_node g));
      if negb compatible then mret 1%Z
      else
        modify (set_exp (Some exp_id) (Some user) true) ;;
        start_steps user exp_id firmware_path profile timeout
  end.

Definition exp_start_body (tid : nat) (user : string) (exp_id : Z)
    (firmware_path : option string) (profile_dict : pyval) (timeout : Z) : M (GM N C) Z :=
  g ← get;
  (if gm_running g then exp_stop tid ;; mret tt else mret tt) ;;
  start_checked user exp_id firmware_path profile_dict timeout.

Definition exp_start (tid : nat) (user : string) (exp_id : Z) (firmware_path : option string)
    (profile_dict : pyval) (timeout : Z) : M (GM N C) Z :=
  locked tid (exp_start_body tid user exp_id firmware_path profile_dict timeout).

(** [_timeout_exp_stop(exp_id, user)] *)
Definition timeout_exp_stop_body (tid : nat) (exp_id : Z) (user : string) : M (GM N C) unit :=
  g ← get;
  if decide ((gm_exp_id g, gm_user g) = (Some exp_id, Some user)) then
    try_except (exp_stop tid ;; mret tt)
      (λ e, if is_EnvironmentError e then
              Some (if bool_decide (errno_of e = Some EWOULDBLOCK) then mret tt else raise e)
            else None)
  else mret tt.

Definition timeout_exp_stop (tid : nat) (exp_id : Z) (user : string) : M (GM N C) unit :=
  locked tid (timeout_exp_stop_body tid exp_id user).

(** *** The other commands *)

Definition exp_update_profile (tid : nat) (profile_dict : pyval) : M (GM N C) Z :=
  locked tid (
    g ← get;
    match profile_from_dict (gm_board_cfg g) profile_dict with
    | Exn ValueError => mret 1%Z
    | Exn e => raise e
    | Hang => hang
    | Val profile => zoom control_node (cn_configure_profile profile)
    end).

Definition open_power_start (tid : nat) (power : option pyval) : M (GM N C) Z :=
  locked tid (zoom control_node (cn_open_start power)).

Definition open_power_stop (tid : nat) (power : option pyval) : M (GM N C) Z :=
  locked tid (zoom control_node (cn_open_stop power)).

Definition open_debug_start (tid : nat) : M (GM N C) Z :=
  locked tid (zoom open_node on_debug_start).

Definition open_debug_stop (tid : nat) : M (GM N C) Z :=
  locked tid (zoom open_node on_debug_stop).

(** [node] in [{'control', 'open'}] *)
Definition node_soft_reset (tid : nat) (node : string) : M (GM N C) Z :=
  locked tid (
    if decide (node = "control") then zoom control_node cn_reset
    else if decide (node = "open") then zoom open_node on_reset
    else raise AssertionError).

Definition node_flash_body (node : string) (firmware_path : option string) (binary : bool)
    (offset : Z) : M (GM N C) Z :=
  g ← get;
  if decide (node = "control") then
    compatible ← (if binary then mret true
                  else is_compatible_with_node firmware_path (cn_class (gm_control_node g)));
    if negb compatible then mret 1%Z
    else zoom control_node (cn_flash firmware_path binary offset)
  else if decide (node = "open") then
    compatible ← (if binary then mret true
                  else is_compatible_with_node firmware_path (on_class (gm_open_node g)));
    if negb compatible then mret 1%Z
    else zoom open_node (on_flash firmware_path binary offset)
  else raise AssertionError.

Definition node_flash (tid : nat) (node : string) (firmware_path : option string)
    (binary : bool) (offset : Z) : M (GM N C) Z :=
  locked tid (node_flash_body node firmware_path binary offset).

Definition manager_status (tid : nat) : M (GM N C) Z :=
  locked tid (
    r ← zoom control_node cn_status;
    r' ← zoom open_node on_status;
    mret (r + r')%Z).

(** [sleep(seconds)], for the tests of the server *)
Definition manager_sleep (tid : nat) (seconds : Z) : M (GM N C) Z :=
  locked tid (
    if (seconds <? 0)%Z then raise (IOError 22)             (* EINVAL *)
    else p_sleep (1000 * seconds)%Z ;; mret 0%Z).

(** [auto_tests(channel, blink, flash, gps)]; the [AutoTestManager] reads the
    configuration again *)
Definition manager_auto_tests (tid : nat) (channel : option Z) (blink flash gps : bool)
    : M (GM N C) Report :=
  locked tid (
    b ← board_config_init;
    zoom nodes (run_auto_tests b channel blink flash gps)).

(** [setup()], not under the lock itself *)
Definition manager_setup (tid : nat) : M (GM N C) Z :=
  ret ← node_flash tid "control" None false 0;
  if (ret =? 0)%Z then mret ret else raise RuntimeError.
End manager.

(** ** Invariant *)

Section invariant.
Context {N C : Type}.
Implicit Type g : GM N C.

(** No experiment, and nothing left of the previous one. *)
Definition idle g : Prop :=
  gm_exp_id g = None ∧ gm_user g = None ∧ gm_running g = false ∧ gm_exp_files g = ∅ ∧
  gm_handler g = None ∧ gm_timer g = None.

(** Experiment [e] of user [u], with at most its own timer. *)
Definition running_exp (e : Z) (u : string) g : Prop :=
  gm_exp_id g = Some e ∧ gm_user g = Some u ∧ gm_running g = true ∧
  (gm_timer g = None ∨ gm_timer g = Some (e, u)).

Definition Inv g : Prop := idle g ∨ ∃ e u, running_exp e u g.

(** What no operation but the lock's and the constructor changes. *)
Definition frame g0 g : Prop :=
  gm_rlock g = gm_rlock g0 ∧ gm_board_cfg g = gm_board_cfg g0.

(** During [exp_stop], once the timer is cancelled. *)
Definition stopping_exp g0 g : Prop :=
  frame g0 g ∧ gm_exp_id g = gm_exp_id g0 ∧ gm_user g = gm_user g0 ∧
  gm_running g = gm_running g0 ∧ gm_exp_files g = gm_exp_files g0 ∧
  gm_handler g = gm_handler g0 ∧ gm_timer g = None.

(** During [exp_start], once the experiment is set. *)
Definition starting_exp (e : Z) (u : string) g0 g : Prop := frame g0 g ∧ running_exp e u g.

Lemma idle_not_running g : idle g → gm_running g = false.
Proof. by intros (_ & _ & ? & _). Qed.

Lemma Inv_not_running g : Inv g → gm_running g = false → idle g.
Proof. intros [?|(e & u & _ & _ & Hr & _)] ?; [done|congruence]. Qed.

Lemma Inv_running g : Inv g → gm_running g = true → ∃ e u, running_exp e u g.
Proof. intros [(_ & _ & ? & _)|?] ?; [congruence|done]. Qed.

Lemma stopping_running e u g0 g :
  running_exp e u g0 → stopping_exp g0 g → running_exp e u g.
Proof.
  intros (He & Hu & Hr & _) (_ & He' & Hu' & Hr' & _ & _ & Ht).
  split_and!; [congruence..|by left].
Qed.
End invariant.

Section manager_facts.
Context `{E : Env} {N C : Type} `{!OpenNodeOps N} `{!ControlNodeOps C}.
Implicit Type g : GM N C.

Lemma preserves_cleanup {St} (I : St → Prop) files : preserves I (cleanup_user_exp_files files).
Proof. unfold cleanup_user_exp_files. preserve. Qed.

Lemma preserves_create_files {St} (I : St → Prop) dir l files :
  preserves I (create_files dir l files).
Proof. revert files. induction l as [|[name file] l IH]; intros files; simpl; preserve. Qed.

Lemma preserves_create_folders {St} (I : St → Prop) node_id user exp_id :
  preserves I (create_user_exp_folders node_id user exp_id).
Proof. unfold create_user_exp_folders. preserve. Qed.

Hint Resolve preserves_cleanup preserves_create_files preserves_create_folders : preserve.

(** *** [exp_stop] *)

Definition stop_post g0 (o : outcome Z) g : Prop :=
  match o with
  | Val _ => idle g ∧ frame g0 g
  | _ => stopping_exp g0 g
  end.

Lemma reset_configuration_idle g t g0 :
  frame g0 g → gm_timer g = None → gm_exp_files g = ∅ →
  wp reset_configuration (λ o g' _, o = Val tt ∧ idle g' ∧ frame g0 g') g t.
Proof. intros (Hl & Hb) Ht Hf. unfold wp. simpl. split; [done|]. split; [by split_and!|done]. Qed.

(** The next statement keeps [stopping_exp]. *)
Ltac stop_step :=
  eapply (wp_bind_preserves (stopping_exp _)); [preserve|eassumption| |done|done];
  match goal with H : stopping_exp _ _ |- _ => clear H end; intros ????.

Lemma exp_stop_body_wp g t :
  gm_running g = true →
  wp exp_stop_body (λ o g' _, stop_post g o g') g t.
Proof.
  intros Hr. unfold exp_stop_body. apply wp_bind. unfold wp at 1, get. rewrite Hr. simpl.
  apply wp_bind. set (first := match gm_timer g with Some _ => _ | None => _ end).
  assert (Hfirst : wp first (λ o g' _, o = Val tt ∧ stopping_exp g g') g t).
  { unfold first. destruct (gm_timer g) eqn:Ht; unfold wp; simpl; by split_and!. }
  eapply wp_mono; [|done]. clear Hfirst. intros o g1 t1 [-> H1].
  stop_step. stop_step. stop_step. stop_step. stop_step.
  apply wp_bind. unfold wp at 1, get. stop_step.
  apply wp_bind. unfold wp at 1, modify. apply wp_bind.
  match goal with H : stopping_exp _ ?x |- _ => destruct H as (? & _ & _ & _ & _ & _ & ?) end.
  eapply wp_mono; [|by apply (reset_configuration_idle _ _ g)].
  intros ??? (-> & ? & ?). by split.
Qed.

(** The running experiment as an observer sees it. *)
Definition exp_of g : option (Z * string) :=
  match gm_exp_id g, gm_user g with Some e, Some u => Some (e, u) | _, _ => None end.

Lemma exp_of_idle g : idle g → exp_of g = None.
Proof. unfold exp_of. by intros (-> & _). Qed.

Lemma exp_of_running e u g : running_exp e u g → exp_of g = Some (e, u).
Proof. unfold exp_of. by intros (-> & -> & _). Qed.

Lemma stopping_exp_of g0 g : stopping_exp g0 g → exp_of g = exp_of g0.
Proof. unfold exp_of. by intros (_ & -> & -> & _). Qed.

(** The lock apart, two states are the same. *)
Lemma Inv_rlock g l : Inv (lset rlock l g) ↔ Inv g.
Proof. done. Qed.

(** Under the lock: the body runs with the lock taken once more, and gives it
    back unless it never ends. *)
Lemma locked_wp {A} tid (m : M (GM N C) A) Q g t :
  rl_wf (gm_rlock g) →
  (∀ l', rl_wf l' →
     wp m (λ o g' t', match o with
                      | Hang => Q Hang g' t'
                      | _ => gm_rlock g' = l' ∧ Q o (lset rlock (gm_rlock g) g') t'
                      end) (lset rlock l' g) t) →
  (∀ o, rl_owner (gm_rlock g) = Some o → o ≠ tid →
     Q (Exn (EnvironmentError EWOULDBLOCK)) g t) →
  wp (locked tid m) Q g t.
Proof.
  intros Hwf Hm Hbusy. destruct (try_acquire tid (gm_rlock g)) as [l'|] eqn:Hl.
  - eapply (synchronous_spec rlock tid); [exact Hl|].
    eapply wp_mono; [|by apply Hm, (try_acquire_wf tid _ l' Hwf)].
    intros [a|e|] g' t'; simpl; try done; intros [Hg' HQ];
      by rewrite Hg', (try_acquire_release tid _ l' Hwf Hl).
  - unfold locked, synchronous, wp, mbind, M_bind, gets. simpl. rewrite Hl.
    unfold try_acquire in Hl. destruct (rl_owner (gm_rlock g)) as [o|] eqn:Ho; [|done].
    case_decide; [done|]. by eapply Hbusy.
Qed.

(** What [exp_stop] leaves, from a state with its invariant. *)
Definition stop_result g0 (o : outcome Z) g : Prop :=
  Inv g ∧ match o with Val _ => exp_of g = None | _ => exp_of g = exp_of g0 end.

Lemma exp_stop_body_inv g t :
  Inv g → wp exp_stop_body (λ o g' _, frame g g' ∧ stop_result g o g') g t.
Proof.
  intros Hi. destruct (gm_running g) eqn:Hr.
  - destruct (Inv_running g Hi Hr) as (e & u & Hg).
    eapply wp_mono; [|by apply exp_stop_body_wp]. intros [r|x|] g' t'; simpl.
    + intros [Hid Hf]. split; [done|]. split; [by left|by apply exp_of_idle].
    + intros Hs. split; [apply Hs|]. split; [|by apply stopping_exp_of].
      right. exists e, u. by eapply stopping_running.
    + intros Hs. split; [apply Hs|]. split; [|by apply stopping_exp_of].
      right. exists e, u. by eapply stopping_running.
  - unfold exp_stop_body. apply wp_bind. unfold wp, get. rewrite Hr. simpl.
    split; [done|]. split; [done|]. by apply exp_of_idle, Inv_not_running.
Qed.

(** The result of an operation under the lock. *)
Definition op_result {A} g0 (P : outcome A → GM N C → Prop) (o : outcome A) g : Prop :=
  gm_board_cfg g = gm_board_cfg g0 ∧ (o ≠ Hang → gm_rlock g = gm_rlock g0) ∧ Inv g ∧ P o g.

Lemma exp_stop_wp tid g t :
  rl_wf (gm_rlock g) → Inv g →
  wp (exp_stop tid) (λ o g' _, op_result g (stop_result g) o g') g t.
Proof.
  intros Hwf Hi. apply locked_wp; [done| |].
  - intros l' _. eapply wp_mono; [|by apply exp_stop_body_inv, Inv_rlock].
    intros [r|x|] g' t' [[Hl Hb] [Hi' Hres]]; simpl in *.
    + split; [done|]. by split_and!.
    + split; [done|]. by split_and!.
    + by split_and!.
  - intros o _ _. by split_and!.
Qed.

(** *** [exp_start] *)

Lemma preserves_starting g0 e u user exp_id fw profile timeout :
  exp_id = e → user = u →
  preserves (starting_exp e u g0) (start_steps user exp_id fw profile timeout).
Proof.
  intros -> ->. unfold start_steps, user_logger, create_user_exp_files, pycom_cycle.
  preserve. destruct select (starting_exp _ _ _ _) as ((? & ?) & ? & ? & ? & ?).
  unfold starting_exp, frame, running_exp. simpl. split_and!; auto.
Qed.

(** What [exp_start] leaves, from a state with no experiment. *)
Definition start_result (e : Z) (u : string) (o : outcome Z) g : Prop :=
  match o with
  | Val r => exp_of g = Some (e, u) ∨ (exp_of g = None ∧ r = 1%Z)
  | _ => exp_of g = Some (e, u) ∨ exp_of g = None
  end.

Lemma start_checked_wp user exp_id fw pd timeout g t :
  idle g →
  wp (start_checked user exp_id fw pd timeout)
     (λ o g' _, frame g g' ∧ Inv g' ∧ start_result exp_id user o g') g t.
Proof.
  intros Hidle. unfold start_checked. apply wp_bind. unfold wp at 1, get.
  pose proof (exp_of_idle g Hidle) as Hnone.
  destruct (profile_from_dict (gm_board_cfg g) pd) as [profile|x|];
    [|destruct x; unfold wp, mret, M_ret, raise;
        (split; [done|]; split; [by left|]; simpl; by auto)
     |unfold wp, hang; split; [done|]; split; [by left|]; simpl; by auto].
  eapply (wp_bind_preserves (λ g', g' = g)); [preserve|done| | |];
    [|intros ??? ->; split; [done|]; split; [by left|]; simpl; by auto
     |intros ?? ->; split; [done|]; split; [by left|]; simpl; by auto].
  intros compatible g' t' ->. destruct compatible; simpl;
    [|split; [done|]; split; [by left|]; simpl; by auto].
  apply wp_bind. unfold wp at 1, modify.
  eapply wp_mono; [|apply (preserves_starting g exp_id user); [done..|]].
  - intros o g1 t1 [Hf Hrun]. split; [done|]. split; [right; by exists exp_id, user|].
    destruct o; simpl; left; by apply exp_of_running.
  - split; [done|]. destruct Hidle as (_ & _ & _ & _ & _ & Ht).
    split_and!; try done. by left.
Qed.

(** What [exp_start] leaves from any state. *)
Definition restart_result (e : Z) (u : string) g0 (o : outcome Z) g : Prop :=
  match o with
  | Val r => exp_of g = Some (e, u) ∨ (exp_of g = None ∧ r = 1%Z)
  | _ => exp_of g = Some (e, u) ∨ exp_of g = None ∨ exp_of g = exp_of g0
  end.

Lemma exp_start_body_wp tid user exp_id fw pd timeout g t :
  rl_wf (gm_rlock g) → Inv g →
  wp (exp_start_body tid user exp_id fw pd timeout)
     (λ o g' _, op_result g (restart_result exp_id user g) o g') g t.
Proof.
  intros Hwf Hi. unfold exp_start_body. apply wp_bind. unfold wp at 1, get. apply wp_bind.
  assert (Hchecked : ∀ g1 t1, idle g1 → frame g g1 →
    wp (start_checked user exp_id fw pd timeout)
       (λ o g' _, op_result g (restart_result exp_id user g) o g') g1 t1).
  { intros g1 t1 Hidle [Hl Hb]. eapply wp_mono; [|by apply start_checked_wp].
    intros o g' t' ([Hl' Hb'] & Hi' & Hres). split_and!; [congruence|intros; congruence|done|].
    destruct o; simpl in *; naive_solver. }
  destruct (gm_running g) eqn:Hr.
  - apply wp_bind. eapply wp_mono; [|by apply exp_stop_wp].
    intros [r|x|] g1 t1 (Hb & Hl & Hi1 & _ & Hres); simpl in Hres.
    + unfold wp at 1, mret, M_ret. apply Hchecked; [|split; [by apply Hl|done]].
      destruct Hi1 as [?|(e & u & He)]; [done|]. apply exp_of_running in He. congruence.
    + split_and!; [done|done|done|]. simpl. auto.
    + split_and!; [done|done|done|]. simpl. auto.
  - unfold wp at 1, mret, M_ret. apply Hchecked; [by apply Inv_not_running|done].
Qed.

(** Any body with such a result, under the lock. *)
Lemma locked_result {A} tid (m : M (GM N C) A) (P : GM N C → outcome A → GM N C → Prop) g t :
  rl_wf (gm_rlock g) → Inv g →
  (∀ g l o g', P (lset rlock l g) o g' ↔ P g o g') →
  (∀ l o g g', P g o (lset rlock l g') ↔ P g o g') →
  P g (Exn (EnvironmentError EWOULDBLOCK)) g →
  (∀ g0 t0, rl_wf (gm_rlock g0) → Inv g0 →
     wp m (λ o g' _, op_result g0 (P g0) o g') g0 t0) →
  wp (locked tid m) (λ o g' _, op_result g (P g) o g') g t.
Proof.
  intros Hwf Hi Hlk Hlk' Hbusy Hm. apply locked_wp; [done| |].
  - intros l' Hl'. eapply wp_mono; [|by apply Hm].
    intros [r|x|] g' t' (Hb & Hl & Hi' & HP); simpl in *.
    + split; [by apply Hl|]. split_and!; [done|done|done|]. apply Hlk'. by apply (Hlk g l').
    + split; [by apply Hl|]. split_and!; [done|done|done|]. apply Hlk'. by apply (Hlk g l').
    + split_and!; [done|done|done|]. by apply (Hlk g l').
  - intros o _ _. by split_and!.
Qed.

Lemma exp_start_wp tid user exp_id fw pd timeout g t :
  rl_wf (gm_rlock g) → Inv g →
  wp (exp_start tid user exp_id fw pd timeout)
     (λ o g' _, op_result g (restart_result exp_id user g) o g') g t.
Proof.
  intros Hwf Hi. apply (locked_result _ _ (restart_result exp_id user)); [done..| | |].
  - intros g0 l o g'. by destruct o.
  - simpl. auto.
  - intros. by apply exp_start_body_wp.
Qed.

(** *** The timer *)

Definition timeout_result (e : Z) (u : string) g0 (o : outcome Z) g : Prop :=
  match o with
  | Val _ => exp_of g = exp_of g0 ∨ exp_of g0 = Some (e, u) ∧ exp_of g = None
  | _ => exp_of g = exp_of g0
  end.

(** [_timeout_exp_stop] with a status, as the other operations. *)
Definition timeout_status (tid : nat) (e : Z) (u : string) : M (GM N C) Z :=
  locked tid (timeout_exp_stop_body tid e u ;; mret 0%Z).

Lemma timeout_body_wp tid e u g t :
  rl_wf (gm_rlock g) → Inv g →
  wp (timeout_exp_stop_body tid e u ;; mret 0%Z)
     (λ o g' _, op_result g (timeout_result e u g) o g') g t.
Proof.
  intros Hwf Hi. unfold timeout_exp_stop_body. apply wp_bind, wp_bind. unfold wp at 1, get.
  case_decide as Hexp; [|unfold wp, mret, M_ret; split_and!; try done; by left].
  assert (He : exp_of g = Some (e, u)) by (unfold exp_of; by injection Hexp as -> ->).
  apply wp_try_except, wp_bind. eapply wp_mono; [|by apply exp_stop_wp].
  intros [r|x|] g1 t1 (Hb & Hl & Hi1 & _ & Hres); simpl in Hres.
  - split_and!; [done|intros _; by apply Hl|done|]. by right.
  - destruct (is_EnvironmentError x); [|by split_and!].
    case_bool_decide; [|by split_and!]. split_and!; [done|intros _; by apply Hl|done|by left].
  - by split_and!.
Qed.

Lemma timeout_wp tid e u g t :
  rl_wf (gm_rlock g) → Inv g →
  wp (timeout_status tid e u) (λ o g' _, op_result g (timeout_result e u g) o g') g t.
Proof.
  intros Hwf Hi. apply (locked_result _ _ (timeout_result e u)); [done..| | |].
  - by intros g0 l [].
  - by simpl.
  - intros. by apply timeout_body_wp.
Qed.

(** *** The commands that do not change the experiment *)

Definition untouched g0 g : Prop :=
  frame g0 g ∧ gm_exp_id g = gm_exp_id g0 ∧ gm_user g = gm_user g0 ∧
  gm_running g = gm_running g0 ∧ gm_exp_files g = gm_exp_files g0 ∧
  gm_handler g = gm_handler g0 ∧ gm_timer g = gm_timer g0.

Definition same_result {A} g0 (o : outcome A) g : Prop := exp_of g = exp_of g0.

Lemma untouched_Inv g0 g : untouched g0 g → Inv g0 → Inv g ∧ exp_of g = exp_of g0.
Proof.
  unfold Inv, idle, running_exp, exp_of. intros (_ & He & Hu & Hr & Hf & Hh & Ht).
  by rewrite He, Hu, Hr, Hf, Hh, Ht.
Qed.

Lemma command_wp {A} tid (m : M (GM N C) A) g t :
  (∀ g0, preserves (untouched g0) m) → rl_wf (gm_rlock g) → Inv g →
  wp (locked tid m) (λ o g' _, op_result g (same_result g) o g') g t.
Proof.
  intros Hm Hwf Hi. apply (locked_result _ _ same_result); [done..|].
  intros g0 t0 _ Hi0. eapply wp_mono; [|by apply (Hm g0)].
  intros o g' t' Hu. destruct (untouched_Inv _ _ Hu Hi0).
  destruct Hu as ((? & ?) & _). by split_and!.
Qed.

(** ** Abstract specification

    The manager as one variable, the running experiment, and what each operation
    may do to it. *)

Inductive op :=
  | OStart (user : string) (exp_id : Z) (firmware : option string) (profile : pyval)
      (timeout : Z)
  | OStop
  | OTimeout (exp_id : Z) (user : string)
  | OUpdate (profile : pyval)
  | OPower (start : bool) (power : option pyval)
  | ODebug (start : bool)
  | OReset (node : string)
  | OFlash (node : string) (firmware : option string) (binary : bool) (offset : Z)
  | OStatus
  | OSleep (seconds : Z)
  | OAutoTests (channel : option Z) (blink flash gps : bool).

Definition coded (m : M (GM N C) Z) : M (GM N C) reply := r ← m; mret (Code r).

Definition run_op (tid : nat) (x : op) : M (GM N C) reply :=
  match x with
  | OStart user exp_id fw pd timeout => coded (exp_start tid user exp_id fw pd timeout)
  | OStop => coded (exp_stop tid)
  | OTimeout e u => coded (timeout_status tid e u)
  | OUpdate pd => coded (exp_update_profile tid pd)
  | OPower b power =>
      coded (if b then open_power_start tid power else open_power_stop tid power)
  | ODebug b => coded (if b then open_debug_start tid else open_debug_stop tid)
  | OReset node => coded (node_soft_reset tid node)
  | OFlash node fw binary offset => coded (node_flash tid node fw binary offset)
  | OStatus => coded (manager_status tid)
  | OSleep seconds => coded (manager_sleep tid seconds)
  | OAutoTests channel blink flash gps =>
      report ← manager_auto_tests tid channel blink flash gps;
      mret (Tests report)
  end.

(** The outcome of an operation, from that of the method. *)
Definition out_map {A B} (f : A → B) (o : outcome A) : outcome B :=
  match o with Val a => Val (f a) | Exn e => Exn e | Hang => Hang end.

Lemma out_wp {A} (f : A → reply) (m : M (GM N C) A) Q g t :
  wp m (λ o g' t', Q (out_map f o) g' t') g t → wp (a ← m; mret (f a)) Q g t.
Proof. intros Hm. apply wp_bind. eapply wp_mono, Hm. by intros []. Qed.

(** [allowed x o a a']: operation [x] with outcome [o] may take the running
    experiment from [a] to [a']. *)
Definition allowed (x : op) (o : outcome reply) (a a' : option (Z * string)) : Prop :=
  match x with
  | OStart user exp_id _ _ _ =>
      match o with
      | Val r => a' = Some (exp_id, user) ∨ (a' = None ∧ r = Code 1)
      | _ => a' = Some (exp_id, user) ∨ a' = None ∨ a' = a
      end
  | OStop => match o with Val (Code _) => a' = None | _ => a' = a end
  | OTimeout e u =>
      match o with
      | Val _ => a' = a ∨ a = Some (e, u) ∧ a' = None
      | _ => a' = a
      end
  | _ => a' = a
  end.

Lemma run_op_wp tid x g t :
  rl_wf (gm_rlock g) → Inv g →
  wp (run_op tid x)
     (λ o g' _, op_result g (λ o g', allowed x o (exp_of g) (exp_of g')) o g') g t.
Proof.
  intros Hwf Hi.
  assert (Hcmd : ∀ {A} (f : A → reply) (m : M (GM N C) A), (∀ g0, preserves (untouched g0) m) →
    wp (a ← locked tid m; mret (f a))
      (λ o g' _, op_result g (λ o g', exp_of g' = exp_of g) o g') g t).
  { intros A f m Hm. apply out_wp. eapply wp_mono; [|by apply command_wp].
    intros o g' t' (? & Hl & ? & ?). split_and!; try done. intros Ho. apply Hl. by destruct o. }
  destruct x as [user exp_id fw pd timeout| |e u|pd|b power|b|node|node fw binary offset| |seconds
                |channel blink flash gps];
    simpl; unfold coded.
  - apply out_wp. eapply wp_mono; [|by apply exp_start_wp]. intros o g' t' (? & Hl & ? & Hres).
    split_and!; try done; [intros Ho; apply Hl; by destruct o|]. destruct o; simpl in *; naive_solver.
  - apply out_wp. eapply wp_mono; [|by apply exp_stop_wp]. intros o g' t' (? & Hl & ? & _ & Hres).
    split_and!; try done; [intros Ho; apply Hl; by destruct o|]. by destruct o.
  - apply out_wp. eapply wp_mono; [|by apply timeout_wp]. intros o g' t' (? & Hl & ? & Hres).
    split_and!; try done; [intros Ho; apply Hl; by destruct o|]. by destruct o.
  - apply Hcmd. intros g0. preserve.
  - destruct b; apply Hcmd; intros g0; preserve.
  - destruct b; apply Hcmd; intros g0; preserve.
  - apply Hcmd. intros g0. preserve.
  - apply Hcmd. intros g0. unfold node_flash_body. preserve.
  - apply Hcmd. intros g0. preserve.
  - apply Hcmd. intros g0. preserve.
  - apply Hcmd. intros g0. apply preserves_bind.
    + apply preserves_board_config.
    + intros b. apply preserves_zoom. by intros [on cn] g1.
Qed.
End manager_facts.

#[export] Hint Resolve preserves_cleanup preserves_create_files preserves_create_folders
  : preserve.

(** ** Independence of the lock

    The bodies neither read nor write the lock: they do the same whoever holds
    it. *)

Section lock_free.
Context `{E : Env} {N C : Type} `{!OpenNodeOps N} `{!ControlNodeOps C}.
Implicit Type g : GM N C.

Definition lockless {A} (m : M (GM N C) A) : Prop :=
  ∀ l g t, m (lset rlock l g) t =
    let '(o, g', t') := m g t in (o, lset rlock l g', t').

Lemma lockless_ret {A} (a : A) : lockless (mret a).
Proof. done. Qed.

Lemma lockless_raise {A} e : lockless (raise e : M (GM N C) A).
Proof. done. Qed.

Lemma lockless_hang {A} : lockless (hang : M (GM N C) A).
Proof. done. Qed.

Lemma lockless_lift {A} (o : outcome A) : lockless (lift o).
Proof. done. Qed.

Lemma lockless_bind {A B} (m : M (GM N C) A) (k : A → M (GM N C) B) :
  lockless m → (∀ a, lockless (k a)) → lockless (m ≫= k).
Proof.
  intros Hm Hk l g t. unfold mbind, M_bind. rewrite Hm.
  destruct (m g t) as [[[a|e|] g'] t']; [apply Hk|done..].
Qed.

(** Reading the state, when the rest does not depend on the lock. *)
Lemma lockless_get {B} (k : GM N C → M (GM N C) B) :
  (∀ l g, k (lset rlock l g) = k g) → (∀ g, lockless (k g)) → lockless (get ≫= k).
Proof. intros Hl Hk l g t. unfold mbind, M_bind, get. rewrite Hl. apply Hk. Qed.

Lemma lockless_modify f :
  (∀ l g, f (lset rlock l g) = lset rlock l (f g)) → lockless (modify f).
Proof. intros Hf l g t. unfold modify. by rewrite Hf. Qed.

Lemma lockless_control {A} (m : M C A) : lockless (zoom control_node m).
Proof. intros l g t. unfold zoom. simpl. by destruct (m (gm_control_node g) t) as [[o x] t']. Qed.

Lemma lockless_open {A} (m : M N A) : lockless (zoom open_node m).
Proof. intros l g t. unfold zoom. simpl. by destruct (m (gm_open_node g) t) as [[o x] t']. Qed.

Lemma lockless_ask {A} ev (f : trace → A) : lockless (ask ev f).
Proof. done. Qed.

Lemma lockless_wait_loop fuel deadline value fct :
  lockless fct → lockless (wait_loop fuel deadline value fct).
Proof.
  intros Hf. induction fuel as [|fuel IH]; simpl; [apply lockless_hang|].
  apply lockless_bind; [done|]. intros v. case_match; [apply lockless_ret|].
  apply lockless_bind; [apply lockless_ask|]. intros now. case_match; [apply lockless_ret|].
  apply lockless_bind; [apply lockless_ask|done].
Qed.

Lemma lockless_wait_tty tty timeout : lockless (wait_tty tty timeout).
Proof.
  apply lockless_bind; [|intros; apply lockless_ret].
  apply lockless_bind; [apply lockless_ask|]. intros. apply lockless_wait_loop, lockless_ask.
Qed.

Lemma lockless_wait_no_tty tty timeout : lockless (wait_no_tty tty timeout).
Proof.
  apply lockless_bind; [|intros; apply lockless_ret].
  apply lockless_bind; [apply lockless_ask|]. intros. apply lockless_wait_loop, lockless_ask.
Qed.

Lemma lockless_for_each {A} (l : list A) f :
  (∀ x, lockless (f x)) → lockless (for_each l f).
Proof. intros Hf. induction l; simpl; [apply lockless_ret|by apply lockless_bind]. Qed.

Ltac lockless_step :=
  lazymatch goal with
  | |- lockless (mret _) => apply lockless_ret
  | |- lockless (raise _) => apply lockless_raise
  | |- lockless hang => apply lockless_hang
  | |- lockless (lift _) => apply lockless_lift
  | |- lockless (zoom control_node _) => apply lockless_control
  | |- lockless (zoom open_node _) => apply lockless_open
  | |- lockless (ask _ _) => apply lockless_ask
  | |- lockless (wait_tty _ _) => apply lockless_wait_tty
  | |- lockless (wait_no_tty _ _) => apply lockless_wait_no_tty
  | |- lockless (for_each _ _) => apply lockless_for_each; intros ?
  | |- lockless (modify _) => apply lockless_modify; by intros
  | |- lockless (get ≫= _) => apply lockless_get; [by intros|intros ?]
  | |- lockless (_ ≫= _) => apply lockless_bind; [|intros ?]
  | |- lockless (match _ with _ => _ end) => case_match
  | |- lockless _ => solve [eauto with lockless]
  end.
Ltac lockless := repeat lockless_step.

Lemma lockless_clean_user_file path : lockless (clean_user_file path).
Proof. unfold clean_user_file. lockless. Qed.

Lemma lockless_create_files dir l files : lockless (create_files dir l files).
Proof.
  revert files. induction l as [|[name file] l IH]; intros files; simpl; [apply lockless_ret|].
  unfold create_user_file, p_open. apply lockless_bind; [lockless|done].
Qed.

Lemma lockless_is_compatible fw c : lockless (is_compatible_with_node fw c).
Proof.
  unfold is_compatible_with_node. destruct fw; [|apply lockless_ret].
  destruct (attr_strs c "ELF_TARGET"); [|apply lockless_raise].
  intros l' g t. unfold try_except, elf_target, mbind, M_bind, ask, raise, mret, M_ret.
  destruct (env_elf _ _); simpl; try done. by case_decide.
Qed.

Hint Resolve lockless_clean_user_file lockless_create_files lockless_is_compatible : lockless.

Lemma lockless_stop_body : lockless exp_stop_body.
Proof.
  unfold exp_stop_body, reset_configuration, cleanup_user_exp_files, p_emit.
  lockless.
Qed.

Lemma lockless_start_checked user exp_id fw pd timeout :
  lockless (start_checked user exp_id fw pd timeout).
Proof.
  unfold start_checked, start_steps, user_logger, create_user_exp_files,
    create_user_exp_folders, pycom_cycle, p_emit, p_open.
  lockless.
Qed.

(** A body under the lock does what it does alone. *)
Lemma locked_run {A} tid (m : M (GM N C) A) g t l' :
  rl_wf (gm_rlock g) → try_acquire tid (gm_rlock g) = Some l' → lockless m →
  locked tid m g t =
    let '(o, g', t') := m g t in (o, match o with Hang => lset rlock l' g' | _ => g' end, t').
Proof.
  intros Hwf Hl Hm. unfold locked, synchronous, mbind, M_bind, gets, modify, try_finally.
  change (lget rlock g) with (gm_rlock g). rewrite Hl, Hm.
  assert (Hkeep : ∀ o g' t', m g t = (o, g', t') → lset rlock (gm_rlock g) g' = g').
  { intros o g' t' Hrun. pose proof (Hm (gm_rlock g) g t) as H.
    change (lset rlock (gm_rlock g) g) with (lset rlock (lget rlock g) g) in H.
    rewrite lset_lget, Hrun in H. by injection H. }
  destruct (m g t) as [[o g'] t'] eqn:Hrun. specialize (Hkeep _ _ _ eq_refl).
  rewrite lget_lset, lset_lset, (try_acquire_release tid _ l' Hwf Hl), Hkeep. by destruct o.
Qed.

Lemma free_wf : rl_wf rl_free.
Proof. done. Qed.

Lemma free_acquire tid : try_acquire tid rl_free = Some (MkRLock (Some tid) 1).
Proof. done. Qed.

Lemma again_acquire tid : try_acquire tid (MkRLock (Some tid) 1) = Some (MkRLock (Some tid) 2).
Proof. unfold try_acquire. simpl. by rewrite decide_True. Qed.

(** [exp_stop] from a state whose lock is free. *)
Lemma exp_stop_free tid g t r g' t' :
  gm_rlock g = rl_free →
  exp_stop tid g t = (Val r, g', t') ↔ exp_stop_body g t = (Val r, g', t').
Proof.
  intros Hfree. unfold exp_stop.
  rewrite (locked_run tid _ g t (MkRLock (Some tid) 1));
    [|by rewrite Hfree|by rewrite Hfree|apply lockless_stop_body].
  destruct (exp_stop_body g t) as [[[] ?] ?]; naive_solver.
Qed.

(** The nested [exp_stop] of [exp_start] and of the timer. *)
Lemma exp_stop_nested tid g t r g' t' :
  exp_stop_body g t = (Val r, g', t') →
  exp_stop tid (lset rlock (MkRLock (Some tid) 1) g) t =
    (Val r, lset rlock (MkRLock (Some tid) 1) g', t').
Proof.
  intros Hrun. unfold exp_stop.
  rewrite (locked_run tid _ _ t (MkRLock (Some tid) 2)); [|unfold rl_wf; simpl; lia
    |apply again_acquire|apply lockless_stop_body].
  by rewrite lockless_stop_body, Hrun.
Qed.

Lemma exp_stop_body_not_running g t r g' t' :
  exp_stop_body g t = (Val r, g', t') → gm_running g' = false.
Proof.
  intros Hrun. destruct (gm_running g) eqn:Hr.
  - pose proof (exp_stop_body_wp g t Hr) as Hw. unfold wp in Hw. rewrite Hrun in Hw.
    by apply idle_not_running, Hw.
  - unfold exp_stop_body, mbind, M_bind, get in Hrun. rewrite Hr in Hrun. simpl in Hrun.
    by injection Hrun as _ <- _.
Qed.
End lock_free.

(** ** Reachable states *)

Section reachability.
Context `{E : Env} {N C : Type} `{!OpenNodeOps N} `{!ControlNodeOps C}.

(** The manager between two requests: any thread ran any operation, each to its
    end. *)
Inductive reachable : GM N C → Prop :=
  | reach_init b on cn : reachable (gm_init b on cn)
  | reach_op g tid x t o g' t' :
      reachable g → run_op tid x g t = (o, g', t') → o ≠ Hang → reachable g'.

Lemma reachable_ok g : reachable g → gm_rlock g = rl_free ∧ Inv g.
Proof.
  induction 1 as [b on cn|g tid x t o g' t' _ [Hl Hi] Hrun Ho].
  - split; [done|]. left. done.
  - assert (Hwf : rl_wf (gm_rlock g)) by (rewrite Hl; apply free_wf).
    pose proof (run_op_wp tid x g t Hwf Hi) as Hw. unfold wp in Hw. rewrite Hrun in Hw.
    destruct Hw as (_ & Hl' & Hi' & _). split; [|done]. by rewrite Hl'.
Qed.
End reachability.

(** A start while an experiment runs, once the stop has returned. *)
Lemma exp_start_after_stop `{Env} {N C : Type} `{!OpenNodeOps N} `{!ControlNodeOps C}
    (g g1 : GM N C) tid t t1 r user exp_id fw profile timeout :
  gm_rlock g = rl_free → gm_running g = true → exp_stop_body g t = (Val r, g1, t1) →
  exp_start tid user exp_id fw profile timeout g t =
  exp_start tid user exp_id fw profile timeout g1 t1.
Proof.
  intros Hl Hr Hstop.
  pose proof (exp_stop_body_not_running _ _ _ _ _ Hstop) as Hr1.
  assert (Hl1 : gm_rlock g1 = rl_free).
  { pose proof (exp_stop_body_wp g t Hr) as Hw. unfold wp in Hw. rewrite Hstop in Hw.
    destruct Hw as [_ [Hw _]]. congruence. }
  assert (Hbody : exp_start_body tid user exp_id fw profile timeout
      (lset rlock (MkRLock (Some tid) 1) g) t =
    exp_start_body tid user exp_id fw profile timeout
      (lset rlock (MkRLock (Some tid) 1) g1) t1).
  { unfold exp_start_body. erewrite bind_run by reflexivity. simpl gm_running. rewrite Hr.
    erewrite bind_run by (erewrite bind_run by (by apply exp_stop_nested); reflexivity).
    symmetry. erewrite bind_run by reflexivity. simpl gm_running. rewrite Hr1.
    by erewrite bind_run by reflexivity. }
  unfold exp_start, locked, synchronous, gets, modify, mbind, M_bind, try_finally.
  change (lget rlock g) with (gm_rlock g). change (lget rlock g1) with (gm_rlock g1).
  rewrite Hl, Hl1, free_acquire. by rewrite Hbody.
Qed.

(** A start that returns had its stop return. *)
Lemma exp_start_stops `{Env} {N C : Type} `{!OpenNodeOps N} `{!ControlNodeOps C}
    (g g' : GM N C) tid t t' r user exp_id fw profile timeout :
  gm_rlock g = rl_free → gm_running g = true →
  exp_start tid user exp_id fw profile timeout g t = (Val r, g', t') →
  ∃ c g0 t0, exp_stop_body g t = (Val c, g0, t0).
Proof.
  intros Hl Hr Hrun. unfold exp_start, locked, synchronous, gets, modify, mbind, M_bind,
    try_finally in Hrun.
  change (lget rlock g) with (gm_rlock g) in Hrun. rewrite Hl, free_acquire in Hrun.
  unfold exp_start_body at 1, mbind, M_bind, get in Hrun.
  change (gm_running (lset rlock _ g)) with (gm_running g) in Hrun. rewrite Hr in Hrun.
  unfold exp_stop in Hrun.
  rewrite (locked_run tid exp_stop_body _ t (MkRLock (Some tid) 2)), lockless_stop_body in Hrun;
    [|unfold rl_wf; simpl; lia|apply again_acquire|apply lockless_stop_body].
  destruct (exp_stop_body g t) as [[[c|e|] g0] t0]; [by eexists _, _, _|done..].
Qed.

(** A start that returns from a reachable state starts from an idle one: its own, or the
    one that the stop of the running experiment left. *)
Lemma exp_start_from_idle `{Env} {N C : Type} `{!OpenNodeOps N} `{!ControlNodeOps C}
    (g g' : GM N C) tid t t' r user exp_id fw profile timeout :
  gm_rlock g = rl_free → Inv g →
  exp_start tid user exp_id fw profile timeout g t = (Val r, g', t') →
  ∃ c g0 t0, exp_stop_body g t = (Val c, g0, t0) ∧ gm_rlock g0 = rl_free ∧ idle g0 ∧
    gm_board_cfg g0 = gm_board_cfg g ∧
    exp_start tid user exp_id fw profile timeout g0 t0 = (Val r, g', t').
Proof.
  intros Hl Hi Hrun. destruct (gm_running g) eqn:Hr.
  - destruct (exp_start_stops _ _ _ _ _ _ _ _ _ _ _ Hl Hr Hrun) as (c & g0 & t0 & Hstop).
    pose proof (exp_stop_body_wp g t Hr) as Hw. unfold wp in Hw. rewrite Hstop in Hw.
    destruct Hw as (Hidle & Hlock & Hcfg). exists c, g0, t0.
    split_and!; [done|congruence|done|done|].
    by rewrite <- (exp_start_after_stop _ _ _ _ _ _ _ _ _ _ _ Hl Hr Hstop).
  - exists 0%Z, g, t. split; [|by split_and!; [|apply Inv_not_running|..]].
    unfold exp_stop_body. erewrite bind_run by reflexivity. by rewrite Hr.
Qed.

(** ** Properties *)

(** C1: the manager implements its abstract specification.  From any state
    reached by any sequence of operations, returning or raising, called by any
    threads on any nodes in any world, an operation that ends releases the lock,
    leaves the manager either idle with nothing of the previous experiment or with
    one experiment and at most its own timer, and takes the running experiment
    only where the specification allows. *)
Theorem manager_refines `{Env} {N C : Type} `{!OpenNodeOps N} `{!ControlNodeOps C}
    (g g' : GM N C) (tid : nat) (x : op) (t t' : trace) (o : outcome reply)
    (Hg : reachable g) (Hrun : run_op tid x g t = (o, g', t')) :
  Inv g' ∧ (o ≠ Hang → gm_rlock g' = rl_free) ∧ gm_board_cfg g' = gm_board_cfg g ∧
  allowed x o (exp_of g) (exp_of g').
Proof.
  destruct (reachable_ok g Hg) as [Hl Hi].
  assert (Hwf : rl_wf (gm_rlock g)) by (rewrite Hl; apply free_wf).
  pose proof (run_op_wp tid x g t Hwf Hi) as Hw. unfold wp in Hw. rewrite Hrun in Hw.
  destruct Hw as (Hb & Hl' & Hi' & Ha). split_and!; [done| |done|done].
  intros Ho. by rewrite Hl'.
Qed.

(** An M3 board without control node. *)
Definition demo_board : BoardConfig :=
  MkBoardConfig (@NodeM3 calm_env) ControlNodeNo None None "m3_12" (Some demo_profile).

Definition demo_manager : GM OpenOCDNode.node CnNo.node :=
  gm_init demo_board m3_node (CnNo.init "m3_12" (Some demo_profile)).

Definition demo_start : outcome reply * GM OpenOCDNode.node CnNo.node * trace :=
  @run_op calm_env _ _ _ _ 1 (OStart "user" 42 None PNone 60) demo_manager [].

Definition demo_running : GM OpenOCDNode.node CnNo.node := snd (fst demo_start).

Lemma demo_start_run : demo_start = (Val (Code 0), demo_running, snd demo_start).
Proof. vm_compute. reflexivity. Qed.

Lemma demo_running_reachable : @reachable calm_env _ _ _ _ demo_running.
Proof.
  eapply (@reach_op calm_env); [apply (@reach_init calm_env)|exact demo_start_run|discriminate].
Qed.

Lemma manager_refines_witness :
  Inv demo_running ∧ gm_rlock demo_running = rl_free ∧
  allowed (OStart "user" 42 None PNone 60) (Val (Code 0)) None (exp_of demo_running).
Proof.
  destruct (@manager_refines calm_env _ _ _ _ demo_manager demo_running 1
    (OStart "user" 42 None PNone 60) [] _ _ (@reach_init calm_env _ _ _ _ _ _ _) demo_start_run)
    as (Hi & Hl & _ & Ha).
  split; [exact Hi|]. split; [apply Hl; discriminate|exact Ha].
Defined.

(** C11: starting while an experiment runs is stopping it, then starting: when the
    inner stop returns, [exp_start] ends as [exp_start] does from the state and the
    history that [exp_stop] leaves, whatever code the stop returned. *)
Theorem start_restarts `{Env} {N C : Type} `{!OpenNodeOps N} `{!ControlNodeOps C}
    (g g1 : GM N C) (tid : nat) (t t1 : trace) (r : Z) (user : string) (exp_id : Z)
    (fw : option string) (profile : pyval) (timeout : Z)
    (Hl : gm_rlock g = rl_free) (Hr : gm_running g = true)
    (Hstop : exp_stop tid g t = (Val r, g1, t1)) :
  exp_start tid user exp_id fw profile timeout g t =
  exp_start tid user exp_id fw profile timeout g1 t1.
Proof. apply exp_stop_free in Hstop; [|done]. by eapply exp_start_after_stop. Qed.

Lemma start_restarts_witness :
  ∃ g1 t1, @exp_stop calm_env _ _ _ _ 1 demo_running [] = (Val 0%Z, g1, t1) ∧
    @exp_start calm_env _ _ _ _ 1 "other" 43 None PNone 0 demo_running [] =
    @exp_start calm_env _ _ _ _ 1 "other" 43 None PNone 0 g1 t1.
Proof.
  set (stop := @exp_stop calm_env _ _ _ _ 1 demo_running []).
  assert (Hs : stop = (Val 0%Z, snd (fst stop), snd stop)) by (vm_compute; reflexivity).
  exists (snd (fst stop)), (snd stop). split; [exact Hs|].
  apply (@start_restarts calm_env _ _ _ _ demo_running _ 1 [] _ 0%Z "other" 43 None PNone 0);
    [vm_compute; reflexivity|vm_compute; reflexivity|exact Hs].
Defined.

(** The requests that remove the empty ones of some files: the size of each is asked for,
    and the file is removed when it is 0. *)
Fixpoint cleaned `{Env} (t : trace) (files : list string) : trace :=
  match files with
  | [] => []
  | f :: files =>
      let u := EvGetSize f ::
        (if bool_decide (env_getsize (t ++ [EvGetSize f]) f = Some 0%Z) then [EvRemove f] else []) in
      u ++ cleaned (t ++ u) files
  end.

Lemma clean_user_file_cleaned `{Env} {St} f (s : St) t :
  clean_user_file f s t = (Val tt, s, t ++ cleaned t [f]).
Proof.
  unfold clean_user_file, ask, mbind, M_bind, mret, M_ret. simpl. rewrite app_nil_r.
  destruct (env_getsize _ _) as [n|]; [|done].
  destruct (Z.eqb_spec n 0) as [->|Hn].
  - rewrite bool_decide_true by done. by rewrite <- (assoc_L (++)).
  - by rewrite bool_decide_false by congruence.
Qed.

Lemma cleanup_run `{Env} {St} (l : list (string * string)) (s : St) t :
  for_each l (λ kf, clean_user_file kf.2) s t = (Val tt, s, t ++ cleaned t l.*2).
Proof.
  revert t. induction l as [|[k f] l IH]; intros t; [by rewrite app_nil_r|].
  cbn [for_each]. rewrite (bind_run _ _ _ _ _ _ _ (clean_user_file_cleaned f s t)), IH.
  cbn [cleaned fmap list_fmap snd]. cbv zeta. by rewrite !app_nil_r, <- (assoc_L (++)).
Qed.

(** The first step of a stop: the timer, if there is one, is cancelled and forgotten. *)
Lemma cancel_timer_run `{Env} {N C : Type} (g g' : GM N C) t t' :
  (match gm_timer g with
   | Some _ => p_emit EvTimerCancel ;; modify (set_timer None)
   | None => mret tt
   end) g t = (Val tt, g', t') →
  g' = set_timer None g ∧
  t' = t ++ match gm_timer g with Some _ => [EvTimerCancel] | None => [] end.
Proof.
  destruct g as [? ? ? ? ? ? ? ? ? [?|]];
    unfold mbind, M_bind, p_emit, ask, modify, mret, M_ret; simpl; intros [= <- <-];
    by rewrite ?app_nil_r.
Qed.

(** The last steps of a stop, once the nodes are stopped. *)
Lemma stop_end_run `{Env} {N C : Type} (gf g' : GM N C) tf t' (r r' : Z) :
  (g ← get;
   cleanup_user_exp_files (gm_exp_files g) ;;
   modify (set_files ∅) ;;
   reset_configuration ;;
   mret r) gf tf = (Val r', g', t') →
  r' = r ∧ t' = tf ++ cleaned tf (map_to_list (gm_exp_files gf)).*2 ++ [EvRemoveHandler].
Proof.
  intros Hrun. apply M_bind_Val in Hrun as (? & ? & ? & [= <- <- <-] & Hrun).
  apply M_bind_Val in Hrun as (? & gh & th & Hclean & Hrun).
  unfold cleanup_user_exp_files in Hclean. rewrite cleanup_run in Hclean.
  injection Hclean as _ <- <-.
  apply M_bind_Val in Hrun as (? & gi & ti & [= _ <- <-] & Hrun).
  apply M_bind_Val in Hrun as (? & gj & tj & Hreset & [= <- <- <-]).
  unfold reset_configuration, mbind, M_bind, modify, p_emit, ask in Hreset.
  injection Hreset as _ _ <-. split; [done|]. by rewrite <- (assoc_L (++)).
Qed.

(** C4: what [exp_stop] does.  Without experiment it returns 0 and nothing at all
    happens.  With one, when it returns, the manager is idle, without timer, and
    these happened, in this order and with no other request to the world: the timer,
    if there was one, was cancelled; the control node's [stop_experiment] returned
    [r1]; for a Pycom board only, the serial port was waited for; the open node's
    [teardown] returned [r2]; the control node's [stop] returned; the size of every file
    of the experiment was asked for, in some order, and those of size 0 were removed;
    the user's log handler was removed.  The code is [r1 + r2]. *)
Theorem exp_stop_correct `{Env} {N C : Type} `{!OpenNodeOps N} `{!ControlNodeOps C}
    (g : GM N C) (tid : nat) (t : trace) (Hl : gm_rlock g = rl_free) :
  (gm_running g = false → exp_stop tid g t = (Val 0%Z, g, t)) ∧
  (∀ r g' t', gm_running g = true → exp_stop tid g t = (Val r, g', t') →
     idle g' ∧ gm_timer g' = None ∧ gm_rlock g' = rl_free ∧
     ∃ g2 g3 g4 t2 t3 t4 t5 r1 r2 r3 files,
       zoom control_node cn_stop_experiment (set_timer None g)
         (t ++ match gm_timer g with Some _ => [EvTimerCancel] | None => [] end)
         = (Val r1, g2, t2) ∧
       (open_node_type g ≠ Val "pycom" → t3 = t2) ∧
       (open_node_type g = Val "pycom" → ∃ tty z, open_node_tty g = Val tty ∧
          wait_tty tty 10000 g2 t2 = (Val z, g2, t3)) ∧
       zoom open_node on_teardown g2 t3 = (Val r2, g3, t4) ∧
       zoom control_node cn_stop g3 t4 = (Val r3, g4, t5) ∧
       files ≡ₚ (map_to_list (gm_exp_files g)).*2 ∧
       t' = t5 ++ cleaned t5 files ++ [EvRemoveHandler] ∧
       r = (r1 + r2)%Z).
Proof.
  split.
  - intros Hr. apply exp_stop_free; [done|].
    unfold exp_stop_body. erewrite bind_run by reflexivity. by rewrite Hr.
  - intros r g' t' Hr Hrun. apply exp_stop_free in Hrun; [|done].
    pose proof (exp_stop_body_wp g t Hr) as Hw. unfold wp in Hw. rewrite Hrun in Hw.
    destruct Hw as (Hidle & Hlk & _). split; [done|]. split; [by apply Hidle|].
    split; [congruence|]. unfold exp_stop_body in Hrun.
    apply M_bind_Val in Hrun as (? & ? & ? & [= <- <- <-] & Hrun). rewrite Hr in Hrun. simpl in Hrun.
    apply M_bind_Val in Hrun as ([] & ga & ta & Hfirst & Hrun).
    apply cancel_timer_run in Hfirst as [-> ->].
    set (K := λ x : GM N C, gm_exp_files x = gm_exp_files g).
    apply M_bind_Val in Hrun as (r1 & gb & tb & Hcn & Hrun).
    assert (Kb : K gb) by (eapply (preserves_run K); [|exact Hcn|reflexivity]; preserve).
    apply M_bind_Val in Hrun as (ty & gc & tc & Hty & Hrun).
    injection Hty as Hty <- <-.
    apply M_bind_Val in Hrun as (? & gd & td & Hpy & Hrun).
    assert (gd = gb) as -> by (eapply stateless_run; [|exact Hpy]; preserve).
    apply M_bind_Val in Hrun as (r2 & ge & te & Hon & Hrun).
    assert (Ke : K ge) by (eapply (preserves_run K); [|exact Hon|exact Kb]; preserve).
    apply M_bind_Val in Hrun as (r3 & gf & tf & Hcs & Hrun).
    assert (Kf : K gf) by (eapply (preserves_run K); [|exact Hcs|exact Ke]; preserve).
    apply stop_end_run in Hrun as [-> ->]. rewrite Kf.
    exists gb, ge, gf, tb, td, te, tf, r1, r2, r3, (map_to_list (gm_exp_files g)).*2.
    split_and!; [exact Hcn| | |exact Hon|exact Hcs|done|done|done].
    + intros Hne. rewrite decide_False in Hpy by congruence. by injection Hpy.
    + intros Heq. rewrite decide_True in Hpy by congruence.
      apply M_bind_Val in Hpy as (tty & ? & ? & [= Htty <- <-] & Hpy).
      apply M_bind_Val in Hpy as (z & g0 & t0 & Hw & Hret). injection Hret as _ -> ->. by exists tty, z.
Qed.

Lemma exp_stop_correct_witness :
  ∃ g' t', @exp_stop calm_env _ _ _ _ 1 demo_running [] = (Val 0%Z, g', t') ∧ idle g'.
Proof.
  set (stop := @exp_stop calm_env _ _ _ _ 1 demo_running []).
  assert (Hs : stop = (Val 0%Z, snd (fst stop), snd stop)) by (vm_compute; reflexivity).
  exists (snd (fst stop)), (snd stop). split; [exact Hs|].
  refine (proj1 (proj2 (@exp_stop_correct calm_env _ _ _ _ demo_running 1 [] _) 0%Z _ _ _ Hs));
    vm_compute; reflexivity.
Defined.

(** A body under the free lock that ends. *)
Lemma locked_free_run `{Env} {N C A : Type} tid (m : M (GM N C) A) g t o g' t' :
  gm_rlock g = rl_free → o ≠ Hang →
  m (lset rlock (MkRLock (Some tid) 1) g) t = (o, lset rlock (MkRLock (Some tid) 1) g', t') →
  locked tid m g t = (o, lset rlock rl_free g', t').
Proof.
  intros Hl Ho Hm. unfold locked, synchronous, mbind, M_bind, gets, modify, try_finally.
  change (lget rlock g) with (gm_rlock g). rewrite Hl, free_acquire, Hm. by destruct o.
Qed.

Lemma lset_free {N C} (g : GM N C) : gm_rlock g = rl_free → lset rlock rl_free g = g.
Proof. intros <-. apply (lset_lget (l := rlock)). Qed.

(** C13: the expiration timer.  A timer of an experiment that is not the running
    one, or that fires when none runs, changes nothing and asks nothing of the
    world; the timer of the running experiment does exactly what [exp_stop] does;
    but a timer that fires while another thread holds the lock is lost: it raises
    [EWOULDBLOCK] out of its own wrapper, which the handler inside does not see,
    and the experiment goes on. *)
Theorem timer_correct `{Env} {N C : Type} `{!OpenNodeOps N} `{!ControlNodeOps C}
    (g : GM N C) (tid : nat) (e : Z) (u : string) (t : trace) :
  (gm_rlock g = rl_free → exp_of g ≠ Some (e, u) →
     timeout_exp_stop tid e u g t = (Val tt, g, t)) ∧
  (∀ r g' t', gm_rlock g = rl_free → exp_of g = Some (e, u) →
     exp_stop tid g t = (Val r, g', t') → timeout_exp_stop tid e u g t = (Val tt, g', t')) ∧
  (∀ o, rl_owner (gm_rlock g) = Some o → o ≠ tid →
     timeout_exp_stop tid e u g t = (Exn (EnvironmentError EWOULDBLOCK), g, t)).
Proof.
  assert (Hexp : ∀ l, exp_of g = Some (e, u) ↔
    (gm_exp_id (lset rlock l g), gm_user (lset rlock l g)) = (Some e, Some u)).
  { intros l. unfold exp_of. simpl. by destruct (gm_exp_id g), (gm_user g); split; intros; simplify_eq. }
  split_and!.
  - intros Hl Hne. unfold timeout_exp_stop.
    rewrite (locked_free_run tid _ g t (Val tt) g t Hl); [by rewrite lset_free|done|].
    unfold timeout_exp_stop_body. erewrite bind_run by reflexivity.
    rewrite decide_False; [done|]. by rewrite <- Hexp.
  - intros r g' t' Hl Heq Hstop. apply exp_stop_free in Hstop; [|done].
    assert (Hl' : gm_rlock g' = rl_free).
    { destruct (gm_running g) eqn:Hr.
      - pose proof (exp_stop_body_wp g t Hr) as Hw. unfold wp in Hw. rewrite Hstop in Hw.
        destruct Hw as (_ & Hw & _). congruence.
      - unfold exp_stop_body, mbind, M_bind, get in Hstop. rewrite Hr in Hstop.
        by injection Hstop as _ <- _. }
    unfold timeout_exp_stop.
    rewrite (locked_free_run tid _ g t (Val tt) g' t' Hl); [by rewrite lset_free|done|].
    unfold timeout_exp_stop_body. erewrite bind_run by reflexivity.
    rewrite decide_True by by apply Hexp. unfold try_except.
    by erewrite bind_run by (by apply exp_stop_nested).
  - intros o Ho Hne. unfold timeout_exp_stop, locked, synchronous, mbind, M_bind, gets.
    change (lget rlock g) with (gm_rlock g). by rewrite (try_acquire_other _ _ _ Ho Hne).
Qed.

(** C12: what [exp_start] refuses.  Without running experiment, a profile that
    raises [ValueError] makes it return 1 before any request to the world; a
    firmware that is not made for the node makes it return 1 after the firmware was
    read and nothing else; in both cases the manager stays as it was. *)
Theorem start_refused `{Env} {N C : Type} `{!OpenNodeOps N} `{!ControlNodeOps C}
    (g : GM N C) (tid : nat) (t : trace) (user : string) (exp_id : Z) (fw : option string)
    (pd : pyval) (timeout : Z) (Hl : gm_rlock g = rl_free) (Hr : gm_running g = false) :
  (profile_from_dict (gm_board_cfg g) pd = Exn ValueError →
     exp_start tid user exp_id fw pd timeout g t = (Val 1%Z, g, t)) ∧
  (∀ p t', profile_from_dict (gm_board_cfg g) pd = Val p →
     is_compatible_with_node fw (on_class (gm_open_node g)) g t = (Val false, g, t') →
     exp_start tid user exp_id fw pd timeout g t = (Val 1%Z, g, t')).
Proof.
  assert (Hbody : ∀ l, exp_start_body tid user exp_id fw pd timeout (lset rlock l g) t =
    start_checked user exp_id fw pd timeout (lset rlock l g) t).
  { intros l. unfold exp_start_body. erewrite bind_run by reflexivity. simpl gm_running.
    rewrite Hr. by erewrite bind_run by reflexivity. }
  split.
  - intros Hp. unfold exp_start.
    rewrite (locked_free_run tid _ g t (Val 1%Z) g t Hl); [by rewrite lset_free|done|].
    rewrite Hbody. unfold start_checked. erewrite bind_run by reflexivity.
    change (gm_board_cfg (lset rlock _ g)) with (gm_board_cfg g). by rewrite Hp.
  - intros p t' Hp Hc. unfold exp_start.
    rewrite (locked_free_run tid _ g t (Val 1%Z) g t' Hl); [by rewrite lset_free|done|].
    rewrite Hbody. unfold start_checked. erewrite bind_run by reflexivity.
    change (gm_board_cfg (lset rlock _ g)) with (gm_board_cfg g). rewrite Hp.
    rewrite (bind_run _ _ _ _ false (lset rlock (MkRLock (Some tid) 1) g) t'); [done|].
    change (on_class (gm_open_node (lset rlock _ g))) with (on_class (gm_open_node g)).
    by rewrite lockless_is_compatible, Hc.
Qed.

Lemma start_refused_witness :
  @exp_start calm_env _ _ _ _ 1 "user" 42 None (PDict [("power", PStr "dc")]) 0
    demo_manager [] = (Val 1%Z, demo_manager, []).
Proof.
  apply (@start_refused calm_env _ _ _ _ demo_manager 1 [] "user" 42 None
    (PDict [("power", PStr "dc")]) 0); vm_compute; reflexivity.
Defined.

(** [node_flash] when the check of the firmware ends with [o], other than with [True]. *)
Lemma node_flash_refused `{Env} {N C : Type} `{!OpenNodeOps N} `{!ControlNodeOps C}
    (g : GM N C) tid t node fw target offset (o : outcome bool) (o' : outcome Z) :
  gm_rlock g = rl_free → node = "open" ∨ node = "control" →
  attr_strs (if decide (node = "control") then cn_class (gm_control_node g)
             else on_class (gm_open_node g)) "ELF_TARGET" = Some target →
  compatible target (env_elf (t ++ [EvElfTarget fw]) fw) = o →
  match o with Val true => False | Val false => o' = Val 1%Z | Exn e => o' = Exn e | Hang => False end →
  node_flash tid node (Some fw) false offset g t = (o', g, t ++ [EvElfTarget fw]).
Proof.
  intros Hl Hnode Ht Hc Ho. unfold node_flash.
  rewrite (locked_free_run tid _ g t o' g (t ++ [EvElfTarget fw]) Hl);
    [by rewrite lset_free|by destruct o as [[]|e|]; simplify_eq|].
  unfold node_flash_body. erewrite bind_run by reflexivity.
  assert (Hcheck : ∀ c (k : bool → M (GM N C) Z) g0, attr_strs c "ELF_TARGET" = Some target →
    (∀ t0, k false g0 t0 = (Val 1%Z, g0, t0)) →
    (compatible ← (if false then mret true else is_compatible_with_node (Some fw) c);
     k compatible) g0 t = (o', g0, t ++ [EvElfTarget fw])).
  { intros c k g0 Hc0 Hk. unfold mbind, M_bind. rewrite (is_compatible_run _ target fw) by done.
    rewrite Hc. destruct o as [[]|e|]; simplify_eq; done. }
  destruct Hnode as [->| ->].
  - by apply (Hcheck (on_class (gm_open_node g))).
  - by apply (Hcheck (cn_class (gm_control_node g))).
Qed.

(** C38: a firmware is only given to the programmer of a node it is made for.  For the
    open node and for the control node alike, unless the firmware is flashed as a raw
    binary: a file that is not an executable for the target of the node's class makes
    [node_flash] return 1, a file that cannot be read makes it raise the [IOError],
    and in both cases the file's header was read, nothing else was asked of the world
    and the manager, with its nodes, is as it was. *)
Theorem node_flash_checks_target `{Env} {N C : Type} `{!OpenNodeOps N} `{!ControlNodeOps C}
    (g : GM N C) (tid : nat) (t : trace) (node fw : string) (target : list string) (offset : Z)
    (Hl : gm_rlock g = rl_free)
    (Hnode : node = "open" ∨ node = "control")
    (Ht : attr_strs (if decide (node = "control") then cn_class (gm_control_node g)
                     else on_class (gm_open_node g)) "ELF_TARGET" = Some target) :
  ((∀ k m, env_elf (t ++ [EvElfTarget fw]) fw = ElfHeader "ET_EXEC" k m → [k; m] ≠ target) →
   (∀ n, env_elf (t ++ [EvElfTarget fw]) fw ≠ ElfIOError n) →
   node_flash tid node (Some fw) false offset g t = (Val 1%Z, g, t ++ [EvElfTarget fw])) ∧
  (∀ n, env_elf (t ++ [EvElfTarget fw]) fw = ElfIOError n →
   node_flash tid node (Some fw) false offset g t
     = (Exn (IOError n), g, t ++ [EvElfTarget fw])).
Proof.
  split.
  - intros Hbad Hio. apply node_flash_refused with target (Val false); [done..| |done].
    destruct (env_elf _ fw) as [e_type k m| |n] eqn:He; simpl; [|done|by destruct (Hio n)].
    f_equal. apply andb_false_iff.
    destruct (decide (e_type = "ET_EXEC")) as [->|]; [right|left]; apply bool_decide_eq_false;
      [|done]. by apply Hbad.
  - intros n He.
    apply node_flash_refused with target (Exn (IOError n)); [done..| |done]. by rewrite He.
Qed.

(** A Zigduino board, given a firmware made for an ARM node. *)
Lemma node_flash_checks_target_witness :
  let g := gm_init (MkBoardConfig (@NodeZigduino calm_env) ControlNodeNo None None "zig_1" None)
             (Zigduino.MkNode (MkExtProc "" [] false)) (CnNo.init "zig_1" None) in
  @node_flash calm_env _ _ _ _ 1 "open" (Some "m3.elf") false 0 g [] =
    (Val 1%Z, g, [EvElfTarget "m3.elf"]).
Proof.
  intros g. apply (@node_flash_checks_target calm_env _ _ _ _ g 1 [] "open" "m3.elf"
    ["ELFCLASS32"; "EM_AVR"] 0); [reflexivity|by left|reflexivity| |discriminate].
  intros k m Heq. vm_compute in Heq. injection Heq as <- <-. discriminate.
Defined.

Lemma exp_start_idle_run `{Env} {N C : Type} `{!OpenNodeOps N} `{!ControlNodeOps C}
    (g : GM N C) tid user exp_id fw pd timeout t r g' t' :
  gm_rlock g = rl_free → gm_running g = false →
  exp_start tid user exp_id fw pd timeout g t = (Val r, g', t') →
  start_checked user exp_id fw pd timeout g t = (Val r, g', t').
Proof.
  intros Hl Hr. assert (Heq : exp_start tid user exp_id fw pd timeout g t =
    locked tid (start_checked user exp_id fw pd timeout) g t).
  { unfold exp_start, locked, synchronous, mbind, M_bind, gets, modify, try_finally.
    change (lget rlock g) with (gm_rlock g). rewrite Hl, free_acquire.
    assert (Hbody : ∀ l, exp_start_body tid user exp_id fw pd timeout (lset rlock l g) t =
      start_checked user exp_id fw pd timeout (lset rlock l g) t); [|by rewrite Hbody].
    intros l. unfold exp_start_body. erewrite bind_run by reflexivity. simpl gm_running.
    rewrite Hr. by erewrite bind_run by reflexivity. }
  rewrite Heq, (locked_run tid _ g t (MkRLock (Some tid) 1));
    [|by rewrite Hl|by rewrite Hl|apply lockless_start_checked].
  destruct (start_checked user exp_id fw pd timeout g t) as [[[] ?] ?]; naive_solver.
Qed.

Lemma preserves_no_timer `{Env} {N C : Type} `{!OpenNodeOps N} `{!ControlNodeOps C}
    user exp_id fw profile :
  preserves (λ g : GM N C, gm_timer g = None) (start_steps user exp_id fw profile 0).
Proof.
  unfold start_steps, user_logger, create_user_exp_files, pycom_cycle. simpl Z.eqb.
  preserve.
Qed.

Lemma pycom_cycle_nonneg `{Env} {N C : Type} `{!OpenNodeOps N} `{!ControlNodeOps C}
    `{!ControlNodeLaws C} `{!StatusOk} tty :
  returns (λ r, 0 ≤ r)%Z (pycom_cycle tty : M (GM N C) Z).
Proof. unfold pycom_cycle. codes. Qed.

(** The steps of a start whose codes add up to 0: each of them returned 0, and before
    the first nothing touched the nodes. *)
Lemma start_steps_zero `{Env} {N C : Type} `{!OpenNodeOps N} `{!ControlNodeOps C}
    `{!OpenNodeLaws N} `{!ControlNodeLaws C} `{!StatusOk} (g g' : GM N C) t t' user exp_id
    fw profile timeout :
  start_steps user exp_id fw profile timeout g t = (Val 0%Z, g', t') →
  ∃ ty tty files (ga gb gc gd ge gf : GM N C) ta tb tc td te tf,
    open_node_type g = Val ty ∧ gm_control_node ga = gm_control_node g ∧
    zoom control_node (cn_start (str_of_Z exp_id) (Some files)) ga ta = (Val 0%Z, gb, tb) ∧
    (if decide (ty = "pycom") then
       r ← pycom_cycle tty; r' ← pycom_cycle tty; mret (r + r')%Z
     else mret 0%Z) gb tb = (Val 0%Z, gc, tc) ∧
    zoom open_node (on_setup fw) gc tc = (Val 0%Z, gd, td) ∧
    zoom control_node (cn_start_experiment profile) gd td = (Val 0%Z, ge, te) ∧
    (if bool_decide (is_Some fw) && board_require_power_cycle ty then
       r ← zoom control_node (cn_open_stop None);
       r' ← zoom control_node (cn_open_start None);
       mret (r + r')%Z
     else mret 0%Z) ge te = (Val 0%Z, gf, tf) ∧
    (g', t') = (if (timeout =? 0)%Z then (gf, tf)
                else (set_timer (Some (exp_id, user)) gf, tf ++ [EvTimerStart timeout])).
Proof.
  intros Hrun.
  unfold start_steps in Hrun.
  apply M_bind_Val in Hrun as (? & ? & ? & [= <- <- <-] & Hrun).
  apply M_bind_Val in Hrun as (? & ? & ? & [= _ <- <-] & Hrun).
  apply M_bind_Val in Hrun as (? & ga & ta & Ra & Hrun).
  apply M_bind_Val in Hrun as (files & gb & tb & Rb & Hrun).
  apply M_bind_Val in Hrun as (? & gc & tc & Rc & Hrun).
  apply M_bind_Val in Hrun as (log & gd & td & Rd & Hrun).
  apply M_bind_Val in Hrun as (handler & ge & te & Re & Hrun).
  apply M_bind_Val in Hrun as (? & gf & tf & Rf & Hrun).
  apply M_bind_Val in Hrun as (? & gh & th & Rh & Hrun).
  apply M_bind_Val in Hrun as (r0 & gi & ti & Ri & Hrun).
  apply M_bind_Val in Hrun as (ty & gj & tj & [= Hty <- <-] & Hrun).
  apply M_bind_Val in Hrun as (r1 & gk & tk & Rk & Hrun).
  apply M_bind_Val in Hrun as (r2 & gl & tl & Rl & Hrun).
  apply M_bind_Val in Hrun as (r3 & gm & tm & Rm & Hrun).
  apply M_bind_Val in Hrun as (r4 & gn & tn & Rn & Hrun).
  apply M_bind_Val in Hrun as (? & go & tp & Ro & [= Hsum <- <-]).
  pose proof (returns_run _ _ _ _ _ _ _ (returns_zoom _ control_node _ (cn_start_nonneg _ _ _)) Ri).
  assert (Hpy : ∃ tty, (if decide (ty = "pycom") then
      r ← pycom_cycle tty; r' ← pycom_cycle tty; mret (r + r')%Z else mret 0%Z) gi ti
      = (Val r1, gk, tk)).
  { case_decide; [|by exists ""]. apply M_bind_Val in Rk as (tty & ? & ? & [= _ <- <-] & Rk).
    by exists tty. }
  destruct Hpy as [tty Hpy].
  assert (0 ≤ r1)%Z.
  { eapply returns_run; [|exact Hpy]. pose proof @pycom_cycle_nonneg. case_decide; codes. }
  pose proof (returns_run _ _ _ _ _ _ _ (returns_zoom _ open_node _ (on_setup_nonneg _ _)) Rl).
  pose proof (returns_run _ _ _ _ _ _ _
    (returns_zoom _ control_node _ (cn_start_experiment_nonneg _ _)) Rm).
  assert (0 ≤ r4)%Z by (eapply returns_run; [|exact Rn]; codes).
  cbv beta in *. assert (r0 = 0 ∧ r1 = 0 ∧ r2 = 0 ∧ r3 = 0 ∧ r4 = 0)%Z
    as (-> & -> & -> & -> & ->) by lia.
  exists ty, tty, files, gh, gi, gk, gl, gm, gn, th, ti, tk, tl, tm, tn.
  split_and!; [done| |done..|].
  - set (I := λ x : GM N C, gm_control_node x = gm_control_node g).
    assert (I gb) as Hb.
    { eapply (preserves_run I); [|exact Rb|eapply (preserves_run I); [|exact Ra|done]];
        unfold create_user_exp_files, create_user_exp_folders; preserve. }
    injection Rc as _ <- _. apply (stateless_run _ _ _ _ _ _ (preserves_lift _ _)) in Rd as ->.
    assert (I ge) as Hge.
    { eapply (preserves_run I); [|exact Re|exact Hb]. unfold user_logger. preserve. }
    injection Rf as _ <- _. injection Rh as _ <- _. exact Hge.
  - destruct (timeout =? 0)%Z; [by injection Ro as _ <- <-|].
    apply M_bind_Val in Ro as (? & ? & ? & [= _ <- <-] & [= _ <- <-]). done.
Qed.

(** A start from idle that returns 0 passed the checks. *)
Lemma exp_start_zero `{Env} {N C : Type} `{!OpenNodeOps N} `{!ControlNodeOps C}
    (g g' : GM N C) tid user exp_id fw pd timeout t t' :
  gm_rlock g = rl_free → idle g →
  exp_start tid user exp_id fw pd timeout g t = (Val 0%Z, g', t') →
  ∃ profile u, profile_from_dict (gm_board_cfg g) pd = Val profile ∧
    is_compatible_with_node fw (on_class (gm_open_node g)) g t = (Val true, g, u) ∧
    start_steps user exp_id fw profile timeout (set_exp (Some exp_id) (Some user) true g) u
      = (Val 0%Z, g', t').
Proof.
  intros Hl Hi Hrun. apply exp_start_idle_run in Hrun; [|done|by apply idle_not_running].
  unfold start_checked in Hrun. apply M_bind_Val in Hrun as (? & ? & ? & [= <- <- <-] & Hrun).
  destruct (profile_from_dict (gm_board_cfg g) pd) as [profile|[]|]; try done.
  apply M_bind_Val in Hrun as (c & g0 & u & Hc & Hrun).
  assert (g0 = g) as -> by (eapply stateless_run; [|exact Hc]; preserve).
  destruct c; simpl in Hrun; [|by simplify_eq].
  apply M_bind_Val in Hrun as (? & gs & ts & Hset & Hrun). injection Hset as _ <- <-.
  by exists profile, u.
Qed.

(** C5: a start that succeeds did everything.  In a world where no command ends
    on a signal, for any nodes that obey the laws of their interfaces, an
    [exp_start] from the idle manager that returns 0 accepted the profile and the
    firmware, and the control node's [start], the open node's [setup] and the
    control node's [start_experiment] each returned 0; the experiment runs, with a
    timer when a timeout was asked for. *)
Theorem start_success `{Env} {N C : Type} `{!OpenNodeOps N} `{!ControlNodeOps C}
    `{!OpenNodeLaws N} `{!ControlNodeLaws C} `{!StatusOk}
    (g g' : GM N C) (tid : nat) (t t' : trace) (user : string) (exp_id : Z)
    (fw : option string) (pd : pyval) (timeout : Z)
    (Hl : gm_rlock g = rl_free) (Hi : idle g)
    (Hrun : exp_start tid user exp_id fw pd timeout g t = (Val 0%Z, g', t')) :
  ∃ profile, profile_from_dict (gm_board_cfg g) pd = Val profile ∧
    (∃ u, is_compatible_with_node fw (on_class (gm_open_node g)) g t = (Val true, g, u)) ∧
    (∃ (g1 : GM N C) t1 g2 t2 files,
       zoom control_node (cn_start (str_of_Z exp_id) (Some files)) g1 t1 = (Val 0%Z, g2, t2)) ∧
    (∃ (g1 : GM N C) t1 g2 t2, zoom open_node (on_setup fw) g1 t1 = (Val 0%Z, g2, t2)) ∧
    (∃ (g1 : GM N C) t1 g2 t2,
       zoom control_node (cn_start_experiment profile) g1 t1 = (Val 0%Z, g2, t2)) ∧
    exp_of g' = Some (exp_id, user) ∧
    gm_timer g' = (if (timeout =? 0)%Z then None else Some (exp_id, user)).
Proof.
  apply exp_start_zero in Hrun as (profile & u & Hpd & Hc & Hrun); [|done..].
  exists profile. split; [done|]. split; [by eexists|].
  set (gs := set_exp (Some exp_id) (Some user) true g) in Hrun.
  assert (Hnone : gm_timer gs = None) by apply Hi.
  assert (Hstart : starting_exp exp_id user g gs) by (split; [done|split_and!; auto]).
  pose proof (preserves_run _ _ _ _ _ _ _
    (preserves_starting g exp_id user user exp_id fw profile timeout eq_refl eq_refl) Hrun Hstart)
    as [_ Hexp].
  assert (Htimer : timeout = 0%Z → gm_timer g' = None).
  { intros ->. by apply (preserves_run _ _ _ _ _ _ _ (preserves_no_timer _ _ _ _) Hrun). }
  apply start_steps_zero in Hrun as (ty & tty & files & ? & ? & ? & ? & ? & ? & ? & ? & ? & ? & ?
    & ? & _ & _ & Hcn & _ & Hon & Hexpe & _ & Hend).
  split; [by do 5 eexists|]. split; [by do 4 eexists|]. split; [by do 4 eexists|].
  split; [by apply exp_of_running|].
  destruct (Z.eqb_spec timeout 0) as [Hz|Hz]; [by apply Htimer|by injection Hend as -> _].
Qed.

Lemma start_success_witness :
  exp_of demo_running = Some (42%Z, "user") ∧ gm_timer demo_running = Some (42%Z, "user").
Proof.
  destruct (@start_success calm_env _ _ _ _ openocd_node_laws no_laws calm_status demo_manager
    demo_running 1 [] (snd demo_start) "user" 42 None PNone 60) as (_ & _ & _ & _ & _ & _ & H);
    [reflexivity|by repeat split|vm_compute; reflexivity|exact H].
Defined.
