(* ===== verification/Gateway.v ===== *)
(** * A whole gateway ([gateway_manager.py], [rest_server.py])

    The manager of a real gateway: its nodes are built by the classes the
    configuration names.  [AnyOpen] and [AnyControl] are the instances Python can
    build, each with the operations of its family, and obey the laws of the
    interfaces, so every theorem on the manager and on the server holds for every
    board of the repository. *)

From S2P Require Import Prelude PyString Effects PyVal Profile Common Config Nodes.
From S2P Require Import NodeClasses BoardConfig Interfaces OpenNodes ControlNodes Programmers ExternalProcess Autotest GatewayManager.

(** ** Nodes of any class *)

(** An instance of an open node class. *)
Inductive AnyOpen :=
  | OOpenOCD (n : OpenOCDNode.node)
  | OEdbg (n : EdbgNode.node)
  | OLeonardo (n : Leonardo.node)
  | OZigduino (n : Zigduino.node)
  | OFirefly (n : Firefly.node)
  | OPycom (n : Pycom.node)
  | OLinux (n : LinuxNode.node)
  | ORtlSdr (n : RtlSdr.node)
  | OLora (n : LoraGateway.node).

(** An instance of a control node class. *)
Inductive AnyControl :=
  | CIotlab (n : CnIotlab.node)
  | CNo (n : CnNo.node)
  | CRpi3 (n : CnRpi3.node).

(** The operation of one of the alternatives. *)
Definition inside {S T A} (c : T → S) (m : M T A) (x : T) (t : trace) : outcome A * S * trace :=
  let '(o, x', t') := m x t in (o, c x', t').

Section any.
Context `{E : Env}.

(** The method [m] of the class of the node. *)
Definition with_open {A} (m : ∀ N, OpenNodeOps N → M N A) : M AnyOpen A := λ n t,
  match n with
  | OOpenOCD n => inside OOpenOCD (m _ _) n t
  | OEdbg n => inside OEdbg (m _ _) n t
  | OLeonardo n => inside OLeonardo (m _ _) n t
  | OZigduino n => inside OZigduino (m _ _) n t
  | OFirefly n => inside OFirefly (m _ _) n t
  | OPycom n => inside OPycom (m _ _) n t
  | OLinux n => inside OLinux (m _ _) n t
  | ORtlSdr n => inside ORtlSdr (m _ _) n t
  | OLora n => inside OLora (m _ _) n t
  end.

Definition open_class (n : AnyOpen) : pyclass :=
  match n with
  | OOpenOCD n => on_class n | OEdbg n => on_class n | OLeonardo n => on_class n
  | OZigduino n => on_class n | OFirefly n => on_class n | OPycom n => on_class n
  | OLinux n => on_class n | ORtlSdr n => on_class n | OLora n => on_class n
  end.

#[global] Instance any_open_ops : OpenNodeOps AnyOpen := {|
  on_class := open_class;
  on_setup := λ fw, with_open (λ N _, on_setup fw);
  on_teardown := with_open (λ N _, on_teardown);
  on_flash := λ fw b o, with_open (λ N _, on_flash fw b o);
  on_reset := with_open (λ N _, on_reset);
  on_debug_start := with_open (λ N _, on_debug_start);
  on_debug_stop := with_open (λ N _, on_debug_stop);
  on_status := with_open (λ N _, on_status);
  on_redirection_stop := with_open (λ N _, on_redirection_stop);
  on_setup_nodebug := λ fw, with_open (λ N _, on_setup_nodebug fw);
  on_wait_booted := λ timeout, with_open (λ N _, on_wait_booted timeout)
|}.

(** [self.serial_redirection], which the nodes without serial link do not have *)
Definition with_redirection {A} (m : M ExtProc A) : M AnyOpen A := λ n t,
  match n with
  | OOpenOCD n => inside OOpenOCD (zoom OpenOCDNode.redirection m) n t
  | OEdbg n => inside OEdbg (zoom EdbgNode.redirection m) n t
  | OLeonardo n => inside OLeonardo (zoom Leonardo.redirection m) n t
  | OZigduino n => inside OZigduino (zoom Zigduino.redirection m) n t
  | OFirefly n => inside OFirefly (zoom Firefly.redirection m) n t
  | OPycom n => inside OPycom (zoom Pycom.redirection m) n t
  | OLinux n => inside OLinux (zoom LinuxNode.redirection m) n t
  | ORtlSdr _ | OLora _ => (Exn AttributeError, n, t)
  end.

Definition with_control {A} (m : ∀ C, ControlNodeOps C → M C A) : M AnyControl A := λ n t,
  match n with
  | CIotlab n => inside CIotlab (m _ _) n t
  | CNo n => inside CNo (m _ _) n t
  | CRpi3 n => inside CRpi3 (m _ _) n t
  end.

Definition of_control {A} (f : ∀ C, ControlNodeOps C → C → A) (n : AnyControl) : A :=
  match n with CIotlab n => f _ _ n | CNo n => f _ _ n | CRpi3 n => f _ _ n end.

#[global] Instance any_control_ops : ControlNodeOps AnyControl := {|
  cn_class := of_control (λ C _, cn_class);
  cn_node_id := of_control (λ C _, cn_node_id);
  cn_start := λ id files, with_control (λ C _, cn_start id files);
  cn_stop := with_control (λ C _, cn_stop);
  cn_start_experiment := λ p, with_control (λ C _, cn_start_experiment p);
  cn_stop_experiment := with_control (λ C _, cn_stop_experiment);
  cn_configure_profile := λ p, with_control (λ C _, cn_configure_profile p);
  cn_open_start := λ power, with_control (λ C _, cn_open_start power);
  cn_open_stop := λ power, with_control (λ C _, cn_open_stop power);
  cn_flash := λ fw b o, with_control (λ C _, cn_flash fw b o);
  cn_reset := with_control (λ C _, cn_reset);
  cn_status := with_control (λ C _, cn_status);
  cn_autotest_setup := with_control (λ C _, cn_autotest_setup);
  cn_autotest_teardown := λ stop_on, with_control (λ C _, cn_autotest_teardown stop_on);
  cn_sender := λ args, with_control (λ C _, cn_sender args);
  cn_pause := λ ms, with_control (λ C _, cn_pause ms);
  cn_measures := of_control (λ C _, cn_measures)
|}.

(** ** Construction *)

(** [board_class()]: the [__init__] the class has, its own or inherited.  [order] is
    the order of Python's set [PYCOM_SAFE_REBOOT_SEQUENCE]. *)
Definition init_of (c : pyclass) : string :=
  match getattr c "__init__" with Some (AMeth owner) => owner | _ => "" end.

Definition made {St T} (k : T → AnyOpen) (m : M St T) : M St AnyOpen := n ← m; mret (k n).

Definition open_init {St} (order : list string) (c : pyclass) : M St AnyOpen :=
  let owner := init_of c in
  if decide (owner = "NodeOpenOCDBase") then made OOpenOCD (OpenOCDNode.init c)
  else if decide (owner = "NodeEdbgBase") then made OEdbg (EdbgNode.init c)
  else if decide (owner = "NodeLeonardo") then made OLeonardo (lift Leonardo.init)
  else if decide (owner = "NodeZigduino") then made OZigduino (lift Zigduino.init)
  else if decide (owner = "NodeFirefly") then made OFirefly (lift Firefly.init)
  else if decide (owner = "NodePycom") then made OPycom (lift (Pycom.init order))
  else if decide (owner = "NodeA8" ∨ owner = "NodeRpi3") then made OLinux (lift (LinuxNode.init c))
  else if decide (owner = "NodeRtlSdr") then made ORtlSdr (lift RtlSdr.init)
  else if decide (owner = "NodeLoraGateway") then made OLora LoraGateway.init
  else raise TypeError.                  (* an abstract class, or other arguments *)

(** [cn_class(node_id, default_profile)]: the [__init__] of an open node takes no
    argument *)
Definition control_init {St} (c : pyclass) (node_id : string) (default_profile : option Profile)
    : M St AnyControl :=
  let owner := init_of c in
  if decide (owner = "ControlNodeIotlab") then
    n ← CnIotlab.init c node_id default_profile; mret (CIotlab n)
  else if decide (owner = "ControlNodeNo") then mret (CNo (CnNo.init node_id default_profile))
  else if decide (owner = "ControlNodeRpi3") then
    n ← CnRpi3.init node_id default_profile; mret (CRpi3 n)
  else raise TypeError.

(** [len(LOGGER.handlers)], the handlers added and not removed so far. *)
Fixpoint handlers (n : nat) (t : trace) : nat :=
  match t with
  | [] => n
  | EvAddHandler _ :: t => handlers (S n) t
  | EvRemoveHandler :: t => handlers (pred n) t
  | _ :: t => handlers n t
  end.

(** [gateway_logging.init_logger(log_folder, log_stdout)]: the server log is opened,
    unless the logger has handlers *)
Definition init_logger {St} (log_folder : string) (log_stdout : bool) : M St unit := λ s t,
  if handlers 0 t =? 0 then
    (let server_f := log_folder +:+ "/" +:+ "gateway-server.log" in
     p_open server_f "a" ;;
     p_emit (EvAddHandler server_f) ;;
     if log_stdout then p_emit (EvAddHandler "stdout") else mret tt) s t
  else (Val tt, s, t).

(** [GatewayManager(log_folder, log_stdout)] *)
Definition gateway_init {St} (order : list string) (log_folder : string) (log_stdout : bool)
    : M St (GM AnyOpen AnyControl) :=
  init_logger log_folder log_stdout ;;
  b ← board_config_init;
  on ← open_init order (bc_board_class b);
  cn ← control_init (bc_cn_class b) (bc_node_id b) (bc_default_profile b);
  mret (gm_init b on cn).

(** [_main]: the manager the server is given, in the main thread *)
Definition server_manager {St} (order : list string) (tid : nat) (log_folder : string)
    (log_stdout : bool) : M St (GM AnyOpen AnyControl) := λ s t,
  match gateway_init order log_folder log_stdout s t with
  | (Val g, s, t) =>
      match manager_setup tid g t with
      | (Val _, g, t) => (Val g, s, t)
      | (Exn e, _, t) => (Exn e, s, t)
      | (Hang, _, t) => (Hang, s, t)
      end
  | r => r
  end.
End any.

(** ** Laws of the interfaces *)

Section laws.
Context `{E : Env}.

Lemma returns_inside {S T A} (c : T → S) (P : A → Prop) (m : M T A) x t :
  returns P m →
  let '(o, _, _) := inside c m x t in match o with Val a => P a | _ => True end.
Proof.
  intros Hm. unfold inside. specialize (Hm x t). unfold wp in Hm. by destruct (m x t) as [[] ?].
Qed.

Lemma preserves_inside {S T A} (c : T → S) (I : S → Prop) (m : M T A) x t :
  preserves (λ x, I (c x)) m → I (c x) → let '(_, y, _) := inside c m x t in I y.
Proof.
  intros Hm Hx. unfold inside. specialize (Hm x t Hx). unfold wp in Hm.
  by destruct (m x t) as [[] ?].
Qed.

Lemma with_open_returns {A} (P : A → Prop) (m : ∀ N, OpenNodeOps N → M N A) :
  (∀ N (ops : OpenNodeOps N), OpenNodeLaws N → returns P (m N ops)) →
  returns P (with_open m).
Proof.
  intros Hm n t. unfold wp, with_open.
  destruct n; apply returns_inside; apply Hm; apply _.
Qed.

Lemma with_open_class {A} (m : ∀ N, OpenNodeOps N → M N A) c :
  (∀ N (ops : OpenNodeOps N), OpenNodeLaws N → preserves (λ n, on_class n = c) (m N ops)) →
  preserves (λ n, on_class n = c) (with_open m).
Proof.
  intros Hm n t Hn. unfold wp, with_open.
  destruct n; (eapply (preserves_inside _ (λ n, on_class n = c)); [|exact Hn]);
    apply (Hm _ _ _).
Qed.

#[global] Instance any_open_laws : OpenNodeLaws AnyOpen.
Proof.
  split; simpl; intros; try (apply with_open_returns; intros; eauto with nonneg).
  split_and!; intros; apply with_open_class; intros N ops HN;
    destruct (on_keeps_class c) as (H1 & H2 & H3 & H4 & H5 & H6 & H7); auto.
Qed.

Lemma with_control_returns {A} (P : A → Prop) (m : ∀ C, ControlNodeOps C → M C A) :
  (∀ C (ops : ControlNodeOps C), ControlNodeLaws C → returns P (m C ops)) →
  returns P (with_control m).
Proof.
  intros Hm n t. unfold wp, with_control.
  destruct n; apply returns_inside; apply Hm; apply _.
Qed.

#[global] Instance any_control_laws : ControlNodeLaws AnyControl.
Proof.
  split; simpl; intros; try (apply with_control_returns; intros; eauto with nonneg).
  unfold with_control, inside.
  destruct c as [c|c|c]; simpl; (eexists; reflexivity).
Qed.
End laws.

(** ** The construction ends *)

(** The redirection of a node, when it has one. *)
Definition redirection_of (n : AnyOpen) : option ExtProc :=
  match n with
  | OOpenOCD n => Some (OpenOCDNode.nd_redirection n)
  | OEdbg n => Some (EdbgNode.ed_redirection n)
  | OLeonardo n => Some (Leonardo.le_redirection n)
  | OZigduino n => Some (Zigduino.zi_redirection n)
  | OFirefly n => Some (Firefly.ff_redirection n)
  | OPycom n => Some (Pycom.py_redirection n)
  | OLinux n => Some (LinuxNode.li_redirection n)
  | ORtlSdr _ | OLora _ => None
  end.

(** A new instance of the class: its redirection is not started. *)
Definition instance_of `{E : Env} (c : pyclass) (n : AnyOpen) : Prop :=
  on_class n = c ∧ ∀ p, redirection_of n = Some p → ep_used p = false.

(** What building a node can raise: a file that cannot be opened, a program that
    cannot be run. *)
Definition node_exn (e : exn) : Prop := is_EnvironmentError e = true.

Section construction.
Context `{E : Env} {St : Type}.

Lemma ends_lift_Val {A} (P : A → Prop) X (a : A) : P a → ends (St:=St) P X (lift (Val a)).
Proof. intros Ha s t. by exists (Val a), t. Qed.

Lemma ends_ask {A} X ev (f : trace → A) : ends (St:=St) (λ _, True) X (ask ev f).
Proof. intros s t. unfold ask. by eexists _, _. Qed.

Lemma ends_raise {A} (P : A → Prop) (X : exn → Prop) e : X e → ends (St:=St) P X (raise e).
Proof. intros He s t. by exists (Exn e), t. Qed.

Lemma ends_open path mode : ends (St:=St) (λ _, True) node_exn (p_open path mode).
Proof.
  unfold p_open. eapply ends_bind; [apply ends_ask|intros [n|] _].
  - by apply ends_raise.
  - by apply ends_mret.
Qed.

Lemma ends_init_logger log_folder log_stdout :
  ends (St:=St) (λ _, True) node_exn (init_logger log_folder log_stdout).
Proof.
  intros s t. unfold init_logger. destruct (handlers 0 t =? 0); [|by eexists _, _].
  revert s t. eapply ends_bind; [apply ends_open|intros ? _].
  eapply ends_bind; [apply ends_ask|intros ? _].
  destruct log_stdout; [apply ends_ask|by apply ends_mret].
Qed.

Lemma ends_made {T} (k : T → AnyOpen) (P : T → Prop) (Q : AnyOpen → Prop) (m : M St T) :
  ends P node_exn m → (∀ n, P n → Q (k n)) → ends Q node_exn (made k m).
Proof.
  intros Hm HQ. unfold made. eapply ends_bind; [exact Hm|]. intros n Hn. by apply ends_mret, HQ.
Qed.

Lemma ends_from_node c :
  is_Some (attr_str c "OPENOCD_CFG_FILE") →
  ends (St:=St) (λ _, True) node_exn (OpenOCDNode.from_node c).
Proof.
  intros [cfg Hcfg]. unfold OpenOCDNode.from_node, self_str. rewrite Hcfg.
  eapply (ends_bind (λ _, True)); [by apply ends_lift_Val|intros ? _].
  unfold openocd_new, abspath. eapply (ends_bind (λ _, True)); [|intros ? _; by apply ends_mret].
  eapply ends_bind; [apply ends_open|intros ? _; by apply ends_mret].
Qed.

Lemma ends_openocd_init c tty baudrate sr :
  attr_str c "TTY" = Some tty → attr_int c "BAUDRATE" = Some baudrate →
  serial_redirection tty baudrate raw_opts = Val sr → is_Some (attr_str c "OPENOCD_CFG_FILE") →
  ep_used sr = false →
  ends (St:=St) (λ n, OpenOCDNode.nd_class n = c ∧ ep_used (OpenOCDNode.nd_redirection n) = false)
    node_exn (OpenOCDNode.init c).
Proof.
  intros Ht Hb Hs Hc Hu. unfold OpenOCDNode.init, self_str, self_int. rewrite Ht, Hb.
  eapply (ends_bind (eq tty)); [by apply ends_lift_Val|intros ? <-].
  eapply (ends_bind (eq baudrate)); [by apply ends_lift_Val|intros ? <-].
  rewrite Hs. eapply (ends_bind (eq sr)); [by apply ends_lift_Val|intros ? <-].
  eapply ends_bind; [by apply ends_from_node|intros ? _]. by apply ends_mret.
Qed.

Lemma ends_pid : ends (St:=St) (λ _, True) node_exn LoraGateway.lora_pkt_fwd_pid.
Proof.
  unfold LoraGateway.lora_pkt_fwd_pid. eapply ends_bind; [apply ends_ask|intros [] _];
    first [by apply ends_mret|by apply ends_raise].
Qed.

Lemma ends_start_loop tries running :
  ends (St:=St) (λ _, True) node_exn (LoraGateway.start_loop tries running).
Proof.
  revert running. induction tries as [|tries IH]; intros [|]; simpl; try by apply ends_mret.
  eapply ends_bind; [apply ends_ask|intros [n|] _]; [by apply ends_raise|].
  eapply ends_bind; [apply ends_ask|intros ? _].
  eapply ends_bind; [apply ends_pid|intros ? _]. apply IH.
Qed.

Lemma ends_lora_init : ends (St:=St) (λ _, True) node_exn LoraGateway.init.
Proof.
  unfold LoraGateway.init, LoraGateway.start_lora_pkt_fwd.
  eapply ends_bind; [apply ends_open|intros ? _].
  eapply ends_bind; [eapply ends_bind; [apply ends_pid|intros ? _; apply ends_start_loop]|intros ? _].
  let m := eval vm_compute in (mosquitto 1883) in replace (mosquitto 1883) with m by reflexivity.
  eapply (ends_bind (λ _, True)); [by apply ends_lift_Val|intros ? _].
  eapply (ends_bind (λ _, True)); [|intros ? _; by apply ends_mret].
  unfold lora_gateway_bridge. eapply ends_bind; [apply ends_ask|intros [] _];
    match goal with |- ends _ _ (lift ?o) =>
      let v := eval vm_compute in o in replace o with v by reflexivity end;
    by apply ends_lift_Val.
Qed.
End construction.

(** The test of the owner of [__init__], once it is known. *)
Ltac init_case :=
  repeat first [rewrite decide_True by tauto | rewrite decide_False by (intuition discriminate)].

(** A pure constructor, computed. *)
Ltac pure_made :=
  match goal with |- ends _ _ (made _ (lift ?o)) =>
    let v := eval vm_compute in o in replace o with v by reflexivity end;
  match goal with |- ends _ _ (made _ (lift (Val ?n))) =>
    eapply (ends_made _ (eq n)); [by apply ends_lift_Val|] end;
  intros ? <-; split; [reflexivity|by intros ? [= <-]].

(** Every open node class of the repository has what its [__init__] reads, so that
    only the world can make it fail, and its instances are of this class. *)
Lemma ends_open_init `{Env} {St} order c :
  c ∈ open_classes →
  ends (St:=St) (instance_of c) node_exn (open_init order c).
Proof.
  unfold open_classes. intros Hc.
  repeat (apply elem_of_cons in Hc as [->|Hc]; [
    unfold open_init;
    match goal with |- context [init_of ?c] =>
      let o := eval vm_compute in (init_of c) in replace (init_of c) with o by reflexivity end;
    init_case;
    lazymatch goal with
    | |- ends _ _ (made OOpenOCD _) =>
        eapply ends_made;
          [eapply ends_openocd_init;
             [reflexivity|reflexivity|vm_compute; reflexivity|by eexists|reflexivity]
          |intros n [Hn Hu]; split; [exact Hn|by intros ? [= <-]]]
    | |- ends _ _ (made OLora _) => eapply ends_made; [apply ends_lora_init|done]
    | _ => pure_made
    end|]).
  by apply not_elem_of_nil in Hc.
Qed.

Lemma ends_iotlab_init `{Env} {St} c node_id p :
  is_Some (attr_str c "OPENOCD_CFG_FILE") → is_Some (attr_str c "TTY") →
  ends (St:=St) (λ n, CnIotlab.ci_class n = c ∧ CnIotlab.ci_node_id n = node_id) node_exn
    (CnIotlab.init c node_id p).
Proof.
  intros Hcfg [tty Htty]. unfold CnIotlab.init, self_str. rewrite Htty.
  eapply (ends_bind (λ _, True)); [by apply ends_from_node|intros ? _].
  eapply (ends_bind (λ _, True)); [by apply ends_lift_Val|intros ? _]. by apply ends_mret.
Qed.

Lemma ends_rpi3_init `{Env} {St} node_id p :
  ends (St:=St) (λ n, CnRpi3.cr_node_id n = node_id) node_exn (CnRpi3.init node_id p).
Proof.
  unfold CnRpi3.init. eapply (ends_bind (λ _, True)); [|intros ? _; by apply ends_mret].
  unfold mjpg_streamer.
  match goal with |- ends _ _ (lift ?o ≫= _) =>
    let v := eval vm_compute in o in replace o with v by reflexivity end.
  eapply (ends_bind (λ _, True)); [by apply ends_lift_Val|intros ? _].
  eapply (ends_bind (λ _, True)); [apply ends_open|intros ? _]. by apply ends_mret.
Qed.

(** The same for the control nodes.  An open node class in their place is refused by
    Python: its [__init__] takes no argument. *)
Lemma ends_control_init `{Env} {St} c node_id p :
  c ∈ open_classes ∨ c ∈ control_classes →
  ends (St:=St) (λ n, cn_class n = c ∧ cn_node_id n = node_id ∧ c ∈ control_classes)
    (λ e, node_exn e ∨ (e = TypeError ∧ c ∈ open_classes)) (control_init c node_id p).
Proof.
  intros [Hc|Hc].
  - replace (control_init c node_id p : M St AnyControl) with (raise TypeError : M St AnyControl).
    { apply ends_raise. by right. }
    unfold open_classes in Hc.
    repeat (apply elem_of_cons in Hc as [->|Hc]; [reflexivity|]).
    by apply not_elem_of_nil in Hc.
  - assert (Hin : c ∈ control_classes) by done. unfold control_classes in Hc.
    eapply (ends_mono _ _ node_exn); [intros ? Hn; exact Hn|by left|].
    repeat (apply elem_of_cons in Hc as [->|Hc]); [..|by apply not_elem_of_nil in Hc].
    + eapply ends_bind; [by apply ends_iotlab_init; eexists|intros n [??]; by apply ends_mret].
    + eapply ends_bind; [by apply ends_iotlab_init; eexists|intros n [??]; by apply ends_mret].
    + by apply ends_mret.
    + eapply ends_bind; [apply ends_rpi3_init|intros n ?; by apply ends_mret].
Qed.

(** What a new manager is. *)
Definition new_manager `{Env} (g : GM AnyOpen AnyControl) : Prop :=
  reachable g ∧ idle g ∧ gm_rlock g = rl_free ∧
  on_class (gm_open_node g) = bc_board_class (gm_board_cfg g) ∧
  cn_class (gm_control_node g) = bc_cn_class (gm_board_cfg g) ∧
  cn_node_id (gm_control_node g) = bc_node_id (gm_board_cfg g) ∧
  on_class (gm_open_node g) ∈ open_classes ∧
  cn_class (gm_control_node g) ∈ control_classes.

(** The construction of the manager, once the logger is there: from the configuration
    that the files give. *)
Lemma nodes_init_run `{Env} {St} order b (s : St) t :
  config_post (Val b) →
  ∃ o t', (on ← open_init order (bc_board_class b);
           cn ← control_init (bc_cn_class b) (bc_node_id b) (bc_default_profile b);
           mret (gm_init b on cn)) s t = (o, s, t') ∧
    match o with
    | Val g => gm_board_cfg g = b ∧ new_manager g
    | Exn e => is_EnvironmentError e = true ∨ (e = TypeError ∧ bc_cn_class b ∈ open_classes)
    | Hang => False
    end.
Proof.
  intros (Hopen & [[ty Hty] Hcn] & _). destruct (Hopen _ (or_introl eq_refl)) as [Hboard _].
  revert s t. change (ends (St:=St) (λ g, gm_board_cfg g = b ∧ new_manager g)
    (λ e, is_EnvironmentError e = true ∨ (e = TypeError ∧ bc_cn_class b ∈ open_classes))
    (on ← open_init order (bc_board_class b);
     cn ← control_init (bc_cn_class b) (bc_node_id b) (bc_default_profile b);
     mret (gm_init b on cn))).
  eapply (ends_bind (instance_of (bc_board_class b))).
  { eapply ends_mono, ends_open_init; [done|by left|done]. }
  intros on [Hon _].
  eapply ends_bind.
  { eapply ends_mono, ends_control_init; [intros n Hn; exact Hn|intros e He; exact He|].
    by eapply import_order_typed. }
  intros cn (Hc & Hi & Hin). apply ends_mret. split; [done|].
  split_and!; [apply reach_init|done|done|exact Hon|exact Hc|exact Hi| |].
  - change (on_class on ∈ open_classes). by rewrite Hon.
  - change (cn_class cn ∈ control_classes). by rewrite Hc.
Qed.

Lemma gateway_init_run `{Env} {St} order log_folder log_stdout (s : St) t :
  ∃ o t', gateway_init order log_folder log_stdout s t = (o, s, t') ∧
    match o with
    | Val g => new_manager g ∧ ∃ t0, init_logger log_folder log_stdout s t = (Val tt, s, t0) ∧
        configured s t0 (gm_board_cfg g)
    | Exn e =>
        is_EnvironmentError e = true ∨
        ∃ t0, init_logger log_folder log_stdout s t = (Val tt, s, t0) ∧
          (misconfigured s t0 e ∨
           ∃ b, configured s t0 b ∧ bc_cn_class b ∈ open_classes ∧ e = TypeError)
    | Hang => False
    end.
Proof.
  unfold gateway_init.
  destruct (ends_init_logger log_folder log_stdout s t) as (o & t0 & Hlog & Ho).
  destruct o as [[]|e|]; [| |done].
  2: { exists (Exn e), t0. split; [unfold mbind, M_bind; by rewrite Hlog|by left]. }
  rewrite (bind_run _ _ _ _ _ _ _ Hlog).
  destruct (board_config_run s t0) as (o & t1 & Hb & Hcfg).
  destruct (board_config_ends s t0) as (o' & t1' & Hb' & Hpost).
  rewrite Hb in Hb'. injection Hb' as <- <-. destruct o as [b|e|]; [| |done].
  2: { exists (Exn e), t1. split; [unfold mbind at 1, M_bind at 1; by rewrite Hb|].
       destruct Hcfg as [He|Hm]; [left; by destruct e|]. right. exists t0. split; [done|by left]. }
  rewrite (bind_run _ _ _ _ _ _ _ Hb).
  destruct (nodes_init_run order b s t1 Hpost) as (o & t2 & Hrun & Hn).
  exists o, t2. split; [exact Hrun|]. destruct o as [g|e|]; [| |done].
  - destruct Hn as [-> Hn]. split; [done|]. by exists t0.
  - destruct Hn as [?|[-> Hin]]; [by left|right]. exists t0. split; [done|]. right. by exists b.
Qed.

(** ** Properties *)

(** C35: the manager of a gateway.  Whatever the configuration files say, the
    construction of the manager ends.  When it succeeds, the manager is idle, its lock
    is free, and the classes of its nodes are those the files named when they were
    read: the open node's type is what [board_type] says, its class passed its checks,
    the control node's type is what [control_node_type] says, or [iotlab] without that
    file, the linux node, the robot and the node's name are those of the other files;
    they are an open node and a control node of the repository, so every property of
    the manager holds for it.  Otherwise it raises an [EnvironmentError]; or, the log
    being open, a [ValueError] for a type of a file that is not known or whose
    firmwares are not made for its target, an [AttributeError] for the type of a
    control node in the place of an open node's, or a [TypeError] when
    [control_node_type] is the type of an open node. *)
Theorem gateway_init_correct `{Env} {St : Type} (order : list string) (log_folder : string)
    (log_stdout : bool) (s : St) (t : trace) :
  let '(o, s', _) := gateway_init order log_folder log_stdout s t in
  s' = s ∧
  match o with
  | Val g =>
      (reachable g ∧ idle g ∧ gm_rlock g = rl_free ∧
       on_class (gm_open_node g) = bc_board_class (gm_board_cfg g) ∧
       cn_class (gm_control_node g) = bc_cn_class (gm_board_cfg g) ∧
       cn_node_id (gm_control_node g) = bc_node_id (gm_board_cfg g) ∧
       on_class (gm_open_node g) ∈ open_classes ∧
       cn_class (gm_control_node g) ∈ control_classes) ∧
      ∃ t0, init_logger log_folder log_stdout s t = (Val tt, s, t0) ∧
        configured s t0 (gm_board_cfg g)
  | Exn e =>
      is_EnvironmentError e = true ∨
      ∃ t0, init_logger log_folder log_stdout s t = (Val tt, s, t0) ∧
        (misconfigured s t0 e ∨
         ∃ b, configured s t0 b ∧ bc_cn_class b ∈ open_classes ∧ e = TypeError)
  | Hang => False
  end.
Proof.
  destruct (gateway_init_run order log_folder log_stdout s t) as (o & t' & -> & Ho).
  split; [done|]. by destruct o.
Qed.

(** The start of the server.  When the start gives a manager, its control node
    was flashed with its own firmware with code 0, no experiment runs and the lock is
    free: the manager is one the properties of the operations start from. *)
Theorem server_manager_ready `{Env} {St : Type} (order : list string) (tid : nat)
    (log_folder : string) (log_stdout : bool) (s s' : St) (t t' : trace)
    (g : GM AnyOpen AnyControl)
    (Hrun : server_manager order tid log_folder log_stdout s t = (Val g, s', t')) :
  reachable g ∧ idle g ∧ gm_rlock g = rl_free ∧
  ∃ g0 t0, gateway_init order log_folder log_stdout s t = (Val g0, s', t0) ∧
    gm_board_cfg g = gm_board_cfg g0 ∧
    node_flash tid "control" None false 0 g0 t0 = (Val 0%Z, g, t').
Proof.
  unfold server_manager in Hrun. destruct (gateway_init_run order log_folder log_stdout s t) as (o & t0 & Hg & Hinit).
  rewrite Hg in Hrun.
  destruct o as [g0|e|]; [|done..]. destruct Hinit as [(Hr & Hidle & _) _].
  destruct (manager_setup tid g0 t0) as [[[r|e|] g1] t1] eqn:Hs; simplify_eq.
  unfold manager_setup in Hs. apply M_bind_Val in Hs as (ret & g1 & t1 & Hf & Hs).
  destruct (Z.eqb_spec ret 0) as [->|]; [|done].
  injection Hs as <- <- <-.
  assert (Hop : run_op tid (OFlash "control" None false 0) g0 t0 = (Val (Code 0), g1, t1)).
  { simpl. unfold coded. by erewrite bind_run by exact Hf. }
  assert (Hreach : reachable g1) by (by eapply reach_op).
  destruct (reachable_ok g0 Hr) as [Hfree Hinv].
  assert (Hwf : rl_wf (gm_rlock g0)) by (rewrite Hfree; apply free_wf).
  pose proof (run_op_wp tid (OFlash "control" None false 0) g0 t0 Hwf Hinv) as Hw. unfold wp in Hw. rewrite Hop in Hw.
  destruct Hw as (Hb & Hl & Hi & Ha).
  split_and!; [done| |by rewrite Hl|by exists g0, t0].
  destruct Hi as [?|(e & u & Hrunning)]; [done|].
  change (exp_of g1 = exp_of g0) in Ha.
  by rewrite (exp_of_idle _ Hidle), (exp_of_running _ _ _ Hrunning) in Ha.
Qed.

Definition files_manager : outcome (GM AnyOpen AnyControl) * unit * trace :=
  @server_manager files_env unit Pycom.PYCOM_SAFE_REBOOT_SEQUENCE 1 "/var/log" false tt [].

Lemma server_manager_ready_witness :
  ∃ g t', @server_manager files_env unit Pycom.PYCOM_SAFE_REBOOT_SEQUENCE 1 "/var/log" false tt [] = (Val g, tt, t') ∧
    idle g ∧ gm_rlock g = rl_free.
Proof.
  destruct files_manager as [[[g|e|] []] t'] eqn:Hrun; [|vm_compute in Hrun; discriminate Hrun..].
  exists g, t'. split; [exact Hrun|].
  destruct (@server_manager_ready files_env unit Pycom.PYCOM_SAFE_REBOOT_SEQUENCE 1 "/var/log" false tt tt [] t' g Hrun) as (_ & Hi & Hl & _).
  split; assumption.
Defined.
