(* ===== verification/Cli.v ===== *)
(** * Command line programs ([gateway_code/utils/cli])

    [programmer.py]: reset, flash and debug a node from a shell on the gateway;
    [serial_redirection.py], [rtl_tcp.py], [mjpg_streamer.py]: run one of the
    processes of the gateway until Ctrl+C.  The arguments are those [argparse]
    gives, and [os.getenv('FW')] is an argument.  A message is the text passed to
    [print]; that of an [IOError] is cut to its error number. *)

From S2P Require Import Prelude PyString Effects PyVal Profile Common Config Nodes.
From S2P Require Import NodeClasses BoardConfig Interfaces OpenNodes ControlNodes Programmers ExternalProcess Gateway.

(** The options: [-q], [-cn], the firmware, [--bin], [--offset]. *)
Record Opts := MkOpts {
  o_quiet : bool;
  o_cn : bool;
  o_firmware : option string;
  o_bin : bool;
  o_offset : Z
}.

(** The node a command is for. *)
Inductive Target := TOpen (n : AnyOpen) | TControl (n : AnyControl).

Section cli.
Context `{E : Env}.

(** ** [cli/__init__.py] *)

(** [log_to_stderr(func)] *)
Definition log_to_stderr {St A} (func : M St A) : M St A :=
  try_finally (p_emit (EvAddHandler "stderr") ;; func) (p_emit EvRemoveHandler).

(** The methods of an object that is not kept. *)
Definition on_new {St T A} (x : T) (m : M T A) : M St A := λ s t,
  let '(o, _, t') := m x t in (o, s, t').

(** [signal.pause()]: until Ctrl+C *)
Definition signal_pause {St} : M St unit :=
  interrupted ← ask EvPause env_pause;
  if interrupted : bool then raise KeyboardInterrupt else hang.

(** [except KeyboardInterrupt: m] *)
Definition on_interrupt {St} (m : M St unit) (e : exn) : option (M St unit) :=
  match e with KeyboardInterrupt => Some m | _ => None end.

(** ** [programmer.py] *)

Definition target_class (n : Target) : pyclass :=
  match n with TOpen n => on_class n | TControl n => cn_class n end.

Definition on_target {A} (m : M AnyOpen A) (m' : M AnyControl A) : M Target A := λ n t,
  match n with
  | TOpen n => inside TOpen m n t
  | TControl n => inside TControl m' n t
  end.

Definition target_reset : M Target Z := on_target on_reset cn_reset.
Definition target_flash (firmware_path : string) (binary : bool) (offset : Z) : M Target Z :=
  on_target (on_flash (Some firmware_path) binary offset)
    (cn_flash (Some firmware_path) binary offset).
Definition target_debug_start : M Target Z := on_target on_debug_start (raise AttributeError).
Definition target_debug_stop : M Target Z := on_target on_debug_stop (raise AttributeError).

(** [node.programmer is not None], by the class whose property it is *)
Definition has_programmer (c : pyclass) : bool :=
  match getattr c "programmer" with
  | Some (AMeth owner) =>
      bool_decide (owner ∈ ["NodeOpenOCDBase"; "NodeEdbgBase"; "NodeLeonardo"; "NodeZigduino";
                            "NodeFirefly"; "ControlNodeIotlab"])
  | _ => false
  end.

(** [opts.cn if hasattr(opts, 'cn') else False]: the option exists on the gateways
    with the IoT-LAB control node, Linux nodes apart *)
Definition control_node_option (b : BoardConfig) (opts : Opts) : bool :=
  bool_decide (bc_cn_type b = Some "iotlab") &&
  match bc_linux_on_class b with None => true | Some _ => false end && o_cn opts.

(** [_get_node(board_cfg, control_node)] *)
Definition open_target {St} (order : list string) (b : BoardConfig) : M St AnyOpen :=
  match bc_linux_on_class b with
  | Some c => open_init order c
  | None => open_init order (bc_board_class b)
  end.

Definition get_node {St} (order : list string) (b : BoardConfig) (control_node : bool)
    : M St Target :=
  if control_node
  then n ← control_init (bc_cn_class b) (bc_node_id b) None; mret (TControl n)
  else n ← open_target order b; mret (TOpen n).

(** [_print_result(ret, cmd, node)] *)
Definition result_message (ret : Z) (cmd : string) (node : option string) : string :=
  (if (ret =? 0)%Z then cmd +:+ " OK"
   else if (ret =? -1)%Z
   then "error: " +:+ cmd +:+ " not supported for board " +:+ default "None" node
   else if (ret =? -2)%Z then "error: " +:+ cmd +:+ " too few arguments"
   else cmd +:+ " KO: " +:+ str_of_Z ret) +:+ String "010"%char "".

Definition print_result {St} (ret : Z) (cmd : string) (node : option string) : M St unit :=
  p_emit (EvPrint (result_message ret cmd node)).

(** The end of the three commands: the message, and the code. *)
Definition report {St} (ret : Z) (cmd : string) (c : pyclass) : M St Z :=
  ty ← lift (self_str c "TYPE");
  print_result ret cmd (Some ty) ;;
  mret ret.

(** [reset()]; [node.programmer.out = None] lets the output of the tool show *)
Definition cli_reset {St} (order : list string) (opts : Opts) : M St Z := log_to_stderr (
  b ← board_config_init;
  node ← get_node order b (control_node_option b opts);
  let c := target_class node in
  ret ← (if has_programmer c then on_new node target_reset else mret (-1)%Z);
  report ret "reset" c).

(** [node.FW_IDLE] and [node.FW_AUTOTEST] for the words [idle] and [autotest] *)
Definition env_firmware (c : pyclass) (firmware : string) : outcome string :=
  firmware ← (if decide (firmware = "idle") then self_str c "FW_IDLE" else Val firmware);
  if decide (firmware = "autotest") then self_str c "FW_AUTOTEST" else Val firmware.

(** The firmware [flash] is asked for; [fw_env] is [os.getenv('FW')]. *)
Definition wanted_firmware (c : pyclass) (control_node : bool) (fw_env : option string)
    (opts : Opts) : outcome (option string) :=
  match fw_env with
  | Some firmware =>
      if control_node then Val (o_firmware opts)
      else firmware ← env_firmware c firmware; mret (Some firmware)
  | None => Val (o_firmware opts)
  end.

(** [common.abspath(firmware)] in the [try] of [flash] *)
Definition firmware_file {St} (firmware : string) : M St (option string) :=
  try_except (path ← abspath firmware; mret (Some path))
    (λ e, if is_IOError e
          then Some (p_emit (EvPrint ("[Errno " +:+ match errno_of e with
                                                    | Some n => str_of_Z n
                                                    | None => "None"
                                                    end +:+ "]")) ;; mret None)
          else None).

Definition cli_flash {St} (order : list string) (fw_env : option string) (opts : Opts)
    : M St Z := log_to_stderr (
  b ← board_config_init;
  let control_node := control_node_option b opts in
  node ← get_node order b control_node;
  let c := target_class node in
  firmware ← lift (wanted_firmware c control_node fw_env opts);
  match firmware with
  | None => print_result (-2) "flash" None ;; mret (-2)%Z
  | Some firmware =>
      if negb (has_programmer c) then report (-1) "flash" c
      else
        path ← firmware_file firmware;
        match path with
        | None => mret 1%Z
        | Some path =>
            ret ← on_new node (target_flash path (o_bin opts) (o_offset opts));
            report ret "flash" c
        end
  end).

(** [_debug(node)] *)
Definition debug_node : M Target Z :=
  ret ← target_debug_start;
  if negb (ret =? 0)%Z then mret ret
  else
    try_finally
      (try_except (p_emit (EvPrint "Type Ctrl+C to quit") ;; signal_pause)
         (on_interrupt (p_emit (EvPrint "Ctrl+C"))))
      (target_debug_stop ;; mret tt) ;;
    mret 0%Z.

Definition cli_debug {St} (order : list string) (opts : Opts) : M St Z := log_to_stderr (
  b ← board_config_init;
  node ← get_node order b (control_node_option b opts);
  let c := target_class node in
  ret ← (if has_method c "debug_start" && has_method c "debug_stop"
         then on_new node debug_node else mret (-1)%Z);
  report ret "debug" c).

(** ** The processes until Ctrl+C *)

(** The [try] the three programs share. *)
Definition until_interrupt {S} (start stop : M S Z) : M S unit :=
  try_finally
    (try_except (start ;; p_emit (EvPrint "Press Ctrl+C to stop") ;; signal_pause)
       (on_interrupt (mret tt)))
    (stop ;; p_emit (EvPrint "Stopped")).

Definition serial_redirection_main {St} (order : list string) : M St unit := log_to_stderr (
  b ← board_config_init;
  node ← open_target order b;
  on_new node (until_interrupt (with_redirection ep_start) (with_redirection ep_stop))).

Definition rtl_tcp_main {St} (port frequency : Z) : M St unit := log_to_stderr (
  process ← lift (rtl_tcp port frequency);
  on_new process (until_interrupt ep_start ep_stop)).

Definition mjpg_streamer_main {St} (port : Z) : M St unit := log_to_stderr (
  process ← mjpg_streamer port;
  on_new process (until_interrupt ep_start ep_stop)).
End cli.

(** ** Lemmas *)

Section facts.
Context `{E : Env} {St : Type}.

(** A program that ends leaves [LOGGER] without its handler: the removal is the last
    thing it does. *)
Lemma log_to_stderr_run {A} (func : M St A) s t o s' t' :
  log_to_stderr func s t = (o, s', t') → o ≠ Hang →
  ∃ t1, func s (t ++ [EvAddHandler "stderr"]) = (o, s', t1) ∧ t' = t1 ++ [EvRemoveHandler].
Proof.
  unfold log_to_stderr, try_finally, p_emit, ask. rewrite (bind_run _ _ _ _ _ _ _ eq_refl).
  destruct (func s (t ++ [EvAddHandler "stderr"])) as [[[a|e|] s1] t1];
    intros [= <- <- <-] Ho; try done; by exists t1.
Qed.

End facts.

Section until_facts.
Context `{E : Env}.

(** The trace of a process run until Ctrl+C, and how it ends. *)
Definition ran_until_interrupt (name : string) (t : trace) (o : outcome unit) (t' : trace) : Prop :=
  let started := t ++ [EvProcStart name; EvPrint "Press Ctrl+C to stop"; EvPause;
                       EvProcStop name] in
  (o = Val tt ∧ t' = started ++ [EvPrint "Stopped"]) ∨
  (o = Exn AssertionError ∧ env_proc_stop started name = StopRefused ∧ t' = started).

(** The end of [stop] once the process is started. *)
Definition stop_outcome (a : stop_answer) : outcome Z :=
  match a with StopDone => Val 0%Z | StopRefused => Exn AssertionError | StopNever => Hang end.

Lemma until_interrupt_run {S} (start stop : M S Z) x t r x1 name o x' t' :
  start x t = (Val r, x1, t ++ [EvProcStart name]) →
  (∀ u, let u' := u ++ [EvProcStop name] in
    ∃ x2, stop x1 u = (stop_outcome (env_proc_stop u' name), x2, u')) →
  until_interrupt start stop x t = (o, x', t') → o ≠ Hang → ran_until_interrupt name t o t'.
Proof.
  intros Hstart Hstop. unfold until_interrupt, try_finally, try_except, on_interrupt, signal_pause,
    p_emit, ran_until_interrupt.
  unfold mbind, M_bind, ask, mret, M_ret, raise, hang. rewrite Hstart, <- !(assoc_L (++)). simpl.
  destruct (env_pause _); [|by intros [= <- <- <-]]. rewrite <- ?(assoc_L (++)). simpl.
  match goal with |- context [stop x1 ?u] => destruct (Hstop u) as [x2 ->] end.
  rewrite <- ?(assoc_L (++)). simpl.
  destruct (env_proc_stop _ _) eqn:Hs; intros [= <- <- <-] Ho; simpl in *.
  - left. by rewrite <- ?(assoc_L (++)).
  - by right.
  - done.
Qed.

Lemma ep_start_new p t :
  ep_used p = false →
  ∃ r, ep_start p t = (Val r, set_used true p, t ++ [EvProcStart (ep_name p)]).
Proof.
  intros Hu. unfold ep_start, mbind, M_bind, get. rewrite Hu. by eexists.
Qed.

Lemma ep_stop_started p u :
  let u' := u ++ [EvProcStop (ep_name p)] in
  ∃ p2, ep_stop (set_used true p) u = (stop_outcome (env_proc_stop u' (ep_name p)), p2, u').
Proof.
  unfold ep_stop, mbind, M_bind, get, ask. simpl. by destruct (env_proc_stop _ _); eexists.
Qed.

Lemma process_until p t o p' t' :
  ep_used p = false → until_interrupt ep_start ep_stop p t = (o, p', t') → o ≠ Hang →
  ran_until_interrupt (ep_name p) t o t'.
Proof.
  intros Hu. destruct (ep_start_new p t Hu) as [r Hr].
  by eapply until_interrupt_run; [exact Hr|apply ep_stop_started].
Qed.

Lemma with_redirection_run {A} (m : M ExtProc A) n p t o p' t' :
  redirection_of n = Some p → m p t = (o, p', t') →
  ∃ n', with_redirection m n t = (o, n', t') ∧ redirection_of n' = Some p'.
Proof.
  intros Hn Hm. destruct n; simplify_eq/=; unfold inside, zoom; simpl; rewrite Hm; by eexists.
Qed.

Lemma redirection_until n p t o n' t' :
  redirection_of n = Some p → ep_used p = false →
  until_interrupt (with_redirection ep_start) (with_redirection ep_stop) n t = (o, n', t') →
  o ≠ Hang → ran_until_interrupt (ep_name p) t o t'.
Proof.
  intros Hn Hu. destruct (ep_start_new p t Hu) as [r Hr].
  destruct (with_redirection_run _ n p t _ _ _ Hn Hr) as (n1 & Hn1 & Hp1).
  eapply until_interrupt_run; [exact Hn1|]. intros u.
  destruct (ep_stop_started p u) as [p2 Hs].
  destruct (with_redirection_run _ n1 _ u _ _ _ Hp1 Hs) as (n2 & Hn2 & _). eauto.
Qed.

Lemma no_redirection_until n t :
  redirection_of n = None →
  until_interrupt (with_redirection ep_start) (with_redirection ep_stop) n t =
    (Exn AttributeError, n, t).
Proof. by destruct n. Qed.

Lemma process_new_unused name cmd p : process_new name cmd = Val p → ep_used p = false.
Proof. unfold process_new. destruct (shlex_split cmd); by intros [= <-]. Qed.
End until_facts.

(** The two streaming programs. *)
Section stream_facts.
Context `{E : Env} {St : Type}.

Lemma process_new_name name cmd p : process_new name cmd = Val p → ep_name p = name.
Proof. unfold process_new. destruct (shlex_split cmd); by intros [= <-]. Qed.

Lemma rtl_tcp_stops port frequency (s s' : St) t t' o :
  rtl_tcp_main port frequency s t = (o, s', t') → o ≠ Hang →
  ∃ t1, t' = t1 ++ [EvRemoveHandler] ∧
    match rtl_tcp port frequency with
    | Val _ => ran_until_interrupt "rtl_tcp" (t ++ [EvAddHandler "stderr"]) o t1
    | Exn e => o = Exn e
    | Hang => False
    end.
Proof.
  intros Hrun Ho. destruct (log_to_stderr_run _ _ _ _ _ _ Hrun Ho) as (t1 & Hr & ->).
  exists t1. split; [done|]. unfold lift, mbind, M_bind, on_new in Hr.
  destruct (rtl_tcp port frequency) as [p|e|] eqn:Hp; [|by simplify_eq|by simplify_eq].
  destruct (until_interrupt _ _ p _) as [[o1 p'] t2] eqn:Hu. injection Hr as -> <- ->.
  rewrite <- (process_new_name _ _ _ Hp).
  by eapply process_until; [eapply process_new_unused|..].
Qed.

Lemma mjpg_streamer_stops port (s s' : St) t t' o :
  mjpg_streamer_main port s t = (o, s', t') → o ≠ Hang →
  ∃ t1, t' = t1 ++ [EvRemoveHandler] ∧
    ((∃ e, o = Exn e ∧ (mjpg_streamer port : M St ExtProc) s (t ++ [EvAddHandler "stderr"]) =
        (Exn e, s', t1)) ∨
     ∃ t0, ran_until_interrupt "mjpg_streamer" t0 o t1).
Proof.
  intros Hrun Ho. destruct (log_to_stderr_run _ _ _ _ _ _ Hrun Ho) as (t1 & Hr & ->).
  exists t1. split; [done|]. unfold mbind at 1, M_bind at 1 in Hr.
  destruct (mjpg_streamer port s _) as [[[p|e|] s1] t2] eqn:Hp; [|simplify_eq; eauto|by simplify_eq].
  right. exists t2. unfold on_new in Hr.
  destruct (until_interrupt _ _ p t2) as [[o1 p'] t3] eqn:Hu. injection Hr as -> <- ->.
  unfold mjpg_streamer in Hp. apply M_bind_Val in Hp as (q & s2 & u & Hq & Hp).
  injection Hq as Hq <- <-. apply M_bind_Val in Hp as ([] & s3 & u1 & _ & Hp).
  injection Hp as <- <- <-. rewrite <- (process_new_name _ _ _ Hq).
  by eapply process_until; [eapply process_new_unused|..].
Qed.
End stream_facts.

(** ** The debugger *)

Section debug_facts.
Context `{E : Env}.

(** A debugger that is started runs, and stopping it sends it the signal. *)
Lemma openocd_debug_run o t r o' t' :
  openocd_debug_start o t = (Val r, o', t') →
  r = 0%Z ∧ (∃ u args, t' = u ++ [EvPopen args]) ∧
  ∀ t2, ∃ r2 o2, openocd_debug_stop o' t2 = (Val r2, o2, t2 ++ [EvTerminate]).
Proof.
  intros H. unfold openocd_debug_start in H.
  apply M_bind_Val in H as (a & o1 & t1 & _ & H).
  apply M_bind_Val in H as (a1 & o2 & t2 & Hget & H). injection Hget as <- <- <-.
  apply M_bind_Val in H as (args & o3 & t3 & Hl & H). injection Hl as Hl <- <-.
  apply M_bind_Val in H as (err & o4 & t4 & Ha & H). injection Ha as <- <- <-.
  destruct (env_popen _ args); [done|].
  apply M_bind_Val in H as ([] & o5 & t5 & Hm & H). injection Hm as <- <-.
  injection H as <- <- <-. split; [done|]. split; [by eauto|].
  intros u. unfold openocd_debug_stop, try_finally, mbind, M_bind, get, ask, modify. simpl.
  destruct (env_terminate _); by eexists _, _.
Qed.

Lemma target_debug_run n t r n1 t1 :
  target_debug_start n t = (Val r, n1, t1) →
  r = 0%Z ∧ (∃ u args, t1 = u ++ [EvPopen args]) ∧
  ∀ t2, ∃ r2 n2, target_debug_stop n1 t2 = (Val r2, n2, t2 ++ [EvTerminate]).
Proof.
  destruct n as [[n|n|n|n|n|n|n|n|n]|n]; try done; intros H.
  - change (target_debug_start (TOpen (OOpenOCD n)) t) with
      (inside TOpen (λ _, inside OOpenOCD OpenOCDNode.debug_start n) (OOpenOCD n) t) in H.
    unfold inside, OpenOCDNode.debug_start, zoom in H.
    destruct (openocd_debug_start _ t) as [[[a|e|] o'] u] eqn:Hd; simplify_eq/=.
    destruct (openocd_debug_run _ _ _ _ _ Hd) as (-> & Hu & Hstop). split_and!; [done..|].
    intros t2. destruct (Hstop t2) as (r2 & o2 & Hr).
    unfold target_debug_stop, on_target, inside, with_open, zoom. simpl.
    unfold inside, OpenOCDNode.debug_stop, zoom. simpl. rewrite Hr. by eexists _, _.
  - change (target_debug_start (TOpen (OEdbg n)) t) with
      (inside TOpen (λ _, inside OEdbg EdbgNode.debug_start n) (OEdbg n) t) in H.
    unfold inside in H. destruct (EdbgNode.debug_start n t) as [[[a|e|] n'] u] eqn:Hn; simplify_eq/=.
    assert (∃ n0 t0 n2, zoom EdbgNode.openocd openocd_debug_start n0 t0 = (Val r, n2, t1) ∧ n2 = n')
      as (n0 & t0 & ? & Hz & ->).
    { unfold EdbgNode.debug_start in Hn. apply M_bind_Val in Hn as ([] & m1 & u1 & _ & Hn).
      apply M_bind_Val in Hn as (fw & m2 & u2 & _ & Hn). destruct fw; [|by eauto 6].
      apply M_bind_Val in Hn as (? & m3 & u3 & _ & Hn). by eauto 6. }
    apply zoom_Val in Hz as (o' & Hd & ->).
    destruct (openocd_debug_run _ _ _ _ _ Hd) as (-> & Hu & Hstop). split_and!; [done..|].
    intros t2. destruct (Hstop t2) as (r2 & o2 & Hr).
    unfold target_debug_stop, on_target, inside, with_open. simpl.
    unfold inside, EdbgNode.debug_stop, modify, zoom, mbind, M_bind. simpl. rewrite Hr. by eexists _, _.
Qed.

Lemma debug_node_run n t r n' t' :
  debug_node n t = (Val r, n', t') →
  r = 0%Z ∧ ∃ n1 u args, target_debug_start n t = (Val 0%Z, n1, u ++ [EvPopen args]) ∧
    env_pause (u ++ [EvPopen args; EvPrint "Type Ctrl+C to quit"; EvPause]) = true ∧
    t' = u ++ [EvPopen args; EvPrint "Type Ctrl+C to quit"; EvPause; EvPrint "Ctrl+C"; EvTerminate].
Proof.
  intros H. unfold debug_node in H. apply M_bind_Val in H as (r0 & n1 & t1 & Hs & H).
  destruct (target_debug_run _ _ _ _ _ Hs) as (-> & (u & args & ->) & Hstop). simpl in H.
  apply M_bind_Val in H as ([] & n2 & t2 & Hf & H). injection H as <- <- <-.
  split; [done|]. exists n1, u, args. split; [done|].
  unfold try_finally, try_except, on_interrupt, signal_pause, p_emit, mbind, M_bind, ask, mret, M_ret,
    raise, hang in Hf. rewrite <- !(assoc_L (++)) in Hf. simpl in Hf.
  destruct (env_pause _); [|done]. simpl in Hf.
  match type of Hf with context [target_debug_stop n1 ?u] =>
    destruct (Hstop u) as (r2 & n3 & Hr) end.
  rewrite Hr in Hf. injection Hf as <- <-. by rewrite <- !(assoc_L (++)).
Qed.
End debug_facts.

(** ** Properties *)

(** The serial redirection until Ctrl+C.  When [serial_redirection] ends, its
    handler is removed, and either the node could not be built, or it has no serial
    redirection, or the redirection was started once and, after Ctrl+C, stopped: the
    program only ends without its [Stopped] message when the stop itself is
    refused. *)
Theorem serial_redirection_stops `{Env} {St : Type} (order : list string) (s s' : St)
    (t t' : trace) (o : outcome unit)
    (Hrun : serial_redirection_main order s t = (o, s', t')) (Ho : o ≠ Hang) :
  s' = s ∧ ∃ t1, t' = t1 ++ [EvRemoveHandler] ∧
    ((∃ e, o = Exn e ∧
       (b ← board_config_init; open_target order b) s (t ++ [EvAddHandler "stderr"]) =
         (Exn e, s, t1)) ∨
     ∃ n t0,
       (b ← board_config_init; open_target order b) s (t ++ [EvAddHandler "stderr"]) =
         (Val n, s, t0) ∧
       match redirection_of n with
       | None => o = Exn AttributeError ∧ t1 = t0
       | Some p => ran_until_interrupt (ep_name p) t0 o t1
       end).
Proof.
  unfold serial_redirection_main in Hrun.
  destruct (log_to_stderr_run _ _ _ _ _ _ Hrun Ho) as (t1 & Hr & ->).
  assert (Hbuild : ends (St:=St) (λ n, ∀ p, redirection_of n = Some p → ep_used p = false)
    (λ _, True) (b ← board_config_init; open_target order b)).
  { eapply (ends_bind (λ b, config_post (Val b))).
    { eapply ends_mono, board_config_ends; [done|done]. }
    intros b (Hopen & _). unfold open_target.
    destruct (bc_linux_on_class b) as [c|] eqn:Hl;
      (eapply ends_mono, ends_open_init; [by intros n [_ Hn]|done|]); apply Hopen; auto. }
  destruct (Hbuild s (t ++ [EvAddHandler "stderr"])) as (o1 & t0 & Hb & Ho1).
  replace ((b ← board_config_init; node ← open_target order b;
            on_new node (until_interrupt (with_redirection ep_start) (with_redirection ep_stop)))
             s (t ++ [EvAddHandler "stderr"]))
    with (((b ← board_config_init; open_target order b) ≫= λ node,
            on_new node (until_interrupt (with_redirection ep_start) (with_redirection ep_stop)))
             s (t ++ [EvAddHandler "stderr"])) in Hr.
  2: { unfold mbind, M_bind. by destruct (board_config_init s _) as [[[b|e|] s0] u0]. }
  unfold mbind at 1, M_bind at 1 in Hr. rewrite Hb in Hr.
  destruct o1 as [n|e|]; [|injection Hr as <- <- <-|done].
  2: { split; [done|]. exists t0. split; [done|]. left. by exists e. }
  unfold on_new in Hr.
  destruct (until_interrupt _ _ n t0) as [[o2 n'] t2] eqn:Hu. injection Hr as <- <- <-.
  split; [done|]. exists t2. split; [done|]. right. exists n, t0. split; [done|].
  destruct (redirection_of n) as [p|] eqn:Hp.
  - eapply redirection_until; [exact Hp|by apply Ho1|exact Hu|done].
  - rewrite (no_redirection_until n t0 Hp) in Hu. by simplify_eq.
Qed.

(** C32: the debugger does not outlive its command.  Let [node] be the node that the
    board's configuration and the options select.  When [debug] returns, it returned -1
    if that node has no debugger, after the message that says so and no request beside
    those that build the node; otherwise it returned 0: the node's debugger was started
    on the node, Ctrl+C was waited for and came, the debugger got the signal to end,
    and the last message was printed. *)
Theorem cli_debug_stops `{Env} {St : Type} (order : list string) (opts : Opts) (s s' : St)
    (t t' : trace) (r : Z)
    (Hrun : cli_debug order opts s t = (Val r, s', t')) :
  ∃ b node s0 s1 u0 u1 ty,
    board_config_init s (t ++ [EvAddHandler "stderr"]) = (Val b, s0, u0) ∧
    get_node order b (control_node_option b opts) s0 u0 = (Val node, s1, u1) ∧
    cls_type (target_class node) = Some ty ∧
    if has_method (target_class node) "debug_start" && has_method (target_class node) "debug_stop"
    then r = 0%Z ∧ ∃ n1 u args,
      target_debug_start node u1 = (Val 0%Z, n1, u ++ [EvPopen args]) ∧
      env_pause (u ++ [EvPopen args; EvPrint "Type Ctrl+C to quit"; EvPause]) = true ∧
      t' = u ++ [EvPopen args; EvPrint "Type Ctrl+C to quit"; EvPause; EvPrint "Ctrl+C";
                 EvTerminate; EvPrint (result_message 0 "debug" (Some ty)); EvRemoveHandler]
    else r = (-1)%Z ∧
      t' = u1 ++ [EvPrint (result_message (-1) "debug" (Some ty)); EvRemoveHandler].
Proof.
  unfold cli_debug in Hrun.
  destruct (log_to_stderr_run _ _ _ _ _ _ Hrun) as (t1 & Hr & ->); [done|].
  apply M_bind_Val in Hr as (b & s1 & u1 & Hb & Hr).
  apply M_bind_Val in Hr as (node & s2 & u2 & Hnode & Hr). cbv zeta in Hr.
  apply M_bind_Val in Hr as (ret & s3 & u3 & Hd & Hr).
  unfold report in Hr. apply M_bind_Val in Hr as (ty & s4 & u4 & Hty & Hr).
  apply M_bind_Val in Hr as ([] & s5 & u5 & Hp & Hr).
  injection Hp as <- <-. injection Hr as <- <- <-.
  injection Hty as Hty <- <-. unfold self_str in Hty.
  destruct (attr_str (target_class node) "TYPE") as [ty'|] eqn:Hc; [injection Hty as ->|done].
  exists b, node, s1, s2, u1, u2, ty. split; [done|]. split; [done|]. split; [done|].
  destruct (has_method _ _ && _) eqn:Hm.
  - unfold on_new in Hd. destruct (debug_node node u2) as [[o n'] u6] eqn:Hn.
    injection Hd as -> <- ->.
    destruct (debug_node_run _ _ _ _ _ Hn) as (-> & n1 & u & args & Hs & Hpause & ->).
    split; [done|]. exists n1, u, args. split; [done|]. split; [done|].
    by rewrite <- !(assoc_L (++)).
  - injection Hd as <- <- <-. split; [done|]. by rewrite <- (assoc_L (++)).
Qed.

Lemma serial_redirection_stops_witness :
  ∃ t', @serial_redirection_main files_env unit Pycom.PYCOM_SAFE_REBOOT_SEQUENCE tt [] =
          (Val tt, tt, t') ∧ ∃ t1, t' = t1 ++ [EvRemoveHandler].
Proof.
  destruct (@serial_redirection_main files_env unit Pycom.PYCOM_SAFE_REBOOT_SEQUENCE tt [])
    as [[o s'] t'] eqn:Hrun.
  assert (o = Val tt) as -> by (vm_compute in Hrun; injection Hrun; congruence).
  destruct s'.
  destruct (@serial_redirection_stops files_env unit Pycom.PYCOM_SAFE_REBOOT_SEQUENCE tt tt [] t'
    (Val tt) Hrun ltac:(discriminate)) as (_ & t1 & Ht & _).
  exists t'. split; [reflexivity|]. exists t1. exact Ht.
Defined.

Lemma cli_debug_stops_witness :
  ∃ t', @cli_debug files_env unit Pycom.PYCOM_SAFE_REBOOT_SEQUENCE (MkOpts false false None false 0)
          tt [] = (Val 0%Z, tt, t') ∧
    ∃ u args, t' = u ++ [EvPopen args; EvPrint "Type Ctrl+C to quit"; EvPause; EvPrint "Ctrl+C";
                 EvTerminate; EvPrint (result_message 0 "debug" (Some "m3")); EvRemoveHandler].
Proof.
  destruct (@cli_debug files_env unit Pycom.PYCOM_SAFE_REBOOT_SEQUENCE
    (MkOpts false false None false 0) tt []) as [[o s'] t'] eqn:Hrun.
  assert (o = Val 0%Z) as -> by (vm_compute in Hrun; injection Hrun; congruence).
  destruct s'.
  destruct (@cli_debug_stops files_env unit Pycom.PYCOM_SAFE_REBOOT_SEQUENCE
    (MkOpts false false None false 0) tt tt [] t' 0%Z Hrun)
    as (b & node & s0 & s1 & u0 & u1 & ty & Hb & Hn & Hty & Hd).
  vm_compute in Hb. injection Hb as <- <- <-. vm_compute in Hn. injection Hn as <- <- <-.
  injection Hty as <-. destruct Hd as (_ & _ & u & args & _ & _ & Ht).
  exists t'. split; [reflexivity|]. exists u, args. exact Ht.
Defined.

(** The ways [flash] ends with a code, once the node is built, at [t1]. *)
Definition flash_case `{Env} (node : Target) (firmware : option string) (opts : Opts)
    (ty : option string) (t1 : trace) (r : Z) (t' : trace) : Prop :=
  let c := target_class node in
  match firmware with
  | None =>
      r = (-2)%Z ∧ t' = t1 ++ [EvPrint (result_message (-2) "flash" None); EvRemoveHandler]
  | Some firmware =>
      let path := env_abspath firmware in
      let t2 := t1 ++ [EvOpen path "rb"] in
      if negb (has_programmer c)
      then r = (-1)%Z ∧ t' = t1 ++ [EvPrint (result_message (-1) "flash" ty); EvRemoveHandler]
      else match env_open t2 path with
           | Some n => r = 1%Z ∧
               t' = t2 ++ [EvPrint ("[Errno " +:+ str_of_Z n +:+ "]"); EvRemoveHandler]
           | None => ∃ node' t3,
               target_flash path (o_bin opts) (o_offset opts) node t2 = (Val r, node', t3) ∧
               t' = t3 ++ [EvPrint (result_message r "flash" ty); EvRemoveHandler] ∧
               (StatusOk → (0 ≤ r)%Z)
           end
  end.

Lemma target_flash_nonneg `{Env} `{!StatusOk} path b off :
  returns (λ r, 0 ≤ r)%Z (target_flash path b off).
Proof.
  intros [n|n] t; unfold wp, target_flash, on_target; apply returns_inside.
  - by apply on_flash_nonneg.
  - by apply cn_flash_nonneg.
Qed.

(** C31: flashing from the shell.  When [flash] returns a code, the node it was for
    and the firmware asked for, by the environment or by the arguments, decide how
    it went: -2 without a firmware and -1 for a node without programmer, before any
    file is opened; 1 for a firmware that cannot be read, before the node is
    touched; and otherwise the code of the node, given its file, with its message.
    That code cannot be -1 or -2, and so be taken for one of the refusals, as long as
    no command ends on a signal. *)
Theorem cli_flash_correct `{Env} {St : Type} (order : list string) (fw_env : option string)
    (opts : Opts) (s s' : St) (t t' : trace) (r : Z)
    (Hrun : cli_flash order fw_env opts s t = (Val r, s', t')) :
  ∃ b s1 u1 node s2 t1 firmware,
    board_config_init s (t ++ [EvAddHandler "stderr"]) = (Val b, s1, u1) ∧
    get_node order b (control_node_option b opts) s1 u1 = (Val node, s2, t1) ∧
    wanted_firmware (target_class node) (control_node_option b opts) fw_env opts = Val firmware ∧
    flash_case node firmware opts (cls_type (target_class node)) t1 r t'.
Proof.
  unfold cli_flash in Hrun.
  destruct (log_to_stderr_run _ _ _ _ _ _ Hrun) as (t0 & Hr & ->); [done|].
  apply M_bind_Val in Hr as (b & s1 & u1 & Hb & Hr). cbv zeta in Hr.
  apply M_bind_Val in Hr as (node & s2 & t1 & Hn & Hr).
  apply M_bind_Val in Hr as (firmware & s3 & t3 & Hw & Hr). injection Hw as Hw <- <-.
  exists b, s1, u1, node, s2, t1, firmware. split_and!; [done..|].
  assert (Hreport : ∀ ret cmd (x : St) u x' u',
    report ret cmd (target_class node) x u = (Val r, x', u') →
    r = ret ∧ u' = u ++ [EvPrint (result_message r cmd (cls_type (target_class node)))]).
  { clear. intros ret cmd x u x' u' Hp. unfold report, self_str in Hp. unfold cls_type.
    destruct (attr_str (target_class node) "TYPE") as [ty|]; [|done]. by injection Hp as <- <- <-. }
  unfold flash_case. destruct firmware as [firmware|].
  2: { injection Hr as <- <- <-. split; [done|]. by rewrite <- (assoc_L (++)). }
  destruct (negb (has_programmer _)).
  { apply Hreport in Hr as [-> ->]. split; [done|]. by rewrite <- (assoc_L (++)). }
  apply M_bind_Val in Hr as (path & s4 & t4 & Hf & Hr).
  unfold firmware_file, try_except, abspath, p_open, p_emit, mbind, M_bind, ask, mret, M_ret, raise in Hf.
  destruct (env_open _ _) as [n|]; simpl in Hf; injection Hf as <- <- <-.
  - injection Hr as <- <- <-. split; [done|]. by rewrite <- !(assoc_L (++)).
  - apply M_bind_Val in Hr as (ret & s5 & t5 & Hfl & Hr). unfold on_new in Hfl.
    destruct (target_flash _ _ _ node _) as [[o node'] t6] eqn:Hfn. injection Hfl as -> <- ->.
    apply Hreport in Hr as [-> ->]. exists node', t5.
    split_and!; [done|by rewrite <- (assoc_L (++))|].
    intros Hok. exact (returns_run _ _ _ _ _ _ _ (target_flash_nonneg _ _ _) Hfn).
Qed.

Lemma cli_flash_correct_witness :
  ∃ t', @cli_flash files_env unit Pycom.PYCOM_SAFE_REBOOT_SEQUENCE (Some "idle")
          (MkOpts true false None false 0) tt [] = (Val 0%Z, tt, t') ∧
    ∃ node firmware t1,
      @flash_case files_env node firmware (MkOpts true false None false 0)
        (cls_type (@target_class files_env node)) t1 0%Z t'.
Proof.
  destruct (@cli_flash files_env unit Pycom.PYCOM_SAFE_REBOOT_SEQUENCE (Some "idle")
    (MkOpts true false None false 0) tt []) as [[o s'] t'] eqn:Hrun.
  assert (o = Val 0%Z) as -> by (vm_compute in Hrun; injection Hrun; congruence).
  destruct s'.
  destruct (@cli_flash_correct files_env unit Pycom.PYCOM_SAFE_REBOOT_SEQUENCE (Some "idle")
    (MkOpts true false None false 0) tt tt [] t' 0%Z Hrun)
    as (b & s1 & u1 & node & s2 & t1 & firmware & _ & _ & _ & Hcase).
  exists t'. split; [reflexivity|]. exists node, firmware, t1. exact Hcase.
Defined.
