(* ===== verification/Tools.v ===== *)
(** * Installation and tools ([setup.py], [control_node_serial/examples/send_commands.py])

    The commands that [setup.py] adds to those of setuptools: the build of the serial
    program, the configuration of the system of a gateway, and [release], which installs
    and configures.  Then the script that feeds a file of commands to the serial
    program. *)

From S2P Require Import Prelude PyString Effects PyVal Common.

(** ** Lines of a file *)

(** What the successive calls of [readline] give. *)
Fixpoint file_lines (s : string) : list string :=
  match s with
  | EmptyString => []
  | String c s =>
      if decide (c = "010"%char) then String c "" :: file_lines s
      else match file_lines s with
           | [] => [String c ""]
           | line :: lines => String c line :: lines
           end
  end.

(** ** The commands of [setup.py] *)

(** What a command of distutils looks at: the [--dry-run] option, and the arguments of
    the script. *)
Record Command := MkCommand { cmd_dry_run : bool; cmd_script_args : list string }.

(** An argument of a function given to [execute]. *)
Inductive arg := ASelf | AStr (s : string).

(** A function with its name and the first line of its docstring; a call with another number of
    arguments than it has raises [TypeError]. *)
Record pyfun `{E : Env} := MkFun {
  f_name : string;
  f_doc : string;
  f_call : list arg → M Command unit
}.
Arguments MkFun {E}.

Section setup.
Context `{E : Env}.

(** [distutils.util.execute], with the options of the command *)
Definition dist_execute (f : pyfun) (args : list arg) (msg : string) : M Command unit :=
  c ← get;
  if cmd_dry_run c then mret tt else f_call f args.

(** [execute(self, function, args)]: the first line of the docstring is in the
    message, which is logged. *)
Definition execute (f : pyfun) (args : list arg) : M Command unit :=
  let msg := "running " +:+ f_name f +:+ ": " +:+ f_doc f in
  dist_execute f args msg.

(** [SimpleCommand.run]: with [self], or without argument *)
Definition simple_command (f : pyfun) : M Command unit :=
  try_except (execute f [ASelf])
    (λ e, match e with TypeError => Some (execute f []) | _ => None end).

(** [BuildExt.run] *)
Definition build_ext_run : M Command unit :=
  c ← get;
  if decide (cmd_script_args c = ["lint"]) then mret tt
  else
    let args := ["make"; "-C"; "control_node_serial"; "realclean"; "all"] in
    try_except (p_check_call args)
      (λ e, match e with CalledProcessError code => Some (raise (SystemExit code)) | _ => None end).

(** [shutil.copy(src, dst)] *)
Definition p_copy (src dst : string) : M Command unit :=
  err ← ask (EvCopy src dst) (λ t, env_copy t src dst);
  match err with None => mret tt | Some n => raise (IOError n) end.

(** [os.chmod(path, mode)] *)
Definition p_chmod (path : string) (mode : Z) : M Command unit :=
  err ← ask (EvChmod path mode) (λ t, env_chmod t path);
  match err with None => mret tt | Some n => raise (OSError n) end.

Definition update_rc_d_args (init_script : string) : list string :=
  ["update-rc.d"; init_script; "start"; "80"; "2"; "3"; "4"; "5"; ".";
   "stop"; "20"; "0"; "1"; "6"; "."].

Definition setup_initd_script : pyfun :=
  MkFun "setup_initd_script" "Setup an init.d script." (λ args,
    match args with
    | [AStr init_script] =>
        p_copy ("bin/init_script/" +:+ init_script) "/etc/init.d/" ;;
        p_chmod ("/etc/init.d/" +:+ init_script) 0x1ed ;;          (* 0o755 *)
        p_check_call (update_rc_d_args init_script)
    | _ => raise TypeError
    end).

(** [UDEV_RULES], the files that glob finds when the script is loaded *)
Context (UDEV_RULES : list string).

Definition udev_rules : pyfun :=
  MkFun "udev_rules" "Install udev rules files." (λ args,
    match args with
    | [] =>
        for_each UDEV_RULES (λ rule, p_copy rule "/etc/udev/rules.d/") ;;
        p_check_call ["udevadm"; "control"; "--reload"]
    | _ => raise TypeError
    end).

Definition add_www_data_to_dialout : pyfun :=
  MkFun "add_www_data_to_dialout" "Add `www-data` user to `dialout` group." (λ args,
    match args with
    | [] => p_check_call ["usermod"; "-a"; "-G"; "dialout"; "www-data"]
    | _ => raise TypeError
    end).

Definition post_install : pyfun :=
  MkFun "post_install" "System configuration." (λ args,
    match args with
    | [ASelf] =>
        execute setup_initd_script [AStr "gateway-server-daemon"] ;;
        execute udev_rules [] ;;
        execute add_www_data_to_dialout []
    | _ => raise TypeError
    end).

(** [Release.run]; [install.run] is a command of setuptools *)
Definition release_run (install_run : M Command unit) : M Command unit :=
  install_run ;;
  execute post_install [ASelf].

(** [get_version(package)]: the first line of the version, evaluated; without one,
    [None] is returned.  [py_eval] is Python's evaluation of an expression. *)
Definition get_version (py_eval : string → outcome pyval) (package : string)
    : M Command pyval :=
  let path := package +:+ "/__init__.py" in
  content ← ask (EvRead path) (λ t, env_read t path);
  match content with
  | inl n => raise (IOError n)
  | inr content =>
      match list_find (λ line, str_startswith "__version__" line = true) (file_lines content) with
      | Some (_, line) => lift (py_eval (List.last (str_split "="%char line) ""))
      | None => mret PNone
      end
  end.
End setup.

(** ** A file of commands ([send_commands.py]) *)

Section send_commands.
Context `{E : Env} {St : Type}.

(** The body of the loop: a blank line is a delay, a comment is not sent. *)
Definition send_line (line : string) : M St unit :=
  let stripped_line := str_strip line in
  if decide (stripped_line = "") then p_sleep 1000
  else
    p_emit (EvStderr (stripped_line +:+ String "010"%char "")) ;;
    if str_startswith "#" stripped_line then mret tt
    else p_emit (EvPrint stripped_line) ;; p_sleep 1000.

(** [main(command_file_path)] *)
Definition send_commands (command_file_path : string) : M St unit :=
  content ← ask (EvRead command_file_path) (λ t, env_read t command_file_path);
  match content with
  | inl n => raise (IOError n)
  | inr content => for_each (file_lines content) send_line
  end.
End send_commands.

(** ** Lemmas *)

Section facts.
Context `{E : Env}.

Lemma check_call_Val {St} argv (s s' : St) t t' :
  p_check_call argv s t = (Val tt, s', t') → s' = s ∧ t' = t ++ [EvCall argv None].
Proof.
  unfold p_check_call, p_call. intros Hrun.
  apply M_bind_Val in Hrun as (code & s1 & t1 & Hc & Hrun).
  apply M_bind_Val in Hc as (r & s2 & t2 & [= _ <- <-] & Hc).
  destruct r as [n| |n]; [|done..]. injection Hc as -> <- <-.
  case_match; [|done]. by injection Hrun as <- <-.
Qed.

Lemma copy_Val src dst (c c' : Command) t t' :
  p_copy src dst c t = (Val tt, c', t') → c' = c ∧ t' = t ++ [EvCopy src dst].
Proof.
  unfold p_copy. intros Hrun. apply M_bind_Val in Hrun as (err & s1 & t1 & [= _ <- <-] & Hrun).
  destruct err; [done|]. by injection Hrun as <- <-.
Qed.

Lemma chmod_Val path mode (c c' : Command) t t' :
  p_chmod path mode c t = (Val tt, c', t') → c' = c ∧ t' = t ++ [EvChmod path mode].
Proof.
  unfold p_chmod. intros Hrun. apply M_bind_Val in Hrun as (err & s1 & t1 & [= _ <- <-] & Hrun).
  destruct err; [done|]. by injection Hrun as <- <-.
Qed.

Lemma copies_Val rules dst (c c' : Command) t t' :
  for_each rules (λ rule, p_copy rule dst) c t = (Val tt, c', t') →
  c' = c ∧ t' = t ++ ((λ rule, EvCopy rule dst) <$> rules).
Proof.
  revert t. induction rules as [|rule rules IH]; intros t Hrun.
  - injection Hrun as <- <-. by rewrite app_nil_r.
  - apply M_bind_Val in Hrun as ([] & c1 & t1 & Hc & Hrun). apply copy_Val in Hc as [-> ->].
    apply IH in Hrun as [-> ->]. split; [done|]. by rewrite <- (assoc_L (++)).
Qed.

Lemma execute_dry f args (c : Command) t :
  cmd_dry_run c = true → execute f args c t = (Val tt, c, t).
Proof. intros Hd. unfold execute, dist_execute. erewrite bind_run by reflexivity. by rewrite Hd. Qed.

Lemma execute_run f args (c : Command) t :
  cmd_dry_run c = false → execute f args c t = f_call f args c t.
Proof. intros Hd. unfold execute, dist_execute. erewrite bind_run by reflexivity. by rewrite Hd. Qed.
End facts.

(** ** Properties *)

(** The requests of a whole configuration of the system, in order. *)
Definition post_install_events (rules : list string) : trace :=
  [EvCopy "bin/init_script/gateway-server-daemon" "/etc/init.d/";
   EvChmod "/etc/init.d/gateway-server-daemon" 0x1ed;
   EvCall (update_rc_d_args "gateway-server-daemon") None]
    ++ ((λ rule, EvCopy rule "/etc/udev/rules.d/") <$> rules)
    ++ [EvCall ["udevadm"; "control"; "--reload"] None;
        EvCall ["usermod"; "-a"; "-G"; "dialout"; "www-data"] None].

(** The configuration of the system is all or an exception.  In every world, when the
    command [post_install] returns, it did everything in order, and the command is as it
    was; with [--dry-run] it does nothing.  The command [udev_rules_install], whose
    function has no argument, is called again without one. *)
Theorem post_install_complete `{E : Env} (rules : list string) (c c' : Command) (t t' : trace)
    (Hrun : simple_command (post_install rules) c t = (Val tt, c', t')) :
  c' = c ∧ t' = t ++ (if cmd_dry_run c then [] else post_install_events rules) ∧
  simple_command (udev_rules rules) c t = execute (udev_rules rules) [] c t.
Proof.
  assert (Hudev : simple_command (udev_rules rules) c t = execute (udev_rules rules) [] c t).
  { unfold simple_command, try_except. destruct (cmd_dry_run c) eqn:Hd.
    - by rewrite !execute_dry.
    - by rewrite (execute_run (udev_rules rules) [ASelf]) by done. }
  destruct (cmd_dry_run c) eqn:Hd.
  { unfold simple_command, try_except in Hrun. rewrite execute_dry in Hrun by done.
    injection Hrun as <- <-. by rewrite app_nil_r. }
  assert (Hbody : f_call (post_install rules) [ASelf] c t = (Val tt, c', t')).
  { unfold simple_command, try_except in Hrun. rewrite execute_run in Hrun by done.
    destruct (f_call _ _ _ _) as [[[[]|e|] c1] t1] eqn:Hb; [done| |done].
    destruct e; try done. exfalso. assert (c1 = c) as ->.
    { eapply stateless_run; [|exact Hb]. simpl. unfold execute, dist_execute. simpl.
      unfold p_copy, p_chmod, p_check_call. preserve. }
    rewrite execute_run in Hrun by done. done. }
  clear Hrun. simpl in Hbody.
  apply M_bind_Val in Hbody as ([] & c1 & t1 & R1 & Hbody). rewrite execute_run in R1 by done.
  simpl in R1. apply M_bind_Val in R1 as ([] & c2 & t2 & Ra & R1). apply copy_Val in Ra as [-> ->].
  apply M_bind_Val in R1 as ([] & c2 & t2 & Rb & R1). apply chmod_Val in Rb as [-> ->].
  apply check_call_Val in R1 as [-> ->].
  apply M_bind_Val in Hbody as ([] & c1 & t1 & R2 & R3). rewrite execute_run in R2 by done.
  simpl in R2. apply M_bind_Val in R2 as ([] & c2 & t2 & Ra & R2). apply copies_Val in Ra as [-> ->].
  apply check_call_Val in R2 as [-> ->]. rewrite execute_run in R3 by done.
  simpl in R3. apply check_call_Val in R3 as [-> ->]. split; [done|]. split; [|done].
  unfold post_install_events. by rewrite <- !(assoc_L (++)).
Qed.

(** The build: nothing for [lint]; otherwise the exit code is that of make. *)
Theorem build_ext_exits `{E : Env} (c : Command) (t : trace) (code : Z) :
  let make := EvCall ["make"; "-C"; "control_node_serial"; "realclean"; "all"] None in
  (cmd_script_args c = ["lint"] → build_ext_run c t = (Val tt, c, t)) ∧
  (cmd_script_args c ≠ ["lint"] →
   env_call (t ++ [make]) ["make"; "-C"; "control_node_serial"; "realclean"; "all"] = CallRet code →
   build_ext_run c t =
     (if (code =? 0)%Z then Val tt else Exn (SystemExit code), c, t ++ [make])).
Proof.
  intros make. unfold build_ext_run. split; intros Ha; erewrite bind_run by reflexivity.
  - by rewrite decide_True.
  - intros Hc. rewrite decide_False by done. unfold try_except, p_check_call, p_call.
    unfold mbind, M_bind, ask. fold make. rewrite Hc. simpl. by destruct (code =? 0)%Z.
Qed.

(** The lines given to the serial program: those that are neither blank nor comments,
    without the blanks around them. *)
Definition command_lines (content : string) : list string :=
  filter (λ line, line ≠ "" ∧ str_startswith "#" line = false) (str_strip <$> file_lines content).

Definition printed_lines (t : trace) : list string :=
  omap (λ ev, match ev with EvPrint l => Some l | _ => None end) t.

Lemma send_line_run `{E : Env} {St} line (s : St) t :
  ∃ u, send_line line s t = (Val tt, s, t ++ u) ∧
    printed_lines u = filter (λ line, line ≠ "" ∧ str_startswith "#" line = false) [str_strip line].
Proof.
  unfold send_line. rewrite filter_cons, filter_nil. destruct (decide (str_strip line = "")) as [He|He].
  - eexists. split; [reflexivity|]. rewrite decide_False by naive_solver. done.
  - destruct (str_startswith "#" (str_strip line)) eqn:Hc.
    + eexists. split; [reflexivity|]. rewrite decide_False by naive_solver. done.
    + eexists. split.
      * erewrite bind_run by reflexivity. erewrite bind_run by reflexivity.
        unfold p_sleep, ask. rewrite <- !(assoc_L (++)). reflexivity.
      * by rewrite decide_True by done.
Qed.

(** The script prints the command lines of the file in order and nothing else. *)
Theorem send_commands_lines `{E : Env} {St} (path content : string) (s : St) (t : trace)
    (Hread : env_read (t ++ [EvRead path]) path = inr content) :
  ∃ u, send_commands path s t = (Val tt, s, t ++ EvRead path :: u) ∧
    printed_lines u = command_lines content.
Proof.
  unfold send_commands. erewrite bind_run by reflexivity. rewrite Hread.
  unfold command_lines. clear Hread.
  enough (∀ ls t, ∃ u, for_each ls send_line s t = (Val tt, s, t ++ u) ∧ printed_lines u =
    filter (λ line, line ≠ "" ∧ str_startswith "#" line = false) (str_strip <$> ls)) as Hall.
  { destruct (Hall (file_lines content) (t ++ [EvRead path])) as (u & Hr & Hu). exists u.
    split; [|done]. rewrite Hr. by rewrite <- (assoc_L (++)). }
  clear t content. intros ls. induction ls as [|l ls IH]; intros t.
  - exists []. by rewrite app_nil_r.
  - destruct (send_line_run l s t) as (u1 & R1 & H1). destruct (IH (t ++ u1)) as (u2 & R2 & H2).
    exists (u1 ++ u2). split.
    + cbn [for_each]. rewrite (bind_run _ _ _ _ _ _ _ R1), R2. by rewrite (assoc_L (++)).
    + unfold printed_lines in *. rewrite omap_app, H1, H2, <- filter_app. done.
Qed.
