(* ===== verification/RestServer.v ===== *)
(** * REST server ([gateway_code/rest_server.py])

    The handlers of the HTTP requests: the routes each board has, the arguments
    read from the query string and from the files, the call of the manager and the
    answer.  [bottle] matches the routes, parses the requests and writes the
    answers; a request is what it gives to a handler. *)

From S2P Require Import Prelude PyString Effects PyVal Profile Common Config Nodes.
From S2P Require Import NodeClasses BoardConfig Interfaces OpenNodes ControlNodes Autotest GatewayManager.

(** ** Requests and answers *)

(** [request.query.name] is the empty string when the name is absent; a file is its
    name and its contents; [request.json] is [None] for invalid JSON. *)
Record request := MkRequest {
  rq_query : string → string;
  rq_firmware : option (string * string);
  rq_profile : option string;
  rq_json : option pyval
}.

(** A JSON object with the code, with an error, with the refusal of the autotests,
    with their report, or the text of a 503. *)
Inductive response :=
  | Ret (ret : Z)
  | RetError (ret : Z) (error : string)
  | RetTests (ret : Z) (success errors : list string)
  | RetReport (report : Report)
  | Unavailable.

(** ** Query strings *)

(** [int(request.query.timeout)], 0 when it is not a number or negative *)
Definition query_timeout (timeout : string) : Z :=
  match int_of_str timeout with
  | Some timeout => Z.max 0 timeout
  | None => 0%Z
  end.

Definition query_binary (binary_value : string) : outcome bool :=
  if decide (binary_value = "") then Val false else booleanize (PStr binary_value).

Definition query_offset (offset_value : string) : outcome Z :=
  if decide (offset_value = "") then Val 0%Z
  else match int_of_str offset_value with Some z => Val z | None => Exn ValueError end.

(** [bool(s and int(s))]; [None] for the [ValueError] *)
Definition query_flag (s : string) : option bool :=
  if decide (s = "") then Some false
  else z ← int_of_str s; Some (negb (z =? 0)%Z).

(** The channel of the autotests; [None] when it is refused *)
Definition query_channel (channel_str : string) : option (option Z) :=
  if decide (channel_str = "") then Some None
  else if str_isdigit channel_str then
    channel ← int_of_str channel_str;
    if (11 <=? channel)%Z && (channel <? 27)%Z then Some (Some channel) else None
  else None.

(** [auto_tests(mode)] up to the call of the manager: the arguments of the tests
    (channel, blink, flash, gps), or the answer that refuses them *)
Definition auto_tests_args (mode : option string) (query : string → string)
    : response + (option Z * bool * bool * bool) :=
  let refuse e := inl (RetTests 1 [] [e]) in
  if bool_decide (mode = Some "blink") || bool_decide (mode = None) then
    let blink := bool_decide (mode = Some "blink") in
    match query_channel (query "channel") with
    | None => refuse "invalid_channel"
    | Some channel =>
        match query_flag (query "gps") with
        | None => refuse "invalid_gps_option"
        | Some gps =>
            match query_flag (query "flash") with
            | None => refuse "invalid_flash_option"
            | Some flash => inr (channel, blink, flash, gps)
            end
        end
    end
  else refuse "invalid_mode".

(** ** Handlers *)

(** A request once its route is known. *)
Inductive call :=
  | CExpStart (exp_id : Z) (user : string)
  | CExpStop
  | CStatus
  | CUpdateProfile
  | COpenStart
  | COpenStop
  | CSleep (seconds : Z)
  | COpenFlash
  | COpenFlashIdle
  | COpenReset
  | CDebugStart
  | CDebugStop
  | CAutoTests (mode : option string).

Section handlers.
Context `{E : Env} {N C : Type} `{!OpenNodeOps N} `{!ControlNodeOps C}.
Variable json_loads : string → option pyval.     (* [None]: ValueError *)

(** [_extract_profile()] *)
Definition extract_profile (rq : request) : outcome pyval :=
  match rq_profile rq with
  | None => Val PNone
  | Some content =>
      match json_loads content with Some profile => Val profile | None => Exn ValueError end
  end.

(** [_extract_firmware()]: the name of the temporary file *)
Definition extract_firmware {St} (rq : request) : M St (option string) :=
  match rq_firmware rq with
  | None => mret None
  | Some (filename, data) =>
      name ← p_tempfile ("--" +:+ filename);
      p_emit (EvTempWrite data) ;;
      mret (Some name)
  end.

(** [firmware_file.close()] when there is one *)
Definition close_firmware {St} (firmware : option string) : M St unit :=
  match firmware with Some _ => p_emit EvCloseTemp | None => mret tt end.

Definition rest_exp_start (tid : nat) (user : string) (exp_id : Z) (rq : request)
    : M (GM N C) response :=
  let timeout := query_timeout (rq_query rq "timeout") in
  firmware ← extract_firmware rq;
  match extract_profile rq with
  | Exn ValueError => mret (Ret 1)
  | Exn e => raise e
  | Hang => hang
  | Val profile =>
      ret ← exp_start tid user exp_id firmware profile timeout;
      close_firmware firmware ;;
      mret (Ret ret)
  end.

Definition rest_exp_update_profile (tid : nat) (rq : request) : M (GM N C) response :=
  match rq_json rq with
  | None => mret (Ret 1)
  | Some profile => ret ← exp_update_profile tid profile; mret (Ret ret)
  end.

Definition open_flash (tid : nat) (rq : request) : M (GM N C) response :=
  binary ← lift (query_binary (rq_query rq "binary"));
  offset ← lift (query_offset (rq_query rq "offset"));
  firmware ← extract_firmware rq;
  match firmware with
  | None => mret (RetError 1 "Wrong file args: required 'firmware'")
  | Some name =>
      ret ← node_flash tid "open" (Some name) binary offset;
      close_firmware firmware ;;
      mret (Ret ret)
  end.

Definition rest_auto_tests (tid : nat) (mode : option string) (rq : request)
    : M (GM N C) response :=
  match auto_tests_args mode (rq_query rq) with
  | inl refusal => mret refusal
  | inr (channel, blink, flash, gps) =>
      ret_dict ← manager_auto_tests tid channel blink flash gps;
      mret (RetReport ret_dict)
  end.

(** [{'ret': ret}], the code of the manager's operation *)
Definition code_answer (m : M (GM N C) Z) : M (GM N C) response := ret ← m; mret (Ret ret).

Definition rest_exp_stop (tid : nat) : M (GM N C) response := code_answer (exp_stop tid).
Definition rest_open_flash_idle (tid : nat) : M (GM N C) response :=
  code_answer (node_flash tid "open" None false 0).
Definition rest_open_soft_reset (tid : nat) : M (GM N C) response :=
  code_answer (node_soft_reset tid "open").
Definition rest_open_start (tid : nat) : M (GM N C) response :=
  code_answer (open_power_start tid None).
Definition rest_open_stop (tid : nat) : M (GM N C) response :=
  code_answer (open_power_stop tid None).
Definition rest_open_debug_start (tid : nat) : M (GM N C) response :=
  code_answer (open_debug_start tid).
Definition rest_open_debug_stop (tid : nat) : M (GM N C) response :=
  code_answer (open_debug_stop tid).
Definition rest_sleep (tid : nat) (seconds : Z) : M (GM N C) response :=
  code_answer (manager_sleep tid seconds).
Definition rest_status (tid : nat) : M (GM N C) response := code_answer (manager_status tid).

(** The method each route calls. *)
Definition handler (tid : nat) (c : call) (rq : request) : M (GM N C) response :=
  match c with
  | CExpStart exp_id user => rest_exp_start tid user exp_id rq
  | CExpStop => rest_exp_stop tid
  | CStatus => rest_status tid
  | CUpdateProfile => rest_exp_update_profile tid rq
  | COpenStart => rest_open_start tid
  | COpenStop => rest_open_stop tid
  | CSleep seconds => rest_sleep tid seconds
  | COpenFlash => open_flash tid rq
  | COpenFlashIdle => rest_open_flash_idle tid
  | COpenReset => rest_open_soft_reset tid
  | CDebugStart => rest_open_debug_start tid
  | CDebugStop => rest_open_debug_stop tid
  | CAutoTests mode => rest_auto_tests tid mode rq
  end.

(** [_cb_wrap(func)]: [EWOULDBLOCK] is a 503, the rest is raised again *)
Definition cb_wrap (func : M (GM N C) response) : M (GM N C) response :=
  try_except func (λ err,
    if is_EnvironmentError err then
      Some (if bool_decide (errno_of err = Some EWOULDBLOCK) then mret Unavailable
            else raise err)
    else None).

Definition rest (tid : nat) (c : call) (rq : request) : M (GM N C) response :=
  cb_wrap (handler tid c rq).
End handlers.

(** ** Routes *)

Inductive endpoint :=
  | EpExpStart | EpExpStop | EpStatus | EpUpdateProfile | EpOpenStart | EpOpenStop
  | EpAutotest | EpAutotestMode | EpSleep | EpOpenFlash | EpOpenFlashIdle | EpOpenReset
  | EpDebugStart | EpDebugStop.

#[global] Instance endpoint_eq_dec : EqDecision endpoint.
Proof. solve_decision. Defined.

(** [_cond_route(obj, func, path, ...)] *)
Definition cond_route (obj : pyclass) (func path meth : string) (ep : endpoint)
    : list (string * string * endpoint) :=
  if has_method obj func then [(path, meth, ep)] else [].

(** [_app_routing()]: the routes in the order they are registered *)
Definition app_routing (b : BoardConfig) : list (string * string * endpoint) :=
  let cn_conditional_route := cond_route (bc_cn_class b) in
  let on_conditional_route := cond_route (bc_board_class b) in
  [("/exp/start/<exp_id:int>/<user>", "POST", EpExpStart);
   ("/exp/stop", "DELETE", EpExpStop);
   ("/status", "GET", EpStatus);
   ("/exp/update", "POST", EpUpdateProfile)] ++
  cn_conditional_route "open_start" "/open/start" "PUT" EpOpenStart ++
  cn_conditional_route "open_stop" "/open/stop" "PUT" EpOpenStop ++
  [("/autotest", "PUT", EpAutotest);
   ("/autotest/<mode>", "PUT", EpAutotestMode);
   ("/sleep/<seconds:int>", "GET", EpSleep)] ++
  on_conditional_route "flash" "/open/flash" "POST" EpOpenFlash ++
  on_conditional_route "flash" "/open/flash/idle" "PUT" EpOpenFlashIdle ++
  on_conditional_route "reset" "/open/reset" "PUT" EpOpenReset ++
  on_conditional_route "debug_start" "/open/debug/start" "PUT" EpDebugStart ++
  on_conditional_route "debug_stop" "/open/debug/stop" "PUT" EpDebugStop.

(** ** Specification of the requests *)

Section spec.
Context `{E : Env} {N C : Type} `{!OpenNodeOps N} `{!ControlNodeOps C}.
Variable json_loads : string → option pyval.
Implicit Type g : GM N C.

(** The operation of the manager a request asks for, given the file its firmware
    is stored in; the answer that refuses it otherwise. *)
Definition op_of (c : call) (rq : request) (fw : option string)
    : outcome response + op :=
  match c with
  | CExpStart exp_id user =>
      match extract_profile json_loads rq with
      | Val profile => inr (OStart user exp_id fw profile (query_timeout (rq_query rq "timeout")))
      | _ => inl (Val (Ret 1))
      end
  | CExpStop => inr OStop
  | CStatus => inr OStatus
  | CUpdateProfile =>
      match rq_json rq with
      | Some profile => inr (OUpdate profile)
      | None => inl (Val (Ret 1))
      end
  | COpenStart => inr (OPower true None)
  | COpenStop => inr (OPower false None)
  | CSleep seconds => inr (OSleep seconds)
  | COpenFlash =>
      match query_binary (rq_query rq "binary"), query_offset (rq_query rq "offset"), fw with
      | Val binary, Val offset, Some _ => inr (OFlash "open" fw binary offset)
      | Val _, Val _, None => inl (Val (RetError 1 "Wrong file args: required 'firmware'"))
      | _, _, _ => inl (Exn ValueError)
      end
  | COpenFlashIdle => inr (OFlash "open" None false 0)
  | COpenReset => inr (OReset "open")
  | CDebugStart => inr (ODebug true)
  | CDebugStop => inr (ODebug false)
  | CAutoTests mode =>
      match auto_tests_args mode (rq_query rq) with
      | inl refusal => inl (Val refusal)
      | inr (channel, blink, flash, gps) => inr (OAutoTests channel blink flash gps)
      end
  end.

(** The requests whose firmware is stored: flashing stops at bad numbers first. *)
Definition stores (c : call) (rq : request) : bool :=
  match c with
  | CExpStart _ _ => true
  | COpenFlash =>
      match query_binary (rq_query rq "binary"), query_offset (rq_query rq "offset") with
      | Val _, Val _ => true
      | _, _ => false
      end
  | _ => false
  end.

(** The trace once the firmware is stored, and the name of its file. *)
Definition stored (c : call) (rq : request) (t : trace) : option string * trace :=
  match stores c rq, rq_firmware rq with
  | true, Some (filename, data) =>
      let t' := t ++ [EvTempFile ("--" +:+ filename)] in
      (Some (env_tempname t' ("--" +:+ filename)), t' ++ [EvTempWrite data])
  | _, _ => (None, t)
  end.

(** The answer to a request, from the outcome of its operation. *)
Definition answer_of (o : outcome reply) : outcome response :=
  match o with
  | Val (Code ret) => Val (Ret ret)
  | Val (Tests report) => Val (RetReport report)
  | Exn e =>
      if is_EnvironmentError e && bool_decide (errno_of e = Some EWOULDBLOCK)
      then Val Unavailable else Exn e
  | Hang => Hang
  end.

Definition closed (fw : option string) (o : outcome reply) (t : trace) : trace :=
  match fw, o with Some _, Val _ => t ++ [EvCloseTemp] | _, _ => t end.

Lemma extract_firmware_run {St} rq (s : St) t c :
  stores c rq = true →
  extract_firmware rq s t = (Val (fst (stored c rq t)), s, snd (stored c rq t)).
Proof.
  intros Hc. unfold extract_firmware, stored. rewrite Hc.
  by destruct (rq_firmware rq) as [[filename data]|].
Qed.

(** An operation whose code is the answer. *)
Lemma answer_run (m : M (GM N C) Z) (fw : option string) g t :
  cb_wrap (ret ← m; close_firmware fw ;; mret (Ret ret)) g t =
    let '(o, g', t') := coded m g t in (answer_of o, g', closed fw o t').
Proof.
  unfold coded, cb_wrap, try_except, mbind, M_bind, close_firmware, mret, M_ret, answer_of, closed.
  destruct (m g t) as [[[r|e|] g'] t']; [by destruct fw| |by destruct fw].
  destruct (is_EnvironmentError e); simpl; [case_bool_decide|]; by destruct fw.
Qed.

(** An operation whose report is the answer. *)
Lemma report_run (m : M (GM N C) Report) g t :
  cb_wrap (report ← m; mret (RetReport report)) g t =
    let '(o, g', t') := (report ← m; mret (Tests report)) g t in (answer_of o, g', t').
Proof.
  unfold cb_wrap, try_except, mbind, M_bind, mret, M_ret, answer_of.
  destruct (m g t) as [[[r|e|] g'] t']; [done| |done].
  destruct (is_EnvironmentError e); simpl; [by case_bool_decide|done].
Qed.

Lemma cb_wrap_bind {A} (m : M (GM N C) A) k g t a t1 :
  m g t = (Val a, g, t1) → cb_wrap (m ≫= k) g t = cb_wrap (k a) g t1.
Proof. intros Hm. unfold cb_wrap, try_except. by rewrite (bind_run _ _ _ _ _ _ _ Hm). Qed.

Lemma query_binary_exn s e : query_binary s = Exn e → e = ValueError.
Proof. unfold query_binary, booleanize. repeat case_match; by intros [= <-]. Qed.

Lemma query_binary_not_hang s : query_binary s ≠ Hang.
Proof. unfold query_binary, booleanize. by repeat case_match. Qed.

Lemma query_offset_exn s e : query_offset s = Exn e → e = ValueError.
Proof. unfold query_offset. repeat case_match; by intros [= <-]. Qed.

Lemma query_offset_not_hang s : query_offset s ≠ Hang.
Proof. unfold query_offset. by repeat case_match. Qed.
End spec.

(** How a request runs. *)
Lemma rest_run `{Env} {N C : Type} `{!OpenNodeOps N} `{!ControlNodeOps C}
    (json_loads : string → option pyval) (tid : nat) (c : call) (rq : request)
    (g : GM N C) (t : trace) :
  let '(fw, t1) := stored c rq t in
  rest json_loads tid c rq g t =
    match op_of json_loads c rq fw with
    | inl refusal => (refusal, g, t1)
    | inr x => let '(o, g', t2) := run_op tid x g t1 in (answer_of o, g', closed fw o t2)
    end.
Proof.
  destruct (stored c rq t) as [fw t1] eqn:Hs. unfold rest.
  pose proof (extract_firmware_run (St:=GM N C) rq g t c) as Hx. rewrite Hs in Hx. simpl in Hx.
  destruct c; try (unfold stored in Hs; simpl in Hs; injection Hs as <- <-;
    simpl op_of; unfold run_op; cbv iota; rewrite <- (answer_run _ None); reflexivity).
  - unfold handler, rest_exp_start. cbv zeta. rewrite (cb_wrap_bind _ _ _ _ _ _ (Hx eq_refl)).
    unfold op_of, extract_profile.
    destruct (rq_profile rq) as [content|]; [|unfold run_op; by rewrite <- answer_run].
    destruct (json_loads content); [unfold run_op; by rewrite <- answer_run|done].
  - unfold stored in Hs. simpl in Hs. injection Hs as <- <-.
    unfold handler, rest_exp_update_profile, op_of.
    destruct (rq_json rq); [unfold run_op; by rewrite <- (answer_run _ None)|done].
  - unfold handler, open_flash, op_of. unfold stores in Hx. unfold stored, stores in Hs.
    destruct (query_binary _) as [binary|e|] eqn:Hb.
    + rewrite (cb_wrap_bind _ _ g t binary t) by done.
      destruct (query_offset _) as [offset|e|] eqn:Ho.
      * rewrite (cb_wrap_bind _ _ g t offset t) by done.
        rewrite (cb_wrap_bind _ _ _ _ _ _ (Hx eq_refl)).
        destruct fw; [unfold run_op; by rewrite <- answer_run|done].
      * injection Hs as <- <-. by rewrite (query_offset_exn _ _ Ho).
      * by destruct (query_offset_not_hang _ Ho).
    + injection Hs as <- <-. by rewrite (query_binary_exn _ _ Hb).
    + by destruct (query_binary_not_hang _ Hb).
  - unfold stored in Hs. simpl in Hs. injection Hs as <- <-.
    unfold handler, rest_auto_tests, op_of.
    destruct (auto_tests_args _ _) as [refusal|[[[channel blink] flash] gps]]; [done|].
    unfold run_op. rewrite report_run. unfold closed.
    match goal with |- (let '(_, _) := ?x in _) = _ => by destruct x as [[[] ?] ?] end.
Qed.

(** *** The server as a whole *)

Section server.
Context `{E : Env} {N C : Type} `{!OpenNodeOps N} `{!ControlNodeOps C}.
Variable json_loads : string → option pyval.
Implicit Type g : GM N C.

(** The manager between two events of the server: the setup that [_main] does before it
    listens, requests handled by any threads and expirations of any timers, each to its
    end. *)
Inductive server_reachable : GM N C → Prop :=
  | server_init b on cn : server_reachable (gm_init b on cn)
  | server_setup g tid t r g' t' :
      server_reachable g → manager_setup tid g t = (Val r, g', t') → server_reachable g'
  | server_request g tid c rq t o g' t' :
      server_reachable g → rest json_loads tid c rq g t = (o, g', t') → o ≠ Hang →
      server_reachable g'
  | server_timer g tid e u t o g' t' :
      server_reachable g → timeout_exp_stop tid e u g t = (o, g', t') → o ≠ Hang →
      server_reachable g'.

(** The timer's call, as an operation with a code. *)
Lemma timer_as_op tid e u g t o g' t' :
  timeout_exp_stop tid e u g t = (o, g', t') → o ≠ Hang →
  ∃ o', run_op tid (OTimeout e u) g t = (o', g', t') ∧ o' ≠ Hang.
Proof.
  unfold run_op, coded, timeout_exp_stop, timeout_status, locked, synchronous, mbind, M_bind, gets,
    modify, try_finally.
  destruct (try_acquire _ _); [|intros [= <- <- <-] _; by eexists; split].
  destruct (timeout_exp_stop_body _ _ _ _ _) as [[[[]|x|] g1] t1];
    intros [= <- <- <-] Ho; by eexists; split.
Qed.

Lemma answer_of_hang o : answer_of o = Hang ↔ o = Hang.
Proof. destruct o as [[]|e|]; simpl; try done. by destruct (is_EnvironmentError e && _). Qed.

Lemma answer_of_ret o r : answer_of o = Val (Ret r) → o = Val (Code r).
Proof.
  destruct o as [[]|e|]; simpl; [by intros [= ->]|done| |done].
  by destruct (is_EnvironmentError e && _).
Qed.

(** One request as one operation, or none. *)
Lemma rest_as_op tid c rq g t o g' t' :
  rest json_loads tid c rq g t = (o, g', t') →
  (g' = g ∧ ∃ fw, op_of json_loads c rq fw = inl o) ∨
  ∃ fw x t1 o' t2, op_of json_loads c rq fw = inr x ∧ run_op tid x g t1 = (o', g', t2) ∧
    o = answer_of o'.
Proof.
  pose proof (rest_run json_loads tid c rq g t) as Hr.
  destruct (stored c rq t) as [fw t1]. rewrite Hr.
  destruct (op_of json_loads c rq fw) as [refusal|x] eqn:Hx.
  - intros [= <- <- <-]. left. split; [done|]. by exists fw.
  - destruct (run_op tid x g t1) as [[o' g1] t2] eqn:Hrun. intros [= <- <- <-].
    right. by exists fw, x, t1, o', t2.
Qed.

Lemma server_reachable_ok g : server_reachable g → reachable g.
Proof.
  induction 1 as [b on cn|g tid t r g' t' _ IH Hrun|g tid c rq t o g' t' _ IH Hrun Ho
    |g tid e u t o g' t' _ IH Hrun Ho].
  - apply reach_init.
  - unfold manager_setup in Hrun. apply M_bind_Val in Hrun as (ret & g1 & t1 & Hf & Hrun).
    destruct (Z.eqb_spec ret 0) as [->|]; [|done].
    unfold mret, M_ret in Hrun. injection Hrun as _ <- <-.
    apply (reach_op g tid (OFlash "control" None false 0) t (Val (Code 0)) g1 t1 IH);
      [|discriminate].
    unfold run_op, coded. by rewrite (bind_run _ _ _ _ _ _ _ Hf).
  - apply rest_as_op in Hrun as [[-> _]|(fw & x & t1 & o' & t2 & _ & Hrun & ->)]; [done|].
    eapply reach_op; [exact IH|exact Hrun|]. by rewrite answer_of_hang in Ho.
  - apply timer_as_op in Hrun as (o' & Hrun & Ho'); [|done]. by eapply reach_op.
Qed.

(** A thread that finds the lock taken by another one. *)
Lemma locked_busy {A} tid (m : M (GM N C) A) g t o :
  rl_owner (gm_rlock g) = Some o → o ≠ tid →
  locked tid m g t = (Exn (EnvironmentError EWOULDBLOCK), g, t).
Proof.
  intros Ho Hne. unfold locked, synchronous, mbind, M_bind, gets.
  change (lget rlock g) with (gm_rlock g). by rewrite (try_acquire_other _ _ _ Ho Hne).
Qed.

Lemma run_op_busy tid x g t o :
  rl_owner (gm_rlock g) = Some o → o ≠ tid →
  run_op tid x g t = (Exn (EnvironmentError EWOULDBLOCK), g, t).
Proof.
  intros Ho Hne.
  assert (Hbusy : ∀ {A} (f : A → reply) (m : M (GM N C) A),
    (a ← locked tid m; mret (f a)) g t = (Exn (EnvironmentError EWOULDBLOCK), g, t)).
  { intros A f m. unfold mbind, M_bind. by rewrite (locked_busy _ _ _ _ _ Ho Hne). }
  destruct x as [| | | |[]|[]| | | | |]; apply Hbusy.
Qed.
End server.

(** What a request may do to the running experiment [a]. *)
Definition request_allowed (c : call) (o : outcome response)
    (a a' : option (Z * string)) : Prop :=
  match c with
  | CExpStart exp_id user =>
      (o = Val (Ret 0) → a' = Some (exp_id, user)) ∧
      (a' = Some (exp_id, user) ∨ a' = None ∨ a' = a)
  | CExpStop => match o with Val (Ret _) => a' = None | _ => a' = a end
  | _ => a' = a
  end.

(** ** Properties *)

(** C3: every request is one operation of the manager, or none.  A request with
    bad arguments is refused and the manager does not see it.  Any other runs
    exactly the operation it asks for, from the state it finds, after its firmware
    is stored in a temporary file; the answer is the operation's code, a 503 when
    the operation would block, or its exception, and the file is closed when the
    operation returns. *)
Theorem rest_correct `{Env} {N C : Type} `{!OpenNodeOps N} `{!ControlNodeOps C}
    (json_loads : string → option pyval) (tid : nat) (c : call) (rq : request)
    (g : GM N C) (t : trace) :
  let '(fw, t1) := stored c rq t in
  rest json_loads tid c rq g t =
    match op_of json_loads c rq fw with
    | inl refusal => (refusal, g, t1)
    | inr x => let '(o, g', t2) := run_op tid x g t1 in (answer_of o, g', closed fw o t2)
    end.
Proof. apply rest_run. Qed.

(** C2: the server keeps the experiments apart.  Once the server is set
    up, after any sequence of requests and expirations of timers, handled by any threads,
    a request that ends leaves the lock free and the manager idle or with one experiment.
    A start answered 0
    leaves its own experiment running, a stop that is answered leaves none, and no
    other request starts or ends one, whatever its arguments and its answer. *)
Theorem rest_safe `{Env} {N C : Type} `{!OpenNodeOps N} `{!ControlNodeOps C}
    (json_loads : string → option pyval) (tid : nat) (c : call) (rq : request)
    (g g' : GM N C) (t t' : trace) (o : outcome response)
    (Hg : server_reachable json_loads g) (Hrun : rest json_loads tid c rq g t = (o, g', t')) :
  Inv g' ∧ (o ≠ Hang → gm_rlock g' = rl_free) ∧
  request_allowed c o (exp_of g) (exp_of g').
Proof.
  apply server_reachable_ok in Hg. destruct (reachable_ok g Hg) as [Hl Hi].
  apply rest_as_op in Hrun as [[-> (fw & Hop)]|(fw & x & t1 & o' & t2 & Hop & Hrun & ->)].
  - split_and!; [done|done|]. destruct c; simpl in Hop |- *; try done.
    split; [|by right; right]. intros ->. by destruct (extract_profile _ _).
  - assert (Hwf : rl_wf (gm_rlock g)) by (rewrite Hl; apply free_wf).
    pose proof (run_op_wp tid x g t1 Hwf Hi) as Hw. unfold wp in Hw. rewrite Hrun in Hw.
    destruct Hw as (_ & Hl' & Hi' & Ha). split_and!; [done| |].
    { rewrite answer_of_hang. intros Ho. by rewrite Hl'. }
    destruct c; simpl in Hop; repeat case_match; simplify_eq; try done; simpl in Ha |- *.
    + split; [intros ->%answer_of_ret|destruct o']; naive_solver.
    + destruct o' as [r|e|]; [by destruct r| |done]. unfold answer_of.
      by destruct (is_EnvironmentError e && _).
Qed.

(** A start from the initial state, with a firmware and a timeout. *)
Definition demo_request : request :=
  MkRequest (λ name, if decide (name = "timeout") then "60" else "")
    (Some ("fw.elf", "ELF")) None None.

Definition demo_served : outcome response * GM OpenOCDNode.node CnNo.node * trace :=
  @rest calm_env _ _ _ _ (λ _, None) 1 (CExpStart 42 "user") demo_request demo_manager [].

Lemma rest_safe_witness :
  Inv (snd (fst demo_served)) ∧ fst (fst demo_served) = Val (Ret 0) ∧
  exp_of (snd (fst demo_served)) = Some (42%Z, "user").
Proof.
  assert (Hv : fst (fst demo_served) = Val (Ret 0)) by (vm_compute; reflexivity).
  destruct (@rest_safe calm_env _ _ _ _ (λ _, None) 1 (CExpStart 42 "user") demo_request
    demo_manager (snd (fst demo_served)) [] (snd demo_served) (fst (fst demo_served))
    (@server_init calm_env _ _ _ _ _ _ _ _)) as (Hi & _ & Ha & _);
    [vm_compute; reflexivity|].
  split; [exact Hi|]. split; [exact Hv|exact (Ha Hv)].
Defined.

(** C14: a busy manager answers 503.  When another thread holds the lock, a request
    whose arguments are right is answered 503, the manager is not changed, and
    nothing is asked of the world but to store the request's firmware. *)
Theorem busy_is_503 `{Env} {N C : Type} `{!OpenNodeOps N} `{!ControlNodeOps C}
    (json_loads : string → option pyval) (tid owner : nat) (c : call) (rq : request)
    (g : GM N C) (t : trace) (x : op)
    (Howner : rl_owner (gm_rlock g) = Some owner) (Hne : owner ≠ tid)
    (Hok : op_of json_loads c rq (fst (stored c rq t)) = inr x) :
  rest json_loads tid c rq g t = (Val Unavailable, g, snd (stored c rq t)).
Proof.
  pose proof (rest_run json_loads tid c rq g t) as Hr.
  destruct (stored c rq t) as [fw t1]. simpl in Hok |- *. rewrite Hr, Hok.
  rewrite (run_op_busy _ _ _ _ _ Howner Hne). by destruct fw.
Qed.

(** Thread 2 holds the lock when thread 1 handles a request to stop. *)
Lemma busy_is_503_witness :
  let g := lset rlock (MkRLock (Some 2) 1) demo_manager in
  @rest calm_env _ _ _ _ (λ _, None) 1 CExpStop demo_request g [] = (Val Unavailable, g, []).
Proof.
  intros g. apply (@busy_is_503 calm_env _ _ _ _ (λ _, None) 1 2 CExpStop demo_request g [] OStop);
    [reflexivity|discriminate|reflexivity].
Defined.

Lemma query_channel_spec s channel :
  query_channel s = Some channel ↔
  match channel with
  | None => s = ""
  | Some n => (11 ≤ n ≤ 26)%Z ∧ int_of_str s = Some n ∧ str_isdigit s = true
  end.
Proof.
  unfold query_channel. destruct (decide (s = "")) as [->|Hs].
  - destruct channel; split; try done. by intros (_ & [=] & _).
  - destruct (str_isdigit s); [|destruct channel; split; naive_solver].
    destruct (int_of_str s) as [n|]; simpl; [|destruct channel; split; naive_solver].
    destruct (Z.leb_spec 11 n), (Z.ltb_spec n 27), channel; simpl; split; intros;
      destruct_and?; simplify_eq; try done; try (split_and!; [lia..|done|done]); lia.
Qed.

Lemma query_flag_spec s b :
  query_flag s = Some b ↔
  s = "" ∧ b = false ∨ ∃ z, s ≠ "" ∧ int_of_str s = Some z ∧ b = negb (z =? 0)%Z.
Proof.
  unfold query_flag. destruct (decide (s = "")) as [->|Hs]; [naive_solver|].
  destruct (int_of_str s); simpl; naive_solver.
Qed.

(** The arguments of the autotests.  They are accepted exactly when the mode
    is absent or [blink], the channel absent or the decimal digits of a number from
    11 to 26, and the two flags absent or integers; the values given are then those
    written, and otherwise the answer is code 1 with the name of the first argument
    that is wrong. *)
Theorem auto_tests_args_correct (mode : option string) (query : string → string)
    (channel : option Z) (blink flash gps : bool) :
  (auto_tests_args mode query = inr (channel, blink, flash, gps) ↔
     (blink = false ∧ mode = None ∨ blink = true ∧ mode = Some "blink") ∧
     match channel with
     | None => query "channel" = ""
     | Some n => (11 ≤ n ≤ 26)%Z ∧ int_of_str (query "channel") = Some n ∧
                 str_isdigit (query "channel") = true
     end ∧
     (∀ name b, (name, b) ∈ [("flash", flash); ("gps", gps)] →
        query name = "" ∧ b = false ∨
        ∃ z, query name ≠ "" ∧ int_of_str (query name) = Some z ∧ b = negb (z =? 0)%Z)) ∧
  (∀ r, auto_tests_args mode query = inl r →
     ∃ e, r = RetTests 1 [] [e] ∧
       (e = "invalid_mode" ∨ e = "invalid_channel" ∨ e = "invalid_gps_option" ∨
        e = "invalid_flash_option")).
Proof.
  split; [split|].
  - unfold auto_tests_args. intros Ha. destruct (_ || _) eqn:Hm; [|done].
    destruct (query_channel _) eqn:Hc; [|done]. destruct (query_flag (query "gps")) eqn:Hg; [|done].
    destruct (query_flag (query "flash")) eqn:Hf; [|done]. simplify_eq.
    rewrite query_channel_spec in Hc. rewrite query_flag_spec in Hf, Hg.
    apply orb_true_iff in Hm. rewrite !bool_decide_eq_true in Hm.
    split; [|split; [done|]].
    + destruct Hm as [->| ->]; [right|left]; done.
    + intros name b Hin. set_unfold in Hin. naive_solver.
  - intros (Hm & Hc & Hf). apply query_channel_spec in Hc.
    pose proof (Hf "flash" flash) as Hfl. pose proof (Hf "gps" gps) as Hgp.
    rewrite <- query_flag_spec in Hfl, Hgp. unfold auto_tests_args.
    rewrite Hc, Hgp, Hfl by set_solver.
    by destruct Hm as [[-> ->]|[-> ->]].
  - unfold auto_tests_args. intros r Hr. repeat case_match; simplify_eq; eauto 10.
Qed.

(** The methods the routes depend on, class by class. *)
Lemma control_methods `{Env} c :
  c ∈ control_classes →
  (has_method c "open_start" = true ↔ cls_name c ≠ "ControlNodeNo") ∧
  (has_method c "open_stop" = true ↔ cls_name c ≠ "ControlNodeNo").
Proof.
  unfold control_classes. intros Hc.
  repeat (apply elem_of_cons in Hc as [->|Hc]; [by vm_compute|]).
  by apply not_elem_of_nil in Hc.
Qed.

Definition debuggable (c : pyclass) : bool :=
  issubclass c "NodeOpenOCDBase" || issubclass c "NodeEdbgBase".

Lemma open_methods `{Env} c :
  c ∈ open_classes →
  has_method c "flash" = negb (bool_decide (cls_name c ∈ ["NodeA8"; "NodeRpi3"])) ∧
  has_method c "reset" = negb (bool_decide (cls_name c ∈ ["NodeA8"; "NodeRpi3"])) ∧
  has_method c "debug_start" = debuggable c ∧ has_method c "debug_stop" = debuggable c.
Proof.
  unfold open_classes. intros Hc.
  repeat (apply elem_of_cons in Hc as [->|Hc]; [by vm_compute|]).
  by apply not_elem_of_nil in Hc.
Qed.

(** The routes fit the board.  On the classes of the repository, every server
    has the routes of the experiments, the status and the autotests; the power
    routes are there unless the control node is the empty one; flash and reset
    unless the open node is a Linux board; debug exactly for the nodes of the
    OpenOCD and EDBG families. *)
Theorem routes_fit `{Env} (b : BoardConfig)
    (Hb : bc_board_class b ∈ open_classes) (Hcn : bc_cn_class b ∈ control_classes) :
  let registered ep := ep ∈ (app_routing b).*2 in
  (∀ ep, ep ∈ [EpExpStart; EpExpStop; EpStatus; EpUpdateProfile; EpAutotest; EpAutotestMode;
               EpSleep] → registered ep) ∧
  (∀ ep, ep ∈ [EpOpenStart; EpOpenStop] →
     registered ep ↔ cls_name (bc_cn_class b) ≠ "ControlNodeNo") ∧
  (∀ ep, ep ∈ [EpOpenFlash; EpOpenFlashIdle; EpOpenReset] →
     registered ep ↔ cls_name (bc_board_class b) ∉ ["NodeA8"; "NodeRpi3"]) ∧
  (∀ ep, ep ∈ [EpDebugStart; EpDebugStop] →
     registered ep ↔ issubclass (bc_board_class b) "NodeOpenOCDBase" = true ∨
                     issubclass (bc_board_class b) "NodeEdbgBase" = true).
Proof.
  destruct b as [c cn linux robot node_id profile]. simpl in Hb, Hcn |- *.
  destruct (control_methods cn Hcn) as [Ho1 Ho2].
  destruct (open_methods c Hb) as (Hf & Hr & Hd1 & Hd2).
  assert (Hreg : ∀ ep, ep ∈ (app_routing (MkBoardConfig c cn linux robot node_id profile)).*2 ↔
    match ep with
    | EpOpenStart => has_method cn "open_start" = true
    | EpOpenStop => has_method cn "open_stop" = true
    | EpOpenFlash | EpOpenFlashIdle => has_method c "flash" = true
    | EpOpenReset => has_method c "reset" = true
    | EpDebugStart => has_method c "debug_start" = true
    | EpDebugStop => has_method c "debug_stop" = true
    | _ => True
    end).
  { intros ep. rewrite <- (bool_decide_eq_true (ep ∈ _)). unfold app_routing, cond_route. simpl.
    generalize (has_method cn "open_start") (has_method cn "open_stop") (has_method c "flash")
      (has_method c "reset") (has_method c "debug_start") (has_method c "debug_stop").
    clear. intros [] [] [] [] [] []; destruct ep; vm_compute; by split. }
  unfold debuggable in Hd1, Hd2.
  split_and!; intros ep Hep; rewrite Hreg; clear Hreg;
    repeat (apply elem_of_cons in Hep as [->|Hep]); try by apply elem_of_nil in Hep.
  1-7: done.
  1-2: assumption.
  1-3: by rewrite ?Hf, ?Hr, negb_true_iff, bool_decide_eq_false.
  all: by rewrite ?Hd1, ?Hd2, orb_true_iff.
Qed.

(** The M3 node without control node: no power routes, and the debug routes. *)
Lemma routes_fit_witness :
  let b := MkBoardConfig (@NodeM3 calm_env) ControlNodeNo None None "m3-12" None in
  EpDebugStart ∈ (app_routing b).*2 ∧ ¬ EpOpenStart ∈ (app_routing b).*2.
Proof.
  intros b. destruct (@routes_fit calm_env b) as (_ & Hc & _ & Hd).
  - do 9 right; left.
  - do 2 right; left.
  - split; [apply Hd; [left|left; reflexivity]|].
    intros H. apply Hc in H; [by apply H|left].
Defined.
