(* ===== verification/CFormat.v ===== *)
(** * The C library functions of the control node serial program

    [sscanf] with the directives the program's formats use (blanks, characters,
    [%Ns] and [%i]), [strtok] and [atoi] on the channel lists, the conversions of
    [printf], and the little-endian copies of [memcpy].  Characters are bytes, a
    byte of a packet is a [Z] between 0 and 255.  [None] stands for an execution to
    which the C standard gives no meaning: a store past the end of a buffer, or a
    number that does not fit its type. *)

From Stdlib Require Import DecimalString DecimalZ DecimalN DecimalFacts Decimal.
From S2P Require Import Prelude PyString PyVal.

(** ** Machine integers *)

(** The value of the low [w] bits, unsigned and signed. *)
Definition wrap (w z : Z) : Z := (z mod 2 ^ w)%Z.
Definition swrap (w z : Z) : Z := ((z + 2 ^ (w - 1)) mod 2 ^ w - 2 ^ (w - 1))%Z.

(** An [int] has 32 bits. *)
Definition in_int (z : Z) : bool := ((- 2 ^ 31 <=? z) && (z <? 2 ^ 31))%Z.

(** The first [n] bytes of the object of value [z] in memory, little-endian. *)
Fixpoint le_bytes (n : nat) (z : Z) : list Z :=
  match n with
  | O => []
  | S n => wrap 8 z :: le_bytes n (Z.shiftr z 8)
  end.

Fixpoint le_val (l : list Z) : Z :=
  match l with
  | [] => 0%Z
  | b :: l => (b + 2 ^ 8 * le_val l)%Z
  end.

Definition byte_ok (b : Z) : Prop := (0 ≤ b < 2 ^ 8)%Z.

#[global] Instance byte_ok_dec b : Decision (byte_ok b).
Proof. unfold byte_ok. apply _. Defined.

(** ** Scanning *)

(** The C string in a buffer: up to the first zero byte. *)
Fixpoint c_string (s : string) : string :=
  match s with
  | EmptyString => EmptyString
  | String c s => if Ascii.eqb c "000"%char then EmptyString else String c (c_string s)
  end.

Inductive directive := DBlank | DChar (c : Ascii.ascii) | DWord (width : nat) | DInt.

Definition digit_val (c : Ascii.ascii) : nat := Ascii.nat_of_ascii c - 48.

(** The directives of a format; [spec] is the width read so far after a [%]. *)
Fixpoint parse_fmt (spec : option nat) (fmt : string) : list directive :=
  match fmt with
  | EmptyString => []
  | String c fmt =>
      match spec with
      | None =>
          if Ascii.eqb c "%" then parse_fmt (Some 0) fmt
          else if is_space c then DBlank :: parse_fmt None fmt
          else DChar c :: parse_fmt None fmt
      | Some n =>
          if is_digit c then parse_fmt (Some (10 * n + digit_val c)) fmt
          else if Ascii.eqb c "s" then DWord n :: parse_fmt None fmt
          else if Ascii.eqb c "i" then DInt :: parse_fmt None fmt
          else []
      end
  end.

Inductive scanned := SWord (w : string) | SInt (z : Z).

(** At most [n] characters that are not blanks, and the rest. *)
Fixpoint take_word (n : nat) (s : string) : string * string :=
  match n, s with
  | S n, String c s' =>
      if is_space c then ("", s)
      else let '(w, r) := take_word n s' in (String c w, r)
  | _, _ => ("", s)
  end.

(** The value of a digit in a base up to 16. *)
Definition base_digit (base : Z) (c : Ascii.ascii) : option Z :=
  let n := Z.of_nat (Ascii.nat_of_ascii (lower_char c)) in
  let d := if (48 <=? n)%Z && (n <=? 57)%Z then (n - 48)%Z
           else if (97 <=? n)%Z && (n <=? 102)%Z then (n - 87)%Z
           else 16%Z in
  if (d <? base)%Z then Some d else None.

Fixpoint take_digits (base acc : Z) (s : string) : Z * string :=
  match s with
  | EmptyString => (acc, "")
  | String c s' =>
      match base_digit base c with
      | Some d => take_digits base (acc * base + d) s'
      | None => (acc, s)
      end
  end.

(** [%i]: a sign, then [0x] and hexadecimal digits, [0] and octal digits, or
    decimal digits. *)
Definition scan_int (s : string) : option (Z * string) :=
  let '(neg, s) := cut_sign (str_lstrip s) in
  let signed (r : Z * string) := (if neg then (- r.1)%Z else r.1, r.2) in
  match s with
  | EmptyString => None
  | String c s' =>
      if Ascii.eqb c "0" then
        match s' with
        | String x s'' =>
            if Ascii.eqb (lower_char x) "x" then Some (signed (take_digits 16 0 s''))
            else Some (signed (take_digits 8 0 s'))
        | EmptyString => Some (signed (0%Z, ""))
        end
      else if is_digit c then Some (signed (take_digits 10 0 s))
      else None
  end.

(** The conversions [sscanf] makes before the first directive that fails; its
    result is their number, or [EOF] in place of zero at the end of the input. *)
Fixpoint scan (ds : list directive) (s : string) : list scanned :=
  match ds with
  | [] => []
  | DBlank :: ds => scan ds (str_lstrip s)
  | DChar c :: ds =>
      match s with
      | String x s => if Ascii.eqb x c then scan ds s else []
      | EmptyString => []
      end
  | DWord n :: ds =>
      let '(w, r) := take_word n (str_lstrip s) in
      match w with
      | EmptyString => []
      | _ => SWord w :: scan ds r
      end
  | DInt :: ds =>
      match scan_int s with
      | Some (z, r) => SInt z :: scan ds r
      | None => []
      end
  end.

Definition sscanf (s fmt : string) : list scanned := scan (parse_fmt None fmt) s.

(** ** Tokens *)

(** The tokens the calls of [strtok(s, ",")] return, in order: empty ones are
    skipped. *)
Definition strtok_all (sep : Ascii.ascii) (s : string) : list string :=
  filter (λ w, w ≠ "") (str_split sep s).

(** [atoi(s)]; a value that is not an [int] is undefined *)
Definition atoi (s : string) : option Z :=
  let '(neg, s) := cut_sign (str_lstrip s) in
  let z := (take_digits 10 0 s).1 in
  let z := if neg then (- z)%Z else z in
  if in_int z then Some z else None.

(** [strcspn(s, " ")] and the prefix of that length *)
Fixpoint until_blank (s : string) : string :=
  match s with
  | EmptyString => EmptyString
  | String c s => if Ascii.eqb c " " then EmptyString else String c (until_blank s)
  end.

(** ** Printing *)

Fixpoint str_repeat (c : Ascii.ascii) (n : nat) : string :=
  match n with O => EmptyString | S n => String c (str_repeat c n) end.

(** [%0<n>lu] *)
Definition pad_zeros (n : nat) (s : string) : string :=
  str_repeat "0" (n - String.length s) +:+ s.

Definition hex_digit (upper : bool) (d : Z) : Ascii.ascii :=
  Ascii.ascii_of_nat (Z.to_nat (if (d <? 10)%Z then d + 48
                                else if upper then d + 55 else d + 87)%Z).

(** [%02X] and [%02x] of a byte *)
Definition fmt_hex (upper : bool) (b : Z) : string :=
  String (hex_digit upper (b / 16)) (String (hex_digit upper (b mod 16)) "").

(** ** Lemmas: bytes *)

Lemma wrap_range w z : (0 ≤ w)%Z → (0 ≤ wrap w z < 2 ^ w)%Z.
Proof. intros. apply Z.mod_pos_bound. lia. Qed.

Lemma wrap_small w z : (0 ≤ z < 2 ^ w)%Z → wrap w z = z.
Proof. apply Z.mod_small. Qed.

Lemma swrap_small w z : (- 2 ^ (w - 1) ≤ z < 2 ^ (w - 1))%Z → (0 < w)%Z → swrap w z = z.
Proof.
  intros Hz Hw. unfold swrap. rewrite Z.mod_small; [lia|].
  assert (2 ^ w = 2 * 2 ^ (w - 1))%Z; [|lia].
  rewrite <- Z.pow_succ_r by lia. f_equal. lia.
Qed.

Lemma le_bytes_length n z : length (le_bytes n z) = n.
Proof. revert z; induction n as [|n IH]; intros z; simpl; [done|]. by rewrite IH. Qed.

Lemma le_bytes_ok n z : Forall byte_ok (le_bytes n z).
Proof.
  revert z; induction n as [|n IH]; intros z; simpl; constructor; [|done].
  apply wrap_range. lia.
Qed.

Lemma le_val_bytes n z : le_val (le_bytes n z) = wrap (8 * Z.of_nat n) z.
Proof.
  revert z; induction n as [|n IH]; intros z.
  { unfold wrap. cbn. by rewrite Z.mod_1_r. }
  cbn [le_bytes le_val]. rewrite IH. unfold wrap.
  rewrite Z.shiftr_div_pow2 by lia.
  replace (8 * Z.of_nat (S n))%Z with (8 + 8 * Z.of_nat n)%Z by lia.
  rewrite Z.pow_add_r by lia. rewrite Z.rem_mul_r by lia. lia.
Qed.

Lemma le_bytes_val l : Forall byte_ok l → le_bytes (length l) (le_val l) = l.
Proof.
  induction 1 as [|b l Hb Hl IH]; [done|]. cbn [length le_bytes le_val].
  unfold byte_ok in Hb. f_equal.
  - unfold wrap. rewrite Z.mul_comm, Z.mod_add by lia. apply Z.mod_small. lia.
  - rewrite Z.shiftr_div_pow2, Z.mul_comm, Z.div_add by lia.
    rewrite (Z.div_small b) by lia. exact IH.
Qed.

Lemma le_val_range l : Forall byte_ok l → (0 ≤ le_val l < 2 ^ (8 * Z.of_nat (length l)))%Z.
Proof.
  intros Hl. pose proof (le_val_bytes (length l) (le_val l)) as Hv.
  rewrite le_bytes_val in Hv by done. rewrite Hv. apply wrap_range. lia.
Qed.

#[export] Hint Resolve le_bytes_ok : py.

(** ** Lemmas: words *)

(** A word: characters that are not blanks, at least one. *)
Definition is_word (w : string) : Prop :=
  w ≠ "" ∧ str_all (λ c, negb (is_space c)) w = true.

#[global] Instance is_word_dec w : Decision (is_word w).
Proof. unfold is_word. apply _. Defined.

Lemma lstrip_word w s : is_word w → str_lstrip (w +:+ s) = w +:+ s.
Proof.
  intros [Hne Hw]. destruct w as [|c w]; [done|]. rewrite str_app_cons. simpl in *.
  bool_hyps. by destruct (is_space c).
Qed.

Lemma take_word_blank n s c : is_space c = true → take_word n (String c s) = ("", String c s).
Proof. intros Hc. destruct n; [done|]. simpl. by rewrite Hc. Qed.

(** The end of the line, or a blank: where a word stops. *)
Definition word_end (s : string) : Prop :=
  s = "" ∨ ∃ c s', s = String c s' ∧ is_space c = true.

Lemma word_end_nil : word_end "".
Proof. by left. Qed.

Lemma word_end_blank s : word_end (String " " s).
Proof. right. eauto. Qed.

#[export] Hint Resolve word_end_nil word_end_blank : py.

Lemma take_word_app n w s :
  str_all (λ c, negb (is_space c)) w = true → String.length w ≤ n → word_end s →
  take_word n (w +:+ s) = (w, s).
Proof.
  intros Hw Hn Hs. revert n Hn. induction w as [|c w IH]; intros n Hn.
  - change ("" +:+ s) with s. destruct Hs as [->|(c & s' & -> & Hc)].
    + by destruct n.
    + by apply take_word_blank.
  - rewrite str_app_cons. destruct n as [|n]; simpl in *; [lia|]. bool_hyps.
    destruct (is_space c); [done|]. by rewrite IH by (done || lia).
Qed.

Lemma scan_word n ds w s :
  is_word w → String.length w ≤ n → word_end s →
  scan (DWord n :: ds) (w +:+ s) = SWord w :: scan ds s.
Proof.
  intros Hw Hn Hs. cbn [scan]. rewrite lstrip_word by done.
  rewrite take_word_app by (done || apply Hw). destruct Hw as [Hne _]. by destruct w.
Qed.

(** A blank of the format against the blank between two words. *)
Lemma scan_blank_word w s ds :
  is_word w → scan (DBlank :: ds) (String " " (w +:+ s)) = scan ds (w +:+ s).
Proof. intros Hw. change (scan ds (str_lstrip (w +:+ s)) = scan ds (w +:+ s)). by rewrite lstrip_word. Qed.

Lemma scan_blank_char c s ds :
  is_space c = false → scan (DBlank :: DChar c :: ds) (String " " (String c s)) = scan ds s.
Proof.
  intros Hc. change (scan (DChar c :: ds) (str_lstrip (String c s)) = scan ds s).
  cbn [str_lstrip]. rewrite Hc. cbn [scan]. by rewrite Ascii.eqb_refl.
Qed.

Lemma scan_char c s ds : scan (DChar c :: ds) (String c s) = scan ds s.
Proof. cbn [scan]. by rewrite Ascii.eqb_refl. Qed.

Lemma until_blank_app w s :
  no_char " " w → until_blank (w +:+ String " " s) = w.
Proof.
  unfold no_char. induction w as [|c w IH]; simpl; [done|]. intros Hw. bool_hyps.
  rewrite H. by rewrite IH.
Qed.

(** ** Lemmas: numbers *)

(** Where a decimal number stops. *)
Definition number_end (s : string) : Prop :=
  match s with EmptyString => True | String c _ => base_digit 10 c = None end.

Lemma word_end_number s : word_end s → number_end s.
Proof.
  intros [->|(c & s' & -> & Hc)]; [done|]. simpl.
  unfold is_space in Hc. simpl in Hc.
  repeat (apply orb_true_iff in Hc as [Hc|Hc]); try done;
    apply Ascii.eqb_eq in Hc as ->; reflexivity.
Qed.

#[export] Hint Resolve word_end_number : py.

Lemma take_digits_end base acc s :
  base = 10%Z → number_end s → take_digits base acc s = (acc, s).
Proof. intros -> Hs. destruct s as [|c s]; [done|]. simpl in *. by rewrite Hs. Qed.

Lemma take_digits_digit base acc c s d :
  base_digit base c = Some d →
  take_digits base acc (String c s) = take_digits base (acc * base + d) s.
Proof. intros Hd. simpl. by rewrite Hd. Qed.

Lemma take_digits_acc d p s :
  number_end s →
  take_digits 10 (Zpos p) (NilEmpty.string_of_uint d +:+ s) = (Zpos (Pos.of_uint_acc d p), s).
Proof.
  intros Hs. revert p.
  induction d as [|d IH|d IH|d IH|d IH|d IH|d IH|d IH|d IH|d IH|d IH]; intros p;
    [by apply take_digits_end|..];
    cbn [NilEmpty.string_of_uint Pos.of_uint_acc]; rewrite str_app_cons;
    erewrite take_digits_digit by (cbv; reflexivity); rewrite <- IH; f_equal; lia.
Qed.

Lemma take_digits_uint d s :
  number_end s →
  take_digits 10 0 (NilEmpty.string_of_uint d +:+ s) = (Z.of_uint d, s).
Proof.
  intros Hs. induction d as [|d IH|d IH|d IH|d IH|d IH|d IH|d IH|d IH|d IH|d IH];
    [by apply take_digits_end|exact IH|..];
    cbn [NilEmpty.string_of_uint]; rewrite str_app_cons;
    erewrite take_digits_digit by (cbv; reflexivity); unfold Z.of_uint; cbn [Pos.of_uint Z.of_N];
    match goal with |- take_digits _ ?a _ = _ => let a' := eval cbv in a in change a with a' end;
    by rewrite take_digits_acc.
Qed.

(** The digits of a positive number do not start with zero. *)
Lemma to_uint_head p : ∀ d, Pos.to_uint p ≠ D0 d.
Proof.
  intros d Hd. pose proof (DecimalN.Unsigned.to_of (Pos.to_uint p)) as Hu.
  pose proof (DecimalN.Unsigned.of_to (Npos p)) as Hp. simpl in Hp.
  rewrite Hp in Hu. simpl in Hu. rewrite Hd in Hu. unfold unorm in Hu.
  destruct (nzhead (D0 d)) eqn:Hn; try done.
  - injection Hu as ->. by rewrite Hd in Hp.
  - by apply nzhead_nonzero in Hn.
Qed.

Lemma str_of_pos p :
  str_of_Z (Zpos p) = NilEmpty.string_of_uint (Pos.to_uint p).
Proof.
  unfold str_of_Z. simpl. unfold NilZero.string_of_uint.
  destruct (Pos.to_uint p) eqn:E; try done.
  by apply DecimalPos.Unsigned.to_uint_nonnil in E.
Qed.

Lemma str_of_Z_head z :
  (0 ≤ z)%Z → ∃ c w, str_of_Z z = String c w ∧ is_digit c = true.
Proof.
  intros Hz. pose proof (str_of_Z_digits z Hz) as Hd.
  destruct (str_of_Z z) as [|c w] eqn:E; [|simpl in Hd; bool_hyps; eauto].
  pose proof (int_of_str_of_Z z) as Hi. by rewrite E in Hi.
Qed.

Lemma str_of_Z_word z : (0 ≤ z)%Z → is_word (str_of_Z z).
Proof.
  intros Hz. split.
  - by destruct (str_of_Z_head z Hz) as (c & w & -> & _).
  - eapply str_all_mono; [apply is_digit_not_space|by apply str_of_Z_digits].
Qed.

Lemma of_uint_to_uint p : Z.of_uint (Pos.to_uint p) = Zpos p.
Proof. unfold Z.of_uint. pose proof (DecimalPos.Unsigned.of_to p) as H. by rewrite H. Qed.

Lemma take_digits_str_of_Z z s :
  (0 ≤ z)%Z → number_end s → take_digits 10 0 (str_of_Z z +:+ s) = (z, s).
Proof.
  intros Hz Hs. destruct z as [|p|p]; [|by rewrite str_of_pos, take_digits_uint, of_uint_to_uint|lia].
  change (str_of_Z 0 +:+ s) with (String "0" s). simpl. by apply take_digits_end.
Qed.

Lemma digit_ne_sign c : is_digit c = true → c ≠ "+"%char ∧ c ≠ "-"%char.
Proof. apply is_digit_not_sign. Qed.

Lemma cut_sign_digit c s : is_digit c = true → cut_sign (String c s) = (false, String c s).
Proof.
  intros Hc. destruct c as [[] [] [] [] [] [] [] []]; done.
Qed.

(** [%i] reads back a decimal number. *)
Lemma scan_int_str_of_Z z s :
  (0 ≤ z)%Z → word_end s → scan_int (str_of_Z z +:+ s) = Some (z, s).
Proof.
  intros Hz Hs. unfold scan_int. rewrite lstrip_word by by apply str_of_Z_word.
  destruct z as [|p|p]; [| |lia].
  - change (str_of_Z 0 +:+ s) with (String "0" s). cbn.
    destruct Hs as [->|(c & s' & -> & Hc)]; [done|].
    unfold is_space in Hc. simpl in Hc.
    repeat (apply orb_true_iff in Hc as [Hc|Hc]); try done;
      apply Ascii.eqb_eq in Hc as ->; reflexivity.
  - pose proof (take_digits_str_of_Z (Zpos p) s) as Ht.
    pose proof (to_uint_head p) as Hh.
    destruct (str_of_Z_head (Zpos p)) as (c & w & Hw & Hc); [done|].
    rewrite Hw, str_app_cons in *. rewrite cut_sign_digit by done.
    assert (Ascii.eqb c "0" = false) as ->.
    { apply Ascii.eqb_neq. intros ->. rewrite str_of_pos in Hw.
      destruct (Pos.to_uint p) eqn:E; try done. by apply (Hh u). }
    rewrite Hc, Ht by auto with py. done.
Qed.

Lemma scan_number ds z s :
  (0 ≤ z)%Z → word_end s → scan (DInt :: ds) (str_of_Z z +:+ s) = SInt z :: scan ds s.
Proof. intros Hz Hs. cbn [scan]. by rewrite scan_int_str_of_Z. Qed.

Lemma atoi_str_of_Z z : (0 ≤ z < 2 ^ 31)%Z → atoi (str_of_Z z) = Some z.
Proof.
  intros Hz. unfold atoi. rewrite <- (str_app_nil_r (str_of_Z z)).
  rewrite lstrip_word by (apply str_of_Z_word; lia).
  pose proof (take_digits_str_of_Z z "") as Ht.
  destruct (str_of_Z_head z) as (c & w & Hw & Hc); [lia|].
  rewrite Hw, str_app_cons in *. rewrite cut_sign_digit by done.
  rewrite Ht by (done || lia). simpl. unfold in_int.
  assert ((- 2 ^ 31 <=? z)%Z && (z <? 2 ^ 31)%Z = true) as ->; [|done].
  apply andb_true_iff. split; [apply Z.leb_le|apply Z.ltb_lt]; lia.
Qed.

Lemma in_int_small z : (0 ≤ z < 2 ^ 31)%Z → in_int z = true.
Proof.
  intros Hz. unfold in_int. apply andb_true_iff. split; [apply Z.leb_le|apply Z.ltb_lt]; lia.
Qed.

(** *** Lines of words

    The arguments of a command, each after a blank. *)
Fixpoint words (ws : list string) : string :=
  match ws with
  | [] => ""
  | w :: ws => String " " (w +:+ words ws)
  end.

Lemma str_join_words w ws : str_join " " (w :: ws) = w +:+ words ws.
Proof.
  revert w; induction ws as [|v ws IH]; intros w; [by rewrite str_app_nil_r|].
  change (w +:+ " " +:+ str_join " " (v :: ws) = w +:+ words (v :: ws)). by rewrite IH.
Qed.

Lemma words_end ws : word_end (words ws).
Proof. destruct ws; simpl; auto with py. Qed.

#[export] Hint Resolve words_end : py.

Lemma no_char_words x ws :
  x ≠ " "%char → Forall (no_char x) ws → no_char x (words ws).
Proof.
  unfold no_char. intros Hx. induction 1 as [|w ws Hw Hws IH]; [done|]. cbn [words str_all].
  rewrite str_all_app, Hw, IH, andb_true_r. by apply negb_true_iff, Ascii.eqb_neq.
Qed.

Lemma until_blank_words name w ws :
  no_char " " name → until_blank (name +:+ words (w :: ws)) = name.
Proof. apply until_blank_app. Qed.

Lemma scan_arg_word n w ws ds :
  is_word w → String.length w ≤ n →
  scan (DBlank :: DWord n :: ds) (words (w :: ws)) = SWord w :: scan ds (words ws).
Proof.
  intros Hw Hn. cbn [words]. rewrite scan_blank_word by done. apply scan_word; auto with py.
Qed.

Lemma scan_arg_int z ws ds :
  (0 ≤ z)%Z → scan (DBlank :: DInt :: ds) (words (str_of_Z z :: ws)) = SInt z :: scan ds (words ws).
Proof.
  intros Hz. cbn [words]. rewrite scan_blank_word by by apply str_of_Z_word.
  apply scan_number; auto with py.
Qed.

Lemma scan_arg_char c ws ds :
  is_space c = false →
  scan (DBlank :: DChar c :: ds) (words (String c "" :: ws)) = scan ds (words ws).
Proof. intros Hc. cbn [words]. rewrite str_app_cons. by rewrite scan_blank_char. Qed.

Lemma scan_arg_option c d ws ds :
  is_space c = false →
  scan (DBlank :: DChar c :: DChar d :: ds) (words (String c (String d "") :: ws)) =
    scan ds (words ws).
Proof.
  intros Hc. cbn [words]. rewrite !str_app_cons. rewrite scan_blank_char by done. apply scan_char.
Qed.

(** Scanning the arguments of a line one after the other. *)
Ltac scan_args :=
  repeat first
    [ rewrite scan_arg_int by lia
    | rewrite scan_arg_char by done
    | rewrite scan_arg_option by done
    | rewrite scan_arg_word by (done || lia) ].
