(* ===== verification/CnCommands.v ===== *)
(** * Commands of the control node serial program
    ([control_node_serial/src/command_reader.c], [command_parser.c], [utils.c])

    The thread [read_commands] reads the lines the gateway writes and turns each
    into the packet it sends on the serial link.  A computation of type [C A] works
    on the state of the reader and gives [None] where the C standard gives the
    program no meaning.  [set_time] takes the time of day as an argument.

    An [%i] stored in [node_num], which has 16 bits, writes its 4 bytes: the model
    keeps the low two, the others go to the zeros around the variable. *)

From S2P Require Import Prelude PyString CFormat.

(** ** Constants ([constants.h]) *)

Definition SYNC_BYTE : Z := 0x80.

Definition OPEN_NODE_STOP : Z := 0x10.
Definition OPEN_NODE_START : Z := 0x11.
Definition SET_TIME : Z := 0x20.
Definition SET_NODE_ID : Z := 0x21.
Definition GREEN_LED_ON : Z := 0x35.
Definition GREEN_LED_BLINK : Z := 0x36.
Definition CONFIG_RADIO_STOP : Z := 0xC0.
Definition CONFIG_RADIO_MEAS : Z := 0xC1.
Definition CONFIG_RADIO_SNIFFER : Z := 0xC3.
Definition CONFIG_CONSUMPTION : Z := 0xCC.
Definition ACK_FRAME : Z := 0xFA.
Definition RADIO_MEAS_FRAME : Z := 0xF1.
Definition RADIO_SNIFFER_FRAME : Z := 0xF3.
Definition CONSUMPTION_FRAME : Z := 0xFC.
Definition LOGGER_FRAME : Z := 0xEE.
Definition TEST_GPIO : Z := 0x71.
Definition TEST_I2C2 : Z := 0x72.
Definition TEST_RADIO_PING_PONG : Z := 0x73.
Definition TEST_PPS : Z := 0x74.
Definition TEST_GOT_PPS : Z := 0x76.

Definition ACK : Z := 0xA.
Definition NACK : Z := 0x2.

Definition STOP : Z := 0.
Definition START : Z := 1.

Definition MEASURE_POWER : Z := 1.
Definition MEASURE_VOLTAGE : Z := 2.
Definition MEASURE_CURRENT : Z := 4.
Definition PW_SRC_3_3V : Z := 16.
Definition PW_SRC_5V : Z := 32.
Definition PW_SRC_BATT : Z := 64.

(** ** Dictionaries ([utils.c]) *)

Definition dict : Type := list (string * Z).

(** [get_val(key, dict, &val)]: the code returned and what [val] then holds *)
Fixpoint dict_get (key : string) (d : dict) : Z * Z :=
  match d with
  | [] => ((-1)%Z, 0xFF%Z)
  | (s, v) :: d => if String.eqb s key then (0%Z, v) else dict_get key d
  end.

Definition get_val (key : option string) (d : dict) (val : Z) : Z * Z :=
  match key with
  | None => ((-1)%Z, val)
  | Some key => dict_get key d
  end.

(** [get_key(val, dict, &key)] *)
Fixpoint get_key (val : Z) (d : dict) : Z * option string :=
  match d with
  | [] => ((-1)%Z, None)
  | (s, v) :: d => if (val =? v)%Z then (0%Z, Some s) else get_key val d
  end.

Definition alim_d : dict := [("dc", 2%Z); ("dc_charge", 1%Z); ("battery", 0%Z)].

Definition archi_d : dict := [("m3", 3%Z); ("a8", 8%Z)].

Definition periods_d : dict :=
  [("140", 0); ("204", 1); ("332", 2); ("588", 3);
   ("1100", 4); ("2116", 5); ("4156", 6); ("8244", 7)]%Z.

Definition average_d : dict :=
  [("1", 0 * 16); ("4", 1 * 16); ("16", 2 * 16); ("64", 3 * 16);
   ("128", 4 * 16); ("256", 5 * 16); ("512", 6 * 16); ("1024", 7 * 16)]%Z.

Definition power_source_d : dict :=
  [("3.3V", PW_SRC_3_3V); ("5V", PW_SRC_5V); ("BATT", PW_SRC_BATT)].

Definition radio_power_d : dict :=
  [("3dBm", 38); ("2.8dBm", 37); ("2.3dBm", 36); ("1.8dBm", 34); ("1.3dBm", 33);
   ("0.7dBm", 31); ("0dBm", 30); ("-1dBm", 29); ("-2dBm", 28); ("-3dBm", 27);
   ("-4dBm", 26); ("-5dBm", 25); ("-7dBm", 23); ("-9dBm", 21); ("-12dBm", 18);
   ("-17dBm", 13)]%Z.

Definition ack_d : dict := [("ACK", ACK); ("NACK", NACK)].

Definition commands_d : dict :=
  [("error", LOGGER_FRAME);
   ("start", OPEN_NODE_START); ("stop", OPEN_NODE_STOP);
   ("set_time", SET_TIME); ("set_node_id", SET_NODE_ID);
   ("green_led_on", GREEN_LED_ON); ("green_led_blink", GREEN_LED_BLINK);
   ("config_radio_stop", CONFIG_RADIO_STOP);
   ("config_radio_measure", CONFIG_RADIO_MEAS);
   ("config_radio_sniffer", CONFIG_RADIO_SNIFFER);
   ("config_consumption_measure", CONFIG_CONSUMPTION);
   ("test_radio_ping_pong", TEST_RADIO_PING_PONG);
   ("test_gpio", TEST_GPIO); ("test_i2c", TEST_I2C2);
   ("test_pps", TEST_PPS); ("test_got_pps", TEST_GOT_PPS)].

Definition state_d : dict := [("start", START); ("stop", STOP)].

(** ** State of the reader *)

Record timeval := MkTimeval { tv_sec : Z; tv_usec : Z }.

(** [struct command_buffer] *)
Record command_buffer := MkBuffer { cb_sync : Z; cb_len : Z; cb_payload : list Z }.

Record CmdState := MkCmdState {
  cmd_buff : command_buffer;
  set_time_ref : timeval               (* global of time_ref.c *)
}.

Definition C (A : Type) : Type := CmdState → option (A * CmdState).

#[global] Instance C_ret : MRet C := λ A x s, Some (x, s).
#[global] Instance C_bind : MBind C := λ A B f m s,
  match m s with Some (x, s') => f x s' | None => None end.

Definition c_lift {A} (o : option A) : C A := λ s,
  match o with Some x => Some (x, s) | None => None end.

Definition c_modify (f : CmdState → CmdState) : C unit := λ s, Some (tt, f s).

(** [append_data(cmd_buff, &data, size)] *)
Definition append_data (data : list Z) : C unit := λ s,
  let b := cmd_buff s in
  let n := Z.to_nat (cb_len b) in
  if (length (cb_payload b) <? n + length data)%nat then None else
  Some (tt, MkCmdState
    (MkBuffer (cb_sync b) (wrap 8 (cb_len b + Z.of_nat (length data)))
       (take n (cb_payload b) ++ data ++ drop (n + length data) (cb_payload b)))
    (set_time_ref s)).

(** ** The variables [sscanf] fills *)

(** A [char] array of [size] bytes, zero at first. *)
Definition word_arg (size : nat) (args : list scanned) (i : nat) : option string :=
  match args !! i with
  | None => Some ""
  | Some (SWord w) => if (String.length w <? size)%nat then Some w else None
  | Some (SInt _) => None
  end.

(** An [int], zero at first. *)
Definition int_arg (args : list scanned) (i : nat) : option Z :=
  match args !! i with
  | None => Some 0%Z
  | Some (SInt z) => if in_int z then Some z else None
  | Some (SWord _) => None
  end.

(** An [unsigned int] without a first value. *)
Definition uint_arg (args : list scanned) (i : nat) : option Z :=
  match args !! i with
  | Some (SInt z) => if in_int z then Some (wrap 32 z) else None
  | _ => None
  end.

(** ** Arguments of the commands *)

Definition flag (b : bool) : Z := if b then 1%Z else 0%Z.

Fixpoint channels_loop (tokens : list string) (channels_flag : Z) : option Z :=
  match tokens with
  | [] => Some channels_flag
  | chan :: tokens =>
      channel ← atoi chan;
      channels_loop tokens
        (if (11 <=? channel)%Z && (channel <=? 26)%Z
         then Z.lor channels_flag (Z.shiftl 1 channel) else channels_flag)
  end.

Definition parse_channels_list (channels_list : string) : option Z :=
  channels_loop (strtok_all "," channels_list) 0.

(** The handlers take the format of their entry and the command line; the first
    argument is the time of day. *)
Definition handler : Type := timeval → string → string → C Z.

Definition cmd_no_args : handler := λ _ _ _, mret 0%Z.

Definition cmd_set_time : handler := λ now _ _,
  c_modify (λ s, MkCmdState (cmd_buff s) now) ;;
  append_data (le_bytes 4 (tv_sec now)) ;;
  append_data (le_bytes 4 (tv_usec now)) ;;
  mret 0%Z.

Definition cmd_set_node_id : handler := λ _ fmt cmd_str,
  let args := sscanf cmd_str fmt in
  archi_str ← c_lift (word_arg 8 args 0);
  num ← c_lift (int_arg args 1);
  let node_num := wrap 16 num in
  let '(ret, archi) := get_val (Some archi_str) archi_d 0 in
  let node_id := Z.lor (Z.land 0xf000 (Z.shiftl archi 12)) (Z.land 0x0fff node_num) in
  append_data (le_bytes 2 node_id) ;;
  mret ret.

Definition cmd_alim : handler := λ _ fmt cmd_str,
  arg ← c_lift (word_arg 32 (sscanf cmd_str fmt) 0);
  let '(ret, val) := get_val (Some arg) alim_d 0 in
  append_data [val] ;;
  mret ret.

Definition cmd_start_stop_args : handler := λ _ fmt cmd_str,
  arg ← c_lift (word_arg 32 (sscanf cmd_str fmt) 0);
  let '(ret, val) := get_val (Some arg) state_d 0 in
  append_data [val] ;;
  mret ret.

Definition cmd_consumption : handler := λ _ fmt cmd_str,
  let args := sscanf cmd_str fmt in
  start_stop ← c_lift (word_arg 8 args 0);
  pw_src ← c_lift (word_arg 8 args 1);
  p ← c_lift (int_arg args 2);
  v ← c_lift (int_arg args 3);
  c ← c_lift (int_arg args 4);
  period ← c_lift (word_arg 8 args 5);
  average ← c_lift (word_arg 8 args 6);
  let '(err, state) := get_val (Some start_stop) state_d 0 in
  if negb (err =? 0)%Z then mret 1%Z else
  append_data [state] ;;
  let '(ret, config_0, config_1) :=
    (if (state =? START)%Z then
       let '(ret0, src) := get_val (Some pw_src) power_source_d 0 in
       let config_0 :=
         Z.lor (Z.lor (Z.lor src (flag (negb (p =? 0)%Z) * MEASURE_POWER))
                      (flag (negb (v =? 0)%Z) * MEASURE_VOLTAGE))
               (flag (negb (c =? 0)%Z) * MEASURE_CURRENT) in
       let '(ret1, per) := get_val (Some period) periods_d src in
       let '(ret2, av) := get_val (Some average) average_d per in
       (Z.lor (Z.lor ret0 ret1) ret2, config_0, Z.lor per av)
     else (0, 0, 0))%Z in
  append_data [config_0] ;;
  append_data [config_1] ;;
  mret ret.

Definition cmd_radio_measure : handler := λ _ fmt cmd_str,
  let args := sscanf cmd_str fmt in
  channels_list ← c_lift (word_arg 256 args 0);
  period ← c_lift (uint_arg args 1);
  num_per_channel ← c_lift (uint_arg args 2);
  channels_flag ← c_lift (parse_channels_list channels_list);
  let ret := flag ((channels_flag =? 0) || (Z.land period 0xFFFF =? 0)
                   || (0xFF <? num_per_channel))%Z in
  append_data (le_bytes 4 channels_flag) ;;
  append_data (le_bytes 2 period) ;;
  append_data (le_bytes 1 num_per_channel) ;;
  mret ret.

Definition cmd_radio_sniffer : handler := λ _ fmt cmd_str,
  let args := sscanf cmd_str fmt in
  channels_list ← c_lift (word_arg 256 args 0);
  period ← c_lift (uint_arg args 1);
  channels_flag ← c_lift (parse_channels_list channels_list);
  let several := negb (Z.land channels_flag (wrap 32 (channels_flag - 1)) =? 0)%Z in
  let ret := flag ((channels_flag =? 0)
                   || (if several then Z.land period 0xFFFF =? 0 else negb (period =? 0)))%Z in
  append_data (le_bytes 4 channels_flag) ;;
  append_data (le_bytes 2 period) ;;
  mret ret.

Definition cmd_radio_pp : handler := λ _ fmt cmd_str,
  let args := sscanf cmd_str fmt in
  start_stop ← c_lift (word_arg 8 args 0);
  chan ← c_lift (int_arg args 1);
  tx_power ← c_lift (word_arg 8 args 2);
  let channel := wrap 32 chan in
  let '(ret, state) := get_val (Some start_stop) state_d 0 in
  append_data [state] ;;
  if (state =? START)%Z then
    append_data (le_bytes 1 channel) ;;
    let '(ret', aux) := get_val (Some tx_power) radio_power_d 0 in
    append_data [aux] ;;
    mret (Z.lor (Z.lor ret (flag ((channel <? 11) || (26 <? channel))%Z)) ret')
  else
    append_data [0%Z] ;;
    append_data [0%Z] ;;
    mret ret.

(** ** The table of commands *)

(** [struct command_description] *)
Record command_description := MkCommand {
  fmt : string;
  fmt_count : nat;
  command : handler
}.

Definition commands : list command_description :=
  [MkCommand "start %8s" 1 cmd_alim;
   MkCommand "stop %8s" 1 cmd_alim;
   MkCommand "config_consumption_measure %8s %8s p %i v %i c %i -p %8s -a %8s" 7
     cmd_consumption;
   MkCommand "config_consumption_measure %8s" 1 cmd_consumption;
   MkCommand "config_radio_measure %256s %i %i" 3 cmd_radio_measure;
   MkCommand "config_radio_sniffer %256s %i" 2 cmd_radio_sniffer;
   MkCommand "config_radio_stop" 0 cmd_no_args;
   MkCommand "set_time" 0 cmd_set_time;
   MkCommand "set_node_id %8s %i" 2 cmd_set_node_id;
   MkCommand "green_led_on" 0 cmd_no_args;
   MkCommand "green_led_blink" 0 cmd_no_args;
   MkCommand "test_gpio %8s" 1 cmd_start_stop_args;
   MkCommand "test_i2c %8s" 1 cmd_start_stop_args;
   MkCommand "test_pps %8s" 1 cmd_start_stop_args;
   MkCommand "test_got_pps" 0 cmd_no_args;
   MkCommand "test_radio_ping_pong %8s %i %8s" 3 cmd_radio_pp;
   MkCommand "test_radio_ping_pong %8s" 1 cmd_radio_pp].

(** The conversions of [command_parse] all go to one buffer of 256 bytes. *)
Definition fits_buff (a : scanned) : bool :=
  match a with
  | SWord w => (String.length w <? 256)%nat
  | SInt z => in_int z
  end.

(** [command_parse(cmd, commands)]; the second [option] is the [NULL] it returns *)
Fixpoint command_parse (cmd : string) (table : list command_description)
    : option (option command_description) :=
  match table with
  | [] => Some None
  | cur :: table =>
      if (fmt_count cur =? 0)%nat then
        if String.eqb cmd (fmt cur) then Some (Some cur) else command_parse cmd table
      else if (32 <? fmt_count cur)%nat then command_parse cmd table
      else
        let args := sscanf cmd (fmt cur) in
        if negb (forallb fits_buff args) then None
        else if (length args =? fmt_count cur)%nat then Some (Some cur)
        else command_parse cmd table
  end.

(** [cstrtok(s)]; the second [option] is the [NULL] it returns *)
Definition cstrtok (s : string) : option (option string) :=
  let token := until_blank s in
  if (32 <? String.length token)%nat then Some None
  else if (String.length token <? 32)%nat then Some (Some token)
  else None.

Definition parse_cmd (now : timeval) (line_buff : string) : C Z :=
  cmd ← c_lift (command_parse line_buff commands);
  match cmd with
  | None => mret 1%Z
  | Some cmd =>
      c_modify (λ s, MkCmdState (MkBuffer SYNC_BYTE 0 (replicate 256 0%Z)) (set_time_ref s)) ;;
      token ← c_lift (cstrtok line_buff);
      let '(ret, cmd_type) := get_val token commands_d 0 in
      append_data [cmd_type] ;;
      ret' ← command cmd now (fmt cmd) line_buff;
      mret (Z.lor ret ret')
  end.

(** ** The loop of [read_commands] *)

(** The bytes [write] sends: the header and the payload. *)
Definition packet_bytes (b : command_buffer) : list Z :=
  cb_sync b :: cb_len b :: take (Z.to_nat (cb_len b)) (cb_payload b).

(** [line_buff[n - 1] = '\0'] *)
Fixpoint drop_last (s : string) : string :=
  match s with
  | EmptyString => EmptyString
  | String c EmptyString => EmptyString
  | String c s => String c (drop_last s)
  end.

Inductive reader_out :=
  | OWrite (packet : list Z)            (* on the serial link *)
  | OPrint (text : string).             (* on the error output *)

Definition nl : string := String "010"%char "".

(** One turn of the loop, on the line [getline] gives.  The copy of the line kept
    for the message has no terminating zero from 2048 characters on. *)
Definition read_command (now : timeval) (line : string) : C reader_out :=
  let line_buff := c_string (drop_last line) in
  ret ← parse_cmd now line_buff;
  if negb (ret =? 0)%Z then
    if (String.length line_buff <? 2048)%nat
    then mret (OPrint ("cn_serial_error: Invalid command: '" +:+ line_buff +:+ "'" +:+ nl))
    else c_lift None
  else λ s, Some (OWrite (packet_bytes (cmd_buff s)), s).

(** ** Lemmas: the buffer *)

(** The state in which [data] has been appended to the packet. *)
Definition holding (data : list Z) (ref : timeval) : CmdState :=
  MkCmdState (MkBuffer SYNC_BYTE (Z.of_nat (length data))
                (data ++ replicate (256 - length data) 0%Z)) ref.

(** The packet of [data]: the synchronisation byte, the length and the bytes. *)
Definition packet (data : list Z) : list Z := SYNC_BYTE :: Z.of_nat (length data) :: data.

Lemma append_data_holding new data ref :
  length data + length new < 256 →
  append_data new (holding data ref) = Some (tt, holding (data ++ new) ref).
Proof.
  intros Hlen. unfold append_data, holding. cbn [cmd_buff cb_len cb_payload cb_sync set_time_ref].
  rewrite Nat2Z.id. case_match eqn:Hb.
  { apply Nat.ltb_lt in Hb. rewrite length_app, length_replicate in Hb. lia. }
  rewrite wrap_small by lia. do 4 f_equal; [rewrite length_app; lia|].
  rewrite take_app_length, drop_app_ge by lia. rewrite drop_replicate, length_app, <- app_assoc.
  do 3 f_equal. lia.
Qed.

Lemma packet_bytes_holding data ref : packet_bytes (cmd_buff (holding data ref)) = packet data.
Proof.
  unfold packet_bytes, packet, holding. cbn [cmd_buff cb_len cb_payload cb_sync].
  by rewrite Nat2Z.id, take_app_length.
Qed.

Lemma c_bind_Some {A B} (m : C A) (f : A → C B) s x s' :
  m s = Some (x, s') → (m ≫= f) s = f x s'.
Proof. intros H. unfold mbind, C_bind. by rewrite H. Qed.

Lemma c_bind_inv {A B} (m : C A) (f : A → C B) s y s' :
  (m ≫= f) s = Some (y, s') → ∃ x s1, m s = Some (x, s1) ∧ f x s1 = Some (y, s').
Proof. unfold mbind, C_bind. destruct (m s) as [[x s1]|]; [eauto|done]. Qed.

Lemma c_lift_inv {A B} (o : option A) (f : A → C B) s y s' :
  (c_lift o ≫= f) s = Some (y, s') → ∃ x, o = Some x ∧ f x s = Some (y, s').
Proof. unfold mbind, C_bind, c_lift. destruct o as [x|]; [eauto|done]. Qed.

Lemma c_lift_bind {A B} (o : option A) (f : A → C B) s x :
  o = Some x → (c_lift o ≫= f) s = f x s.
Proof. by intros ->. Qed.

Lemma append_bind {B} new data ref (f : unit → C B) :
  length data + length new < 256 →
  (append_data new ≫= f) (holding data ref) = f tt (holding (data ++ new) ref).
Proof. intros. by erewrite c_bind_Some by by apply append_data_holding. Qed.

(** The steps of a handler on a packet under construction. *)
Ltac c_run :=
  repeat first
    [ rewrite append_bind by (repeat rewrite ?length_app, ?le_bytes_length; simpl; lia)
    | erewrite c_lift_bind by (reflexivity || eassumption) ].

(** ** Lemmas: command lines *)

(** An entry whose format does not even start like the line. *)
Definition skips (cmd : string) (cur : command_description) : bool :=
  if (fmt_count cur =? 0)%nat then negb (String.eqb cmd (fmt cur))
  else match sscanf cmd (fmt cur) with [] => true | _ => false end.

Lemma command_parse_skip cmd cur table :
  skips cmd cur = true → command_parse cmd (cur :: table) = command_parse cmd table.
Proof.
  unfold skips. cbn [command_parse]. case_match eqn:Hc.
  - by destruct (String.eqb _ _).
  - destruct (sscanf cmd (fmt cur)); [|done]. cbn. intros _.
    destruct (fmt_count cur); [done|]. by repeat case_match.
Qed.

Lemma command_parse_match cmd cur table args :
  sscanf cmd (fmt cur) = args → length args = fmt_count cur →
  0 < fmt_count cur ≤ 32 → forallb fits_buff args = true →
  command_parse cmd (cur :: table) = Some (Some cur).
Proof.
  intros Hs Hl Hc Hf. cbn [command_parse]. rewrite Hs, Hf, Hl. simpl.
  destruct (Nat.eqb_spec (fmt_count cur) 0); [lia|].
  destruct (Nat.ltb_spec 32 (fmt_count cur)); [lia|]. by rewrite Nat.eqb_refl.
Qed.

(** The thread turns a line into the packet of [data]. *)
Definition sends (now : timeval) (line : string) (data : list Z) : Prop :=
  ∀ s, ∃ ref, read_command now (line +:+ nl) s = Some (OWrite (packet data), holding data ref).

Lemma drop_last_nl line : drop_last (line +:+ nl) = line.
Proof.
  induction line as [|c line IH]; [done|]. rewrite str_app_cons. simpl. rewrite IH.
  by destruct line.
Qed.

Lemma c_string_id s : no_char "000" s → c_string s = s.
Proof.
  unfold no_char. induction s as [|c s IH]; simpl; [done|]. intros H. bool_hyps.
  rewrite H. by rewrite IH.
Qed.

(** The handler of the entry runs on the packet that holds the type. *)
Lemma parse_cmd_run now line cur c type s ret s' :
  command_parse line commands = Some (Some cur) →
  until_blank line = c → String.length c < 32 → get_val (Some c) commands_d 0 = (0%Z, type) →
  command cur now (fmt cur) line (holding [type] (set_time_ref s)) = Some (ret, s') →
  parse_cmd now line s = Some (ret, s').
Proof.
  intros Hp Hc Hlen Hv Hr. unfold parse_cmd. rewrite (c_lift_bind _ _ _ _ Hp).
  erewrite (c_bind_Some (c_modify _)) by reflexivity.
  assert (cstrtok line = Some (Some c)) as Ht.
  { unfold cstrtok. rewrite Hc. destruct (Nat.ltb_spec 32 (String.length c)); [lia|].
    destruct (Nat.ltb_spec (String.length c) 32); [done|lia]. }
  rewrite (c_lift_bind _ _ _ _ Ht), Hv.
  change (MkCmdState _ _) with (holding [] (set_time_ref s)).
  rewrite append_bind by (simpl; lia). simpl app.
  by erewrite c_bind_Some by done.
Qed.

Lemma parse_cmd_sends now line cur c type data :
  no_char "000" line →
  command_parse line commands = Some (Some cur) →
  until_blank line = c → String.length c < 32 → get_val (Some c) commands_d 0 = (0%Z, type) →
  (∀ ref, ∃ ref', command cur now (fmt cur) line (holding [type] ref)
                    = Some (0%Z, holding data ref')) →
  sends now line data.
Proof.
  intros H0 Hp Hc Hlen Hv Hh s. unfold read_command. rewrite drop_last_nl, c_string_id by done.
  destruct (Hh (set_time_ref s)) as [ref' Hr]. exists ref'.
  erewrite c_bind_Some by (by eapply parse_cmd_run). cbn [Z.eqb negb].
  by rewrite packet_bytes_holding.
Qed.

(** The thread prints that the command is invalid and sends nothing. *)
Definition refuses (now : timeval) (line : string) : Prop :=
  ∀ s, ∃ s', read_command now (line +:+ nl) s =
    Some (OPrint ("cn_serial_error: Invalid command: '" +:+ line +:+ "'" +:+ nl), s').

Lemma parse_cmd_refuses now line :
  no_char "000" line → String.length line < 2048 →
  (∀ s, ∃ ret s', parse_cmd now line s = Some (ret, s') ∧ ret ≠ 0%Z) → refuses now line.
Proof.
  intros H0 Hl Hp s. destruct (Hp s) as (ret & s' & Hr & Hne). exists s'.
  unfold read_command. rewrite drop_last_nl, c_string_id by done.
  rewrite (c_bind_Some _ _ _ _ _ Hr). rewrite (proj2 (Z.eqb_neq _ _) Hne). cbn [negb].
  by destruct (Nat.ltb_spec (String.length line) 2048); [|lia].
Qed.

(** ** Lemmas: the commands of the gateway *)

(** Commands without any symbolic argument. *)
Ltac sends_concrete := intros s; eexists; lazy; reflexivity.

(** The cases of a membership in a list of pairs. *)
Ltac in_cases H :=
  repeat (destruct H as [[= <- <-]|H] || destruct H as [<-|H]); try (by destruct H).

Lemma alim_sends now st ty alim v :
  In (st, ty) [("start", OPEN_NODE_START); ("stop", OPEN_NODE_STOP)] →
  In (alim, v) [("dc", 2%Z); ("battery", 0%Z)] →
  sends now (str_join " " [st; alim]) [ty; v].
Proof. intros H H'. in_cases H; in_cases H'; sends_concrete. Qed.

Lemma simple_sends now c ty :
  In (c, ty) [("green_led_on", GREEN_LED_ON); ("green_led_blink", GREEN_LED_BLINK);
              ("config_radio_stop", CONFIG_RADIO_STOP); ("test_got_pps", TEST_GOT_PPS)] →
  sends now c [ty].
Proof. intros H. in_cases H; sends_concrete. Qed.

Lemma consumption_stop_sends now :
  sends now "config_consumption_measure stop" [CONFIG_CONSUMPTION; STOP; 0%Z; 0%Z].
Proof. sends_concrete. Qed.

Lemma start_stop_args_sends now c ty st v :
  In (c, ty) [("test_gpio", TEST_GPIO); ("test_i2c", TEST_I2C2); ("test_pps", TEST_PPS)] →
  In (st, v) state_d → sends now (str_join " " [c; st]) [ty; v].
Proof. intros H H'. in_cases H; in_cases H'; sends_concrete. Qed.

Lemma radio_pp_stop_sends now :
  sends now "test_radio_ping_pong stop" [TEST_RADIO_PING_PONG; STOP; 0%Z; 0%Z].
Proof. sends_concrete. Qed.

(** [set_time]: the seconds and the microseconds of the reference, on 4 bytes; it is
    stored and sent. *)
Lemma set_time_command now s :
  read_command now ("set_time" +:+ nl) s =
    let data := SET_TIME :: le_bytes 4 (tv_sec now) ++ le_bytes 4 (tv_usec now) in
    Some (OWrite (packet data), holding data now).
Proof.
  unfold read_command. rewrite drop_last_nl, c_string_id by done.
  erewrite c_bind_Some; [|eapply (parse_cmd_run now "set_time" (MkCommand "set_time" 0 cmd_set_time));
    [reflexivity|reflexivity|simpl; lia|reflexivity|]].
  2: { cbn [command fmt]. unfold cmd_set_time. erewrite c_bind_Some by reflexivity. cbn [cmd_buff].
       change (MkCmdState _ now) with (holding [SET_TIME] now). c_run. reflexivity. }
  cbn [Z.eqb negb]. by rewrite packet_bytes_holding.
Qed.

Lemma set_time_sends now :
  sends now "set_time" (SET_TIME :: le_bytes 4 (tv_sec now) ++ le_bytes 4 (tv_usec now)).
Proof. intros s. exists now. apply set_time_command. Qed.

(** The name of a command, and its type. *)
Definition command_name (name : string) (type : Z) : Prop :=
  no_char "000" name ∧ no_char " " name ∧ String.length name < 32 ∧
  get_val (Some name) commands_d 0 = (0%Z, type).

(** A command whose arguments are scanned into [args]. *)
Definition scans (name w : string) (ws : list string) (cur : command_description)
    (args : list scanned) : Prop :=
  let line := name +:+ words (w :: ws) in
  (∃ table, command_parse line commands = command_parse line (cur :: table)) ∧
  sscanf line (fmt cur) = args ∧
  length args = fmt_count cur ∧ 0 < fmt_count cur ≤ 32 ∧ forallb fits_buff args = true.

Lemma scans_intro name w ws cur args :
  (∃ table, command_parse (name +:+ words (w :: ws)) commands =
            command_parse (name +:+ words (w :: ws)) (cur :: table)) →
  sscanf (name +:+ words (w :: ws)) (fmt cur) = args →
  (length args =? fmt_count cur) && (0 <? fmt_count cur) && (fmt_count cur <=? 32) = true →
  forallb fits_buff args = true → scans name w ws cur args.
Proof.
  intros Ht Hs Hc Hf. bool_hyps. apply Nat.eqb_eq in H. apply Nat.ltb_lt in H1.
  apply Nat.leb_le in H0. by split_and!.
Qed.

Lemma scans_parse name w ws cur args :
  scans name w ws cur args →
  command_parse (name +:+ words (w :: ws)) commands = Some (Some cur).
Proof.
  intros ([table ->] & Hs & Hl & Hc & Hf). by apply (command_parse_match _ _ _ args).
Qed.

Lemma line_no_zero name w ws type :
  command_name name type → Forall (no_char "000") (w :: ws) →
  no_char "000" (name +:+ words (w :: ws)).
Proof.
  intros (H0 & _) Hws. unfold no_char. rewrite str_all_app. apply andb_true_iff.
  split; [done|by apply no_char_words].
Qed.

Lemma args_sends now name w ws cur args type data :
  command_name name type → Forall (no_char "000") (w :: ws) → scans name w ws cur args →
  (sscanf (name +:+ words (w :: ws)) (fmt cur) = args →
   ∀ ref, ∃ ref', command cur now (fmt cur) (name +:+ words (w :: ws)) (holding [type] ref)
                    = Some (0%Z, holding data ref')) →
  sends now (name +:+ words (w :: ws)) data.
Proof.
  intros Hn Hws Hs Hh. pose proof Hn as (H0 & Hb & Hlen & Hv).
  apply (parse_cmd_sends now _ cur name type); try done.
  - by eapply line_no_zero.
  - by eapply scans_parse.
  - by apply until_blank_words.
  - apply Hh, Hs.
Qed.

Lemma args_refuses now name w ws cur args type :
  command_name name type → Forall (no_char "000") (w :: ws) → scans name w ws cur args →
  String.length (name +:+ words (w :: ws)) < 2048 →
  (sscanf (name +:+ words (w :: ws)) (fmt cur) = args →
   ∀ ref, ∃ ret s', command cur now (fmt cur) (name +:+ words (w :: ws)) (holding [type] ref)
                      = Some (ret, s') ∧ ret ≠ 0%Z) →
  refuses now (name +:+ words (w :: ws)).
Proof.
  intros Hn Hws Hs Hl Hh. pose proof Hn as (H0 & Hb & Hlen & Hv).
  apply parse_cmd_refuses; [by eapply line_no_zero|done|]. intros s.
  destruct (Hh ltac:(apply Hs) (set_time_ref s)) as (ret & s' & Hr & Hne).
  exists ret, s'. split; [|done].
  apply (parse_cmd_run now _ cur name type); try done;
    [by eapply scans_parse|by apply until_blank_words].
Qed.

(** The entry of a command, after those that do not match. *)
Ltac find_command :=
  eexists; unfold commands; repeat rewrite command_parse_skip by reflexivity; reflexivity.

(** A word a dictionary knows, short enough for the buffers. *)
Definition dict_word (d : dict) (w : string) (v : Z) : Prop :=
  is_word w ∧ String.length w < 8 ∧ no_char "000" w ∧ dict_get w d = (0%Z, v).

Lemma dict_word_In d w v :
  forallb (λ '(w, v), bool_decide (dict_word d w v)) d = true → In (w, v) d → dict_word d w v.
Proof.
  intros Hd Hin. rewrite forallb_forall in Hd. specialize (Hd _ Hin). simpl in Hd.
  by apply bool_decide_eq_true in Hd.
Qed.

Lemma word_arg_word size args i w :
  args !! i = Some (SWord w) → String.length w < size → word_arg size args i = Some w.
Proof. intros Hi Hl. unfold word_arg. rewrite Hi. by destruct (Nat.ltb_spec (String.length w) size); [|lia]. Qed.

Lemma int_arg_int args i z :
  args !! i = Some (SInt z) → (0 ≤ z < 2 ^ 31)%Z → int_arg args i = Some z.
Proof. intros Hi Hz. unfold int_arg. by rewrite Hi, in_int_small. Qed.

Lemma uint_arg_int args i z :
  args !! i = Some (SInt z) → (0 ≤ z < 2 ^ 31)%Z → uint_arg args i = Some z.
Proof. intros Hi Hz. unfold uint_arg. rewrite Hi, in_int_small, wrap_small by lia. done. Qed.

Lemma fits_buff_word w : String.length w < 256 → fits_buff (SWord w) = true.
Proof. intros Hw. by apply Nat.ltb_lt. Qed.

Lemma fits_buff_int z : (0 ≤ z < 2 ^ 31)%Z → fits_buff (SInt z) = true.
Proof. apply in_int_small. Qed.

Lemma str_of_Z_no_zero z : (0 ≤ z)%Z → no_char "000" (str_of_Z z).
Proof. intros Hz. by apply str_of_Z_no_char. Qed.

(** The arguments a handler reads. *)
Ltac read_args :=
  repeat first
    [ erewrite c_lift_bind by (apply word_arg_word; [reflexivity|lia])
    | erewrite c_lift_bind by (apply int_arg_int; [reflexivity|lia])
    | erewrite c_lift_bind by (apply uint_arg_int; [reflexivity|lia]) ].

(** [set_node_id]: the architecture on 4 bits, the number on 12. *)
Lemma set_node_id_sends now archi v num :
  In (archi, v) archi_d → (0 ≤ num < 2 ^ 12)%Z →
  sends now (str_join " " ["set_node_id"; archi; str_of_Z num])
    (SET_NODE_ID :: le_bytes 2 (Z.lor (v * 2 ^ 12) num)).
Proof.
  intros Ha Hn.
  assert (Z.land 0xf000 (Z.shiftl v 12) = (v * 2 ^ 12)%Z) as Hf by (in_cases Ha; done).
  destruct (dict_word_In archi_d archi v) as (Hw & Hl & H0 & Hv); [done..|]. clear Ha.
  rewrite str_join_words.
  eapply (args_sends _ _ _ _ (MkCommand "set_node_id %8s %i" 2 cmd_set_node_id)
    [SWord archi; SInt num]).
  - split_and!; [done..|simpl; lia|reflexivity].
  - repeat constructor; [done|]. apply str_of_Z_no_zero. lia.
  - apply scans_intro; [find_command| |reflexivity|].
    + change (scan [DBlank; DWord 8; DBlank; DInt] (words [archi; str_of_Z num]) = [SWord archi; SInt num]).
      by scan_args.
    + cbn [forallb]. by rewrite fits_buff_word, fits_buff_int by lia.
  - intros Hs ref. exists ref. cbn [command fmt] in *. unfold cmd_set_node_id. rewrite Hs.
    read_args. cbn [get_val]. rewrite Hv, Hf, Z.land_comm.
    change 0xfff%Z with (Z.ones 12).
    rewrite Z.land_ones, wrap_small, Z.mod_small by lia. by c_run.
Qed.

(** [config_consumption_measure start]: the state, then the power source with a bit
    for each value measured, then the period with the average. *)
Lemma consumption_start_sends now src sv p v c per pv av avv :
  In (src, sv) power_source_d → In (per, pv) periods_d → In (av, avv) average_d →
  (0 ≤ p < 2 ^ 31)%Z → (0 ≤ v < 2 ^ 31)%Z → (0 ≤ c < 2 ^ 31)%Z →
  sends now (str_join " " ["config_consumption_measure"; "start"; src; "p"; str_of_Z p;
      "v"; str_of_Z v; "c"; str_of_Z c; "-p"; per; "-a"; av])
    [CONFIG_CONSUMPTION; START;
     Z.lor (Z.lor (Z.lor sv (flag (negb (p =? 0)) * MEASURE_POWER))
              (flag (negb (v =? 0)) * MEASURE_VOLTAGE))
       (flag (negb (c =? 0)) * MEASURE_CURRENT);
     Z.lor pv avv]%Z.
Proof.
  intros (Hsw & Hsl & Hs0 & Hsv)%dict_word_In (Hpw & Hpl & Hp0 & Hpv)%dict_word_In
    (Haw & Hal & Ha0 & Hav)%dict_word_In Hp Hv Hc; [|done..].
  assert (is_word "start") as Hst by done.
  rewrite str_join_words.
  eapply (args_sends _ _ _ _ (MkCommand
    "config_consumption_measure %8s %8s p %i v %i c %i -p %8s -a %8s" 7 cmd_consumption)
    [SWord "start"; SWord src; SInt p; SInt v; SInt c; SWord per; SWord av]).
  - split_and!; [done..|simpl; lia|reflexivity].
  - repeat constructor; try done; apply str_of_Z_no_zero; lia.
  - apply scans_intro; [find_command| |reflexivity|].
    + change (scan [DBlank; DWord 8; DBlank; DWord 8; DBlank; DChar "p"; DBlank; DInt;
      DBlank; DChar "v"; DBlank; DInt; DBlank; DChar "c"; DBlank; DInt;
      DBlank; DChar "-"; DChar "p"; DBlank; DWord 8; DBlank; DChar "-"; DChar "a";
      DBlank; DWord 8] (words ["start"; src; "p"; str_of_Z p; "v"; str_of_Z v;
        "c"; str_of_Z c; "-p"; per; "-a"; av])
      = [SWord "start"; SWord src; SInt p; SInt v; SInt c; SWord per; SWord av]).
      scan_args.
      rewrite (scan_arg_word 8 "start") by (done || (simpl; lia)). by scan_args.
    + cbn [forallb]. by rewrite !fits_buff_word, !fits_buff_int by (simpl; lia).
  - intros Hs ref. exists ref. cbn [command fmt] in *. unfold cmd_consumption. rewrite Hs.
    erewrite c_lift_bind by reflexivity. read_args.
    cbn [get_val]. rewrite Hsv, Hpv, Hav. simpl dict_get. cbn [Z.eqb negb].
    by c_run.
Qed.

(** *** Channels *)

(** The bits [parse_channels_list] sets. *)
Definition channels_bits (zs : list Z) : Z :=
  fold_left (λ f z, Z.lor f (Z.shiftl 1 z)) zs 0%Z.

Definition channels_text (zs : list Z) : string := str_join "," (str_of_Z <$> zs).

Definition channels_ok (zs : list Z) : Prop := Forall (λ z, 11 ≤ z ≤ 26)%Z zs.

Lemma fold_bits_testbit zs f k :
  channels_ok zs → (0 ≤ k)%Z →
  Z.testbit (fold_left (λ f z, Z.lor f (Z.shiftl 1 z)) zs f) k =
    Z.testbit f k || bool_decide (k ∈ zs).
Proof.
  intros Hzs Hk. revert f. induction Hzs as [|z zs Hz Hzs IH]; intros f; simpl.
  - by rewrite orb_false_r.
  - rewrite IH, Z.lor_spec, Z.shiftl_1_l, Z.pow2_bits_eqb by lia. rewrite <- orb_assoc. f_equal.
    destruct (Z.eqb_spec z k) as [->|Hne].
    + simpl. symmetry. apply bool_decide_eq_true. by left.
    + simpl. apply bool_decide_ext. rewrite elem_of_cons. naive_solver.
Qed.

Lemma channels_bits_testbit zs k :
  channels_ok zs → (0 ≤ k)%Z → Z.testbit (channels_bits zs) k = bool_decide (k ∈ zs).
Proof. intros. unfold channels_bits. by rewrite fold_bits_testbit, Z.testbit_0_l. Qed.

Lemma channels_loop_bits zs f :
  channels_ok zs →
  channels_loop (str_of_Z <$> zs) f = Some (fold_left (λ f z, Z.lor f (Z.shiftl 1 z)) zs f).
Proof.
  intros Hzs. revert f. induction Hzs as [|z zs Hz Hzs IH]; intros f; [done|].
  rewrite fmap_cons. cbn [channels_loop fold_left]. rewrite atoi_str_of_Z by lia. simpl.
  destruct (Z.leb_spec 11 z); [|lia]. destruct (Z.leb_spec z 26); [|lia]. simpl. apply IH.
Qed.

Lemma channel_texts zs :
  channels_ok zs →
  Forall (no_char ",") (str_of_Z <$> zs) ∧ Forall (λ w, w ≠ "") (str_of_Z <$> zs) ∧
  Forall is_word (str_of_Z <$> zs) ∧ Forall (λ w, String.length w = 2) (str_of_Z <$> zs).
Proof.
  intros Hzs. rewrite !Forall_fmap. split_and!; eapply Forall_impl; try done; simpl; intros z Hz.
  - apply str_of_Z_no_char; [lia|done].
  - apply str_of_Z_word. lia.
  - apply str_of_Z_word. lia.
  - assert (Forall (λ z, String.length (str_of_Z z) = 2) (seqZ 11 16)) as Hall
      by (vm_compute; repeat constructor).
    rewrite Forall_forall in Hall. apply Hall, elem_of_seqZ. lia.
Qed.

Lemma filter_all {A} (P : A → Prop) `{∀ x, Decision (P x)} (l : list A) :
  Forall P l → filter P l = l.
Proof. induction 1 as [|x l Hx Hl IH]; [done|]. by rewrite filter_cons_True, IH. Qed.

Lemma parse_channels_text zs :
  channels_ok zs → zs ≠ [] → parse_channels_list (channels_text zs) = Some (channels_bits zs).
Proof.
  intros Hzs Hne. destruct (channel_texts zs Hzs) as (Hsep & Hnil & _).
  unfold parse_channels_list, strtok_all, channels_text, channels_bits.
  rewrite <- channels_loop_bits by done. f_equal.
  destruct zs as [|z zs]; [done|]. rewrite fmap_cons in *.
  rewrite str_split_join by done. by apply filter_all.
Qed.

Lemma join_word sep ws :
  str_all (λ c, negb (is_space c)) sep = true → Forall is_word ws → ws ≠ [] →
  is_word (str_join sep ws).
Proof.
  intros Hsep Hws Hne. destruct ws as [|w ws]; [done|]. clear Hne.
  revert w Hws. induction ws as [|v ws IH]; intros w [Hw Hws]%Forall_cons; [done|].
  change (is_word (w +:+ sep +:+ str_join sep (v :: ws))). destruct (IH v Hws) as [_ Hv].
  destruct Hw as [Hne Hw]. split; [by destruct w|]. by rewrite !str_all_app, Hw, Hsep, Hv.
Qed.

Lemma str_length_app a b : String.length (a +:+ b) = String.length a + String.length b.
Proof. induction a as [|c a IH]; [done|]. rewrite str_app_cons. simpl. by rewrite IH. Qed.

Lemma channels_text_word zs :
  channels_ok zs → zs ≠ [] → NoDup zs →
  is_word (channels_text zs) ∧ String.length (channels_text zs) < 256 ∧
  no_char "000" (channels_text zs).
Proof.
  intros Hzs Hne Hnd. destruct (channel_texts zs Hzs) as (_ & _ & Hw & Hl).
  assert (length zs ≤ 16) as Hn.
  { change 16 with (length (seqZ 11 16)). apply submseteq_length, NoDup_submseteq; [done|].
    intros z Hz. unfold channels_ok in Hzs. rewrite Forall_forall in Hzs. apply elem_of_seqZ. specialize (Hzs z Hz). lia. }
  split_and!.
  - apply join_word; [done|done|by destruct zs].
  - assert (String.length (channels_text zs) ≤ 3 * length zs) as Hlen; [|lia].
    unfold channels_text. rewrite <- (length_fmap str_of_Z zs). clear -Hl.
    induction Hl as [|w ws Hw Hl IH]; [simpl; lia|].
    destruct ws as [|v ws]; [simpl in *; lia|].
    change (str_join "," (w :: v :: ws)) with (w +:+ "," +:+ str_join "," (v :: ws)).
    rewrite !str_length_app. simpl length in *. simpl (String.length ","). lia.
  - unfold channels_text, no_char. clear -Hzs. induction Hzs as [|z zs Hz Hzs IH]; [done|].
    rewrite fmap_cons. assert (no_char "000" (str_of_Z z)) as Hc by (apply str_of_Z_no_char; [lia|done]).
    destruct zs as [|y zs]; [done|].
    change (str_join "," (str_of_Z z :: (str_of_Z <$> y :: zs)))
      with (str_of_Z z +:+ "," +:+ str_join "," (str_of_Z <$> y :: zs)).
    by rewrite !str_all_app, Hc, IH.
Qed.

Lemma fold_bits_nonneg zs f :
  channels_ok zs → (0 ≤ f)%Z → (0 ≤ fold_left (λ f z, Z.lor f (Z.shiftl 1 z)) zs f)%Z.
Proof.
  intros Hzs. revert f. induction Hzs as [|z zs Hz Hzs IH]; intros f Hf; simpl; [done|].
  apply IH, Z.lor_nonneg. split; [done|]. apply Z.shiftl_nonneg. lia.
Qed.

(** A set of channels is a non-zero number of 32 bits. *)
Lemma channels_bits_range zs :
  channels_ok zs → zs ≠ [] → (0 < channels_bits zs < 2 ^ 27)%Z.
Proof.
  intros Hzs Hne.
  assert (0 ≤ channels_bits zs)%Z as Hpos by (by apply fold_bits_nonneg).
  assert (Hbit : ∀ k, (0 ≤ k)%Z → Z.testbit (channels_bits zs) k = bool_decide (k ∈ zs))
    by (intros; by apply channels_bits_testbit).
  unfold channels_ok in Hzs. rewrite Forall_forall in Hzs. split.
  - destruct zs as [|z zs]; [done|]. specialize (Hzs z ltac:(left)).
    destruct (Z.eq_dec (channels_bits (z :: zs)) 0) as [Hz|]; [|lia].
    specialize (Hbit z ltac:(lia)). rewrite Hz, Z.testbit_0_l in Hbit.
    symmetry in Hbit. apply bool_decide_eq_false in Hbit. destruct Hbit. by left.
  - assert (channels_bits zs = channels_bits zs mod 2 ^ 27)%Z as Heq; [|].
    { apply Z.bits_inj'. intros k Hk. 
      destruct (Z.lt_ge_cases k 27) as [Hlt|Hge].
      - by rewrite Z.mod_pow2_bits_low.
      - rewrite Z.mod_pow2_bits_high, Hbit by lia. apply bool_decide_eq_false.
        intros Hin. specialize (Hzs k Hin). lia. }
    rewrite Heq. apply Z.mod_pos_bound. lia.
Qed.

(** A number and its predecessor share a bit unless it is a power of two. *)
Lemma land_pred_zero f : (0 < f)%Z → Z.land f (f - 1) = 0%Z ↔ f = (2 ^ Z.log2 f)%Z.
Proof.
  intros Hf. pose proof (Z.log2_spec f Hf) as [Hlo Hhi]. pose proof (Z.log2_nonneg f) as Hn.
  split.
  - intros Hl. destruct (Z.eq_dec f (2 ^ Z.log2 f)) as [|Hne]; [done|].
    assert (Z.log2 (f - 1) = Z.log2 f) as Hlog by (apply Z.log2_unique; lia).
    assert (Z.testbit (Z.land f (f - 1)) (Z.log2 f) = true) as Hb; [|by rewrite Hl, Z.testbit_0_l in Hb].
    rewrite Z.land_spec, Z.bit_log2 by done. rewrite <- Hlog at 1. rewrite Z.bit_log2; [done|].
    assert (2 ^ Z.log2 f > 0)%Z by lia. lia.
  - intros ->. rewrite Z.sub_1_r, <- Z.ones_equiv, Z.land_ones by done.
    apply Z_mod_same_full.
Qed.

(** The test of the code for a single channel. *)
Lemma channels_bits_single zs :
  channels_ok zs → zs ≠ [] → NoDup zs →
  (Z.land (channels_bits zs) (wrap 32 (channels_bits zs - 1)) =? 0)%Z
    = bool_decide (length zs = 1).
Proof.
  intros Hzs Hne Hnd. pose proof (channels_bits_range zs Hzs Hne) as Hr.
  rewrite wrap_small by lia. apply eq_true_iff_eq.
  rewrite Z.eqb_eq, bool_decide_eq_true, land_pred_zero by lia. split.
  - intros Hp. set (b := Z.log2 (channels_bits zs)) in *.
    assert (∀ z, z ∈ zs → z = b) as Hall.
    { intros z Hz. assert (0 ≤ z)%Z as Hz0.
      { unfold channels_ok in Hzs. rewrite Forall_forall in Hzs. specialize (Hzs z Hz). lia. }
      assert (Z.testbit (channels_bits zs) z = true) as Hb
        by (rewrite channels_bits_testbit by done; by apply bool_decide_eq_true).
      rewrite Hp, Z.pow2_bits_eqb in Hb by apply Z.log2_nonneg. by apply Z.eqb_eq in Hb. }
    destruct zs as [|x [|y zs]]; [done|done|]. exfalso.
    apply NoDup_cons in Hnd as [Hx _]. apply Hx.
    rewrite (Hall x) by left. rewrite <- (Hall y) by (right; left). by left.
  - destruct zs as [|z [|]]; try done. intros _. unfold channels_bits. simpl.
    unfold channels_ok in Hzs. apply Forall_cons in Hzs as [Hz _].
    rewrite Z.shiftl_1_l, Z.lor_0_l || rewrite Z.shiftl_1_l. by rewrite Z.log2_pow2 by lia.
Qed.

(** [config_radio_measure]: the channels on 4 bytes, the period on 2, the number of
    measures on 1. *)
Lemma radio_measure_sends now zs period num :
  channels_ok zs → zs ≠ [] → NoDup zs → (1 ≤ period < 2 ^ 16)%Z → (0 ≤ num < 2 ^ 8)%Z →
  sends now (str_join " " ["config_radio_measure"; channels_text zs;
                           str_of_Z period; str_of_Z num])
    (CONFIG_RADIO_MEAS :: le_bytes 4 (channels_bits zs) ++ le_bytes 2 period ++ le_bytes 1 num).
Proof.
  intros Hzs Hne Hnd Hp Hn. destruct (channels_text_word zs) as (Hw & Hl & H0); [done..|].
  pose proof (channels_bits_range zs Hzs Hne) as Hr.
  rewrite str_join_words.
  eapply (args_sends _ _ _ _ (MkCommand "config_radio_measure %256s %i %i" 3 cmd_radio_measure)
    [SWord (channels_text zs); SInt period; SInt num]).
  - split_and!; [done..|simpl; lia|reflexivity].
  - repeat constructor; [done|apply str_of_Z_no_zero; lia..].
  - apply scans_intro; [find_command| |reflexivity|].
    + change (scan [DBlank; DWord 256; DBlank; DInt; DBlank; DInt]
      (words [channels_text zs; str_of_Z period; str_of_Z num])
      = [SWord (channels_text zs); SInt period; SInt num]).
      by scan_args.
    + cbn [forallb]. by rewrite fits_buff_word, !fits_buff_int by lia.
  - intros Hs ref. exists ref. cbn [command fmt] in *. unfold cmd_radio_measure. rewrite Hs.
    read_args. rewrite (c_lift_bind _ _ _ _ (parse_channels_text zs Hzs Hne)).
    change 0xFFFF%Z with (Z.ones 16). rewrite Z.land_ones, Z.mod_small by lia.
    destruct (Z.eqb_spec (channels_bits zs) 0); [lia|]. destruct (Z.eqb_spec period 0); [lia|].
    destruct (Z.ltb_spec 255 num); [lia|]. by c_run.
Qed.

(** [config_radio_sniffer]: the channels on 4 bytes, the period on 2. *)
Lemma radio_sniffer_sends now zs period :
  channels_ok zs → zs ≠ [] → NoDup zs → (0 ≤ period < 2 ^ 16)%Z →
  (period = 0%Z ↔ length zs = 1) →
  sends now (str_join " " ["config_radio_sniffer"; channels_text zs; str_of_Z period])
    (CONFIG_RADIO_SNIFFER :: le_bytes 4 (channels_bits zs) ++ le_bytes 2 period).
Proof.
  intros Hzs Hne Hnd Hp Hone. destruct (channels_text_word zs) as (Hw & Hl & H0); [done..|].
  pose proof (channels_bits_range zs Hzs Hne) as Hr.
  rewrite str_join_words.
  eapply (args_sends _ _ _ _ (MkCommand "config_radio_sniffer %256s %i" 2 cmd_radio_sniffer)
    [SWord (channels_text zs); SInt period]).
  - split_and!; [done..|simpl; lia|reflexivity].
  - repeat constructor; [done|apply str_of_Z_no_zero; lia..].
  - apply scans_intro; [find_command| |reflexivity|].
    + change (scan [DBlank; DWord 256; DBlank; DInt]
      (words [channels_text zs; str_of_Z period]) = [SWord (channels_text zs); SInt period]).
      by scan_args.
    + cbn [forallb]. by rewrite fits_buff_word, !fits_buff_int by lia.
  - intros Hs ref. exists ref. cbn [command fmt] in *. unfold cmd_radio_sniffer. rewrite Hs.
    read_args. rewrite (c_lift_bind _ _ _ _ (parse_channels_text zs Hzs Hne)).
    rewrite channels_bits_single by done.
    change 0xFFFF%Z with (Z.ones 16). rewrite Z.land_ones, Z.mod_small by lia.
    destruct (Z.eqb_spec (channels_bits zs) 0); [lia|].
    assert ((if negb (bool_decide (length zs = 1)) then (period =? 0)%Z
             else negb (period =? 0)%Z) = false) as Hflag.
    { destruct (Z.eqb_spec period 0), (bool_decide_reflect (length zs = 1)); naive_solver. }
    cbn [orb]. rewrite Hflag. by c_run.
Qed.

(** ** What a command can send *)

(** [m] appends at most [n] bytes to the packet under construction. *)
Definition appends {A} (n : nat) (m : C A) : Prop :=
  ∀ data ref x s', length data + n < 256 → m (holding data ref) = Some (x, s') →
    ∃ new ref', s' = holding (data ++ new) ref' ∧ length new ≤ n ∧ Forall byte_ok new.

Section appends.
Context {A B : Type}.

Lemma appends_ret n (x : A) : appends n (mret x : C A).
Proof. intros data ref y s' Hl [= <- <-]. exists [], ref. rewrite app_nil_r. split_and!; [done|simpl; lia|done]. Qed.

Lemma appends_weaken n n' (m : C A) : n ≤ n' → appends n m → appends n' m.
Proof.
  intros Hn Hm data ref x s' Hl Hr. destruct (Hm data ref x s') as (new & ref' & ? & ? & ?);
    [lia|done|]. exists new, ref'. split_and!; [done|lia|done].
Qed.

Lemma appends_bind n n' (m : C A) (f : A → C B) :
  appends n m → (∀ x, appends n' (f x)) → appends (n + n') (m ≫= f).
Proof.
  intros Hm Hf data ref y s' Hl. unfold mbind, C_bind.
  destruct (m (holding data ref)) as [[x s1]|] eqn:Hr; [|done]. intros Hr'.
  destruct (Hm data ref x s1) as (new & ref1 & -> & Hn & Hok); [lia|done|].
  destruct (Hf x (data ++ new) ref1 y s') as (new' & ref2 & -> & Hn' & Hok');
    [rewrite length_app; lia|done|].
  exists (new ++ new'), ref2. rewrite app_assoc, length_app.
  split_and!; [done|lia|by apply Forall_app].
Qed.

Lemma appends_lift n (o : option A) (f : A → C B) :
  (∀ x, o = Some x → appends n (f x)) → appends n (c_lift o ≫= f).
Proof.
  intros Hf data ref y s' Hl. unfold mbind, C_bind, c_lift. destruct o as [x|]; [|done].
  by apply Hf.
Qed.
End appends.

Lemma appends_append {B} n bytes (f : unit → C B) :
  length bytes ≤ n → Forall byte_ok bytes → appends (n - length bytes) (f tt) →
  appends n (append_data bytes ≫= f).
Proof.
  intros Hl Hok Hf. apply (appends_weaken (length bytes + (n - length bytes))); [lia|].
  apply (appends_bind (length bytes)); [|by intros []].
  intros data ref x s' Hlen. rewrite append_data_holding by done. intros [= <- <-].
  exists bytes, ref. by split_and!.
Qed.

Lemma byte_ok_lor a b : byte_ok a → byte_ok b → byte_ok (Z.lor a b).
Proof.
  unfold byte_ok. intros Ha Hb. assert (0 ≤ Z.lor a b)%Z by (apply Z.lor_nonneg; lia).
  split; [done|]. destruct (Z.eq_dec (Z.lor a b) 0) as [->|Hne]; [lia|].
  assert (Hlog : ∀ z, (0 ≤ z < 2 ^ 8 → Z.log2 z < 8)%Z).
  { intros z Hz. destruct (Z.eq_dec z 0) as [->|]; [done|]. apply Z.log2_lt_pow2; lia. }
  apply Z.log2_lt_pow2; [lia|]. rewrite Z.log2_lor by lia.
  pose proof (Hlog a Ha). pose proof (Hlog b Hb). lia.
Qed.

(** The dictionaries hold bytes. *)
Definition dict_bytes (d : dict) : bool := forallb (λ '(_, v), (0 <=? v) && (v <? 2 ^ 8))%Z d.

Lemma get_val_ok key d v0 r v :
  dict_bytes d = true → get_val (Some key) d v0 = (r, v) → byte_ok v.
Proof.
  unfold byte_ok, dict_bytes. cbn [get_val]. intros Hd.
  induction d as [|[k w] d IH]; simpl in *; [intros [= _ <-]; lia|].
  bool_hyps. destruct (String.eqb k key); simpl; [intros [= _ <-]; lia|by apply IH].
Qed.

Lemma byte_ok_flag b m : (m = 1 ∨ m = 2 ∨ m = 4)%Z → byte_ok (flag b * m).
Proof. unfold byte_ok. destruct b; simpl; lia. Qed.

Lemma appends_set_time {B} n now (f : unit → C B) :
  appends n (f tt) → appends n (c_modify (λ s, MkCmdState (cmd_buff s) now) ≫= f).
Proof. intros Hf data ref x s' Hl. exact (Hf data now x s' Hl). Qed.

Ltac solve_byte :=
  first [ eapply get_val_ok; [|eassumption]; reflexivity
        | apply byte_ok_flag; unfold MEASURE_POWER, MEASURE_VOLTAGE, MEASURE_CURRENT; lia
        | unfold byte_ok; lia
        | apply byte_ok_lor; solve_byte ].

(** One step of a handler. *)
Ltac append_step :=
  lazymatch goal with
  | |- appends _ (mret _) => apply appends_ret
  | |- appends _ (c_lift _ ≫= _) => apply appends_lift; intros ? _
  | |- appends _ (c_modify _ ≫= _) => apply appends_set_time
  | |- appends _ (append_data _ ≫= _) =>
      apply appends_append;
      [rewrite ?le_bytes_length; simpl; lia
      |first [apply le_bytes_ok|apply Forall_singleton; solve_byte]
      |rewrite ?le_bytes_length; cbn [length Nat.sub]]
  | |- context [get_val (Some ?k) ?d ?v] => destruct (get_val (Some k) d v) eqn:?
  | |- appends _ (if ?b then _ else _) => destruct b
  | |- context [(?a =? START)%Z] => destruct (a =? START)%Z
  end; cbv beta iota zeta.

(** Every handler appends at most eight bytes. *)
Lemma commands_append now cur f line : In cur commands → appends 8 (command cur now f line).
Proof.
  intros Hin. unfold commands in Hin.
  repeat (destruct Hin as [<-|Hin]; [cbn [command];
    unfold cmd_alim, cmd_consumption, cmd_radio_measure, cmd_radio_sniffer, cmd_no_args,
      cmd_set_time, cmd_set_node_id, cmd_start_stop_args, cmd_radio_pp;
    cbv beta zeta; repeat append_step|]).
  by destruct Hin.
Qed.

Lemma command_parse_In cmd table cur :
  command_parse cmd table = Some (Some cur) → In cur table.
Proof.
  induction table as [|c table IH]; [done|]. cbn [command_parse].
  repeat case_match; try (intros H'; right; by apply IH); try done; intros [= ->]; by left.
Qed.

Lemma get_val_zero key d v0 v : get_val key d v0 = (0%Z, v) → ∃ k, key = Some k ∧ In (k, v) d.
Proof.
  destruct key as [k|]; [|done]. cbn [get_val]. intros Hv. exists k. split; [done|].
  induction d as [|[k' w] d IH]; simpl in *; [done|].
  destruct (String.eqb_spec k' k) as [->|]; [|right; by apply IH]. left. congruence.
Qed.

(** ** What the commands mean *)

(** [encodes now name args bytes]: the command [name] with the scanned arguments [args],
    sent at [now], has the arguments [bytes] in its packet. *)
Inductive encodes (now : timeval) : string → list scanned → list Z → Prop :=
  | enc_no_args name :
      name ∈ ["config_radio_stop"; "green_led_on"; "green_led_blink"; "test_got_pps"] →
      encodes now name [] []
  | enc_set_time :
      encodes now "set_time" [] (le_bytes 4 (tv_sec now) ++ le_bytes 4 (tv_usec now))
  | enc_set_node_id w archi num :
      In (w, archi) archi_d →
      encodes now "set_node_id" [SWord w; SInt num]
        (le_bytes 2 (Z.lor (Z.land 0xf000 (Z.shiftl archi 12)) (Z.land 0x0fff (wrap 16 num))))
  | enc_alim name w v :
      name ∈ ["start"; "stop"] → In (w, v) alim_d → encodes now name [SWord w] [v]
  | enc_start_stop name w v :
      name ∈ ["test_gpio"; "test_i2c"; "test_pps"] → In (w, v) state_d →
      encodes now name [SWord w] [v]
  | enc_consumption_start src s p v c per pe av a :
      In (src, s) power_source_d → In (per, pe) periods_d → In (av, a) average_d →
      encodes now "config_consumption_measure"
        [SWord "start"; SWord src; SInt p; SInt v; SInt c; SWord per; SWord av]
        [START;
         Z.lor (Z.lor (Z.lor s (flag (negb (p =? 0)%Z) * MEASURE_POWER))
                  (flag (negb (v =? 0)%Z) * MEASURE_VOLTAGE))
           (flag (negb (c =? 0)%Z) * MEASURE_CURRENT);
         Z.lor pe a]
  | enc_consumption_stop args :
      encodes now "config_consumption_measure" (SWord "stop" :: args) [STOP; 0%Z; 0%Z]
  | enc_radio_measure l channels period num :
      parse_channels_list l = Some channels → channels ≠ 0%Z →
      Z.land (wrap 32 period) 0xFFFF ≠ 0%Z → (wrap 32 num ≤ 0xFF)%Z →
      encodes now "config_radio_measure" [SWord l; SInt period; SInt num]
        (le_bytes 4 channels ++ le_bytes 2 (wrap 32 period) ++ le_bytes 1 (wrap 32 num))
  | enc_radio_sniffer l channels period :
      parse_channels_list l = Some channels → channels ≠ 0%Z →
      (Z.land channels (wrap 32 (channels - 1)) = 0%Z → wrap 32 period = 0%Z) →
      (Z.land channels (wrap 32 (channels - 1)) ≠ 0%Z → Z.land (wrap 32 period) 0xFFFF ≠ 0%Z) →
      encodes now "config_radio_sniffer" [SWord l; SInt period]
        (le_bytes 4 channels ++ le_bytes 2 (wrap 32 period))
  | enc_radio_pp_start chan power v :
      (11 ≤ wrap 32 chan ≤ 26)%Z → In (power, v) radio_power_d →
      encodes now "test_radio_ping_pong" [SWord "start"; SInt chan; SWord power]
        (START :: le_bytes 1 (wrap 32 chan) ++ [v])
  | enc_radio_pp_stop args :
      encodes now "test_radio_ping_pong" (SWord "stop" :: args) [STOP; 0%Z; 0%Z].

(** The scanned arguments behind the variables of a handler. *)
Lemma word_arg_inv size args i w a :
  word_arg size args i = Some w → args !! i = Some a → a = SWord w.
Proof. unfold word_arg. intros Hw Ha. rewrite Ha in Hw. destruct a; by repeat case_match; simplify_eq. Qed.

Lemma int_arg_inv args i z a : int_arg args i = Some z → args !! i = Some a → a = SInt z.
Proof. unfold int_arg. intros Hz Ha. rewrite Ha in Hz. destruct a; by repeat case_match; simplify_eq. Qed.

Lemma uint_arg_inv args i z a :
  uint_arg args i = Some z → args !! i = Some a → ∃ x, a = SInt x ∧ z = wrap 32 x.
Proof.
  unfold uint_arg. intros Hz Ha. rewrite Ha in Hz. destruct a; [done|].
  case_match; [|done]. simplify_eq. eauto.
Qed.

Lemma append_inv {B} bytes (f : unit → C B) data ref y s' :
  (append_data bytes ≫= f) (holding data ref) = Some (y, s') →
  length data + length bytes < 256 → f tt (holding (data ++ bytes) ref) = Some (y, s').
Proof. intros H Hl. by rewrite append_bind in H. Qed.

Lemma c_ret_inv {A} (x y : A) s s' : (mret x : C A) s = Some (y, s') → x = y ∧ s = s'.
Proof. by intros [= -> ->]. Qed.

Lemma get_val_word w d v0 v : get_val (Some w) d v0 = (0%Z, v) → In (w, v) d.
Proof. intros H. by destruct (get_val_zero _ _ _ _ H) as (? & [= <-] & ?). Qed.

Lemma flag_zero b : flag b = 0%Z → b = false.
Proof. by destruct b. Qed.

(** One statement of a handler that ended. *)
Ltac handler_step H :=
  lazymatch type of H with
  | (c_lift _ ≫= _) _ = Some _ =>
      let x := fresh "x" in let Hx := fresh "Hx" in apply c_lift_inv in H as (x & Hx & H)
  | (append_data _ ≫= _) (holding _ _) = Some _ =>
      apply append_inv in H; [|rewrite ?length_app, ?le_bytes_length; simpl; lia]
  | mret _ _ = Some _ => apply c_ret_inv in H as [H <-]
  | context [get_val (Some ?k) ?d ?v] =>
      let Hv := fresh "Hv" in destruct (get_val (Some k) d v) as [??] eqn:Hv
  end; cbv beta iota zeta in H.

(** The arguments of a handler, from their number. *)
Ltac handler_args :=
  repeat match goal with
  | Hx : word_arg _ (?a :: _) 0 = Some _ |- _ => apply (word_arg_inv _ _ _ _ a) in Hx; [subst a|done]
  | Hx : word_arg _ (_ :: ?a :: _) 1 = Some _ |- _ => apply (word_arg_inv _ _ _ _ a) in Hx; [subst a|done]
  | Hx : word_arg _ (_ :: _ :: ?a :: _) 2 = Some _ |- _ => apply (word_arg_inv _ _ _ _ a) in Hx; [subst a|done]
  | Hx : word_arg _ (_ :: _ :: _ :: _ :: _ :: ?a :: _) 5 = Some _ |- _ =>
      apply (word_arg_inv _ _ _ _ a) in Hx; [subst a|done]
  | Hx : word_arg _ (_ :: _ :: _ :: _ :: _ :: _ :: ?a :: _) 6 = Some _ |- _ =>
      apply (word_arg_inv _ _ _ _ a) in Hx; [subst a|done]
  | Hx : int_arg (_ :: ?a :: _) 1 = Some _ |- _ => apply (int_arg_inv _ _ _ a) in Hx; [subst a|done]
  | Hx : int_arg (_ :: _ :: ?a :: _) 2 = Some _ |- _ => apply (int_arg_inv _ _ _ a) in Hx; [subst a|done]
  | Hx : int_arg (_ :: _ :: _ :: ?a :: _) 3 = Some _ |- _ => apply (int_arg_inv _ _ _ a) in Hx; [subst a|done]
  | Hx : int_arg (_ :: _ :: _ :: _ :: ?a :: _) 4 = Some _ |- _ => apply (int_arg_inv _ _ _ a) in Hx; [subst a|done]
  | Hx : uint_arg (_ :: ?a :: _) 1 = Some _ |- _ =>
      apply (uint_arg_inv _ _ _ a) in Hx as (? & -> & ->); [|done]
  | Hx : uint_arg (_ :: _ :: ?a :: _) 2 = Some _ |- _ =>
      apply (uint_arg_inv _ _ _ a) in Hx as (? & -> & ->); [|done]
  end.

(** A handler that ends with 0 has appended what its command means. *)
Definition handler_encodes (now : timeval) (name : string) (count : nat) (h : handler) : Prop :=
  ∀ f line type ref s1, length (sscanf line f) = count →
    h now f line (holding [type] ref) = Some (0%Z, s1) →
    ∃ bytes ref', s1 = holding (type :: bytes) ref' ∧ encodes now name (sscanf line f) bytes.

(** Names the arguments of a handler, and runs it. *)
Ltac handler_start h :=
  intros f line type ref s1 Hl H; unfold h in H; cbv beta zeta in H;
  destruct (sscanf line f) as [|a0 [|a1 [|a2 [|a3 [|a4 [|a5 [|a6 [|]]]]]]]]; try discriminate Hl;
  repeat handler_step H.

Lemma no_args_encodes now name :
  name ∈ ["config_radio_stop"; "green_led_on"; "green_led_blink"; "test_got_pps"] →
  handler_encodes now name 0 cmd_no_args.
Proof. intros Hn. handler_start cmd_no_args. exists [], ref. split; [done|by constructor]. Qed.

Lemma set_time_encodes now : handler_encodes now "set_time" 0 cmd_set_time.
Proof.
  intros f line type ref s1 Hl H. unfold cmd_set_time in H.
  apply c_bind_inv in H as ([] & s2 & [= <-] & H).
  change (MkCmdState _ now) with (holding [type] now) in H. repeat handler_step H.
  destruct (sscanf line f); [|done]. eexists _, now. split; [reflexivity|constructor].
Qed.

Lemma set_node_id_encodes now : handler_encodes now "set_node_id" 2 cmd_set_node_id.
Proof.
  handler_start cmd_set_node_id. subst. handler_args.
  eexists _, ref. split; [reflexivity|]. constructor. by eapply get_val_word.
Qed.

Lemma alim_encodes now name :
  name ∈ ["start"; "stop"] → handler_encodes now name 1 cmd_alim.
Proof.
  intros Hn. handler_start cmd_alim. subst. handler_args.
  eexists _, ref. split; [reflexivity|]. constructor; [done|]. by eapply get_val_word.
Qed.

Lemma start_stop_encodes now name :
  name ∈ ["test_gpio"; "test_i2c"; "test_pps"] → handler_encodes now name 1 cmd_start_stop_args.
Proof.
  intros Hn. handler_start cmd_start_stop_args. subst. handler_args.
  eexists _, ref. split; [reflexivity|]. apply enc_start_stop; [done|]. by eapply get_val_word.
Qed.

Lemma state_d_cases w state : In (w, state) state_d → w = "start" ∧ state = START ∨ w = "stop" ∧ state = STOP.
Proof. intros H. in_cases H; auto. Qed.

Lemma consumption_full_encodes now :
  handler_encodes now "config_consumption_measure" 7 cmd_consumption.
Proof.
  handler_start cmd_consumption. handler_args.
  destruct (Z.eqb_spec z 0) as [->|]; [|by apply c_ret_inv in H as [? _]]. cbn [negb] in H.
  apply get_val_word, state_d_cases in Hv as [[-> ->]|[-> ->]].
  - cbn [Z.eqb START STOP Pos.eqb] in H. repeat handler_step H.
    apply Z.lor_eq_0_iff in H as [[-> ->]%Z.lor_eq_0_iff ->].
    eexists _, ref. split; [reflexivity|].
    constructor; by eapply get_val_word.
  - cbn [Z.eqb START STOP Pos.eqb] in H. repeat handler_step H.
    eexists _, ref. split; [reflexivity|]. constructor.
Qed.

Lemma consumption_short_encodes now :
  handler_encodes now "config_consumption_measure" 1 cmd_consumption.
Proof.
  handler_start cmd_consumption. apply (word_arg_inv _ _ _ _ a0) in Hx; [subst a0|done].
  destruct (Z.eqb_spec z 0) as [->|]; [|by apply c_ret_inv in H as [? _]]. cbn [negb] in H.
  apply get_val_word, state_d_cases in Hv as [[-> ->]|[-> ->]].
  - injection Hx0 as <-. cbn [Z.eqb START STOP Pos.eqb] in H. repeat handler_step H.
    apply Z.lor_eq_0_iff in H as [[-> _]%Z.lor_eq_0_iff _]. by vm_compute in Hv0.
  - cbn [Z.eqb START STOP Pos.eqb] in H. repeat handler_step H.
    eexists _, ref. split; [reflexivity|]. constructor.
Qed.

Lemma radio_measure_encodes now :
  handler_encodes now "config_radio_measure" 3 cmd_radio_measure.
Proof.
  handler_start cmd_radio_measure. handler_args.
  apply flag_zero, orb_false_iff in H as [[Hc%Z.eqb_neq Hp%Z.eqb_neq]%orb_false_iff Hn%Z.ltb_ge].
  eexists _, ref. split; [by rewrite <- !(assoc_L (++))|]. by constructor.
Qed.

Lemma radio_sniffer_encodes now :
  handler_encodes now "config_radio_sniffer" 2 cmd_radio_sniffer.
Proof.
  handler_start cmd_radio_sniffer. handler_args.
  apply flag_zero, orb_false_iff in H as [H0%Z.eqb_neq H].
  eexists _, ref. split; [by rewrite <- !(assoc_L (++))|]. constructor; [done|done|..]; intros Hs.
  - rewrite Hs in H. cbn [Z.eqb negb] in H. by apply negb_false_iff, Z.eqb_eq in H.
  - rewrite (proj2 (Z.eqb_neq _ _) Hs) in H. by apply Z.eqb_neq in H.
Qed.

Lemma radio_pp_full_encodes now :
  handler_encodes now "test_radio_ping_pong" 3 cmd_radio_pp.
Proof.
  handler_start cmd_radio_pp. handler_args.
  destruct (Z.eqb_spec z0 START) as [->|Hne]; repeat handler_step H.
  - apply Z.lor_eq_0_iff in H as [[-> Hc]%Z.lor_eq_0_iff ->].
    apply flag_zero, orb_false_iff in Hc as [Hlo%Z.ltb_ge Hhi%Z.ltb_ge].
    apply get_val_word, state_d_cases in Hv as [[-> _]|[_ ?]]; [|done].
    eexists _, ref. split; [by rewrite <- !(assoc_L (++))|]. constructor; [done|].
    by eapply get_val_word.
  - subst. apply get_val_word, state_d_cases in Hv as [[_ ?]|[-> ->]]; [done|].
    eexists _, ref. split; [reflexivity|]. constructor.
Qed.

Lemma radio_pp_short_encodes now :
  handler_encodes now "test_radio_ping_pong" 1 cmd_radio_pp.
Proof.
  handler_start cmd_radio_pp. apply (word_arg_inv _ _ _ _ a0) in Hx; [subst a0|done].
  injection Hx0 as <-. destruct (Z.eqb_spec z0 START) as [->|Hne]; repeat handler_step H.
  - by apply Z.lor_eq_0_iff in H as [[_ Hc]%Z.lor_eq_0_iff _].
  - subst. apply get_val_word, state_d_cases in Hv as [[_ ?]|[-> ->]]; [done|].
    eexists _, ref. split; [reflexivity|]. constructor.
Qed.

(** Every handler of the table appends what the command of its format means. *)
Lemma commands_encode now cur :
  In cur commands → handler_encodes now (until_blank (fmt cur)) (fmt_count cur) (command cur).
Proof.
  intros Hin. unfold commands in Hin.
  repeat (destruct Hin as [<-|Hin]; [
    cbn [fmt fmt_count command];
    lazymatch goal with |- handler_encodes _ (until_blank ?f) _ _ =>
      let n := eval vm_compute in (until_blank f) in change (until_blank f) with n end;
    first
    [ apply alim_encodes; set_solver | apply consumption_full_encodes
    | apply consumption_short_encodes | apply radio_measure_encodes
    | apply radio_sniffer_encodes | apply no_args_encodes; set_solver
    | apply set_time_encodes | apply set_node_id_encodes
    | apply start_stop_encodes; set_solver
    | apply radio_pp_full_encodes | apply radio_pp_short_encodes ]|]).
  by destruct Hin.
Qed.

(** The entry [command_parse] finds. *)
Lemma command_parse_found cmd table cur :
  (∀ c, In c table → fmt_count c = 0 → length (sscanf (fmt c) (fmt c)) = 0) →
  command_parse cmd table = Some (Some cur) →
  In cur table ∧ length (sscanf cmd (fmt cur)) = fmt_count cur ∧
    (0 < fmt_count cur ∨ cmd = fmt cur).
Proof.
  induction table as [|c table IH]; [done|]. intros Htable. cbn [command_parse].
  assert (Hno : ∀ c, In c table → fmt_count c = 0 → length (sscanf (fmt c) (fmt c)) = 0)
    by (intros c0 Hc0; apply Htable; by right).
  assert (Hrest : command_parse cmd table = Some (Some cur) →
    In cur (c :: table) ∧ length (sscanf cmd (fmt cur)) = fmt_count cur ∧
      (0 < fmt_count cur ∨ cmd = fmt cur)).
  { intros Hr. destruct (IH Hno Hr) as [? ?]. split; [by right|done]. }
  destruct (Nat.eqb_spec (fmt_count c) 0) as [H0|H0].
  - destruct (String.eqb_spec cmd (fmt c)) as [->|]; [|done]. intros [= <-].
    split; [by left|]. split; [|by right]. rewrite H0. apply Htable; [by left|done].
  - destruct (32 <? fmt_count c)%nat; [done|]. cbv zeta.
    destruct (negb _); [done|].
    destruct (Nat.eqb_spec (length (sscanf cmd (fmt c))) (fmt_count c)); [|done].
    intros [= <-]. split; [by left|]. split; [done|left; lia].
Qed.


(** What a conversion scans starts with the characters before it. *)
Lemma scan_prefix lit ds s :
  scan ((DChar <$> String.list_ascii_of_string lit) ++ ds) s ≠ [] → ∃ r, s = lit +:+ r.
Proof.
  revert s. induction lit as [|c lit IH]; intros s Hs; [by exists s|].
  cbn [String.list_ascii_of_string fmap list_fmap app scan] in Hs.
  destruct s as [|x s]; [done|]. destruct (Ascii.eqb_spec x c) as [->|]; [|done].
  destruct (IH s Hs) as [r ->]. by exists r.
Qed.

Lemma until_blank_lit lit r :
  no_char " " lit → until_blank (lit +:+ r) = lit +:+ until_blank r.
Proof.
  unfold no_char. induction lit as [|c lit IH]; [done|]. cbn [str_all]. intros H. bool_hyps.
  rewrite !str_app_cons. cbn [until_blank]. destruct (Ascii.eqb c " "); [done|]. by rewrite IH.
Qed.

Lemma prefix_append a b : String.prefix a (a +:+ b) = true.
Proof.
  induction a as [|c a IH]; [by destruct b|]. rewrite str_app_cons. cbn [String.prefix].
  by destruct (Ascii.ascii_dec c c).
Qed.

(** The format of an entry with conversions starts with its name. *)
Lemma commands_literal cur :
  In cur commands → 0 < fmt_count cur → ∃ ds, no_char " " (until_blank (fmt cur)) ∧
    parse_fmt None (fmt cur) = (DChar <$> String.list_ascii_of_string (until_blank (fmt cur))) ++ ds.
Proof.
  unfold commands. intros Hin Hc.
  repeat (destruct Hin as [<-|Hin];
    [first [by apply Nat.lt_irrefl in Hc|eexists; split; [reflexivity|lazy; reflexivity]]|]).
  by destruct Hin.
Qed.

(** No name of the dictionary extends the name of an entry. *)
Lemma commands_names :
  forallb (λ cur, forallb (λ '(n, _),
    implb (String.prefix (until_blank (fmt cur)) n) (String.eqb n (until_blank (fmt cur))))
    commands_d) commands = true.
Proof. vm_compute. reflexivity. Qed.

(** The name at the start of a line is that of the entry that scans it. *)
Lemma entry_name cur line name type :
  In cur commands →
  0 < fmt_count cur ∧ length (sscanf line (fmt cur)) = fmt_count cur ∨ line = fmt cur →
  until_blank line = name → In (name, type) commands_d → until_blank (fmt cur) = name.
Proof.
  intros Hin [[Hc Hs]|Hs] <- Hname; [|by rewrite Hs].
  destruct (commands_literal cur Hin Hc) as (ds & Hlit & Hds).
  destruct (scan_prefix (until_blank (fmt cur)) ds line) as [r Hr].
  { intros Hnil. unfold sscanf in Hs. rewrite Hds, Hnil in Hs. simpl in Hs. lia. }
  pose proof commands_names as Hn. rewrite forallb_forall in Hn. specialize (Hn _ Hin).
  rewrite forallb_forall in Hn. specialize (Hn _ Hname). cbv beta iota in Hn.
  rewrite Hr, until_blank_lit, prefix_append in Hn by done. rewrite Hr, until_blank_lit by done.
  by apply String.eqb_eq in Hn.
Qed.

(** The table is not unfolded to compare computations. *)
#[local] Strategy opaque [commands].

(** The entries without conversions. *)
Lemma commands_no_args c :
  In c commands → fmt_count c = 0 → length (sscanf (fmt c) (fmt c)) = 0.
Proof.
  assert (H : forallb (λ c, implb (fmt_count c =? 0) (length (sscanf (fmt c) (fmt c)) =? 0))%nat
    commands = true) by (vm_compute; reflexivity).
  rewrite forallb_forall in H. intros Hin Hc. specialize (H _ Hin). cbv beta in H.
  rewrite Hc in H. by apply Nat.eqb_eq in H.
Qed.

(** What [parse_cmd] accepts, and the packet it leaves. *)
Lemma parse_cmd_packet now buff s s1 :
  parse_cmd now buff s = Some (0%Z, s1) →
  ∃ name type cur bytes ref, s1 = holding (type :: bytes) ref ∧ In (name, type) commands_d ∧
    until_blank buff = name ∧ In cur commands ∧ until_blank (fmt cur) = name ∧
    length (sscanf buff (fmt cur)) = fmt_count cur ∧
    encodes now name (sscanf buff (fmt cur)) bytes ∧ length bytes ≤ 8 ∧ Forall byte_ok bytes.
Proof.
  intros Hp. unfold parse_cmd in Hp.
  apply c_lift_inv in Hp as (cmd & Hc & Hp). destruct cmd as [cur|]; [|done].
  apply c_bind_inv in Hp as ([] & s2 & Hm & Hp).
  assert (s2 = holding [] (set_time_ref s)) as -> by (by injection Hm as <-).
  apply c_lift_inv in Hp as (token & Ht & Hp).
  destruct (get_val token commands_d 0) as [r type] eqn:Hv.
  apply c_bind_inv in Hp as ([] & s3 & Ha & Hp).
  rewrite append_data_holding in Ha by (simpl; lia).
  assert (s3 = holding [type] (set_time_ref s)) as -> by (by injection Ha as <-).
  apply c_bind_inv in Hp as (r' & s4 & Hr & Hp).
  assert (Z.lor r r' = 0%Z ∧ s4 = s1) as [[-> ->]%Z.lor_eq_0_iff ->]
    by (by injection Hp as -> ->).
  destruct (get_val_zero _ _ _ _ Hv) as (name & -> & Hin).
  destruct (command_parse_found _ _ _ commands_no_args Hc) as (Hcur & Hl & Hf).
  assert (Hname : until_blank buff = name) by (unfold cstrtok in Ht; repeat case_match; congruence).
  assert (Hfmt : until_blank (fmt cur) = name) by (eapply entry_name; [done| |done|done]; tauto).
  destruct (commands_append now cur (fmt cur) buff Hcur
    [type] (set_time_ref s) 0%Z s1) as (args & ref' & Hs1 & Hlen & Hok); [simpl; lia|done|].
  destruct (commands_encode now cur Hcur (fmt cur) buff type (set_time_ref s) s1 Hl Hr)
    as (bytes & ref2 & Hs2 & He). rewrite Hfmt in He.
  assert (Hb : args = bytes).
  { pose proof (f_equal (λ x, packet_bytes (cmd_buff x)) Hs1) as H1. cbv beta in H1.
    rewrite Hs2, !packet_bytes_holding in H1. by injection H1. }
  subst args. exists name, type, cur, bytes, ref2. by split_and!.
Qed.

(** ** Properties *)


