(* ===== verification/CnPackets.v ===== *)
(** * Packets of the control node ([control_node_serial/src/serial.c])

    [parse_rx_data] finds the packets in what the reads of the serial link give.
    Its state survives from one read to the next; the buffer of the packet is never
    cleared.  [handle_pkt] gets the length and the whole buffer. *)

From S2P Require Import Prelude CFormat CnCommands.

(** ** State *)

Inductive rx_phase := STATE_IDLE | STATE_WAIT_LEN | STATE_GET_PAYLOAD.

(** The static variables [state] and [pkt]. *)
Record rx := MkRx {
  rx_state : rx_phase;
  p_len : nat;
  p_data : list Z;                       (* 2048 bytes *)
  p_idx : nat                            (* pkt.cur_idx *)
}.

Definition rx_init : rx := MkRx STATE_IDLE 0 (replicate 2048 0%Z) 0.

(** The index [memchr] finds. *)
Fixpoint memchr (c : Z) (l : list Z) : option nat :=
  match l with
  | [] => None
  | b :: l => if (b =? c)%Z then Some 0 else S <$> memchr c l
  end.

Section packets.
Context {H : Type}.
Context (handle_pkt : nat → list Z → H → H).

(** ** The parser *)

(** The loop of [parse_rx_data]; a turn takes a byte or ends an empty packet. *)
Fixpoint parse_rx_loop (fuel : nat) (rx_buff : list Z) (cur_idx : nat) (s : rx) (h : H)
    : rx * H :=
  match fuel with
  | O => (s, h)
  | S fuel =>
      if length rx_buff <=? cur_idx then (s, h) else
      match rx_state s with
      | STATE_IDLE =>
          match memchr SYNC_BYTE (drop cur_idx rx_buff) with
          | None => (s, h)
          | Some i =>
              parse_rx_loop fuel rx_buff (cur_idx + i + 1)
                (MkRx STATE_WAIT_LEN (p_len s) (p_data s) (p_idx s)) h
          end
      | STATE_WAIT_LEN =>
          parse_rx_loop fuel rx_buff (cur_idx + 1)
            (MkRx STATE_GET_PAYLOAD (Z.to_nat (nth cur_idx rx_buff 0%Z)) (p_data s) 0) h
      | STATE_GET_PAYLOAD =>
          let n_bytes := Nat.min (p_len s - p_idx s) (length rx_buff - cur_idx) in
          let data := list_inserts (p_idx s) (take n_bytes (drop cur_idx rx_buff)) (p_data s) in
          let idx := p_idx s + n_bytes in
          if p_len s =? idx
          then parse_rx_loop fuel rx_buff (cur_idx + n_bytes)
                 (MkRx STATE_IDLE (p_len s) data idx) (handle_pkt (p_len s) data h)
          else parse_rx_loop fuel rx_buff (cur_idx + n_bytes)
                 (MkRx STATE_GET_PAYLOAD (p_len s) data idx) h
      end
  end.

Definition parse_rx_data (rx_buff : list Z) (s : rx * H) : rx * H :=
  parse_rx_loop (2 * length rx_buff + 2) rx_buff 0 s.1 s.2.

(** ** Reference: one byte at a time *)

Definition rx_idle (b : Z) (s : rx) : rx :=
  if (b =? SYNC_BYTE)%Z then MkRx STATE_WAIT_LEN (p_len s) (p_data s) (p_idx s) else s.

Definition rx_byte (s : rx * H) (b : Z) : rx * H :=
  let '(s, h) := s in
  match rx_state s with
  | STATE_IDLE => (rx_idle b s, h)
  | STATE_WAIT_LEN => (MkRx STATE_GET_PAYLOAD (Z.to_nat b) (p_data s) 0, h)
  | STATE_GET_PAYLOAD =>
      if p_len s =? p_idx s
      then (rx_idle b (MkRx STATE_IDLE (p_len s) (p_data s) (p_idx s)),
            handle_pkt (p_len s) (p_data s) h)
      else
        let data := <[p_idx s := b]> (p_data s) in
        if p_len s =? S (p_idx s)
        then (MkRx STATE_IDLE (p_len s) data (S (p_idx s)), handle_pkt (p_len s) data h)
        else (MkRx STATE_GET_PAYLOAD (p_len s) data (S (p_idx s)), h)
  end.

Definition rx_bytes (s : rx * H) (bs : list Z) : rx * H := fold_left rx_byte bs s.

(** The static variables between two turns: only an empty packet is complete. *)
Definition rx_wf (s : rx) : Prop :=
  length (p_data s) = 2048 ∧ p_len s < 256 ∧
  (rx_state s = STATE_GET_PAYLOAD → p_idx s < p_len s ∨ p_idx s = 0).

(** ** Lemmas *)

Lemma rx_init_wf : rx_wf rx_init.
Proof. unfold rx_wf. by split_and!; [|simpl; lia|]. Qed.

Lemma rx_bytes_app s bs bs' : rx_bytes s (bs ++ bs') = rx_bytes (rx_bytes s bs) bs'.
Proof. apply fold_left_app. Qed.

Lemma memchr_None c l : memchr c l = None → Forall (λ b, b ≠ c) l.
Proof.
  induction l as [|b l IH]; simpl; [constructor|]. destruct (Z.eqb_spec b c); [done|].
  destruct (memchr c l); [done|]. constructor; auto.
Qed.

Lemma memchr_Some c l i :
  memchr c l = Some i → ∃ l', l = take i l ++ c :: l' ∧ Forall (λ b, b ≠ c) (take i l) ∧
                              l' = drop (i + 1) l ∧ i < length l.
Proof.
  revert i; induction l as [|b l IH]; intros i; simpl; [done|].
  destruct (Z.eqb_spec b c) as [->|Hb].
  - intros [= <-]. exists l. simpl. split_and!; [done|constructor|done|lia].
  - destruct (memchr c l) as [j|]; [|done]. intros [= <-].
    destruct (IH j eq_refl) as (l' & Hl & Hf & Hd & Hj). exists l'. simpl.
    split_and!; [by f_equal|by constructor|done|lia].
Qed.

Lemma rx_bytes_idle s h l :
  rx_state s = STATE_IDLE → Forall (λ b, b ≠ SYNC_BYTE) l → rx_bytes (s, h) l = (s, h).
Proof.
  intros Hs. induction 1 as [|b l Hb Hl IH]; [done|]. unfold rx_bytes in *. simpl. rewrite Hs.
  unfold rx_idle. destruct (Z.eqb_spec b SYNC_BYTE); [done|exact IH].
Qed.

(** A part of a payload, the last byte included or not. *)
Lemma rx_bytes_payload bs s h :
  rx_state s = STATE_GET_PAYLOAD → length (p_data s) = 2048 → p_len s < 256 →
  bs ≠ [] → p_idx s + length bs ≤ p_len s →
  rx_bytes (s, h) bs =
    let data := list_inserts (p_idx s) bs (p_data s) in
    let idx := p_idx s + length bs in
    if p_len s =? idx then (MkRx STATE_IDLE (p_len s) data idx, handle_pkt (p_len s) data h)
    else (MkRx STATE_GET_PAYLOAD (p_len s) data idx, h).
Proof.
  revert s. induction bs as [|b bs IH]; intros s Hs Hd Hl Hne Hlen; [done|]. clear Hne.
  simpl length in *. unfold rx_bytes in *. cbn [fold_left rx_byte]. rewrite Hs.
  destruct (Nat.eqb_spec (p_len s) (p_idx s)); [lia|].
  destruct bs as [|b' bs].
  - simpl. rewrite Nat.add_1_r. by destruct (p_len s =? S (p_idx s)).
  - destruct (Nat.eqb_spec (p_len s) (S (p_idx s))); [simpl in *; lia|].
    rewrite IH by (cbn [rx_state p_data p_len p_idx] in *;
      rewrite ?length_insert; simpl length in *; (done || lia)).
    cbn [p_len p_data p_idx]. rewrite <- list_insert_inserts_lt by lia.
    replace (S (p_idx s) + length (b' :: bs)) with (p_idx s + S (length (b' :: bs))) by lia.
    done.
Qed.

Lemma drop_nth (l : list Z) i : i < length l → drop i l = nth i l 0%Z :: drop (S i) l.
Proof.
  intros Hi. destruct (lookup_lt_is_Some_2 l i Hi) as [x Hx].
  rewrite (drop_S _ _ _ Hx). f_equal. symmetry. by apply nth_lookup_Some.
Qed.

Lemma rx_byte_empty s h b :
  rx_state s = STATE_GET_PAYLOAD → p_len s = p_idx s →
  rx_byte (s, h) b = rx_byte (MkRx STATE_IDLE (p_len s) (p_data s) (p_idx s),
                              handle_pkt (p_len s) (p_data s) h) b.
Proof. intros Hs He. cbn [rx_byte]. rewrite Hs. cbn [rx_state]. by rewrite (proj2 (Nat.eqb_eq _ _) He). Qed.

(** The loop does what the bytes do one after the other; the fuel is enough. *)
Lemma parse_rx_loop_bytes fuel buf i s h :
  Forall byte_ok buf → rx_wf s →
  2 * (length buf - i) + (if rx_state s is STATE_GET_PAYLOAD then 1 else 0) < fuel →
  parse_rx_loop fuel buf i s h = rx_bytes (s, h) (drop i buf).
Proof.
  intros Hbuf. revert i s h.
  induction fuel as [|fuel IH]; intros i s h (Hd & Hl & Hp) Hfuel; [lia|].
  cbn [parse_rx_loop]. destruct (Nat.leb_spec (length buf) i); [by rewrite drop_ge by lia|].
  destruct (rx_state s) eqn:Hs.
  - destruct (memchr SYNC_BYTE (drop i buf)) as [j|] eqn:Hm.
    + apply memchr_Some in Hm as (l' & Hbs & Hno & Hl' & Hj). rewrite length_drop in Hj.
      rewrite IH by (first [by split_and!|cbn [rx_state]; lia]). rewrite Hbs, (rx_bytes_app (s, h)), (rx_bytes_idle s h) by done.
      unfold rx_bytes at 2. cbn [fold_left rx_byte]. rewrite Hs. unfold rx_idle.
      rewrite Z.eqb_refl, Hl', drop_drop. unfold rx_bytes. do 2 f_equal. lia.
    + symmetry. apply rx_bytes_idle; [done|by apply memchr_None].
  - rewrite IH; [|split_and!; cbn [p_data p_len rx_state p_idx]; [done| |by right]|cbn [rx_state]; lia].
    + rewrite (drop_nth buf i), Nat.add_1_r by done. unfold rx_bytes. cbn [fold_left rx_byte].
      by rewrite Hs.
    + assert (byte_ok (nth i buf 0%Z)) as Hb; [|unfold byte_ok in Hb; lia].
      rewrite Forall_forall in Hbuf. apply Hbuf, list_elem_of_In, nth_In. done.
  - set (n := Nat.min (p_len s - p_idx s) (length buf - i)).
    destruct (Nat.eq_dec (p_len s) (p_idx s)) as [He|He].
    + assert (n = 0) as -> by lia. rewrite take_0, Nat.add_0_r. cbn [list_inserts].
      rewrite Nat.add_0_r, (proj2 (Nat.eqb_eq _ _) He).
      rewrite IH by (first [by split_and!|cbn [rx_state]; lia]).
      rewrite (drop_nth buf i) by done. unfold rx_bytes. cbn [fold_left].
      by rewrite <- rx_byte_empty.
    + assert (p_idx s < p_len s) as Hlt by (destruct (Hp eq_refl); lia).
      assert (length (take n (drop i buf)) = n) as Hlen
        by (rewrite length_take, length_drop; lia).
      rewrite <- (take_drop n (drop i buf)) at 4. rewrite rx_bytes_app, drop_drop.
      rewrite rx_bytes_payload; [|done..| |rewrite Hlen; lia].
      2: { intros Hnil. rewrite Hnil in Hlen. simpl in Hlen. lia. }
      rewrite Hlen. cbv zeta. destruct (Nat.eqb_spec (p_len s) (p_idx s + n)).
      * apply IH; [|cbn [rx_state]; lia]. split_and!; cbn [p_data p_len rx_state]; try done.
        by rewrite length_inserts.
      * apply IH; [|cbn [rx_state]; lia]. split_and!; cbn [p_data p_len rx_state p_idx]; try done.
        -- by rewrite length_inserts.
        -- left. lia.
Qed.

Lemma rx_byte_wf s h b : byte_ok b → rx_wf s → rx_wf (rx_byte (s, h) b).1.
Proof.
  unfold byte_ok. intros Hb (Hd & Hl & Hp). cbn [rx_byte]. unfold rx_idle, rx_wf.
  destruct (rx_state s) eqn:Hs.
  - destruct (b =? SYNC_BYTE)%Z; simpl; split_and!; (done || congruence).
  - simpl. split_and!; [done|lia|by right].
  - destruct (Nat.eqb_spec (p_len s) (p_idx s)).
    + destruct (b =? SYNC_BYTE)%Z; simpl; split_and!; (done || congruence).
    + destruct (Nat.eqb_spec (p_len s) (S (p_idx s))); simpl;
        (split_and!; [by rewrite length_insert|done|]); [done|].
      intros _. left. destruct (Hp eq_refl); lia.
Qed.

Lemma rx_bytes_wf s h bs : Forall byte_ok bs → rx_wf s → rx_wf (rx_bytes (s, h) bs).1.
Proof.
  intros Hbs. revert s h. induction Hbs as [|b bs Hb Hbs IH]; intros s h Hs; [done|].
  unfold rx_bytes in *. cbn [fold_left]. pose proof (rx_byte_wf s h b Hb Hs) as Hw.
  destruct (rx_byte (s, h) b) as [s' h']. by apply IH.
Qed.

Lemma parse_rx_data_bytes s h buf :
  Forall byte_ok buf → rx_wf s → parse_rx_data buf (s, h) = rx_bytes (s, h) buf.
Proof.
  intros Hb Hs. unfold parse_rx_data. rewrite parse_rx_loop_bytes by (done || (simpl; case_match; lia)).
  done.
Qed.

(** The reads of the serial link, one after the other. *)
Definition rx_reads (s : rx * H) (reads : list (list Z)) : rx * H :=
  fold_left (λ s buf, parse_rx_data buf s) reads s.

Lemma rx_reads_bytes s h reads :
  Forall (Forall byte_ok) reads → rx_wf s → rx_reads (s, h) reads = rx_bytes (s, h) (concat reads).
Proof.
  intros Hr. revert s h. induction Hr as [|buf reads Hb Hr IH]; intros s h Hs; [done|].
  cbn [concat]. rewrite rx_bytes_app. unfold rx_reads in *. cbn [fold_left].
  rewrite parse_rx_data_bytes by done.
  pose proof (rx_bytes_wf s h buf Hb Hs) as Hw.
  destruct (rx_bytes (s, h) buf) as [s' h']. by apply IH.
Qed.

(** ** Sending packets *)

(** A packet of at least one byte, after any bytes without the synchronisation
    byte: the buffer it leaves. *)
Lemma rx_bytes_packet s h noise data :
  rx_state s = STATE_IDLE → length (p_data s) = 2048 →
  Forall (λ b, b ≠ SYNC_BYTE) noise → data ≠ [] → length data < 256 →
  rx_bytes (s, h) (noise ++ packet data) =
    let buf := list_inserts 0 data (p_data s) in
    (MkRx STATE_IDLE (length data) buf (length data), handle_pkt (length data) buf h).
Proof.
  intros Hs Hd Hn Hne Hl. rewrite rx_bytes_app, rx_bytes_idle by done. unfold packet.
  unfold rx_bytes. cbn [fold_left rx_byte]. rewrite Hs. unfold rx_idle. rewrite Z.eqb_refl.
  cbn [rx_byte rx_state p_data]. rewrite Nat2Z.id. fold (rx_bytes
    (MkRx STATE_GET_PAYLOAD (length data) (p_data s) 0, h) data).
  rewrite rx_bytes_payload by done. cbn [p_len p_idx p_data]. cbv zeta. simpl.
  by rewrite Nat.eqb_refl.
Qed.

(** What the handler is given for a list of packets, each in what the ones before
    left of the buffer. *)
Fixpoint handle_packets (pkts : list (list Z)) (buf : list Z) (h : H) : list Z * H :=
  match pkts with
  | [] => (buf, h)
  | data :: pkts =>
      let buf := list_inserts 0 data buf in
      handle_packets pkts buf (handle_pkt (length data) buf h)
  end.
End packets.

Lemma take_inserts (data buf : list Z) :
  length data ≤ length buf → take (length data) (list_inserts 0 data buf) = data.
Proof.
  intros Hl. rewrite <- (take_drop (length data) buf), list_inserts_0_r by (rewrite length_take; lia).
  apply take_app_length.
Qed.

(** Packets sent one after the other, with other bytes between them. *)
Lemma rx_reads_packets {H : Type} (handle_pkt : nat → list Z → H → H) s h reads
    (pkts : list (list Z * list Z)) :
  Forall (Forall byte_ok) reads → rx_wf s → rx_state s = STATE_IDLE →
  Forall (λ p, Forall (λ b, b ≠ SYNC_BYTE) p.1 ∧ p.2 ≠ [] ∧ length p.2 < 256) pkts →
  concat reads = concat ((λ p, p.1 ++ packet p.2) <$> pkts) →
  ∃ s', rx_reads handle_pkt (s, h) reads =
          (s', (handle_packets handle_pkt pkts.*2 (p_data s) h).2) ∧
        rx_state s' = STATE_IDLE ∧ rx_wf s'.
Proof.
  intros Hbytes Hwf Hs Hpkts Hc.
  rewrite rx_reads_bytes, Hc by done. clear Hc Hbytes reads.
  revert s h Hwf Hs. induction Hpkts as [|[noise data] pkts (Hn & Hne & Hl) Hpkts IH];
    intros s h Hwf Hs; [by exists s|].
  cbn [fmap list_fmap concat fst snd] in *. rewrite rx_bytes_app.
  pose proof Hwf as (Hd & _ & _). rewrite rx_bytes_packet by done. cbv zeta.
  apply IH; [|done]. split_and!; cbn [p_data p_len rx_state]; [|done|done].
  by rewrite length_inserts.
Qed.

(** ** Properties *)

(** C20: the packets of the serial link.  The parser does not depend on how the reads
    cut the bytes: it is the machine that takes one byte at a time, from any state
    it can be in.  Sent between packets, bytes that are not the synchronisation byte
    are skipped, and every packet of 1 to 255 bytes is given to the handler whole and
    in order. *)
Theorem parse_rx_correct {H : Type} (handle_pkt : nat → list Z → H → H) (s : rx) (h : H)
    (reads : list (list Z)) (Hbytes : Forall (Forall byte_ok) reads) (Hwf : rx_wf s) :
  rx_reads handle_pkt (s, h) reads = rx_bytes handle_pkt (s, h) (concat reads) ∧
  (∀ pkts : list (list Z * list Z),
     rx_state s = STATE_IDLE →
     Forall (λ p, Forall (λ b, b ≠ SYNC_BYTE) p.1 ∧ p.2 ≠ [] ∧ length p.2 < 256) pkts →
     concat reads = concat ((λ p, p.1 ++ packet p.2) <$> pkts) →
     ∃ s', rx_reads handle_pkt (s, h) reads =
             (s', (handle_packets handle_pkt pkts.*2 (p_data s) h).2) ∧
           rx_state s' = STATE_IDLE ∧ rx_wf s').
Proof. split; [by apply rx_reads_bytes|]. intros pkts. by apply rx_reads_packets. Qed.

(** Two packets with stray bytes before each, cut in the middle of the first. *)
Lemma parse_rx_correct_witness :
  ∃ s', rx_reads (λ len buf pkts, pkts ++ [take len buf])
          (rx_init, []) [[1; 128; 2; 7]; [9; 3; 128]; [1; 5]]%Z = (s', [[7; 9]; [5]]%Z).
Proof.
  destruct (parse_rx_correct (λ len buf pkts, pkts ++ [take len buf]) rx_init []
    [[1; 128; 2; 7]; [9; 3; 128]; [1; 5]]%Z) as [_ Hp].
  { repeat constructor; unfold byte_ok; lia. }
  { apply rx_init_wf. }
  destruct (Hp [([1], [7; 9]); ([3], [5])]%Z) as (s' & Hr & _ & _).
  - reflexivity.
  - repeat constructor; simpl; (lia || done).
  - reflexivity.
  - exists s'. rewrite Hr. reflexivity.
Defined.
