(* ===== verification/CnMeasures.v ===== *)
(** * Measures and answers of the control node
    ([control_node_serial/src/decode.c], [measures_handler.c], [oml_measures.c],
    [time_ref.c], and [write_answer] of [command_reader.c])

    [decode_pkt] handles a packet of the serial link: it prints lines for the
    gateway, injects measures in the OML files and sends the sniffed packets.  What
    it does in the world is the list [cn_out], in order.  A [float] is its 32 bits.
    [clock n] is the time of day at the [n]-th call of [gettimeofday]. *)

From S2P Require Import Prelude PyString CFormat CnCommands CnPackets.

(** What C leaves to the platform: the width of [long], 32 bits on the gateway and
    64 on a workstation, and the sign of a plain [char], which has none on ARM. *)
Class Abi := {
  long_bits : Z;
  long_ok : long_bits = 32%Z ∨ long_bits = 64%Z;
  char_signed : bool
}.

Definition gateway_abi : Abi :=
  {| long_bits := 32; long_ok := or_introl eq_refl; char_signed := false |}.
Definition workstation_abi : Abi :=
  {| long_bits := 64; long_ok := or_intror eq_refl; char_signed := true |}.

(** ** State *)

(** [mh_state.consumption]; [meas_len] is in bytes *)
Record mh_consumption := MkCons {
  mh_p : bool;
  mh_v : bool;
  mh_c : bool;
  mh_power_source : Z;
  mh_meas_len : nat
}.

Definition no_consumption : mh_consumption := MkCons false false false 0 0.

Inductive cn_event :=
  | Print (text : string)                                   (* on the error output *)
  | InjectConsumption (s us power voltage current : Z)
  | InjectRadio (s us channel rssi : Z)
  | InjectSniffer (s us channel rssi lqi crc_ok length : Z)
  | SendSniffer (bytes : list Z).                           (* sniffer_server_send_packet *)

Record Cn := MkCn {
  cn_time_ref : timeval;                (* set_time_ref *)
  cn_consumption : mh_consumption;
  cn_oml_started : bool;                (* oml_measure_started *)
  cn_oml_print : bool;                  (* oml_print *)
  cn_clock : nat;                       (* calls of gettimeofday *)
  cn_out : list cn_event
}.

Definition cn_emit (e : list cn_event) (s : Cn) : Cn :=
  MkCn (cn_time_ref s) (cn_consumption s) (cn_oml_started s) (cn_oml_print s) (cn_clock s)
    (cn_out s ++ e).

Definition set_consumption (c : mh_consumption) (s : Cn) : Cn :=
  MkCn (cn_time_ref s) c (cn_oml_started s) (cn_oml_print s) (cn_clock s) (cn_out s).

(** ** Printing *)

(** [PRINT_ERROR] and [PRINT_MEASURE] *)
Definition print_error (text : string) : cn_event := Print ("cn_serial_error: " +:+ text +:+ nl).
Definition print_measure (text : string) : cn_event := Print ("measures_debug: " +:+ text +:+ nl).

(** [%u.%06u] *)
Definition fmt_time (s us : Z) : string := str_of_Z s +:+ "." +:+ pad_zeros 6 (str_of_Z us).

(** The fields of a [float]. *)
Definition f_sign (f : Z) : bool := Z.testbit f 31.
Definition f_exponent (f : Z) : Z := Z.land (Z.shiftr f 23) 0xFF.
Definition f_mantissa (f : Z) : Z := Z.land f 0x7FFFFF.

Definition NAN : Z := 0x7FC00000.

(** [n / d] to the nearest integer, ties to even. *)
Definition div_nearest (n d : Z) : Z :=
  let q := (n / d)%Z in
  let r := (2 * (n mod d))%Z in
  if (r <? d)%Z then q else if (d <? r)%Z then (q + 1)%Z
  else if Z.even q then q else (q + 1)%Z.

(** The magnitude of a finite [float] in millionths, rounded. *)
Definition f_millionths (f : Z) : Z :=
  let m := if (f_exponent f =? 0)%Z then f_mantissa f else (f_mantissa f + 2 ^ 23)%Z in
  let e := ((if (f_exponent f =? 0)%Z then 1 else f_exponent f) - 150)%Z in
  if (0 <=? e)%Z then (m * 2 ^ e * 10 ^ 6)%Z else div_nearest (m * 10 ^ 6) (2 ^ (- e)).

(** [%f] of a [float], which the call converts to a [double] without loss *)
Definition fmt_f (f : Z) : string :=
  let sign := if f_sign f then "-" else "" in
  if (f_exponent f =? 0xFF)%Z then
    sign +:+ (if (f_mantissa f =? 0)%Z then "inf" else "nan")
  else
    let n := f_millionths f in
    sign +:+ fmt_time (n / 10 ^ 6) (n mod 10 ^ 6).

(** ** OML measures ([oml_measures.c]) *)

Definition oml_measures_consumption (timestamp_s timestamp_us power voltage current : Z)
    (s : Cn) : Cn :=
  cn_emit
    ((if cn_oml_started s
      then [InjectConsumption timestamp_s timestamp_us power voltage current] else []) ++
     (if cn_oml_print s
      then [print_measure ("consumption_measure " +:+ fmt_time timestamp_s timestamp_us
              +:+ " " +:+ fmt_f power +:+ " " +:+ fmt_f voltage +:+ " " +:+ fmt_f current)]
      else [])) s.

Definition oml_measures_radio (timestamp_s timestamp_us channel rssi : Z) (s : Cn) : Cn :=
  cn_emit
    ((if cn_oml_started s
      then [InjectRadio timestamp_s timestamp_us channel rssi] else []) ++
     (if cn_oml_print s
      then [print_measure ("radio_measure " +:+ fmt_time timestamp_s timestamp_us
              +:+ " " +:+ str_of_Z channel +:+ " " +:+ str_of_Z rssi)]
      else [])) s.

Definition oml_measures_sniffer (timestamp_s timestamp_us channel rssi lqi crc_ok length : Z)
    (s : Cn) : Cn :=
  cn_emit
    ((if cn_oml_started s
      then [InjectSniffer timestamp_s timestamp_us channel rssi lqi crc_ok length] else []) ++
     (if cn_oml_print s
      then [print_measure ("sniffer " +:+ fmt_time timestamp_s timestamp_us
              +:+ " " +:+ str_of_Z channel +:+ " " +:+ str_of_Z rssi +:+ " " +:+ str_of_Z lqi
              +:+ " " +:+ (if (crc_ok =? 0)%Z then "crc_error" else "crc_ok")
              +:+ " " +:+ str_of_Z length)]
      else [])) s.

(** ** Time reference ([time_ref.c]) *)

(** [timeval_substract(result, x, y)]: the result and what [y] then holds.  The
    divisions truncate. *)
Definition timeval_substract (x y : timeval) : timeval * timeval :=
  let y :=
    if (tv_usec x <? tv_usec y)%Z then
      let nsec := (Z.quot (tv_usec y - tv_usec x) 1000000 + 1)%Z in
      MkTimeval (tv_sec y + nsec) (tv_usec y - 1000000 * nsec)
    else y in
  let y :=
    if (1000000 <? tv_usec x - tv_usec y)%Z then
      let nsec := Z.quot (tv_usec x - tv_usec y) 1000000 in
      MkTimeval (tv_sec y - nsec) (tv_usec y + 1000000 * nsec)
    else y in
  (MkTimeval (tv_sec x - tv_sec y) (tv_usec x - tv_usec y), y).

(** ** Measure packets ([measures_handler.c]) *)

Section measures.
Context `{A : Abi}.
Context (clock : nat → timeval).

(** A copy of the byte at [i] of the buffer, and of [n] bytes as an integer. *)
Definition byte_at (data : list Z) (i : nat) : Z := nth i data 0%Z.
Definition word_at (data : list Z) (i n : nat) : Z := le_val (take n (drop i data)).

Definition calculate_time_extended (pkt_timeref_s time_us : Z) : timeval :=
  let sec := swrap long_bits pkt_timeref_s in
  let usec := swrap long_bits time_us in
  MkTimeval (swrap long_bits (sec + Z.quot usec 1000000)) (Z.rem usec 1000000).

(** The measures of a packet: [n] of them from index [i]. *)
Fixpoint measures_loop (data : list Z) (t_ref_s : Z) (meas_size : nat)
    (handler : list Z → timeval → Cn → Cn) (n i : nat) (s : Cn) : Cn :=
  match n with
  | O => s
  | S n =>
      let timestamp := calculate_time_extended t_ref_s (word_at data i 4) in
      measures_loop data t_ref_s meas_size handler n (i + 4 + meas_size)
        (handler (take meas_size (drop (i + 4) data)) timestamp s)
  end.

Definition handle_oml_measure (data : list Z) (len meas_size : nat)
    (handler : list Z → timeval → Cn → Cn) (measure_str : string) (s : Cn) : Cn :=
  let num_meas := Z.to_nat (byte_at data 1) in
  let rlen := 2 + 4 + num_meas * (4 + meas_size) in
  if negb (len =? rlen)
  then cn_emit [print_error ("Invalid " +:+ measure_str +:+ " pkt len: "
                 +:+ str_of_Z (Z.of_nat len) +:+ " != expected "
                 +:+ str_of_Z (Z.of_nat rlen))] s
  else measures_loop data (word_at data 2 4) meas_size handler num_meas 6 s.

Definition radio_handler (buf : list Z) (time : timeval) (s : Cn) : Cn :=
  oml_measures_radio (wrap 32 (tv_sec time)) (wrap 32 (tv_usec time))
    (byte_at buf 0) (swrap 8 (byte_at buf 1)) s.

(** The values present are one after the other, in the order power, voltage,
    current. *)
Definition consumption_handler (buf : list Z) (time : timeval) (s : Cn) : Cn :=
  let k := cn_consumption s in
  let i0 := 0 in
  let '(p, i1) := if mh_p k then (word_at buf i0 4, i0 + 4) else (NAN, i0) in
  let '(v, i2) := if mh_v k then (word_at buf i1 4, i1 + 4) else (NAN, i1) in
  let c := if mh_c k then word_at buf i2 4 else NAN in
  oml_measures_consumption (wrap 32 (tv_sec time)) (wrap 32 (tv_usec time)) p v c s.

(** [n] bytes as a big-endian integer: [ntohl] of a copy *)
Definition be_word_at (data : list Z) (i n : nat) : Z := le_val (rev (take n (drop i data))).

Definition JAN_1970 : Z := 2208988800.

(** The whole buffer is [data]; [sniffer_server_send_packet] is given the bytes after
    the type, with the length that counts it. *)
Definition handle_radio_sniffer (data : list Z) (len : nat) (s : Cn) : Cn :=
  let data_ptr := drop 1 data in
  let rlen := 1 + (31 + 1) in
  if len <? rlen
  then cn_emit [print_error ("Invalid sniff pkt len: " +:+ str_of_Z (Z.of_nat len)
                 +:+ " < " +:+ str_of_Z (Z.of_nat rlen) +:+ "(len)")] s
  else
    let pkt_len := byte_at data_ptr 31 in
    let rlen := rlen + Z.to_nat pkt_len in
    if negb (len =? rlen)
    then cn_emit [print_error ("Invalid sniff pkt len: " +:+ str_of_Z (Z.of_nat len)
                   +:+ " != " +:+ str_of_Z (Z.of_nat rlen) +:+ "(payload)")] s
    else
      let s := cn_emit [SendSniffer (take len data_ptr)] s in
      let channel := byte_at data_ptr 4 in
      let lqi := byte_at data_ptr 8 in
      let rssi := swrap 8 (byte_at data_ptr 23) in
      let sec := wrap 32 (be_word_at data_ptr 9 4 - JAN_1970) in
      let usec := (be_word_at data_ptr 13 4 * 1000000 / 2 ^ 32)%Z in
      oml_measures_sniffer sec usec channel rssi lqi 1 (wrap 32 (pkt_len - 2)) s.

Definition config_consumption (power_source p v c : Z) : mh_consumption :=
  let on (x : Z) := negb (x =? 0)%Z in
  MkCons (on p) (on v) (on c) power_source
    ((if on p then 4 else 0) + (if on v then 4 else 0) + (if on c then 4 else 0)).

Definition handle_ack_pkt (data : list Z) (s : Cn) : Cn :=
  let ack_type := byte_at data 1 in
  let config := byte_at data 2 in
  if (ack_type =? SET_TIME)%Z then
    let time_ack := clock (cn_clock s) in
    let '(time_diff, _) := timeval_substract time_ack (cn_time_ref s) in
    cn_emit [Print ("config_ack set_time " +:+ str_of_Z (wrap long_bits (tv_sec time_diff))
              +:+ "." +:+ pad_zeros 6 (str_of_Z (wrap long_bits (tv_usec time_diff))) +:+ nl)]
      (MkCn (MkTimeval 0 0) (cn_consumption s) (cn_oml_started s) (cn_oml_print s)
         (S (cn_clock s)) (cn_out s))
  else if (ack_type =? CONFIG_CONSUMPTION)%Z then
    set_consumption
      (config_consumption
         (Z.land config (Z.lor (Z.lor PW_SRC_3_3V PW_SRC_5V) PW_SRC_BATT))
         (Z.land config MEASURE_POWER) (Z.land config MEASURE_VOLTAGE)
         (Z.land config MEASURE_CURRENT))
      (cn_emit [Print ("config_ack config_consumption_measure" +:+ nl)] s)
  else if (ack_type =? CONFIG_RADIO_STOP)%Z then
    cn_emit [Print ("config_ack config_radio_stop" +:+ nl)] s
  else if (ack_type =? CONFIG_RADIO_MEAS)%Z then
    cn_emit [Print ("config_ack config_radio_measure" +:+ nl)] s
  else cn_emit [print_error ("Unkown ACK frame 0x" +:+ fmt_hex false ack_type)] s.

(** [handle_measure_pkt]: the code it returns *)
Definition handle_measure_pkt (data : list Z) (len : nat) (s : Cn) : Z * Cn :=
  let pkt_type := byte_at data 0 in
  if (pkt_type =? ACK_FRAME)%Z then (0%Z, handle_ack_pkt data s)
  else if (pkt_type =? RADIO_SNIFFER_FRAME)%Z then (0%Z, handle_radio_sniffer data len s)
  else if (pkt_type =? CONSUMPTION_FRAME)%Z then
    (0%Z, handle_oml_measure data len (mh_meas_len (cn_consumption s)) consumption_handler
            "consumption" s)
  else if (pkt_type =? RADIO_MEAS_FRAME)%Z then
    (0%Z, handle_oml_measure data len 2 radio_handler "radio" s)
  else ((-1)%Z, s).

(** ** Answers ([write_answer]) *)

Definition opt_str (s : option string) : string := default "(null)" s.

Definition write_answer (data : list Z) (len : nat) (s : Cn) : Z * Cn :=
  if negb (len =? 2) then ((-1)%Z, s) else
  let type := byte_at data 0 in
  let '(got_error, cmd) := get_key type commands_d in
  if (type =? LOGGER_FRAME)%Z then
    let error_code := if char_signed then swrap 8 (byte_at data 1) else byte_at data 1 in
    (got_error, cn_emit [Print (opt_str cmd +:+ " " +:+ str_of_Z error_code +:+ nl)] s)
  else
    let '(got_error', arg) := get_key (byte_at data 1) ack_d in
    let got_error := Z.lor got_error got_error' in
    if negb (got_error =? 0)%Z
    then ((-3)%Z, cn_emit [print_error ("invalid answer: " +:+ fmt_hex true (byte_at data 0)
                            +:+ " " +:+ fmt_hex true (byte_at data 1))] s)
    else (got_error, cn_emit [Print (opt_str cmd +:+ " " +:+ opt_str arg +:+ nl)] s).

(** ** The handler of packets ([decode.c]) *)

Definition ASYNC_FRAME_MASK : Z := 0xF0.

Definition decode_pkt (len : nat) (data : list Z) (s : Cn) : Cn :=
  let pkt_type := byte_at data 0 in
  let '(ret, s) :=
    if (Z.land pkt_type ASYNC_FRAME_MASK =? ASYNC_FRAME_MASK)%Z
    then handle_measure_pkt data len s
    else write_answer data len s in
  if negb (ret =? 0)%Z
  then cn_emit [print_error ("Error in decode packet: ret " +:+ str_of_Z ret +:+ ": len "
                 +:+ str_of_Z (Z.of_nat len) +:+ " - 0x" +:+ fmt_hex true (byte_at data 0)
                 +:+ " 0x" +:+ fmt_hex true (byte_at data 1))] s
  else s.
End measures.

(** ** Lemmas: what an operation adds to the output *)

(** [f] only adds events that satisfy [P], and keeps the switches of the output. *)
Definition emits (P : cn_event → Prop) (f : Cn → Cn) : Prop :=
  ∀ s, ∃ es, cn_out (f s) = cn_out s ++ es ∧ Forall P es ∧
             cn_oml_started (f s) = cn_oml_started s ∧ cn_oml_print (f s) = cn_oml_print s.

Section emits.
Context (P : cn_event → Prop).

Lemma emits_id : emits P (λ s, s).
Proof. intros s. exists []. by rewrite app_nil_r. Qed.

Lemma emits_cn_emit (e : Cn → list cn_event) :
  (∀ s, Forall P (e s)) → emits P (λ s, cn_emit (e s) s).
Proof. intros He s. by exists (e s). Qed.

Lemma emits_compose f g : emits P f → emits P g → emits P (λ s, g (f s)).
Proof.
  intros Hf Hg s. destruct (Hf s) as (es & H1 & H2 & H3 & H4).
  destruct (Hg (f s)) as (es' & K1 & K2 & K3 & K4). exists (es ++ es').
  rewrite K1, H1, app_assoc. split_and!; [done|by apply Forall_app|congruence..].
Qed.
End emits.

(** ** Lemmas: the time reference *)

Definition timeval_ok (t : timeval) : Prop := (0 ≤ tv_usec t < 10 ^ 6)%Z.
Definition timeval_us (t : timeval) : Z := (tv_sec t * 10 ^ 6 + tv_usec t)%Z.

(** The difference of two times, with the microseconds in range. *)
Lemma timeval_substract_ok x y :
  timeval_ok x → timeval_ok y →
  let d := (timeval_substract x y).1 in
  timeval_ok d ∧ timeval_us d = (timeval_us x - timeval_us y)%Z.
Proof.
  unfold timeval_ok, timeval_us. intros Hx Hy. destruct x as [xs xu], y as [ys yu].
  cbn [tv_sec tv_usec] in *. change (10 ^ 6)%Z with 1000000%Z in *.
  unfold timeval_substract. cbn [tv_sec tv_usec].
  destruct (Z.ltb_spec xu yu).
  - assert (Z.quot (yu - xu) 1000000 = 0)%Z as -> by (apply Z.quot_small; lia).
    cbn [tv_sec tv_usec]. destruct (Z.ltb_spec 1000000 (xu - (yu - 1000000 * (0 + 1)))%Z); [lia|].
    cbn [fst tv_sec tv_usec]. lia.
  - cbn [tv_sec tv_usec]. destruct (Z.ltb_spec 1000000 (xu - yu)%Z); [lia|].
    cbn [fst tv_sec tv_usec]. lia.
Qed.

(** ** Lemmas: sniffed packets *)

(** A sniffed packet of the right length is sent to the client, and with it the byte
    that follows it in the buffer: the length counts the type, which is not sent. *)
Lemma sniffer_frame_sent `{Abi} data next rest s :
  let zep := 31 in
  length data = 1 + (zep + 1) + Z.to_nat (byte_at data (1 + zep)) →
  ∃ es, cn_out (handle_radio_sniffer (data ++ next :: rest) (length data) s) =
          cn_out s ++ SendSniffer (drop 1 data ++ [next]) :: es.
Proof.
  intros zep Hl. unfold zep in *. clear zep.
  assert (33 ≤ length data) as Hmin by lia.
  assert (byte_at (drop 1 (data ++ next :: rest)) 31 = byte_at data 32) as Hb.
  { unfold byte_at. destruct data as [|b data]; [simpl in Hmin; lia|]. cbn [app drop nth].
    rewrite drop_0. apply app_nth1. simpl in Hmin. lia. }
  unfold handle_radio_sniffer. rewrite Hb. change (1 + 31) with 32 in Hl.
  destruct (Nat.ltb_spec (length data) (1 + (31 + 1))); [lia|].
  rewrite (proj2 (Nat.eqb_eq _ _)) by lia. cbn [negb].
  assert (take (length data) (drop 1 (data ++ next :: rest)) = drop 1 data ++ [next]) as ->.
  { clear Hl Hb. destruct data as [|b data]; [simpl in Hmin; lia|]. simpl. rewrite drop_0.
    rewrite (take_app_ge) by lia. f_equal. replace (S (length data) - length data) with 1 by lia.
    done. }
  unfold oml_measures_sniffer, cn_emit. cbn [cn_out cn_oml_started cn_oml_print].
  rewrite <- app_assoc. by eexists.
Qed.
