(* ===== verification/CnShared.v ===== *)
(** * The two threads of the serial program

    The thread of the commands ([read_commands]) and the thread of the serial link
    ([decode_pkt]) share the reference time of [set_time] ([time_ref.c]): the first
    stores it when it sends the command, the second reads and clears it when the control
    node acknowledges.  A step of the program is one command or one packet, in any
    order. *)

From S2P Require Import Prelude PyString CFormat CnCommands CnPackets CnMeasures.

(** ** State and steps *)

Record Prog := MkProg {
  pr_buff : command_buffer;             (* of read_commands *)
  pr_cn : Cn;                           (* with the shared [set_time_ref] *)
  pr_sent : list (list Z)               (* what was written on the serial link *)
}.

Definition with_time (ref : timeval) (s : Cn) : Cn :=
  MkCn ref (cn_consumption s) (cn_oml_started s) (cn_oml_print s) (cn_clock s) (cn_out s).

(** A line of the standard input, at the time of day [now], or a packet. *)
Inductive prog_event := LCommand (now : timeval) (line : string) | LPacket (data : list Z).

Section program.
Context `{A : Abi} (clock : nat → timeval).

Definition prog_step (p : Prog) (e : prog_event) : option Prog :=
  match e with
  | LCommand now line =>
      match read_command now line (MkCmdState (pr_buff p) (cn_time_ref (pr_cn p))) with
      | None => None
      | Some (out, st) =>
          let cn := with_time (set_time_ref st) (pr_cn p) in
          Some match out with
               | OWrite pkt => MkProg (cmd_buff st) cn (pr_sent p ++ [pkt])
               | OPrint text => MkProg (cmd_buff st) (cn_emit [Print text] cn) (pr_sent p)
               end
      end
  | LPacket data =>
      Some (MkProg (pr_buff p) (decode_pkt clock (length data) data (pr_cn p)) (pr_sent p))
  end.

Fixpoint prog_run (p : Prog) (es : list prog_event) : option Prog :=
  match es with
  | [] => Some p
  | e :: es => match prog_step p e with Some p => prog_run p es | None => None end
  end.

(** Neither the command [set_time] nor its acknowledgement. *)
Definition other_event (e : prog_event) : Prop :=
  match e with
  | LCommand _ line => c_string (drop_last line) ≠ "set_time"
  | LPacket data => byte_at data 0 ≠ ACK_FRAME ∨ byte_at data 1 ≠ SET_TIME
  end.

(** ** Lemmas: who writes the reference time *)

(** [m] leaves the reference time. *)
Definition keeps {B} (m : C B) : Prop :=
  ∀ s x s', m s = Some (x, s') → set_time_ref s' = set_time_ref s.

Lemma keeps_ret {B} (x : B) : keeps (mret x : C B).
Proof. by intros s y s' [= <- <-]. Qed.

Lemma keeps_bind {B D} (m : C B) (f : B → C D) :
  keeps m → (∀ x, keeps (f x)) → keeps (m ≫= f).
Proof.
  intros Hm Hf s y s' (x & s1 & Hr & Hr')%c_bind_inv.
  by rewrite (Hf _ _ _ _ Hr'), (Hm _ _ _ Hr).
Qed.

Lemma keeps_lift {B} (o : option B) : keeps (c_lift o).
Proof. intros s x s'. unfold c_lift. destruct o; [|done]. by intros [= <- <-]. Qed.

Lemma keeps_append data : keeps (append_data data).
Proof. intros s x s'. unfold append_data. case_match; [done|]. by intros [= <- <-]. Qed.

Ltac keeps_step :=
  lazymatch goal with
  | |- keeps (mret _) => apply keeps_ret
  | |- keeps (c_lift _) => apply keeps_lift
  | |- keeps (append_data _) => apply keeps_append
  | |- keeps (_ ≫= _) => apply keeps_bind; [|intros ?]
  | |- context [get_val ?k ?d ?v] => destruct (get_val k d v)
  | |- keeps (if ?b then _ else _) => destruct b
  | |- context [(?a =? START)%Z] => destruct (a =? START)%Z
  end; cbv beta iota zeta.

Lemma command_keeps now cur f line :
  In cur commands → fmt cur ≠ "set_time" → keeps (command cur now f line).
Proof.
  intros Hin Hne. unfold commands in Hin.
  repeat (destruct Hin as [<-|Hin]; [cbn [command fmt] in *;
    first [ by destruct Hne
          | unfold cmd_alim, cmd_consumption, cmd_radio_measure, cmd_radio_sniffer,
              cmd_no_args, cmd_set_node_id, cmd_start_stop_args, cmd_radio_pp;
            cbv beta zeta; repeat keeps_step ]|]).
  by destruct Hin.
Qed.

(** The entry of [set_time] is compared as a whole. *)
Lemma command_parse_set_time line table cur :
  (∀ c, In c table → fmt c = "set_time" → fmt_count c = 0) →
  command_parse line table = Some (Some cur) → fmt cur = "set_time" → line = "set_time".
Proof.
  intros Ht. induction table as [|c table IH]; [done|]. cbn [command_parse].
  pose proof (Ht c (or_introl eq_refl)) as Hc.
  assert (IH' := IH (λ x Hx, Ht x (or_intror Hx))). intros Hp Hf.
  destruct (Nat.eqb_spec (fmt_count c) 0) as [H0|H0].
  - destruct (String.eqb_spec line (fmt c)) as [->|]; [|by apply IH'].
    injection Hp as ->. done.
  - repeat case_match; try done; try (by apply IH'). injection Hp as ->. by destruct H0, Hc.
Qed.

Lemma commands_set_time c : In c commands → fmt c = "set_time" → fmt_count c = 0.
Proof.
  intros Hin Hc. unfold commands in Hin.
  repeat (destruct Hin as [<-|Hin]; [done|]). by destruct Hin.
Qed.

(** The table is not unfolded to compare computations. *)
#[local] Strategy opaque [commands].

Lemma read_command_keeps now line s out s' :
  c_string (drop_last line) ≠ "set_time" → read_command now line s = Some (out, s') →
  set_time_ref s' = set_time_ref s.
Proof.
  intros Hne Hr. unfold read_command in Hr. apply c_bind_inv in Hr as (ret & s1 & Hp & Hr).
  assert (s' = s1) as ->.
  { revert Hr. repeat case_match; unfold c_lift; try done; by intros [= _ <-]. }
  clear Hr. revert Hp. generalize (c_string (drop_last line)) Hne. clear. intros line Hne Hp.
  unfold parse_cmd in Hp. apply c_lift_inv in Hp as (cmd & Hc & Hp).
  destruct cmd as [cur|]; [|by injection Hp as _ <-].
  apply c_bind_inv in Hp as ([] & s2 & [= <-] & Hp).
  apply c_lift_inv in Hp as (token & _ & Hp). destruct (get_val token commands_d 0) as [r ty].
  apply c_bind_inv in Hp as ([] & s3 & Ha & Hp). apply c_bind_inv in Hp as (r' & s4 & Hh & Hp).
  injection Hp as _ <-. apply keeps_append in Ha. cbn [set_time_ref] in Ha. rewrite <- Ha.
  refine (command_keeps now cur _ line _ _ _ _ _ Hh); [by eapply command_parse_In|].
  intros Hf. apply Hne. exact (command_parse_set_time line commands cur commands_set_time Hc Hf).
Qed.

(** Only the acknowledgement of [set_time] writes it in the other thread. *)
Lemma measures_loop_time data t_ref size handler n i s :
  (∀ buf t s, cn_time_ref (handler buf t s) = cn_time_ref s) →
  cn_time_ref (measures_loop data t_ref size handler n i s) = cn_time_ref s.
Proof.
  intros Hh. revert i s. induction n as [|n IH]; intros i s; [done|].
  cbn [measures_loop]. by rewrite IH, Hh.
Qed.

Lemma decode_time len data s :
  byte_at data 0 ≠ ACK_FRAME ∨ byte_at data 1 ≠ SET_TIME →
  cn_time_ref (decode_pkt clock len data s) = cn_time_ref s.
Proof.
  intros Hne. unfold decode_pkt.
  assert (∀ b : bool, cn_time_ref (snd (if b then handle_measure_pkt clock data len s
    else write_answer data len s)) = cn_time_ref s) as Hs.
  { intros b. destruct b; [unfold handle_measure_pkt|unfold write_answer; by repeat case_match].
    destruct (Z.eqb_spec (byte_at data 0) ACK_FRAME) as [Ha|_].
    - unfold handle_ack_pkt. destruct (Z.eqb_spec (byte_at data 1) SET_TIME); [by destruct Hne|].
      cbn [snd]. by repeat case_match.
    - repeat case_match; cbn [snd]; try done.
      + unfold handle_radio_sniffer. by repeat case_match.
      + unfold handle_oml_measure. case_match; [done|]. apply measures_loop_time.
        intros. unfold consumption_handler. by repeat case_match.
      + unfold handle_oml_measure. case_match; [done|]. by apply measures_loop_time. }
  specialize (Hs (Z.land (byte_at data 0) ASYNC_FRAME_MASK =? ASYNC_FRAME_MASK)%Z).
  destruct (if (_ =? _)%Z then _ else _) as [ret s1]. cbn [snd] in Hs. by case_match.
Qed.

Lemma prog_run_time es p p' :
  Forall other_event es → prog_run p es = Some p' →
  cn_time_ref (pr_cn p') = cn_time_ref (pr_cn p).
Proof.
  intros Hes. revert p. induction Hes as [|e es He Hes IH]; intros p; [by intros [= <-]|].
  cbn [prog_run]. destruct (prog_step p e) as [p1|] eqn:Hp; [|done]. intros Hr.
  rewrite (IH p1 Hr). destruct e as [now line|data]; cbn [prog_step] in Hp.
  - destruct (read_command _ _ _) as [[out st]|] eqn:Hc; [|done].
    apply read_command_keeps in Hc; [|done]. cbn [set_time_ref] in Hc.
    injection Hp as <-. by destruct out.
  - injection Hp as <-. by apply decode_time.
Qed.

(** The acknowledgement prints the time since then. *)
Lemma set_time_ack rest s :
  let now := clock (cn_clock s) in
  let elapsed := (timeval_us now - timeval_us (cn_time_ref s))%Z in
  timeval_ok now → timeval_ok (cn_time_ref s) → (0 ≤ elapsed < 2 ^ 31 * 10 ^ 6)%Z →
  decode_pkt clock (length (ACK_FRAME :: SET_TIME :: rest)) (ACK_FRAME :: SET_TIME :: rest) s =
    MkCn (MkTimeval 0 0) (cn_consumption s) (cn_oml_started s) (cn_oml_print s) (S (cn_clock s))
      (cn_out s ++ [Print ("config_ack set_time "
         +:+ fmt_time (elapsed / 10 ^ 6) (elapsed mod 10 ^ 6) +:+ nl)]).
Proof.
  intros now elapsed Hnow Href He.
  destruct (timeval_substract_ok now (cn_time_ref s) Hnow Href) as [Hd Hus].
  unfold decode_pkt. cbn [byte_at nth]. change (Z.land ACK_FRAME ASYNC_FRAME_MASK =? ASYNC_FRAME_MASK)%Z with true.
  cbn iota. unfold handle_measure_pkt. cbn [byte_at nth]. rewrite Z.eqb_refl.
  unfold handle_ack_pkt. cbn [byte_at nth]. rewrite Z.eqb_refl. fold now.
  destruct (timeval_substract now (cn_time_ref s)) as [d y]. cbn [fst] in *.
  unfold cn_emit. cbn [cn_time_ref cn_consumption cn_oml_started cn_oml_print cn_clock cn_out].
  fold elapsed in Hus. unfold timeval_ok, timeval_us in *.
  assert (tv_sec d = elapsed / 10 ^ 6 ∧ tv_usec d = elapsed mod 10 ^ 6)%Z as [-> ->].
  { pose proof (Z.div_mod elapsed (10 ^ 6)). pose proof (Z.mod_pos_bound elapsed (10 ^ 6)). lia. }
  assert (∀ z, (0 ≤ z < 2 ^ 31)%Z → wrap long_bits z = z) as Hw.
  { intros z Hz. apply wrap_small. split; [lia|].
    destruct long_ok as [-> | ->]; lia. }
  rewrite !Hw; [unfold fmt_time; by rewrite <- !str_app_assoc| |].
  - pose proof (Z.mod_pos_bound elapsed (10 ^ 6)). lia.
  - split; [apply Z.div_pos; lia|]. apply Z.div_lt_upper_bound; lia.
Qed.
End program.

(** ** Properties *)

(** C23: the time of [set_time] across the two threads.  The command sends the time of
    day to the control node and stores it; then, whatever other commands and other
    packets the two threads handle, in any order, the acknowledgement prints the time
    since the command, to the microsecond, and clears the reference. *)
Theorem set_time_elapsed `{A : Abi} (clock : nat → timeval) (p : Prog) (t0 : timeval)
    (es : list prog_event) (rest : list Z) (Ht0 : timeval_ok t0)
    (Hes : Forall other_event es) :
  ∃ p1, prog_step clock p (LCommand t0 ("set_time" +:+ nl)) = Some p1 ∧
    pr_sent p1 = pr_sent p ++
      [packet (SET_TIME :: le_bytes 4 (tv_sec t0) ++ le_bytes 4 (tv_usec t0))] ∧
    ∀ p2, prog_run clock p1 es = Some p2 →
      let now := clock (cn_clock (pr_cn p2)) in
      let elapsed := (timeval_us now - timeval_us t0)%Z in
      timeval_ok now → (0 ≤ elapsed < 2 ^ 31 * 10 ^ 6)%Z →
      ∃ p3, prog_step clock p2 (LPacket (ACK_FRAME :: SET_TIME :: rest)) = Some p3 ∧
        cn_out (pr_cn p3) = cn_out (pr_cn p2) ++
          [Print ("config_ack set_time "
             +:+ fmt_time (elapsed / 10 ^ 6) (elapsed mod 10 ^ 6) +:+ nl)] ∧
        cn_time_ref (pr_cn p3) = MkTimeval 0 0.
Proof.
  eexists. split; [cbn [prog_step]; by rewrite set_time_command|]. split; [done|].
  intros p2 Hrun now elapsed Hnow He.
  apply prog_run_time in Hrun; [|done]. cbn [pr_cn with_time cn_time_ref holding set_time_ref] in Hrun.
  eexists. split; [reflexivity|]. cbn [pr_cn].
  pose proof (set_time_ack clock rest (pr_cn p2)) as Hack. cbv zeta in Hack. rewrite Hrun in Hack.
  rewrite Hack by done. done.
Qed.

(** Another command and its answer come before the acknowledgement, 1.5 s later. *)
Lemma set_time_elapsed_witness :
  let clock (n : nat) := MkTimeval (Z.of_nat n + 100) 250000 in
  let p := MkProg (MkBuffer 0 0 []) (MkCn (MkTimeval 0 0) no_consumption false true 0 []) [] in
  let es := [LCommand (MkTimeval 99 0) ("start dc" +:+ nl); LPacket [OPEN_NODE_START; ACK]] in
  ∃ p1 p2 p3,
    @prog_step gateway_abi clock p (LCommand (MkTimeval 98 750000) ("set_time" +:+ nl)) = Some p1 ∧
    @prog_run gateway_abi clock p1 es = Some p2 ∧
    @prog_step gateway_abi clock p2 (LPacket [ACK_FRAME; SET_TIME]) = Some p3 ∧
    cn_out (pr_cn p3) = [Print ("start ACK" +:+ nl); Print ("config_ack set_time 1.500000" +:+ nl)].
Proof.
  intros clock p es.
  destruct (@set_time_elapsed gateway_abi clock p (MkTimeval 98 750000) es [])
    as (p1 & H1 & _ & Hrun).
  { unfold timeval_ok. simpl. lia. }
  { apply Forall_cons_2; [vm_compute; discriminate|]. apply Forall_cons_2; [|done].
    left. vm_compute. discriminate. }
  assert (∃ p2, @prog_run gateway_abi clock p1 es = Some p2 ∧ cn_clock (pr_cn p2) = 0 ∧
    cn_out (pr_cn p2) = [Print ("start ACK" +:+ nl)]) as (p2 & H2 & Hc & Ho).
  { vm_compute in H1. injection H1 as <-. eexists. vm_compute. by split_and!. }
  destruct (Hrun p2 H2) as (p3 & H3 & Hout & _); rewrite ?Hc.
  { unfold timeval_ok. simpl. lia. }
  { unfold timeval_us. simpl. lia. }
  exists p1, p2, p3. split_and!; [exact H1|exact H2|exact H3|].
  rewrite Hout, Ho, Hc. vm_compute. reflexivity.
Defined.
