(* ===== verification/CnLines.v ===== *)
(** * The lines of the control node serial program, as the gateway reads them

    What [strip], [split], [int] and [float] make of the text the program prints:
    lemmas for the readers of [CnInterface] and [Measures]. *)

From Stdlib Require Import DecimalString Decimal.
From S2P Require Import Prelude PyString Effects PyVal CnInterface Measures.
From S2P Require Import CFormat CnCommands CnPackets CnMeasures.

(** ** Blanks at the end of a line *)

Lemma rstrip_app a b :
  str_rstrip (a +:+ b) =
    match str_rstrip b with EmptyString => str_rstrip a | r => a +:+ r end.
Proof.
  induction a as [|c a IH].
  { change ("" +:+ b) with b. by destruct (str_rstrip b). }
  rewrite str_app_cons. cbn [str_rstrip]. rewrite IH.
  destruct (str_rstrip b) as [|x r]; [done|].
  destruct a as [|y a]; [done|]. done.
Qed.

Lemma rstrip_nl a : str_rstrip (a +:+ nl) = str_rstrip a.
Proof. rewrite rstrip_app. done. Qed.

(** A line that starts and ends with a word. *)
Lemma strip_line a w :
  str_lstrip (a +:+ w) = a +:+ w → is_word w → str_strip ((a +:+ w) +:+ nl) = a +:+ w.
Proof.
  intros Hl [Hne Hw]. unfold str_strip.
  assert (str_lstrip ((a +:+ w) +:+ nl) = (a +:+ w) +:+ nl) as ->.
  { destruct (a +:+ w) as [|c s] eqn:E; [by destruct a, w|].
    rewrite str_app_cons. simpl in Hl |- *. destruct (is_space c) eqn:Hc; [|done].
    exfalso. assert (String.length (str_lstrip s) ≤ String.length s) as Hlen.
    { clear. induction s as [|c s IH]; [done|]. simpl. destruct (is_space c); simpl; lia. }
    rewrite Hl in Hlen. simpl in Hlen. lia. }
  rewrite rstrip_nl, rstrip_app, rstrip_nospace by done. by destruct w.
Qed.

(** The first word of a line, whatever follows. *)
Lemma line_kind_word w s : is_word w → line_kind (w +:+ String " " s) = w.
Proof.
  intros [_ Hw]. unfold line_kind. rewrite str_split_app; [done|].
  eapply str_all_mono; [|exact Hw]. intros c Hc. apply negb_true_iff in Hc.
  apply negb_true_iff. destruct (Ascii.eqb_spec c " "); [by subst|done].
Qed.

Lemma line_kind_single w : is_word w → line_kind w = w.
Proof.
  intros [_ Hw]. unfold line_kind. rewrite str_split_word; [done|].
  eapply str_all_mono; [|exact Hw]. intros c Hc. apply negb_true_iff in Hc.
  apply negb_true_iff. destruct (Ascii.eqb_spec c " "); [by subst|done].
Qed.

Lemma strip_kind w s : is_word w → line_kind (str_strip (w +:+ String " " s)) = w.
Proof.
  intros Hw. unfold str_strip. rewrite lstrip_word by done.
  change (String " " s) with (" " +:+ s). rewrite rstrip_app.
  change (" " +:+ s) with (String " " s). cbn [str_rstrip].
  destruct (str_rstrip s) as [|x r] eqn:Hr; simpl.
  - rewrite rstrip_nospace by apply Hw. by apply line_kind_single.
  - by apply line_kind_word.
Qed.

(** ** Numbers *)

Lemma str_repeat_length c n : String.length (str_repeat c n) = n.
Proof. induction n; simpl; auto. Qed.

Lemma str_all_repeat p c n : p c = true → str_all p (str_repeat c n) = true.
Proof. intros Hp. induction n as [|n IH]; simpl; [done|]. by rewrite Hp. Qed.

Lemma pad_zeros_digits n z : (0 ≤ z)%Z → str_all is_digit (pad_zeros n (str_of_Z z)) = true.
Proof.
  intros Hz. unfold pad_zeros. rewrite str_all_app, str_all_repeat, str_of_Z_digits by done. done.
Qed.

Lemma pad_zeros_word n z : (0 ≤ z)%Z → is_word (pad_zeros n (str_of_Z z)).
Proof.
  intros Hz. split.
  - unfold pad_zeros. destruct (str_of_Z_head z Hz) as (c & w & -> & _).
    by destruct (str_repeat _ _).
  - eapply str_all_mono; [apply is_digit_not_space|by apply pad_zeros_digits].
Qed.

(** Leading zeros do not count. *)
Lemma digits_val_zero s : digits_val (String "0" s) = digits_val s.
Proof.
  unfold digits_val. cbn [str_all]. change (is_digit "0") with true. cbn [andb].
  destruct (str_all is_digit s); [|done]. f_equal.
  unfold uint_val, NilZero.uint_of_string. destruct s as [|c s]; [done|].
  cbn [NilEmpty.uint_of_string]. destruct (NilEmpty.uint_of_string (String c s)) as [d|] eqn:E;
    cbn [NilEmpty.uint_of_string] in *; by rewrite ?E.
Qed.

Lemma digits_val_pad n z : (0 ≤ z)%Z → digits_val (pad_zeros n (str_of_Z z)) = Some z.
Proof.
  intros Hz. unfold pad_zeros. induction (n - String.length (str_of_Z z)) as [|k IH].
  - change (digits_val (str_of_Z z) = Some z). unfold digits_val. rewrite str_of_Z_digits by done.
    pose proof (int_of_str_of_Z z) as Hi. rewrite int_of_str_digits in Hi by (by apply str_of_Z_digits).
    by rewrite Hi.
  - cbn [str_repeat]. rewrite str_app_cons, digits_val_zero. exact IH.
Qed.

Lemma str_map_id f p s :
  (∀ c, p c = true → f c = c) → str_all p s = true → str_map f s = s.
Proof.
  intros Hf. induction s as [|c s IH]; simpl; [done|]. intros H. bool_hyps.
  by rewrite Hf, IH.
Qed.

Lemma str_cut_none c s : no_char c s → str_cut c s = (s, None).
Proof.
  unfold no_char. induction s as [|x s IH]; simpl; [done|]. intros H. bool_hyps.
  rewrite H. by rewrite IH.
Qed.

Lemma str_cut_app c a b : no_char c a → str_cut c (a +:+ String c b) = (a, Some b).
Proof.
  unfold no_char. induction a as [|x a IH]; intros H.
  - change ((if Ascii.eqb c c then ("", Some b) else let '(a, b) := str_cut c b in (String c a, b))
            = ("", Some b)). by rewrite Ascii.eqb_refl.
  - simpl in H. bool_hyps. rewrite str_app_cons. simpl. rewrite H. by rewrite IH.
Qed.

(** The characters of the decimals the program prints. *)
Definition is_decimal (c : Ascii.ascii) : bool := is_digit c || Ascii.eqb c ".".

Lemma is_decimal_facts c :
  is_decimal c = true →
  negb (is_space c) = true ∧ lower_char c = c ∧ negb (Ascii.eqb c "e") = true.
Proof. destruct c as [[][][][][][][][]]; vm_compute; try congruence; done. Qed.

Lemma digits_decimal s : str_all is_digit s = true → str_all is_decimal s = true.
Proof. apply str_all_mono. intros c Hc. unfold is_decimal. by rewrite Hc. Qed.

Lemma digits_no_dot s : str_all is_digit s = true → no_char "." s.
Proof. apply str_all_mono. intros c Hc. by apply is_digit_ne. Qed.

(** [float] of a decimal. *)
Lemma float_of_decimal (neg : bool) ip fp i f :
  ip ≠ "" → str_all is_digit ip = true → str_all is_digit fp = true →
  digits_val ip = Some i → digits_val fp = Some f →
  float_of_str ((if neg then "-" else "") +:+ ip +:+ "." +:+ fp) =
    let k := Z.of_nat (String.length fp) in
    Some (float_make neg (i * 10 ^ k + f) (- k)).
Proof.
  intros Hne Hip Hfp Hi Hf.
  assert (str_all is_decimal (ip +:+ "." +:+ fp) = true) as Hall
    by (rewrite !str_all_app, (digits_decimal ip), (digits_decimal fp) by done; done).
  set (s := ip +:+ "." +:+ fp) in *.
  assert (str_lower (str_strip ((if neg then "-" else "") +:+ s))
          = (if neg then "-" else "") +:+ s) as Hlow.
  { rewrite strip_nospace.
    - unfold str_lower.
      apply (str_map_id _ (λ c, is_decimal c || Ascii.eqb c "-")).
      + intros c [Hc|Hc%Ascii.eqb_eq]%orb_true_iff; [by apply is_decimal_facts|by subst].
      + rewrite str_all_app. apply andb_true_iff. split; [by destruct neg|].
        eapply str_all_mono; [|exact Hall]. intros c ->. done.
    - rewrite str_all_app. apply andb_true_iff. split; [by destruct neg|].
      eapply str_all_mono; [|exact Hall]. intros c Hc. by apply is_decimal_facts. }
  assert (∃ c s', s = String c s' ∧ is_digit c = true) as (c & s' & Hs & Hc).
  { unfold s. destruct ip as [|c ip]; [done|]. simpl in Hip. bool_hyps. rewrite str_app_cons. eauto. }
  assert (cut_sign ((if neg then "-" else "") +:+ s) = (neg, s)) as Hcut.
  { destruct neg; [done|]. change ("" +:+ s) with s. rewrite Hs. by apply cut_sign_digit. }
  unfold float_of_str. rewrite Hlow, Hcut.
  rewrite bool_decide_eq_false_2 by (rewrite Hs; intros [= -> _]; done).
  rewrite bool_decide_eq_false_2.
  2: { rewrite Hs. intros Hin. repeat (apply elem_of_cons in Hin as [[= -> _]|Hin]; [done|]).
       by apply elem_of_nil in Hin. }
  rewrite str_cut_none.
  2: { eapply str_all_mono; [|exact Hall]. intros x Hx. by apply is_decimal_facts. }
  unfold s. change ("." +:+ fp) with (String "." fp).
  rewrite str_cut_app by by apply digits_no_dot. change (from_option id "" (Some fp)) with fp. cbn [exponent_val]. rewrite Hi, Hf.
  rewrite bool_decide_eq_false_2 by naive_solver. done.
Qed.

(** A number has no more digits than its size needs. *)
Lemma of_uint_acc_ge d p :
  (Zpos p * 10 ^ Z.of_nat (String.length (NilEmpty.string_of_uint d)) ≤ Zpos (Pos.of_uint_acc d p))%Z.
Proof.
  revert p. induction d as [|d IH|d IH|d IH|d IH|d IH|d IH|d IH|d IH|d IH|d IH]; intros p;
    [simpl; lia|..]; cbn [NilEmpty.string_of_uint String.length Pos.of_uint_acc];
    (etransitivity; [|apply IH]); rewrite Nat2Z.inj_succ, Z.pow_succ_r by lia; nia.
Qed.

Lemma str_of_Z_length z n : (0 ≤ z < 10 ^ Z.of_nat n)%Z → 0 < n → String.length (str_of_Z z) ≤ n.
Proof.
  intros Hz Hn. destruct z as [|p|p]; [simpl; lia| |lia].
  rewrite str_of_pos. pose proof (to_uint_head p) as Hh. pose proof (of_uint_to_uint p) as Hp.
  destruct (Pos.to_uint p) as [|d|d|d|d|d|d|d|d|d|d]; [done|by destruct (Hh d)|..];
    cbn [NilEmpty.string_of_uint String.length];
    match type of Hp with Z.of_uint (?D d) = _ =>
      let a := eval cbn in (Pos.of_uint (D d)) in
      match a with Npos (Pos.of_uint_acc d ?k) => pose proof (of_uint_acc_ge d k) end
    end; unfold Z.of_uint in Hp; cbn [Pos.of_uint Z.of_N] in Hp; rewrite Hp in *;
    assert (10 ^ Z.of_nat (String.length (NilEmpty.string_of_uint d)) < 10 ^ Z.of_nat n)%Z
      as Hlt%Z.pow_lt_mono_r_iff by lia; lia.
Qed.

Lemma pad_zeros_length n z :
  (0 ≤ z < 10 ^ Z.of_nat n)%Z → 0 < n → String.length (pad_zeros n (str_of_Z z)) = n.
Proof.
  intros Hz Hn. pose proof (str_of_Z_length z n Hz Hn). unfold pad_zeros.
  rewrite str_length_app, str_repeat_length. lia.
Qed.

Lemma float_of_time (neg : bool) s us :
  (0 ≤ s)%Z → (0 ≤ us < 10 ^ 6)%Z →
  float_of_str ((if neg then "-" else "") +:+ fmt_time s us) =
    Some (FFin ((if neg then - (s * 10 ^ 6 + us) else s * 10 ^ 6 + us)) (10 ^ 6))%Z.
Proof.
  intros Hs Hus. unfold fmt_time.
  rewrite (float_of_decimal neg _ _ s us);
    [|by apply str_of_Z_word|by apply str_of_Z_digits|apply pad_zeros_digits; lia| |apply digits_val_pad; lia].
  2: { pose proof (digits_val_pad 0 s Hs) as Hd. unfold pad_zeros in Hd. exact Hd. }
  rewrite pad_zeros_length by lia. cbv zeta. unfold float_make. by destruct neg.
Qed.

(** *** Floats *)

(** What [float] makes of [%f]. *)
Definition py_of_f (f : Z) : pyfloat :=
  if (f_exponent f =? 0xFF)%Z
  then (if (f_mantissa f =? 0)%Z then FInf (f_sign f) else FNaN)
  else FFin (if f_sign f then - f_millionths f else f_millionths f)%Z (10 ^ 6).

Lemma div_nearest_nonneg n d : (0 ≤ n)%Z → (0 < d)%Z → (0 ≤ div_nearest n d)%Z.
Proof.
  intros Hn Hd. unfold div_nearest. assert (0 ≤ n / d)%Z by (apply Z.div_pos; lia).
  repeat case_match; lia.
Qed.

Lemma f_millionths_nonneg f : (0 ≤ f_millionths f)%Z.
Proof.
  unfold f_millionths, f_mantissa.
  assert (0 ≤ Z.land f 0x7FFFFF)%Z by (apply Z.land_nonneg; right; lia).
  assert (∀ m e, 0 ≤ m →
    0 ≤ if 0 <=? e then m * 2 ^ e * 10 ^ 6 else div_nearest (m * 10 ^ 6) (2 ^ (- e)))%Z as Hgo.
  { intros m e Hm. destruct (Z.leb_spec 0 e).
    - assert (0 < 2 ^ e)%Z by (apply Z.pow_pos_nonneg; lia). nia.
    - apply div_nearest_nonneg; [lia|]. apply Z.pow_pos_nonneg; lia. }
  apply Hgo. case_match; lia.
Qed.

Lemma float_of_fmt_f f : float_of_str (fmt_f f) = Some (py_of_f f).
Proof.
  unfold fmt_f, py_of_f. case_match; [by repeat case_match|].
  pose proof (f_millionths_nonneg f) as Hn.
  assert (0 ≤ f_millionths f / 10 ^ 6)%Z by (apply Z.div_pos; lia).
  pose proof (Z.mod_pos_bound (f_millionths f) (10 ^ 6)).
  rewrite float_of_time by lia.
  assert (f_millionths f / 10 ^ 6 * 10 ^ 6 + f_millionths f mod 10 ^ 6 = f_millionths f)%Z as ->
    by (rewrite Z.mul_comm; symmetry; by apply Z_div_mod_eq_full).
  done.
Qed.

Lemma is_word_app a b : is_word a → is_word b → is_word (a +:+ b).
Proof.
  intros [Ha1 Ha2] [Hb1 Hb2]. split; [by destruct a|]. by rewrite str_all_app, Ha2, Hb2.
Qed.

Lemma fmt_time_word s us : (0 ≤ s)%Z → (0 ≤ us)%Z → is_word (fmt_time s us).
Proof.
  intros Hs Hus. apply is_word_app; [by apply str_of_Z_word|].
  apply is_word_app; [done|by apply pad_zeros_word].
Qed.

Lemma fmt_f_word f : is_word (fmt_f f).
Proof.
  unfold fmt_f. case_match; [by repeat case_match|].
  pose proof (f_millionths_nonneg f) as Hn.
  assert (is_word (fmt_time (f_millionths f / 10 ^ 6) (f_millionths f mod 10 ^ 6))) as Hw
    by (apply fmt_time_word; [apply Z.div_pos|apply Z.mod_pos_bound]; lia).
  destruct (f_sign f); [by apply is_word_app|done].
Qed.

(** The rounding of [%f]: within half a millionth. *)
Lemma div_nearest_bound n d : (0 < d)%Z → (2 * Z.abs (div_nearest n d * d - n) ≤ d)%Z.
Proof.
  intros Hd. unfold div_nearest.
  pose proof (Z_div_mod_eq_full n d). pose proof (Z.mod_pos_bound n d Hd).
  destruct (Z.ltb_spec (2 * (n mod d)) d); [nia|].
  destruct (Z.ltb_spec d (2 * (n mod d))); [nia|]. case_match; nia.
Qed.

(** ** Lines of words *)

Lemma str_split_words w ws :
  Forall is_word (w :: ws) → str_split " " (w +:+ words ws) = w :: ws.
Proof.
  assert (∀ w, is_word w → no_char " " w) as Hb.
  { intros x [_ Hx]. eapply str_all_mono; [|exact Hx]. intros c Hc.
    apply negb_true_iff in Hc. apply negb_true_iff. destruct (Ascii.eqb_spec c " "); [by subst|done]. }
  revert w. induction ws as [|v ws IH]; intros w [Hw Hws]%Forall_cons.
  - cbn [words]. rewrite str_app_nil_r. apply str_split_word. auto.
  - cbn [words]. rewrite str_split_app by auto. by rewrite IH.
Qed.

Lemma strip_words w ws :
  Forall is_word (w :: ws) → str_strip ((w +:+ words ws) +:+ nl) = w +:+ words ws.
Proof.
  intros [Hw Hws]%Forall_cons. induction ws as [|v ws _] using rev_ind.
  - cbn [words]. rewrite str_app_nil_r. apply (strip_line "" w); [|done].
    change (str_lstrip w = w). rewrite <- (str_app_nil_r w) at 1. rewrite lstrip_word by done.
    apply str_app_nil_r.
  - apply Forall_app in Hws as [Hws [Hv _]%Forall_cons].
    assert (words (ws ++ [v]) = words ws +:+ " " +:+ v) as Heq.
    { clear. induction ws as [|x ws IH]; [cbn [words app]; by rewrite str_app_nil_r|].
      cbn [words app]. rewrite IH.
      change (String " " (x +:+ words ws) +:+ " " +:+ v)
        with (String " " ((x +:+ words ws) +:+ " " +:+ v)).
      by rewrite str_app_assoc. }
    rewrite Heq.
    replace (w +:+ words ws +:+ " " +:+ v) with ((w +:+ words ws +:+ " ") +:+ v)
      by (by rewrite !str_app_assoc).
    apply strip_line; [|done]. rewrite !str_app_assoc. by apply lstrip_word.
Qed.
