(* ===== verification/CnProgram.v ===== *)
(** * The control node serial program and the gateway

    The gateway writes the lines of [Protocol] to the program and reads the lines it
    prints ([CnInterface], [Measures]): what one makes of the other. *)

From S2P Require Import Prelude PyString Effects PyVal Profile Protocol CnInterface Measures.
From S2P Require Import CFormat CnCommands CnPackets CnMeasures CnLines.

(** ** Lines that the reader of the gateway survives *)

(** The thread handles the line without an exception and without waiting. *)
Definition reader_survives (text : string) : Prop :=
  (∀ cs, fst (handle_answer (str_strip text) cs) = Val tt) ∧
  line_kind (str_strip text) ≠ "cn_serial_ready".

Definition safe_event (e : cn_event) : Prop :=
  match e with Print text => reader_survives text | _ => True end.

(** A line that is not an answer to a command. *)
Definition is_notification (text : string) : Prop :=
  line_kind (str_strip text) ∈ ["config_ack"; "error"; "cn_serial_error:"; "measures_debug:"].

Definition notification_event (e : cn_event) : Prop :=
  match e with Print text => is_notification text ∧ reader_survives text | _ => True end.

Lemma kind_survives k text :
  line_kind (str_strip text) = k → k = "cn_serial_error:" ∨ k = "measures_debug:" →
  reader_survives text.
Proof.
  intros Hk Hor. split; [|rewrite Hk; by destruct Hor as [->| ->]]. intros cs.
  unfold handle_answer. fold (line_kind (str_strip text)). rewrite Hk.
  by destruct Hor as [->| ->].
Qed.

Lemma print_error_notification t : notification_event (print_error t).
Proof.
  assert (line_kind (str_strip ("cn_serial_error: " +:+ t +:+ nl)) = "cn_serial_error:") as Hk
    by (apply (strip_kind "cn_serial_error:" (t +:+ nl)); done).
  split; [unfold is_notification; rewrite Hk; set_solver|].
  eapply kind_survives; [done|auto].
Qed.

Lemma print_measure_notification t : notification_event (print_measure t).
Proof.
  assert (line_kind (str_strip ("measures_debug: " +:+ t +:+ nl)) = "measures_debug:") as Hk
    by (apply (strip_kind "measures_debug:" (t +:+ nl)); done).
  split; [unfold is_notification; rewrite Hk; set_solver|].
  eapply kind_survives; [done|auto].
Qed.

(** A line of words. *)
Lemma words_kind w ws :
  Forall is_word (w :: ws) → line_kind (str_strip ((w +:+ words ws) +:+ nl)) = w.
Proof. intros Hw. rewrite strip_words by done. unfold line_kind. by rewrite str_split_words. Qed.

Lemma config_ack_notification w :
  is_word w → w ≠ "set_time" → notification_event (Print (("config_ack" +:+ words [w]) +:+ nl)).
Proof.
  intros Hw Hne. assert (Forall is_word ["config_ack"; w]) as Hws by (by rewrite !Forall_cons, Forall_nil).
  pose proof (words_kind _ _ Hws) as Hk. split; [unfold is_notification; rewrite Hk; set_solver|].
  split; [|by rewrite Hk]. intros cs. rewrite strip_words by done. unfold handle_answer.
  rewrite str_split_words by done. simpl. by rewrite bool_decide_eq_false_2.
Qed.

Lemma error_notification w :
  is_word w → notification_event (Print (("error" +:+ words [w]) +:+ nl)).
Proof.
  intros Hw. assert (Forall is_word ["error"; w]) as Hws by (by rewrite !Forall_cons, Forall_nil).
  pose proof (words_kind _ _ Hws) as Hk. split; [unfold is_notification; rewrite Hk; set_solver|].
  split; [|by rewrite Hk]. intros cs. rewrite strip_words by done. unfold handle_answer.
  by rewrite str_split_words.
Qed.

Lemma answer_survives c a :
  is_word c → is_word a → c ∉ notifications →
  reader_survives ((c +:+ words [a]) +:+ nl).
Proof.
  intros Hc Ha Hn. assert (Forall is_word [c; a]) as Hws by (by rewrite !Forall_cons, Forall_nil).
  pose proof (words_kind _ _ Hws) as Hk.
  split; [|rewrite Hk; set_solver]. intros cs. rewrite strip_words by done. unfold handle_answer.
  rewrite str_split_words by done. unfold notifications in Hn. cbn [hd].
  repeat (rewrite bool_decide_eq_false_2 by set_solver). by destruct (cs_msgs cs).
Qed.

Lemma str_of_Z_word_all z : is_word (str_of_Z z).
Proof.
  destruct (Z.le_gt_cases 0 z) as [Hz|Hz]; [by apply str_of_Z_word|].
  destruct z as [|p|p]; [lia|lia|].
  assert (str_of_Z (Zneg p) = "-" +:+ str_of_Z (Zpos p)) as ->.
  { unfold str_of_Z. simpl. done. }
  apply is_word_app; [done|]. by apply str_of_Z_word.
Qed.

(** The seconds of [config_ack set_time], which the reader converts to a float. *)
Lemma microseconds_time s us :
  (0 ≤ s < 2 ^ 64)%Z → (0 ≤ us < 2 ^ 64)%Z → microseconds (fmt_time s us) = Val tt.
Proof.
  intros Hs Hus. unfold microseconds, fmt_time.
  assert (Hd : digits_val (str_of_Z s) = Some s).
  { pose proof (digits_val_pad 0 s) as Hd. unfold pad_zeros in Hd. apply Hd. lia. }
  pose proof (float_of_decimal false (str_of_Z s) (pad_zeros 6 (str_of_Z us)) s us) as Hf.
  change ((if false then "-" else "") +:+ ?x) with x in Hf.
  rewrite Hf; [|apply str_of_Z_word; lia|apply str_of_Z_digits; lia|apply pad_zeros_digits; lia
               |done|apply digits_val_pad; lia].
  clear Hf. cbv zeta. set (k := String.length (pad_zeros 6 (str_of_Z us))).
  assert (0 < k) as Hk.
  { unfold k. destruct (pad_zeros_word 6 us) as [Hne _]; [lia|].
    destruct (pad_zeros 6 (str_of_Z us)); [done|simpl; lia]. }
  unfold float_make. destruct (Z.leb_spec 0 (- Z.of_nat k)); [lia|].
  rewrite Z.opp_involutive, Z2Pos.id by (apply Z.pow_pos_nonneg; lia).
  assert (0 < 10 ^ Z.of_nat k)%Z by (apply Z.pow_pos_nonneg; lia).
  rewrite Z.abs_eq by nia.
  case_match eqn:Hc; [|done]. exfalso. apply Z.leb_le in Hc.
  assert (1000000 * (s * 10 ^ Z.of_nat k + us) < 2 ^ 1024 * 10 ^ Z.of_nat k)%Z; [|lia].
  assert (s * 10 ^ Z.of_nat k + us < 2 ^ 65 * 10 ^ Z.of_nat k)%Z by nia.
  assert (1000000 * 2 ^ 65 < 2 ^ 1024)%Z by (by vm_compute). nia.
Qed.

Lemma set_time_notification s us :
  (0 ≤ s < 2 ^ 64)%Z → (0 ≤ us < 2 ^ 64)%Z →
  notification_event (Print (("config_ack" +:+ words ["set_time"; fmt_time s us]) +:+ nl)).
Proof.
  intros Hs Hus.
  assert (Forall is_word ["config_ack"; "set_time"; fmt_time s us]) as Hws
    by (rewrite !Forall_cons, Forall_nil; split_and!; try done; apply fmt_time_word; lia).
  pose proof (words_kind _ _ Hws) as Hk. split; [unfold is_notification; rewrite Hk; set_solver|].
  split; [|by rewrite Hk]. intros cs. rewrite strip_words by done. unfold handle_answer.
  rewrite str_split_words by done. simpl. by rewrite microseconds_time.
Qed.

(** ** What a packet makes the program print *)

Lemma pad_zeros_str n z : (0 ≤ z)%Z → is_word (pad_zeros n (str_of_Z z)).
Proof. apply pad_zeros_word. Qed.

Lemma emits_mono (P Q : cn_event → Prop) f : (∀ e, P e → Q e) → emits P f → emits Q f.
Proof.
  intros HPQ Hf s. destruct (Hf s) as (es & H1 & H2 & H3). exists es. split_and!; try apply H3; [done|].
  by eapply Forall_impl.
Qed.

Lemma notification_safe e : notification_event e → safe_event e.
Proof. destruct e; simpl; tauto. Qed.

Lemma emits_consumption s us p v c :
  emits notification_event (oml_measures_consumption s us p v c).
Proof.
  apply emits_cn_emit. intros st. apply Forall_app.
  split; case_match; constructor; try done. apply print_measure_notification.
Qed.

Lemma emits_radio s us ch rssi : emits notification_event (oml_measures_radio s us ch rssi).
Proof.
  apply emits_cn_emit. intros st. apply Forall_app.
  split; case_match; constructor; try done. apply print_measure_notification.
Qed.

Lemma emits_sniffer s us ch rssi lqi crc len :
  emits notification_event (oml_measures_sniffer s us ch rssi lqi crc len).
Proof.
  apply emits_cn_emit. intros st. apply Forall_app.
  split; case_match; constructor; try done. apply print_measure_notification.
Qed.

Lemma emits_error t : emits notification_event (cn_emit [print_error t]).
Proof. apply (emits_cn_emit _ (λ _, _)). intros _. constructor; [apply print_error_notification|done]. Qed.

Section output.
Context `{A : Abi}.
Context (clock : nat → timeval).

Lemma emits_consumption_handler buf time :
  emits notification_event (consumption_handler buf time).
Proof.
  intros s. unfold consumption_handler.
  destruct (mh_p _), (mh_v _), (mh_c _); apply emits_consumption.
Qed.

Lemma emits_radio_handler buf time : emits notification_event (radio_handler buf time).
Proof. apply emits_radio. Qed.

Lemma emits_oml_measure data len size handler str :
  (∀ buf time, emits notification_event (handler buf time)) →
  emits notification_event (handle_oml_measure data len size handler str).
Proof.
  intros Hh s. unfold handle_oml_measure. case_match; [apply emits_error|].
  generalize (Z.to_nat (byte_at data 1)) as n. generalize 6 as i. intros i n. revert i s.
  induction n as [|n IH]; intros i s; [apply emits_id|]. cbn [measures_loop].
  match goal with |- context [handler ?b ?t s] =>
    apply (emits_compose _ (handler b t) _ (Hh b t) (IH _)) end.
Qed.

Lemma long_bits_range z : (0 ≤ wrap long_bits z < 2 ^ 64)%Z.
Proof.
  pose proof (wrap_range long_bits z).
  destruct long_ok as [Hl|Hl]; rewrite Hl in *; lia.
Qed.

Lemma emits_ack data : emits notification_event (handle_ack_pkt clock data).
Proof.
  intros s. unfold handle_ack_pkt. repeat case_match.
  - match goal with |- context [cn_emit [?e] ?st] =>
      exists [e]; split_and!; [done| |done..] end.
    constructor; [|done].
    match goal with |- notification_event (Print (_ +:+ ?a +:+ "." +:+ ?b +:+ nl)) =>
      replace ("config_ack set_time " +:+ a +:+ "." +:+ b +:+ nl)
        with (("config_ack" +:+ words ["set_time"; a +:+ "." +:+ b]) +:+ nl) end.
    + apply set_time_notification; apply long_bits_range.
    + cbn [words]. rewrite str_app_nil_r.
      match goal with |- (_ +:+ String " " (_ +:+ String " " ?x)) +:+ nl = ?y =>
        change (("config_ack set_time " +:+ x) +:+ nl = y) end.
      by rewrite !str_app_assoc.
  - match goal with |- context [set_consumption _ (cn_emit [?e] ?st)] =>
      exists [e]; split_and!; [done| |done..] end.
    constructor; [|done]. exact (config_ack_notification "config_consumption_measure" ltac:(done) ltac:(done)).
  - apply (emits_cn_emit _ (λ _, [_])). intros _. constructor; [|done].
    exact (config_ack_notification "config_radio_stop" ltac:(done) ltac:(done)).
  - apply (emits_cn_emit _ (λ _, [_])). intros _. constructor; [|done].
    exact (config_ack_notification "config_radio_measure" ltac:(done) ltac:(done)).
  - apply emits_error.
Qed.

Lemma emits_radio_sniffer data len : emits notification_event (handle_radio_sniffer data len).
Proof.
  intros s. unfold handle_radio_sniffer. case_match; [apply emits_error|].
  case_match; [apply emits_error|].
  match goal with |- context [cn_emit [?e] s] =>
    eapply (emits_compose _ (cn_emit [e])) end.
  - apply (emits_cn_emit _ (λ _, [_])). intros _. by constructor.
  - apply emits_sniffer.
Qed.

Lemma emits_measure_pkt data len :
  emits notification_event (λ s, (handle_measure_pkt clock data len s).2).
Proof.
  intros s. unfold handle_measure_pkt. repeat case_match; cbn [snd].
  - apply emits_ack.
  - apply emits_radio_sniffer.
  - apply emits_oml_measure, emits_consumption_handler.
  - apply emits_oml_measure, emits_radio_handler.
  - apply emits_id.
Qed.

(** The keys of [commands_d] are words, and only that of the log is a notification. *)
Lemma commands_d_key type c :
  get_key type commands_d = (0%Z, Some c) → type ≠ LOGGER_FRAME →
  is_word c ∧ (c ∉ notifications) ∧ no_char "000" c.
Proof.
  intros Hg Hne. assert (In (c, type) commands_d) as Hin.
  { revert Hg. generalize commands_d as d. induction d as [|[k v] d IH]; simpl; [done|].
    destruct (Z.eqb_spec type v); [intros [= ->]; left; congruence|]. intros H. right. by apply IH. }
  clear Hg. assert (forallb (λ '(c, type), (type =? LOGGER_FRAME)%Z ||
    bool_decide (is_word c ∧ (c ∉ notifications) ∧ no_char "000" c)) commands_d = true) as Hall
    by (by vm_compute).
  rewrite forallb_forall in Hall. apply Hall in Hin. simpl in Hin.
  apply orb_true_iff in Hin as [Hin%Z.eqb_eq|Hin]; [done|]. by apply bool_decide_eq_true in Hin.
Qed.

Lemma ack_d_key b a : get_key b ack_d = (0%Z, Some a) → is_word a ∧ (a = "ACK" ↔ b = ACK).
Proof.
  unfold ack_d. cbn [get_key]. unfold ACK, NACK.
  destruct (Z.eqb_spec b 10) as [->|]; [by intros [= <-]|].
  destruct (Z.eqb_spec b 2) as [->|]; [by intros [= <-]|done].
Qed.

Lemma get_key_cases type d :
  get_key type d = ((-1)%Z, None) ∨ ∃ c, get_key type d = (0%Z, Some c).
Proof. induction d as [|[k v] d IH]; simpl; [by left|]. destruct (type =? v)%Z; eauto. Qed.

(** The three ways an answer is written. *)
Lemma write_answer_cases data len s :
  (∃ w, is_word w ∧ write_answer data len s =
     (0%Z, cn_emit [Print (("error" +:+ words [w]) +:+ nl)] s)) ∨
  (∃ ret es, ret ≠ 0%Z ∧ Forall notification_event es ∧
     write_answer data len s = (ret, cn_emit es s)) ∨
  (∃ c a, len = 2 ∧ get_key (byte_at data 0) commands_d = (0%Z, Some c) ∧
     byte_at data 0 ≠ LOGGER_FRAME ∧ get_key (byte_at data 1) ack_d = (0%Z, Some a) ∧
     write_answer data len s = (0%Z, cn_emit [Print ((c +:+ words [a]) +:+ nl)] s)).
Proof.
  assert (Hid : cn_emit [] s = s) by (destruct s; unfold cn_emit; simpl; by rewrite app_nil_r).
  unfold write_answer. destruct (Nat.eqb_spec len 2) as [->|]; cbn [negb].
  2: { right; left. exists (-1)%Z, []. by rewrite Hid. }
  destruct (Z.eqb_spec (byte_at data 0) LOGGER_FRAME) as [->|Hne].
  - left. exists (str_of_Z (if char_signed then swrap 8 (byte_at data 1) else byte_at data 1)).
    split; [apply str_of_Z_word_all|]. cbn [get_key commands_d]. cbn.
    by rewrite str_app_nil_r.
  - destruct (get_key_cases (byte_at data 0) commands_d) as [Hc|[c Hc]]; rewrite Hc;
      destruct (get_key_cases (byte_at data 1) ack_d) as [Ha|[a Ha]]; rewrite Ha;
      cbn [Z.lor Z.eqb negb opt_str from_option id];
      try (right; left; eexists _, _; split_and!;
           [| |reflexivity]; [done|constructor; [apply print_error_notification|done]]).
    right; right. exists c, a. split_and!; try done. cbn [words]. rewrite str_app_nil_r.
    by rewrite str_app_assoc.
Qed.

Lemma decode_async_emits len data :
  Z.land (byte_at data 0) ASYNC_FRAME_MASK = ASYNC_FRAME_MASK →
  emits notification_event (decode_pkt clock len data).
Proof.
  intros Hm s. unfold decode_pkt. rewrite Hm, Z.eqb_refl.
  pose proof (emits_measure_pkt data len s) as He.
  destruct (handle_measure_pkt clock data len s) as [ret s'] eqn:Hh. cbv beta in He; rewrite Hh in He. cbn [snd] in He.
  destruct (negb (ret =? 0)%Z); [|exact He].
  assert (s' = (λ s, (handle_measure_pkt clock data len s).2) s) as -> by (by rewrite Hh).
  apply (emits_compose _ _ _ (emits_measure_pkt data len) (emits_error _)).
Qed.

Lemma decode_emits len data : emits safe_event (decode_pkt clock len data).
Proof.
  destruct (Z.eq_dec (Z.land (byte_at data 0) ASYNC_FRAME_MASK) ASYNC_FRAME_MASK) as [Hm|Hm].
  { eapply emits_mono; [apply notification_safe|by apply decode_async_emits]. }
  intros s. unfold decode_pkt. rewrite (proj2 (Z.eqb_neq _ _) Hm).
  destruct (write_answer_cases data len s)
    as [(w & Hw & ->)|[(ret & es & Hr & Hes & ->)|(c & a & -> & Hc & Hne & Ha & ->)]]; simpl.
  - apply (emits_cn_emit _ (λ _, [_])). intros _. constructor; [|done].
    by apply notification_safe, error_notification.
  - rewrite (proj2 (Z.eqb_neq _ _) Hr). cbn [negb].
    match goal with |- context [cn_emit [?e] (cn_emit es s)] =>
      apply (emits_compose _ (cn_emit es) (cn_emit [e])) end.
    + apply (emits_cn_emit _ (λ _, es)). intros _. eapply Forall_impl; [done|apply notification_safe].
    + eapply emits_mono; [apply notification_safe|apply emits_error].
  - apply (emits_cn_emit _ (λ _, [_])). intros _. constructor; [|done].
    destruct (commands_d_key _ _ Hc Hne) as (Hcw & Hcn & _).
    destruct (ack_d_key _ _ Ha) as [Haw _]. by apply answer_survives.
Qed.
End output.

(** ** From the answer packet to the status of the command *)

(** The lines of the error output. *)
Definition printed (es : list cn_event) : list string :=
  omap (λ e, match e with Print text => Some text | _ => None end) es.

(** A packet of an asynchronous frame. *)
Definition async_packet (data : list Z) : Prop :=
  Z.land (byte_at data 0) ASYNC_FRAME_MASK = ASYNC_FRAME_MASK.

Lemma byte_at_inserts data buf i :
  i < length data → length data ≤ length buf →
  byte_at (list_inserts 0 data buf) i = byte_at data i.
Proof.
  intros Hi Hl. unfold byte_at. rewrite !nth_lookup. f_equal.
  rewrite list_lookup_inserts by lia. by rewrite Nat.sub_0_r.
Qed.

Lemma printed_app es es' : printed (es ++ es') = printed es ++ printed es'.
Proof. apply omap_app. Qed.

Lemma printed_notifications es :
  Forall notification_event es → Forall (λ t, is_notification t ∧ reader_survives t) (printed es).
Proof. induction 1 as [|e es He Hes IH]; simpl; [done|]. destruct e; simpl in *; auto. Qed.

Lemma notification_step text s :
  is_notification text → reader_survives text → cs_reader s = Running →
  let s' := reader_step (RLine text) s in cs_reader s' = Running ∧ cs_msgs s' = cs_msgs s.
Proof.
  intros Hn [Hs Hready] Hr. unfold reader_step. rewrite Hr.
  destruct (handle_answer_other (str_strip text) s s Hready) as (_ & Hreader & _ & _).
  pose proof (handle_answer_msgs (str_strip text) s) as Hm. specialize (Hs s).
  destruct (handle_answer (str_strip text) s) as [o s']. simpl in *. subst o.
  split; [congruence|]. destruct Hm as [Hm|(Hm & _)]; [done|]. exfalso. apply Hm.
  unfold is_notification in Hn. unfold notifications. set_solver.
Qed.

Lemma read_until_notifications lines obs s :
  Forall (λ t, is_notification t ∧ reader_survives t) lines →
  cs_reader s = Running → cs_msgs s = [] →
  ∃ s', cs_reader s' = Running ∧ cs_msgs s' = [] ∧
    read_until (λ s, nonempty (cs_msgs s)) ((RLine <$> lines) ++ obs) s =
    read_until (λ s, nonempty (cs_msgs s)) obs s'.
Proof.
  intros Hl. revert s. induction Hl as [|t lines [Hn Hs] Hl IH]; intros s Hr Hm; [by exists s|].
  destruct (notification_step t s Hn Hs Hr) as [Hr' Hm'].
  destruct (IH (reader_step (RLine t) s)) as (s' & H1 & H2 & H3); [done|congruence|].
  exists s'. split_and!; [done..|]. rewrite fmap_cons. cbn [app read_until]. by rewrite Hm.
Qed.

Section loop.
Context `{A : Abi}.
Context (clock : nat → timeval).

Lemma handle_packets_async pkts buf cn :
  Forall (λ d, d ≠ [] ∧ length d < 256 ∧ async_packet d) pkts → length buf = 2048 →
  ∃ es, cn_out (handle_packets (decode_pkt clock) pkts buf cn).2 = cn_out cn ++ es ∧
        Forall notification_event es ∧
        length (handle_packets (decode_pkt clock) pkts buf cn).1 = 2048.
Proof.
  intros Hp. revert buf cn. induction Hp as [|d pkts (Hne & Hl & Ha) Hp IH]; intros buf cn Hb.
  - exists []. by rewrite app_nil_r.
  - cbn [handle_packets].
    destruct (IH (list_inserts 0 d buf) (decode_pkt clock (length d) (list_inserts 0 d buf) cn))
      as (es & H1 & H2 & H3); [by rewrite length_inserts|].
    destruct (decode_async_emits clock (length d) (list_inserts 0 d buf)) with (s := cn)
      as (es' & K1 & K2 & _).
    { unfold async_packet in Ha. rewrite byte_at_inserts; [done| |lia].
      destruct d; [done|simpl; lia]. }
    exists (es' ++ es). split_and!; [by rewrite H1, K1, app_assoc|by apply Forall_app|done].
Qed.

Lemma handle_packets_app {H : Type} (handle : nat → list Z → H → H) p1 p2 buf h :
  handle_packets handle (p1 ++ p2) buf h =
    let r := handle_packets handle p1 buf h in handle_packets handle p2 r.1 r.2.
Proof. revert buf h. induction p1 as [|d p1 IH]; intros buf h; [done|]. cbn. apply IH. Qed.

(** What the program prints for the answer packet of a command: the acknowledgement,
    or an error. *)
Lemma decode_answer type b c buf cn :
  length buf = 2048 → get_key type commands_d = (0%Z, Some c) → type ≠ LOGGER_FRAME →
  Z.land type ASYNC_FRAME_MASK ≠ ASYNC_FRAME_MASK →
  ∃ es, cn_out (decode_pkt clock 2 (list_inserts 0 [type; b] buf) cn) = cn_out cn ++ es ∧
    ((∃ a, get_key b ack_d = (0%Z, Some a) ∧ es = [Print ((c +:+ words [a]) +:+ nl)]) ∨
     (b ≠ ACK ∧ Forall notification_event es)).
Proof.
  intros Hb Hc Hne Hm. set (data := list_inserts 0 [type; b] buf).
  assert (byte_at data 0 = type) as H0 by (unfold data; rewrite byte_at_inserts by (simpl; lia); done).
  assert (byte_at data 1 = b) as H1 by (unfold data; rewrite byte_at_inserts by (simpl; lia); done).
  unfold decode_pkt. rewrite H0, (proj2 (Z.eqb_neq _ _) Hm).
  unfold write_answer. rewrite Nat.eqb_refl. cbn [negb]. rewrite H0, H1, Hc.
  rewrite (proj2 (Z.eqb_neq _ _) Hne).
  destruct (get_key_cases b ack_d) as [Ha|[a Ha]]; rewrite Ha;
    cbn [Z.lor Z.eqb negb opt_str from_option id].
  - eexists ([_] ++ [_]). rewrite app_assoc. split; [reflexivity|]. right. split.
    + intros ->. by vm_compute in Ha.
    + repeat (constructor; [apply print_error_notification|]). constructor.
  - eexists [_]. split; [done|]. left. exists a. split; [done|]. do 2 f_equal.
    cbn [words]. by rewrite str_app_nil_r, str_app_assoc.
Qed.
End loop.

(** The lines printed for what is read on the serial link. *)
Definition lines_of `{Abi} (clock : nat → timeval) (rx : rx) (cn : Cn) (reads : list (list Z))
    : list string :=
  printed (drop (length (cn_out cn))
             (cn_out (rx_reads (decode_pkt clock) (rx, cn) reads).2)).

Lemma lines_of_packets `{Abi} clock rx cn reads (pkts : list (list Z * list Z)) :
  Forall (Forall byte_ok) reads → rx_wf rx → rx_state rx = STATE_IDLE →
  Forall (λ p, Forall (λ b, b ≠ SYNC_BYTE) p.1 ∧ p.2 ≠ [] ∧ length p.2 < 256) pkts →
  concat reads = concat ((λ p, p.1 ++ packet p.2) <$> pkts) →
  lines_of clock rx cn reads =
    printed (drop (length (cn_out cn))
      (cn_out (handle_packets (decode_pkt clock) pkts.*2 (p_data rx) cn).2)).
Proof.
  intros Hb Hwf Hi Hp Hc. unfold lines_of.
  destruct (rx_reads_packets (decode_pkt clock) rx cn reads pkts) as (s' & -> & _); done.
Qed.

(** The commands are not asynchronous frames. *)
Lemma commands_d_sync type c :
  get_key type commands_d = (0%Z, Some c) → type ≠ LOGGER_FRAME →
  Z.land type ASYNC_FRAME_MASK ≠ ASYNC_FRAME_MASK ∧ byte_ok type.
Proof.
  intros Hg Hne. assert (In (c, type) commands_d) as Hin.
  { revert Hg. generalize commands_d as d. induction d as [|[k v] d IH]; simpl; [done|].
    destruct (Z.eqb_spec type v); [intros [= ->]; left; congruence|]. intros H. right. by apply IH. }
  clear Hg. assert (forallb (λ '(c, type), (type =? LOGGER_FRAME)%Z ||
    bool_decide (Z.land type ASYNC_FRAME_MASK ≠ ASYNC_FRAME_MASK ∧ byte_ok type)) commands_d
      = true) as Hall by (by vm_compute).
  rewrite forallb_forall in Hall. apply Hall in Hin. simpl in Hin.
  apply orb_true_iff in Hin as [Hin%Z.eqb_eq|Hin]; [done|]. by apply bool_decide_eq_true in Hin.
Qed.

Lemma drop_out (out es : list cn_event) : drop (length out) (out ++ es) = es.
Proof. apply drop_app_length. Qed.

(** Any bytes: the handler only adds what it adds for a packet. *)
Lemma rx_bytes_emits `{Abi} clock (P : cn_event → Prop) rx cn bs :
  (∀ len data, emits P (decode_pkt clock len data)) →
  ∃ es, cn_out (rx_bytes (decode_pkt clock) (rx, cn) bs).2 = cn_out cn ++ es ∧ Forall P es.
Proof.
  intros Hd. revert rx cn. induction bs as [|b bs IH]; intros rx cn.
  - exists []. by rewrite app_nil_r.
  - unfold rx_bytes in *. cbn [fold_left].
    assert (∃ es, cn_out (rx_byte (decode_pkt clock) (rx, cn) b).2 = cn_out cn ++ es ∧ Forall P es)
      as (es & H1 & H2).
    { cbn [rx_byte]. repeat case_match; cbn [snd];
        try (exists []; rewrite app_nil_r; by split);
        match goal with |- context [decode_pkt clock ?l ?d cn] =>
          destruct (Hd l d cn) as (es & ? & ? & _) end; eauto. }
    destruct (rx_byte (decode_pkt clock) (rx, cn) b) as [rx' cn'].
    destruct (IH rx' cn') as (es' & H3 & H4). exists (es ++ es'). cbn [snd] in *.
    split; [by rewrite H3, H1, app_assoc|by apply Forall_app].
Qed.

Lemma lines_of_survive `{Abi} clock rx cn reads :
  Forall (Forall byte_ok) reads → rx_wf rx →
  Forall reader_survives (lines_of clock rx cn reads).
Proof.
  intros Hb Hwf. unfold lines_of. rewrite rx_reads_bytes by done.
  destruct (rx_bytes_emits clock safe_event rx cn (concat reads)) as (es & -> & Hes);
    [apply decode_emits|].
  rewrite drop_out. clear -Hes. induction Hes as [|e es He Hes IH]; [constructor|].
  destruct e; cbn; [constructor; [exact He|exact IH]|exact IH..].
Qed.

Lemma refused_line_survives now line s l s' :
  read_command now line s = Some (OPrint l, s') → reader_survives l.
Proof.
  unfold read_command. unfold mbind, C_bind. destruct (parse_cmd _ _ _) as [[ret s1]|]; [|done].
  repeat case_match; try done. intros [= <- <-].
  eapply kind_survives; [|by left].
  apply (strip_kind "cn_serial_error:" ("Invalid command: '" +:+ _)). done.
Qed.

(** ** Properties *)

(** C8: the status of a command, from one end to the other.  The gateway writes a
    command; on the serial link come, cut in any way by the reads and with stray
    bytes between them, any asynchronous packets (measures, acknowledgements of a
    configuration), then the answer packet of the command.  Then the gateway's call
    returns, and its status is 0 exactly when the answer is [ACK]: whatever the
    packets are, the lines printed for them neither end the reader nor are taken for
    the answer. *)
Theorem command_status `{E : Env} `{A : Abi} (clock : nat → timeval) (rx : rx) (cn : Cn)
    (reads : list (list Z)) (pkts : list (list Z * list Z)) (noise : list Z)
    (type b : Z) (c : string) (ws : list string) (s : CnSerial) (t : trace)
    (Hproc : cs_process s = true) (Hreader : cs_reader s = Running)
    (Hwf : rx_wf rx) (Hidle : rx_state rx = STATE_IDLE)
    (Hc : get_key type commands_d = (0%Z, Some c)) (Hlog : type ≠ LOGGER_FRAME)
    (Hpkts : Forall (λ p, Forall (λ b, b ≠ SYNC_BYTE) p.1 ∧ p.2 ≠ [] ∧ length p.2 < 256) pkts)
    (Hasync : Forall (λ p, async_packet p.2) pkts)
    (Hnoise : Forall (λ b, b ≠ SYNC_BYTE) noise)
    (Hbytes : Forall (Forall byte_ok) reads)
    (Hreads : concat reads =
       concat ((λ p, p.1 ++ packet p.2) <$> pkts) ++ noise ++ packet [type; b]) :
  let line := str_join " " (c :: ws) +:+ newline in
  env_write (t ++ [EvWriteStdin line]) line = None →
  env_reader ((t ++ [EvWriteStdin line]) ++ [EvGetAnswer]) = RLine <$> lines_of clock rx cn reads →
  ∃ s' t', send_words send_command (c :: ws) s t =
             (Val (status (bool_decide (b = ACK))), s', t').
Proof.
  intros line Hw Hr. destruct (commands_d_key _ _ Hc Hlog) as (Hcw & Hcn & _).
  destruct (commands_d_sync _ _ Hc Hlog) as [Hsync Hty].
  rewrite (lines_of_packets _ _ _ _ (pkts ++ [(noise, [type; b])])) in Hr; try done.
  2: { apply Forall_app. split; [done|]. constructor; [simpl; split_and!; [done..|lia]|done]. }
  2: { rewrite Hreads, fmap_app, concat_app. simpl. by rewrite app_nil_r. }
  rewrite fmap_app, handle_packets_app in Hr. cbn [fmap list_fmap snd handle_packets] in Hr.
  destruct (handle_packets_async clock pkts.*2 (p_data rx) cn) as (es & Hes & Hn & Hlen).
  { rewrite Forall_fmap. rewrite Forall_forall in Hpkts, Hasync. apply Forall_forall.
    intros p Hp. simpl. destruct (Hpkts p Hp) as (_ & ? & ?). split_and!; [done..|by apply Hasync]. }
  { apply Hwf. }
  destruct (handle_packets (decode_pkt clock) pkts.*2 (p_data rx) cn) as [buf cn'] eqn:Hh.
  cbn [fst snd] in *. cbn [length] in Hr.
  destruct (decode_answer clock type b c buf cn') as (es' & Hes' & Hcase); [done..|].
  rewrite Hes', Hes, <- (app_assoc (cn_out cn)), drop_out, printed_app in Hr.
  unfold send_words, send_cmd. change (PStr c :: (PStr <$> ws)) with (PStr <$> (c :: ws)).
  unfold mbind, M_bind. rewrite send_command_run, Hproc. cbv zeta. fold line. rewrite Hw, Hr, fmap_app.
  destruct (read_until_notifications (printed es) (RLine <$> printed es') (set_msgs [] s))
    as (s1 & Hr1 & Hm1 & ->); [by apply printed_notifications|done|done|].
  destruct Hcase as [(a & Ha & ->)|[Hb Hes'n]].
  - destruct (ack_d_key _ _ Ha) as [Haw Hack].
    assert (Forall is_word [c; a]) as Hws by (by rewrite !Forall_cons, Forall_nil).
    assert (reader_step (RLine ((c +:+ words [a]) +:+ nl)) s1 = set_msgs [[c; a]] s1) as Hstep.
    { unfold reader_step. rewrite Hr1, strip_words by done. unfold handle_answer.
      rewrite str_split_words by done. unfold notifications in Hcn. cbn [hd].
      repeat (rewrite bool_decide_eq_false_2 by set_solver). by rewrite Hm1. }
    cbn [printed omap list_omap fmap list_fmap]. cbn [read_until]. rewrite Hm1, Hstep. simpl.
    eexists _, _. unfold mret, M_ret. do 4 f_equal. apply bool_decide_ext. naive_solver.
  - destruct (read_until_notifications (printed es') [] s1)
      as (s2 & Hr2 & Hm2 & Heq); [by apply printed_notifications|done|done|].
    rewrite app_nil_r in Heq. rewrite Heq. cbn [read_until]. rewrite Hm2. simpl. rewrite Hm2.
    eexists _, _. unfold mret, M_ret. by rewrite (bool_decide_eq_false_2 (b = ACK)).
Qed.

(** C21: the reader of the gateway outlives whatever the serial program prints.  The
    bytes of the serial link can be anything, cut in any way, whatever the state of
    the program; the lines printed for them, mixed with the refusals of any commands,
    never raise an exception in the thread and never make it wait. *)
Theorem reader_outlives `{E : Env} `{A : Abi} (clock : nat → timeval) (lines : list string)
    (s : CnSerial) (Hreader : cs_reader s = Running)
    (Hlines : Forall (λ l,
       (∃ rx cn reads, rx_wf rx ∧ Forall (Forall byte_ok) reads ∧
                       l ∈ lines_of clock rx cn reads) ∨
       (∃ now line st st', read_command now line st = Some (OPrint l, st'))) lines) :
  let s' := fold_left (λ s l, reader_step (RLine l) s) lines s in
  cs_reader s' = Running ∧ cs_process s' = cs_process s ∧ cs_ready s' = cs_ready s.
Proof.
  revert s Hreader. induction Hlines as [|l lines Hl Hlines IH]; intros s Hr; [done|].
  cbn [fold_left].
  assert (reader_survives l) as [Hs Hk].
  { destruct Hl as [(rx & cn & reads & Hwf & Hb & Hin)|(now & line & st & st' & Hc)].
    - pose proof (lines_of_survive clock rx cn reads Hb Hwf) as Hall.
      rewrite Forall_forall in Hall. by apply Hall.
    - by eapply refused_line_survives. }
  destruct (handle_answer_other _ s s Hk) as (Hq & Hread & _).
  assert (Hproc : cs_process (handle_answer (str_strip l) s).2 = cs_process s).
  { unfold handle_answer, measures_handler. repeat case_match; done. }
  assert (reader_step (RLine l) s = (handle_answer (str_strip l) s).2) as Hstep.
  { unfold reader_step. rewrite Hr. specialize (Hs s).
    destruct (handle_answer (str_strip l) s) as [o s1]. simpl in Hs. by subst o. }
  destruct (IH (reader_step (RLine l) s)) as (H1 & H2 & H3); [congruence|].
  cbn zeta. split_and!; congruence.
Qed.

(** The control node of a witness, before any configuration. *)
Definition demo_cn : Cn := MkCn (MkTimeval 0 0) no_consumption false true 0 [].
Definition demo_clock (n : nat) : timeval := MkTimeval (Z.of_nat n) 0.

(** A radio measure arrives before the answer to [start dc], cut between the reads. *)
Definition demo_reads : list (list Z) :=
  [[128; 12; 241; 1; 2; 0; 0; 0; 1]; [3; 0; 0; 0; 15; 200; 7; 128]; [2; 17; 10]]%Z.

Definition demo_answers : Env :=
  world calm_call calm_start
    (λ _, RLine <$> @lines_of gateway_abi demo_clock rx_init demo_cn demo_reads)
    calm_read calm_sread slept calm_connect calm_sock_read calm_output.

Lemma command_status_witness :
  ∃ s' t', send_words (@send_command demo_answers) ["start"; "dc"]
             (set_process true Running (cs_init "/dev/ttyCN")) [] = (Val 0%Z, s', t').
Proof.
  destruct (@command_status demo_answers gateway_abi demo_clock rx_init demo_cn demo_reads
    [([], [241; 1; 2; 0; 0; 0; 1; 3; 0; 0; 0; 15])]%Z [200; 7]%Z 17 10 "start" ["dc"]
    (set_process true Running (cs_init "/dev/ttyCN")) [])
    as (s' & t' & Hrun).
  all: try reflexivity.
  - apply rx_init_wf.
  - done.
  - repeat constructor; simpl; (lia || done).
  - repeat constructor.
  - repeat constructor; done.
  - repeat constructor; unfold byte_ok; lia.
  - exists s', t'. exact Hrun.
Defined.

Lemma reader_outlives_witness :
  cs_reader (fold_left (λ s l, reader_step (RLine l) s)
    (@lines_of workstation_abi demo_clock rx_init demo_cn [[128; 3; 255]; [1; 2; 7]]%Z)
    (set_process true Running (cs_init "/dev/ttyCN"))) = Running.
Proof.
  apply (@reader_outlives calm_env workstation_abi demo_clock
    (@lines_of workstation_abi demo_clock rx_init demo_cn [[128; 3; 255]; [1; 2; 7]]%Z)
    (set_process true Running (cs_init "/dev/ttyCN")) eq_refl).
  apply Forall_forall. intros l Hl. left. exists rx_init, demo_cn, [[128; 3; 255]; [1; 2; 7]]%Z.
  split_and!; [apply rx_init_wf|repeat constructor; unfold byte_ok; lia|exact Hl].
Defined.
