(* ===== verification/CnMain.v ===== *)
(** * The control node serial program as a process ([main.c], [configure_tty],
      [oml_measures_start])

    The options of the command line, the configuration of the tty and of the OML
    library, and what [ControlNodeSerial.start] sees of a program that starts or that
    does not.  The system calls and the OML library are parameters. *)

From S2P Require Import Prelude PyString Effects PyVal Profile Protocol CnInterface Measures.
From S2P Require Import CFormat CnCommands CnPackets CnMeasures CnLines CnProgram.

(** ** Options ([main]) *)

Record options := MkOptions {
  print_measures : bool;
  tty_path : string;
  oml_config_file_path : option string
}.

Definition TTY_PATH : string := "/dev/ttyCN".
Definition default_options : options := MkOptions false TTY_PATH None.

(** The [case 'd'], and the cases ['t'] and ['c'] with their [optarg] *)
Definition set_print (o : options) : options :=
  MkOptions true (tty_path o) (oml_config_file_path o).
Definition set_option (c : Ascii.ascii) (optarg : string) (o : options) : options :=
  if Ascii.eqb c "t" then MkOptions (print_measures o) optarg (oml_config_file_path o)
  else MkOptions (print_measures o) (tty_path o) (Some optarg).

(** The options of one argument: all read, the last one waits for its argument, or an
    unknown one. *)
Inductive cluster := AllRead (o : options) | Wants (c : Ascii.ascii) (o : options)
  | Unknown (c : Ascii.ascii).

Fixpoint read_cluster (s : string) (o : options) : cluster :=
  match s with
  | EmptyString => AllRead o
  | String c s =>
      if Ascii.eqb c "d" then read_cluster s (set_print o)
      else if Ascii.eqb c "t" || Ascii.eqb c "c" then
        match s with EmptyString => Wants c o | _ => AllRead (set_option c s o) end
      else Unknown c
  end.

(** The loop on [getopt(argc, argv, "dt:c:")], which passes over the arguments that are
    not options; [inr optopt] when it gives ['?']. *)
Fixpoint getopt_loop (argv : list string) (o : options) : options + Ascii.ascii :=
  match argv with
  | [] => inl o
  | arg :: argv =>
      if decide (arg = "--") then inl o
      else match arg with
           | String "-" (String _ _ as s) =>
               match read_cluster s o with
               | AllRead o => getopt_loop argv o
               | Unknown c => inr c
               | Wants c o =>
                   match argv with
                   | [] => inr c
                   | optarg :: argv => getopt_loop argv (set_option c optarg o)
                   end
               end
           | _ => getopt_loop argv o
           end
  end.

(** [isprint(c)] *)
Definition isprint (c : Ascii.ascii) : bool :=
  let n := Ascii.nat_of_ascii c in (32 <=? n) && (n <=? 126).

Definition error_line (text : string) : string := "cn_serial_error: " +:+ text +:+ nl.

Definition usage (program_name : string) : list string :=
  [error_line ("Usage: " +:+ program_name +:+ " [-d] [-t tty_path] [-c oml_config_file]");
   error_line "  d: debug mode, print measures";
   error_line ("  t: Set tty path. Default " +:+ TTY_PATH);
   error_line "  c: OML config file path."].

(** [%x] of an unsigned int *)
Fixpoint fmt_x (digits : nat) (z : Z) : string :=
  match digits with
  | O => ""
  | S digits =>
      (if (z <? 16)%Z then "" else fmt_x digits (z / 16)%Z)
      +:+ String (hex_digit false (z mod 16)%Z) ""
  end.

(** [optopt], an [int] made of a plain [char] *)
Definition int_of_char `{Abi} (c : Ascii.ascii) : Z :=
  let n := Z.of_nat (Ascii.nat_of_ascii c) in if char_signed then swrap 8 n else n.

(** The [case '?'] *)
Definition bad_option `{Abi} (optopt : Ascii.ascii) : string :=
  let c := String optopt "" in
  if Ascii.eqb optopt "t" || Ascii.eqb optopt "c"
  then error_line ("Option -" +:+ c +:+ " requires an argument.")
  else if isprint optopt then error_line ("Unknown option `-" +:+ c +:+ "`.")
  else error_line ("Unknown option character`\x"
         +:+ fmt_x 8 (wrap 32 (int_of_char optopt)) +:+ "`.").

(** ** The tty and the OML library *)

(** What the system calls of [configure_tty] and the functions of OML answer. *)
Record System := MkSystem {
  sys_open : string → Z;                (* -1: the tty cannot be opened *)
  sys_tcflush : bool;
  sys_tcgetattr : bool;
  sys_cfsetspeed : bool;
  sys_tcsetattr : bool;
  sys_strerror : string;
  sys_omlc_init : string → Z;           (* -1: error *)
  sys_omlc_start : Z;
  sys_omlc_close : Z
}.

(** [configure_tty(tty_path)]: the lines it prints and the descriptor *)
Definition configure_tty (sys : System) (path : string) : list string * Z :=
  let serial_fd := sys_open sys path in
  let failed text := [error_line (text +:+ ": " +:+ sys_strerror sys)] in
  if (serial_fd =? -1)%Z then ([error_line ("Could not open " +:+ path)], (-1)%Z)
  else if negb (sys_tcflush sys) then (failed "Error in tcflush", (-2)%Z)
  else if negb (sys_tcgetattr sys) then (failed "Error in tcgetattr", (-3)%Z)
  else if negb (sys_cfsetspeed sys) then (failed "Error while setting terminal speed", (-4)%Z)
  else if negb (sys_tcsetattr sys) then (failed "Error could not set attribute to tty", (-5)%Z)
  else ([], serial_fd).

Definition set_oml_print (b : bool) (s : Cn) : Cn :=
  MkCn (cn_time_ref s) (cn_consumption s) (cn_oml_started s) b (cn_clock s) (cn_out s).
Definition set_oml_started (b : bool) (s : Cn) : Cn :=
  MkCn (cn_time_ref s) (cn_consumption s) b (cn_oml_print s) (cn_clock s) (cn_out s).

(** [oml_measures_start(oml_config_file_path, print_measures)] *)
Definition oml_measures_start (sys : System) (path : option string) (print : bool) (s : Cn)
    : Z * Cn :=
  let s := set_oml_print print s in
  match path with
  | None => (0%Z, s)
  | Some path =>
      let result := sys_omlc_init sys path in
      if (result =? -1)%Z
      then (result, cn_emit [print_error ("omlc_init failed: " +:+ str_of_Z result)] s)
      else
        let result := sys_omlc_start sys in
        if (result =? -1)%Z
        then (result, cn_emit [print_error ("omlc_start failed: " +:+ str_of_Z result)] s)
        else (0%Z, set_oml_started true s)
  end.

Definition oml_measures_stop (sys : System) (s : Cn) : Z * Cn :=
  let ret := if cn_oml_started s then sys_omlc_close sys else 0%Z in
  (ret, set_oml_print false (set_oml_started false s)).

(** [measures_handler_start], [measures_handler_stop]: the results are dropped *)
Definition measures_handler_start (sys : System) (print : bool) (path : option string) (s : Cn)
    : Cn := snd (oml_measures_start sys path print s).
Definition measures_handler_stop (sys : System) (s : Cn) : Cn := snd (oml_measures_stop sys s).

(** The static variables when the program starts. *)
Definition cn_static : Cn := MkCn (MkTimeval 0 0) no_consumption false false 0 [].

Definition EINVAL : Z := 22.

(** [main] up to its threads: the lines it prints, then its exit code or the state in
    which the threads start. *)
Definition main `{Abi} (sys : System) (argv : list string) : list string * (Z + Cn) :=
  match getopt_loop (tail argv) default_options with
  | inr optopt => (bad_option optopt :: usage (hd "" argv), inl EINVAL)
  | inl o =>
      let '(lines, serial_fd) := configure_tty sys (tty_path o) in
      if (0 >=? serial_fd)%Z
      then (lines ++ [error_line ("Could not open and configure TTY " +:+ tty_path o)],
            inl (-1)%Z)
      else
        let s := measures_handler_start sys (print_measures o) (oml_config_file_path o) cn_static in
        (lines ++ printed (cn_out s), inr s)
  end.

(** The message of [read_commands] *)
Definition ready_line : string := "cn_serial_ready" +:+ nl.

(** ** Lemmas *)

Lemma error_line_survives text : reader_survives (error_line text).
Proof.
  eapply kind_survives; [|by left]. apply (strip_kind "cn_serial_error:" (text +:+ nl)). done.
Qed.

Ltac error_lines :=
  repeat first [apply Forall_nil_2 | apply Forall_cons_2; [apply error_line_survives|]].

(** The options of the command line of the gateway. *)
Lemma gateway_options `{Env} oml s t :
  getopt_loop (tail (fst (program_args oml s t))) default_options =
    inl (MkOptions (cs_debug s) (cs_tty s)
           match oml with
           | Some _ => Some (env_tempname (t ++ [EvTempFile "--oml.config"]) "--oml.config")
           | None => None
           end).
Proof. unfold program_args. by destruct oml, (cs_debug s). Qed.

Lemma configure_tty_survives sys path : Forall reader_survives (fst (configure_tty sys path)).
Proof.
  unfold configure_tty. repeat case_match; simpl; error_lines.
Qed.

Lemma measures_handler_start_out sys print path :
  let s := measures_handler_start sys print path cn_static in
  cn_oml_print s = print ∧ Forall reader_survives (printed (cn_out s)).
Proof.
  unfold measures_handler_start, oml_measures_start.
  destruct path as [path|]; [|by split; [|constructor]].
  repeat case_match; simpl; (split; [done|]); cbn; error_lines.
Qed.

Lemma main_survives `{Abi} sys argv : Forall reader_survives (fst (main sys argv)).
Proof.
  unfold main. destruct (getopt_loop _ _) as [o|c].
  - pose proof (configure_tty_survives sys (tty_path o)) as Hl.
    destruct (configure_tty sys (tty_path o)) as [lines fd]. simpl in Hl.
    destruct (0 >=? fd)%Z; simpl; apply Forall_app; (split; [done|]).
    + error_lines.
    + by apply measures_handler_start_out.
  - unfold usage, bad_option. repeat case_match; simpl; error_lines.
Qed.

(** The reader passes over such lines while it waits for the program. *)
Lemma startup_survives lines obs :
  Forall reader_survives lines → startup ((RLine <$> lines) ++ obs) = startup obs.
Proof.
  induction 1 as [|l lines [Hl Hk] Hlines IH]; [done|]. cbn [fmap list_fmap app startup].
  rewrite decide_False by done. by rewrite Hl.
Qed.

Lemma startup_ready obs : startup (RLine ready_line :: obs) = Val 0%Z.
Proof. done. Qed.

(** ** Properties *)

(** C22: starting the serial program, from one end to the other.  The command line of
    the gateway is the one the program reads: it opens the tty of the control node and
    prints the measures when the gateway keeps them.  When the tty can be configured,
    [start] returns 0, whatever OML answers and whatever packets are printed before
    the ready message.  When it cannot, the program ends with an error and [start]
    returns 1 if its exit is seen first, but never returns if the end of its output is
    seen first. *)
Theorem serial_start `{E : Env} `{A : Abi} (sys : System) (oml : option string)
    (s : CnSerial) (t : trace) (Hpopen : ∀ t' args, env_popen t' args = None) :
  let '(args, t1) := program_args oml s t in
  let obs := env_reader (t1 ++ [EvPopen args; EvWaitReady]) in
  let result := fst (fst (cs_start oml s t)) in
  let '(lines, state) := main sys args in
  if (0 <? snd (configure_tty sys (cs_tty s)))%Z then
    ∃ cn, state = inr cn ∧ cn_oml_print cn = cs_debug s ∧
      ∀ before rest,
        Forall (λ l, ∃ clock rx cn reads, rx_wf rx ∧ Forall (Forall byte_ok) reads ∧
                     l ∈ lines_of clock rx cn reads) before →
        obs = RLine <$> (lines ++ before ++ ready_line :: rest) → result = Val 0%Z
  else
    state = inl (-1)%Z ∧
    (obs = (RLine <$> lines) ++ [RExited] → result = Val 1%Z) ∧
    (obs = (RLine <$> lines) ++ [REof] → result = Hang).
Proof.
  pose proof (cs_start_run oml s t Hpopen) as Hrun.
  pose proof (gateway_options oml s t) as Hopt.
  pose proof (main_survives sys (fst (program_args oml s t))) as Hlines.
  destruct (program_args oml s t) as [args t1]. cbn [fst] in *. rewrite Hrun.
  unfold main in *. rewrite Hopt in *. cbn [tty_path print_measures] in *.
  set (path := oml_config_file_path _) in *.
  destruct (configure_tty sys (cs_tty s)) as [tty_lines fd]. cbn [snd] in *.
  assert ((0 >=? fd) = negb (0 <? fd))%Z as Hfd by lia. rewrite Hfd in *.
  destruct (0 <? fd)%Z; cbn [negb fst] in *.
  - eexists. split; [done|]. split; [by apply measures_handler_start_out|].
    intros before rest Hb ->. rewrite fmap_app, startup_survives by done.
    rewrite fmap_app, startup_survives; [done|].
    eapply Forall_impl; [exact Hb|]. intros l (clock & rx & cn & reads & Hwf & Hby & Hin).
    pose proof (lines_of_survive clock rx cn reads Hby Hwf) as Hall.
    rewrite Forall_forall in Hall. by apply Hall.
  - split; [done|]. by split; intros ->; rewrite startup_survives.
Qed.

(** A program that starts, after an error of OML, with the debug of the measures. *)
Definition demo_system (fd : Z) : System :=
  MkSystem (λ _, fd) true true true true "" (λ _, (-1)%Z) 0 0.

Definition start_env (last : list robs) : Env :=
  world calm_call calm_start (λ _, last) calm_read calm_sread slept calm_connect
    calm_sock_read calm_output.

Lemma serial_start_witness :
  let lines := [error_line "omlc_init failed: -1"] in
  fst (fst (@cs_start (start_env (RLine <$> (lines ++ [ready_line]))) (Some "<oml/>")
    (set_debug true (cs_init "/dev/ttyCN")) [])) = Val 0%Z ∧
  fst (fst (@cs_start (start_env ((RLine <$> [error_line "Could not open /dev/ttyCN";
      error_line "Could not open and configure TTY /dev/ttyCN"]) ++ [REof])) None
    (cs_init "/dev/ttyCN") [])) = Hang.
Proof.
  split.
  - destruct (@serial_start (start_env (RLine <$> [error_line "omlc_init failed: -1"; ready_line]))
      gateway_abi (demo_system 3) (Some "<oml/>") (set_debug true (cs_init "/dev/ttyCN")) []
      (λ _ _, eq_refl)) as (cn & _ & _ & Hrun).
    exact (Hrun [] [] (Forall_nil_2 _) eq_refl).
  - destruct (@serial_start (start_env ((RLine <$> [error_line "Could not open /dev/ttyCN";
      error_line "Could not open and configure TTY /dev/ttyCN"]) ++ [REof])) gateway_abi
      (demo_system (-1)) None (cs_init "/dev/ttyCN") [] (λ _ _, eq_refl)) as (_ & _ & Hrun).
    exact (Hrun eq_refl).
Defined.
