(* ===== verification/CnRoundtrip.v ===== *)
(** * Measures, from the packets to the autotests

    The measure packets of the control node are printed by the serial program, read
    by the thread of the gateway and parsed by the autotests: the values come out as
    they went in. *)

From Stdlib Require Import SpecFloat.
From S2P Require Import Prelude PyString Effects PyVal Profile Protocol CnInterface Measures.
From S2P Require Import CFormat CnCommands CnPackets CnMeasures CnLines CnProgram.

(** ** Frames *)

(** A measure: its time in microseconds after the reference, and its bytes. *)
Definition measure_bytes (m : Z * list Z) : list Z := le_bytes 4 m.1 ++ m.2.

(** A measure packet: the type, the number of measures, the reference in seconds. *)
Definition measure_frame (type t_ref : Z) (ms : list (Z * list Z)) : list Z :=
  type :: Z.of_nat (length ms) :: le_bytes 4 t_ref ++ concat (measure_bytes <$> ms).

(** Times before 2038, as [long] has 32 bits on the gateway. *)
Definition time_ok (t_ref : Z) (us : Z) : Prop :=
  (0 ≤ t_ref)%Z ∧ (0 ≤ us < 2 ^ 31)%Z ∧ (t_ref + us / 10 ^ 6 < 2 ^ 31)%Z.

Lemma measure_frame_length type t_ref ms size :
  Forall (λ m, length m.2 = size) ms →
  length (measure_frame type t_ref ms) = 6 + length ms * (4 + size).
Proof.
  intros Hs. unfold measure_frame. cbn [length]. rewrite length_app, le_bytes_length.
  assert (length (concat (measure_bytes <$> ms)) = length ms * (4 + size)) as ->; [|lia].
  induction Hs as [|m ms Hm Hs IH]; [done|]. cbn [fmap list_fmap concat].
  rewrite length_app, IH. unfold measure_bytes. rewrite length_app, le_bytes_length.
  simpl. lia.
Qed.

Section frames.
Context `{A : Abi}.

Lemma calculate_time_ok t_ref us :
  time_ok t_ref us →
  calculate_time_extended t_ref us = MkTimeval (t_ref + us / 10 ^ 6) (us mod 10 ^ 6).
Proof.
  intros (Ht & Hus & Hsum). unfold calculate_time_extended.
  assert (0 ≤ us / 10 ^ 6)%Z by (apply Z.div_pos; lia).
  assert (∀ z, 0 ≤ z < 2 ^ 31 → swrap long_bits z = z)%Z as Hsw.
  { intros z Hz. destruct long_ok as [Hl|Hl]; rewrite Hl; apply swrap_small; lia. }
  rewrite !(Hsw us), (Hsw t_ref) by lia.
  rewrite Z.quot_div_nonneg, Z.rem_mod_nonneg by lia. change 1000000%Z with (10 ^ 6)%Z.
  by rewrite Hsw by lia.
Qed.

(** The loop only looks at the buffer from its index on. *)
Lemma measures_loop_frame t_ref size handler ms i data rest s :
  Forall (λ m, time_ok t_ref m.1 ∧ length m.2 = size) ms →
  drop i data = concat (measure_bytes <$> ms) ++ rest →
  measures_loop data t_ref size handler (length ms) i s =
    fold_left (λ s m, handler m.2 (calculate_time_extended t_ref m.1) s) ms s.
Proof.
  intros Hms. revert i s. induction Hms as [|[us body] ms [Ht Hb] Hms IH]; intros i s Hd; [done|].
  cbn [fmap list_fmap concat length measures_loop fold_left fst snd] in *.
  rewrite <- app_assoc in Hd. unfold measure_bytes at 1 in Hd. cbn [fst snd] in Hd.
  rewrite <- app_assoc in Hd.
  assert (word_at data i 4 = us) as ->.
  { unfold word_at. rewrite Hd, take_app_length' by by rewrite le_bytes_length.
    rewrite le_val_bytes. apply wrap_small. destruct Ht. lia. }
  assert (Hd4 : drop (i + 4) data = body ++ concat (measure_bytes <$> ms) ++ rest).
  { rewrite <- drop_drop, Hd. by rewrite drop_app_length' by by rewrite le_bytes_length. }
  rewrite Hd4, take_app_length' by done. apply IH.
  rewrite <- drop_drop, Hd4. by rewrite drop_app_length'.
Qed.

Lemma handle_oml_measure_frame type t_ref ms size handler str rest s :
  Forall (λ m, time_ok t_ref m.1 ∧ length m.2 = size) ms → (0 ≤ t_ref < 2 ^ 32)%Z →
  handle_oml_measure (measure_frame type t_ref ms ++ rest) (6 + length ms * (4 + size)) size
    handler str s =
    fold_left (λ s m, handler m.2 (calculate_time_extended t_ref m.1) s) ms s.
Proof.
  intros Hms Ht. unfold handle_oml_measure.
  assert (byte_at (measure_frame type t_ref ms ++ rest) 1 = Z.of_nat (length ms)) as -> by done.
  rewrite Nat2Z.id. rewrite (proj2 (Nat.eqb_eq _ _)) by lia. cbn [negb].
  assert (word_at (measure_frame type t_ref ms ++ rest) 2 4 = t_ref) as ->.
  { unfold word_at, measure_frame. cbn [app drop]. rewrite <- app_assoc, drop_0.
    rewrite take_app_length' by by rewrite le_bytes_length.
    rewrite le_val_bytes. apply wrap_small. lia. }
  apply (measures_loop_frame _ _ _ _ _ _ rest); [done|].
  change 6 with (2 + 4). rewrite <- drop_drop. unfold measure_frame. cbn [app drop].
  rewrite <- app_assoc, drop_0. by rewrite drop_app_length' by by rewrite le_bytes_length.
Qed.
End frames.

(** ** Measure lines *)

Lemma strip_measure ws :
  Forall is_word ws →
  str_strip (("measures_debug:" +:+ words ws) +:+ nl) = "measures_debug:" +:+ words ws ∧
  str_split " " (str_strip (("measures_debug:" +:+ words ws) +:+ nl)) = "measures_debug:" :: ws.
Proof.
  intros Hws. assert (Forall is_word ("measures_debug:" :: ws)) as Hall by (by constructor).
  rewrite strip_words by done. by rewrite str_split_words.
Qed.

(** The reader keeps the lines of measures when it has a handler for them. *)
Lemma reader_keeps ws s :
  Forall is_word ws → cs_reader s = Running → cs_debug s = true →
  reader_step (RLine (("measures_debug:" +:+ words ws) +:+ nl)) s =
    add_measure (str_strip (("measures_debug:" +:+ words ws) +:+ nl)) s.
Proof.
  intros Hws Hr Hd. destruct (strip_measure ws Hws) as [_ Hsp].
  unfold reader_step. rewrite Hr. unfold handle_answer. rewrite Hsp. cbn [hd].
  unfold measures_handler. rewrite Hd. done.
Qed.

Lemma py_float_time s us :
  (0 ≤ s)%Z → (0 ≤ us < 10 ^ 6)%Z →
  py_float (fmt_time s us) = Val (to_float (FFin (s * 10 ^ 6 + us) (10 ^ 6))).
Proof.
  intros Hs Hus. unfold py_float.
  change (fmt_time s us) with ((if false then "-" else "") +:+ fmt_time s us).
  by rewrite float_of_time.
Qed.

Lemma py_float_f f : py_float (fmt_f f) = Val (to_float (py_of_f f)).
Proof. unfold py_float. by rewrite float_of_fmt_f. Qed.

(** ** Radio measures *)

Record radio_meas := MkRadioMeas { rm_us : Z; rm_channel : Z; rm_rssi : Z }.

Definition radio_meas_ok (t_ref : Z) (m : radio_meas) : Prop :=
  time_ok t_ref (rm_us m) ∧ byte_ok (rm_channel m) ∧ (-128 ≤ rm_rssi m < 128)%Z.

(** [struct radio_measure] *)
Definition radio_body (m : radio_meas) : Z * list Z :=
  (rm_us m, [rm_channel m; wrap 8 (rm_rssi m)]).

Definition radio_frame (t_ref : Z) (ms : list radio_meas) : list Z :=
  measure_frame RADIO_MEAS_FRAME t_ref (radio_body <$> ms).

(** The words of the line of a measure after the first. *)
Definition radio_words (t_ref : Z) (m : radio_meas) : list string :=
  ["radio_measure"; fmt_time (t_ref + rm_us m / 10 ^ 6) (rm_us m mod 10 ^ 6);
   str_of_Z (rm_channel m); str_of_Z (rm_rssi m)].

(** The line of the words of a measure. *)
Definition measure_line (ws : list string) : string := ("measures_debug:" +:+ words ws) +:+ nl.

(** The time of a measure, for the autotests. *)
Definition measure_time (t_ref us : Z) : spec_float := to_float (FFin (t_ref * 10 ^ 6 + us) (10 ^ 6)).

Lemma time_parts t_ref us :
  time_ok t_ref us →
  (0 ≤ t_ref + us / 10 ^ 6 < 2 ^ 31)%Z ∧ (0 ≤ us mod 10 ^ 6 < 10 ^ 6)%Z ∧
  ((t_ref + us / 10 ^ 6) * 10 ^ 6 + us mod 10 ^ 6 = t_ref * 10 ^ 6 + us)%Z.
Proof.
  intros (Ht & Hus & Hsum). assert (0 ≤ us / 10 ^ 6)%Z by (apply Z.div_pos; lia).
  pose proof (Z.mod_pos_bound us (10 ^ 6)). pose proof (Z_div_mod_eq_full us (10 ^ 6)).
  split_and!; lia.
Qed.

Lemma radio_words_ok t_ref m : radio_meas_ok t_ref m → Forall is_word (radio_words t_ref m).
Proof.
  intros (Ht & _ & _). destruct (time_parts _ _ Ht) as (H1 & H2 & _). unfold radio_words.
  rewrite !Forall_cons, Forall_nil. split_and!; try done; try apply str_of_Z_word_all.
  apply fmt_time_word; lia.
Qed.

Lemma wrap8_swrap z : (-128 ≤ z < 128)%Z → swrap 8 (wrap 8 z) = z.
Proof.
  intros Hz. unfold swrap, wrap. change (2 ^ (8 - 1))%Z with 128%Z. change (2 ^ 8)%Z with 256%Z.
  rewrite Zplus_mod_idemp_l. rewrite Z.mod_small by lia. lia.
Qed.

(** A line that [PRINT_MEASURE] prints, word by word. *)
Lemma print_measure_words w ws :
  print_measure (w +:+ words ws) = Print (measure_line (w :: ws)).
Proof. reflexivity. Qed.

(** The events of measures handled one after the other, in the same configuration. *)
Lemma fold_emits {B} (f : B → Cn → Cn) (g : B → string) ms s0 :
  (∀ m s, m ∈ ms → cn_oml_print s = cn_oml_print s0 → cn_oml_started s = cn_oml_started s0 →
     cn_consumption s = cn_consumption s0 → f m s = cn_emit [Print (g m)] s) →
  fold_left (λ s m, f m s) ms s0 = cn_emit (Print <$> (g <$> ms)) s0.
Proof.
  revert s0. induction ms as [|m ms IH]; intros s Hf.
  - destruct s; unfold cn_emit; simpl. by rewrite app_nil_r.
  - cbn [fold_left]. rewrite Hf by (done || left). rewrite IH by (intros; apply Hf; set_solver).
    unfold cn_emit. cbn. by rewrite <- app_assoc.
Qed.

Lemma fold_fmap {B C S} (h : B → C) (f : C → S → S) ms s :
  fold_left (λ s m, f m s) (h <$> ms) s = fold_left (λ s m, f (h m) s) ms s.
Proof. revert s. induction ms as [|m ms IH]; intros s; [done|]. apply IH. Qed.

Section radio.
Context `{A : Abi}.

Lemma radio_handler_line t_ref m s :
  radio_meas_ok t_ref m → cn_oml_print s = true → cn_oml_started s = false →
  radio_handler (radio_body m).2 (calculate_time_extended t_ref (radio_body m).1) s =
    cn_emit [Print (measure_line (radio_words t_ref m))] s.
Proof.
  intros (Ht & Hc & Hr) Hp Ho. cbn [radio_body fst snd]. rewrite calculate_time_ok by done.
  destruct (time_parts _ _ Ht) as (H1 & H2 & _).
  unfold radio_handler, oml_measures_radio. rewrite Hp, Ho. cbn [tv_sec tv_usec app].
  rewrite !wrap_small by lia. cbn [byte_at nth]. rewrite wrap8_swrap by done.
  unfold radio_words. rewrite <- print_measure_words. cbn [words]. by rewrite str_app_nil_r.
Qed.

(** The packet of radio measures is printed as their lines. *)
Lemma decode_radio_frame clock t_ref ms rest s :
  Forall (radio_meas_ok t_ref) ms → (0 ≤ t_ref < 2 ^ 32)%Z →
  cn_oml_print s = true → cn_oml_started s = false →
  decode_pkt clock (length (radio_frame t_ref ms)) (radio_frame t_ref ms ++ rest) s =
    cn_emit (Print <$> ((λ m, measure_line (radio_words t_ref m)) <$> ms)) s.
Proof.
  intros Hms Ht Hp Ho. unfold decode_pkt.
  assert (byte_at (radio_frame t_ref ms ++ rest) 0 = RADIO_MEAS_FRAME) as Hb by done.
  rewrite Hb. change (Z.land RADIO_MEAS_FRAME ASYNC_FRAME_MASK =? ASYNC_FRAME_MASK)%Z with true.
  unfold handle_measure_pkt. rewrite Hb.
  change (RADIO_MEAS_FRAME =? ACK_FRAME)%Z with false.
  change (RADIO_MEAS_FRAME =? RADIO_SNIFFER_FRAME)%Z with false.
  change (RADIO_MEAS_FRAME =? CONSUMPTION_FRAME)%Z with false.
  change (RADIO_MEAS_FRAME =? RADIO_MEAS_FRAME)%Z with true. cbn [Z.eqb negb].
  assert (Forall (λ m : Z * list Z, length m.2 = 2) (radio_body <$> ms)) as Hl
    by (apply Forall_fmap, Forall_true; done).
  unfold radio_frame. rewrite (measure_frame_length RADIO_MEAS_FRAME t_ref _ 2 Hl).
  rewrite handle_oml_measure_frame; [|apply Forall_fmap|done].
  2: { eapply Forall_impl; [exact Hms|]. intros m (Hm & _). by split. }
  rewrite (fold_fmap radio_body (λ m s, radio_handler m.2 (calculate_time_extended t_ref m.1) s)).
  apply (fold_emits (λ m s, radio_handler _ _ s)). intros m s' Hm Hp' Ho' _.
  apply radio_handler_line; [|congruence..]. rewrite Forall_forall in Hms. by apply Hms.
Qed.
End radio.

(** What the autotests read in the line of a measure. *)
Lemma measure_step_radio t_ref m meas :
  radio_meas_ok t_ref m →
  measure_step meas (str_split " " (str_strip (measure_line (radio_words t_ref m)))) =
    Val (MkMeasures (ms_consumption meas) (ms_consumption_ts meas)
           (ms_radio meas ++ [[rm_channel m; rm_rssi m]])
           (ms_radio_ts meas ++ [measure_time t_ref (rm_us m)])).
Proof.
  intros Hm. destruct (strip_measure _ (radio_words_ok _ _ Hm)) as [_ Hs].
  unfold measure_line. rewrite Hs. destruct Hm as (Ht & _ & _).
  destruct (time_parts _ _ Ht) as (H1 & H2 & H3).
  unfold measure_step, radio_words, str_int. cbn [nth_word lookup list_lookup drop take].
  cbn -[str_of_Z fmt_time py_float to_float]. rewrite !int_of_str_of_Z.
  cbn -[str_of_Z fmt_time py_float to_float]. rewrite py_float_time by lia.
  cbn -[str_of_Z fmt_time py_float to_float]. unfold measure_time. by rewrite H3.
Qed.

(** ** Consumption measures *)

(** The values of a measure, as the bits of floats. *)
Record cons_meas := MkConsMeas { cm_us : Z; cm_p : Z; cm_v : Z; cm_c : Z }.

Definition cons_meas_ok (t_ref : Z) (m : cons_meas) : Prop :=
  time_ok t_ref (cm_us m) ∧ (0 ≤ cm_p m < 2 ^ 32)%Z ∧ (0 ≤ cm_v m < 2 ^ 32)%Z ∧
  (0 ≤ cm_c m < 2 ^ 32)%Z.

(** The bytes of the values that are measured. *)
Definition cons_body (k : mh_consumption) (m : cons_meas) : Z * list Z :=
  (cm_us m, (if mh_p k then le_bytes 4 (cm_p m) else []) ++
            (if mh_v k then le_bytes 4 (cm_v m) else []) ++
            (if mh_c k then le_bytes 4 (cm_c m) else [])).

Definition consumption_frame (k : mh_consumption) (t_ref : Z) (ms : list cons_meas) : list Z :=
  measure_frame CONSUMPTION_FRAME t_ref (cons_body k <$> ms).

(** The values with [NAN] for those that are not measured. *)
Definition cons_values (k : mh_consumption) (m : cons_meas) : list Z :=
  [if mh_p k then cm_p m else NAN; if mh_v k then cm_v m else NAN;
   if mh_c k then cm_c m else NAN].

Definition cons_words (k : mh_consumption) (t_ref : Z) (m : cons_meas) : list string :=
  "consumption_measure" :: fmt_time (t_ref + cm_us m / 10 ^ 6) (cm_us m mod 10 ^ 6)
    :: (fmt_f <$> cons_values k m).

(** The length of a measure is that of the values configured. *)
Definition consumption_wf (k : mh_consumption) : Prop :=
  mh_meas_len k = (if mh_p k then 4 else 0) + (if mh_v k then 4 else 0) + (if mh_c k then 4 else 0).

Lemma config_consumption_wf src p v c : consumption_wf (config_consumption src p v c).
Proof. done. Qed.

Lemma no_consumption_wf : consumption_wf no_consumption.
Proof. done. Qed.

Lemma cons_body_length k m : consumption_wf k → length (cons_body k m).2 = mh_meas_len k.
Proof.
  intros ->. cbn [cons_body snd]. rewrite !length_app.
  destruct (mh_p k), (mh_v k), (mh_c k); rewrite ?le_bytes_length; done.
Qed.

Lemma cons_words_ok k t_ref m : cons_meas_ok t_ref m → Forall is_word (cons_words k t_ref m).
Proof.
  intros (Ht & _). destruct (time_parts _ _ Ht) as (H1 & H2 & _). unfold cons_words, cons_values.
  cbn [fmap list_fmap]. rewrite !Forall_cons, Forall_nil. split_and!; try done;
    try apply fmt_f_word. apply fmt_time_word; lia.
Qed.

(** Reading the floats back from the bytes of a measure. *)
Lemma word_at_first z b : (0 ≤ z < 2 ^ 32)%Z → word_at (le_bytes 4 z ++ b) 0 4 = z.
Proof.
  intros Hz. unfold word_at. rewrite drop_0, take_app_length' by by rewrite le_bytes_length.
  rewrite le_val_bytes. by apply wrap_small.
Qed.

Lemma word_at_last z : (0 ≤ z < 2 ^ 32)%Z → word_at (le_bytes 4 z) 0 4 = z.
Proof. rewrite <- (app_nil_r (le_bytes 4 z)). apply word_at_first. Qed.

Lemma word_at_skip z b i : 4 ≤ i → word_at (le_bytes 4 z ++ b) i 4 = word_at b (i - 4) 4.
Proof.
  intros Hi. unfold word_at. rewrite drop_app_ge by (rewrite le_bytes_length; lia).
  by rewrite le_bytes_length.
Qed.

Section consumption.
Context `{A : Abi}.

Lemma consumption_handler_line t_ref m s :
  cons_meas_ok t_ref m → cn_oml_print s = true → cn_oml_started s = false →
  let k := cn_consumption s in
  consumption_handler (cons_body k m).2 (calculate_time_extended t_ref (cons_body k m).1) s =
    cn_emit [Print (measure_line (cons_words k t_ref m))] s.
Proof.
  intros (Ht & Hp & Hv & Hc) Hprint Ho k. cbn [cons_body fst snd].
  rewrite calculate_time_ok by done. destruct (time_parts _ _ Ht) as (H1 & H2 & _).
  assert (Hsub : ∀ p v c, oml_measures_consumption
      (wrap 32 (t_ref + cm_us m / 10 ^ 6)) (wrap 32 (cm_us m mod 10 ^ 6)) p v c s =
    cn_emit [Print (measure_line
      ["consumption_measure"; fmt_time (t_ref + cm_us m / 10 ^ 6) (cm_us m mod 10 ^ 6);
       fmt_f p; fmt_f v; fmt_f c])] s).
  { intros p v c. unfold oml_measures_consumption. rewrite Hprint, Ho, !wrap_small by lia.
    rewrite <- print_measure_words. cbn [words app]. by rewrite str_app_nil_r. }
  unfold consumption_handler, cons_words, cons_values. fold k. cbn [tv_sec tv_usec fmap list_fmap].
  destruct (mh_p k), (mh_v k), (mh_c k); cbn [Nat.add]; rewrite ?app_nil_r, ?app_nil_l;
    repeat first [ rewrite word_at_first by done | rewrite word_at_last by done
                 | rewrite word_at_skip by lia; cbn [Nat.sub] ]; apply Hsub.
Qed.

(** The packet of consumption measures is printed as their lines. *)
Lemma decode_consumption_frame clock t_ref ms rest s :
  let k := cn_consumption s in
  consumption_wf k → Forall (cons_meas_ok t_ref) ms → (0 ≤ t_ref < 2 ^ 32)%Z →
  cn_oml_print s = true → cn_oml_started s = false →
  decode_pkt clock (length (consumption_frame k t_ref ms)) (consumption_frame k t_ref ms ++ rest) s =
    cn_emit (Print <$> ((λ m, measure_line (cons_words k t_ref m)) <$> ms)) s.
Proof.
  intros k Hk Hms Ht Hp Ho. unfold decode_pkt.
  assert (byte_at (consumption_frame k t_ref ms ++ rest) 0 = CONSUMPTION_FRAME) as Hb by done.
  rewrite Hb.
  change (Z.land CONSUMPTION_FRAME ASYNC_FRAME_MASK =? ASYNC_FRAME_MASK)%Z with true.
  unfold handle_measure_pkt. rewrite Hb.
  change (CONSUMPTION_FRAME =? ACK_FRAME)%Z with false.
  change (CONSUMPTION_FRAME =? RADIO_SNIFFER_FRAME)%Z with false.
  change (CONSUMPTION_FRAME =? CONSUMPTION_FRAME)%Z with true. cbn [Z.eqb negb].
  assert (Forall (λ m : Z * list Z, length m.2 = mh_meas_len k) (cons_body k <$> ms)) as Hl
    by (apply Forall_fmap, Forall_true; intros m; by apply cons_body_length).
  unfold consumption_frame. rewrite (measure_frame_length CONSUMPTION_FRAME t_ref _ _ Hl).
  fold k. rewrite handle_oml_measure_frame; [|apply Forall_fmap|done].
  2: { eapply Forall_impl; [exact Hms|]. intros m (Hm & _). split; [done|by apply cons_body_length]. }
  rewrite (fold_fmap (cons_body k) (λ m s, consumption_handler m.2
    (calculate_time_extended t_ref m.1) s)).
  apply (fold_emits (λ m s, consumption_handler _ _ s)). intros m s' Hm Hp' Ho' Hk'.
  unfold k. rewrite <- Hk'. apply consumption_handler_line; [|congruence..].
  rewrite Forall_forall in Hms. by apply Hms.
Qed.
End consumption.

Lemma measure_step_cons k t_ref m meas :
  cons_meas_ok t_ref m →
  measure_step meas (str_split " " (str_strip (measure_line (cons_words k t_ref m)))) =
    Val (MkMeasures (ms_consumption meas ++ [to_float ∘ py_of_f <$> cons_values k m])
           (ms_consumption_ts meas ++ [measure_time t_ref (cm_us m)])
           (ms_radio meas) (ms_radio_ts meas)).
Proof.
  intros Hm. destruct (strip_measure _ (cons_words_ok k _ _ Hm)) as [_ Hs].
  unfold measure_line. rewrite Hs. destruct Hm as (Ht & _).
  destruct (time_parts _ _ Ht) as (H1 & H2 & H3).
  unfold measure_step, cons_words, cons_values. cbn [fmap list_fmap nth_word lookup list_lookup].
  generalize (if mh_p k then cm_p m else NAN) (if mh_v k then cm_v m else NAN)
    (if mh_c k then cm_c m else NAN). intros p v c.
  cbn -[str_of_Z fmt_time fmt_f py_float to_float py_of_f]. rewrite !py_float_f.
  cbn -[str_of_Z fmt_time fmt_f py_float to_float py_of_f]. rewrite py_float_time by lia.
  cbn -[str_of_Z fmt_time fmt_f py_float to_float py_of_f]. unfold measure_time. by rewrite H3.
Qed.

(** ** Any sequence of measure packets *)

Inductive frame := FRadio (t_ref : Z) (ms : list radio_meas) | FCons (t_ref : Z) (ms : list cons_meas).

Inductive meas := MRadio (t_ref : Z) (m : radio_meas) | MCons (t_ref : Z) (m : cons_meas).

Definition frame_meas (f : frame) : list meas :=
  match f with FRadio t ms => MRadio t <$> ms | FCons t ms => MCons t <$> ms end.

Section sequence.
(** The configuration of the consumption measures. *)
Context (k : mh_consumption).

Definition frame_bytes (f : frame) : list Z :=
  match f with FRadio t ms => radio_frame t ms | FCons t ms => consumption_frame k t ms end.

Definition meas_ok (x : meas) : Prop :=
  match x with MRadio t m => radio_meas_ok t m | MCons t m => cons_meas_ok t m end.

Definition frame_ok (f : frame) : Prop :=
  match f with FRadio t _ | FCons t _ => 0 ≤ t < 2 ^ 32 end%Z ∧
  Forall meas_ok (frame_meas f) ∧ length (frame_bytes f) < 256.

Definition meas_words (x : meas) : list string :=
  match x with MRadio t m => radio_words t m | MCons t m => cons_words k t m end.

(** What the autotests have to find. *)
Definition cons_row (x : meas) : option (list spec_float) :=
  match x with MCons _ m => Some (to_float ∘ py_of_f <$> cons_values k m) | _ => None end.
Definition cons_time (x : meas) : option spec_float :=
  match x with MCons t m => Some (measure_time t (cm_us m)) | _ => None end.
Definition radio_row (x : meas) : option (list Z) :=
  match x with MRadio _ m => Some [rm_channel m; rm_rssi m] | _ => None end.
Definition radio_time (x : meas) : option spec_float :=
  match x with MRadio t m => Some (measure_time t (rm_us m)) | _ => None end.

Lemma meas_words_ok x : meas_ok x → Forall is_word (meas_words x).
Proof. destruct x; [apply radio_words_ok|apply cons_words_ok]. Qed.

Lemma measure_step_meas x m :
  meas_ok x →
  measure_step m (str_split " " (str_strip (measure_line (meas_words x)))) =
    Val (MkMeasures (ms_consumption m ++ omap cons_row [x]) (ms_consumption_ts m ++ omap cons_time [x])
           (ms_radio m ++ omap radio_row [x]) (ms_radio_ts m ++ omap radio_time [x])).
Proof.
  destruct x; intros Hx; cbn [meas_words omap list_omap cons_row cons_time radio_row radio_time];
    rewrite ?app_nil_r; [by apply measure_step_radio|by apply measure_step_cons].
Qed.

Lemma measures_from_meas xs m :
  Forall meas_ok xs →
  measures_from m (measure_words (str_strip <$> ((λ x, measure_line (meas_words x)) <$> xs))) =
    Val (MkMeasures (ms_consumption m ++ omap cons_row xs) (ms_consumption_ts m ++ omap cons_time xs)
           (ms_radio m ++ omap radio_row xs) (ms_radio_ts m ++ omap radio_time xs)).
Proof.
  intros Hxs. revert m. induction Hxs as [|x xs Hx Hxs IH]; intros m.
  - destruct m. cbn. by rewrite !app_nil_r.
  - change (x :: xs) with ([x] ++ xs) at 2 3 4 5. rewrite !omap_app, !app_assoc.
    unfold measure_words in *. cbn [fmap list_fmap measures_from] in *.
    rewrite measure_step_meas by done.
    specialize (IH (MkMeasures (ms_consumption m ++ omap cons_row [x])
      (ms_consumption_ts m ++ omap cons_time [x]) (ms_radio m ++ omap radio_row [x])
      (ms_radio_ts m ++ omap radio_time [x]))). cbn [ms_consumption ms_consumption_ts ms_radio ms_radio_ts] in IH.
    exact IH.
Qed.

(** The reader keeps the lines, in order. *)
Lemma reader_keeps_all xs s :
  Forall meas_ok xs → cs_reader s = Running → cs_debug s = true →
  let lines := (λ x, measure_line (meas_words x)) <$> xs in
  let s' := fold_left (λ s t, reader_step (RLine t) s) lines s in
  cs_reader s' = Running ∧ cs_measures s' = cs_measures s ++ (str_strip <$> lines).
Proof.
  intros Hxs. revert s. induction Hxs as [|x xs Hx Hxs IH]; intros s Hr Hd; cbn zeta.
  - cbn. by rewrite app_nil_r.
  - cbn [fmap list_fmap fold_left].
    assert (reader_step (RLine (measure_line (meas_words x))) s =
            add_measure (str_strip (measure_line (meas_words x))) s) as ->
      by (apply reader_keeps; [by apply meas_words_ok|done..]).
    destruct (IH (add_measure (str_strip (measure_line (meas_words x))) s)) as [H1 H2]; [done..|].
    split; [exact H1|]. etransitivity; [exact H2|]. cbn [add_measure cs_measures]. by rewrite <- app_assoc.
Qed.

Lemma decode_frame `{Abi} clock f rest s :
  cn_consumption s = k → consumption_wf k → frame_ok f →
  cn_oml_print s = true → cn_oml_started s = false →
  decode_pkt clock (length (frame_bytes f)) (frame_bytes f ++ rest) s =
    cn_emit (Print <$> ((λ x, measure_line (meas_words x)) <$> frame_meas f)) s.
Proof.
  intros Hs Hk (Ht & Hms & _) Hp Ho. destruct f as [t ms|t ms]; cbn [frame_bytes frame_meas] in *.
  - rewrite decode_radio_frame; [|exact (proj1 (Forall_fmap _ _ _) Hms)|done..].
    by rewrite <- (list_fmap_compose (MRadio t)).
  - pose proof (decode_consumption_frame clock t ms rest s) as Hd. cbv zeta in Hd. rewrite Hs in Hd.
    rewrite Hd; [|done|exact (proj1 (Forall_fmap _ _ _) Hms)|done..].
    by rewrite <- (list_fmap_compose (MCons t)).
Qed.
End sequence.

(** ** Properties *)

Lemma handle_frames `{Abi} clock k fs buf s :
  cn_consumption s = k → consumption_wf k → Forall (frame_ok k) fs → length buf = 2048 →
  cn_oml_print s = true → cn_oml_started s = false →
  (handle_packets (decode_pkt clock) (frame_bytes k <$> fs) buf s).2 =
    cn_emit (Print <$> ((λ x, measure_line (meas_words k x)) <$> concat (frame_meas <$> fs))) s.
Proof.
  intros Hs Hk Hfs. revert buf s Hs. induction Hfs as [|f fs Hf Hfs IH]; intros buf s Hs Hb Hp Ho.
  - destruct s; unfold cn_emit; cbn. by rewrite app_nil_r.
  - cbn [fmap list_fmap handle_packets concat].
    assert (length (frame_bytes k f) ≤ length buf) as Hle by (destruct Hf as (_ & _ & ?); lia).
    assert (list_inserts 0 (frame_bytes k f) buf
            = frame_bytes k f ++ drop (length (frame_bytes k f)) buf) as Hins.
    { rewrite <- (take_drop (length (frame_bytes k f)) buf) at 1.
      apply list_inserts_0_r. rewrite length_take. lia. }
    rewrite Hins, decode_frame by done.
    rewrite IH; [|done|by rewrite <- Hins, length_inserts|done..].
    unfold cn_emit. cbn [cn_out cn_time_ref cn_consumption cn_oml_started cn_oml_print cn_clock].
    by rewrite !fmap_app, <- app_assoc.
Qed.

Lemma printed_lines ls : printed (Print <$> ls) = ls.
Proof. induction ls as [|l ls IH]; [done|]. cbn. f_equal. exact IH. Qed.

(** C9: the measures, from the control node to the autotests.  For any packets of
    radio and consumption measures whose times fit ([time_ok]: the reference and every
    measure before 2038, offsets below 2^31 microseconds) and whose values are in the
    ranges of the firmware ([frame_ok]), cut in any way by the reads, received between
    two packets by a serial program that prints the measures and has no OML file, as
    the autotests start it, the reader of the gateway stays alive, keeps one line per measure, and [extract_measures] finds the
    measures that were sent, in order: channel and signal strength exactly, times to
    the microsecond, the values configured with the six decimals that are printed and
    [NaN] for the others. *)
Theorem measures_roundtrip `{A : Abi} (clock : nat → timeval) (rx : rx) (cn : Cn)
    (reads : list (list Z)) (frames : list frame) (s : CnSerial)
    (Hwf : rx_wf rx) (Hidle : rx_state rx = STATE_IDLE)
    (Hprint : cn_oml_print cn = true) (Holm : cn_oml_started cn = false)
    (Hk : consumption_wf (cn_consumption cn))
    (Hframes : Forall (frame_ok (cn_consumption cn)) frames)
    (Hbytes : Forall (Forall byte_ok) reads)
    (Hreads : concat reads =
       concat (packet ∘ frame_bytes (cn_consumption cn) <$> frames))
    (Hreader : cs_reader s = Running) (Hdebug : cs_debug s = true) :
  let k := cn_consumption cn in
  let all := concat (frame_meas <$> frames) in
  let s' := fold_left (λ s t, reader_step (RLine t) s) (lines_of clock rx cn reads) s in
  cs_reader s' = Running ∧
  ∃ lines, cs_measures s' = cs_measures s ++ lines ∧ length lines = length all ∧
    extract_measures (measure_words lines) =
      Val (MkMeasures (omap (cons_row k) all) (omap cons_time all)
             (omap radio_row all) (omap radio_time all)).
Proof.
  intros k all. assert (Forall (meas_ok) all) as Hall.
  { unfold all. apply Forall_concat, Forall_fmap. eapply Forall_impl; [exact Hframes|].
    by intros f (_ & Hf & _). }
  rewrite (lines_of_packets _ _ _ _ ((λ f, ([], frame_bytes k f)) <$> frames)); try done.
  2: { apply Forall_fmap. eapply Forall_impl; [exact Hframes|]. intros f (_ & _ & Hl).
       split_and!; [constructor|by destruct f|done]. }
  2: { rewrite Hreads, <- list_fmap_compose. done. }
  rewrite <- list_fmap_compose. change (snd ∘ (λ f, ([], frame_bytes k f))) with (frame_bytes k).
  rewrite (handle_frames clock k) by (done || apply Hwf).
  unfold cn_emit at 1. cbn [cn_out]. rewrite drop_out, printed_lines. fold all.
  destruct (reader_keeps_all k all s Hall Hreader Hdebug) as [H1 H2].
  split; [exact H1|]. eexists. split; [exact H2|]. split; [by rewrite !length_fmap|].
  exact (measures_from_meas k all no_measures Hall).
Qed.

(** A radio measure and a consumption measure of the power alone, in one read. *)
Definition demo_frames : list frame :=
  [FRadio 3 [MkRadioMeas 250000 15 (-70)]; FCons 3 [MkConsMeas 500000 1067282596 0 0]].

Definition demo_cons_cn : Cn :=
  MkCn (MkTimeval 0 0) (config_consumption PW_SRC_3_3V 1 0 0) false true 0 [].

Definition demo_debug : CnSerial := set_debug true (set_process true Running (cs_init "/dev/ttyCN")).

Lemma measures_roundtrip_witness :
  ∃ lines, cs_measures (fold_left (λ s t, reader_step (RLine t) s)
      (@lines_of gateway_abi demo_clock rx_init demo_cons_cn
         [concat (packet ∘ frame_bytes (cn_consumption demo_cons_cn) <$> demo_frames)])
      demo_debug) = lines ∧
    length lines = 2.
Proof.
  destruct (@measures_roundtrip gateway_abi demo_clock rx_init demo_cons_cn
    [concat (packet ∘ frame_bytes (cn_consumption demo_cons_cn) <$> demo_frames)]
    demo_frames demo_debug) as (_ & lines & Hl & Hlen & _).
  all: try reflexivity.
  - apply rx_init_wf.
  - repeat constructor; simpl; unfold time_ok, byte_ok; try lia.
  - unfold byte_ok. apply (bool_decide_unpack _). vm_compute. exact I.
  - exists lines. split; [exact Hl|exact Hlen].
Defined.
