(* ===== verification/CnConfig.v ===== *)
(** * Profiles, from the gateway to the control node

    The commands [Protocol] builds for a profile, and the packets the serial program
    makes of them: the configuration the control node receives is the profile. *)

From S2P Require Import Prelude PyString Effects PyVal Profile Protocol.
From S2P Require Import CFormat CnCommands CnPackets CnMeasures CnLines.

#[global] Instance pynum_eq_dec : EqDecision pynum.
Proof. solve_decision. Defined.

(** ** Reading the configuration packets *)

(** The period and the average of the second byte of a consumption configuration. *)
Definition period_of_byte (b : Z) : option Z := choices_period !! Z.to_nat (Z.land b 7).
Definition average_of_byte (b : Z) : option Z :=
  choices_average !! Z.to_nat (Z.land (Z.shiftr b 4) 7).

(** The bits of the power source in the first byte. *)
Definition source_bits (b : Z) : Z := Z.land b (Z.lor (Z.lor PW_SRC_3_3V PW_SRC_5V) PW_SRC_BATT).

(** The words of a command reach the control node as a packet of [data], whatever the
    state of the program. *)
Definition reaches (now : timeval) (words : list string) (data : list Z) : Prop :=
  sends now (str_join " " words) data.

(** ** Lemmas *)

Lemma choices_period_dict z :
  z ∈ choices_period →
  ∃ v, In (str_of_Z z, v) periods_d ∧ ∀ a, In a (snd <$> average_d) →
       period_of_byte (Z.lor v a) = Some z.
Proof.
  intros Hz. unfold choices_period in Hz.
  repeat (apply elem_of_cons in Hz as [->|Hz];
    [eexists; split; [vm_compute; tauto|]; intros a Ha;
     repeat (destruct Ha as [<-|Ha]; [by vm_compute|]); by destruct Ha|]).
  by apply elem_of_nil in Hz.
Qed.

Lemma choices_average_dict z :
  z ∈ choices_average →
  ∃ v, In (str_of_Z z, v) average_d ∧ ∀ p, In p (snd <$> periods_d) →
       average_of_byte (Z.lor p v) = Some z.
Proof.
  intros Hz. unfold choices_average in Hz.
  repeat (apply elem_of_cons in Hz as [->|Hz];
    [eexists; split; [vm_compute; tauto|]; intros a Ha;
     repeat (destruct Ha as [<-|Ha]; [by vm_compute|]); by destruct Ha|]).
  by apply elem_of_nil in Hz.
Qed.

Lemma source_dict src :
  src ∈ ["3.3V"; "5V"; "BATT"] → ∃ v, In (src, v) power_source_d ∧ dict_get src power_source_d = (0%Z, v).
Proof.
  intros Hs. repeat (apply elem_of_cons in Hs as [->|Hs]; [eexists; split; [vm_compute; tauto|done]|]).
  by apply elem_of_nil in Hs.
Qed.

(** The first byte of a consumption configuration. *)
Definition config_byte (sv : Z) (p v c : bool) : Z :=
  Z.lor (Z.lor (Z.lor sv (flag p * MEASURE_POWER)) (flag v * MEASURE_VOLTAGE))
    (flag c * MEASURE_CURRENT).

Lemma config_byte_bits src sv p v c :
  In (src, sv) power_source_d →
  let b := config_byte sv p v c in
  source_bits b = sv ∧ Z.testbit b 0 = p ∧ Z.testbit b 1 = v ∧ Z.testbit b 2 = c.
Proof. intros Hs. in_cases Hs; destruct p, v, c; by vm_compute. Qed.

Lemma flag_nonzero b : negb (flag b =? 0)%Z = b.
Proof. by destruct b. Qed.

Lemma str_num_ints l :
  Forall (λ m, ∃ z, m = NInt z) l → str_num <$> l = str_of_Z <$> (num_val <$> l).
Proof. induction 1 as [|m l [z ->] Hl IH]; [done|]. cbn. by f_equal. Qed.

(** The channels of a configuration, sorted. *)
Lemma channels_field_text r :
  Forall (λ n, ∃ z, n = NInt z) (r_channels r) →
  channels_field (r_channels r) = channels_text (num_val <$> sorted_channels (r_channels r)).
Proof.
  intros Hi. unfold channels_field, channels_text. by rewrite str_num_ints by by apply sorted_channels_ints.
Qed.

Lemma StronglySorted_lt_NoDup l : Sorted.StronglySorted Z.lt l → NoDup l.
Proof.
  induction 1 as [|x l Hs IH Hx]; constructor; [|done]. intros Hin.
  rewrite Forall_forall in Hx. specialize (Hx x Hin). lia.
Qed.

Lemma sorted_channels_facts r :
  wf_radio r → Forall (λ n, ∃ z, n = NInt z) (r_channels r) →
  let zs := num_val <$> sorted_channels (r_channels r) in
  channels_ok zs ∧ zs ≠ [] ∧ NoDup zs ∧ ∀ z, z ∈ zs ↔ NInt z ∈ r_channels r.
Proof.
  intros (Hne & Hr & _) Hi zs. destruct (sorted_channels_spec (r_channels r)) as [Hs Hz].
  fold zs in Hs, Hz.
  assert (Hel : ∀ z, z ∈ zs ↔ NInt z ∈ r_channels r).
  { intros z. rewrite Hz. split.
    - intros (m & -> & Hm)%list_elem_of_fmap. rewrite Forall_forall in Hi.
      destruct (Hi m Hm) as [y ->]. done.
    - intros Hm. by apply (list_elem_of_fmap_2 num_val) in Hm. }
  split_and!; [| |by apply StronglySorted_lt_NoDup|done].
  - apply Forall_forall. intros z Hin. apply Hel in Hin. rewrite Forall_forall in Hr.
    by apply (Hr (NInt z)).
  - intros Hnil. destruct (r_channels r) as [|m l] eqn:E; [done|].
    assert (num_val m ∈ zs) as Hm by (apply Hz; left). by rewrite Hnil in Hm; apply elem_of_nil in Hm.
Qed.

(** Without duplicates the sorted channels are as many. *)
Lemma sorted_channels_length r :
  wf_radio r → Forall (λ n, ∃ z, n = NInt z) (r_channels r) → NoDup (r_channels r) →
  length (num_val <$> sorted_channels (r_channels r)) = length (r_channels r).
Proof.
  intros Hwf Hi Hnd. destruct (sorted_channels_facts r Hwf Hi) as (_ & _ & Hnd' & Hel).
  assert (num_val <$> sorted_channels (r_channels r) ≡ₚ num_val <$> r_channels r) as ->;
    [|apply length_fmap].
  apply NoDup_Permutation; [done| |].
  - apply NoDup_fmap_2_strong; [|done]. rewrite Forall_forall in Hi. intros x y Hx Hy Hxy.
    destruct (Hi x Hx) as [? ->], (Hi y Hy) as [? ->]. simpl in Hxy. congruence.
  - intros z. rewrite Hel. split.
    + intros Hm. by apply (list_elem_of_fmap_2 num_val) in Hm.
    + intros (m & -> & Hm)%list_elem_of_fmap. rewrite Forall_forall in Hi.
      destruct (Hi m Hm) as [y ->]. done.
Qed.

(** ** Properties *)

(** The consumption configuration, from the profile to the control node and back.
    For a well-formed configuration with boolean flags the command of the gateway is
    accepted, and the packet sent says what the profile says: the power source, which
    values are measured, the period and the average; with nothing to measure it is a
    stop.  When the control node acknowledges these bits, the serial program expects
    measures with exactly these values. *)
Theorem consumption_reaches_node `{A : Abi} (c : Consumption) (p v cu : bool)
    (Hwf : wf_consumption c)
    (Hp : c_power c = PBool p) (Hv : c_voltage c = PBool v) (Hcu : c_current c = PBool cu) :
  (p || v || cu = false →
   ∃ words, consumption_cmd (Some c) = Val words ∧
     ∀ now, reaches now words [CONFIG_CONSUMPTION; STOP; 0%Z; 0%Z]) ∧
  (p || v || cu = true →
   ∃ words b0 b1, consumption_cmd (Some c) = Val words ∧
     (∀ now, reaches now words [CONFIG_CONSUMPTION; START; b0; b1]) ∧
     dict_get (c_source c) power_source_d = (0%Z, source_bits b0) ∧
     period_of_byte b1 = Some (c_period c) ∧ average_of_byte b1 = Some (c_average c) ∧
     ∀ clock rest cn,
       let k := cn_consumption
                  (decode_pkt clock 3 ([ACK_FRAME; CONFIG_CONSUMPTION; b0] ++ rest) cn) in
       mh_p k = p ∧ mh_v k = v ∧ mh_c k = cu ∧ mh_power_source k = source_bits b0).
Proof.
  destruct Hwf as (Hper & Hav & Hsrc). unfold consumption_cmd. rewrite Hp, Hv, Hcu.
  cbn [truthy]. split; intros Hor; rewrite Hor; cbn [negb].
  { eexists. split; [reflexivity|]. intros now. apply consumption_stop_sends. }
  destruct (choices_period_dict _ Hper) as (pv & Hpin & Hpv).
  destruct (choices_average_dict _ Hav) as (avv & Hain & Hav').
  destruct (source_dict _ Hsrc) as (sv & Hsin & Hsv).
  destruct (config_byte_bits _ sv p v cu Hsin) as (Hb1 & Hb2 & Hb3 & Hb4).
  exists ["config_consumption_measure"; "start"; c_source c; "p"; str_of_Z (flag p);
    "v"; str_of_Z (flag v); "c"; str_of_Z (flag cu);
    "-p"; str_of_Z (c_period c); "-a"; str_of_Z (c_average c)],
    (config_byte sv p v cu), (Z.lor pv avv).
  split; [by destruct p, v, cu|]. split; [|split; [|split; [|split]]].
  - intros now. pose proof (consumption_start_sends now (c_source c) sv (flag p) (flag v) (flag cu)
      _ pv _ avv Hsin Hpin Hain) as Hs. rewrite !flag_nonzero in Hs.
    apply Hs; [destruct p|destruct v|destruct cu]; simpl; lia.
  - by rewrite Hb1, Hsv.
  - apply Hpv. exact (in_map snd _ _ Hain).
  - apply Hav'. exact (in_map snd _ _ Hpin).
  - intros clock rest cn. assert (sv = 16 ∨ sv = 32 ∨ sv = 64)%Z as [->|[->| ->]]
      by (revert Hsin; clear; generalize (c_source c); intros src H; in_cases H; auto);
      destruct p, v, cu; by vm_compute.
Qed.

(** The radio configuration, from the profile to the control node.  For a
    well-formed configuration in integers, without a channel given twice, the command
    of the gateway is accepted and its packet has the channels of the profile as the
    bits of its first field, then the period, then the number of measures for a
    measure of signal strength. *)
Theorem radio_reaches_node (r : Radio) (period : Z)
    (Hwf : wf_radio r)
    (Hints : Forall (λ n, ∃ z, n = NInt z) (r_channels r)) (Hnd : NoDup (r_channels r))
    (Hperiod : r_period r = NInt period)
    (Hnum : ∀ n, r_num_per_channel r = Some n → ∃ z, n = NInt z) :
  ∃ channels,
    (∀ z, 0 ≤ z → Z.testbit channels z = bool_decide (NInt z ∈ r_channels r))%Z ∧
    (∀ now, reaches now (radio_cmd (Some r))
      match r_mode r with
      | Rssi => CONFIG_RADIO_MEAS :: le_bytes 4 channels ++ le_bytes 2 period
                  ++ le_bytes 1 (default 0%Z (num_val <$> r_num_per_channel r))
      | Sniffer => CONFIG_RADIO_SNIFFER :: le_bytes 4 channels ++ le_bytes 2 period
      end) ∧
    le_val (le_bytes 4 channels) = channels ∧ le_val (le_bytes 2 period) = period.
Proof.
  destruct (sorted_channels_facts r Hwf Hints) as (Hok & Hne & Hnd' & Hel).
  pose proof (sorted_channels_length r Hwf Hints Hnd) as Hlen.
  set (zs := num_val <$> sorted_channels (r_channels r)) in *.
  pose proof (channels_bits_range zs Hok Hne) as Hbits.
  exists (channels_bits zs). split; [|split].
  - intros z Hz. rewrite channels_bits_testbit by done. by apply bool_decide_ext.
  - intros now. destruct Hwf as (_ & _ & Hm). unfold reaches, radio_cmd. rewrite Hperiod in *.
    destruct (r_mode r), (r_num_per_channel r) as [n|] eqn:En; try done.
    + destruct (Hnum n eq_refl) as [nz ->]. cbn [num_val] in Hm.
      unfold radio_measure_cmd. rewrite channels_field_text, Hperiod, En by done.
      apply (radio_measure_sends now zs period nz); try done; lia.
    + cbn [num_val] in Hm. unfold radio_sniffer_cmd. rewrite channels_field_text, Hperiod by done.
      apply (radio_sniffer_sends now zs period); try done; lia.
  - rewrite !le_val_bytes. change (8 * Z.of_nat 4)%Z with 32%Z. change (8 * Z.of_nat 2)%Z with 16%Z.
    destruct Hwf as (_ & _ & Hm). rewrite Hperiod in Hm. cbn [num_val] in Hm.
    rewrite (wrap_small 32), (wrap_small 16); [done| |lia].
    destruct (r_mode r), (r_num_per_channel r); try done; lia.
Qed.

(** ** Profiles the serial program refuses *)

(** The sniffer line of the gateway on one channel with a period. *)
Lemma sniffer_single_refused now z period :
  (11 ≤ z ≤ 26)%Z → (1 ≤ period < 2 ^ 16)%Z →
  refuses now (str_join " " ["config_radio_sniffer"; channels_text [z]; str_of_Z period]).
Proof.
  intros Hz Hp. assert (channels_ok [z]) as Hok by (by constructor).
  destruct (channels_text_word [z]) as (Hw & Hl & H0); [done|done|by repeat constructor; set_solver|].
  rewrite str_join_words.
  eapply (args_refuses _ _ _ _ (MkCommand "config_radio_sniffer %256s %i" 2 cmd_radio_sniffer)
    [SWord (channels_text [z]); SInt period]).
  - split_and!; [done..|simpl; lia|reflexivity].
  - repeat constructor; [done|apply str_of_Z_no_zero; lia..].
  - apply scans_intro; [find_command| |reflexivity|].
    + change (scan [DBlank; DWord 256; DBlank; DInt]
        (words [channels_text [z]; str_of_Z period]) = [SWord (channels_text [z]); SInt period]).
      by scan_args.
    + cbn [forallb]. by rewrite fits_buff_word, !fits_buff_int by lia.
  - pose proof (str_of_Z_length period 5). rewrite str_length_app. cbn [words String.length].
    rewrite !str_length_app. cbn [String.length]. rewrite str_length_app. simpl. lia.
  - intros Hs ref. cbn [command fmt] in *. unfold cmd_radio_sniffer. rewrite Hs.
    read_args. rewrite (c_lift_bind _ _ _ _ (parse_channels_text [z] Hok ltac:(done))).
    rewrite channels_bits_single by (done || by repeat constructor; set_solver).
    rewrite (proj2 (Z.eqb_neq period 0)) by lia. cbn [length bool_decide negb].
    rewrite orb_true_r. c_run. by eexists _, _.
Qed.

(** An entry that scans something but not as many conversions as it needs. *)
Lemma command_parse_short cmd cur table args :
  sscanf cmd (fmt cur) = args → length args ≠ fmt_count cur → forallb fits_buff args = true →
  0 < fmt_count cur ≤ 32 → command_parse cmd (cur :: table) = command_parse cmd table.
Proof.
  intros Hs Hl Hf Hc. cbn [command_parse]. rewrite Hs, Hf.
  destruct (Nat.eqb_spec (fmt_count cur) 0); [lia|].
  destruct (Nat.ltb_spec 32 (fmt_count cur)); [lia|]. cbn [negb].
  by rewrite (proj2 (Nat.eqb_neq _ _) Hl).
Qed.

(** A boolean for the period: [%i] does not read [True]. *)
Lemma measure_bool_refused now zs num :
  channels_ok zs → zs ≠ [] → NoDup zs → (0 ≤ num < 2 ^ 8)%Z →
  refuses now (str_join " " ["config_radio_measure"; channels_text zs; "True"; str_of_Z num]).
Proof.
  intros Hok Hne Hnd Hn. destruct (channels_text_word zs) as (Hw & Hl & H0); [done..|].
  rewrite str_join_words. set (line := _ +:+ words _).
  assert (Hparse : command_parse line commands = Some None).
  { unfold commands. repeat rewrite command_parse_skip by reflexivity.
    rewrite (command_parse_short _ _ _ [SWord (channels_text zs)]);
      [by repeat rewrite command_parse_skip by reflexivity| |done| |simpl; lia].
    - change (scan [DBlank; DWord 256; DBlank; DInt; DBlank; DInt]
        (words [channels_text zs; "True"; str_of_Z num]) = [SWord (channels_text zs)]).
      rewrite scan_arg_word by (done || lia). reflexivity.
    - cbn [forallb]. by rewrite fits_buff_word by lia. }
  apply parse_cmd_refuses.
  - unfold line, no_char. rewrite str_all_app. apply andb_true_iff. split; [done|].
    apply no_char_words; [done|]. rewrite !Forall_cons, Forall_nil. split_and!; try done.
    apply str_of_Z_no_zero. lia.
  - unfold line. pose proof (str_of_Z_length num 3). rewrite str_length_app.
    cbn [words String.length]. rewrite str_length_app. simpl.
    rewrite str_app_nil_r. lia.
  - intros s. exists 1%Z, s. split; [|done]. unfold parse_cmd.
    by rewrite (c_lift_bind _ _ _ _ Hparse).
Qed.

(** C24: profiles that the gateway accepts and the control node does not get.  The
    sniffer on a channel written several times needs a period for the gateway and
    none for the serial program; a period that is a boolean passes the checks of the
    gateway and is sent as [True]; [dc_charge], which the serial program knows, is
    longer than what it scans.  In each case the command is refused and no packet is
    sent. *)
Theorem refused_profiles (z p num : Z) (n : nat) (now : timeval)
    (Hz : (11 ≤ z ≤ 26)%Z) (Hp : (1 ≤ p < 2 ^ 16)%Z) (Hn : 2 ≤ n) (Hnum : (1 ≤ num < 2 ^ 8)%Z) :
  (∃ r, Radio_init (PStr "sniffer") (PList (PInt <$> replicate n z)) (PInt p) PNone = Val r ∧
        refuses now (str_join " " (radio_cmd (Some r)))) ∧
  (∃ r, Radio_init (PStr "rssi") (PList [PInt z]) (PBool true) (PInt num) = Val r ∧
        refuses now (str_join " " (radio_cmd (Some r)))) ∧
  refuses now "start dc_charge".
Proof.
  split; [|split].
  - exists (MkRadio Sniffer (NInt <$> replicate n z) (NInt p) None). split.
    + apply (radio_accepts_iff (replicate n z) p 0). split_and!; try done; try lia.
      * by destruct n; [lia|].
      * by apply Forall_replicate.
      * rewrite length_replicate. lia.
    + unfold radio_cmd, radio_sniffer_cmd, channels_field. cbn [r_mode r_channels r_period].
      assert (sorted_channels (NInt <$> replicate n z) = [NInt z]) as ->.
      { destruct n as [|n]; [lia|]. unfold sorted_channels. cbn. clear.
        induction n as [|n IH]; [done|]. cbn. rewrite Z.ltb_irrefl, Z.eqb_refl. exact IH. }
      by apply (sniffer_single_refused now z p).
  - exists (MkRadio Rssi [NInt z] (NBool true) (Some (NInt num))). split.
    + unfold Radio_init, Radio_is_valid, assert_range. cbn.
      rewrite (proj2 (Z.leb_le 11 z)), (proj2 (Z.ltb_lt z 27)) by lia. cbn.
      rewrite (proj2 (Z.leb_le 0 num)), (proj2 (Z.ltb_lt num 256)) by lia. done.
    + apply (measure_bool_refused now [z] num); [by constructor|done|by repeat constructor; set_solver|lia].
  - intros s. eexists. lazy. reflexivity.
Qed.

Lemma consumption_reaches_node_witness :
  ∃ words b0 b1, consumption_cmd (Some (MkConsumption "3.3V" 588 16 (PBool true) (PBool false)
      (PBool true))) = Val words ∧
    reaches (MkTimeval 0 0) words [CONFIG_CONSUMPTION; START; b0; b1] ∧
    period_of_byte b1 = Some 588%Z.
Proof.
  destruct (proj2 (@consumption_reaches_node gateway_abi
    (MkConsumption "3.3V" 588 16 (PBool true) (PBool false) (PBool true)) true false true
    ltac:(split_and!; simpl; set_solver) eq_refl eq_refl eq_refl) eq_refl)
    as (words & b0 & b1 & Hw & Hr & _ & Hp & _).
  exists words, b0, b1. split; [exact Hw|]. split; [apply Hr|exact Hp].
Defined.

(** Channels 11 and 14, a measure of signal strength every 100 ms. *)
Lemma radio_reaches_node_witness :
  ∃ channels, reaches (MkTimeval 0 0)
    (radio_cmd (Some (MkRadio Rssi [NInt 11; NInt 14] (NInt 100) (Some (NInt 5)))))
    (CONFIG_RADIO_MEAS :: le_bytes 4 channels ++ [100; 0] ++ [5])%Z.
Proof.
  destruct (radio_reaches_node (MkRadio Rssi [NInt 11; NInt 14] (NInt 100) (Some (NInt 5))) 100)
    as (channels & _ & Hr & _).
  - split_and!; [done|repeat constructor; simpl; lia|simpl; lia].
  - repeat constructor; eauto.
  - repeat constructor; set_solver.
  - done.
  - intros n [= <-]. eauto.
  - exists channels. apply Hr.
Defined.

Lemma refused_profiles_witness :
  (∃ r, Radio_init (PStr "sniffer") (PList (PInt <$> replicate 2 15%Z)) (PInt 100) PNone = Val r ∧
        refuses (MkTimeval 0 0) (str_join " " (radio_cmd (Some r)))) ∧
  refuses (MkTimeval 0 0) "start dc_charge".
Proof.
  destruct (refused_profiles 15 100 1 2 (MkTimeval 0 0)) as (H1 & _ & H3); try lia.
  split; [exact H1|exact H3].
Defined.
