(* ===== verification/CnProfile.v ===== *)
(** * A profile, from [configure_profile] to the serial link

    [ControlNodeIotlab.configure_profile] writes three command lines to the serial
    program ([ControlNodes]); the program turns each into a packet ([CnCommands]).  Here
    the two are put together: what the control node receives for a profile. *)

From S2P Require Import Prelude PyString Effects PyVal Profile Protocol CnInterface ControlNodes.
From S2P Require Import CFormat CnCommands CnPackets CnMeasures CnLines CnConfig.

(** ** The packets of a list of command lines *)

(** The lines of the standard input, each at the time of day [now] gives: the packets
    written on the serial link, the refused lines left out. *)
Fixpoint packets_sent (now : nat → timeval) (lines : list string) (s : CmdState)
    : option (list (list Z)) :=
  match lines with
  | [] => Some []
  | line :: lines =>
      match read_command (now 0) line s with
      | None => None
      | Some (OWrite pkt, s) => cons pkt <$> packets_sent (now ∘ S) lines s
      | Some (OPrint _, s) => packets_sent (now ∘ S) lines s
      end
  end.

Lemma packets_sent_cons now words data lines s :
  reaches (now 0) words data →
  ∃ s', packets_sent now (line_of words :: lines) s =
          cons (packet data) <$> packets_sent (now ∘ S) lines s'.
Proof.
  intros Hs. destruct (Hs s) as [ref Hr]. cbn [packets_sent].
  change (line_of words) with (str_join " " words +:+ nl). rewrite Hr. by eexists.
Qed.

(** Commands whose packets depend neither on the time nor on what came before. *)
Lemma packets_sent_all cmds datas now s :
  Forall2 (λ words data, ∀ now, reaches now words data) cmds datas →
  packets_sent now (line_of <$> cmds) s = Some (packet <$> datas).
Proof.
  intros H. revert now s. induction H as [|words data cmds datas Hw _ IH]; intros now s; [done|].
  cbn [fmap list_fmap]. destruct (packets_sent_cons now words data (line_of <$> cmds) s (Hw _))
    as [s' ->]. by rewrite IH.
Qed.

(** ** What a packet says *)

(** The packet of a consumption configuration, and the measures that the serial program
    expects once the control node has acknowledged it. *)
Definition consumption_says `{Abi} (c : option Consumption) (data : list Z) : Prop :=
  match c with
  | None => data = [CONFIG_CONSUMPTION; STOP; 0%Z; 0%Z]
  | Some c =>
      let p := truthy (c_power c) in let v := truthy (c_voltage c) in
      let cu := truthy (c_current c) in
      if negb (p || v || cu) then data = [CONFIG_CONSUMPTION; STOP; 0%Z; 0%Z]
      else ∃ b0 b1, data = [CONFIG_CONSUMPTION; START; b0; b1] ∧
        dict_get (c_source c) power_source_d = (0%Z, source_bits b0) ∧
        period_of_byte b1 = Some (c_period c) ∧ average_of_byte b1 = Some (c_average c) ∧
        ∀ clock rest cn,
          let k := cn_consumption
                     (decode_pkt clock 3 ([ACK_FRAME; CONFIG_CONSUMPTION; b0] ++ rest) cn) in
          mh_p k = p ∧ mh_v k = v ∧ mh_c k = cu ∧ mh_power_source k = source_bits b0
  end.

(** The packet of a radio configuration: the channels as bits, the period, and the
    number of measures per channel for the signal strength. *)
Definition radio_says (r : option Radio) (data : list Z) : Prop :=
  match r with
  | None => data = [CONFIG_RADIO_STOP]
  | Some r =>
      ∃ channels period,
        (∀ z, 0 ≤ z → Z.testbit channels z = bool_decide (NInt z ∈ r_channels r))%Z ∧
        r_period r = NInt period ∧
        le_val (le_bytes 4 channels) = channels ∧ le_val (le_bytes 2 period) = period ∧
        data = match r_mode r with
               | Rssi => CONFIG_RADIO_MEAS :: le_bytes 4 channels ++ le_bytes 2 period
                           ++ le_bytes 1 (default 0%Z (num_val <$> r_num_per_channel r))
               | Sniffer => CONFIG_RADIO_SNIFFER :: le_bytes 4 channels ++ le_bytes 2 period
               end
  end.

(** The type and the argument of the packet of a power command. *)
Definition power_says (state power : string) (data : list Z) : Prop :=
  ∃ type v, data = [type; v] ∧ In (state, type) commands_d ∧ In (power, v) alim_d.

(** The profiles on which the two programs agree: with boolean flags, integers, each
    channel once, and a power that fits in its argument. *)
Record agreed (p : Profile) (power : string) : Prop := {
  ag_wf : wf_profile p;
  ag_power : p_power p = PStr power ∧ power ∈ ["dc"; "battery"];
  ag_flags : ∀ c, p_consumption p = Some c →
    ∃ a b d, c_power c = PBool a ∧ c_voltage c = PBool b ∧ c_current c = PBool d;
  ag_radio : ∀ r, p_radio p = Some r →
    Forall (λ n, ∃ z, n = NInt z) (r_channels r) ∧ NoDup (r_channels r) ∧
    (∃ z, r_period r = NInt z) ∧
    (∀ n, r_num_per_channel r = Some n → ∃ z, n = NInt z)
}.

(** ** Lemmas *)

Lemma power_sends state power :
  state ∈ ["start"; "stop"] → power ∈ ["dc"; "battery"] →
  ∃ data, (∀ now, reaches now [state; power] data) ∧ power_says state power data.
Proof.
  intros Hs Hp.
  assert (∃ ty, In (state, ty) [("start", OPEN_NODE_START); ("stop", OPEN_NODE_STOP)] ∧
    In (state, ty) commands_d) as (ty & H1 & H2).
  { repeat (apply elem_of_cons in Hs as [->|Hs]; [eexists; split; simpl; eauto|]).
    by apply elem_of_nil in Hs. }
  assert (∃ v, In (power, v) [("dc", 2%Z); ("battery", 0%Z)] ∧ In (power, v) alim_d)
    as (v & H3 & H4).
  { repeat (apply elem_of_cons in Hp as [->|Hp]; [eexists; split; simpl; eauto|]).
    by apply elem_of_nil in Hp. }
  exists [ty; v]. split; [intros now; by apply alim_sends|]. by exists ty, v.
Qed.

Lemma consumption_sends `{Abi} p power :
  agreed p power →
  ∃ words data, consumption_cmd (p_consumption p) = Val words ∧
    (∀ now, reaches now words data) ∧ consumption_says (p_consumption p) data.
Proof.
  intros Hp. destruct (p_consumption p) as [c|] eqn:Hc.
  - destruct (ag_flags _ _ Hp c Hc) as (a & b & d & Ha & Hb & Hd).
    destruct (consumption_reaches_node c a b d) as [Hoff Hon];
      [by apply (ag_wf _ _ Hp)|done..|].
    unfold consumption_says. rewrite Ha, Hb, Hd. cbn [truthy].
    destruct (a || b || d).
    + destruct (Hon eq_refl) as (words & b0 & b1 & Hw & Hs & H1 & H2 & H3 & H4).
      exists words, [CONFIG_CONSUMPTION; START; b0; b1]. split_and!; [done..|].
      by exists b0, b1.
    + destruct (Hoff eq_refl) as (words & Hw & Hs). by eexists _, _.
  - eexists _, _. split; [done|]. split; [|done]. intros now. apply consumption_stop_sends.
Qed.

Lemma radio_sends p power :
  agreed p power →
  ∃ data, (∀ now, reaches now (radio_cmd (p_radio p)) data) ∧ radio_says (p_radio p) data.
Proof.
  intros Hp. destruct (p_radio p) as [r|] eqn:Hr.
  - destruct (ag_radio _ _ Hp r Hr) as (Hi & Hnd & [period Hper] & Hnum).
    destruct (radio_reaches_node r period) as (channels & H1 & H2 & H3 & H4);
      [by apply (ag_wf _ _ Hp)|done..|].
    eexists. split; [exact H2|]. exists channels, period. by split_and!.
  - eexists. split; [|done]. intros now. apply simple_sends. simpl. eauto.
Qed.

(** ** Properties *)

(** C10: a profile, from the manager to the control node.  The hypotheses: the profile,
    or the default one without it, is one on which the gateway and the serial program
    agree ([agreed]: well formed, boolean flags, integer numbers, each channel once, power
    [dc] or [battery]; some others that the gateway accepts are refused by the program,
    as [refused_profiles] says); the control node is not of the class [ControlNodeIotlabm3], whose own
    [configure_profile] differs; the state of the open node is [start] or [stop];
    the serial program runs and its input can be written.  Then, whatever the control
    node answers, [configure_profile] returns with the profile stored, and the lines it
    writes make the program send exactly three packets: the power command of the state
    of the open node, the consumption configuration and the radio configuration, each of
    which says what the profile says, at whatever time and in whatever state the program
    reads them. *)
Theorem profile_reaches_node `{E : Env} `{A : Abi} (n : CnIotlab.node) (t : trace)
    (profile : option Profile) (p : Profile) (power : string)
    (Hw : writable) (Hrun : cs_process (CnIotlab.ci_serial n) = true)
    (Hm3 : CnIotlab.from_m3 n "configure_profile" = false)
    (Hstate : CnIotlab.ci_open_node_state n ∈ ["start"; "stop"])
    (Hprof : or_default profile (CnIotlab.ci_default_profile n) = Some p)
    (Hp : agreed p power) :
  ∃ r n' t' lines, CnIotlab.configure_profile profile n t = (Val r, n', t') ∧
    CnIotlab.ci_profile n' = Some p ∧ written t' = written t ++ lines ∧
    ∃ pw co ra,
      power_says (CnIotlab.ci_open_node_state n) power pw ∧
      consumption_says (p_consumption p) co ∧ radio_says (p_radio p) ra ∧
      ∀ now s, packets_sent now lines s = Some [packet pw; packet co; packet ra].
Proof.
  destruct (ag_power _ _ Hp) as [Hpow Hin].
  destruct (consumption_sends p power Hp) as (cw & co & Hcw & Hco & Hsay).
  destruct (power_sends (CnIotlab.ci_open_node_state n) power Hstate Hin) as (pw & Hpw & Hpws).
  destruct (radio_sends p power Hp) as (ra & Hra & Hras).
  destruct (configure_profile_run n t profile p power cw Hw Hrun Hm3 Hprof Hpow Hcw)
    as (r & n' & t' & Hconf & _ & Hst & _ & Hwr).
  exists r, n', t'. eexists. split_and!; [done|done|exact Hwr|].
  exists pw, co, ra. split_and!; [done..|]. intros now s.
  apply (packets_sent_all [[_; _]; cw; radio_cmd (p_radio p)] [pw; co; ra]).
  by repeat constructor.
Qed.

(** The profile of a witness: the consumption, and the signal strength on two channels. *)
Definition full_profile : Profile :=
  MkProfile (PStr "full") (PStr "dc")
    (Some (MkConsumption "3.3V" 588 16 (PBool true) (PBool true) (PBool false)))
    (Some (MkRadio Rssi [NInt 15; NInt 11] (NInt 100) (Some (NInt 3)))).

Lemma full_profile_agreed : agreed full_profile "dc".
Proof.
  split.
  - split; [intros c [= <-]; unfold wf_consumption|intros r [= <-]; unfold wf_radio];
    simpl; split_and!; try set_solver; try lia.
    repeat constructor; simpl; lia.
  - split; [done|set_solver].
  - intros c [= <-]. by eexists _, _, _.
  - intros r [= <-]. simpl. split_and!; [repeat constructor; eauto|repeat constructor; set_solver|eauto|].
    intros n [= <-]. eauto.
Qed.

Lemma profile_reaches_node_witness :
  ∃ r n' t' lines co ra,
    @CnIotlab.configure_profile calm_env (Some full_profile) iotlab_node [] = (Val r, n', t') ∧
    written t' = lines ∧
    packets_sent (λ _, MkTimeval 0 0) lines (MkCmdState (MkBuffer 0 0 []) (MkTimeval 0 0)) =
      Some [packet [OPEN_NODE_START; 2%Z]; packet co; packet ra] ∧
    radio_says (p_radio full_profile) ra.
Proof.
  destruct (@profile_reaches_node calm_env gateway_abi iotlab_node [] (Some full_profile)
    full_profile "dc") as (r & n' & t' & lines & Hconf & _ & Hwr & Hsent); try reflexivity.
  - by intros t line.
  - set_solver.
  - exact full_profile_agreed.
  - destruct Hsent as (pw & co & ra & (ty & v & -> & Hty & Hv) & _ & Hra & Hps).
    exists r, n', t', lines, co, ra. split_and!; [exact Hconf|exact Hwr| |exact Hra].
    rewrite Hps. simpl in Hty, Hv.
    assert (ty = OPEN_NODE_START) as -> by intuition congruence.
    assert (v = 2%Z) as -> by intuition congruence. reflexivity.
Defined.
