(* ===== verification/CnExperiment.v ===== *)
(** * An experiment, from the request to the serial link

    What a start that succeeds ([GatewayManager.exp_start]) writes to the serial program
    of the IoT-LAB control node ([ControlNodes.CnIotlab]), that every line of it was
    acknowledged, and what the program makes the control node do ([CnCommands]). *)

From S2P Require Import Prelude PyString Effects PyVal Profile Config Common Protocol CnInterface.
From S2P Require Import Nodes NodeClasses Programmers ExternalProcess BoardConfig Interfaces OpenNodes ControlNodes GatewayManager Gateway RestServer.
From S2P Require Import CFormat CnCommands CnPackets CnMeasures CnLines CnConfig CnProfile.

(** ** Conversations *)

(** From one trace to another, the control node is given command lines and nothing else
    happens: each is written, and during the wait the reader is given the answer that
    acknowledges it. *)
Inductive acked_lines `{E : Env} : trace → list (list string) → trace → Prop :=
  | acked_nil t : acked_lines t [] t
  | acked_cons t c ws cmds t' line :
      env_write (t ++ [EvWriteStdin (line_of (c :: ws))]) (line_of (c :: ws)) = None →
      RLine line ∈ env_reader (t ++ [EvWriteStdin (line_of (c :: ws)); EvGetAnswer]) →
      str_split " "%char (str_strip line) = [c; "ACK"] →
      acked_lines (t ++ [EvWriteStdin (line_of (c :: ws)); EvGetAnswer]) cmds t' →
      acked_lines t ((c :: ws) :: cmds) t'.

(** The same control node: its class, its identifier and its default profile. *)
Definition same_unit `{E : Env} (n n' : CnIotlab.node) : Prop :=
  CnIotlab.ci_class n' = CnIotlab.ci_class n ∧
  CnIotlab.ci_node_id n' = CnIotlab.ci_node_id n ∧
  CnIotlab.ci_default_profile n' = CnIotlab.ci_default_profile n.

(** ** The commands of an experiment *)

(** The identifier is only sent to the control node of an M3 or A8 node. *)
Definition id_commands (archi : string) (num : Z) : list (list string) :=
  if bool_decide (archi ∈ ["m3"; "a8"]) then [["set_node_id"; archi; str_of_Z num]] else [].

Definition id_says (archi : string) (num : Z) (datas : list (list Z)) : Prop :=
  if bool_decide (archi ∈ ["m3"; "a8"])
  then ∃ v, In (archi, v) archi_d ∧
         datas = [SET_NODE_ID :: le_bytes 2 (Z.lor (v * 2 ^ 12) num)]
  else datas = [].

(** The power cycle of the boards that need one after a flash. *)
Definition cycle_commands (cycle : bool) (power : string) : list (list string) :=
  if cycle then [["stop"; power]; ["start"; power]] else [].

Definition cycle_says (cycle : bool) (power : string) (datas : list (list Z)) : Prop :=
  if cycle then ∃ off on, power_says "stop" power off ∧ power_says "start" power on ∧
                          datas = [off; on]
  else datas = [].

(** ** Lemmas *)

Section conversation.
Context `{E : Env}.
Implicit Types (n : CnIotlab.node) (t : trace).

Lemma acked_app t cmds t1 cmds' t2 :
  acked_lines t cmds t1 → acked_lines t1 cmds' t2 → acked_lines t (cmds ++ cmds') t2.
Proof. induction 1; [done|]. intros H'. simpl. econstructor; eauto. Qed.

Lemma same_unit_refl n : same_unit n n.
Proof. done. Qed.

Lemma same_unit_trans n1 n2 n3 : same_unit n1 n2 → same_unit n2 n3 → same_unit n1 n3.
Proof. unfold same_unit. naive_solver congruence. Qed.

(** A command that returns 0 was written and acknowledged. *)
Lemma send_words_acked n t c ws n' t' :
  send_words CnIotlab.sender (c :: ws) n t = (Val 0%Z, n', t') →
  acked_lines t [c :: ws] t' ∧ ∃ s', n' = lset CnIotlab.cn_serial s' n.
Proof.
  intros Hrun. simpl in Hrun. unfold send_cmd in Hrun.
  apply M_bind_Val in Hrun as (ans & ? & ? & Hs & [= Hack <- <-]).
  unfold CnIotlab.sender in Hs. apply zoom_Val in Hs as (s' & Hs & ->). split; [|by eexists].
  change (PStr c :: (PStr <$> ws)) with (PStr <$> c :: ws) in Hs.
  rewrite send_command_run in Hs. cbv zeta in Hs. fold (line_of (c :: ws)) in Hs.
  case_bool_decide as Heq; [|done]. rewrite <- Heq in Hs.
  case_match; [|done]. destruct (env_write _ _) eqn:Hw; [done|].
  rewrite <- (assoc_L (++)) in Hs. simpl app in Hs.
  match type of Hs with context [read_until ?f ?o ?x] =>
    destruct (read_until_answer o x eq_refl) as [Hm|(line & Hin & _ & Hm)] end;
    cbv zeta in Hm; rewrite Hm in Hs; [done|].
  injection Hs as Hans _ <-. by eapply acked_cons; [..|apply acked_nil].
Qed.

(** The power commands: the argument, or the power of the profile. *)
Lemma open_power_acked n t command power n' t' :
  CnIotlab.open_power command power n t = (Val 0%Z, n', t') →
  same_unit n n' ∧ CnIotlab.ci_profile n' = CnIotlab.ci_profile n ∧
  CnIotlab.ci_open_node_state n' = command ∧
  ∀ p w, CnIotlab.ci_profile n = Some p → p_power p = PStr w → power = None →
         acked_lines t [[command; w]] t'.
Proof.
  intros Hrun. destruct (open_power_state _ _ _ _ _ _ _ Hrun) as (Hst & Hpr & _).
  unfold CnIotlab.open_power in Hrun.
  apply M_bind_Val in Hrun as (? & ? & ? & [= <- <- <-] & Hrun).
  apply M_bind_Val in Hrun as (pw & ? & ? & [= Hpw <- <-] & Hrun).
  apply M_bind_Val in Hrun as (r1 & n1 & t1 & Hsend & Hrun).
  apply M_bind_Val in Hrun as (? & n2 & t2 & Hset & [= -> <- <-]).
  simpl in Hset. injection Hset as <- <- <-. split_and!; [|done..|].
  - unfold start_stop, send_cmd in Hsend. apply M_bind_Val in Hsend as (? & ? & ? & Hs & [= _ <- _]).
    unfold CnIotlab.sender in Hs. by apply zoom_Val in Hs as (? & _ & ->).
  - intros p w Hp Hw ->. rewrite Hp in Hpw. simpl in Hpw. rewrite Hw in Hpw.
    injection Hpw as <-. by destruct (send_words_acked n t command [w] _ _ Hsend).
Qed.

Lemma configure_profile_acked n t profile p power cw n' t' :
  CnIotlab.from_m3 n "configure_profile" = false →
  or_default profile (CnIotlab.ci_default_profile n) = Some p →
  p_power p = PStr power → consumption_cmd (p_consumption p) = Val cw →
  CnIotlab.configure_profile profile n t = (Val 0%Z, n', t') →
  same_unit n n' ∧ CnIotlab.ci_profile n' = Some p ∧
  CnIotlab.ci_open_node_state n' = CnIotlab.ci_open_node_state n ∧
  acked_lines t [[CnIotlab.ci_open_node_state n; power]; cw; radio_cmd (p_radio p)] t'.
Proof.
  intros Hm3 Hprof Hpow Hcw Hrun. unfold CnIotlab.configure_profile in Hrun.
  apply M_bind_Val in Hrun as (? & ? & ? & [= <- <- <-] & Hrun).
  apply M_bind_Val in Hrun as (? & ? & ? & [= _ <- <-] & Hrun). rewrite Hprof in Hrun.
  apply M_bind_Val in Hrun as (? & ? & ? & [= <- <- <-] & Hrun).
  set (n1 := CnIotlab.set_profile (Some p) n) in *.
  change (CnIotlab.from_m3 n1 _) with (CnIotlab.from_m3 n "configure_profile") in Hrun.
  rewrite Hm3 in Hrun. simpl profile_attr in Hrun.
  apply M_bind_Val in Hrun as (? & ? & ? & [= <- <- <-] & Hrun). rewrite Hpow in Hrun.
  apply M_bind_Val in Hrun as (r1 & n2 & t2 & R1 & Hrun).
  apply M_bind_Val in Hrun as (? & ? & ? & [= <- <- <-] & Hrun).
  apply M_bind_Val in Hrun as (r2 & n3 & t3 & R2 & Hrun).
  apply M_bind_Val in Hrun as (? & ? & ? & [= <- <- <-] & Hrun).
  apply M_bind_Val in Hrun as (r3 & n4 & t4 & R3 & [= Hsum <- <-]).
  pose proof (returns_run _ _ _ _ _ _ _ (start_stop_nonneg _ _ _) R1).
  pose proof (returns_run _ _ _ _ _ _ _ (config_consumption_nonneg _ _) R2).
  pose proof (returns_run _ _ _ _ _ _ _ (config_radio_nonneg _ _) R3). cbv beta in *.
  assert (r1 = 0 ∧ r2 = 0 ∧ r3 = 0)%Z as (-> & -> & ->) by lia.
  unfold Protocol.config_consumption, config_radio in *. rewrite Hcw in R2.
  apply M_bind_Val in R2 as (? & ? & ? & [= <- <- <-] & R2).
  destruct (consumption_cmd_cons _ _ Hcw) as (w & ws & ->).
  destruct (radio_cmd_cons (p_radio p)) as (w' & ws' & Hr). rewrite Hr in *.
  apply (send_words_acked n1 t _ [power]) in R1 as [A1 [s1 ->]].
  apply send_words_acked in R2 as [A2 [s2 ->]]. apply send_words_acked in R3 as [A3 [s3 ->]].
  split_and!; [done..|]. exact (acked_app _ _ _ _ _ A1 (acked_app _ _ _ _ _ A2 A3)).
Qed.

Lemma set_node_id_acked n t archi num n' t' :
  (0 ≤ num)%Z →
  set_node_id CnIotlab.sender (archi +:+ "-" +:+ str_of_Z num) n t = (Val 0%Z, n', t') →
  acked_lines t (id_commands (str_replace "_"%char "-"%char archi) num) t' ∧
  ∃ s', n' = lset CnIotlab.cn_serial s' n.
Proof.
  intros Hnum. rewrite (proj2 (set_node_id_roundtrip _ archi num Hnum)). unfold id_commands.
  case_bool_decide.
  - exact (send_words_acked n t "set_node_id" [_; _] n' t').
  - intros [= <- <-]. split; [constructor|]. exists (CnIotlab.ci_serial n). by destruct n.
Qed.

(** [start_experiment]: the led, the time, the identifier and the profile. *)
Lemma start_experiment_acked n t profile p power cw archi num n' t' :
  CnIotlab.from_m3 n "configure_profile" = false →
  or_default profile (CnIotlab.ci_default_profile n) = Some p →
  p_power p = PStr power → consumption_cmd (p_consumption p) = Val cw →
  (0 ≤ num)%Z → CnIotlab.ci_node_id n = archi +:+ "-" +:+ str_of_Z num →
  CnIotlab.start_experiment profile n t = (Val 0%Z, n', t') →
  same_unit n n' ∧ CnIotlab.ci_profile n' = Some p ∧
  CnIotlab.ci_open_node_state n' = CnIotlab.ci_open_node_state n ∧
  acked_lines t ([["green_led_blink"]; ["set_time"]]
             ++ id_commands (str_replace "_"%char "-"%char archi) num
             ++ [[CnIotlab.ci_open_node_state n; power]; cw; radio_cmd (p_radio p)]) t'.
Proof.
  intros Hm3 Hprof Hpow Hcw Hnum Hid Hrun. unfold CnIotlab.start_experiment in Hrun.
  apply M_bind_Val in Hrun as (? & ? & ? & [= <- <- <-] & Hrun).
  apply M_bind_Val in Hrun as (r1 & n1 & t1 & R1 & Hrun).
  apply M_bind_Val in Hrun as (r2 & n2 & t2 & R2 & Hrun).
  apply M_bind_Val in Hrun as (r3 & n3 & t3 & R3 & Hrun). rewrite Hid in R3.
  apply M_bind_Val in Hrun as (r4 & n4 & t4 & R4 & [= Hsum <- <-]).
  pose proof (returns_run _ _ _ _ _ _ _ (send_words_nonneg _ _) R1).
  pose proof (returns_run _ _ _ _ _ _ _ (send_words_nonneg _ _) R2).
  pose proof (returns_run _ _ _ _ _ _ _ (set_node_id_nonneg _ _) R3).
  pose proof (returns_run _ _ _ _ _ _ _ (iotlab_configure_nonneg _) R4). cbv beta in *.
  assert (r1 = 0 ∧ r2 = 0 ∧ r3 = 0 ∧ r4 = 0)%Z as (-> & -> & -> & ->) by lia.
  apply send_words_acked in R1 as [A1 [s1 ->]]. apply send_words_acked in R2 as [A2 [s2 ->]].
  apply set_node_id_acked in R3 as [A3 [s3 ->]]; [|done].
  apply (configure_profile_acked _ _ _ p power cw) in R4 as (U & P & S & A4); [|done..].
  split_and!; [done..|].
  exact (acked_app _ _ _ _ _ A1 (acked_app _ _ _ _ _ A2 (acked_app _ _ _ _ _ A3 A4))).
Qed.

Lemma preserves_unit {A} (m : M OpenOCD A) n : preserves (same_unit n) (zoom CnIotlab.openocd m).
Proof. by apply preserves_zoom. Qed.

Lemma preserves_unit_serial {A} (m : M CnSerial A) n :
  preserves (same_unit n) (zoom CnIotlab.cn_serial m).
Proof. by apply preserves_zoom. Qed.

Hint Resolve preserves_unit preserves_unit_serial : preserve.

Lemma preserves_unit_send n words : preserves (same_unit n) (send_words CnIotlab.sender words).
Proof. unfold send_words, send_cmd, CnIotlab.sender. case_match; preserve. Qed.

Lemma preserves_unit_power n command power :
  preserves (same_unit n) (CnIotlab.open_power command power).
Proof. unfold CnIotlab.open_power, start_stop, send_cmd, CnIotlab.sender. preserve. Qed.

Hint Resolve preserves_unit_send preserves_unit_power : preserve.

Lemma preserves_unit_stop n :
  preserves (same_unit n) (CnIotlab.stop_experiment) ∧ preserves (same_unit n) (CnIotlab.stop).
Proof.
  unfold CnIotlab.stop_experiment, CnIotlab.stop, CnIotlab.configure_profile,
    CnIotlab.open_start, CnIotlab.open_stop, CnIotlab.reset, CnIotlab.wait_control_node_ready,
    Protocol.config_consumption, config_radio, green_led_on.
  split; preserve; unfold start_stop, send_cmd, CnIotlab.sender; preserve.
Qed.

(** [start] leaves the power of the open node on. *)
Lemma start_started `{!StatusOk} n t id files n' t' :
  CnIotlab.from_m3 n "open_start" = false →
  CnIotlab.start id files n t = (Val 0%Z, n', t') →
  same_unit n n' ∧ CnIotlab.ci_open_node_state n' = "start".
Proof.
  intros Hm3 Hrun. unfold CnIotlab.start in Hrun.
  apply M_bind_Val in Hrun as (r1 & n1 & t1 & R1 & Hrun).
  apply M_bind_Val in Hrun as (? & ? & ? & [= <- <- <-] & Hrun).
  apply M_bind_Val in Hrun as (cfg & ? & ? & [= _ <- <-] & Hrun).
  apply M_bind_Val in Hrun as (r2 & n2 & t2 & R2 & Hrun).
  apply M_bind_Val in Hrun as (r3 & n3 & t3 & R3 & [= Hsum <- <-]).
  pose proof (returns_run _ _ _ _ _ _ _ iotlab_reset_nonneg R1).
  pose proof (returns_run _ _ _ _ _ _ _ (returns_zoom _ CnIotlab.cn_serial _ (cs_start_nonneg _)) R2).
  pose proof (returns_run _ _ _ _ _ _ _ (iotlab_open_start_nonneg _) R3). cbv beta in *.
  assert (r3 = 0)%Z as -> by lia.
  assert (same_unit n n2) as U.
  { eapply (preserves_run (same_unit n)); [apply preserves_unit_serial|exact R2|].
    eapply (preserves_run (same_unit n)); [|exact R1|done].
    unfold CnIotlab.reset, CnIotlab.wait_control_node_ready. preserve. }
  unfold CnIotlab.open_start in R3. apply M_bind_Val in R3 as (? & ? & ? & [= <- <- <-] & R3).
  assert (CnIotlab.from_m3 n2 "open_start" = false) as Hm.
  { destruct U as (U & _). unfold CnIotlab.from_m3. by rewrite U. }
  rewrite Hm in R3. destruct (open_power_acked _ _ _ _ _ _ R3) as (U' & _ & S & _).
  split; [by eapply same_unit_trans|done].
Qed.

(** [open_start()] and [open_stop()] on a control node that has them. *)
Lemma open_start_acked n t power n' t' :
  CnIotlab.from_m3 n "open_start" = false →
  CnIotlab.open_start power n t = (Val 0%Z, n', t') →
  CnIotlab.open_power "start" power n t = (Val 0%Z, n', t').
Proof.
  intros Hm3 Hrun. unfold CnIotlab.open_start in Hrun.
  apply M_bind_Val in Hrun as (? & ? & ? & [= <- <- <-] & Hrun). by rewrite Hm3 in Hrun.
Qed.

Lemma open_stop_acked n t power n' t' :
  CnIotlab.from_m3 n "open_stop" = false →
  CnIotlab.open_stop power n t = (Val 0%Z, n', t') →
  CnIotlab.open_power "stop" power n t = (Val 0%Z, n', t').
Proof.
  intros Hm3 Hrun. unfold CnIotlab.open_stop in Hrun.
  apply M_bind_Val in Hrun as (? & ? & ? & [= <- <- <-] & Hrun). by rewrite Hm3 in Hrun.
Qed.
End conversation.

(** ** The control node in the manager *)

(** What the manager needs of a type of control nodes to drive an IoT-LAB one: some of its
    values are IoT-LAB control nodes, and do as these. *)
Class IotlabLike `{E : Env} (C : Type) `{!ControlNodeOps C} := {
  as_iotlab : CnIotlab.node → C;
  like_start : ∀ id files n t,
    cn_start id files (as_iotlab n) t = inside as_iotlab (CnIotlab.start id files) n t;
  like_stop : ∀ n t, cn_stop (as_iotlab n) t = inside as_iotlab CnIotlab.stop n t;
  like_start_experiment : ∀ p n t,
    cn_start_experiment p (as_iotlab n) t = inside as_iotlab (CnIotlab.start_experiment p) n t;
  like_stop_experiment : ∀ n t,
    cn_stop_experiment (as_iotlab n) t = inside as_iotlab CnIotlab.stop_experiment n t;
  like_open_start : ∀ power n t,
    cn_open_start power (as_iotlab n) t = inside as_iotlab (CnIotlab.open_start power) n t;
  like_open_stop : ∀ power n t,
    cn_open_stop power (as_iotlab n) t = inside as_iotlab (CnIotlab.open_stop power) n t
}.

(** A control node of a whole gateway. *)
#[global] Instance any_like `{E : Env} : IotlabLike AnyControl.
Proof. by refine {| as_iotlab := CIotlab |}. Defined.

(** The class redefines none of the methods: it is [ControlNodeIotlab]. *)
Definition full_class `{E : Env} (n : CnIotlab.node) : Prop :=
  CnIotlab.ci_class n = ControlNodeIotlab.

Lemma full_class_methods `{E : Env} n name :
  full_class n → name ∈ ["open_start"; "open_stop"; "configure_profile"] →
  CnIotlab.from_m3 n name = false.
Proof.
  intros Hc Hn. unfold CnIotlab.from_m3. rewrite Hc.
  repeat (apply elem_of_cons in Hn as [->|Hn]; [reflexivity|]). by apply elem_of_nil in Hn.
Qed.

Lemma full_class_unit `{E : Env} n n' : full_class n → same_unit n n' → full_class n'.
Proof. unfold full_class, same_unit. naive_solver congruence. Qed.

Section manager.
Context `{E : Env} {N C : Type} `{!OpenNodeOps N} `{!OpenNodeLaws N} `{!StatusOk}.
Context `{!ControlNodeOps C} `{!ControlNodeLaws C} `{!IotlabLike C}.
Implicit Types (g : GM N C) (t : trace) (n : CnIotlab.node).

(** An operation of the control node that returned, on an IoT-LAB one. *)
Lemma zoom_iotlab {A} (m : M C A) (mi : M CnIotlab.node A) g n t a g' t' :
  (∀ n t, m (as_iotlab n) t = inside as_iotlab mi n t) → gm_control_node g = as_iotlab n →
  zoom control_node m g t = (Val a, g', t') →
  ∃ n', mi n t = (Val a, n', t') ∧ g' = lset control_node (as_iotlab n') g.
Proof.
  intros Hm Hg Hrun. apply zoom_Val in Hrun as (c & Hrun & ->).
  change (lget control_node g) with (gm_control_node g) in Hrun. rewrite Hg, Hm in Hrun.
  unfold inside in Hrun. destruct (mi n t) as [[o n'] u]. injection Hrun as -> <- <-.
  by exists n'.
Qed.

(** What a stop keeps of the nodes. *)
Definition stop_keeps n (c : pyclass) g : Prop :=
  (∃ n', gm_control_node g = as_iotlab n' ∧ same_unit n n') ∧ on_class (gm_open_node g) = c.

Lemma preserves_iotlab (m : M C Z) (mi : M CnIotlab.node Z) n c :
  (∀ n t, m (as_iotlab n) t = inside as_iotlab mi n t) → preserves (same_unit n) mi →
  preserves (stop_keeps n c) (zoom control_node m).
Proof.
  intros Hm Hmi. eapply (preserves_zoom_part _ (λ x, ∃ n', x = as_iotlab n' ∧ same_unit n n')).
  - intros x t (n' & -> & U). pose proof (Hmi n' t U) as Hw. unfold wp in *.
    rewrite Hm. unfold inside. destruct (mi n' t) as [[o n2] u]. by exists n2.
  - by intros g [? _].
  - intros x g [_ Hc] Hx. by split.
Qed.

Lemma preserves_stop n c : preserves (stop_keeps n c) exp_stop_body.
Proof.
  assert (Hon : preserves (stop_keeps n c) (zoom open_node on_teardown)).
  { eapply (preserves_zoom_part _ (λ on, on_class on = c));
      [by destruct (on_keeps_class c) as (_ & ? & _)|by intros g [_ ?]|].
    intros x g [Hn _] Hx. by split. }
  destruct (preserves_unit_stop n) as [Hs1 Hs2].
  apply (preserves_iotlab cn_stop_experiment _ _ c like_stop_experiment) in Hs1.
  apply (preserves_iotlab cn_stop _ _ c like_stop) in Hs2.
  unfold exp_stop_body, reset_configuration.
  repeat first [exact Hs1 | exact Hs2 | exact Hon | preserve_step]; done.
Qed.

(** Stop then start: the power of the open node is on. *)
Lemma restart_acked g n t g' t' :
  gm_control_node g = as_iotlab n → full_class n →
  (r ← zoom control_node (cn_open_stop None);
   r' ← zoom control_node (cn_open_start None);
   mret (r + r')%Z) g t = (Val 0%Z, g', t') →
  ∃ n', gm_control_node g' = as_iotlab n' ∧ same_unit n n' ∧
    CnIotlab.ci_profile n' = CnIotlab.ci_profile n ∧
    CnIotlab.ci_open_node_state n' = "start" ∧
    ∀ p w, CnIotlab.ci_profile n = Some p → p_power p = PStr w →
           acked_lines t [["stop"; w]; ["start"; w]] t'.
Proof.
  intros Hg Hc Hrun.
  apply M_bind_Val in Hrun as (r1 & g1 & t1 & R1 & Hrun).
  apply M_bind_Val in Hrun as (r2 & g2 & t2 & R2 & [= Hsum <- <-]).
  pose proof (returns_run _ _ _ _ _ _ _ (returns_zoom _ control_node _ (cn_open_stop_nonneg _ _)) R1).
  pose proof (returns_run _ _ _ _ _ _ _ (returns_zoom _ control_node _ (cn_open_start_nonneg _ _)) R2).
  cbv beta in *. assert (r1 = 0 ∧ r2 = 0)%Z as [-> ->] by lia.
  eapply zoom_iotlab in R1 as (n1 & R1 & ->); [|apply like_open_stop|done].
  eapply zoom_iotlab in R2 as (n2 & R2 & ->); [|apply like_open_start|done].
  exists n2. split; [done|].
  apply open_stop_acked in R1; [|by apply full_class_methods; [|set_solver]].
  apply open_power_acked in R1 as (U1 & P1 & _ & A1).
  apply open_start_acked in R2; [|apply full_class_methods; [by eapply full_class_unit|set_solver]].
  apply open_power_acked in R2 as (U2 & P2 & S2 & A2).
  split_and!; [by eapply same_unit_trans|congruence|done|]. intros p w Hp Hw.
  refine (acked_app _ _ _ _ _ (A1 p w Hp Hw eq_refl) (A2 p w _ Hw eq_refl)). congruence.
Qed.

Lemma pycom_cycle_started tty g n t g' t' :
  gm_control_node g = as_iotlab n → full_class n →
  pycom_cycle tty g t = (Val 0%Z, g', t') →
  ∃ n', gm_control_node g' = as_iotlab n' ∧ same_unit n n' ∧
    CnIotlab.ci_open_node_state n' = "start".
Proof.
  intros Hg Hc Hrun. unfold pycom_cycle in Hrun.
  apply M_bind_Val in Hrun as (r1 & g1 & t1 & R1 & Hrun).
  apply M_bind_Val in Hrun as (r2 & g2 & t2 & R2 & Hrun).
  apply M_bind_Val in Hrun as (r3 & g3 & t3 & R3 & Hrun).
  apply M_bind_Val in Hrun as (r4 & g4 & t4 & R4 & [= Hsum <- <-]).
  pose proof (returns_run _ _ _ _ _ _ _ (returns_zoom _ control_node _ (cn_open_stop_nonneg _ _)) R1).
  pose proof (returns_run _ _ _ _ _ _ _ (wait_no_tty_status _ _) R2).
  pose proof (returns_run _ _ _ _ _ _ _ (returns_zoom _ control_node _ (cn_open_start_nonneg _ _)) R3).
  pose proof (returns_run _ _ _ _ _ _ _ (wait_tty_status _ _) R4).
  cbv beta in *. assert (r1 = 0 ∧ r3 = 0)%Z as [-> ->] by lia.
  apply stateless_run in R2 as ->; [|preserve]. apply stateless_run in R4 as ->; [|preserve].
  eapply zoom_iotlab in R1 as (n1 & R1 & ->); [|apply like_open_stop|done].
  eapply zoom_iotlab in R3 as (n2 & R3 & ->); [|apply like_open_start|done].
  exists n2. split; [done|].
  apply open_stop_acked in R1; [|by apply full_class_methods; [|set_solver]].
  apply open_power_acked in R1 as (U1 & _).
  apply open_start_acked in R3; [|apply full_class_methods; [by eapply full_class_unit|set_solver]].
  apply open_power_acked in R3 as (U2 & _ & S2 & _).
  split; [by eapply same_unit_trans|done].
Qed.

Lemma power_cycled (cycle : bool) g n t g' t' p power :
  gm_control_node g = as_iotlab n → full_class n → CnIotlab.ci_profile n = Some p →
  CnIotlab.ci_open_node_state n = "start" → p_power p = PStr power →
  (if cycle then
     r ← zoom control_node (cn_open_stop None);
     r' ← zoom control_node (cn_open_start None);
     mret (r + r')%Z
   else mret 0%Z) g t = (Val 0%Z, g', t') →
  ∃ n', gm_control_node g' = as_iotlab n' ∧ same_unit n n' ∧ CnIotlab.ci_profile n' = Some p ∧
    CnIotlab.ci_open_node_state n' = "start" ∧ acked_lines t (cycle_commands cycle power) t'.
Proof.
  intros Hg Hc Hp Hs Hw Hrun. destruct cycle.
  - apply (restart_acked _ n) in Hrun as (n' & G & U & P & S & A); [|done..].
    exists n'. split_and!; [done|done|congruence|done|by eapply A].
  - injection Hrun as <- <-. exists n. by split_and!; [..|constructor].
Qed.

(** The two power cycles of a Pycom board, or none. *)
Lemma pycom_started ty tty g n t g' t' :
  gm_control_node g = as_iotlab n → full_class n →
  CnIotlab.ci_open_node_state n = "start" →
  (if decide (ty = "pycom") then
     r ← pycom_cycle tty; r' ← pycom_cycle tty; mret (r + r')%Z
   else mret 0%Z) g t = (Val 0%Z, g', t') →
  ∃ n', gm_control_node g' = as_iotlab n' ∧ same_unit n n' ∧
    CnIotlab.ci_open_node_state n' = "start".
Proof.
  intros Hg Hc Hs Hrun. case_decide; [|injection Hrun as <- <-; by exists n].
  apply M_bind_Val in Hrun as (r1 & g1 & t1 & R1 & Hrun).
  apply M_bind_Val in Hrun as (r2 & g2 & t2 & R2 & [= Hsum <- <-]).
  pose proof (returns_run _ _ _ _ _ _ _ (pycom_cycle_nonneg _) R1).
  pose proof (returns_run _ _ _ _ _ _ _ (pycom_cycle_nonneg _) R2).
  cbv beta in *. assert (r1 = 0 ∧ r2 = 0)%Z as [-> ->] by lia.
  apply (pycom_cycle_started _ _ n) in R1 as (n1 & G1 & U1 & _); [|done..].
  apply (pycom_cycle_started _ _ n1) in R2 as (n2 & G2 & U2 & S2);
    [|done|by eapply full_class_unit].
  exists n2. split; [done|]. split; [by eapply same_unit_trans|done].
Qed.

(** A start up to [start_experiment]: the open node is on by then. *)
Lemma started_node g n t g' t' user exp_id fw profile timeout e :
  gm_control_node g = as_iotlab n → full_class n →
  start_steps user exp_id fw profile timeout (set_exp e (Some user) true g) t
    = (Val 0%Z, g', t') →
  ∃ nd ne ge gf td te tf ty, open_node_type g = Val ty ∧ same_unit n nd ∧
    CnIotlab.ci_open_node_state nd = "start" ∧ gm_control_node ge = as_iotlab ne ∧
    CnIotlab.start_experiment profile nd td = (Val 0%Z, ne, te) ∧
    (if bool_decide (is_Some fw) && board_require_power_cycle ty then
       r ← zoom control_node (cn_open_stop None);
       r' ← zoom control_node (cn_open_start None);
       mret (r + r')%Z
     else mret 0%Z) ge te = (Val 0%Z, gf, tf) ∧
    (g', t') = (if (timeout =? 0)%Z then (gf, tf)
                else (set_timer (Some (exp_id, user)) gf, tf ++ [EvTimerStart timeout])).
Proof.
  intros Hg Hc Hrun. apply start_steps_zero in Hrun as (ty & tty & files & ga & gb & gc & gd & ge
    & gf & ta & tb & tc & td & te & tf & Hty & Hga & Rst & Rpy & Rset & Rexp & Rcyc & Hend).
  simpl in Hga. rewrite Hg in Hga.
  eapply zoom_iotlab in Rst as (nb & Rst & ->); [|apply like_start|done].
  apply start_started in Rst as (U1 & S1); [|by apply full_class_methods; [|set_solver]].
  apply (pycom_started ty tty _ nb) in Rpy as (nc & Gc & U2 & S2);
    [|done|by eapply full_class_unit|done].
  apply zoom_Val in Rset as (on & _ & ->).
  eapply zoom_iotlab in Rexp as (ne & Rexp & ->); [|apply like_start_experiment|done].
  exists nc, ne, (lset control_node (as_iotlab ne) (lset open_node on gc)), gf, td, te, tf, ty.
  split; [exact Hty|]. split; [by eapply same_unit_trans|]. split; [exact S2|].
  split; [done|]. by split_and!.
Qed.
End manager.

(** ** Lemmas: the packets *)

Lemma id_packets archi num :
  (0 ≤ num < 2 ^ 12)%Z →
  ∃ datas, id_says archi num datas ∧
    Forall2 (λ words data, ∀ now, reaches now words data) (id_commands archi num) datas.
Proof.
  intros Hnum. unfold id_says, id_commands. case_bool_decide as Ha; [|by exists []].
  assert (∃ v, In (archi, v) archi_d) as [v Hv].
  { repeat (apply elem_of_cons in Ha as [->|Ha]; [eexists; simpl; eauto|]).
    by apply elem_of_nil in Ha. }
  eexists. split; [by exists v|]. constructor; [|done]. intros now. by apply set_node_id_sends.
Qed.

Lemma cycle_packets cycle power :
  power ∈ ["dc"; "battery"] →
  ∃ datas, cycle_says cycle power datas ∧
    Forall2 (λ words data, ∀ now, reaches now words data) (cycle_commands cycle power) datas.
Proof.
  intros Hp. destruct cycle; [|by exists []].
  destruct (power_sends "stop" power) as (off & Hoff & Soff); [set_solver|done|].
  destruct (power_sends "start" power) as (on & Hon & Son); [set_solver|done|].
  exists [off; on]. split; [by exists off, on|by repeat constructor].
Qed.

(** The led and the time, then commands whose packets do not depend on the time. *)
Lemma led_time_packets cmds datas now s :
  Forall2 (λ words data, ∀ now, reaches now words data) cmds datas →
  packets_sent now (line_of <$> [["green_led_blink"]; ["set_time"]] ++ cmds) s =
    Some (packet <$> [[GREEN_LED_BLINK];
                      SET_TIME :: le_bytes 4 (tv_sec (now 1)) ++ le_bytes 4 (tv_usec (now 1))]
                     ++ datas).
Proof.
  intros H.
  destruct (packets_sent_cons now ["green_led_blink"] [GREEN_LED_BLINK]
    (line_of <$> ["set_time"] :: cmds) s) as [s1 Hs1]; [apply simple_sends; simpl; eauto|].
  destruct (packets_sent_cons (now ∘ S) ["set_time"]
    (SET_TIME :: le_bytes 4 (tv_sec (now 1)) ++ le_bytes 4 (tv_usec (now 1)))
    (line_of <$> cmds) s1) as [s2 Hs2]; [apply set_time_sends|].
  cbn [app fmap list_fmap] in *. by rewrite Hs1, Hs2, (packets_sent_all _ datas).
Qed.

(** A start of the manager from idle: the nodes it leaves, and the conversation with the
    serial program that ends it. *)
Lemma exp_start_reaches_node `{E : Env} `{A : Abi} {N C : Type} `{!OpenNodeOps N}
    `{!OpenNodeLaws N} `{!StatusOk} `{!ControlNodeOps C} `{!ControlNodeLaws C} `{!IotlabLike C}
    (g g' : GM N C) (n : CnIotlab.node) (tid : nat) (t t' : trace)
    (user : string) (exp_id : Z) (fw : option string) (pd : pyval) (timeout : Z)
    (profile : option Profile) (p : Profile) (power archi ty : string) (num : Z)
    (Hl : gm_rlock g = rl_free) (Hi : idle g)
    (Hn : gm_control_node g = as_iotlab n) (Hc : full_class n)
    (Hid : CnIotlab.ci_node_id n = archi +:+ "-" +:+ str_of_Z num)
    (Hnum : (0 ≤ num < 2 ^ 12)%Z) (Hty : open_node_type g = Val ty)
    (Hpd : profile_from_dict (gm_board_cfg g) pd = Val profile)
    (Hprof : or_default profile (CnIotlab.ci_default_profile n) = Some p)
    (Hp : agreed p power)
    (Hrun : exp_start tid user exp_id fw pd timeout g t = (Val 0%Z, g', t')) :
  ∃ n' t1 cmds t2 ids pw co ra cy,
    gm_control_node g' = as_iotlab n' ∧ same_unit n n' ∧ CnIotlab.ci_profile n' = Some p ∧
    CnIotlab.ci_open_node_state n' = "start" ∧
    acked_lines t1 cmds t2 ∧ t' = t2 ++ (if (timeout =? 0)%Z then [] else [EvTimerStart timeout]) ∧
    id_says (str_replace "_"%char "-"%char archi) num ids ∧ power_says "start" power pw ∧
    consumption_says (p_consumption p) co ∧ radio_says (p_radio p) ra ∧
    cycle_says (bool_decide (is_Some fw) && board_require_power_cycle ty) power cy ∧
    ∀ now s, packets_sent now (line_of <$> cmds) s =
      Some (packet <$> [[GREEN_LED_BLINK];
                        SET_TIME :: le_bytes 4 (tv_sec (now 1)) ++ le_bytes 4 (tv_usec (now 1))]
                       ++ ids ++ [pw; co; ra] ++ cy).
Proof.
  destruct (ag_power _ _ Hp) as [Hpow Hin].
  destruct (consumption_sends p power Hp) as (cw & co & Hcw & Hco & Hsay).
  destruct (power_sends "start" power) as (pw & Hpw & Hpws); [set_solver|done|].
  destruct (radio_sends p power Hp) as (ra & Hra & Hras).
  set (archi' := str_replace "_"%char "-"%char archi).
  set (cycle := bool_decide (is_Some fw) && board_require_power_cycle ty).
  destruct (id_packets archi' num Hnum) as (ids & Hids & Rids).
  destruct (cycle_packets cycle power Hin) as (cy & Hcy & Rcy).
  apply exp_start_zero in Hrun as (profile' & u & Hpd' & _ & Hrun); [|done..].
  assert (profile' = profile) as -> by congruence.
  apply (started_node _ n) in Hrun as (nd & ne & ge & gf & td & te & tf & ty' & Hty' & (Uc & Uid & Udef)
    & S1 & Ge & Rexp & Rcyc & Hend); [|done..].
  assert (ty' = ty) as -> by congruence.
  assert (full_class nd) as Hcd by (unfold full_class; congruence).
  apply (start_experiment_acked _ _ _ p power cw archi num) in Rexp as (U2 & P2 & S2 & A2);
    [|by apply full_class_methods; [|set_solver]|by rewrite Udef|done|done|lia|congruence].
  rewrite S1 in A2, S2. fold archi' in A2.
  destruct (power_cycled cycle ge ne te gf tf p power) as (nf & Gf & U3 & P3 & S3 & A3);
    [done|by eapply full_class_unit|done..|].
  eexists nf, td, _, tf, ids, pw, co, ra, cy.
  split; [case_match; by simplify_eq|]. split; [unfold same_unit in *; naive_solver congruence|].
  split; [done|]. split; [done|]. split; [exact (acked_app _ _ _ _ _ A2 A3)|].
  split; [case_match; simplify_eq; by rewrite ?app_nil_r|]. split_and!; [done..|].
  intros now s. rewrite <- (assoc_L (++)). apply led_time_packets.
  rewrite <- (assoc_L (++)). apply Forall2_app; [done|]. by repeat constructor.
Qed.

Lemma stored_firmware `{E : Env} c rq t :
  stores c rq = true → is_Some (fst (stored c rq t)) ↔ is_Some (rq_firmware rq).
Proof.
  intros Hs. unfold stored. rewrite Hs. destruct (rq_firmware rq) as [[]|]; simpl; [|done].
  split; by eexists.
Qed.

(** ** Properties *)

(** C6: an experiment, from the HTTP request to the serial link.  The hypotheses: no
    command that the gateway runs is ended by a signal, so that no code is negative
    ([StatusOk]: the code -1 of one step could cancel the 1 of another in the sum); the
    server is in a state that its requests and timers can reach, idle or with an
    experiment, which is then stopped first; the control node is of the class
    [ControlNodeIotlab], named [archi-num] with [num] from 0 to 4095; the profile is
    accepted, and it, or the default one without it, is one on which the two programs
    agree ([agreed]: boolean flags, integers, each channel once, power [dc] or
    [battery]).  Then, when a request that starts an experiment is answered with the
    code 0, for any class of open node: the control node has that profile, with the
    open node powered; and the last thing that happened, but for the start of the timer
    and the end of the firmware's file, is a conversation with the serial program in
    which every line was acknowledged.  The packets of these lines are the led, the time
    of day at which the program read the second line, the identifier of the node, if
    [archi] is [m3] or [a8], then the power of an open node that is on, the consumption
    and the radio of the profile, and at last the power cycle of the boards that need
    one once flashed. *)
Theorem experiment_reaches_node `{E : Env} `{A : Abi} `{!StatusOk}
    (json_loads : string → option pyval) (g g' : GM AnyOpen AnyControl) (n : CnIotlab.node)
    (tid : nat) (t t' : trace) (user : string) (exp_id : Z)
    (rq : request) (pd : pyval) (profile : option Profile) (p : Profile)
    (power archi ty : string) (num : Z)
    (Hg : server_reachable json_loads g) (Hn : gm_control_node g = CIotlab n)
    (Hc : full_class n) (Hid : CnIotlab.ci_node_id n = archi +:+ "-" +:+ str_of_Z num)
    (Hnum : (0 ≤ num < 2 ^ 12)%Z) (Hty : open_node_type g = Val ty)
    (Hjson : extract_profile json_loads rq = Val pd)
    (Hpd : profile_from_dict (gm_board_cfg g) pd = Val profile)
    (Hprof : or_default profile (CnIotlab.ci_default_profile n) = Some p)
    (Hp : agreed p power)
    (Hrun : rest json_loads tid (CExpStart exp_id user) rq g t = (Val (Ret 0), g', t')) :
  let timeout := query_timeout (rq_query rq "timeout") in
  ∃ n' t1 cmds t2 ids pw co ra cy,
    gm_control_node g' = CIotlab n' ∧ same_unit n n' ∧ CnIotlab.ci_profile n' = Some p ∧
    CnIotlab.ci_open_node_state n' = "start" ∧
    acked_lines t1 cmds t2 ∧
    t' = t2 ++ (if (timeout =? 0)%Z then [] else [EvTimerStart timeout])
            ++ match rq_firmware rq with Some _ => [EvCloseTemp] | None => [] end ∧
    id_says (str_replace "_"%char "-"%char archi) num ids ∧ power_says "start" power pw ∧
    consumption_says (p_consumption p) co ∧ radio_says (p_radio p) ra ∧
    cycle_says (bool_decide (is_Some (rq_firmware rq)) && board_require_power_cycle ty)
      power cy ∧
    ∀ now s, packets_sent now (line_of <$> cmds) s =
      Some (packet <$> [[GREEN_LED_BLINK];
                        SET_TIME :: le_bytes 4 (tv_sec (now 1)) ++ le_bytes 4 (tv_usec (now 1))]
                       ++ ids ++ [pw; co; ra] ++ cy).
Proof.
  intros timeout. destruct (reachable_ok g (server_reachable_ok _ _ Hg)) as [Hl Hi].
  pose proof (rest_run json_loads tid (CExpStart exp_id user) rq g t) as Hr.
  pose proof (stored_firmware (CExpStart exp_id user) rq t eq_refl) as Hfw.
  destruct (stored _ rq t) as [fw u] eqn:Hst. simpl in Hfw. rewrite Hrun in Hr.
  unfold op_of in Hr. rewrite Hjson in Hr.
  destruct (run_op tid _ g u) as [[o g2] u2] eqn:Hop. injection Hr as Hans -> Ht'.
  symmetry in Hans. apply answer_of_ret in Hans as ->.
  unfold run_op, coded in Hop. apply M_bind_Val in Hop as (r & ? & ? & Hstart & [= -> -> ->]).
  apply exp_start_from_idle in Hstart as (c & g0 & t0 & Hstop & Hl0 & Hi0 & Hcfg & Hstart); [|done..].
  destruct (preserves_run _ _ _ _ _ _ _ (preserves_stop n (on_class (gm_open_node g))) Hstop)
    as [(n0 & Hn0 & U) Hcls]; [by split; [exists n|]|].
  destruct U as (Uc & Uid & Udef).
  apply (exp_start_reaches_node _ _ n0 _ _ _ _ _ _ _ _ profile p power archi ty num) in Hstart
    as (n' & t1 & cmds & t2 & ids & pw & co & ra & cy & Hn' & U' & P & S & Ha & Hu2 & H1 & H2 & H3
    & H4 & H5 & H6); [|done|done|done|unfold full_class; congruence|congruence|done| | |
      by rewrite Udef|done].
  - exists n', t1, cmds, t2, ids, pw, co, ra, cy. split; [done|].
    split; [unfold same_unit in *; naive_solver congruence|]. split; [done|]. split; [done|].
    split; [done|]. split.
    + subst t' u2. unfold closed. destruct fw as [f|], (rq_firmware rq) as [[]|];
        rewrite ?app_nil_r, <- ?(assoc_L (++)); try done; exfalso; naive_solver.
    + split_and!; try done. by rewrite <- (bool_decide_ext _ _ Hfw).
  - unfold open_node_type in *. by rewrite Hcls.
  - by rewrite Hcfg.
Qed.

(** ** A run *)

(** A serial program that acknowledges every command. *)
Definition ack_reader (t : trace) : list robs :=
  match rev t with
  | EvGetAnswer :: EvWriteStdin line :: _ =>
      [RLine (hd "" (str_split " "%char (str_strip line)) +:+ " ACK" +:+ newline)]
  | _ => calm_reader t
  end.

Definition ack_env : Env :=
  world calm_call calm_start ack_reader calm_read calm_sread slept calm_connect
    calm_sock_read calm_output.

#[global] Instance ack_status : @StatusOk ack_env.
Proof. intros t argv code [= <-]. lia. Qed.

(** The control node and the manager of [m3-12]. *)
Definition ack_node : CnIotlab.node :=
  CnIotlab.MkNode (@ControlNodeIotlab ack_env) "m3-12" (Some full_profile)
    (MkOpenOCD "openocd" "" RESET false) (cs_init "/dev/ttyCN") "stop" (Some full_profile).

Definition ack_manager : GM AnyOpen AnyControl :=
  gm_init (MkBoardConfig (@NodeM3 ack_env) (@ControlNodeIotlab ack_env) None None "m3-12" None)
    (OOpenOCD (OpenOCDNode.MkNode (@NodeM3 ack_env) (MkExtProc "" [] false)
       (MkOpenOCD "openocd" "" RESET false)))
    (CIotlab ack_node).

Definition ack_request : request := MkRequest (λ _, "60") None None None.

Definition ack_start : outcome response * GM AnyOpen AnyControl * trace :=
  @rest ack_env _ _ _ _ (λ _, None) 1 (CExpStart 42 "user") ack_request ack_manager [].

Lemma ack_start_run :
  ack_start = (Val (Ret 0), snd (fst ack_start), snd ack_start).
Proof. vm_compute. reflexivity. Qed.

(** The profile of the witness above, and at the end the timer. *)
Lemma experiment_reaches_node_witness :
  ∃ n' t1 cmds t2, gm_control_node (snd (fst ack_start)) = CIotlab n' ∧
    CnIotlab.ci_open_node_state n' = "start" ∧
    @acked_lines ack_env t1 cmds t2 ∧ snd ack_start = t2 ++ [EvTimerStart 60] ∧
    ∃ datas, packets_sent (λ _, MkTimeval 7 0) (line_of <$> cmds)
               (MkCmdState (MkBuffer 0 0 []) (MkTimeval 0 0)) = Some (packet <$> datas) ∧
      firstn 3 datas = [[GREEN_LED_BLINK]; [SET_TIME; 7; 0; 0; 0; 0; 0; 0; 0];
                        [SET_NODE_ID; 12; 48]]%Z ∧
      length datas = 6.
Proof.
  destruct (@experiment_reaches_node ack_env gateway_abi ack_status (λ _, None) ack_manager
    (snd (fst ack_start)) ack_node 1 [] (snd ack_start) "user" 42 ack_request PNone
    None full_profile "dc" "m3" "m3" 12) as (n' & t1 & cmds & t2 & ids & pw & co & ra & cy & Hn' &
      _ & _ & Hs & Ha & Ht & (v & Hv & ->) & _ & _ & _ & -> & Hps);
    [apply (@server_init ack_env)|reflexivity|reflexivity|reflexivity|lia|reflexivity|reflexivity
    |reflexivity|reflexivity|..].
  - exact full_profile_agreed.
  - exact ack_start_run.
  - exists n', t1, cmds, t2. split; [exact Hn'|]. split; [exact Hs|]. split; [exact Ha|].
    split; [exact Ht|]. eexists. split; [apply Hps|]. vm_compute in Hv.
    assert (v = 3%Z) as -> by intuition congruence. split; reflexivity.
Defined.
