(* ===== verification/CnSniffer.v ===== *)
(** * The sniffer server ([control_node_serial/src/sniffer_server.c])

    Three threads share [active_connection] and [connect_fd] without a lock: the server
    accepts the clients, the reader of the serial link sends the packets, the main
    thread stops the server.  A step is one access to the shared state or one call of
    the system; the steps of the threads come in any order. *)

From S2P Require Import Prelude.

(** ** State *)

(** Where [sniffer_thread] is. *)
Inductive server_pc :=
  | Accepting
  | Accepted (fd : nat)                 (* before the test of the old connection *)
  | Replacing (fd : nat)                (* before [connect_fd = fd] *)
  | Saved                               (* before [active_connection = 1] *)
  | Ended.                              (* the loop has seen [running] at 0 *)

(** Where [sniffer_server_send_packet] is; the descriptor [-1] is [None]. *)
Inductive sender_pc :=
  | Idle
  | Tested                              (* active_connection was 1 *)
  | Cleared                             (* active_connection = 0 done *)
  | Sending (fd : option nat)
  | Sent
  | Failed (fd : option nat).

(** Where [sniffer_server_stop] is. *)
Inductive stop_pc :=
  | Serving
  | Stopping                            (* running = 0 done *)
  | Closing                             (* connect_fd is closed *)
  | Unbound                             (* socket_fd is closed *)
  | Stopped.                            (* connect_fd = -1 done *)

Record Sniffer := MkSniffer {
  sn_server : server_pc;
  sn_sender : sender_pc;
  sn_stop : stop_pc;                    (* [running] is 1 while [Serving] *)
  sn_active : bool;                     (* active_connection *)
  sn_fd : option nat;                   (* connect_fd *)
  sn_open : gset nat;                   (* the connections that are not closed *)
  sn_broken : gset nat                  (* those on which a send has failed *)
}.

Definition sniffer_init : Sniffer := MkSniffer Accepting Idle Serving false None ∅ ∅.

(** ** Steps *)

Definition with_server (pc : server_pc) (s : Sniffer) : Sniffer :=
  MkSniffer pc (sn_sender s) (sn_stop s) (sn_active s) (sn_fd s) (sn_open s) (sn_broken s).
Definition with_sender (pc : sender_pc) (s : Sniffer) : Sniffer :=
  MkSniffer (sn_server s) pc (sn_stop s) (sn_active s) (sn_fd s) (sn_open s) (sn_broken s).
Definition with_active (b : bool) (s : Sniffer) : Sniffer :=
  MkSniffer (sn_server s) (sn_sender s) (sn_stop s) b (sn_fd s) (sn_open s) (sn_broken s).
Definition with_fd (fd : option nat) (s : Sniffer) : Sniffer :=
  MkSniffer (sn_server s) (sn_sender s) (sn_stop s) (sn_active s) fd (sn_open s) (sn_broken s).
Definition with_stop (pc : stop_pc) (s : Sniffer) : Sniffer :=
  MkSniffer (sn_server s) (sn_sender s) pc (sn_active s) (sn_fd s) (sn_open s) (sn_broken s).

(** [accept] gives a descriptor that is not in use. *)
Definition accept_fd (fd : nat) (s : Sniffer) : Sniffer :=
  MkSniffer (sn_server s) (sn_sender s) (sn_stop s) (sn_active s) (sn_fd s)
    ({[fd]} ∪ sn_open s) (sn_broken s ∖ {[fd]}).

Definition close_fd (fd : option nat) (s : Sniffer) : Sniffer :=
  match fd with
  | Some fd => MkSniffer (sn_server s) (sn_sender s) (sn_stop s) (sn_active s) (sn_fd s)
                 (sn_open s ∖ {[fd]}) (sn_broken s)
  | None => s                           (* close(-1) *)
  end.

Definition break_fd (fd : option nat) (s : Sniffer) : Sniffer :=
  match fd with
  | Some fd => MkSniffer (sn_server s) (sn_sender s) (sn_stop s) (sn_active s) (sn_fd s)
                 (sn_open s) ({[fd]} ∪ sn_broken s)
  | None => s
  end.

(** [running], and whether [socket_fd] is open *)
Definition sn_running (s : Sniffer) : bool :=
  match sn_stop s with Serving => true | _ => false end.
Definition sn_bound (s : Sniffer) : bool :=
  match sn_stop s with Serving | Stopping | Closing => true | _ => false end.

(** The next step of the server.  An [accept] that fails goes back to the test of
    [running]. *)
Inductive server_step : Sniffer → Sniffer → Prop :=
  | S_accept s fd :
      sn_server s = Accepting → sn_bound s = true → fd ∉ sn_open s →
      server_step s (with_server (Accepted fd) (accept_fd fd s))
  | S_end s :
      sn_server s = Accepting → sn_running s = false → server_step s (with_server Ended s)
  | S_keep_one s fd :
      (* [if (0 > connect_fd)]: the old connection is closed when there is none *)
      sn_server s = Accepted fd →
      server_step s (with_server (Replacing fd)
                       (if decide (sn_fd s = None) then close_fd (sn_fd s) s else s))
  | S_save s fd :
      sn_server s = Replacing fd → server_step s (with_server Saved (with_fd (Some fd) s))
  | S_activate s :
      sn_server s = Saved → server_step s (with_server Accepting (with_active true s)).

(** The next step of the sender; the system decides whether a send succeeds. *)
Inductive sender_step : Sniffer → Sniffer → Prop :=
  | C_skip s : sn_sender s = Idle → sn_active s = false → sender_step s s
  | C_test s : sn_sender s = Idle → sn_active s = true → sender_step s (with_sender Tested s)
  | C_clear s : sn_sender s = Tested → sender_step s (with_sender Cleared (with_active false s))
  | C_read s : sn_sender s = Cleared → sender_step s (with_sender (Sending (sn_fd s)) s)
  | C_sent s fd :
      sn_sender s = Sending (Some fd) → fd ∈ sn_open s → sender_step s (with_sender Sent s)
  | C_failed s fd :
      sn_sender s = Sending fd → sender_step s (with_sender (Failed fd) (break_fd fd s))
  | C_close s fd :
      sn_sender s = Failed fd → sender_step s (with_sender Idle (close_fd fd s))
  | C_active s : sn_sender s = Sent → sender_step s (with_sender Idle (with_active true s)).

(** The next step of [sniffer_server_stop]. *)
Inductive stop_step : Sniffer → Sniffer → Prop :=
  | T_running s : sn_stop s = Serving → stop_step s (with_stop Stopping s)
  | T_close s : sn_stop s = Stopping → stop_step s (with_stop Closing (close_fd (sn_fd s) s))
  | T_unbind s : sn_stop s = Closing → stop_step s (with_stop Unbound s)
  | T_reset s : sn_stop s = Unbound → stop_step s (with_stop Stopped (with_fd None s)).

Inductive sniffer_reachable : Sniffer → Prop :=
  | R_init : sniffer_reachable sniffer_init
  | R_server s s' : sniffer_reachable s → server_step s s' → sniffer_reachable s'
  | R_sender s s' : sniffer_reachable s → sender_step s s' → sniffer_reachable s'
  | R_stop s s' : sniffer_reachable s → stop_step s s' → sniffer_reachable s'.

(** ** Invariant *)

(** The server is registering the connection [fd]. *)
Definition registering (fd : nat) (pc : server_pc) : bool :=
  match pc with
  | Accepting | Ended => false
  | Accepted fd' | Replacing fd' => bool_decide (fd' = fd)
  | Saved => true
  end.

(** A client that is registered and on which no send has failed is served, or about
    to be. *)
Definition sniffer_inv (s : Sniffer) : Prop :=
  ∀ fd, sn_fd s = Some fd → (fd ∉ sn_broken s) → registering fd (sn_server s) = false →
    sn_active s = true ∨ sn_sender s = Cleared ∨ sn_sender s = Sending (Some fd) ∨
    sn_sender s = Sent.

(** The test of the server never closes anything. *)
Lemma keep_one_nothing s : (if decide (sn_fd s = None) then close_fd (sn_fd s) s else s) = s.
Proof. destruct (decide _) as [E|]; [by rewrite E|done]. Qed.

Lemma server_step_inv s s' : sniffer_inv s → server_step s s' → sniffer_inv s'.
Proof.
  intros Hinv Hstep fd.
  destruct Hstep as [s fd' Hs Hn|s Hs Hn|s fd' Hs|s fd' Hs|s Hs]; simpl; intros Hfd Hb Hr.
  - apply bool_decide_eq_false in Hr. apply Hinv; [done|set_solver|by rewrite Hs].
  - apply Hinv; [done..|]. by rewrite Hs.
  - rewrite keep_one_nothing in *. apply Hinv; [done..|]. by rewrite Hs.
  - done.
  - by left.
Qed.

Lemma sender_step_inv s s' : sniffer_inv s → sender_step s s' → sniffer_inv s'.
Proof.
  intros Hinv Hstep fd.
  destruct Hstep as [s Hc Ha|s Hc Ha|s Hc|s Hc|s fd' Hc Ho|s fd' Hc|s fd' Hc|s Hc];
    simpl; intros Hfd Hb Hr.
  - by apply Hinv.
  - by left.
  - right; by left.
  - right; right; left. by rewrite Hfd.
  - by right; right; right.
  - destruct fd' as [fd'|]; simpl in *.
    + destruct (Hinv fd Hfd) as [?|[?|[H|?]]]; [set_solver|done|by left|congruence| |congruence].
      rewrite Hc in H. injection H as ->. set_solver.
    + destruct (Hinv fd Hfd) as [?|[?|[?|?]]]; [done|done|by left|congruence..].
  - destruct fd' as [fd'|]; simpl in *; (destruct (Hinv fd Hfd) as [?|[?|[?|?]]];
      [done|done|by left|congruence..]).
  - by left.
Qed.

Lemma stop_step_inv s s' : sniffer_inv s → stop_step s s' → sniffer_inv s'.
Proof.
  intros Hinv Hstep fd. destruct Hstep as [s Hs|s Hs|s Hs|s Hs]; simpl.
  - apply Hinv.
  - destruct (sn_fd s) as [fd'|] eqn:E; simpl; rewrite E; [|done]. rewrite <- E. apply Hinv.
  - apply Hinv.
  - done.
Qed.

Lemma sniffer_inv_reachable s : sniffer_reachable s → sniffer_inv s.
Proof.
  induction 1 as [|s s' _ IH Hs|s s' _ IH Hs|s s' _ IH Hs]; [intros fd; done|..];
    eauto using server_step_inv, sender_step_inv, stop_step_inv.
Qed.

(** The connections open before a step of the server are open after it. *)
Lemma server_step_open s s' : server_step s s' → sn_open s ⊆ sn_open s'.
Proof. destruct 1; rewrite ?keep_one_nothing; simpl; set_solver. Qed.

Inductive server_steps : Sniffer → Sniffer → Prop :=
  | SS_refl s : server_steps s s
  | SS_step s s' s'' : server_step s s' → server_steps s' s'' → server_steps s s''.

(** ** Properties *)

(** C36: the connection of the sniffer, without a lock.  In every state the two threads
    can reach, in any interleaving, when the sender is between two packets and the
    server is waiting for a client, a client that is registered and on which no send
    has failed gets the next packet: [active_connection] is 1.  The server closes no
    connection: two clients one after the other are both open in the end, while the
    code means to keep only one. *)
Theorem sniffer_served (s : Sniffer) (Hs : sniffer_reachable s) :
  (sn_sender s = Idle → sn_server s = Accepting →
   ∀ fd, sn_fd s = Some fd → fd ∉ sn_broken s → sn_active s = true) ∧
  (∀ s' fd1 fd2, sn_server s = Accepting → sn_fd s = Some fd1 → fd1 ∈ sn_open s →
     server_steps s s' → sn_server s' = Accepting → sn_fd s' = Some fd2 →
     fd1 ∈ sn_open s').
Proof.
  split.
  - intros Hc Ha fd Hfd Hb. pose proof (sniffer_inv_reachable s Hs fd Hfd Hb) as Hi.
    rewrite Ha, Hc in Hi. destruct (Hi eq_refl) as [?|[?|[?|?]]]; [done|discriminate..].
  - intros s' fd1 fd2 _ _ Ho Hss _ _. revert Ho.
    induction Hss as [s|s s1 s2 H1 _ IH]; [done|]. intros Ho. apply IH.
    + by eapply R_server.
    + by apply (server_step_open s s1 H1).
Qed.

(** A client is accepted, a packet is sent to it, and another client comes. *)
Lemma sniffer_served_witness :
  ∃ s s', sniffer_reachable s ∧ sn_active s = true ∧ sn_fd s = Some 5 ∧
    server_steps s s' ∧ sn_fd s' = Some 6 ∧ 5 ∈ sn_open s'.
Proof.
  assert (Hreg : ∀ s fd, sn_server s = Accepting → sn_stop s = Serving → fd ∉ sn_open s →
    ∃ s', server_steps s s' ∧ sn_server s' = Accepting ∧ sn_sender s' = sn_sender s ∧
      sn_stop s' = Serving ∧ sn_fd s' = Some fd ∧ sn_broken s' = sn_broken s ∖ {[fd]} ∧
      sn_open s' = {[fd]} ∪ sn_open s).
  { intros s fd Ha Hr Hn. eexists. split.
    - eapply SS_step; [apply (S_accept s fd Ha); [by unfold sn_bound; rewrite Hr|done]|].
      eapply SS_step; [by apply (S_keep_one _ fd)|]. rewrite keep_one_nothing.
      eapply SS_step; [by apply (S_save _ fd)|].
      eapply SS_step; [by apply S_activate|]. apply SS_refl.
    - done. }
  assert (Hreach : ∀ s s', server_steps s s' → sniffer_reachable s → sniffer_reachable s').
  { induction 1 as [|s s1 s2 H1 _ IH]; [done|]. intros Hs. apply IH. by eapply R_server. }
  destruct (Hreg sniffer_init 5) as (s1 & H1 & Ha1 & Hc1 & Hr1 & Hf1 & Hb1 & Ho1);
    [done|done|set_solver|].
  pose proof (Hreach _ _ H1 R_init) as Hs1.
  destruct (Hreg s1 6) as (s2 & H2 & Ha2 & _ & _ & Hf2 & _ & _);
    [done|done|rewrite Ho1; simpl; set_solver|].
  destruct (sniffer_served s1 Hs1) as [Hact Hopen].
  exists s1, s2. split_and!; [done| |done|done|done|].
  - apply (Hact Hc1 Ha1 5 Hf1). rewrite Hb1. simpl. set_solver.
  - apply (Hopen s2 5 6); [done|done|rewrite Ho1; set_solver|done..].
Defined.
