(* ===== verification/BootMonitor.v ===== *)
(** * The boot monitor of the Linux nodes ([node_a8.py], [node_rpi3.py])

    [setup] starts a thread that looks for the login prompt for at most fifteen
    minutes, [teardown] stops the serial redirection and closes the connection the
    thread uses.  The two share the attribute [_rpi3_expect] ([_a8_expect]) of the node
    without a lock, and nothing waits for the thread: the next [setup] can come while it
    is still there.  [OpenNodes.LinuxNode] has these methods as sequential code; here a
    step is one access to the attribute or one call that can wait, and the steps of the
    threads come in any order. *)

From S2P Require Import Prelude.

(** ** State *)

(** Where a thread is in [wait_booted]. *)
Inductive phase :=
  | Connecting                          (* before SerialExpectForSocket() returns *)
  | Connected (c : nat)                 (* before self._rpi3_expect = ... *)
  | Stored                              (* before it reads the attribute back *)
  | Expecting (c : nat)                 (* in expect on this connection *)
  | Ending (found : bool)               (* the finally clause *)
  | Closing (c : nat) (found : bool)    (* in close on this connection *)
  | Over (found : bool).

(** Where the manager is. *)
Inductive main_pc :=
  | Down                                (* before a setup, after a teardown *)
  | Up
  | Stopping                            (* the redirection is stopped *)
  | Clearing (c : nat).                 (* in close on this connection *)

Record Boot := MkBoot {
  bm_main : main_pc;
  bm_monitors : list phase;             (* the threads, oldest first *)
  bm_attr : option nat;                 (* self._rpi3_expect *)
  bm_open : gset nat;                   (* the connections that are not closed *)
  bm_live : gset nat;                   (* those whose redirection still runs *)
  bm_next : nat
}.

Definition boot_init : Boot := MkBoot Down [] None ∅ ∅ 0.

Definition with_main (pc : main_pc) (s : Boot) : Boot :=
  MkBoot pc (bm_monitors s) (bm_attr s) (bm_open s) (bm_live s) (bm_next s).
Definition with_phase (i : nat) (p : phase) (s : Boot) : Boot :=
  MkBoot (bm_main s) (<[i := p]> (bm_monitors s)) (bm_attr s) (bm_open s) (bm_live s)
    (bm_next s).
Definition spawn (s : Boot) : Boot :=
  MkBoot (bm_main s) (bm_monitors s ++ [Connecting]) (bm_attr s) (bm_open s) (bm_live s)
    (bm_next s).
Definition connect (s : Boot) : Boot :=
  MkBoot (bm_main s) (bm_monitors s) (bm_attr s) ({[bm_next s]} ∪ bm_open s)
    ({[bm_next s]} ∪ bm_live s) (S (bm_next s)).
Definition store (c : nat) (s : Boot) : Boot :=
  MkBoot (bm_main s) (bm_monitors s) (Some c) (bm_open s) (bm_live s) (bm_next s).
Definition close (c : nat) (s : Boot) : Boot :=
  MkBoot (bm_main s) (bm_monitors s) (bm_attr s) (bm_open s ∖ {[c]}) (bm_live s ∖ {[c]})
    (bm_next s).
Definition drop_live (s : Boot) : Boot :=
  MkBoot (bm_main s) (bm_monitors s) (bm_attr s) (bm_open s) ∅ (bm_next s).

(** The serial redirection listens. *)
Definition listening (s : Boot) : bool := match bm_main s with Up => true | _ => false end.

Definition over (p : phase) : bool := match p with Over _ => true | _ => false end.

(** ** Steps *)

(** [_debug_boot_stop]: the attribute is read, then closed; [None.close()] is the
    [AttributeError] that is passed over. *)
Inductive monitor_step (i : nat) : Boot → Boot → Prop :=
  | B_connect s :
      bm_monitors s !! i = Some Connecting → listening s = true →
      monitor_step i s (with_phase i (Connected (bm_next s)) (connect s))
  | B_refused s :                       (* SerialException, at the last try *)
      bm_monitors s !! i = Some Connecting → listening s = false →
      monitor_step i s (with_phase i (Ending false) s)
  | B_store s c :
      bm_monitors s !! i = Some (Connected c) →
      monitor_step i s (with_phase i Stored (store c s))
  | B_load s c :
      bm_monitors s !! i = Some Stored → bm_attr s = Some c →
      monitor_step i s (with_phase i (Expecting c) s)
  | B_more s c :                        (* bytes without the prompt, or none *)
      bm_monitors s !! i = Some (Expecting c) → c ∈ bm_live s → monitor_step i s s
  | B_found s c :
      bm_monitors s !! i = Some (Expecting c) → c ∈ bm_live s →
      monitor_step i s (with_phase i (Ending true) s)
  | B_timeout s c :                     (* the end time, or the read raises *)
      bm_monitors s !! i = Some (Expecting c) →
      monitor_step i s (with_phase i (Ending false) s)
  | B_stop s c found :
      bm_monitors s !! i = Some (Ending found) → bm_attr s = Some c →
      monitor_step i s (with_phase i (Closing c found) s)
  | B_none s found :
      bm_monitors s !! i = Some (Ending found) → bm_attr s = None →
      monitor_step i s (with_phase i (Over found) s)
  | B_close s c found :
      bm_monitors s !! i = Some (Closing c found) →
      monitor_step i s (with_phase i (Over found) (close c s)).

(** [setup], with the thread or without, and [teardown]; [alone] is the case where a
    setup comes when the threads of the earlier ones are over. *)
Inductive main_step (alone : bool) : Boot → Boot → Prop :=
  | A_setup s :
      bm_main s = Down → (alone = true → forallb over (bm_monitors s) = true) →
      main_step alone s (with_main Up (spawn s))
  | A_plain s :                         (* ret_val is not 0, or debug is False *)
      bm_main s = Down → main_step alone s (with_main Up s)
  | A_stop s :                          (* self.serial_redirection.stop() *)
      bm_main s = Up → main_step alone s (with_main Stopping (drop_live s))
  | A_none s :
      bm_main s = Stopping → bm_attr s = None → main_step alone s (with_main Down s)
  | A_attr s c :
      bm_main s = Stopping → bm_attr s = Some c → main_step alone s (with_main (Clearing c) s)
  | A_close s c :
      bm_main s = Clearing c → main_step alone s (with_main Down (close c s)).

Inductive boot_reachable (alone : bool) : Boot → Prop :=
  | BR_init : boot_reachable alone boot_init
  | BR_main s s' : boot_reachable alone s → main_step alone s s' → boot_reachable alone s'
  | BR_monitor i s s' : boot_reachable alone s → monitor_step i s s' → boot_reachable alone s'.

(** [n] steps of the threads alone. *)
Inductive monitor_steps : nat → Boot → Boot → Prop :=
  | MS_refl s : monitor_steps 0 s s
  | MS_step i n s s' s'' :
      monitor_step i s s' → monitor_steps n s' s'' → monitor_steps (S n) s s''.

(** ** What the threads have left to do *)

Definition weight (p : phase) : nat :=
  match p with
  | Connecting => 6 | Connected _ => 5 | Stored => 4 | Expecting _ => 3
  | Ending _ => 2 | Closing _ _ => 1 | Over _ => 0
  end.

Definition weights (s : Boot) : nat := sum_list (weight <$> bm_monitors s).

(** The thread has seen the prompt. *)
Definition has_found (p : phase) : bool :=
  match p with Ending b | Closing _ b | Over b => b | _ => false end.

Definition founds (s : Boot) : list bool := has_found <$> bm_monitors s.

Lemma sum_list_insert (l : list phase) i p q :
  l !! i = Some p →
  sum_list (weight <$> <[i := q]> l) + weight p = sum_list (weight <$> l) + weight q.
Proof.
  revert i. induction l as [|x l IH]; intros [|i] Hi; simplify_eq/=; [lia|].
  pose proof (IH i Hi). lia.
Qed.

Lemma weights_bound s : weights s ≤ 6 * length (bm_monitors s).
Proof.
  unfold weights. induction (bm_monitors s) as [|p l IH]; [done|]. cbn.
  assert (weight p ≤ 6) by (destruct p; simpl; lia). unfold fmap in *. lia.
Qed.

Lemma weights_over s : weights s = 0 → forallb over (bm_monitors s) = true.
Proof.
  unfold weights. induction (bm_monitors s) as [|p l IH]; [done|]. cbn. intros Hw.
  rewrite IH by (unfold fmap in *; lia). destruct p; cbn in Hw; done || lia.
Qed.

Lemma founds_insert (l : list phase) i p q :
  l !! i = Some p → has_found q = has_found p → has_found <$> <[i := q]> l = has_found <$> l.
Proof.
  intros Hi Hq. rewrite list_fmap_insert, Hq. apply list_insert_id.
  by rewrite list_lookup_fmap, Hi.
Qed.

(** Without a redirection every step of a thread brings it closer to its end, and none
    finds the prompt. *)
Lemma monitor_step_down i s s' :
  bm_main s = Down → bm_live s = ∅ → monitor_step i s s' →
  weights s' < weights s ∧ founds s' = founds s ∧ bm_main s' = Down ∧ bm_live s' = ∅.
Proof.
  intros Hd Hl Hstep.
  assert (Hw : ∀ p q, bm_monitors s !! i = Some p → weight q < weight p →
    has_found q = has_found p →
    sum_list (weight <$> <[i := q]> (bm_monitors s)) < weights s ∧
    has_found <$> <[i := q]> (bm_monitors s) = founds s).
  { intros p q Hi Hq Hf. pose proof (sum_list_insert _ _ _ q Hi). unfold weights.
    split; [lia|by eapply founds_insert]. }
  destruct Hstep as [s Hi Hr|s Hi Hr|s c Hi|s c Hi Ha|s c Hi Hc|s c Hi Hc|s c Hi
    |s c f Hi Ha|s f Hi Ha|s c f Hi]; try (exfalso; set_solver).
  { unfold listening in Hr. by rewrite Hd in Hr. }
  all: match goal with |- context [with_phase _ ?q _] =>
         destruct (Hw _ q Hi) as [H1 H2]; [simpl; lia|done|] end;
       split_and!; simpl; try done; set_solver.
Qed.

Lemma monitor_steps_down n s s' :
  bm_main s = Down → bm_live s = ∅ → monitor_steps n s s' →
  weights s' + n ≤ weights s ∧ founds s' = founds s.
Proof.
  intros Hd Hl Hsteps. induction Hsteps as [s|i n s s1 s2 H1 _ IH]; [split; [lia|done]|].
  destruct (monitor_step_down i s s1 Hd Hl H1) as (Hw & Hf & Hd1 & Hl1).
  destruct (IH Hd1 Hl1) as [Hw2 Hf2]. split; [lia|congruence].
Qed.

(** The attribute is set when a thread reads it back. *)
Definition attr_set (s : Boot) : Prop :=
  ∀ i, bm_monitors s !! i = Some Stored → bm_attr s ≠ None.

(** A thread that is not over has a step. *)
Lemma monitor_progress s :
  attr_set s → weights s ≠ 0 → ∃ i s', monitor_step i s s'.
Proof.
  intros Ha Hw.
  assert (∃ i p, bm_monitors s !! i = Some p ∧ weight p ≠ 0) as (i & p & Hi & Hp).
  { unfold weights in Hw. revert Hw. generalize (bm_monitors s) as l.
    induction l as [|x l IH]; [done|]. simpl. intros Hw.
    destruct (decide (weight x = 0)) as [Hx|Hx]; [|by exists 0, x].
    destruct IH as (i & p & Hi & Hp); [unfold fmap; lia|]. by exists (S i), p. }
  exists i. destruct p as [|c| |c|f|c f|f]; [| | | | | |done].
  - destruct (listening s) eqn:Hl; eexists; [by apply B_connect|by apply B_refused].
  - eexists. by apply B_store.
  - destruct (bm_attr s) as [c|] eqn:E; [|by destruct (Ha i Hi)]. eexists. by apply (B_load _ _ c).
  - eexists. by apply (B_timeout _ _ c).
  - destruct (bm_attr s) as [c|] eqn:E; eexists; [by apply (B_stop _ _ c)|by apply B_none].
  - eexists. by apply (B_close _ _ c).
Qed.

(** ** Invariants *)

Section reachable.
Context (alone : bool).

Definition down_inv (s : Boot) : Prop :=
  attr_set s ∧ (bm_main s ≠ Up → bm_live s = ∅).

Lemma down_inv_reachable s : boot_reachable alone s → down_inv s.
Proof.
  induction 1 as [|s s' _ [Ha Hl] Hstep|i s s' _ [Ha Hl] Hstep]; [by split|..].
  - destruct Hstep as [s Hd Hal|s Hd|s Hu|s Hd Hn|s c Hd Hc|s c Hd]; split; simpl; try done;
      try (intros _; rewrite Hl by congruence; set_solver).
    intros j Hj. apply (Ha j). apply lookup_app_Some in Hj as [?|[_ Hj]]; [done|].
    by apply list_lookup_singleton_Some in Hj as [_ ?].
  - assert (Hj : ∀ q j, <[i := q]> (bm_monitors s) !! j = Some Stored →
      q = Stored ∨ bm_monitors s !! j = Some Stored).
    { intros q j Hj. destruct (decide (i = j)) as [->|Hne].
      - left. apply list_lookup_insert_Some in Hj as [(_ & ? & _)|[? _]]; done.
      - right. by rewrite list_lookup_insert_ne in Hj. }
    destruct Hstep as [s Hi Hr|s Hi Hr|s c Hi|s c Hi Hc|s c Hi Hc|s c Hi Hc|s c Hi
      |s c f Hi Hc|s f Hi Hc|s c f Hi]; split; simpl; try done;
      try (intros j [?|?]%Hj; [done|by eapply Ha]).
    + intros Hne. unfold listening in Hr. by destruct (bm_main s).
    + intros Hne. rewrite Hl by done. set_solver.
Qed.
End reachable.

(** The connections the only thread that is not over answers for. *)
Definition last_owns (s : Boot) (p : phase) : Prop :=
  match p with
  | Connecting | Over _ => bm_open s = ∅
  | Connected c | Closing c _ => bm_open s ⊆ {[c]}
  | Stored | Expecting _ | Ending _ => ∀ c, c ∈ bm_open s → bm_attr s = Some c
  end.

Definition alone_inv (s : Boot) : Prop :=
  (bm_monitors s = [] ∧ bm_open s = ∅) ∨
  ∃ l p, bm_monitors s = l ++ [p] ∧ forallb over l = true ∧ last_owns s p.

Lemma alone_inv_close s c : alone_inv s → alone_inv (close c s).
Proof.
  intros [[Hm Ho]|(l & p & Hm & Hl & Hp)]; [left; simpl; split; [done|set_solver]|].
  right. exists l, p. split_and!; [done..|]. destruct p; simpl in *; try set_solver.
Qed.

Lemma alone_inv_over s : alone_inv s → forallb over (bm_monitors s) = true → bm_open s = ∅.
Proof.
  intros [[_ Ho]|(l & p & Hm & _ & Hp)]; [done|]. rewrite Hm, forallb_app. simpl.
  intros Hall. by destruct p; rewrite ?andb_false_r in Hall.
Qed.

(** The thread that makes a step is the last one. *)
Lemma alone_inv_last s i q :
  alone_inv s → bm_monitors s !! i = Some q → over q = false →
  ∃ l, i = length l ∧ bm_monitors s = l ++ [q] ∧ forallb over l = true ∧ last_owns s q.
Proof.
  intros [[Hm _]|(l & p & Hm & Hl & Hp)] Hi Hq; rewrite Hm in Hi; [done|].
  apply lookup_app_Some in Hi as [Hi|[Hle Hi]].
  - rewrite forallb_forall in Hl. rewrite Hl in Hq; [done|].
    apply list_elem_of_In. by eapply list_elem_of_lookup_2.
  - apply list_lookup_singleton_Some in Hi as [Hz ->]. exists l. split_and!; try done. lia.
Qed.

Lemma alone_inv_step i s s' : alone_inv s → monitor_step i s s' → alone_inv s'.
Proof.
  intros Hinv Hstep.
  assert (Hlast : ∀ p q s1, bm_monitors s !! i = Some p → over p = false →
    bm_monitors s1 = bm_monitors s →
    (last_owns s p → last_owns (with_phase i q s1) q) → alone_inv (with_phase i q s1)).
  { intros p q s1 Hi Hp Hm Hq. destruct (alone_inv_last s i p Hinv Hi Hp) as (l & -> & Hl & Hov & Ho).
    right. exists l, q. split_and!; [|done|by apply Hq]. simpl. rewrite Hm, Hl.
    by rewrite insert_app_r_alt, Nat.sub_diag. }
  destruct Hstep as [s Hi Hr|s Hi Hr|s c Hi|s c Hi Hc|s c Hi Hc|s c Hi Hc|s c Hi
      |s c f Hi Hc|s f Hi Hc|s c f Hi]; [| | | |done|..];
    (eapply Hlast; [exact Hi|done|done|]); simpl; try set_solver.
Qed.

Lemma alone_inv_reachable s : boot_reachable true s → alone_inv s.
Proof.
  induction 1 as [|s s' _ IH Hstep|i s s' _ IH Hstep]; [by left| |by eapply alone_inv_step].
  destruct Hstep as [s Hd Hal|s Hd|s Hu|s Hd Hn|s c Hd Hc|s c Hd]; try exact IH.
  - right. exists (bm_monitors s), Connecting.
    split_and!; [done|by apply Hal|]. simpl. by apply alone_inv_over, Hal.
  - by apply (alone_inv_close s c).
Qed.

(** ** Interference *)

(** A run: the thread that makes each step, or the manager. *)
Inductive run (alone : bool) : Boot → Boot → Prop :=
  | Run_nil s : run alone s s
  | Run_main s s' s'' : main_step alone s s' → run alone s' s'' → run alone s s''
  | Run_monitor i s s' s'' : monitor_step i s s' → run alone s' s'' → run alone s s''.

Lemma run_reachable alone s s' : run alone s s' → boot_reachable alone s → boot_reachable alone s'.
Proof. induction 1; eauto using BR_main, BR_monitor. Qed.

(** The first teardown comes before the first thread has connected; both threads use
    the redirection of the second setup, and the first closes what the second stored. *)
Lemma interference :
  ∃ s c, boot_reachable false s ∧ bm_main s = Up ∧
    bm_monitors s = [Over false; Expecting c] ∧ c ∉ bm_open s.
Proof.
  eexists _, 1. split.
  - eapply run_reachable; [|apply BR_init].
    eapply Run_main; [by apply A_setup|]. eapply Run_main; [by apply A_stop|].
    eapply Run_main; [by apply A_none|]. eapply Run_main; [by apply A_setup|].
    eapply (Run_monitor _ 0); [by apply B_connect|].
    eapply (Run_monitor _ 0); [by apply B_store|].
    eapply (Run_monitor _ 0); [by apply B_load|].
    eapply (Run_monitor _ 1); [by apply B_connect|].
    eapply (Run_monitor _ 1); [by apply B_store|].
    eapply (Run_monitor _ 1); [by apply B_load|].
    eapply (Run_monitor _ 0); [by eapply B_timeout|].
    eapply (Run_monitor _ 0); [by apply B_stop|].
    eapply (Run_monitor _ 0); [by apply B_close|]. apply Run_nil.
  - simpl. split_and!; [done|done|set_solver].
Qed.

(** ** Properties *)

(** C37: the boot monitor and the stop of the node.  Once a teardown is done, until the
    next setup, the threads that are left end in a bounded number of steps, in any
    order, none of them is ever stuck, and none finds the prompt any more: a thread that
    is left reports that the node booted only if it had found the prompt before.  When
    each setup finds the earlier threads over, no connection stays open after them; but
    nothing makes it wait for them, and the thread of an earlier experiment can close
    the connection on which the next one looks for the prompt while its node runs. *)
Theorem boot_monitor_ends (alone : bool) (s : Boot) (Hs : boot_reachable alone s) :
  (bm_main s = Down →
     (∀ n s', monitor_steps n s s' → n ≤ 6 * length (bm_monitors s) ∧ founds s' = founds s) ∧
     (forallb over (bm_monitors s) = false → ∃ i s', monitor_step i s s')) ∧
  (alone = true → forallb over (bm_monitors s) = true → bm_open s = ∅) ∧
  (∃ s' c, boot_reachable false s' ∧ bm_main s' = Up ∧
     bm_monitors s' = [Over false; Expecting c] ∧ c ∉ bm_open s').
Proof.
  destruct (down_inv_reachable alone s Hs) as [Ha Hl]. split; [|split].
  - intros Hd. split.
    + intros n s' Hn. destruct (monitor_steps_down n s s' Hd) as [Hw Hf];
        [apply Hl; congruence|done|]. split; [|done].
      pose proof (weights_bound s). lia.
    + intros Ho. apply monitor_progress; [done|]. intros Hw.
      by rewrite (weights_over s Hw) in Ho.
  - intros -> Hall. apply alone_inv_over; [by apply alone_inv_reachable|done].
  - exact interference.
Qed.

(** A node that is stopped before its boot monitor has connected. *)
Lemma boot_monitor_ends_witness :
  ∃ s, boot_reachable true s ∧ bm_main s = Down ∧ bm_monitors s = [Connecting] ∧
    (∀ n s', monitor_steps n s s' → n ≤ 6 ∧ founds s' = [false]).
Proof.
  assert (∃ s, boot_reachable true s ∧ bm_main s = Down ∧ bm_monitors s = [Connecting])
    as (s & Hs & Hd & Hm).
  { eexists. split.
    - eapply run_reachable; [|apply BR_init].
      eapply Run_main; [by apply A_setup|]. eapply Run_main; [by apply A_stop|].
      eapply Run_main; [by apply A_none|]. apply Run_nil.
    - by split. }
  destruct (boot_monitor_ends true s Hs) as [Hend _].
  exists s. split_and!; [done..|]. intros n s' Hn.
  destruct (proj1 (Hend Hd) n s' Hn) as [Hle Hf]. unfold founds in *. rewrite Hm in *.
  split; [exact Hle|exact Hf].
Defined.
